(* ===== verification/_CoqProject ===== *)
-Q . S2P
Prelude.v
Float32.v
Consts.v
Ports.v
Rtc.v
Uart.v
Timer.v
Keyboard.v
Mouse.v
NumLetters.v
Vc.v
Screen.v
CString.v
Leaderboard.v
Highscore.v
Menus.v
Pad.v
Game.v
Says.v
GameProps.v
FullGame.v
MpGame.v
MpLink.v
MpNet.v
MpSafe.v
Simon.v
SimonProps.v
Session.v
Run1.v
Safety.v
Scenes.v
Programs.v
Devices.v
LabTimer.v
LabKbc.v
LabMouse.v
LabVideo.v
LabDraw.v
LabSprite.v
LabVideo2.v
