(* ===== verification/Prelude.v ===== *)
(** * SimonSaysVs: a verification library for the game under [src/proj]

    SimonSaysVs is a two-player game of Simon says for Minix, on one computer or
    on two joined by a serial line.  This library models the C files that
    [src/proj/Makefile] compiles and proves what makes them correct, and where
    they are not.  The laboratories [src/lab2] to [src/lab5], programs of their
    own from which the drivers of the game grew, are modelled beside it.

    ** How C is modelled

    - An integer is a [Z]; the conversions the code performs ([uint8_t] and the
      like) are written out ([u8], [u16], [u32], [s8], [s16] below).
    - A function returns or reaches undefined behaviour: [res], with the kind of
      fault ([OutOfBounds], [DoubleFree], [UseAfterFree], [Uninitialised], ...).
    - The file-scope and function-scope statics of a C file are a record of the
      Rocq file that models it (each [.c] file has its own copy of the statics
      its header declares); a function over them is a computation of the monad
      [M X E]: [X] the statics, [E] everything outside the file.  Drivers, which
      cannot reach undefined behaviour, are computations of [ST E].
    - What a file calls in other files or in the kernel is a class over [E]
      ([Ports], [Irqs], [Delay], [HighscoreEnv], [MenusEnv], [GameEnv], [MpEnv]); the
      laws the clients rely on are classes of their own ([RtcDevice],
      [UartDevice], [SerialLine], [HighscoreLaws], [GameSafe], [MpLine]).  Theorems
      about a file hold for every instance; [Simon] discharges the interfaces with
      the neighbouring files in one store, and [Programs] that of the line.

    ** The parts

    - [Prelude]: integers, outcomes, monads, arrays, tactics.
    - [Consts]: the enumerations and constants of the headers.
    - [Ports]: [utils.c], port input and output, interrupt lines.
    - [Rtc], [Uart], [Timer], [Keyboard], [Mouse]: the drivers [rtc.c], [uart.c],
      [timer.c], [keyboard.c], [mouse.c]: subscriptions, BCD, alarms, the date,
      bytes on the line, scancodes, mouse packets.
    - [NumLetters]: [num_and_letters.c], the glyph of a character.
    - [Vc]: [vc.c], frame buffers, images, text boxes; [Screen]: [screen.c], what
      the screens are drawn with, and pictures: what a frame shows, scenes of
      glyphs over a screen, and what a drawing function paints.
    - [CString]: the C strings, [sprintf], [fprintf] and [fscanf] formats the
      program uses.
    - [Leaderboard], [Highscore], [Menus]: [leaderboard.c], [highscore.c], and
      [menu.c], [host.c], [how_to_play.c], [number_of_rounds.c].
    - [Pad]: the code [game.c] and [mp_game.c] share word for word (cursor, hit
      tests, the heap block of buttons, the counter and the round number).
    - [Game]: [game.c]; [Says]: an abstract game of Simon says and its
      simulation; [GameProps]: the theorems about the game; [FullGame]: a whole
      game without mistakes.
    - [MpGame]: [mp_game.c] (in [Module Mp], whose statics have the names of
      those of [game.c]); [MpLink]: two computers joined by the line;
      [MpNet]: the same as a protocol, with bytes on their way; [MpSafe]: one
      computer whatever arrives on its line.
    - [Simon]: [simon.c] and [proj.c], the store of the whole program, the
      dispatch of interrupts by the bit of their hook, the main loop between the
      subscriptions and their removal; [SimonProps]: what a computation
      does to its environment, lifted to the whole loop; [Session]: runs of the
      whole program; [Safety]: the invariant of the store, and where alone a run
      leaves the defined behaviour; [Scenes]: what the player sees; [Programs]: two
      whole programs in a game, joined by their serial ports; [Devices]: the ports
      and interrupt lines a run touches; [Run1]: [run1] of [simon.c], an earlier
      main loop that nothing calls.
    - [LabTimer]: the timer of the laboratories ([lab2/timer.c], [lab2/lab2.c],
      [lab3/timer.c], [lab5/timer.c], in [Module Lab2], [Lab3] and [Lab5]) and the
      i8254 it programs; [LabKbc]: [lab3/kbc.c] and [lab3/lab3.c]; [LabMouse]:
      [lab4/mouse.c] and [lab4/lab4.c].
    - [LabVideo]: [lab5/graphics.c], [lab5/keyboard.c] and [lab5/lab5.c] (in
      [Module Graphics], [Kbd] and at the top); [Float32]: the [float] of its
      sprites; [LabDraw], [LabSprite]: what it draws and how the sprite moves;
      [LabVideo2]: the other version, [lab5/mel/vc.c] and [lab5/mel/lab5.c].

    ** What is proved

    - A game: two players who repeat the sequence and add a button in time, turn
      after turn, come to a tie, whatever the mouse does in between.
    - Refinement: [game.c] follows the abstract game [Says] for every sequence
      of events and faults exactly where the abstract one does; the screen of
      the rounds follows its specification; each turn on two computers leaves
      them in agreement ([sync]).
    - Faults: a state the game reaches faults exactly on two kinds of event
      (a button past the block in the VS interval, a second [free] after a late
      mistake), each with a run that reaches it.
    - Safety of the whole program, on one computer or on two and whatever bytes
      arrive: every state of a run keeps the invariant [safe]; a dispatch is
      undefined exactly when [fault] says so (those two events, on two computers
      the byte of a button or of an end after the end, or a key that leaves the
      array of the name), up to a line that announces more than 999 rounds, which
      no host of this program does.
    - The whole program: modes move along a fixed graph, the loop ends when it
      should, the scores survive a run, the menus lead into a game.
    - Data: the table stays sorted, the file round-trips, names and dates are
      what was typed and read, text boxes and glyphs.
    - Drivers: decoders of scancodes and mouse packets invert their encodings on
      whole streams and stay in their arrays; alarms fire when they should;
      [get_date] returns.
    - Drawing: pixels, images and whole frames stay inside the buffers; after each
      message the video memory shows the scene of the state, and in a game that of
      the abstract game.
    - The protocol of the game on two computers: for every interleaving of events
      and arrivals the computer that is behind will agree with the other one once
      it has read the bytes on their way, up to three events that end the
      agreement; delivering the bytes brings them to agree.  The same holds of two
      whole programs, each in its main loop, whose drivers write and read the line
      -- provided that it takes a byte at once and that its interrupt for received
      bytes is enabled, which the program leaves as it finds it -- and their
      screens come to show the same.
    - Divergences between the two computers, and other faults, as theorems about
      runs.
    - Devices: a run stays within the registers of its devices and removes four
      of the five subscriptions it makes.
    - Laboratories: what each version of [timer_set_frequency] programs; the
      scancodes shown are those typed; the gesture is recognised only after its
      phases; commands to the mouse return when it answers as the code expects;
      the pixels of rectangles and patterns, in any mode of one to four bytes; the
      sprite with a position in floating point is where integers would have it;
      and where each of them fails.

    ** Bounds and fuel

    Loops of the code are structural: over a list, or over a count the code
    fixes (ten attempts of the mouse driver, [height] and [width] of an image,
    the cells of a text box).  [get_date] polls the clock until no update is in
    progress: its fuel is the number of readings, and [get_date_returns] shows
    that one more reading than the device is busy is enough.  [round_digits]
    has fuel for the decimal digits of an [int].  [run_loop] runs over the list
    of messages received so far, and so do the loops of the laboratories; every
    theorem about them holds for all lists.  [kbc_command_handler] of [LabMouse]
    has fuel for its rounds: three are enough when the mouse answers as expected,
    and no fuel is when it does not ([command_handler_returns]); the polling loops
    of [kbd_test_poll] and [mouse_test_remote] have fuel for the readings of the
    status register and for the bytes read.

    ** Not modelled

    Kernel and library calls with no logic of their own (mapping the video
    memory, [vg_exit], [printf]); the decoding of XPM images and their contents
    (parameters: an image is any list of bytes with a size); [backup.c] and
    [mock.c], which are not compiled; failure of
    [malloc]; the seed of [rand] (the random numbers are those of the
    environment).  Of the laboratories: the draft of the game in [src/lab4/proj],
    and the image and the moving image of [src/lab5/mel], whose calls of
    [draw_xpm] pass a pointer where the function takes a structure. *)

From Stdlib Require Import ZArith Lia List Bool.
From stdpp Require Import base tactics list.
Import ListNotations.
Open Scope Z_scope.

(** ** Machine integers

    A C integer is a [Z]; the conversions the code performs are written out. *)

Definition u8 (z : Z) : Z := z mod 256.
Definition u16 (z : Z) : Z := z mod 65536.
Definition u32 (z : Z) : Z := z mod 4294967296.
Definition s8 (z : Z) : Z := (z + 128) mod 256 - 128.
Definition s16 (z : Z) : Z := (z + 32768) mod 65536 - 32768.

(** [BIT(n)] of [utils.h]; [flag x n] is the C truth value of [x & BIT(n)]. *)
Definition BIT (n : Z) : Z := Z.shiftl 1 n.
Definition flag (x n : Z) : bool := negb (Z.land x (BIT n) =? 0).

(** The truth value of a C integer. *)
Definition truth (z : Z) : bool := negb (z =? 0).

(** ** Outcomes

    A C function either returns or performs an operation the language leaves
    undefined; [Undef] says which. *)

Inductive ub_kind :=
| OutOfBounds
| UseAfterFree
| DoubleFree
| NullDeref
| Uninitialised
| DivisionByZero
| BadShift
| IntOverflow.

Inductive res (A : Type) : Type :=
| Ok (a : A)
| Undef (k : ub_kind).
Arguments Ok {A} a.
Arguments Undef {A} k.

(** ** Two monads

    [ST E] is for code that cannot reach undefined behaviour and only talks to
    its environment [E] (device registers, the C library); [M X E] adds the
    statics [X] of one translation unit and the outcome. *)

Definition ST (E A : Type) : Type := E -> A * E.
Definition M (X E A : Type) : Type := X * E -> res (A * (X * E)).

Declare Scope c_scope.
Delimit Scope c_scope with c.

Definition st_ret {E A} (a : A) : ST E A := fun e => (a, e).
Definition st_bind {E A B} (m : ST E A) (k : A -> ST E B) : ST E B :=
  fun e => let r := m e in k (fst r) (snd r).

Definition ret {X E A} (a : A) : M X E A := fun s => Ok (a, s).
Definition bind {X E A B} (m : M X E A) (k : A -> M X E B) : M X E B :=
  fun s => match m s with
           | Ok r => k (fst r) (snd r)
           | Undef u => Undef u
           end.

Notation "'let*' x ':=' m 'in' k" := (bind m (fun x => k))
  (at level 10, x binder, m at level 100, k at level 200) : c_scope.
Notation "'do*' m 'in' k" := (bind m (fun _ => k))
  (at level 10, m at level 100, k at level 200) : c_scope.
Notation "'let+' x ':=' m 'in' k" := (st_bind m (fun x => k))
  (at level 10, x binder, m at level 100, k at level 200) : c_scope.
Notation "'do+' m 'in' k" := (st_bind m (fun _ => k))
  (at level 10, m at level 100, k at level 200) : c_scope.
Open Scope c_scope.

(** Access to the statics, to the environment, and undefined behaviour. *)
Definition gets {X E A} (f : X -> A) : M X E A := fun s => Ok (f (fst s), s).
Definition modify {X E} (f : X -> X) : M X E unit := fun s => Ok (tt, (f (fst s), snd s)).
Definition env {X E A} (m : ST E A) : M X E A :=
  fun s => let r := m (snd s) in Ok (fst r, (fst s, snd r)).
Definition env_ {X E} (f : E -> E) : M X E unit := fun s => Ok (tt, (fst s, f (snd s))).
Definition env_res {X E} (f : E -> res E) : M X E unit :=
  fun s => match f (snd s) with
           | Ok e => Ok (tt, (fst s, e))
           | Undef u => Undef u
           end.
Definition undef {X E A} (u : ub_kind) : M X E A := fun _ => Undef u.
Definition lift {X E A} (r : res A) : M X E A :=
  fun s => match r with Ok a => Ok (a, s) | Undef u => Undef u end.
Definition skip {X E} : M X E unit := ret tt.
Definition when {X E} (b : bool) (m : M X E unit) : M X E unit := if b then m else skip.

(** The outcome of a computation that is not [Undef]. *)
Definition is_ok {A} (r : res A) : bool := match r with Ok _ => true | Undef _ => false end.

Definition res_bind {A B} (r : res A) (k : A -> res B) : res B :=
  match r with Ok a => k a | Undef u => Undef u end.

(** ** Arrays

    An array is the list of its cells; access by a C integer is out of bounds
    outside the list. *)

Definition arr_get {A} (l : list A) (i : Z) : option A :=
  if i <? 0 then None else l !! Z.to_nat i.
Definition arr_set {A} (l : list A) (i : Z) (a : A) : option (list A) :=
  if (i <? 0) || (Z.of_nat (length l) <=? i) then None else Some (<[Z.to_nat i := a]> l).

Definition zlen {A} (l : list A) : Z := Z.of_nat (length l).

(** [iter n f a] runs a counted loop [n] times on an outcome. *)
Fixpoint iter_res {A} (n : nat) (f : nat -> A -> res A) (start : nat) (a : A) : res A :=
  match n with
  | O => Ok a
  | S n' => res_bind (f start a) (iter_res n' f (S start))
  end.

(** ** Lemmas shared by the components *)

Ltac zlia := Z.to_euclidean_division_equations; lia.

(** [mrun] evaluates the monad on an explicit state; [split_ifs] destructs the
    tests of the code, [unbool] turns the boolean ones into propositions. *)
Ltac mrun :=
  cbv beta iota zeta delta
    [bind ret gets modify env env_ env_res lift undef skip when fst snd res_bind].

Ltac unbool :=
  repeat match goal with
    | H : (_ =? _) = true |- _ => apply Z.eqb_eq in H
    | H : (_ =? _) = false |- _ => apply Z.eqb_neq in H
    | H : (_ <? _) = true |- _ => apply Z.ltb_lt in H
    | H : (_ <? _) = false |- _ => apply Z.ltb_ge in H
    | H : (_ <=? _) = true |- _ => apply Z.leb_le in H
    | H : (_ <=? _) = false |- _ => apply Z.leb_gt in H
    | H : (_ && _) = true |- _ => apply andb_true_iff in H; destruct H
    | H : (_ || _) = false |- _ => apply orb_false_iff in H; destruct H
    | H : (_ && _) = false |- _ => apply andb_false_iff in H
    | H : (_ || _) = true |- _ => apply orb_true_iff in H
    | H : negb _ = true |- _ => apply negb_true_iff in H
    | H : negb _ = false |- _ => apply negb_false_iff in H
    end.

Ltac split_ifs :=
  repeat match goal with
    | |- context [if ?b then _ else _] =>
        let E := fresh "Hif" in destruct b eqn:E
    end; unbool.

Lemma u8_range z : 0 <= u8 z < 256.
Proof. unfold u8. apply Z.mod_pos_bound. lia. Qed.

Lemma u16_range z : 0 <= u16 z < 65536.
Proof. unfold u16. apply Z.mod_pos_bound. lia. Qed.

Lemma u8_id z : 0 <= z < 256 -> u8 z = z.
Proof. intros. unfold u8. apply Z.mod_small. lia. Qed.

Lemma u16_id z : 0 <= z < 65536 -> u16 z = z.
Proof. intros. unfold u16. apply Z.mod_small. lia. Qed.

Lemma s16_id z : -32768 <= z < 32768 -> s16 z = z.
Proof. intros. unfold s16. rewrite Z.mod_small; lia. Qed.

Lemma flag_testbit x n : 0 <= n -> flag x n = Z.testbit x n.
Proof.
  intros Hn. unfold flag, BIT. destruct (Z.testbit x n) eqn:E.
  - apply negb_true_iff, Z.eqb_neq. intros H0.
    assert (Hb : Z.testbit (Z.land x (Z.shiftl 1 n)) n = true).
    { rewrite Z.land_spec, E, Z.shiftl_spec, Z.sub_diag by lia. reflexivity. }
    rewrite H0, Z.testbit_0_l in Hb. discriminate.
  - apply negb_false_iff, Z.eqb_eq, Z.bits_inj'. intros i Hi.
    rewrite Z.land_spec, Z.testbit_0_l, Z.shiftl_spec by lia.
    destruct (Z.eq_dec i n) as [-> | Hne]; [rewrite E; reflexivity |].
    destruct (Z_lt_le_dec i n); [rewrite (Z.testbit_neg_r 1) by lia; apply andb_false_r |].
    replace 1 with (2 ^ 0) by reflexivity.
    rewrite Z.pow2_bits_false by lia. apply andb_false_r.
Qed.

Lemma BIT_testbit n i : 0 <= n -> 0 <= i -> Z.testbit (BIT n) i = (i =? n).
Proof.
  intros Hn Hi. unfold BIT. rewrite Z.shiftl_spec by lia.
  destruct (Z.eqb_spec i n) as [-> | Hne]; [rewrite Z.sub_diag; reflexivity |].
  destruct (Z_lt_le_dec i n); [apply Z.testbit_neg_r; lia |].
  replace 1 with (2 ^ 0) by reflexivity. apply Z.pow2_bits_false. lia.
Qed.

Lemma land_ones8 z : Z.land z 255 = u8 z.
Proof. unfold u8. change 255 with (Z.ones 8). rewrite Z.land_ones by lia. reflexivity. Qed.

Lemma arr_get_lookup {A} (l : list A) (i : nat) : arr_get l (Z.of_nat i) = l !! i.
Proof.
  unfold arr_get. replace (Z.of_nat i <? 0) with false by (symmetry; apply Z.ltb_ge; lia).
  by rewrite Nat2Z.id.
Qed.

Lemma arr_get_Some {A} (l : list A) i : 0 <= i < zlen l -> is_Some (arr_get l i).
Proof.
  intros H. unfold arr_get, zlen in *.
  replace (i <? 0) with false by (symmetry; apply Z.ltb_ge; lia).
  apply lookup_lt_is_Some. lia.
Qed.

Lemma arr_set_Some {A} (l : list A) i a :
  0 <= i < zlen l -> arr_set l i a = Some (<[Z.to_nat i := a]> l).
Proof.
  intros H. unfold arr_set, zlen in *.
  replace (i <? 0) with false by (symmetry; apply Z.ltb_ge; lia).
  replace (Z.of_nat (length l) <=? i) with false by (symmetry; apply Z.leb_gt; lia).
  reflexivity.
Qed.

Lemma arr_set_None {A} (l : list A) i a : zlen l <= i -> arr_set l i a = None.
Proof.
  intros H. unfold arr_set, zlen in *.
  replace (Z.of_nat (length l) <=? i) with true by (symmetry; apply Z.leb_le; lia).
  by rewrite orb_true_r.
Qed.

Lemma arr_set_inv {A} (l l' : list A) i a :
  arr_set l i a = Some l' -> 0 <= i < zlen l /\ l' = <[Z.to_nat i := a]> l.
Proof.
  unfold arr_set, zlen. destruct (_ || _) eqn:E; [discriminate |].
  intros [= <-]. unbool. split; [lia | done].
Qed.

Lemma zlen_snoc {A} (l : list A) a : zlen (l ++ [a]) = zlen l + 1.
Proof. unfold zlen. rewrite length_app. cbn. lia. Qed.

(** The equations of the monad, to run a computation one call at a time. *)
Lemma Ok_inj {A} (x y : A) : Ok x = Ok y -> x = y.
Proof. congruence. Qed.

Lemma bind_gets {X E A B} (f : X -> A) (k : A -> M X E B) s : bind (gets f) k s = k (f (fst s)) s.
Proof. done. Qed.

Lemma bind_modify {X E B} (f : X -> X) (k : unit -> M X E B) s :
  bind (modify f) k s = k tt (f (fst s), snd s).
Proof. done. Qed.

Lemma bind_lift {X E A B} (a : A) (k : A -> M X E B) s : bind (lift (Ok a)) k s = k a s.
Proof. done. Qed.

Lemma bind_env {X E A B} (m : ST E A) (k : A -> M X E B) s :
  bind (env m) k s = k (fst (m (snd s))) (fst s, snd (m (snd s))).
Proof. done. Qed.

Lemma bind_ok {X E A B} (m : M X E A) (k : A -> M X E B) s a s' :
  m s = Ok (a, s') -> bind m k s = k a s'.
Proof. intros H. unfold bind. by rewrite H. Qed.

(** *** What a driver routine keeps

    [st_keeps R m]: whatever the state of the machine, the one [m] leaves is
    related to it by [R]. *)
Definition st_keeps {E A} (R : E -> E -> Prop) (m : ST E A) : Prop := forall e, R e (snd (m e)).

Lemma st_keeps_ret {E A} (R : E -> E -> Prop) `{!Reflexive R} (a : A) : st_keeps R (st_ret a).
Proof. intros e. reflexivity. Qed.

Lemma st_keeps_bind {E A B} (R : E -> E -> Prop) `{!Transitive R} (m : ST E A) (k : A -> ST E B) :
  st_keeps R m -> (forall a, st_keeps R (k a)) -> st_keeps R (st_bind m k).
Proof. intros Hm Hk e. unfold st_bind. etransitivity; [apply Hm | apply Hk]. Qed.

(** Walks through a routine; [leaf] is for the accesses. *)
Ltac keeps_all leaf :=
  repeat first
    [ leaf
    | match goal with
      | |- forall _, _ => intro
      | |- st_keeps _ (st_bind _ _) => apply st_keeps_bind; [exact _ | |]
      | |- st_keeps _ (st_ret _) => apply st_keeps_ret; exact _
      | |- st_keeps _ (if ?b then _ else _) => destruct b
      | |- st_keeps _ (let _ := _ in _) => cbv zeta
      | |- st_keeps _ (match ?x with _ => _ end) => destruct x
      end ].

Create HintDb simon discriminated.
Create Rewrite HintDb cbits.
#[export] Hint Rewrite @land_ones8 : cbits.
#[export] Hint Resolve u8_range u16_range : simon.
Arguments flag : simpl never.
Arguments truth : simpl never.
Arguments BIT : simpl never.
Arguments u8 : simpl never.
Arguments u16 : simpl never.
Arguments u32 : simpl never.
Arguments s8 : simpl never.
Arguments s16 : simpl never.
