(* ===== verification/Float32.v ===== *)
(** The [float] of the sprites: IEEE 754 binary32, on the specification of
    floating-point arithmetic of the Standard Library, and the integers it
    computes with exactly. *)

From Stdlib Require Import Floats.SpecFloat.
From stdpp Require Import base tactics list.
From Stdlib Require Import ZArith Lia.
From S2P Require Import Prelude.

(** ** The operations the code uses *)

Definition float := spec_float.
Definition prec := 24.
Definition emax := 128.

(** An integer converted to [float], rounded to the nearest. *)
Definition of_Z (z : Z) : float := binary_normalize prec emax z 0 false.
Definition fadd : float -> float -> float := SFadd prec emax.
Definition fmul : float -> float -> float := SFmul prec emax.
Definition fgt (x y : float) : bool := SFltb y x.

(** [(int)x] drops the fraction; it is undefined outside the range of [int]. *)
Definition to_int (x : float) : option Z :=
  match x with
  | S754_zero _ => Some 0
  | S754_finite s m e =>
      let a := if 0 <=? e then Z.pos m * 2 ^ e else Z.pos m / 2 ^ (- e) in
      let z := cond_Zopp s a in
      if (-2147483648 <=? z) && (z <=? 2147483647) then Some z else None
  | S754_infinity _ | S754_nan => None
  end.

(** ** The specification's loops *)

Lemma iter_pos_nat {A} (f : A -> A) p x : SpecFloat.iter_pos f p x = Nat.iter (Pos.to_nat p) f x.
Proof.
  revert x. induction p as [p IH | p IH |]; intros x; cbn [SpecFloat.iter_pos].
  - rewrite !IH, Pos2Nat.inj_xI. cbn [Nat.iter Nat.mul]. rewrite Nat.add_0_r.
    rewrite <-Nat.iter_add. by rewrite <-Nat.iter_succ_r.
  - rewrite !IH, Pos2Nat.inj_xO. cbn [Nat.mul]. by rewrite Nat.add_0_r, <-Nat.iter_add.
  - done.
Qed.

Lemma iter_xO m d : Z.pos (Pos.iter xO m d) = Z.pos m * 2 ^ Z.pos d.
Proof.
  induction d as [| d IH] using Pos.peano_ind; [cbn; lia |].
  rewrite Pos.iter_succ, Pos2Z.inj_xO, IH, Pos2Z.inj_succ, Z.pow_succ_r by lia. ring.
Qed.

(** The number of binary digits. *)
Lemma digits2_log2 p : Z.pos (digits2_pos p) = Z.log2 (Z.pos p) + 1.
Proof.
  induction p as [p IH | p IH |]; cbn [digits2_pos]; [| | done]; rewrite Pos2Z.inj_succ, IH.
  - rewrite Pos2Z.inj_xI, Z.log2_succ_double; lia.
  - rewrite Pos2Z.inj_xO, Z.log2_double; lia.
Qed.

Lemma digits2_bounds p :
  2 ^ (Z.pos (digits2_pos p) - 1) <= Z.pos p < 2 ^ Z.pos (digits2_pos p).
Proof.
  rewrite digits2_log2. replace (_ + 1 - 1) with (Z.log2 (Z.pos p)) by lia.
  apply Z.log2_spec. lia.
Qed.

Lemma digits2_shift p q k :
  0 <= k -> Z.pos q = Z.pos p * 2 ^ k -> Z.pos (digits2_pos q) = Z.pos (digits2_pos p) + k.
Proof. intros Hk Hq. rewrite !digits2_log2, Hq, Z.log2_mul_pow2 by lia. lia. Qed.

(** Shifting out zeros is exact. *)
Lemma shr_1_double z : shr_1 (Build_shr_record (2 * z) false false) = Build_shr_record z false false.
Proof. by destruct z. Qed.

Lemma shr_exact z n e :
  0 <= n -> shr (Build_shr_record (z * 2 ^ n) false false) e n = (Build_shr_record z false false, e + n).
Proof.
  intros Hn. destruct n as [| n | n]; [| | lia].
  - cbn [shr]. rewrite Z.pow_0_r, Z.mul_1_r. f_equal. lia.
  - cbn [shr]. f_equal. rewrite iter_pos_nat.
    replace (Z.pos n) with (Z.of_nat (Pos.to_nat n)) by lia.
    induction (Pos.to_nat n) as [| k IH]; [cbn; do 2 f_equal; lia |].
    rewrite Nat.iter_succ_r, Nat2Z.inj_succ, Z.pow_succ_r by lia.
    replace (z * (2 * 2 ^ Z.of_nat k)) with (2 * (z * 2 ^ Z.of_nat k)) by ring.
    by rewrite shr_1_double.
Qed.

(** ** Integers of at most 24 digits *)

(** The mantissa of [p], with 24 digits; its exponent is [scale p]. *)
Definition scale (p : positive) : Z := Z.pos (digits2_pos p) - prec.
Definition mantissa (p : positive) : positive := Z.to_pos (Z.pos p * 2 ^ (- scale p)).
Definition pack (s : bool) (p : positive) : float := S754_finite s (mantissa p) (scale p).

Definition small (p : positive) : Prop := Z.pos p < 2 ^ prec.

Lemma small_digits p : small p -> 1 <= Z.pos (digits2_pos p) <= prec.
Proof.
  unfold small. intros Hs. split; [lia |].
  pose proof (digits2_bounds p). destruct (Z_le_gt_dec (Z.pos (digits2_pos p)) prec); [done |].
  assert (2 ^ prec <= 2 ^ (Z.pos (digits2_pos p) - 1)) by (apply Z.pow_le_mono_r; lia). lia.
Qed.

Lemma small_scale p : small p -> - 23 <= scale p <= 0.
Proof. intros Hs%small_digits. unfold scale, prec in *. lia. Qed.

Lemma mantissa_eq p : small p -> Z.pos (mantissa p) = Z.pos p * 2 ^ (- scale p).
Proof.
  intros Hs%small_scale. unfold mantissa. rewrite Z2Pos.id; [done |].
  assert (0 < 2 ^ (- scale p)) by (apply Z.pow_pos_nonneg; lia). lia.
Qed.

Lemma mantissa_digits p : small p -> Z.pos (digits2_pos (mantissa p)) = prec.
Proof.
  intros Hs. rewrite (digits2_shift p _ (- scale p)); [unfold scale; lia | | by apply mantissa_eq].
  pose proof (small_scale p Hs). lia.
Qed.

Lemma fexp_normal e : emin prec emax <= e - prec -> fexp prec emax e = e - prec.
Proof. unfold fexp. lia. Qed.

(** Rounding a number that is exactly representable. *)
Lemma round_aux_exact s c q n e :
  0 <= n -> Z.pos (digits2_pos c) = prec -> Z.pos q = Z.pos c * 2 ^ n ->
  emin prec emax <= e + n <= emax - prec ->
  binary_round_aux prec emax s (Z.pos q) e loc_Exact = S754_finite s c (e + n).
Proof.
  intros Hn Hc Hq He. unfold binary_round_aux, shr_fexp. cbn [Zdigits2 shr_record_of_loc].
  rewrite (digits2_shift c q n Hn Hq), Hc.
  rewrite fexp_normal by lia. replace (prec + n + e - prec - e) with n by lia.
  rewrite Hq, shr_exact by done. cbn [shr_m loc_of_shr_record round_nearest_even shr_record_of_loc Zdigits2].
  rewrite Hc, fexp_normal by lia. replace (prec + (e + n) - prec - (e + n)) with 0 by lia.
  cbn [shr shr_m]. by replace (e + n <=? emax - prec) with true by (symmetry; apply Z.leb_le; lia).
Qed.

(** [p], given as [m * 2 ^ -k]. *)
Lemma round_exact s p m k :
  small p -> 0 <= k -> Z.pos m = Z.pos p * 2 ^ k -> binary_round prec emax s m (- k) = pack s p.
Proof.
  intros Hs Hk Hm. pose proof (small_scale p Hs) as Hsc. unfold binary_round.
  rewrite (digits2_shift p m k Hk Hm).
  replace (Z.pos (digits2_pos p) + k + - k) with (scale p + prec) by (unfold scale; lia).
  rewrite fexp_normal by (unfold emin, emax, prec; lia).
  replace (scale p + prec - prec) with (scale p) by lia. unfold shl_align, pack.
  assert (Hc := mantissa_digits p Hs). assert (Hme := mantissa_eq p Hs).
  destruct (scale p - - k) as [| n | n] eqn:Hd.
  - rewrite (round_aux_exact s (mantissa p) m 0); [f_equal; lia | lia | done | | unfold emin, emax, prec; lia].
    rewrite Hm, Hme. replace (- scale p) with k by lia. lia.
  - rewrite (round_aux_exact s (mantissa p) m (Z.pos n)); [f_equal; lia | lia | done | | unfold emin, emax, prec; lia].
    rewrite Hm, Hme, <-Z.mul_assoc, <-Z.pow_add_r by lia. do 2 f_equal. lia.
  - rewrite (round_aux_exact s (mantissa p) _ 0); [f_equal; lia | lia | done | | unfold emin, emax, prec; lia].
    rewrite iter_xO, Hm, Hme, Z.pow_0_r, Z.mul_1_r, <-Z.mul_assoc, <-Z.pow_add_r by lia. do 2 f_equal. lia.
Qed.

Definition exact (z : Z) : Prop := - 2 ^ prec < z < 2 ^ prec.

(** An exact integer as a float. *)
Definition packed (z : Z) : float :=
  match z with Z0 => S754_zero false | Z.pos p => pack false p | Z.neg p => pack true p end.

Lemma normalize_packed z k m :
  exact z -> 0 <= k -> m = z * 2 ^ k -> binary_normalize prec emax m (- k) false = packed z.
Proof.
  intros Hz Hk ->. assert (0 < 2 ^ k) by (apply Z.pow_pos_nonneg; lia).
  unfold exact in Hz. destruct z as [| p | p]; cbn [packed]; [done | |].
  - destruct (Z.pos p * 2 ^ k) as [| m | m] eqn:E; [lia | | lia].
    cbn [binary_normalize]. apply round_exact; [unfold small; lia | done | lia].
  - destruct (Z.neg p * 2 ^ k) as [| m | m] eqn:E; [lia | lia |].
    cbn [binary_normalize]. apply round_exact; [unfold small; lia | done | lia].
Qed.

Lemma of_Z_packed z : exact z -> of_Z z = packed z.
Proof. intros Hz. unfold of_Z. apply (normalize_packed z 0); [done | done | lia]. Qed.

(** ** Exactness *)

Lemma cond_Zopp_packed (s : bool) p :
  small p -> cond_Zopp s (Z.pos (mantissa p)) = cond_Zopp s (Z.pos p) * 2 ^ (- scale p).
Proof. intros Hs. destruct s; cbn [cond_Zopp]; rewrite mantissa_eq by done; ring. Qed.

Lemma align_eq p ez :
  small p -> ez <= scale p ->
  Z.pos (fst (shl_align (mantissa p) (scale p) ez)) = Z.pos p * 2 ^ (- ez).
Proof.
  intros Hs He. pose proof (small_scale p Hs). unfold shl_align.
  destruct (ez - scale p) as [| n | n] eqn:Hd; [| lia |]; cbn [fst].
  - rewrite mantissa_eq by done. do 2 f_equal. lia.
  - rewrite iter_xO, mantissa_eq, <-Z.mul_assoc, <-Z.pow_add_r by (done || lia). do 2 f_equal. lia.
Qed.

Lemma pack_add s1 p1 s2 p2 :
  small p1 -> small p2 -> exact (cond_Zopp s1 (Z.pos p1) + cond_Zopp s2 (Z.pos p2)) ->
  fadd (pack s1 p1) (pack s2 p2) = packed (cond_Zopp s1 (Z.pos p1) + cond_Zopp s2 (Z.pos p2)).
Proof.
  intros H1 H2 Hs. pose proof (small_scale p1 H1). pose proof (small_scale p2 H2).
  unfold fadd, pack, SFadd.
  set (ez := Z.min (scale p1) (scale p2)). assert (ez <= scale p1 /\ ez <= scale p2) by (unfold ez; lia).
  rewrite !align_eq by (done || lia).
  replace ez with (- - ez) at 3 by lia. apply normalize_packed; [done | unfold ez; lia |].
  destruct s1, s2; cbn [cond_Zopp]; ring.
Qed.

Lemma add_exact a b : exact a -> exact b -> exact (a + b) -> fadd (of_Z a) (of_Z b) = of_Z (a + b).
Proof.
  intros Ha Hb Hs. rewrite !of_Z_packed by done.
  assert (Hp : forall p, exact (Z.pos p) -> small p) by (unfold exact, small; lia).
  assert (Hn : forall p, exact (Z.neg p) -> small p) by (unfold exact, small; lia).
  destruct a as [| p | p], b as [| q | q]; try done.
  - apply (pack_add false p false q); auto.
  - apply (pack_add false p true q); auto.
  - apply (pack_add true p false q); auto.
  - apply (pack_add true p true q); auto.
Qed.

(** Comparing mantissas and exponents is comparing the numbers. *)
Lemma scale_mono p q : Z.pos p <= Z.pos q -> scale p <= scale q.
Proof. intros Hpq. unfold scale. rewrite !digits2_log2. pose proof (Z.log2_le_mono _ _ Hpq). lia. Qed.

Lemma pack_compare p q :
  small p -> small q ->
  match Z.compare (scale p) (scale q) with
  | Lt => Lt | Gt => Gt | Eq => Pos.compare_cont Eq (mantissa p) (mantissa q)
  end = (Z.pos p ?= Z.pos q).
Proof.
  intros Hp Hq. destruct (Z.compare_spec (scale p) (scale q)) as [He | Hl | Hg].
  - change (Pos.compare_cont Eq (mantissa p) (mantissa q)) with (Z.pos (mantissa p) ?= Z.pos (mantissa q)).
    rewrite !mantissa_eq, He by done. symmetry. apply Zmult_compare_compat_r.
    pose proof (small_scale q Hq). apply Z.lt_gt, Z.pow_pos_nonneg; lia.
  - symmetry. apply Z.compare_lt_iff. destruct (Z_lt_le_dec (Z.pos p) (Z.pos q)); [done |].
    pose proof (scale_mono q p ltac:(done)). lia.
  - symmetry. apply Z.compare_gt_iff. destruct (Z_lt_le_dec (Z.pos q) (Z.pos p)); [done |].
    pose proof (scale_mono p q ltac:(done)). lia.
Qed.

Lemma gt_exact a b : exact a -> exact b -> fgt (of_Z a) (of_Z b) = (b <? a).
Proof.
  intros Ha Hb. rewrite !of_Z_packed by done. unfold fgt, SFltb.
  assert (Hp : forall p, exact (Z.pos p) -> small p) by (unfold exact, small; lia).
  assert (Hn : forall p, exact (Z.neg p) -> small p) by (unfold exact, small; lia).
  destruct a as [| p | p], b as [| q | q]; cbn [packed pack SFcompare]; try done.
  - rewrite pack_compare by auto. done.
  - pose proof (pack_compare q p ltac:(auto) ltac:(auto)) as E.
    replace (match Z.compare (scale q) (scale p) with
             | Lt => Gt | Gt => Lt | Eq => CompOpp (Pos.compare_cont Eq (mantissa q) (mantissa p)) end)
      with (CompOpp (Z.pos q ?= Z.pos p)) by (rewrite <-E; by destruct (Z.compare _ _)).
    cbn. rewrite <-Pos.compare_antisym. unfold Z.ltb. cbn. by rewrite Pos.compare_antisym, Pos.compare_antisym.
Qed.

Lemma to_int_exact a : exact a -> to_int (of_Z a) = Some a.
Proof.
  intros Ha. rewrite of_Z_packed by done. unfold exact in Ha.
  assert (Hm : forall s p, small p -> to_int (pack s p) = Some (cond_Zopp s (Z.pos p))).
  { intros s p Hp. pose proof (small_scale p Hp). unfold to_int, pack.
    assert (Ez : (if 0 <=? scale p then Z.pos (mantissa p) * 2 ^ scale p
                  else Z.pos (mantissa p) / 2 ^ (- scale p)) = Z.pos p).
    { rewrite mantissa_eq by done. destruct (Z.leb_spec 0 (scale p)).
      - replace (scale p) with 0 by lia. cbn [Z.opp]. rewrite Z.pow_0_r. lia.
      - apply Z.div_mul. assert (0 < 2 ^ (- scale p)) by (apply Z.pow_pos_nonneg; lia). lia. }
    rewrite Ez. unfold small, prec in Hp. change (2 ^ 24) with 16777216 in Hp.
    replace ((-2147483648 <=? cond_Zopp s (Z.pos p)) && (cond_Zopp s (Z.pos p) <=? 2147483647)) with true; [done |].
    symmetry. apply andb_true_iff. rewrite !Z.leb_le. destruct s; cbn [cond_Zopp]; lia. }
  destruct a as [| p | p]; [done | apply (Hm false) | apply (Hm true)]; unfold small; lia.
Qed.

(** Multiplication by the value of a truth, and by zero. *)
Lemma mul_one z : exact z -> fmul (of_Z 1) (of_Z z) = of_Z z.
Proof.
  intros Hz. rewrite !(of_Z_packed z) by done. unfold exact in Hz.
  change (of_Z 1) with (S754_finite false 8388608 (-23)).
  destruct z as [| p | p]; [done | |]; cbn [packed]; unfold fmul, pack, SFmul; cbn [xorb].
  all: assert (Hp : small p) by (unfold small; lia); pose proof (small_scale p Hp).
  all: rewrite (round_aux_exact _ (mantissa p) _ 23);
    [f_equal; lia | lia | by apply mantissa_digits | change (2 ^ 23) with 8388608; lia | unfold emin, emax, prec; lia].
Qed.

Lemma mul_zero z : 0 <= z -> exact z -> fmul (of_Z 0) (of_Z z) = of_Z 0.
Proof. intros H0 Hz. rewrite (of_Z_packed z) by done. by destruct z. Qed.
