(* ===== verification/Consts.v ===== *)
(** The enumerations and constants of the headers under [src/proj]: [consts.h],
    [screen.h], [menu.h], [host.h], [mp_game.h], [keyboard.h], [i8042.h],
    [rtc.h], [uart.h], [vc.h].  Where the code does arithmetic on an
    enumeration, the function that gives its C values comes with it. *)

From stdpp Require Import base tactics list.
From Stdlib Require Import ZArith Lia.
From S2P Require Import Prelude.

(** ** [consts.h] *)

Definition GREEN_X := 218.
Definition GREEN_Y := 218.
Definition BLUE_X := 507.
Definition BLUE_Y := 413.
Definition PURPLE_X := 293.
Definition PURPLE_Y := 413.
Definition YELLOW_X := 583.
Definition YELLOW_Y := 225.
Definition RED_X := 400.
Definition RED_Y := 92.
Definition VS_X := 400.
Definition VS_Y := 260.
Definition BUTTON_WIDTH := 89.
Definition MOUSE_WIDTH := 42.
Definition MOUSE_HEIGHT := 44.
Definition INTERVAL := 3 + 1.
Definition VS_INTERVAL := 5 + 1.

Inductive Play_Screens := DEFAULT | GREEN | YELLOW | PURPLE | BLUE | RED | VS | WHITE.

Inductive button_click_t :=
| GREEN_B | YELLOW_B | PURPLE_B | BLUE_B | RED_B | VS_B | NO_BUTTON.

Inductive Winners := WINNER1 | WINNER2 | TIE.

#[export] Instance Play_Screens_eq_dec : EqDecision Play_Screens.
Proof. solve_decision. Defined.
#[export] Instance button_click_t_eq_dec : EqDecision button_click_t.
Proof. solve_decision. Defined.
#[export] Instance Winners_eq_dec : EqDecision Winners.
Proof. solve_decision. Defined.

(** The C values of [button_click_t], and the conversion of an integer to it
    (an out-of-range value is no button). *)
Definition button_value (b : button_click_t) : Z :=
  match b with
  | GREEN_B => 0 | YELLOW_B => 1 | PURPLE_B => 2 | BLUE_B => 3
  | RED_B => 4 | VS_B => 5 | NO_BUTTON => 6
  end.

Definition button_of_value (z : Z) : option button_click_t :=
  match z with
  | 0 => Some GREEN_B | 1 => Some YELLOW_B | 2 => Some PURPLE_B | 3 => Some BLUE_B
  | 4 => Some RED_B | 5 => Some VS_B | 6 => Some NO_BUTTON
  | _ => None
  end.

Definition winner_value (w : Winners) : Z :=
  match w with WINNER1 => 0 | WINNER2 => 1 | TIE => 2 end.

Definition button_eqb (a b : button_click_t) : bool := bool_decide (a = b).
Definition winner_eqb (a b : Winners) : bool := bool_decide (a = b).

Lemma button_value_roundtrip b : button_of_value (button_value b) = Some b.
Proof. by destruct b. Qed.

(** ** The interrupt lines ([i8042.h], [i8254.h], [rtc.h], [uart.h]) *)

Definition TIMER0_IRQ := 0.
Definition KBD_IRQ := 1.
Definition UART_IRQ := 4.
Definition RTC_IRQ := 8.
Definition MOUSE_IRQ := 12.

(** ** The BIOS call of [vc.h] *)

Definition INT := 16.   (* 0x10 *)
Definition VBE := 2.

(** ** [screen.h] *)

Inductive Game_Modes :=
| MENU | HOW_TO_PLAY | LEADERBOARD | NUM_ROUNDS | GAME | HIGHSCORE | HOST | MP_GAME | EXIT.

#[export] Instance Game_Modes_eq_dec : EqDecision Game_Modes.
Proof. solve_decision. Defined.

Definition mode_eqb (a b : Game_Modes) : bool := bool_decide (a = b).

(** ** [mp_game.h]: the bytes of the serial protocol ([coms]) *)

Definition TIMER_BUTTON_MP := 12.
Definition ACK := 0.
Definition ERROR := 1.
Definition CONNECTED := 2.
Definition GREEN_REMOTE := 3.
Definition YELLOW_REMOTE := 4.
Definition PURPLE_REMOTE := 5.
Definition BLUE_REMOTE := 6.
Definition RED_REMOTE := 7.
Definition WHITE_REMOTE := 8.
Definition IS_VS := 9.
Definition IS_NOT_VS := 10.
Definition READY := 11.
Definition LOSE := 12.
Definition TIE_REMOTE := 13.

(** ** [keyboard.h]: special keys and the key press *)

Definition UP_ARROW := 19.
Definition DOWN_ARROW := 20.
Definition ENTER := 10.
Definition BACKSPACE := 8.
Definition ESC := 27.

(** [struct key_press]: [char key; bool down]. *)
Record key_press := KeyPress { key : Z; down : bool }.

(** ** [vc.h]: the video mode *)

Definition MAX_TEXT_BOX_SIZE := 20.
Definition WIDTH := 800.
Definition HEIGHT := 600.
Definition get_mode_width : Z := WIDTH.
Definition get_mode_height : Z := HEIGHT.

(** ** [i8042.h] *)

Definition KBC_OUT_BUF := 96.     (* 0x60 *)
Definition KBC_ARG_REG := 96.
Definition KBC_CMD_REG := 100.    (* 0x64 *)
Definition KBC_STAT_REG := 100.
Definition TWO_BYTE_SCANCODE_PREFIX := 224. (* 0xE0 *)
Definition ESC_BREAK_CODE := 129. (* 0x81 *)
Definition BYTE_TO_MOUSE_CMD := 212. (* 0xD4 *)
Definition BYTE_TO_MOUSE_SUCCESS := 250. (* 0xFA *)
Definition MOUSE_DIS_DATA_REP := 245. (* 0xF5 *)
Definition MOUSE_ENAB_DATA_REP := 244. (* 0xF4 *)

(** ** [rtc.h] *)

Definition RTC_ADDR_REG := 112.   (* 0x70 *)
Definition RTC_DATA_REG := 113.   (* 0x71 *)
Definition SECONDS_REG := 0.
Definition SECONDS_ALARM := 1.
Definition MINUTES_ALARM := 3.
Definition HOURS_ALARM := 5.
Definition DAY_REG := 7.
Definition MONTH_REG := 8.
Definition YEAR_REG := 9.
Definition REGISTER_A := 10.
Definition REGISTER_B := 11.
Definition REGISTER_C := 12.
Definition UIP := 7.
Definition UIE := 4.
Definition AIE := 5.
Definition SET := 7.
Definition PF := 6.
Definition AF := 5.
Definition UF := 4.

Inductive rtc_int_t := PERIODIC | ALARM | UPDATE | RTC_NO_INT.

#[export] Instance rtc_int_t_eq_dec : EqDecision rtc_int_t.
Proof. solve_decision. Defined.

(** [struct date]. *)
Record date := Date { year : Z; month : Z; day : Z }.

(** ** [uart.h] *)

Definition COM1 := 1016.          (* 0x3F8 *)
Definition SER_DATA := 0.
Definition IER := 1.
Definition IIR := 2.
Definition LCR := 3.
Definition LSR := 5.
Definition LCR_DLAB := 7.         (* bit number *)
Definition LSR_REC_DATA := 0.
Definition LSR_THR := 5.
Definition LSR_FIFO_ERROR := 7.
Definition IER_DATA_INT := 0.
Definition IER_TRANS_EMPTY_INT := 1.
Definition IIR_MOD_STAT := 0.
Definition IIR_TRANS_EMPTY := 1.
Definition IIR_REC_DATA := 2.
Definition IIR_LINE_STAT := 3.
Definition IIR_CHAR_TIMEOUT := 4.
