(* ===== verification/Ports.v ===== *)
(** The kernel interface the drivers are written against, and [utils.c].

    [sys_inb] and [sys_outb] are Minix kernel calls: their effect on the
    machine is a parameter, the class [Ports]; a driver is modelled over every
    instance.  What a driver needs of its device is a class of laws beside the
    driver ([Rtc.RtcDevice], [Uart.UartDevice]). *)

From stdpp Require Import base tactics list.
From Stdlib Require Import ZArith Lia.
From S2P Require Import Prelude Consts.

(** [sys_inb port e]: the return code, the word stored through the pointer (if
    the call stores one) and the new state of the machine. *)
Class Ports (E : Type) := {
  sys_inb : Z -> ST E (Z * option Z);
  sys_outb : Z -> Z -> ST E Z
}.

(** ** Interrupt lines

    [sys_irqsetpolicy line policy hook_id] takes the number the notifications
    will set the bit of and replaces it by the identifier of the hook, with which
    the other calls name the subscription; each returns a code as well. *)
Class Irqs (E : Type) := {
  sys_irqsetpolicy : Z -> Z -> Z -> ST E (Z * Z);
  sys_irqrmpolicy : Z -> ST E Z;
  sys_irqenable : Z -> ST E Z;
  sys_irqdisable : Z -> ST E Z
}.

(** The policies of [minix/com.h]. *)
Definition IRQ_REENABLE : Z := 1.
Definition IRQ_EXCLUSIVE : Z := 2.

(** What the subscribing functions of the drivers return and store through their
    two pointers. *)
Record subscription := Subscription { call_back : Z; bit_no : Z; notification : Z }.

(** ** [utils.c] *)

(** A pointer argument the function only compares with [NULL] and stores to. *)
Inductive ptr_arg := NullPtr | ValidPtr.

(** The return code, and the byte stored through the pointer. *)
Definition util_get_LSB (val : Z) (lsb : ptr_arg) : Z * option Z :=
  match lsb with
  | NullPtr => (1, None)
  | ValidPtr => (0, Some (u8 (Z.land val 255)))
  end.

Definition util_get_MSB (val : Z) (msb : ptr_arg) : Z * option Z :=
  match msb with
  | NullPtr => (1, None)
  | ValidPtr => (0, Some (u8 (Z.shiftr (Z.land val 65280) 8)))
  end.

Definition cpl2_9_to_16 (value : Z) (sign_bit : bool) : Z :=
  if sign_bit then s16 (- Z.shiftl 1 8 + value) else s16 value.

Section Utils.
Context {E : Type} `{Ports E}.

(** [word] starts at 0, so a call that stores nothing yields 0. *)
Definition util_sys_inb (port : Z) (value : ptr_arg) : ST E (Z * option Z) :=
  match value with
  | NullPtr => st_ret (1, None)
  | ValidPtr =>
      let+ r := sys_inb port in
      st_ret (fst r, Some (Z.land (default 0 (snd r)) 255))
  end.

(** The drivers pass the address of a local and ignore the return code. *)
Definition inb (port : Z) : ST E Z :=
  let+ r := util_sys_inb port ValidPtr in st_ret (default 0 (snd r)).

Definition outb (port value : Z) : ST E unit :=
  do+ sys_outb port value in st_ret tt.
End Utils.

(** Splitting a 16-bit value into its bytes loses nothing. *)
Lemma util_LSB_MSB_roundtrip val :
  0 <= val < 65536 ->
  exists l m, util_get_LSB val ValidPtr = (0, Some l) /\ util_get_MSB val ValidPtr = (0, Some m) /\
              0 <= l < 256 /\ 0 <= m < 256 /\ val = l + 256 * m.
Proof.
  intros Hv.
  assert (Hm : Z.shiftr (Z.land val 65280) 8 = val / 256).
  { rewrite Z.shiftr_land. change (Z.shiftr 65280 8) with (Z.ones 8).
    rewrite Z.land_ones, Z.shiftr_div_pow2 by lia.
    change (2 ^ 8) with 256. apply Z.mod_small. zlia. }
  exists (val mod 256), (val / 256). unfold util_get_LSB, util_get_MSB.
  rewrite land_ones8, Hm. unfold u8. rewrite Z.mod_mod by lia.
  rewrite (Z.mod_small (val / 256)) by zlia.
  repeat split; zlia.
Qed.

(** Sign extension of a 9-bit two's complement number. *)
Lemma cpl2_9_to_16_decode v :
  -256 <= v < 256 -> cpl2_9_to_16 (u8 v) (v <? 0) = v.
Proof.
  intros Hv. unfold cpl2_9_to_16, u8. change (Z.shiftl 1 8) with 256.
  destruct (v <? 0) eqn:E; unbool; rewrite s16_id; zlia.
Qed.

Lemma inb_range {E} `{Ports E} port e : 0 <= fst (inb port e) < 256.
Proof.
  unfold inb, util_sys_inb, st_bind, st_ret. cbn. rewrite land_ones8. apply u8_range.
Qed.
