(* ===== verification/Rtc.v ===== *)
(** [rtc.c]: the real-time clock driver (alarms, update control, the date).

    The routines are modelled over any machine with ports; what they promise is
    proved for a machine whose ports 0x70/0x71 behave as the index/data pair of
    the clock's register file ([RtcDevice]). *)

From stdpp Require Import base tactics list.
From Stdlib Require Import ZArith Lia.
From S2P Require Import Prelude Consts Ports.

Definition bcd_to_int (number : Z) : Z :=
  Z.land number 15 + Z.shiftr number 4 * 10.

Definition int_to_bcd (number : Z) : Z :=
  u8 (Z.lor (u8 (Z.rem number 10)) (Z.shiftl (u8 (Z.quot number 10)) 4)).

Section Subscribe.
Context {E : Type} `{Irqs E}.

Definition rtc_subscribe : ST E subscription :=
  let hook_id := RTC_IRQ in
  let bit_no := u8 hook_id in
  let+ r := sys_irqsetpolicy RTC_IRQ IRQ_REENABLE hook_id in
  do+ sys_irqenable (snd r) in
  st_ret (Subscription (fst r) bit_no (snd r)).

Definition rtc_unsubscribe (notification : Z) : ST E unit :=
  do+ sys_irqrmpolicy notification in
  do+ sys_irqdisable notification in
  st_ret tt.
End Subscribe.

Section Rtc.
Context {E : Type} `{Ports E}.

Definition enable_updates : ST E unit :=
  do+ outb RTC_ADDR_REG REGISTER_B in
  let+ reg_b := inb RTC_DATA_REG in
  let reg_b := Z.land reg_b (Z.lnot (BIT SET)) in
  do+ outb RTC_ADDR_REG REGISTER_B in
  outb RTC_DATA_REG reg_b.

Definition disable_updates : ST E unit :=
  do+ outb RTC_ADDR_REG REGISTER_B in
  let+ reg_b := inb RTC_DATA_REG in
  let reg_b := Z.land reg_b (Z.lnot (BIT UIE)) in
  do+ outb RTC_ADDR_REG REGISTER_B in
  outb RTC_DATA_REG reg_b.

Definition disable_periodic_int : ST E unit :=
  do+ outb RTC_ADDR_REG REGISTER_B in
  let+ reg_b := inb RTC_DATA_REG in
  let reg_b := Z.land reg_b (Z.lnot (BIT UIE)) in
  do+ outb RTC_ADDR_REG REGISTER_B in
  outb RTC_DATA_REG reg_b.

Definition enable_alarm_int : ST E unit :=
  do+ outb RTC_ADDR_REG REGISTER_B in
  let+ reg_b := inb RTC_DATA_REG in
  let reg_b := Z.lor reg_b (BIT AIE) in
  do+ outb RTC_ADDR_REG REGISTER_B in
  outb RTC_DATA_REG reg_b.

(** The code writes [&reg_b], the address of the local, to the data port. *)
Definition disable_alarm_int (addr_of_reg_b : Z) : ST E unit :=
  do+ outb RTC_ADDR_REG REGISTER_B in
  let+ reg_b := inb RTC_DATA_REG in
  do+ outb RTC_ADDR_REG REGISTER_B in
  outb RTC_DATA_REG addr_of_reg_b.

Definition clear_interruptions : ST E Z :=
  do+ outb RTC_ADDR_REG REGISTER_C in
  let+ reg_c := inb RTC_DATA_REG in
  st_ret reg_c.

(** The static [previous] is threaded through. *)
Definition rtc_handler (previous : Z) : ST E (rtc_int_t * Z) :=
  let+ byte := clear_interruptions in
  let previous := if negb (byte =? previous) then byte else previous in
  st_ret (if flag byte AF then ALARM
          else if flag byte UF then UPDATE
          else if flag byte PF then PERIODIC
          else RTC_NO_INT, previous).

(** [None] is the code's [false]. *)
Definition read_date : ST E (option date) :=
  do+ outb RTC_ADDR_REG REGISTER_A in
  let+ reg_a := inb RTC_DATA_REG in
  if flag reg_a UIP then st_ret None
  else
    do+ outb RTC_ADDR_REG YEAR_REG in
    let+ year := inb RTC_DATA_REG in
    do+ outb RTC_ADDR_REG MONTH_REG in
    let+ month := inb RTC_DATA_REG in
    do+ outb RTC_ADDR_REG DAY_REG in
    let+ day := inb RTC_DATA_REG in
    st_ret (Some (Date (bcd_to_int year) (bcd_to_int month) (bcd_to_int day))).

(** The [do .. while (!got_date)] loop, with fuel; [None] is out of fuel. *)
Fixpoint get_date (fuel : nat) : ST E (option date) :=
  match fuel with
  | O => st_ret None
  | S fuel =>
      do+ disable_updates in
      let+ got_date := read_date in
      do+ enable_updates in
      match got_date with
      | Some d => st_ret (Some d)
      | None => get_date fuel
      end
  end.

Definition set_seconds_alarm : ST E unit :=
  let byte := 192 in (* 0xC0 *)
  do+ outb RTC_ADDR_REG SECONDS_ALARM in
  do+ outb RTC_DATA_REG byte in
  do+ outb RTC_ADDR_REG MINUTES_ALARM in
  do+ outb RTC_DATA_REG byte in
  do+ outb RTC_ADDR_REG HOURS_ALARM in
  outb RTC_DATA_REG byte.

Definition set_timed_alarm (seconds : Z) : ST E unit :=
  let byte := 192 in (* 0xC0 *)
  do+ outb RTC_ADDR_REG SECONDS_REG in
  let+ data := inb RTC_DATA_REG in
  let now := bcd_to_int data in
  do+ outb RTC_ADDR_REG SECONDS_ALARM in
  do+ outb RTC_DATA_REG (int_to_bcd (Z.rem (now + seconds) 60)) in
  do+ outb RTC_ADDR_REG MINUTES_ALARM in
  do+ outb RTC_DATA_REG byte in
  do+ outb RTC_ADDR_REG HOURS_ALARM in
  outb RTC_DATA_REG byte.
End Rtc.

(** ** The device

    The registers as the index/data ports show them.  The time registers are
    taken not to tick during one routine; register C is cleared by a read; bit
    [UIP] of register A is set while an update is in progress, and the update
    ends within [rtc_busy] reads of the register. *)
Class RtcDevice (E : Type) `{Ports E} := {
  rtc_addr : E -> Z;
  rtc_reg : E -> Z -> Z;
  rtc_busy : E -> nat;
  rtc_out_addr v e :
    let e' := snd (sys_outb RTC_ADDR_REG v e) in
    rtc_addr e' = v /\ (forall r, rtc_reg e' r = rtc_reg e r) /\ rtc_busy e' = rtc_busy e;
  rtc_out_data v e :
    rtc_addr e <> REGISTER_A ->
    let e' := snd (sys_outb RTC_DATA_REG v e) in
    rtc_addr e' = rtc_addr e /\ rtc_busy e' = rtc_busy e /\
    (forall r, rtc_reg e' r = if r =? rtc_addr e then u8 v else rtc_reg e r);
  rtc_in_data e :
    snd (fst (sys_inb RTC_DATA_REG e)) = Some (rtc_reg e (rtc_addr e)) /\
    let e' := snd (sys_inb RTC_DATA_REG e) in
    rtc_addr e' = rtc_addr e /\
    (forall r, r <> REGISTER_A -> r <> REGISTER_C -> rtc_reg e' r = rtc_reg e r) /\
    rtc_busy e' = if rtc_addr e =? REGISTER_A then pred (rtc_busy e) else rtc_busy e;
  rtc_uip e : flag (rtc_reg e REGISTER_A) UIP = negb (Nat.eqb (rtc_busy e) 0);
  rtc_byte e r : 0 <= rtc_reg e r < 256
}.

(** ** Lemmas on one port access *)
Section Access.
Context {E : Type} `{RtcDevice E}.

Lemma addr_out_addr v e : rtc_addr (snd (outb RTC_ADDR_REG v e)) = v.
Proof. apply rtc_out_addr. Qed.
Lemma reg_out_addr v e r : rtc_reg (snd (outb RTC_ADDR_REG v e)) r = rtc_reg e r.
Proof. apply rtc_out_addr. Qed.
Lemma busy_out_addr v e : rtc_busy (snd (outb RTC_ADDR_REG v e)) = rtc_busy e.
Proof. apply rtc_out_addr. Qed.
Lemma addr_out_data v e :
  rtc_addr e <> REGISTER_A -> rtc_addr (snd (outb RTC_DATA_REG v e)) = rtc_addr e.
Proof. intros Ha. by apply (rtc_out_data v e Ha). Qed.
Lemma reg_out_data v e r :
  rtc_addr e <> REGISTER_A ->
  rtc_reg (snd (outb RTC_DATA_REG v e)) r = if r =? rtc_addr e then u8 v else rtc_reg e r.
Proof. intros Ha. by apply (rtc_out_data v e Ha). Qed.
Lemma busy_out_data v e :
  rtc_addr e <> REGISTER_A -> rtc_busy (snd (outb RTC_DATA_REG v e)) = rtc_busy e.
Proof. intros Ha. by apply (rtc_out_data v e Ha). Qed.
Lemma val_in_data e : fst (inb RTC_DATA_REG e) = rtc_reg e (rtc_addr e).
Proof.
  unfold inb, util_sys_inb, st_bind, st_ret. cbn.
  rewrite (proj1 (rtc_in_data e)). cbn. rewrite land_ones8. apply u8_id, rtc_byte.
Qed.
Lemma addr_in_data e : rtc_addr (snd (inb RTC_DATA_REG e)) = rtc_addr e.
Proof. apply (proj2 (rtc_in_data e)). Qed.
Lemma reg_in_data e r :
  r <> REGISTER_A -> r <> REGISTER_C -> rtc_reg (snd (inb RTC_DATA_REG e)) r = rtc_reg e r.
Proof. apply (proj2 (rtc_in_data e)). Qed.
Lemma busy_in_data e :
  rtc_busy (snd (inb RTC_DATA_REG e)) =
  if rtc_addr e =? REGISTER_A then pred (rtc_busy e) else rtc_busy e.
Proof. apply (proj2 (rtc_in_data e)). Qed.
End Access.

(** [rtc_run] evaluates a routine access by access. *)
Create Rewrite HintDb rtc.
#[export] Hint Rewrite @addr_out_addr @reg_out_addr @busy_out_addr @addr_in_data
  @busy_in_data : rtc.
#[export] Hint Rewrite @addr_out_data @reg_out_data @busy_out_data @reg_in_data
  using (first [discriminate | assumption | autorewrite with rtc; discriminate]) : rtc.
Ltac rtc_run :=
  unfold st_bind, st_ret; cbv zeta; cbn [fst snd];
  repeat first [rewrite val_in_data | progress autorewrite with rtc].

Lemma bcd_to_int_div_mod b : 0 <= b -> bcd_to_int b = b mod 16 + b / 16 * 10.
Proof.
  intros Hb. unfold bcd_to_int. change 15 with (Z.ones 4).
  rewrite Z.land_ones, Z.shiftr_div_pow2 by lia. reflexivity.
Qed.

Lemma int_to_bcd_digits n : 0 <= n < 100 -> int_to_bcd n = n mod 10 + n / 10 * 16.
Proof.
  intros Hn. unfold int_to_bcd. rewrite Z.rem_mod_nonneg, Z.quot_div_nonneg by lia.
  rewrite (u8_id (n mod 10)), (u8_id (n / 10)) by zlia.
  assert (Hd : Z.land (n mod 10) (Z.shiftl (n / 10) 4) = 0).
  { apply Z.bits_inj'. intros i Hi. rewrite Z.land_spec, Z.testbit_0_l, Z.shiftl_spec by lia.
    destruct (Z_lt_le_dec i 4); [rewrite (Z.testbit_neg_r (n / 10)) by lia; apply andb_false_r |].
    replace (Z.testbit (n mod 10) i) with false; [done |].
    symmetry. pose proof (Z.mod_pos_bound n 10 ltac:(lia)) as Hm.
    apply Z.bits_above_log2; [lia |].
    destruct (Z.eq_dec (n mod 10) 0) as [-> | Hz]; [cbn; lia |].
    apply Z.log2_lt_pow2; [lia |].
    apply Z.lt_le_trans with (2 ^ 4); [lia | apply Z.pow_le_mono_r; lia]. }
  rewrite <- Z.lxor_lor, <- Z.add_nocarry_lxor by done.
  rewrite Z.shiftl_mul_pow2 by lia. apply u8_id. zlia.
Qed.

(** A BCD byte is one whose two nibbles are decimal digits. *)
Definition is_bcd (b : Z) : Prop := 0 <= b < 256 /\ b mod 16 < 10 /\ b / 16 < 10.

Lemma bcd_int_bcd b : is_bcd b -> int_to_bcd (bcd_to_int b) = b.
Proof.
  intros (Hb & Hl & Hh). rewrite bcd_to_int_div_mod by lia.
  rewrite int_to_bcd_digits by zlia. zlia.
Qed.

Lemma bcd_to_int_range b : is_bcd b -> 0 <= bcd_to_int b < 100.
Proof. intros (Hb & Hl & Hh). rewrite bcd_to_int_div_mod by lia. zlia. Qed.

Lemma int_bcd_int n : 0 <= n < 100 -> bcd_to_int (int_to_bcd n) = n.
Proof.
  intros Hn. rewrite int_to_bcd_digits by done. rewrite bcd_to_int_div_mod by zlia. zlia.
Qed.

Lemma int_to_bcd_is_bcd n : 0 <= n < 100 -> is_bcd (int_to_bcd n).
Proof. intros Hn. rewrite int_to_bcd_digits by done. unfold is_bcd. zlia. Qed.

(** When the clock raises the alarm: an alarm register whose two high bits are
    set matches any value. *)
Definition alarm_matches (alarm now : Z) : bool := (192 <=? alarm) || (alarm =? now).
Definition alarm_fires {E} `{RtcDevice E} (e : E) (s m h : Z) : bool :=
  alarm_matches (rtc_reg e SECONDS_ALARM) s && alarm_matches (rtc_reg e MINUTES_ALARM) m &&
  alarm_matches (rtc_reg e HOURS_ALARM) h.

(** ** What the routines do to the registers *)
Section Routines.
Context {E : Type} `{RtcDevice E}.

Lemma set_seconds_alarm_regs e r :
  rtc_reg (snd (set_seconds_alarm e)) r =
  if (r =? SECONDS_ALARM) || (r =? MINUTES_ALARM) || (r =? HOURS_ALARM) then 192
  else rtc_reg e r.
Proof.
  unfold set_seconds_alarm. rtc_run.
  destruct (r =? HOURS_ALARM), (r =? MINUTES_ALARM), (r =? SECONDS_ALARM); done.
Qed.

Lemma set_timed_alarm_regs seconds e r :
  r <> REGISTER_A -> r <> REGISTER_C ->
  rtc_reg (snd (set_timed_alarm seconds e)) r =
  if (r =? MINUTES_ALARM) || (r =? HOURS_ALARM) then 192
  else if r =? SECONDS_ALARM
  then int_to_bcd (Z.rem (bcd_to_int (rtc_reg e SECONDS_REG) + seconds) 60)
  else rtc_reg e r.
Proof.
  intros HA HC. unfold set_timed_alarm. rtc_run.
  destruct (r =? HOURS_ALARM), (r =? MINUTES_ALARM), (r =? SECONDS_ALARM); try done.
  apply u8_id. unfold int_to_bcd. apply u8_range.
Qed.

(** The four read-modify-write routines on register B. *)
Lemma enable_alarm_int_regs e r :
  r <> REGISTER_A -> r <> REGISTER_C ->
  rtc_reg (snd (enable_alarm_int e)) r =
  if r =? REGISTER_B then u8 (Z.lor (rtc_reg e REGISTER_B) (BIT AIE)) else rtc_reg e r.
Proof. intros HA HC. unfold enable_alarm_int. by rtc_run. Qed.

Lemma disable_updates_regs e r :
  r <> REGISTER_A -> r <> REGISTER_C ->
  rtc_reg (snd (disable_updates e)) r =
  if r =? REGISTER_B then u8 (Z.land (rtc_reg e REGISTER_B) (Z.lnot (BIT UIE)))
  else rtc_reg e r.
Proof. intros HA HC. unfold disable_updates. by rtc_run. Qed.

Lemma enable_updates_regs e r :
  r <> REGISTER_A -> r <> REGISTER_C ->
  rtc_reg (snd (enable_updates e)) r =
  if r =? REGISTER_B then u8 (Z.land (rtc_reg e REGISTER_B) (Z.lnot (BIT SET)))
  else rtc_reg e r.
Proof. intros HA HC. unfold enable_updates. by rtc_run. Qed.

Lemma disable_updates_busy e : rtc_busy (snd (disable_updates e)) = rtc_busy e.
Proof. unfold disable_updates. by rtc_run. Qed.

Lemma enable_updates_busy e : rtc_busy (snd (enable_updates e)) = rtc_busy e.
Proof. unfold enable_updates. by rtc_run. Qed.

(** The date the registers hold. *)
Definition date_of (e : E) : date :=
  Date (bcd_to_int (rtc_reg e YEAR_REG)) (bcd_to_int (rtc_reg e MONTH_REG))
       (bcd_to_int (rtc_reg e DAY_REG)).

Lemma read_date_spec e :
  read_date e = (if Nat.eqb (rtc_busy e) 0 then Some (date_of e) else None, snd (read_date e)).
Proof.
  rewrite (surjective_pairing (read_date e)) at 1. f_equal.
  unfold read_date. rtc_run. rewrite rtc_uip. autorewrite with rtc.
  destruct (Nat.eqb (rtc_busy e) 0); cbn [negb]; [| done].
  rtc_run. unfold date_of. done.
Qed.
End Routines.

(** ** A concrete clock, for the witnesses *)
Record clock := Clock { ck_addr : Z; ck_regs : Z -> Z; ck_busy : nat }.

Definition clock_reg (c : clock) (r : Z) : Z :=
  if r =? REGISTER_A then (if Nat.eqb (ck_busy c) 0 then 0 else 128) else u8 (ck_regs c r).

Definition clock_inb (port : Z) : ST clock (Z * option Z) :=
  fun c => ((0, Some (if port =? RTC_DATA_REG then clock_reg c (ck_addr c) else 0)),
            if (port =? RTC_DATA_REG) && (ck_addr c =? REGISTER_A)
            then Clock (ck_addr c) (ck_regs c) (pred (ck_busy c)) else c).

Definition clock_outb (port v : Z) : ST clock Z :=
  fun c => (0, if port =? RTC_ADDR_REG then Clock v (ck_regs c) (ck_busy c)
               else if port =? RTC_DATA_REG
               then Clock (ck_addr c)
                          (fun r => if r =? ck_addr c then u8 v else ck_regs c r) (ck_busy c)
               else c).

#[export] Instance clock_ports : Ports clock := {| sys_inb := clock_inb; sys_outb := clock_outb |}.

#[export] Instance clock_device : RtcDevice clock.
Proof.
  refine {| rtc_addr := ck_addr; rtc_reg := clock_reg; rtc_busy := ck_busy |}.
  - intros v e. cbn. done.
  - intros v [a rs b] Ha. cbn in *. repeat split. intros r.
    unfold clock_reg; cbn. destruct (Z.eqb_spec r REGISTER_A) as [-> |].
    + apply Z.eqb_neq in Ha. rewrite Z.eqb_sym, Ha. done.
    + destruct (r =? a); [| done]. apply u8_id, u8_range.
  - intros [a rs b]. cbn. split; [done |].
    destruct (Z.eqb_spec a REGISTER_A) as [-> | Hne]; cbn; repeat split; try done.
    intros r HA _. unfold clock_reg; cbn. by apply Z.eqb_neq in HA as ->.
  - intros [a rs [| b]]; done.
  - intros [a rs b] r. unfold clock_reg. destruct (r =? REGISTER_A).
    + destruct (Nat.eqb _ _); lia.
    + apply u8_range.
Defined.

(** 17/12/20, 23:59:58, an update in progress for the next two reads. *)
Definition clock0 : clock :=
  Clock 0 (fun r => if r =? SECONDS_REG then 88 else if r =? DAY_REG then 23
                    else if r =? MONTH_REG then 18 else if r =? YEAR_REG then 32 else 0) 2.

(** ** Properties *)

(** The BCD conversions are mutually inverse on 0..99 and on the bytes whose
    nibbles are digits. *)
Theorem bcd_roundtrip :
  (forall n, 0 <= n < 100 -> is_bcd (int_to_bcd n) /\ bcd_to_int (int_to_bcd n) = n) /\
  (forall b, is_bcd b -> int_to_bcd (bcd_to_int b) = b /\ 0 <= bcd_to_int b < 100).
Proof.
  split.
  - intros n Hn. split; [by apply int_to_bcd_is_bcd | by apply int_bcd_int].
  - intros b Hb. split; [by apply bcd_int_bcd | by apply bcd_to_int_range].
Qed.

(** C27. After [set_timed_alarm(seconds)] the clock raises the alarm exactly when
    the seconds reach [(now + seconds) mod 60], whatever the minute and hour. *)
Theorem set_timed_alarm_fires {E} `{RtcDevice E} (e : E) (seconds s m h : Z) :
  is_bcd (rtc_reg e SECONDS_REG) -> bcd_to_int (rtc_reg e SECONDS_REG) < 60 ->
  0 <= seconds < 256 -> 0 <= s < 60 ->
  alarm_fires (snd (set_timed_alarm seconds e)) (int_to_bcd s) m h =
  (s =? (bcd_to_int (rtc_reg e SECONDS_REG) + seconds) mod 60).
Proof.
  intros Hb Hnow Hsec Hs. unfold alarm_fires.
  rewrite !set_timed_alarm_regs by discriminate.
  change (alarm_matches _ m) with true. change (alarm_matches _ h) with true.
  rewrite !andb_true_r. change (SECONDS_ALARM =? MINUTES_ALARM) with false. cbn.
  pose proof (bcd_to_int_range _ Hb) as Hn.
  set (now := bcd_to_int (rtc_reg e SECONDS_REG)) in *.
  rewrite Z.rem_mod_nonneg by lia.
  assert (Ht : 0 <= (now + seconds) mod 60 < 60) by (apply Z.mod_pos_bound; lia).
  set (t := (now + seconds) mod 60) in *.
  unfold alarm_matches. replace (192 <=? int_to_bcd t) with false.
  2: { symmetry. apply Z.leb_gt. rewrite int_to_bcd_digits by lia. zlia. }
  cbn. apply eq_true_iff_eq. rewrite !Z.eqb_eq. split; [| by intros ->].
  intros Heq. apply (f_equal bcd_to_int) in Heq. rewrite !int_bcd_int in Heq by lia. lia.
Qed.

Lemma set_timed_alarm_fires_witness :
  is_bcd (rtc_reg clock0 SECONDS_REG) /\
  alarm_fires (snd (set_timed_alarm 5 clock0)) (int_to_bcd 3) 7 9 = true.
Proof.
  assert (Hb : is_bcd (rtc_reg clock0 SECONDS_REG)) by (vm_compute; intuition discriminate).
  split; [exact Hb |].
  rewrite (set_timed_alarm_fires clock0 5 3 7 9 Hb); [reflexivity | reflexivity | lia | lia].
Defined.

(** [set_seconds_alarm] makes the alarm fire at every second. *)
Theorem set_seconds_alarm_fires {E} `{RtcDevice E} (e : E) (s m h : Z) :
  alarm_fires (snd (set_seconds_alarm e)) s m h = true.
Proof. unfold alarm_fires. by rewrite !set_seconds_alarm_regs. Qed.

Lemma date_of_ext {E} `{RtcDevice E} (e e' : E) :
  (forall r, r <> REGISTER_A -> r <> REGISTER_B -> r <> REGISTER_C ->
             rtc_reg e' r = rtc_reg e r) -> date_of e' = date_of e.
Proof. intros Hr. unfold date_of. by rewrite !Hr. Qed.

Lemma read_date_regs {E} `{RtcDevice E} (e : E) r :
  r <> REGISTER_A -> r <> REGISTER_C -> rtc_reg (snd (read_date e)) r = rtc_reg e r.
Proof.
  intros HA HC. unfold read_date. rtc_run.
  destruct (flag _ _); by rtc_run.
Qed.

Lemma read_date_busy {E} `{RtcDevice E} (e : E) :
  rtc_busy (snd (read_date e)) = pred (rtc_busy e).
Proof. unfold read_date. rtc_run. destruct (flag _ _); by rtc_run. Qed.



(** [enable_alarm_int] sets the alarm-interrupt bit of register B and changes
    no other bit of it and no other register. *)
Theorem enable_alarm_int_sets_aie {E} `{RtcDevice E} (e : E) (r i : Z) :
  r <> REGISTER_A -> r <> REGISTER_C -> 0 <= i < 8 ->
  Z.testbit (rtc_reg (snd (enable_alarm_int e)) r) i =
  ((r =? REGISTER_B) && (i =? AIE)) || Z.testbit (rtc_reg e r) i.
Proof.
  intros HA HC Hi. rewrite enable_alarm_int_regs by done.
  destruct (Z.eqb_spec r REGISTER_B) as [-> |]; [| done].
  unfold u8. change 256 with (2 ^ 8). rewrite Z.mod_pow2_bits_low by lia.
  rewrite Z.lor_spec, BIT_testbit by (unfold AIE; lia). cbn. apply orb_comm.
Qed.

Lemma enable_alarm_int_sets_aie_witness :
  Z.testbit (rtc_reg (snd (enable_alarm_int clock0)) REGISTER_B) 5 = true.
Proof.
  rewrite (enable_alarm_int_sets_aie clock0 REGISTER_B 5); [reflexivity | discriminate | discriminate | lia].
Defined.

(** [disable_updates] clears the update-interrupt bit [UIE]; it leaves the bit
    [SET], the one that inhibits the updates of the registers, as it was. *)
Theorem disable_updates_keeps_set {E} `{RtcDevice E} (e : E) :
  Z.testbit (rtc_reg (snd (disable_updates e)) REGISTER_B) SET =
  Z.testbit (rtc_reg e REGISTER_B) SET /\
  Z.testbit (rtc_reg (snd (disable_updates e)) REGISTER_B) UIE = false.
Proof.
  rewrite disable_updates_regs by discriminate. cbn [Z.eqb].
  rewrite Z.eqb_refl. unfold u8. change 256 with (2 ^ 8).
  rewrite !Z.mod_pow2_bits_low by (unfold SET, UIE; lia).
  rewrite !Z.land_spec, !Z.lnot_spec, !BIT_testbit by (unfold SET, UIE; lia).
  cbn. split; [apply andb_true_r | apply andb_false_r].
Qed.
