(* ===== verification/Uart.v ===== *)
(** [uart.c]: the serial port driver. *)

From stdpp Require Import base tactics list.
From Stdlib Require Import ZArith Lia.
From S2P Require Import Prelude Consts Ports.

Section Subscribe.
Context {E : Type} `{Irqs E}.

Definition uart_subscribe : ST E subscription :=
  let hook_id := UART_IRQ in
  let bit_no := u8 hook_id in
  let+ r := sys_irqsetpolicy UART_IRQ (Z.lor IRQ_REENABLE IRQ_EXCLUSIVE) hook_id in
  do+ sys_irqenable (snd r) in
  st_ret (Subscription (fst r) bit_no (snd r)).

Definition uart_unsubscribe (notification : Z) : ST E Z :=
  do+ sys_irqrmpolicy notification in
  do+ sys_irqdisable notification in
  st_ret 0.
End Subscribe.

Section Uart.
Context {E : Type} `{Ports E}.

Definition check_thr_emtpy : ST E bool :=
  let+ lsr := inb (COM1 + LSR) in
  st_ret (flag lsr LSR_THR).

(** 0 if there is a byte, 1 on error, 2 if empty. *)
Definition check_buffer : ST E Z :=
  let+ lsr := inb (COM1 + LSR) in
  let error := flag lsr LSR_FIFO_ERROR in
  let empty := negb (flag lsr LSR_REC_DATA) in
  st_ret (if error then 1 else if empty then 2 else 0).

(** The mask is [!LCR_DLAB], the logical negation of a non-zero constant. *)
Definition check_data_dlab : ST E bool :=
  let+ lcr := inb (COM1 + LCR) in
  st_ret (truth (Z.land lcr (if truth (BIT LCR_DLAB) then 0 else 1))).

Definition set_data_dlab : ST E unit :=
  let+ lcr := inb (COM1 + LCR) in
  let lcr := Z.land lcr (Z.lnot (BIT LCR_DLAB)) in
  outb (COM1 + LCR) lcr.

Definition serial_write_byte (byte : Z) : ST E bool :=
  let+ data_mode := check_data_dlab in
  do+ (if negb data_mode then set_data_dlab else st_ret tt) in
  let+ empty := check_thr_emtpy in
  if empty then
    do+ outb (COM1 + SER_DATA) byte in
    st_ret true
  else st_ret false.

Fixpoint serial_write_message (bytes : list Z) : ST E bool :=
  match bytes with
  | [] => st_ret true
  | b :: bytes =>
      let+ ok := serial_write_byte b in
      let+ success := serial_write_message bytes in
      st_ret (ok && success)
  end.

Definition seria_write_ack : ST E bool := serial_write_byte 0.

(** The byte read, and whether the transmitter is empty. *)
Definition serial_read_byte : ST E (Z * bool) :=
  let+ byte := inb (COM1 + SER_DATA) in
  let+ empty := check_thr_emtpy in
  st_ret (byte, empty).

Definition enable_received_data_int : ST E unit :=
  let+ ier := inb (COM1 + IER) in
  outb (COM1 + IER) (Z.lor ier (BIT IER_DATA_INT)).

Definition enable_trans_empty_int : ST E unit :=
  let+ ier := inb (COM1 + IER) in
  outb (COM1 + IER) (Z.lor ier (BIT IER_TRANS_EMPTY_INT)).

(** The masks of the two disabling routines are [~!BIT(n)], that is [~0]. *)
Definition disable_received_data_int : ST E unit :=
  let+ ier := inb (COM1 + IER) in
  outb (COM1 + IER) (Z.land ier (Z.lnot (if truth (BIT IER_DATA_INT) then 0 else 1))).

Definition disable_trans_empty_int : ST E unit :=
  let+ ier := inb (COM1 + IER) in
  outb (COM1 + IER) (Z.land ier (Z.lnot (if truth (BIT IER_TRANS_EMPTY_INT) then 0 else 1))).

Definition get_int_origin : ST E Z :=
  let+ iir := inb (COM1 + IIR) in
  st_ret (Z.land (Z.shiftr iir 1) 7).

(** The origin of the interrupt, and the new value of [*data]. *)
Definition uart_handler (data : Z) : ST E (Z * Z) :=
  let+ orig := get_int_origin in
  if orig =? IIR_REC_DATA then
    let+ r := serial_read_byte in
    st_ret (orig, fst r)
  else st_ret (orig, data).
End Uart.

(** What is left in [*data] is a byte. *)
Lemma uart_handler_byte {E} `{Ports E} data (e : E) :
  0 <= data < 256 -> 0 <= snd (fst (uart_handler data e)) < 256.
Proof.
  intros Hd. unfold uart_handler, serial_read_byte, st_bind, st_ret. destruct (_ =? IIR_REC_DATA); [| done].
  cbn [fst snd]. apply inb_range.
Qed.

(** ** The device

    The line-control, interrupt-enable and line-status registers, and the bytes
    handed to the transmitter so far: a write to the data port transmits only
    while [DLAB] is clear. *)
Class UartDevice (E : Type) `{Ports E} := {
  uart_lcr : E -> Z;
  uart_ier : E -> Z;
  uart_lsr : E -> Z;
  uart_tx : E -> list Z;
  uart_in_lcr e :
    snd (fst (sys_inb (COM1 + LCR) e)) = Some (uart_lcr e) /\
    let e' := snd (sys_inb (COM1 + LCR) e) in
    uart_lcr e' = uart_lcr e /\ uart_ier e' = uart_ier e /\ uart_lsr e' = uart_lsr e /\
    uart_tx e' = uart_tx e;
  uart_in_lsr e :
    snd (fst (sys_inb (COM1 + LSR) e)) = Some (uart_lsr e) /\
    let e' := snd (sys_inb (COM1 + LSR) e) in
    uart_lcr e' = uart_lcr e /\ uart_ier e' = uart_ier e /\ uart_lsr e' = uart_lsr e /\
    uart_tx e' = uart_tx e;
  uart_in_ier e :
    snd (fst (sys_inb (COM1 + IER) e)) = Some (uart_ier e) /\
    let e' := snd (sys_inb (COM1 + IER) e) in
    uart_lcr e' = uart_lcr e /\ uart_ier e' = uart_ier e /\ uart_lsr e' = uart_lsr e /\
    uart_tx e' = uart_tx e;
  uart_out_lcr v e :
    let e' := snd (sys_outb (COM1 + LCR) v e) in
    uart_lcr e' = u8 v /\ uart_ier e' = uart_ier e /\ uart_lsr e' = uart_lsr e /\
    uart_tx e' = uart_tx e;
  uart_out_ier v e :
    flag (uart_lcr e) LCR_DLAB = false ->
    let e' := snd (sys_outb (COM1 + IER) v e) in
    uart_lcr e' = uart_lcr e /\ uart_ier e' = u8 v /\ uart_tx e' = uart_tx e;
  uart_out_data v e :
    let e' := snd (sys_outb (COM1 + SER_DATA) v e) in
    uart_lcr e' = uart_lcr e /\ uart_ier e' = uart_ier e /\
    uart_tx e' = if flag (uart_lcr e) LCR_DLAB then uart_tx e else uart_tx e ++ [u8 v];
  uart_byte e : 0 <= uart_lcr e < 256 /\ 0 <= uart_ier e < 256 /\ 0 <= uart_lsr e < 256
}.

Section Access.
Context {E : Type} `{UartDevice E}.

(** What a read of a register returns, once its byte is known. *)
Lemma inb_known port v (e : E) :
  0 <= v < 256 -> snd (fst (sys_inb port e)) = Some v -> fst (inb port e) = v.
Proof.
  intros Hv Hs. unfold inb, util_sys_inb, st_bind, st_ret. cbn.
  rewrite Hs. cbn. rewrite land_ones8. by apply u8_id.
Qed.

Lemma inb_lcr e : fst (inb (COM1 + LCR) e) = uart_lcr e.
Proof. apply inb_known; [apply uart_byte | apply uart_in_lcr]. Qed.
Lemma inb_lsr e : fst (inb (COM1 + LSR) e) = uart_lsr e.
Proof. apply inb_known; [apply uart_byte | apply uart_in_lsr]. Qed.
Lemma inb_ier e : fst (inb (COM1 + IER) e) = uart_ier e.
Proof. apply inb_known; [apply uart_byte | apply uart_in_ier]. Qed.

Lemma inb_keeps port e :
  port = COM1 + LCR \/ port = COM1 + LSR \/ port = COM1 + IER ->
  uart_lcr (snd (inb port e)) = uart_lcr e /\ uart_ier (snd (inb port e)) = uart_ier e /\
  uart_lsr (snd (inb port e)) = uart_lsr e /\ uart_tx (snd (inb port e)) = uart_tx e.
Proof.
  intros [-> | [-> | ->]]; [apply uart_in_lcr | apply uart_in_lsr | apply uart_in_ier].
Qed.

Lemma check_data_dlab_false e : fst (check_data_dlab e) = false.
Proof. unfold check_data_dlab, st_bind, st_ret. cbn. by rewrite Z.land_0_r. Qed.

Lemma check_data_dlab_keeps e :
  uart_lcr (snd (check_data_dlab e)) = uart_lcr e /\
  uart_ier (snd (check_data_dlab e)) = uart_ier e /\
  uart_lsr (snd (check_data_dlab e)) = uart_lsr e /\ uart_tx (snd (check_data_dlab e)) = uart_tx e.
Proof. apply (inb_keeps (COM1 + LCR)). auto. Qed.

Lemma check_thr_empty_val e : fst (check_thr_emtpy e) = flag (uart_lsr e) LSR_THR.
Proof. unfold check_thr_emtpy, st_bind, st_ret. cbn [fst]. by rewrite inb_lsr. Qed.

Lemma check_thr_empty_keeps e :
  uart_lcr (snd (check_thr_emtpy e)) = uart_lcr e /\
  uart_ier (snd (check_thr_emtpy e)) = uart_ier e /\
  uart_lsr (snd (check_thr_emtpy e)) = uart_lsr e /\ uart_tx (snd (check_thr_emtpy e)) = uart_tx e.
Proof. apply (inb_keeps (COM1 + LSR)). auto. Qed.

(** [set_data_dlab] clears bit 7 of the line-control register. *)
Lemma set_data_dlab_spec e :
  let e' := snd (set_data_dlab e) in
  uart_lcr e' = u8 (Z.land (uart_lcr e) (Z.lnot (BIT LCR_DLAB))) /\
  uart_ier e' = uart_ier e /\ uart_lsr e' = uart_lsr e /\ uart_tx e' = uart_tx e.
Proof.
  unfold set_data_dlab, st_bind. cbn [fst snd].
  destruct (inb_keeps (COM1 + LCR) e) as (_ & Hi & Hl & Ht); [auto |].
  rewrite inb_lcr.
  destruct (uart_out_lcr (Z.land (uart_lcr e) (Z.lnot (BIT LCR_DLAB)))
              (snd (inb (COM1 + LCR) e))) as (H1 & H2 & H3 & H4).
  unfold outb, st_bind, st_ret. cbv zeta. cbn [fst snd]. rewrite H1, H2, H3, H4. auto.
Qed.

Lemma set_data_dlab_dlab e : flag (uart_lcr (snd (set_data_dlab e))) LCR_DLAB = false.
Proof.
  rewrite (proj1 (set_data_dlab_spec e)), flag_testbit by (unfold LCR_DLAB; lia).
  unfold u8. change 256 with (2 ^ 8). rewrite Z.mod_pow2_bits_low by (unfold LCR_DLAB; lia).
  rewrite Z.land_spec, Z.lnot_spec, BIT_testbit by (unfold LCR_DLAB; lia). apply andb_false_r.
Qed.
End Access.

(** ** The line

    A byte that comes in ([arrive]) waits in the receive buffer with its interrupt
    pending; the other ports of the machine are apart from the serial port; the
    line takes a byte as soon as it is written. *)
Definition foreign (port : Z) : bool := (port <? COM1) || (COM1 + 8 <=? port).

Class SerialLine (E : Type) `{UartDevice E} := {
  arrive : Z -> E -> E;
  uart_rx : E -> option Z;
  rx_byte b e : uart_rx e = Some b -> 0 <= b < 256;
  rx_arrive b e : 0 <= b < 256 ->
    (uart_lcr (arrive b e), flag (uart_lsr (arrive b e)) LSR_THR, uart_tx (arrive b e), uart_rx (arrive b e)) =
    (uart_lcr e, flag (uart_lsr e) LSR_THR, uart_tx e, Some b);
  rx_iir b e : uart_rx e = Some b ->
    let r := sys_inb (COM1 + IIR) e in
    (exists v, snd (fst r) = Some v /\ 0 <= v < 256 /\ Z.land (Z.shiftr v 1) 7 = IIR_REC_DATA) /\
    (uart_lcr (snd r), uart_lsr (snd r), uart_tx (snd r), uart_rx (snd r)) =
    (uart_lcr e, uart_lsr e, uart_tx e, uart_rx e);
  rx_data b e : uart_rx e = Some b -> flag (uart_lcr e) LCR_DLAB = false ->
    let r := sys_inb (COM1 + SER_DATA) e in
    snd (fst r) = Some b /\
    (uart_lcr (snd r), flag (uart_lsr (snd r)) LSR_THR, uart_tx (snd r)) =
    (uart_lcr e, flag (uart_lsr e) LSR_THR, uart_tx e);
  foreign_in p e : foreign p = true ->
    let e' := snd (sys_inb p e) in
    (uart_lcr e', uart_lsr e', uart_tx e', uart_rx e') = (uart_lcr e, uart_lsr e, uart_tx e, uart_rx e);
  foreign_out p v e : foreign p = true ->
    let e' := snd (sys_outb p v e) in
    (uart_lcr e', uart_lsr e', uart_tx e', uart_rx e') = (uart_lcr e, uart_lsr e, uart_tx e, uart_rx e);
  thr_free v e : flag (uart_lsr e) LSR_THR = true ->
    flag (uart_lsr (snd (sys_outb (COM1 + SER_DATA) v e))) LSR_THR = true
}.

Section Line.
Context {E : Type} `{SerialLine E}.

(** The transmitter is free and the data port is open. *)
Definition link_up (e : E) : Prop := flag (uart_lsr e) LSR_THR = true /\ flag (uart_lcr e) LCR_DLAB = false.

(** A step that is apart from the serial port. *)
Definition apart (e e' : E) : Prop :=
  (uart_lcr e', uart_lsr e', uart_tx e', uart_rx e') = (uart_lcr e, uart_lsr e, uart_tx e, uart_rx e).

#[export] Instance apart_preorder : PreOrder apart.
Proof. split; [intros e; reflexivity |]. intros e1 e2 e3 H12 H23. exact (eq_trans H23 H12). Qed.

Lemma apart_link e e' : apart e e' -> link_up e -> link_up e' /\ uart_tx e' = uart_tx e /\ uart_rx e' = uart_rx e.
Proof. unfold apart, link_up. intros He [Ht Hd]. injection He as -> -> -> ->. done. Qed.

Lemma apart_inb p : foreign p = true -> st_keeps apart (inb p).
Proof. intros Hp e. exact (foreign_in p e Hp). Qed.

Lemma apart_outb p v : foreign p = true -> st_keeps apart (outb p v).
Proof. intros Hp e. exact (foreign_out p v e Hp). Qed.

Lemma link_check (e : E) :
  link_up e -> fst (check_thr_emtpy e) = true /\ uart_tx (snd (check_thr_emtpy e)) = uart_tx e /\
    link_up (snd (check_thr_emtpy e)).
Proof.
  intros [Ht Hd]. rewrite check_thr_empty_val. destruct (check_thr_empty_keeps e) as (Hc & _ & Hl & Hx).
  unfold link_up. by rewrite Hc, Hl, Hx.
Qed.

Lemma link_write b (e : E) :
  link_up e -> 0 <= b < 256 -> uart_tx (snd (serial_write_byte b e)) = uart_tx e ++ [b] /\
    link_up (snd (serial_write_byte b e)).
Proof.
  intros [Ht Hd] Hb. unfold serial_write_byte, st_bind. rewrite check_data_dlab_false. cbn [negb].
  destruct (check_data_dlab_keeps e) as (_ & _ & Hl1 & Ht1).
  set (e1 := snd (check_data_dlab e)) in *.
  pose proof (set_data_dlab_spec e1) as (_ & _ & Hl2 & Ht2).
  pose proof (set_data_dlab_dlab e1) as Hd2. set (e2 := snd (set_data_dlab e1)) in *.
  destruct (link_check e2) as (Hc3 & Ht3 & [Hl3 Hd3]); [split; [by rewrite Hl2, Hl1 | done] |].
  rewrite Hc3. set (e3 := snd (check_thr_emtpy e2)) in *.
  pose proof (uart_out_data b e3) as (Hlcr & _ & Htx). pose proof (thr_free b e3 Hl3) as Hfree.
  unfold outb, st_bind, st_ret, link_up. cbn [fst snd]. by rewrite Hlcr, Htx, Hd3, Ht3, Ht2, Ht1, u8_id.
Qed.

(** The handler takes the byte that waits. *)
Lemma link_origin b (e : E) :
  uart_rx e = Some b -> fst (get_int_origin e) = IIR_REC_DATA /\ apart e (snd (get_int_origin e)).
Proof.
  intros Hb. destruct (rx_iir b e Hb) as ((v & Hv & Hvr & Horig) & He1). split; [| exact He1].
  unfold get_int_origin, st_bind, st_ret. cbn [fst]. by rewrite (inb_known _ _ _ Hvr Hv).
Qed.

Lemma link_read b (e : E) :
  link_up e -> uart_rx e = Some b ->
  fst (fst (serial_read_byte e)) = b /\ uart_tx (snd (serial_read_byte e)) = uart_tx e /\ link_up (snd (serial_read_byte e)).
Proof.
  intros [Ht Hd] Hb. pose proof (rx_byte b e Hb) as Hrange.
  destruct (rx_data b e Hb Hd) as [Hdata He2]. injection He2 as Hlcr Hthr Htx.
  unfold serial_read_byte, st_bind, st_ret. cbn [fst snd]. rewrite (inb_known _ _ _ Hrange Hdata).
  change (snd (inb (COM1 + SER_DATA) e)) with (snd (sys_inb (COM1 + SER_DATA) e)).
  destruct (link_check (snd (sys_inb (COM1 + SER_DATA) e))) as (_ & Ht3 & Hup3); [by unfold link_up; rewrite Hthr, Hlcr |].
  by rewrite Ht3, Htx.
Qed.

Lemma link_handler data b (e : E) :
  link_up e -> uart_rx e = Some b ->
  fst (uart_handler data e) = (IIR_REC_DATA, b) /\ uart_tx (snd (uart_handler data e)) = uart_tx e /\
    link_up (snd (uart_handler data e)).
Proof.
  intros Hup Hb. destruct (link_origin b e Hb) as [Ho Ha]. destruct (apart_link _ _ Ha Hup) as (Hup1 & Ht1 & Hr1).
  rewrite <- Hr1 in Hb. destruct (link_read b _ Hup1 Hb) as (Hv & Ht2 & Hup2).
  unfold uart_handler, st_bind. rewrite Ho. change (IIR_REC_DATA =? IIR_REC_DATA) with true. cbn iota.
  unfold st_ret. cbn [fst snd]. by rewrite Hv, Ht2, Ht1.
Qed.
End Line.

(** ** A concrete serial port, for the witnesses *)
Record serial := Serial { sp_lcr : Z; sp_ier : Z; sp_lsr : Z; sp_iir : Z; sp_rx : Z; sp_tx : list Z }.

Definition serial_inb (port : Z) : ST serial (Z * option Z) :=
  fun p => ((0, Some (if port =? COM1 + LCR then u8 (sp_lcr p)
                      else if port =? COM1 + LSR then u8 (sp_lsr p)
                      else if port =? COM1 + IER then u8 (sp_ier p)
                      else if port =? COM1 + IIR then u8 (sp_iir p)
                      else if port =? COM1 + SER_DATA then u8 (sp_rx p) else 0)), p).

Definition serial_outb (port v : Z) : ST serial Z :=
  fun p => (0,
    if port =? COM1 + LCR then Serial (u8 v) (sp_ier p) (sp_lsr p) (sp_iir p) (sp_rx p) (sp_tx p)
    else if port =? COM1 + IER then Serial (sp_lcr p) (u8 v) (sp_lsr p) (sp_iir p) (sp_rx p) (sp_tx p)
    else if port =? COM1 + SER_DATA then
      Serial (sp_lcr p) (sp_ier p) (sp_lsr p) (sp_iir p) (sp_rx p)
             (if flag (u8 (sp_lcr p)) LCR_DLAB then sp_tx p else sp_tx p ++ [u8 v])
    else p).

#[export] Instance serial_ports : Ports serial := {| sys_inb := serial_inb; sys_outb := serial_outb |}.

#[export] Instance serial_device : UartDevice serial.
Proof.
  refine {| uart_lcr p := u8 (sp_lcr p); uart_ier p := u8 (sp_ier p);
            uart_lsr p := u8 (sp_lsr p); uart_tx := sp_tx |}.
  all: intros; repeat match goal with x := _ |- _ => subst x end; cbv -[u8 flag app LCR_DLAB Z.le Z.lt];
       rewrite ?(u8_id (u8 _)) by apply u8_range; repeat split; first [reflexivity | apply u8_range].
Defined.

#[export, refine] Instance serial_line : SerialLine serial := {
  arrive b p := Serial (sp_lcr p) (sp_ier p) (sp_lsr p) 4 b (sp_tx p);
  uart_rx p := if sp_iir p =? 4 then Some (u8 (sp_rx p)) else None
}.
Proof.
  - intros b p. destruct (sp_iir p =? 4); [| done]. intros [= <-]. apply u8_range.
  - intros b p Hb.
    change ((u8 (sp_lcr p), flag (u8 (sp_lsr p)) LSR_THR, sp_tx p, Some (u8 b)) =
      (u8 (sp_lcr p), flag (u8 (sp_lsr p)) LSR_THR, sp_tx p, Some b)). by rewrite (u8_id b).
  - intros b p. destruct (Z.eqb_spec (sp_iir p) 4) as [Hi |]; [| done]. intros [= <-]. split.
    + exists 4. change (sys_inb (COM1 + IIR) p) with ((0, Some (u8 (sp_iir p))), p). by rewrite Hi.
    + change (sys_inb (COM1 + IIR) p) with ((0, Some (u8 (sp_iir p))), p). cbn [snd]. by rewrite Hi.
  - intros b p. destruct (sp_iir p =? 4); [| done]. intros [= <-] _. done.
  - done.
  - intros port v p Hp. unfold foreign in Hp. cbn. unfold serial_outb.
    replace (port =? COM1 + LCR) with false by (symmetry; apply Z.eqb_neq; unfold COM1, LCR in *; unbool; lia).
    replace (port =? COM1 + IER) with false by (symmetry; apply Z.eqb_neq; unfold COM1, IER in *; unbool; lia).
    replace (port =? COM1 + SER_DATA) with false by (symmetry; apply Z.eqb_neq; unfold COM1, SER_DATA in *; unbool; lia).
    done.
  - done.
Defined.

(** ** Properties *)

(** [serial_write_byte] sends the byte exactly when the transmitter holding
    register is empty, and tells its caller so; it leaves the port in data
    mode.  That holds although the test of the mode, [check_data_dlab], is
    always false. *)
Theorem serial_write_byte_sends {E} `{UartDevice E} (e : E) (byte : Z) :
  let empty := flag (uart_lsr e) LSR_THR in
  fst (serial_write_byte byte e) = empty /\
  uart_tx (snd (serial_write_byte byte e)) = uart_tx e ++ (if empty then [u8 byte] else []) /\
  flag (uart_lcr (snd (serial_write_byte byte e))) LCR_DLAB = false.
Proof.
  cbv zeta. unfold serial_write_byte, st_bind. rewrite check_data_dlab_false. cbn [negb].
  destruct (check_data_dlab_keeps e) as (_ & _ & Hl1 & Ht1).
  set (e1 := snd (check_data_dlab e)) in *.
  pose proof (set_data_dlab_spec e1) as (_ & _ & Hl2 & Ht2).
  pose proof (set_data_dlab_dlab e1) as Hd2. set (e2 := snd (set_data_dlab e1)) in *.
  destruct (check_thr_empty_keeps e2) as (Hc3 & _ & _ & Ht3).
  rewrite (check_thr_empty_val e2), Hl2, Hl1.
  set (e3 := snd (check_thr_emtpy e2)) in *.
  destruct (flag (uart_lsr e) LSR_THR); unfold st_ret; cbn [fst snd].
  - pose proof (uart_out_data byte e3) as (H1 & _ & H2).
    unfold outb, st_bind, st_ret. cbn [fst snd]. rewrite H1, H2, Hc3, Hd2, Ht3, Ht2, Ht1. done.
  - rewrite Hc3, Hd2, Ht3, Ht2, Ht1, app_nil_r. done.
Qed.

(** The two routines that should disable an interrupt source leave the
    interrupt-enable register as it is. *)
Theorem disable_int_is_noop {E} `{UartDevice E} (e : E) :
  flag (uart_lcr e) LCR_DLAB = false ->
  uart_ier (snd (disable_received_data_int e)) = uart_ier e /\
  uart_ier (snd (disable_trans_empty_int e)) = uart_ier e.
Proof.
  intros Hd. destruct (inb_keeps (COM1 + IER) e) as (Hl & _ & _ & _); [auto |].
  assert (Hw : forall m, m = -1 ->
    uart_ier (snd (outb (COM1 + IER) (Z.land (fst (inb (COM1 + IER) e)) m)
                     (snd (inb (COM1 + IER) e)))) = uart_ier e).
  { intros m ->. rewrite Z.land_m1_r, inb_ier. unfold outb, st_bind, st_ret. cbn [snd].
    pose proof (uart_out_ier (uart_ier e) (snd (inb (COM1 + IER) e))) as Ho.
    rewrite Hl in Ho. destruct (Ho Hd) as (_ & -> & _). apply u8_id, uart_byte. }
  split; apply Hw; reflexivity.
Qed.

Definition serial0 : serial := Serial 3 3 32 4 7 [].

Lemma disable_int_is_noop_witness :
  flag (uart_lcr serial0) LCR_DLAB = false /\
  uart_ier (snd (disable_received_data_int serial0)) = 3.
Proof.
  assert (Hd : flag (uart_lcr serial0) LCR_DLAB = false) by reflexivity.
  split; [exact Hd |]. rewrite (proj1 (disable_int_is_noop serial0 Hd)). reflexivity.
Defined.
