(* ===== verification/Timer.v ===== *)
(** [timer.c]: the subscription to the interrupts of the timer. *)

From stdpp Require Import base tactics list.
From Stdlib Require Import ZArith Lia.
From S2P Require Import Prelude Consts Ports.

Section Timer.
Context {E : Type} `{Irqs E}.

(** The identifier of the hook is kept in the static [timer_hook_id], the
    [notification] of the result. *)
Definition timer_subscribe_int : ST E subscription :=
  let hook_id := TIMER0_IRQ in
  let bit_no := u8 hook_id in
  let+ r := sys_irqsetpolicy TIMER0_IRQ IRQ_REENABLE hook_id in
  st_ret (Subscription (fst r) bit_no (snd r)).

Definition timer_unsubscribe_int (timer_hook_id : Z) : ST E Z := sys_irqrmpolicy timer_hook_id.
End Timer.
