(* ===== verification/Keyboard.v ===== *)
(** [keyboard.c]: the keyboard interrupt handler and the scancode decoder. *)

From stdpp Require Import base tactics list.
From Stdlib Require Import ZArith Lia Ascii.
From S2P Require Import Prelude Consts Ports.

(** A C character constant. *)
Definition ch (c : ascii) : Z := Z.of_nat (nat_of_ascii c).

(** Replaces the character constants by their codes. *)
Ltac chars :=
  repeat match goal with
    | |- context [ch ?c] => let v := eval vm_compute in (ch c) in change (ch c) with v
    | H : context [ch ?c] |- _ => let v := eval vm_compute in (ch c) in change (ch c) with v in H
    end.

(** ** The interrupt line *)

Section Subscribe.
Context {E : Type} `{Irqs E}.

Definition keyboard_subscribe : ST E subscription :=
  let hook_id := KBD_IRQ in
  let bin_no := u8 hook_id in
  let+ r := sys_irqsetpolicy KBD_IRQ (Z.lor IRQ_REENABLE IRQ_EXCLUSIVE) hook_id in
  st_ret (Subscription (fst r) bin_no (snd r)).

Definition keyboard_unsubscribe (notification : Z) : ST E Z := sys_irqrmpolicy notification.
End Subscribe.

(** ** Decoding *)

Definition scancode_is_make (data_byte : Z) : bool := negb (flag data_byte 7).

Definition scancode_get_size (previous_byte : Z) : Z :=
  if previous_byte =? TWO_BYTE_SCANCODE_PREFIX then 2 else 1.

(** The character of a one-byte scancode: the [switch] over [break_codes]. *)
Definition break_code_char (byte : Z) : Z :=
  match byte with
      | 0x9e => ch "a" | 0xb0 => ch "b" | 0xae => ch "c" | 0xa0 => ch "d"
      | 0x92 => ch "e" | 0xa1 => ch "f" | 0xa2 => ch "g" | 0xa3 => ch "h"
      | 0x97 => ch "i" | 0xa4 => ch "j" | 0xa5 => ch "k" | 0xa6 => ch "l"
      | 0xb2 => ch "m" | 0xb1 => ch "n" | 0x98 => ch "o" | 0x99 => ch "p"
      | 0x90 => ch "q" | 0x93 => ch "r" | 0x9f => ch "s" | 0x94 => ch "t"
      | 0x96 => ch "u" | 0xaf => ch "v" | 0x91 => ch "w" | 0xad => ch "x"
      | 0x95 => ch "y" | 0xac => ch "z" | 0x82 => ch "1" | 0x83 => ch "2"
      | 0x84 => ch "3" | 0x85 => ch "4" | 0x86 => ch "5" | 0x87 => ch "6"
      | 0x88 => ch "7" | 0x89 => ch "8" | 0x8a => ch "9" | 0x8b => ch "0"
      | 0x81 => ESC | 0x9c => ENTER | 0x8e => BACKSPACE
      | _ => 0
  end.

(** A two-byte scancode other than the arrows leaves the field [key] of the
    local structure unset: [indet] is the value found there. *)
Definition assemble_key_press (indet : Z) (is_make : bool) (size : Z) (bytes : Z * Z) : key_press :=
  let byte := if size =? 1 then fst bytes else snd bytes in
  if size =? 1 then KeyPress (break_code_char byte) is_make
  else if size =? 2 then
    KeyPress (match byte with
              | 0xc8 => UP_ARROW
              | 0xd0 => DOWN_ARROW
              | _ => indet
              end) is_make
  else KeyPress indet is_make.

(** Whether the word is complete, and the array afterwards. *)
Definition keyboard_get_scancode (bytes : Z * Z) (this_byte : Z) (assemblied_word : bool)
  : bool * (Z * Z) :=
  if negb assemblied_word && (fst bytes =? TWO_BYTE_SCANCODE_PREFIX)
  then (true, (fst bytes, this_byte))
  else if assemblied_word && (this_byte =? TWO_BYTE_SCANCODE_PREFIX)
  then (false, (this_byte, snd bytes))
  else (true, (this_byte, snd bytes)).

(** ** The handler *)

(** The statics of [keyboard.c] and of [keyboard_handler]. *)
Record kbd := Kbd {
  kbc_ih_output : Z;
  kbc_ih_stat_reg : Z;
  kbc_ih_err : bool;
  kbc_ih_obf : bool;
  kbc_ih_ibf : bool;
  assemblied_word : bool;
  bytes : Z * Z
}.

Definition kbd_init : kbd := Kbd 0 0 false false false false (0, 0).

Definition scancode_is_esc_break (k : kbd) : bool := kbc_ih_output k =? ESC_BREAK_CODE.

Section Handler.
Context {E : Type} `{Ports E}.

Definition kbc_ih (k : kbd) : ST E kbd :=
  let+ stat_reg := inb KBC_STAT_REG in
  let error := truth (Z.land stat_reg (Z.lor (BIT 7) (BIT 6))) in
  let obf := flag stat_reg 0 in
  let ibf := flag stat_reg 1 in
  let+ byte := (if obf then inb KBC_OUT_BUF else st_ret 0) in
  st_ret (Kbd byte stat_reg error obf ibf (assemblied_word k) (bytes k)).

(** The decoder fed with the byte in [kbc_ih_output]: the new statics, and
    the key press stored through the pointer when a word is complete. *)
Definition keyboard_feed (indet : Z) (k : kbd) : option key_press * kbd :=
  let '(word, bs) := keyboard_get_scancode (bytes k) (kbc_ih_output k) (assemblied_word k) in
  let k' := Kbd (kbc_ih_output k) (kbc_ih_stat_reg k) (kbc_ih_err k) (kbc_ih_obf k)
                (kbc_ih_ibf k) word bs in
  if word then
    let size := scancode_get_size (fst bs) in
    let is_make := scancode_is_make (if size =? 1 then fst bs else snd bs) in
    (Some (assemble_key_press indet is_make size bs), k')
  else (None, k').

(** The result of the call, what it stored in [*key], and the statics. *)
Definition keyboard_handler (indet : Z) (k : kbd) : ST E (bool * option key_press * kbd) :=
  let+ k := kbc_ih k in
  if kbc_ih_err k || negb (kbc_ih_obf k) then st_ret (false, None, k)
  else let '(key, k') := keyboard_feed indet k in st_ret (true, key, k').
End Handler.

(** ** The stream of scancodes *)

Inductive scancode := One (b : Z) | Two (b : Z).

Definition scancode_bytes (s : scancode) : list Z :=
  match s with One b => [b] | Two b => [TWO_BYTE_SCANCODE_PREFIX; b] end.

(** The prefix byte is not a one-byte scancode. *)
Definition scancode_ok (s : scancode) : Prop :=
  match s with One b => b <> TWO_BYTE_SCANCODE_PREFIX | Two _ => True end.

Definition scancode_key (indet : Z) (s : scancode) : key_press :=
  match s with
  | One b => assemble_key_press indet (scancode_is_make b) 1 (b, 0)
  | Two b => assemble_key_press indet (scancode_is_make b) 2 (TWO_BYTE_SCANCODE_PREFIX, b)
  end.

(** The decoder run on bytes that arrive without error. *)
Fixpoint feed_all (indet : Z) (bs : list Z) (k : kbd) : list key_press * kbd :=
  match bs with
  | [] => ([], k)
  | b :: bs =>
      let k0 := Kbd b (kbc_ih_stat_reg k) (kbc_ih_err k) (kbc_ih_obf k) (kbc_ih_ibf k)
                    (assemblied_word k) (bytes k) in
      let '(key, k1) := keyboard_feed indet k0 in
      let '(keys, k2) := feed_all indet bs k1 in
      (match key with Some key => key :: keys | None => keys end, k2)
  end.

Lemma feed_all_app indet bs1 bs2 k :
  feed_all indet (bs1 ++ bs2) k =
  (fst (feed_all indet bs1 k) ++ fst (feed_all indet bs2 (snd (feed_all indet bs1 k))),
   snd (feed_all indet bs2 (snd (feed_all indet bs1 k)))).
Proof.
  revert k. induction bs1 as [| b bs1 IH]; intros k; cbn [feed_all app].
  - cbn. by destruct (feed_all indet bs2 k).
  - destruct (keyboard_feed indet _) as [key k1]. rewrite IH.
    destruct (feed_all indet bs1 k1) as [keys1 k2]. cbn.
    destruct (feed_all indet bs2 k2) as [keys2 k3]. cbn. by destruct key.
Qed.

(** One scancode, from a state in which the previous word is complete. *)
Lemma feed_scancode indet s k :
  scancode_ok s -> assemblied_word k = true ->
  fst (feed_all indet (scancode_bytes s) k) = [scancode_key indet s] /\
  assemblied_word (snd (feed_all indet (scancode_bytes s) k)) = true.
Proof.
  intros Hok Hw. destruct s as [b | b]; cbn [scancode_bytes feed_all scancode_ok] in *.
  - unfold keyboard_feed, keyboard_get_scancode. cbn [kbc_ih_output bytes Consts.key fst snd].
    cbn. rewrite Hw. cbn. apply Z.eqb_neq in Hok as Hb. rewrite Hb. cbn.
    unfold scancode_get_size. rewrite Hb. cbn. split; done.
  - unfold keyboard_feed, keyboard_get_scancode. cbn. rewrite Hw. cbn. split; done.
Qed.

(** ** Properties *)


Definition kbd_ready : kbd := Kbd 0 0 false false false true (0, 0).


(** The first scancode after start-up is the exception: a prefix byte that
    arrives while no word is complete is taken for a complete word, and the
    byte that follows it for a word of its own. *)
Theorem keyboard_first_prefix_lost indet b :
  b <> TWO_BYTE_SCANCODE_PREFIX ->
  fst (feed_all indet (scancode_bytes (Two b)) kbd_init) =
  [KeyPress indet true; scancode_key indet (One b)].
Proof.
  intros Hb. apply Z.eqb_neq in Hb. cbn [scancode_bytes feed_all].
  unfold keyboard_feed, keyboard_get_scancode. cbn. rewrite Hb. cbn.
  unfold scancode_get_size. rewrite Hb. done.
Qed.

Lemma keyboard_first_prefix_lost_witness :
  fst (feed_all 77 [0xe0; 0xc8] kbd_init) = [KeyPress 77 true; KeyPress 0 false].
Proof.
  assert (Hb : 0xc8 <> TWO_BYTE_SCANCODE_PREFIX) by discriminate.
  exact (keyboard_first_prefix_lost 77 0xc8 Hb).
Defined.

(** The characters a one-byte scancode can produce. *)
Definition is_game_char (c : Z) : bool :=
  ((ch "a" <=? c) && (c <=? ch "z")) || ((ch "0" <=? c) && (c <=? ch "9")) ||
  (c =? ESC) || (c =? ENTER) || (c =? BACKSPACE).

Definition all_bytes : list Z := map Z.of_nat (seq 0 256).

Lemma all_bytes_in b : 0 <= b < 256 -> In b all_bytes.
Proof.
  intros Hb. unfold all_bytes. apply in_map_iff. exists (Z.to_nat b).
  split; [lia | apply in_seq; lia].
Qed.

(** A check on every byte is a check by evaluation. *)
Lemma forall_bytes (P : Z -> bool) b : forallb P all_bytes = true -> 0 <= b < 256 -> P b = true.
Proof. intros HP Hb. rewrite forallb_forall in HP. by apply HP, all_bytes_in. Qed.

(** Each one-byte scancode stands for no key or for a letter, a digit, escape,
    enter or backspace (never a space); make codes stand for no key; and two
    different scancodes never stand for the same key. *)
Theorem break_code_char_spec b b' :
  0 <= b < 256 -> 0 <= b' < 256 ->
  (break_code_char b = 0 \/ is_game_char (break_code_char b) = true) /\
  break_code_char b <> ch " " /\
  (scancode_is_make b = true -> break_code_char b = 0) /\
  (break_code_char b = break_code_char b' -> break_code_char b <> 0 -> b = b').
Proof.
  intros Hb Hb'.
  assert (H1 : (break_code_char b =? 0) || is_game_char (break_code_char b) = true)
    by (apply (forall_bytes (fun b => (break_code_char b =? 0) || is_game_char (break_code_char b)));
        [by vm_compute | done]).
  assert (H2 : implb (scancode_is_make b) (break_code_char b =? 0) = true)
    by (apply (forall_bytes (fun b => implb (scancode_is_make b) (break_code_char b =? 0)));
        [by vm_compute | done]).
  assert (H3 : forallb (fun b' => implb (break_code_char b =? break_code_char b')
                 ((break_code_char b =? 0) || (b =? b'))) all_bytes = true)
    by (apply (forall_bytes (fun b => forallb (fun b' => implb (break_code_char b =? break_code_char b')
                 ((break_code_char b =? 0) || (b =? b'))) all_bytes)); [by vm_compute | done]).
  repeat split.
  - destruct (Z.eqb_spec (break_code_char b) 0); auto.
  - intros Heq. rewrite Heq in H1. discriminate.
  - intros Hm. rewrite Hm in H2. by apply Z.eqb_eq in H2.
  - intros Heq Hnz. pose proof (forall_bytes _ b' H3 Hb') as H4. cbn in H4.
    rewrite (proj2 (Z.eqb_eq _ _) Heq) in H4. apply Z.eqb_neq in Hnz. rewrite Hnz in H4. cbn in H4.
    by apply Z.eqb_eq in H4.
Qed.

Lemma break_code_char_spec_witness :
  break_code_char 0x9e = ch "a" /\ break_code_char 0x9e <> ch " ".
Proof.
  split; [reflexivity |].
  apply (break_code_char_spec 0x9e 0x9e); lia.
Defined.

(** On a parity or timeout error, or when there is nothing to read, the handler
    reports no key press and the decoder keeps its state. *)
Theorem keyboard_handler_rejects {E} `{Ports E} indet k (e : E) :
  let st := fst (inb KBC_STAT_REG e) in
  flag st 7 = true \/ flag st 6 = true \/ flag st 0 = false ->
  let r := fst (keyboard_handler indet k e) in
  fst r = (false, None) /\
  assemblied_word (snd r) = assemblied_word k /\ bytes (snd r) = bytes k.
Proof.
  intros st Hst. unfold keyboard_handler, kbc_ih, st_bind, st_ret. cbn [fst snd].
  fold st.
  assert (He : truth (Z.land st (Z.lor (BIT 7) (BIT 6))) = flag st 7 || flag st 6).
  { unfold truth, flag. rewrite Z.land_lor_distr_r. apply eq_true_iff_eq.
    rewrite orb_true_iff, !negb_true_iff, !Z.eqb_neq, Z.lor_eq_0_iff. lia. }
  rewrite He. destruct (flag st 0) eqn:E0; cbn [fst snd kbc_ih_err kbc_ih_obf].
  - replace (flag st 7 || flag st 6) with true by (destruct Hst as [-> | [-> | ?]]; [done | by rewrite orb_true_r | done]).
    done.
  - rewrite orb_true_r. done.
Qed.

(** A machine whose keyboard controller always reports status [st]. *)
Definition fixed_status (st : Z) : Ports unit :=
  {| sys_inb _ := fun e => ((0, Some st), e); sys_outb _ _ := fun e => (0, e) |}.

Lemma keyboard_handler_rejects_witness :
  fst (fst (@keyboard_handler unit (fixed_status 129) 77 kbd_ready tt)) = (false, None).
Proof.
  refine (proj1 (@keyboard_handler_rejects unit (fixed_status 129) 77 kbd_ready tt _)).
  left. reflexivity.
Defined.
