(* ===== verification/Mouse.v ===== *)
(** [mouse.c]: the mouse interrupt handler, the packet decoder, and the
    command interface through the keyboard controller. *)

From stdpp Require Import base tactics list.
From Stdlib Require Import ZArith Lia.
From S2P Require Import Prelude Consts Ports.

(** [struct packet] (declared by the LCF library). *)
Record packet := Packet {
  pk_bytes : Z * Z * Z;
  rb : bool; mb : bool; lb : bool;
  delta_x : Z; delta_y : Z;
  x_ov : bool; y_ov : bool
}.

Definition assembly_packet (bytes : Z * Z * Z) : packet :=
  let '(b0, b1, b2) := bytes in
  Packet bytes (flag b0 1) (flag b0 2) (flag b0 0)
    (cpl2_9_to_16 b1 (flag b0 4)) (cpl2_9_to_16 b2 (flag b0 5)) (flag b0 6) (flag b0 7).

Definition mouse_is_synched (bytes : Z * Z * Z) (size : Z) : bool :=
  if size =? 1 then flag (fst (fst bytes)) 3 else true.

(** The globals of [mouse.c] and the statics of [mouse_handler]. *)
Record mdrv := Mdrv {
  m_output : Z; m_err : bool; m_obf : bool; m_ibf : bool; m_aux : bool;
  m_bytes : Z * Z * Z;
  m_count : Z
}.

Definition mdrv_init : mdrv := Mdrv 0 false false false false (0, 0, 0) 0.

(** [bytes[byte_count] = b]; [None] is a write outside the array. *)
Definition store_byte (bytes : Z * Z * Z) (i b : Z) : option (Z * Z * Z) :=
  let '(b0, b1, b2) := bytes in
  if i =? 0 then Some (b, b1, b2)
  else if i =? 1 then Some (b0, b, b2)
  else if i =? 2 then Some (b0, b1, b)
  else None.

Definition set_mbytes (bs : Z * Z * Z) (n : Z) (k : mdrv) : mdrv :=
  Mdrv (m_output k) (m_err k) (m_obf k) (m_ibf k) (m_aux k) bs n.

(** What [mouse_handler] does once the state of the controller is read:
    the packet if one is complete, and the statics. *)
Definition mouse_feed (k : mdrv) : res (option packet * mdrv) :=
  if m_err k || negb (m_obf k) || negb (m_aux k)
  then Ok (None, set_mbytes (m_bytes k) 0 k)
  else
    match store_byte (m_bytes k) (m_count k) (m_output k) with
    | None => Undef OutOfBounds
    | Some bs =>
        if negb (mouse_is_synched bs (m_count k)) then Ok (None, set_mbytes bs 0 k)
        else
          let n := m_count k + 1 in
          if n <? 3 then Ok (None, set_mbytes bs n k)
          else Ok (Some (assembly_packet bs), set_mbytes bs 0 k)
    end.

(** [tickdelay(micros_to_ticks(DELAY_US))]: the machine after the delay. *)
Class Delay (E : Type) := { tickdelay : ST E unit }.

Section Subscribe.
Context {E : Type} `{Irqs E}.

Definition mouse_subscribe : ST E subscription :=
  let hook_id := MOUSE_IRQ in
  let bit_no := u8 hook_id in
  let+ r := sys_irqsetpolicy MOUSE_IRQ (Z.lor IRQ_REENABLE IRQ_EXCLUSIVE) hook_id in
  st_ret (Subscription (fst r) bit_no (snd r)).

Definition mouse_unsubscribe (notification : Z) : ST E Z := sys_irqrmpolicy notification.
End Subscribe.

Section Driver.
Context {E : Type} `{Ports E} `{Delay E}.

Definition mouse_get_state (k : mdrv) : ST E mdrv :=
  let+ stat_reg := inb KBC_STAT_REG in
  let error := truth (Z.land stat_reg (Z.lor (BIT 7) (BIT 6))) in
  let obf := flag stat_reg 0 in
  let ibf := flag stat_reg 1 in
  let aux := flag stat_reg 5 in
  let+ byte := (if obf then inb KBC_OUT_BUF else st_ret 0) in
  st_ret (Mdrv byte error obf ibf aux (m_bytes k) (m_count k)).

(** The result of the call with the packet it stored, and the statics. *)
Definition mouse_handler (k : mdrv) : E -> res (option packet * mdrv) * E :=
  fun e => let r := mouse_get_state k e in (mouse_feed (fst r), snd r).

Definition mouse_write_byte_ack : ST E bool :=
  do+ tickdelay in
  let+ ack := inb KBC_OUT_BUF in
  st_ret (ack =? BYTE_TO_MOUSE_SUCCESS).

(** [tries] is what is left of the ten rounds of the loop. *)
Fixpoint mouse_write_byte_loop (tries : nat) (byte : Z) (k : mdrv) : ST E (bool * mdrv) :=
  match tries with
  | O => st_ret (false, k)
  | S tries =>
      let+ k := mouse_get_state k in
      if negb (m_err k) && negb (m_obf k) && negb (m_ibf k) then
        do+ outb KBC_ARG_REG byte in
        do+ outb KBC_CMD_REG BYTE_TO_MOUSE_CMD in
        let+ ok := mouse_write_byte_ack in
        st_ret (ok, k)
      else
        do+ tickdelay in
        mouse_write_byte_loop tries byte k
  end.

Definition mouse_write_byte (byte : Z) (k : mdrv) : ST E (bool * mdrv) :=
  mouse_write_byte_loop 10 byte k.

Fixpoint mouse_write_args (args : list Z) (k : mdrv) : ST E (bool * mdrv) :=
  match args with
  | [] => st_ret (true, k)
  | a :: args =>
      let+ r := mouse_write_byte a k in
      if fst r then mouse_write_args args (snd r) else st_ret (false, snd r)
  end.

(** Success, the response stored in [*ret_arg] if any, and the globals. *)
Definition mouse_write_command (command : Z) (args : list Z) (has_ret : bool) (k : mdrv)
  : ST E (bool * option Z * mdrv) :=
  let+ r := mouse_write_byte command k in
  if negb (fst r) then st_ret (false, None, snd r)
  else
    let+ r := mouse_write_args args (snd r) in
    if negb (fst r) then st_ret (false, None, snd r)
    else if has_ret then
      do+ tickdelay in
      let+ k := mouse_get_state (snd r) in
      if negb (m_err k) && m_obf k && m_aux k
      then st_ret (true, Some (m_output k), k)
      else st_ret (false, None, k)
    else st_ret (true, None, snd r).

Fixpoint try_mouse_operation_loop (tries : nat) (command : Z) (args : list Z) (has_ret : bool)
  (k : mdrv) : ST E (bool * option Z * mdrv) :=
  match tries with
  | O => st_ret (false, None, k)
  | S tries =>
      let+ r := mouse_write_command command args has_ret k in
      if fst (fst r) then st_ret r
      else
        do+ tickdelay in
        try_mouse_operation_loop tries command args has_ret (snd r)
  end.

Definition try_mouse_operation (command : Z) (args : list Z) (has_ret : bool) (k : mdrv)
  : ST E (bool * option Z * mdrv) :=
  try_mouse_operation_loop 10 command args has_ret k.

(** 1 on success: the [bool] returned as an [int]. *)
Definition mouse_data_reporting_enable (k : mdrv) : ST E (Z * mdrv) :=
  let+ r := try_mouse_operation MOUSE_ENAB_DATA_REP [] false k in
  st_ret (if fst (fst r) then 1 else 0, snd r).

Definition mouse_data_reporting_disable (k : mdrv) : ST E (Z * mdrv) :=
  let+ r := try_mouse_operation MOUSE_DIS_DATA_REP [] false k in
  st_ret (if fst (fst r) then 1 else 0, snd r).
End Driver.

(** ** Packets on the wire *)

Definition b2z (b : bool) (n : Z) : Z := if b then BIT n else 0.

(** The three bytes a PS/2 mouse sends for a movement and its buttons. *)
Definition encode_packet (l r m : bool) (dx dy : Z) (xo yo : bool) : Z * Z * Z :=
  (b2z l 0 + b2z r 1 + b2z m 2 + BIT 3 + b2z (dx <? 0) 4 + b2z (dy <? 0) 5 + b2z xo 6 + b2z yo 7,
   u8 dx, u8 dy).

(** The decoder run on bytes that arrive from the mouse without error. *)
Fixpoint mouse_feed_all (bs : list Z) (k : mdrv) : res (list packet * mdrv) :=
  match bs with
  | [] => Ok ([], k)
  | b :: bs =>
      res_bind (mouse_feed (Mdrv b false true (m_ibf k) true (m_bytes k) (m_count k)))
        (fun r => res_bind (mouse_feed_all bs (snd r))
           (fun r' => Ok (match fst r with Some p => p :: fst r' | None => fst r' end, snd r')))
  end.

Definition triple_bytes (p : Z * Z * Z) : list Z := [fst (fst p); snd (fst p); snd p].

Lemma mouse_feed_all_app bs1 bs2 k :
  mouse_feed_all (bs1 ++ bs2) k =
  res_bind (mouse_feed_all bs1 k) (fun r => res_bind (mouse_feed_all bs2 (snd r))
    (fun r' => Ok (fst r ++ fst r', snd r'))).
Proof.
  revert k. induction bs1 as [| b bs1 IH]; intros k; cbn [mouse_feed_all app].
  - cbn. by destruct (mouse_feed_all bs2 k) as [[ps k'] |].
  - destruct (mouse_feed _) as [[op k1] | u]; cbn [res_bind fst snd]; [| done].
    rewrite IH. destruct (mouse_feed_all bs1 k1) as [[ps1 k2] | u]; cbn [res_bind fst snd]; [| done].
    destruct (mouse_feed_all bs2 k2) as [[ps2 k3] | u]; cbn [res_bind fst snd]; [| done].
    by destruct op.
Qed.

(** The three steps of a packet. *)
Lemma mouse_feed_first b ib bs :
  mouse_feed (Mdrv b false true ib true bs 0) =
  Ok (None, Mdrv b false true ib true (b, snd (fst bs), snd bs) 1).
Proof. by destruct bs as [[x y] z]. Qed.

Lemma mouse_feed_second b ib b0 y z :
  mouse_feed (Mdrv b false true ib true (b0, y, z) 1) =
  Ok (None, Mdrv b false true ib true (b0, b, z) (if flag b0 3 then 2 else 0)).
Proof.
  unfold mouse_feed. cbn. unfold mouse_is_synched. cbn. by destruct (flag b0 3).
Qed.

Lemma mouse_feed_third b ib b0 b1 z :
  mouse_feed (Mdrv b false true ib true (b0, b1, z) 2) =
  Ok (Some (assembly_packet (b0, b1, b)), Mdrv b false true ib true (b0, b1, b) 0).
Proof. done. Qed.

Lemma mouse_feed_triple b0 b1 b2 k :
  m_count k = 0 -> flag b0 3 = true ->
  exists k', mouse_feed_all [b0; b1; b2] k = Ok ([assembly_packet (b0, b1, b2)], k') /\
             m_count k' = 0.
Proof.
  intros Hc Hs. cbn [mouse_feed_all]. rewrite Hc, mouse_feed_first. cbn [res_bind fst snd m_ibf m_bytes m_count].
  rewrite mouse_feed_second, Hs. cbn [res_bind fst snd m_ibf m_bytes m_count].
  rewrite mouse_feed_third. cbn [res_bind fst snd]. by eexists.
Qed.

(** A first byte without the synchronisation bit is noticed only when the
    second byte arrives, and both are dropped. *)
Lemma mouse_feed_unsynched b0 b1 k :
  m_count k = 0 -> flag b0 3 = false ->
  exists k', mouse_feed_all [b0; b1] k = Ok ([], k') /\ m_count k' = 0.
Proof.
  intros Hc Hs. cbn [mouse_feed_all]. rewrite Hc, mouse_feed_first. cbn [res_bind fst snd m_ibf m_bytes m_count].
  rewrite mouse_feed_second, Hs. cbn [res_bind fst snd]. by eexists.
Qed.

Lemma encode_b0_flags l r m dx dy xo yo :
  let b0 := fst (fst (encode_packet l r m dx dy xo yo)) in
  flag b0 0 = l /\ flag b0 1 = r /\ flag b0 2 = m /\ flag b0 3 = true /\
  flag b0 4 = (dx <? 0) /\ flag b0 5 = (dy <? 0) /\ flag b0 6 = xo /\ flag b0 7 = yo.
Proof.
  unfold encode_packet. cbn [fst].
  destruct l, r, m, (dx <? 0), (dy <? 0), xo, yo; vm_compute; repeat split.
Qed.

(** A machine whose controller reports status [st] and data byte [v]. *)
Definition fixed_ports (st v : Z) : Ports unit :=
  {| sys_inb p := fun e => ((0, Some (if p =? KBC_STAT_REG then st else v)), e);
     sys_outb _ _ := fun e => (0, e) |}.

(** ** Properties *)

(** The decoder inverts the encoding for every movement of the 9-bit range. *)
Theorem packet_roundtrip l r m dx dy xo yo :
  -256 <= dx < 256 -> -256 <= dy < 256 ->
  assembly_packet (encode_packet l r m dx dy xo yo) =
  Packet (encode_packet l r m dx dy xo yo) r m l dx dy xo yo.
Proof.
  intros Hx Hy. pose proof (encode_b0_flags l r m dx dy xo yo) as H. cbv zeta in H.
  unfold encode_packet in *. cbn [fst snd] in H.
  destruct H as (H0 & H1 & H2 & _ & H4 & H5 & H6 & H7).
  unfold assembly_packet. rewrite H0, H1, H2, H4, H5, H6, H7.
  by rewrite !cpl2_9_to_16_decode.
Qed.

Lemma packet_roundtrip_witness :
  assembly_packet (encode_packet true false false (-3) 200 false false) =
  Packet (25, 253, 200) false false true (-3) 200 false false.
Proof. exact (packet_roundtrip true false false (-3) 200 false false ltac:(lia) ltac:(lia)). Defined.

(** Whatever the bytes, the movements of an assembled packet are in the 9-bit
    range. *)
Theorem assembly_packet_range b0 b1 b2 :
  0 <= b1 < 256 -> 0 <= b2 < 256 ->
  -256 <= delta_x (assembly_packet (b0, b1, b2)) < 256 /\
  -256 <= delta_y (assembly_packet (b0, b1, b2)) < 256.
Proof.
  intros H1 H2. cbn. unfold cpl2_9_to_16. change (Z.shiftl 1 8) with 256.
  destruct (flag b0 4), (flag b0 5); rewrite !s16_id by lia; lia.
Qed.

Lemma assembly_packet_range_witness :
  -256 <= delta_x (assembly_packet (255, 0, 255)) < 256.
Proof. apply (assembly_packet_range 255 0 255); lia. Defined.



Section Count.
Context {E : Type} `{Ports E} `{Delay E}.

(** The commands leave the packet under way alone. *)
Lemma write_byte_count n byte k (e : E) : m_count (snd (fst (mouse_write_byte_loop n byte k e))) = m_count k.
Proof.
  revert k e. induction n as [| n IH]; intros k e; [done |]. cbn [mouse_write_byte_loop]. unfold st_bind at 1.
  destruct (mouse_get_state k e) as [k1 e1] eqn:Hg.
  assert (Hk1 : m_count k1 = m_count k) by (change k1 with (fst (k1, e1)); rewrite <- Hg; done).
  cbn [fst snd]. destruct (_ && _); [exact Hk1 |]. unfold st_bind at 1. by rewrite IH.
Qed.

Lemma write_args_count args k (e : E) : m_count (snd (fst (mouse_write_args args k e))) = m_count k.
Proof.
  revert k e. induction args as [| b args IH]; intros k e; [done |]. cbn [mouse_write_args]. unfold st_bind.
  pose proof (write_byte_count 10 b k e) as Hb. unfold mouse_write_byte.
  destruct (mouse_write_byte_loop 10 b k e) as [[ok k1] e1]. cbn [fst snd] in *.
  destruct ok; [by rewrite IH | exact Hb].
Qed.

Lemma write_command_count c args ret k (e : E) :
  m_count (snd (fst (mouse_write_command c args ret k e))) = m_count k.
Proof.
  unfold mouse_write_command, mouse_write_byte, st_bind at 1.
  pose proof (write_byte_count 10 c k e) as Hb.
  destruct (mouse_write_byte_loop 10 c k e) as [[ok k1] e1]. cbn [fst snd] in *.
  destruct ok; cbn [negb]; [| exact Hb]. unfold st_bind at 1.
  pose proof (write_args_count args k1 e1) as Ha.
  destruct (mouse_write_args args k1 e1) as [[ok k2] e2]. cbn [fst snd] in *.
  destruct ok; cbn [negb]; [| exact (eq_trans Ha Hb)]. destruct ret; [| exact (eq_trans Ha Hb)].
  unfold st_bind at 1 2. destruct (mouse_get_state k2 (snd (tickdelay e2))) as [k3 e3] eqn:Hg.
  assert (Hk3 : m_count k3 = m_count k2) by (change k3 with (fst (k3, e3)); rewrite <- Hg; done).
  cbn [fst snd]. destruct (_ && _); cbn; congruence.
Qed.

Lemma try_operation_count n c args ret k (e : E) :
  m_count (snd (fst (try_mouse_operation_loop n c args ret k e))) = m_count k.
Proof.
  revert k e. induction n as [| n IH]; intros k e; [done |]. cbn [try_mouse_operation_loop]. unfold st_bind at 1.
  pose proof (write_command_count c args ret k e) as Hc.
  destruct (mouse_write_command c args ret k e) as [[[ok r] k1] e1]. cbn [fst snd] in *.
  destruct ok; [exact Hc |]. unfold st_bind at 1. by rewrite IH.
Qed.

Lemma mouse_enable_count k (e : E) : m_count (snd (fst (mouse_data_reporting_enable k e))) = m_count k.
Proof. apply try_operation_count. Qed.
End Count.

Lemma mouse_handler_ok {E} `{Ports E} k (e : E) :
  0 <= m_count k <= 2 ->
  exists p k', fst (mouse_handler k e) = Ok (p, k') /\ 0 <= m_count k' <= 2.
Proof.
  intros Hk. unfold mouse_handler. cbn [fst].
  assert (Hc : m_count (fst (mouse_get_state k e)) = m_count k) by done.
  set (k1 := fst (mouse_get_state k e)) in *. clearbody k1. unfold mouse_feed.
  destruct (m_err k1 || negb (m_obf k1) || negb (m_aux k1)).
  { eexists _, _. split; [done |]. cbn. lia. }
  rewrite Hc. destruct (m_bytes k1) as [[b0 b1] b2]. unfold store_byte.
  assert (Hn : m_count k = 0 \/ m_count k = 1 \/ m_count k = 2) by lia.
  destruct Hn as [-> | [-> | ->]]; cbn; split_ifs; eexists _, _; split; try done; cbn; lia.
Qed.

(** C29. The handler never writes outside its three-byte array: on every sequence
    of interrupts the byte counter stays between 0 and 2. *)
Theorem mouse_handler_in_bounds {E} `{Ports E} k (e : E) :
  0 <= m_count k <= 2 ->
  exists p k', fst (mouse_handler k e) = Ok (p, k') /\ 0 <= m_count k' <= 2.
Proof. apply mouse_handler_ok. Qed.

Lemma mouse_handler_in_bounds_witness :
  exists p k', fst (@mouse_handler unit (fixed_ports 33 9) mdrv_init tt) = Ok (p, k') /\ 0 <= m_count k' <= 2.
Proof. exact (@mouse_handler_in_bounds unit (fixed_ports 33 9) mdrv_init tt ltac:(cbn; lia)). Defined.
