(* ===== verification/NumLetters.v ===== *)
(** [num_and_letters.c]: the glyphs and the character classes.

    The images themselves are converted by the LCF library: [xpm_load], from the
    name of an [xpm] array to the image, is a parameter. *)

From stdpp Require Import base tactics list.
From Stdlib Require Import ZArith Lia Ascii String.
From S2P Require Import Prelude Consts Keyboard.

(** [xpm_image_t] of the LCF library. *)
Record xpm_image_t := Xpm { img_type : Z; img_width : Z; img_height : Z; img_bytes : list Z }.

(** A pointer to a glyph: an element of one of the arrays, or one past it. *)
Inductive prop := Letter (i : Z) | Number (i : Z) | LilLetter (i : Z) | LilNumber (i : Z) | MouseImg.

#[export] Instance prop_eq_dec : EqDecision prop.
Proof. solve_decision. Defined.

(** The arrays [letters[28]], [numbers[10]], [lilletters[27]], [lilnumbers[10]]
    and [mouse_img] after loading. *)
Record images := Images {
  letters : list xpm_image_t;
  numbers : list xpm_image_t;
  lilletters : list xpm_image_t;
  lilnumbers : list xpm_image_t;
  mouse_img : xpm_image_t
}.

(** The image a pointer designates; [None] where the access is out of bounds. *)
Definition glyph (im : images) (p : prop) : option xpm_image_t :=
  match p with
  | Letter i => arr_get (letters im) i
  | Number i => arr_get (numbers im) i
  | LilLetter i => arr_get (lilletters im) i
  | LilNumber i => arr_get (lilnumbers im) i
  | MouseImg => Some (mouse_img im)
  end.

(** ** Loading

    The calls [xpm_load(..., XPM_5_6_5, &array[i])] in the order of the indices. *)
Section Load.
Variable xpm_load : string -> xpm_image_t.

Definition loadnums : list xpm_image_t := map xpm_load
 ["Zero_xpm"; "One_xpm"; "Two_xpm"; "Three_xpm"; "Four_xpm"; "Five_xpm"; "Six_xpm";
  "Seven_xpm"; "Eight_xpm"; "Nine_xpm"]%string.

Definition loadlet : list xpm_image_t := map xpm_load
 ["A_xpm"; "B_xpm"; "C_xpm"; "D_xpm"; "E_xpm"; "F_xpm"; "G_xpm"; "H_xpm"; "I_xpm";
  "J_xpm"; "K_xpm"; "L_xpm"; "M_xpm"; "N_xpm"; "O_xpm"; "P_xpm"; "Q_xpm"; "R_xpm";
  "S_xpm"; "T_xpm"; "U_xpm"; "V_xpm"; "W_xpm"; "X_xpm"; "Y_xpm"; "Z_xpm";
  "SPACE_xpm"; "empty_xpm"]%string.

Definition loadlilnums : list xpm_image_t := map xpm_load
 ["Zero_lil_xpm"; "One_lil_xpm"; "Two_lil_xpm"; "Three_lil_xpm"; "Four_lil_xpm";
  "Five_lil_xpm"; "Six_lil_xpm"; "Seven_lil_xpm"; "Eight_lil_xpm"; "Nine_lil_xpm"]%string.

Definition loadlilet : list xpm_image_t := map xpm_load
 ["A_lil_xpm"; "B_lil_xpm"; "C_lil_xpm"; "D_lil_xpm"; "E_lil_xpm"; "F_lil_xpm";
  "G_lil_xpm"; "H_lil_xpm"; "I_lil_xpm"; "J_lil_xpm"; "K_lil_xpm"; "L_lil_xpm";
  "M_lil_xpm"; "N_lil_xpm"; "O_lil_xpm"; "P_lil_xpm"; "Q_lil_xpm"; "R_lil_xpm";
  "S_lil_xpm"; "T_lil_xpm"; "U_lil_xpm"; "V_lil_xpm"; "W_lil_xpm"; "X_lil_xpm";
  "Y_lil_xpm"; "Z_lil_xpm"; "Bar_xpm"]%string.

(** After the four calls; [get_mouse] loads its image when it is called. *)
Definition loaded : images :=
  Images loadlet loadnums loadlilet loadlilnums (xpm_load "mouse_xpm").
End Load.

Definition get_prop_from_char (byte : Z) : prop :=
  if (ch "a" <=? byte) && (byte <=? ch "z") then Letter (byte - ch "a")
  else if byte =? ch " " then Letter 26
  else if (ch "0" <=? byte) && (byte <=? ch "9") then Number (byte - ch "0")
  else if byte =? ch "/" then Letter 28
  else Letter 26.

Definition get_lilprop_from_char (byte : Z) : prop :=
  if byte =? ch "i" then LilLetter 8
  else if byte =? ch "3" then LilNumber 3
  else if (ch "a" <=? byte) && (byte <=? ch "z") then LilLetter (byte - ch "a")
  else if (ch "0" <=? byte) && (byte <=? ch "9") then LilNumber (byte - ch "0")
  else if byte =? ch "/" then LilLetter 26
  else LilLetter 26.

Definition is_numerical (byte : Z) : bool := (ch "0" <=? byte) && (byte <=? ch "9").

Definition is_alpha_numberical (byte : Z) : bool :=
  if (ch "a" <=? byte) && (byte <=? ch "z") then true
  else if is_numerical byte then true
  else if byte =? ch " " then true
  else false.

Definition get_empty (im : images) : option xpm_image_t := glyph im (Letter 27).
Definition get_mouse : prop := MouseImg.

(** The arrays have the sizes of their declarations. *)
Definition images_ok (im : images) : Prop :=
  zlen (letters im) = 28 /\ zlen (numbers im) = 10 /\ zlen (lilletters im) = 27 /\
  zlen (lilnumbers im) = 10.

(** Every glyph of the large alphabet has the width of the letters, 42. *)
Definition glyph_width : Z := 42.
Definition images_42 (im : images) : Prop :=
  images_ok im /\ Forall (fun g => img_width g = glyph_width) (letters im) /\
  Forall (fun g => img_width g = glyph_width) (numbers im).

Lemma glyph_small_ok im byte :
  images_ok im -> is_Some (glyph im (get_lilprop_from_char byte)).
Proof.
  intros (H1 & H2 & H3 & H4). unfold get_lilprop_from_char. chars.
  split_ifs; cbn [glyph]; apply arr_get_Some; rewrite ?H3, ?H4; lia.
Qed.

Lemma glyph_large_ok im byte :
  images_ok im -> byte <> ch "/" -> is_Some (glyph im (get_prop_from_char byte)).
Proof.
  intros (H1 & H2 & H3 & H4) Hb. unfold get_prop_from_char in *. chars.
  split_ifs; cbn [glyph]; apply arr_get_Some; rewrite ?H1, ?H2; lia.
Qed.

Lemma arr_get_Forall {A} (P : A -> Prop) l i a : Forall P l -> arr_get l i = Some a -> P a.
Proof.
  intros Hl. unfold arr_get. destruct (i <? 0); [done |]. intros Hi.
  by eapply Forall_lookup in Hi.
Qed.

Lemma glyph_large_42 im byte :
  images_42 im -> byte <> ch "/" ->
  exists g, glyph im (get_prop_from_char byte) = Some g /\ img_width g = glyph_width.
Proof.
  intros (Hok & Hl & Hn) Hb. destruct (glyph_large_ok im byte Hok Hb) as [g Hg].
  exists g. split; [done |]. unfold get_prop_from_char in Hg.
  repeat case_match; cbn [glyph] in Hg;
    first [exact (arr_get_Forall _ _ _ _ Hl Hg) | exact (arr_get_Forall _ _ _ _ Hn Hg)].
Qed.

(** ** Properties *)

(** A glyph of the right array for every character: the small alphabet for
    every byte; the large one for every byte but the slash, for which the code
    takes the address one past the end of [letters]. *)
Theorem glyphs_in_bounds im byte :
  images_ok im ->
  is_Some (glyph im (get_lilprop_from_char byte)) /\
  (is_Some (glyph im (get_prop_from_char byte)) <-> byte <> ch "/").
Proof.
  intros Hok. split; [by apply glyph_small_ok |]. split; [| intros Hb; by apply glyph_large_ok].
  intros Hs ->. destruct Hs as [g Hg]. cbn in Hg. destruct Hok as (H1 & _).
  unfold arr_get, zlen in *. cbn in Hg. apply lookup_lt_Some in Hg. lia.
Qed.

(** Blank images of the real sizes, for the witnesses. *)
Definition blank (w h : Z) : xpm_image_t := Xpm 2 w h [].
Definition images0 : images :=
  Images (replicate 28 (blank 42 44)) (replicate 10 (blank 42 44))
         (replicate 27 (blank 19 28)) (replicate 10 (blank 19 28)) (blank 42 44).

Lemma images0_42 : images_42 images0.
Proof. repeat split; repeat constructor. Qed.

Lemma glyphs_in_bounds_witness :
  images_ok images0 /\ is_Some (glyph images0 (get_lilprop_from_char (ch "/"))).
Proof.
  assert (Hok : images_ok images0) by (repeat split).
  split; [exact Hok | exact (proj1 (glyphs_in_bounds images0 (ch "/") Hok))].
Defined.

(** On alphanumeric characters the two alphabets are one-to-one. *)
Theorem glyphs_injective b b' :
  is_alpha_numberical b = true -> is_alpha_numberical b' = true ->
  get_prop_from_char b = get_prop_from_char b' -> b = b'.
Proof.
  unfold is_alpha_numberical, is_numerical, get_prop_from_char. chars.
  intros Hb Hb'.
  destruct ((97 <=? b) && (b <=? 122)) eqn:E1, ((97 <=? b') && (b' <=? 122)) eqn:E2;
  destruct (b =? 32) eqn:E3, (b' =? 32) eqn:E4;
  destruct ((48 <=? b) && (b <=? 57)) eqn:E5, ((48 <=? b') && (b' <=? 57)) eqn:E6;
  unbool; try discriminate; intros Hg; try discriminate Hg; try (injection Hg as Hg); lia.
Qed.

Lemma glyphs_injective_witness :
  is_alpha_numberical (ch "a") = true /\ (get_prop_from_char (ch "a") = Letter 0 -> ch "a" = 97).
Proof.
  split; [reflexivity |]. intros Hg.
  exact (glyphs_injective (ch "a") 97 eq_refl eq_refl eq_refl).
Defined.

(** The character a loaded glyph is named after. *)
Definition digit_name (d : Z) : string :=
  match d with
  | 0 => "Zero" | 1 => "One" | 2 => "Two" | 3 => "Three" | 4 => "Four"
  | 5 => "Five" | 6 => "Six" | 7 => "Seven" | 8 => "Eight" | _ => "Nine"
  end%string.
Definition char_name (byte : Z) : string :=
  if is_numerical byte then digit_name (byte - ch "0")
  else String (ascii_of_nat (Z.to_nat (byte - 32))) EmptyString.

(** Every letter and digit is shown, in both alphabets, with the image named
    after it, and the slash of the small alphabet with the bar. *)
Theorem glyphs_named_after_char xpm_load byte :
  is_alpha_numberical byte = true -> byte <> ch " " ->
  glyph (loaded xpm_load) (get_prop_from_char byte) = Some (xpm_load (char_name byte ++ "_xpm")%string) /\
  glyph (loaded xpm_load) (get_lilprop_from_char byte) = Some (xpm_load (char_name byte ++ "_lil_xpm")%string) /\
  glyph (loaded xpm_load) (get_lilprop_from_char (ch "/")) = Some (xpm_load "Bar_xpm"%string).
Proof.
  intros Ha Hs. assert (Hr : 0 <= byte < 256).
  { unfold is_alpha_numberical, is_numerical in Ha. chars. split_ifs; repeat case_match; unbool; lia. }
  assert (Hin : byte ∈ map Z.of_nat (seq 48 10 ++ seq 97 26)).
  { apply list_elem_of_fmap. exists (Z.to_nat byte). split; [lia |].
    unfold is_alpha_numberical, is_numerical in Ha. chars.
    rewrite elem_of_app, !elem_of_seq.
    destruct ((97 <=? byte) && (byte <=? 122)) eqn:E1; [unbool; lia |].
    destruct ((48 <=? byte) && (byte <=? 57)) eqn:E2; [unbool; lia |].
    destruct (byte =? 32) eqn:E3; unbool; [lia | done]. }
  rewrite list_elem_of_In in Hin. clear Ha Hs Hr. cbn [map seq app In] in Hin.
  repeat (destruct Hin as [<- | Hin]; [repeat split; reflexivity |]). done.
Qed.

Lemma glyphs_named_after_char_witness :
  is_alpha_numberical (ch "7") = true /\
  glyph (loaded (fun s => blank (Z.of_nat (String.length s)) 44)) (get_prop_from_char (ch "7"))
    = Some (blank 9 44).
Proof.
  split; [reflexivity |].
  refine (proj1 (glyphs_named_after_char (fun s => blank (Z.of_nat (String.length s)) 44) (ch "7") _ _));
    [reflexivity | discriminate].
Defined.
