(* ===== verification/Vc.v ===== *)
(** [vc.c]: the frame buffers, pixel and image drawing, and the text boxes. *)

From stdpp Require Import base tactics list.
From Stdlib Require Import ZArith Lia Ascii.
From S2P Require Import Prelude Consts Keyboard NumLetters.

(** The globals of [vc.c]: the video mode, the mapped video memory and the
    back buffer, as arrays of bytes. *)
Record vc := Vc {
  x_res : Z; y_res : Z; bppixel : Z; bytes_per_pixel : Z;
  video_mem : list Z;
  buffer : list Z
}.

Definition set_buffer (b : list Z) (v : vc) : vc :=
  Vc (x_res v) (y_res v) (bppixel v) (bytes_per_pixel v) (video_mem v) b.

(** What [get_mode_info] takes of the VBE mode block. *)
Record vbe_mode_info_t := ModeInfo { XResolution : Z; YResolution : Z; BitsPerPixel : Z }.

(** The block of low memory of [lm_alloc], read as a mode block [MI].  The
    registers of a call to the BIOS are prepared for it but the call is not made,
    so what [vbe_get_mode_inf] copies is what the memory held; nothing calls it. *)
Class LowMemory (E MI : Type) := {
  lm_alloc : ST E MI;
  lm_free : ST E unit
}.

Definition vbe_get_mode_inf {E MI : Type} `{LowMemory E MI} : ST E MI :=
  let+ mi := lm_alloc in
  do+ lm_free (MI := MI) in st_ret mi.

(** [vm_map_phys] provides the contents of the video memory, [malloc] the
    (indeterminate) contents of the back buffer. *)
Definition get_mode_info (mi : vbe_mode_info_t) (mapped : Z -> list Z) (fresh : Z -> list Z) : vc :=
  let bytes_per_pixel := BitsPerPixel mi / 8 in
  let vram_size := u32 (XResolution mi * YResolution mi * bytes_per_pixel) in
  Vc (XResolution mi) (YResolution mi) (BitsPerPixel mi) bytes_per_pixel
     (mapped vram_size) (fresh vram_size).

(** The registers of a BIOS call, the others zero. *)
Record reg86 := Reg86 { ah : Z; al : Z; bx : Z; intno : Z }.

(** [sys_int86] makes the call and returns a code; only 1 counts as a failure. *)
Definition set_vbe_mode (sys_int86 : reg86 -> Z) (mode : Z) : Z :=
  let r := Reg86 79 VBE (u16 (Z.lor (BIT 14) mode)) INT in
  if sys_int86 r =? 1 then 1 else 0.

Lemma set_vbe_mode_cases call mode : set_vbe_mode call mode = 0 \/ set_vbe_mode call mode = 1.
Proof. unfold set_vbe_mode. destruct (_ =? 1); [by right | by left]. Qed.

(** ** Pixels *)

(** The loop of [draw_pixel]: [n] bytes of [color], least significant first. *)
Fixpoint store_color (n : nat) (buf : list Z) (off color : Z) : res (list Z) :=
  match n with
  | O => Ok buf
  | S n =>
      match arr_set buf off (u8 color) with
      | None => Undef OutOfBounds
      | Some buf => store_color n buf (off + 1) (Z.shiftr color 8)
      end
  end.

(** [bytes_per_pixel] is here a local, [ceil(bppixel / 8.0)]. *)
Definition draw_pixel (x y color : Z) (v : vc) : res (Z * vc) :=
  if (y_res v <=? y) || (x_res v <=? x) then Ok (1, v)
  else
    let bytes_per_pixel := u8 ((bppixel v + 7) / 8) in
    if bytes_per_pixel =? 1 then
      match arr_set (buffer v) (u32 (y * x_res v * bytes_per_pixel) + u32 (x * bytes_per_pixel)) (u8 color) with
      | None => Undef OutOfBounds
      | Some b => Ok (0, set_buffer b v)
      end
    else
      res_bind (store_color (Z.to_nat bytes_per_pixel) (buffer v)
                  (u32 (bytes_per_pixel * y * x_res v) + u32 (x * bytes_per_pixel)) color)
        (fun b => Ok (0, set_buffer b v)).

(** ** Images *)

(** [((uint16_t * )(bytes))[i]]. *)
Definition read16 (bs : list Z) (i : Z) : option Z :=
  match arr_get bs (2 * i), arr_get bs (2 * i + 1) with
  | Some lo, Some hi => Some (lo + 256 * hi)
  | _, _ => None
  end.

(** The two loops of [draw_xpm_x_y] share the counter [bcount]. *)
Fixpoint draw_cols (n : nat) (img : xpm_image_t) (transparent i j bcount : Z) (v : vc)
  : res (Z * vc) :=
  match n with
  | O => Ok (bcount, v)
  | S n =>
      match read16 (img_bytes img) bcount with
      | None => Undef OutOfBounds
      | Some c =>
          res_bind (if c =? transparent then Ok v
                    else res_bind (draw_pixel (u16 j) (u16 i) c v) (fun r => Ok (snd r)))
            (draw_cols n img transparent i (j + 1) (bcount + 1))
      end
  end.

Fixpoint draw_rows (n : nat) (img : xpm_image_t) (transparent i x bcount : Z) (v : vc)
  : res vc :=
  match n with
  | O => Ok v
  | S n =>
      res_bind (draw_cols (Z.to_nat (img_width img)) img transparent i x bcount v)
        (fun r => draw_rows n img transparent (i + 1) x (fst r) (snd r))
  end.

(** [transparency] is [xpm_transparency_color] of the LCF library. *)
Definition draw_xpm_x_y (transparency : Z -> Z) (img : xpm_image_t) (x y : Z) (v : vc) : res vc :=
  draw_rows (Z.to_nat (img_height img)) img (transparency (img_type img)) (u16 y) (u16 x) 0 v.

Definition frame_size (v : vc) : Z := u32 (x_res v * y_res v * bytes_per_pixel v).

(** [memcpy(dst, src, n)] on arrays. *)
Definition memcpy (dst src : list Z) (n : Z) : res (list Z) :=
  if (zlen dst <? n) || (zlen src <? n) then Undef OutOfBounds
  else Ok (take (Z.to_nat n) src ++ drop (Z.to_nat n) dst).

Definition draw_xpm (screen : xpm_image_t) (v : vc) : res vc :=
  res_bind (memcpy (buffer v) (img_bytes screen) (frame_size v))
    (fun b => Ok (set_buffer b v)).

Definition copy_to_video (v : vc) : res vc :=
  res_bind (memcpy (video_mem v) (buffer v) (frame_size v))
    (fun m => res_bind (memcpy (buffer v) (replicate (Z.to_nat (frame_size v)) 0) (frame_size v))
       (fun b => Ok (Vc (x_res v) (y_res v) (bppixel v) (bytes_per_pixel v) m b))).

(** ** Text boxes *)

Record text_box := TextBox {
  char_prop : list (option prop);   (* [char_prop[MAX_TEXT_BOX_SIZE]], unset cells are [None] *)
  xi : Z; yi : Z; max_x : Z; min_x : Z; cursor_x : Z;
  char_size : Z; char_max_size : Z
}.

Definition create_writeable_text_box (cursor_x cursor_y min_x max_x max_size : Z) : text_box :=
  TextBox (replicate (Z.to_nat MAX_TEXT_BOX_SIZE) None) (u16 cursor_x) (u16 cursor_y)
    (u16 max_x) (u16 min_x) (u16 cursor_x) 0 max_size.

Section TextBox.
Variable im : images.
Variable transparency : Z -> Z.

(** The common end of the two adding functions. *)
Definition push_prop (p : prop) (cursor' xi' : Z) (box : text_box) : res (bool * text_box) :=
  match arr_set (char_prop box) (char_size box) (Some p) with
  | None => Undef OutOfBounds
  | Some ps =>
      Ok (true, TextBox ps xi' (yi box) (max_x box) (min_x box) cursor'
                  (char_size box + 1) (char_max_size box))
  end.

Definition add_to_text_box (byte : Z) (box : text_box) : res (bool * text_box) :=
  if char_size box =? char_max_size box then Ok (false, box)
  else
    let p := get_prop_from_char byte in
    match glyph im p with
    | None => Undef OutOfBounds
    | Some img =>
        if max_x box <? cursor_x box + img_width img then Ok (false, box)
        else push_prop p (u16 (cursor_x box + img_width img)) (xi box) box
    end.

(** [(width + 1 / 2)] in the second test is [width + 0]. *)
Definition add_to_centered_text_box (byte : Z) (box : text_box) : res (bool * text_box) :=
  if char_size box =? char_max_size box then Ok (false, box)
  else
    let p := get_prop_from_char byte in
    match glyph im p with
    | None => Undef OutOfBounds
    | Some img =>
        if max_x box <? cursor_x box + img_width img / 2 then Ok (false, box)
        else if xi box - (img_width img + 1 / 2) <? min_x box then Ok (false, box)
        else push_prop p (u16 (cursor_x box + img_width img / 2))
               (u16 (xi box - (img_width img + 1) / 2)) box
    end.

(** The glyph in a cell of the box. *)
Definition box_glyph (box : text_box) (i : Z) : res xpm_image_t :=
  match arr_get (char_prop box) i with
  | None => Undef OutOfBounds
  | Some None => Undef Uninitialised
  | Some (Some p) => match glyph im p with Some g => Ok g | None => Undef OutOfBounds end
  end.

Fixpoint erase_glyphs (n : nat) (x y : Z) (empty : xpm_image_t) (v : vc) : res vc :=
  match n with
  | O => Ok v
  | S n =>
      res_bind (draw_xpm_x_y transparency empty x y v)
        (erase_glyphs n (x + img_width empty) y empty)
  end.

Definition erase_text_box (box : text_box) (v : vc) : res vc :=
  match get_empty im with
  | None => Undef OutOfBounds
  | Some empty => erase_glyphs (Z.to_nat (char_size box)) (xi box) (yi box) empty v
  end.

(** The box is drawn over with blanks before its last character goes. *)
Definition remove_from_centered_text_box (box : text_box) (v : vc) : res (text_box * vc) :=
  if char_size box =? 0 then Ok (box, v)
  else
    res_bind (erase_text_box box v) (fun v =>
      res_bind (box_glyph box (char_size box - 1)) (fun img =>
        Ok (TextBox (char_prop box) (u16 (xi box + (img_width img + 1) / 2)) (yi box)
              (max_x box) (min_x box) (u16 (cursor_x box - img_width img / 2))
              (char_size box - 1) (char_max_size box), v))).

Fixpoint add_all (chars : list Z) (box : text_box) : res text_box :=
  match chars with
  | [] => Ok box
  | c :: chars => res_bind (add_to_text_box c box) (fun r => add_all chars (snd r))
  end.

(** The first [size] characters of the array [char_props]. *)
Definition create_static_text_box (x y : Z) (char_props : list Z) (size : Z) : res text_box :=
  if zlen char_props <? size then Undef OutOfBounds
  else add_all (take (Z.to_nat size) char_props) (create_writeable_text_box x y 0 65535 size).

Fixpoint draw_glyphs (n : nat) (i : Z) (x y : Z) (box : text_box) (v : vc) : res vc :=
  match n with
  | O => Ok v
  | S n =>
      res_bind (box_glyph box i) (fun g =>
        res_bind (draw_xpm_x_y transparency g x y v)
          (draw_glyphs n (i + 1) (x + img_width g) y box))
  end.

Definition draw_text_box (box : text_box) (v : vc) : res vc :=
  draw_glyphs (Z.to_nat (char_size box)) 0 (xi box) (yi box) box v.
End TextBox.

(** ** Well-formed frame buffers *)

(** The mode has a whole number of bytes per pixel (1 to 4), its frame fits a
    32-bit size, and the buffers have the size of the frame. *)
Definition vc_ok (v : vc) : Prop :=
  0 < x_res v < 65536 /\ 0 < y_res v < 65536 /\
  1 <= bytes_per_pixel v <= 4 /\ bppixel v = 8 * bytes_per_pixel v /\
  x_res v * y_res v * bytes_per_pixel v < 4294967296 /\
  zlen (buffer v) = x_res v * y_res v * bytes_per_pixel v /\
  zlen (video_mem v) = x_res v * y_res v * bytes_per_pixel v.

Lemma get_mode_info_ok mi mapped fresh :
  (forall n, 0 <= n -> zlen (mapped n) = n) -> (forall n, 0 <= n -> zlen (fresh n) = n) ->
  0 < XResolution mi < 65536 -> 0 < YResolution mi < 65536 ->
  BitsPerPixel mi mod 8 = 0 -> 8 <= BitsPerPixel mi <= 32 ->
  XResolution mi * YResolution mi * (BitsPerPixel mi / 8) < 4294967296 ->
  vc_ok (get_mode_info mi mapped fresh).
Proof.
  intros Hm Hf Hx Hy Hb8 Hb Hsz. unfold vc_ok, get_mode_info. cbn.
  assert (Hq : BitsPerPixel mi = 8 * (BitsPerPixel mi / 8)) by zlia.
  assert (0 <= XResolution mi * YResolution mi * (BitsPerPixel mi / 8)) by nia.
  unfold u32. rewrite Z.mod_small by lia. rewrite Hm, Hf by lia. repeat split; lia.
Qed.

Lemma arr_get_insert {A} (l : list A) i j a :
  0 <= i < zlen l -> 0 <= j ->
  arr_get (<[Z.to_nat i := a]> l) j = if j =? i then Some a else arr_get l j.
Proof.
  intros Hi Hj. unfold arr_get, zlen in *.
  replace (j <? 0) with false by (symmetry; apply Z.ltb_ge; lia).
  destruct (Z.eqb_spec j i) as [-> | Hne].
  - apply list_lookup_insert_eq. lia.
  - apply list_lookup_insert_ne. lia.
Qed.

Lemma zlen_insert {A} (l : list A) i a : zlen (<[i := a]> l) = zlen l.
Proof. unfold zlen. by rewrite length_insert. Qed.

Lemma store_color_spec n buf off color :
  0 <= off -> off + Z.of_nat n <= zlen buf ->
  exists buf', store_color n buf off color = Ok buf' /\ zlen buf' = zlen buf /\
    forall o, 0 <= o -> arr_get buf' o =
      if (off <=? o) && (o <? off + Z.of_nat n) then Some (u8 (Z.shiftr color (8 * (o - off))))
      else arr_get buf o.
Proof.
  revert buf off color. induction n as [| n IH]; intros buf off color H0 Hl.
  - exists buf. split; [done |]. split; [done |]. intros o Ho.
    destruct ((off <=? o) && (o <? off + Z.of_nat 0)) eqn:E; [unbool; lia | done].
  - cbn [store_color]. rewrite arr_set_Some by lia.
    destruct (IH (<[Z.to_nat off := u8 color]> buf) (off + 1) (Z.shiftr color 8))
      as (buf' & Hs & Hlen & Hget); [lia | rewrite zlen_insert; lia |].
    exists buf'. split; [done |]. split; [by rewrite Hlen, zlen_insert |].
    intros o Ho. rewrite (Hget o Ho), arr_get_insert by lia.
    destruct (Z.eqb_spec o off) as [-> | Hne].
    + replace (off + 1 <=? off) with false by (symmetry; apply Z.leb_gt; lia).
      replace (off <=? off) with true by (symmetry; apply Z.leb_le; lia).
      replace (off <? off + Z.of_nat (S n)) with true by (symmetry; apply Z.ltb_lt; lia).
      cbn. by rewrite Z.sub_diag.
    + destruct (Z_lt_le_dec o off).
      * replace (off + 1 <=? o) with false by (symmetry; apply Z.leb_gt; lia).
        replace (off <=? o) with false by (symmetry; apply Z.leb_gt; lia). done.
      * replace (off + 1 <=? o) with true by (symmetry; apply Z.leb_le; lia).
        replace (off <=? o) with true by (symmetry; apply Z.leb_le; lia).
        replace (off + 1 + Z.of_nat n) with (off + Z.of_nat (S n)) by lia. cbn [andb].
        destruct (o <? off + Z.of_nat (S n)); [| done].
        rewrite Z.shiftr_shiftr by lia. do 3 f_equal. lia.
Qed.

(** The two geometric facts behind every bound: the offset of a pixel of the
    screen, and that different pixels do not overlap. *)
Lemma pixel_offset_bound w h bpp x y :
  0 < bpp -> 0 <= x < w -> 0 <= y < h ->
  0 <= bpp * y * w + x * bpp /\ bpp * y * w + x * bpp + bpp <= w * h * bpp.
Proof.
  intros Hb Hx Hy.
  assert (H1 : 0 <= y * w) by nia. assert (H2 : y * w <= (h - 1) * w) by nia.
  replace (bpp * y * w + x * bpp) with (bpp * (y * w + x)) by ring.
  replace (bpp * (y * w + x) + bpp) with (bpp * (y * w + x + 1)) by ring.
  replace (w * h * bpp) with (bpp * (w * h)) by ring.
  split; [nia |]. apply Z.mul_le_mono_nonneg_l; lia.
Qed.

Lemma pixel_offset_inj w bpp x y x' y' o :
  0 < bpp -> 0 <= x < w -> 0 <= x' < w -> 0 <= y -> 0 <= y' ->
  bpp * y * w + x * bpp <= o < bpp * y * w + x * bpp + bpp ->
  bpp * y' * w + x' * bpp <= o < bpp * y' * w + x' * bpp + bpp -> x = x' /\ y = y'.
Proof.
  intros Hb Hx Hx' Hy Hy' H1 H2.
  assert (y * w + x = o / bpp)
    by (apply (Z.div_unique_pos _ _ _ (o - (bpp * y * w + x * bpp))); nia).
  assert (y' * w + x' = o / bpp)
    by (apply (Z.div_unique_pos _ _ _ (o - (bpp * y' * w + x' * bpp))); nia).
  assert (y = y') by nia. split; [nia | done].
Qed.

(** What one call of [draw_pixel] does, in every mode. *)
Definition same_mode (v v' : vc) : Prop :=
  x_res v' = x_res v /\ y_res v' = y_res v /\ bppixel v' = bppixel v /\
  bytes_per_pixel v' = bytes_per_pixel v /\ video_mem v' = video_mem v /\
  zlen (buffer v') = zlen (buffer v).

Lemma same_mode_refl v : same_mode v v.
Proof. repeat split. Qed.

Lemma same_mode_trans v1 v2 v3 : same_mode v1 v2 -> same_mode v2 v3 -> same_mode v1 v3.
Proof. unfold same_mode. intuition congruence. Qed.

Lemma same_mode_ok v v' : same_mode v v' -> vc_ok v -> vc_ok v'.
Proof.
  unfold vc_ok, same_mode. intros (-> & -> & -> & -> & -> & ->) H. exact H.
Qed.

Lemma draw_pixel_spec x y color v :
  vc_ok v -> 0 <= x < x_res v -> 0 <= y < y_res v ->
  let bpp := bytes_per_pixel v in
  let off := bpp * y * x_res v + x * bpp in
  exists v', draw_pixel x y color v = Ok (0, v') /\ same_mode v v' /\
    forall o, 0 <= o -> arr_get (buffer v') o =
      if (off <=? o) && (o <? off + bpp) then Some (u8 (Z.shiftr color (8 * (o - off))))
      else arr_get (buffer v) o.
Proof.
  intros (Hxr & Hyr & Hbpp & Hbits & Hsz & Hbuf & Hmem) Hx Hy bpp off.
  assert (Hlocal : u8 ((bppixel v + 7) / 8) = bpp).
  { rewrite Hbits. fold bpp. replace ((8 * bpp + 7) / 8) with bpp by (subst bpp; zlia).
    apply u8_id. subst bpp; lia. }
  destruct (pixel_offset_bound (x_res v) (y_res v) bpp x y) as [Ho1 Ho2]; [subst bpp; lia | done | done |].
  fold off in Ho1, Ho2.
  assert (Hu1 : 0 <= bpp * y * x_res v < 4294967296) by (subst bpp off; nia).
  assert (Hu2 : 0 <= x * bpp < 4294967296) by (subst bpp off; nia).
  unfold draw_pixel. rewrite Hlocal.
  replace (y_res v <=? y) with false by (symmetry; apply Z.leb_gt; lia).
  replace (x_res v <=? x) with false by (symmetry; apply Z.leb_gt; lia). cbn [orb].
  destruct (Z.eqb_spec bpp 1) as [H1 | H1].
  - assert (Hoff : u32 (y * x_res v * bpp) + u32 (x * bpp) = off).
    { unfold u32. rewrite !Z.mod_small by lia. subst off. ring. }
    rewrite Hoff, arr_set_Some by lia.
    eexists. split; [done |]. split; [unfold same_mode; cbn; by rewrite zlen_insert |].
    intros o Ho. cbn. rewrite arr_get_insert by lia. rewrite H1.
    destruct (Z.eqb_spec o off) as [-> | Hne].
    + replace (off <=? off) with true by (symmetry; apply Z.leb_le; lia).
      replace (off <? off + 1) with true by (symmetry; apply Z.ltb_lt; lia).
      cbn. by rewrite Z.sub_diag.
    + destruct ((off <=? o) && (o <? off + 1)) eqn:E; [unbool; lia | done].
  - assert (Hoff : u32 (bpp * y * x_res v) + u32 (x * bpp) = off).
    { unfold u32. rewrite !Z.mod_small by lia. done. }
    rewrite Hoff.
    destruct (store_color_spec (Z.to_nat bpp) (buffer v) off color) as (b & Hs & Hl & Hg); [lia | lia |].
    rewrite Hs. cbn [res_bind]. eexists. split; [done |].
    split; [unfold same_mode; cbn; by rewrite Hl |].
    intros o Ho. cbn. rewrite (Hg o Ho). replace (Z.of_nat (Z.to_nat bpp)) with bpp by (subst bpp; lia). done.
Qed.

Lemma draw_pixel_off_screen x y color v :
  x_res v <= x \/ y_res v <= y -> draw_pixel x y color v = Ok (1, v).
Proof.
  intros H. unfold draw_pixel.
  replace ((y_res v <=? y) || (x_res v <=? x)) with true; [done |].
  symmetry. apply orb_true_iff. rewrite !Z.leb_le. lia.
Qed.

(** ** Images at 16 bits per pixel *)

(** The pixel at (x, y) of the back buffer. *)
Definition pixel16 (v : vc) (x y : Z) : option Z := read16 (buffer v) (y * x_res v + x).

Definition on_screen (v : vc) (x y : Z) : Prop := 0 <= x < x_res v /\ 0 <= y < y_res v.

(** An image whose pixel data is all there, in bytes. *)
Definition img_ok (img : xpm_image_t) : Prop :=
  0 <= img_width img /\ 0 <= img_height img /\
  2 * (img_width img * img_height img) <= zlen (img_bytes img) /\
  Forall (fun b => 0 <= b < 256) (img_bytes img).

(** The pixel (i, j) of an image (column, row). *)
Definition img_pixel (img : xpm_image_t) (i j : Z) : option Z :=
  read16 (img_bytes img) (j * img_width img + i).

Lemma read16_Some img k :
  img_ok img -> 0 <= k < img_width img * img_height img ->
  exists c, read16 (img_bytes img) k = Some c /\ 0 <= c < 65536.
Proof.
  intros (Hw & Hh & Hl & Hb) Hk. unfold read16.
  destruct (arr_get_Some (img_bytes img) (2 * k)) as [lo Hlo]; [nia |].
  destruct (arr_get_Some (img_bytes img) (2 * k + 1)) as [hi Hhi]; [nia |].
  rewrite Hlo, Hhi. exists (lo + 256 * hi). split; [done |].
  pose proof (arr_get_Forall _ _ _ _ Hb Hlo). pose proof (arr_get_Forall _ _ _ _ Hb Hhi).
  cbn in *. lia.
Qed.

(** A pixel drawn at 16 bits per pixel is read back, and no other changes. *)
Lemma draw_pixel_16 x y c v :
  vc_ok v -> bytes_per_pixel v = 2 -> 0 <= c < 65536 -> 0 <= x -> 0 <= y ->
  exists r v', draw_pixel x y c v = Ok (r, v') /\ same_mode v v' /\
    forall px py, on_screen v px py ->
      pixel16 v' px py = if (px =? x) && (py =? y) then Some c else pixel16 v px py.
Proof.
  intros Hv H2 Hc Hx Hy.
  destruct (Z_lt_le_dec x (x_res v)) as [Hxr | Hxr];
    [destruct (Z_lt_le_dec y (y_res v)) as [Hyr | Hyr] |].
  2,3: rewrite draw_pixel_off_screen by lia; exists 1, v; split; [done |];
       split; [apply same_mode_refl |]; intros px py [Hpx Hpy];
       destruct ((px =? x) && (py =? y)) eqn:E; [unbool; lia | done].
  destruct (draw_pixel_spec x y c v Hv) as (v' & Hd & Hm & Hget); [lia | lia |].
  exists 0, v'. split; [done |]. split; [done |]. intros px py [Hpx Hpy].
  unfold pixel16, read16. rewrite (proj1 Hm).
  rewrite !Hget by nia. rewrite H2.
  replace (2 * y * x_res v + x * 2) with (2 * (y * x_res v + x)) by ring.
  set (k := y * x_res v + x). set (p := py * x_res v + px).
  destruct ((px =? x) && (py =? y)) eqn:E; unbool.
  - subst px py. change p with k.
    replace (2 * k <=? 2 * k) with true by (symmetry; apply Z.leb_le; lia).
    replace (2 * k <? 2 * k + 2) with true by (symmetry; apply Z.ltb_lt; lia).
    replace (2 * k <=? 2 * k + 1) with true by (symmetry; apply Z.leb_le; lia).
    replace (2 * k + 1 <? 2 * k + 2) with true by (symmetry; apply Z.ltb_lt; lia).
    cbn [andb]. f_equal.
    replace (8 * (2 * k - 2 * k)) with 0 by lia. replace (8 * (2 * k + 1 - 2 * k)) with 8 by lia.
    rewrite Z.shiftr_0_r, Z.shiftr_div_pow2 by lia. unfold u8. change (2 ^ 8) with 256. zlia.
  - assert (Hpk : p <> k).
    { intros Heq. destruct (pixel_offset_inj (x_res v) 1 px py x y p); lia. }
    replace ((2 * k <=? 2 * p) && (2 * p <? 2 * k + 2)) with false
      by (symmetry; apply andb_false_iff; rewrite Z.leb_gt, Z.ltb_ge; lia).
    replace ((2 * k <=? 2 * p + 1) && (2 * p + 1 <? 2 * k + 2)) with false
      by (symmetry; apply andb_false_iff; rewrite Z.leb_gt, Z.ltb_ge; lia).
    done.
Qed.

(** One row of an image. *)
Lemma draw_cols_16 n img tr i j k v :
  vc_ok v -> bytes_per_pixel v = 2 -> img_ok img ->
  0 <= i < 65536 -> 0 <= j -> j + Z.of_nat n <= 65536 ->
  0 <= k -> k + Z.of_nat n <= img_width img * img_height img ->
  exists v', draw_cols n img tr i j k v = Ok (k + Z.of_nat n, v') /\ same_mode v v' /\
    forall px py, on_screen v px py ->
      pixel16 v' px py =
      if (py =? i) && (j <=? px) && (px <? j + Z.of_nat n)
         && negb (bool_decide (read16 (img_bytes img) (k + (px - j)) = Some tr))
      then read16 (img_bytes img) (k + (px - j)) else pixel16 v px py.
Proof.
  revert j k v. induction n as [| n IH]; intros j k v Hv H2 Himg Hi Hj Hjn Hk Hkn.
  - exists v. cbn. rewrite Z.add_0_r. split; [done |]. split; [apply same_mode_refl |].
    intros px py _. destruct (_ && _) eqn:E; [unbool; lia | done].
  - cbn [draw_cols].
    destruct (read16_Some img k Himg) as (c & Hc & Hcr); [lia |]. rewrite Hc.
    rewrite (u16_id j), (u16_id i) by lia.
    assert (Hstep : exists v1,
      (if c =? tr then Ok v else res_bind (draw_pixel j i c v) (fun r => Ok (snd r))) = Ok v1 /\
      same_mode v v1 /\
      forall px py, on_screen v px py ->
        pixel16 v1 px py = if (px =? j) && (py =? i) && negb (c =? tr) then Some c else pixel16 v px py).
    { destruct (c =? tr).
      - exists v. split; [done |]. split; [apply same_mode_refl |]. intros. by rewrite andb_false_r.
      - destruct (draw_pixel_16 j i c v Hv H2 Hcr) as (r & v1 & Hd & Hm & Hp); [lia | lia |].
        rewrite Hd. exists v1. split; [done |]. split; [done |]. intros. rewrite andb_true_r. auto. }
    destruct Hstep as (v1 & Hs & Hm1 & Hp1). rewrite Hs. cbn [res_bind].
    destruct (IH (j + 1) (k + 1) v1) as (v2 & Hd2 & Hm2 & Hp2);
      try lia; [by eapply same_mode_ok | destruct Hm1 as (_ & _ & _ & -> & _); done | done |].
    exists v2. replace (k + Z.of_nat (S n)) with (k + 1 + Z.of_nat n) by lia.
    split; [done |]. split; [by eapply same_mode_trans |].
    intros px py Hon. rewrite Hp2 by (destruct Hm1 as (Hx1 & Hy1 & _); unfold on_screen; rewrite Hx1, Hy1; exact Hon).
    rewrite (Hp1 px py Hon).
    destruct (Z.eqb_spec py i) as [-> | Hpy]; [| cbn; by rewrite andb_false_r].
    destruct (Z.eqb_spec px j) as [-> | Hpx].
    + replace (j + 1 <=? j) with false by (symmetry; apply Z.leb_gt; lia).
      replace (j <=? j) with true by (symmetry; apply Z.leb_le; lia).
      replace (j <? j + Z.of_nat (S n)) with true by (symmetry; apply Z.ltb_lt; lia).
      replace (k + (j - j)) with k by lia. rewrite Hc. cbn.
      destruct (Z.eqb_spec c tr) as [-> | Hne].
      * by rewrite bool_decide_eq_true_2.
      * rewrite bool_decide_eq_false_2 by congruence. done.
    + cbn [andb]. replace (k + 1 + (px - (j + 1))) with (k + (px - j)) by lia.
      replace (px <? j + 1 + Z.of_nat n) with (px <? j + Z.of_nat (S n)) by (f_equal; lia).
      replace (j + 1 <=? px) with (j <=? px); [done |].
      apply eq_true_iff_eq. rewrite !Z.leb_le. lia.
Qed.

(** Whether the image drawn at (x, y) shows through at (px, py), and the
    expected pixel there. *)
Definition over_pixel (img : xpm_image_t) (tr x y px py : Z) (old : option Z) : option Z :=
  if (x <=? px) && (px <? x + img_width img) && (y <=? py) && (py <? y + img_height img)
     && negb (bool_decide (img_pixel img (px - x) (py - y) = Some tr))
  then img_pixel img (px - x) (py - y) else old.

Lemma draw_rows_16 n img tr i x r v :
  vc_ok v -> bytes_per_pixel v = 2 -> img_ok img ->
  0 <= i -> i + Z.of_nat n <= 65536 -> 0 <= x -> x + img_width img <= 65536 ->
  0 <= r -> r + Z.of_nat n <= img_height img ->
  exists v', draw_rows n img tr i x (r * img_width img) v = Ok v' /\ same_mode v v' /\
    forall px py, on_screen v px py ->
      pixel16 v' px py =
      if (i <=? py) && (py <? i + Z.of_nat n) && (x <=? px) && (px <? x + img_width img)
         && negb (bool_decide (img_pixel img (px - x) (r + (py - i)) = Some tr))
      then img_pixel img (px - x) (r + (py - i)) else pixel16 v px py.
Proof.
  intros Hv H2 Himg. revert i r v Hv H2. induction n as [| n IH]; intros i r v Hv H2 Hi Hin Hx Hxw Hr Hrn.
  - exists v. split; [done |]. split; [apply same_mode_refl |].
    intros px py _. destruct (_ && _) eqn:E; [unbool; lia | done].
  - cbn [draw_rows]. assert (Hw : 0 <= img_width img) by apply Himg.
    destruct (draw_cols_16 (Z.to_nat (img_width img)) img tr i x (r * img_width img) v)
      as (v1 & Hd1 & Hm1 & Hp1); try done; try lia;
      [rewrite Z2Nat.id by lia; assert ((r + 1) * img_width img <= img_height img * img_width img) by nia; lia |].
    rewrite Z2Nat.id in Hd1, Hp1 by lia. rewrite Hd1. cbn [res_bind fst snd].
    replace (r * img_width img + img_width img) with ((r + 1) * img_width img) by ring.
    destruct (IH (i + 1) (r + 1) v1) as (v2 & Hd2 & Hm2 & Hp2); try lia;
      [by eapply same_mode_ok | by destruct Hm1 as (_ & _ & _ & -> & _) |].
    exists v2. split; [done |]. split; [by eapply same_mode_trans |].
    intros px py Hon.
    rewrite Hp2 by (destruct Hm1 as (Hx1 & Hy1 & _); unfold on_screen; rewrite Hx1, Hy1; exact Hon).
    rewrite (Hp1 px py Hon).
    replace (r + 1 + (py - (i + 1))) with (r + (py - i)) by lia.
    destruct (Z.eqb_spec py i) as [-> | Hpy].
    + replace (i + 1 <=? i) with false by (symmetry; apply Z.leb_gt; lia).
      replace (i <=? i) with true by (symmetry; apply Z.leb_le; lia).
      replace (i <? i + Z.of_nat (S n)) with true by (symmetry; apply Z.ltb_lt; lia).
      rewrite Z.sub_diag, Z.add_0_r. cbn [andb]. unfold img_pixel.
      by replace (r * img_width img + (px - x)) with (r * img_width img + (px - x)) by done.
    + cbn [andb].
      replace (py <? i + 1 + Z.of_nat n) with (py <? i + Z.of_nat (S n)) by (f_equal; lia).
      replace (i + 1 <=? py) with (i <=? py); [done |].
      apply eq_true_iff_eq. rewrite !Z.leb_le. lia.
Qed.

(** A whole image. *)
Lemma draw_xpm_x_y_draws tr img x y v :
  vc_ok v -> bytes_per_pixel v = 2 -> img_ok img ->
  0 <= x -> x + img_width img <= 65536 -> 0 <= y -> y + img_height img <= 65536 ->
  x < 65536 -> y < 65536 ->
  exists v', draw_xpm_x_y tr img x y v = Ok v' /\ same_mode v v' /\
    forall px py, on_screen v px py ->
      pixel16 v' px py = over_pixel img (tr (img_type img)) x y px py (pixel16 v px py).
Proof.
  intros Hv H2 Himg Hx Hxw Hy Hyh Hx' Hy'. unfold draw_xpm_x_y.
  rewrite (u16_id x), (u16_id y) by lia.
  assert (Hh : 0 <= img_height img) by apply Himg.
  destruct (draw_rows_16 (Z.to_nat (img_height img)) img (tr (img_type img)) y x 0 v)
    as (v' & Hd & Hm & Hp); try done; try lia.
  rewrite Z2Nat.id in Hp by lia.
  exists v'. split; [done |]. split; [done |]. intros px py Hon. rewrite (Hp px py Hon). unfold over_pixel.
  rewrite Z.add_0_l.
  replace ((y <=? py) && (py <? y + img_height img) && (x <=? px) && (px <? x + img_width img))
    with ((x <=? px) && (px <? x + img_width img) && (y <=? py) && (py <? y + img_height img)); [done |].
  destruct (y <=? py), (py <? y + img_height img), (x <=? px), (px <? x + img_width img); done.
Qed.

(** Pixels of the first bytes of a buffer. *)
Lemma read16_take bs n i : 0 <= i -> 2 * i + 2 <= n -> read16 (take (Z.to_nat n) bs) i = read16 bs i.
Proof.
  intros Hi Hn. unfold read16, arr_get.
  replace (2 * i <? 0) with false by (symmetry; apply Z.ltb_ge; lia).
  replace (2 * i + 1 <? 0) with false by (symmetry; apply Z.ltb_ge; lia).
  by rewrite !lookup_take_lt by lia.
Qed.

(** A screen-sized memcpy between well-formed buffers. *)
Lemma memcpy_full dst src n :
  0 <= n -> zlen dst = n -> n <= zlen src -> memcpy dst src n = Ok (take (Z.to_nat n) src).
Proof.
  intros Hn Hd Hs. unfold memcpy, zlen in *.
  replace ((Z.of_nat (length dst) <? n) || (Z.of_nat (length src) <? n)) with false
    by (symmetry; apply orb_false_iff; rewrite !Z.ltb_ge; lia).
  rewrite (drop_ge dst) by lia. by rewrite app_nil_r.
Qed.

Lemma frame_size_ok v : vc_ok v -> frame_size v = zlen (buffer v) /\ frame_size v = zlen (video_mem v).
Proof.
  intros (Hx & Hy & Hb & _ & Hs & Hl & Hm). unfold frame_size, u32.
  rewrite Z.mod_small by nia. lia.
Qed.

(** [copy_to_video] shows the back buffer and clears it. *)
Lemma copy_to_video_shows v :
  vc_ok v ->
  exists v', copy_to_video v = Ok v' /\ vc_ok v' /\ x_res v' = x_res v /\ y_res v' = y_res v /\
             bytes_per_pixel v' = bytes_per_pixel v /\ video_mem v' = buffer v /\
             buffer v' = replicate (length (buffer v)) 0.
Proof.
  intros Hv. destruct (frame_size_ok v Hv) as [Hb Hm]. unfold copy_to_video.
  assert (Hlb : Z.to_nat (frame_size v) = length (buffer v)) by (rewrite Hb; unfold zlen; lia).
  assert (Hn : 0 <= frame_size v) by (rewrite Hb; unfold zlen; lia).
  rewrite memcpy_full by lia. cbn [res_bind].
  rewrite memcpy_full by (unfold zlen in *; rewrite ?length_replicate; lia).
  cbn [res_bind]. eexists. split; [done |]. cbn [video_mem buffer].
  rewrite Hlb, firstn_all, take_ge by (rewrite length_replicate; lia).
  split; [| done]. destruct Hv as (H1 & H2 & H3 & H4 & H5 & H6 & H7).
  unfold vc_ok. cbn [x_res y_res bytes_per_pixel bppixel buffer video_mem].
  repeat split; try lia. unfold zlen in *. rewrite length_replicate. lia.
Qed.

(** ** Properties of the drawing functions *)

(** [draw_pixel] stays inside the back buffer for every mode with a whole
    number of bytes per pixel and every coordinate, reports the coordinates off
    the screen by 1 and then changes nothing; on the screen it changes exactly
    the bytes of the one pixel. *)
Theorem draw_pixel_in_bounds x y color v :
  vc_ok v -> 0 <= x < 65536 -> 0 <= y < 65536 ->
  exists r v', draw_pixel x y color v = Ok (r, v') /\ vc_ok v' /\
    (r = 1 -> v' = v) /\ (r = 0 <-> on_screen v x y) /\
    forall o, 0 <= o ->
      o / bytes_per_pixel v <> y * x_res v + x -> arr_get (buffer v') o = arr_get (buffer v) o.
Proof.
  intros Hv Hx Hy.
  destruct (Z_lt_le_dec x (x_res v)) as [Hxr | Hxr];
    [destruct (Z_lt_le_dec y (y_res v)) as [Hyr | Hyr] |].
  2,3: rewrite draw_pixel_off_screen by lia; exists 1, v;
       split; [done |]; split; [done |]; split; [done |]; split; [unfold on_screen; lia | done].
  destruct (draw_pixel_spec x y color v Hv) as (v' & Hd & Hm & Hget); [lia | lia |].
  exists 0, v'. split; [done |]. split; [by eapply same_mode_ok |].
  split; [lia |]. split; [unfold on_screen; lia |].
  intros o Ho Hne. rewrite (Hget o Ho).
  destruct (_ && _) eqn:E; [| done]. unbool. exfalso. apply Hne. symmetry.
  assert (0 < bytes_per_pixel v) by (destruct Hv as (_ & _ & Hb & _); lia).
  apply (Z.div_unique_pos _ _ _ (o - (bytes_per_pixel v * y * x_res v + x * bytes_per_pixel v))); nia.
Qed.

(** A 4x3 screen at 16 bits per pixel, for the witnesses. *)
Definition vc0 : vc :=
  get_mode_info (ModeInfo 4 3 16) (fun n => replicate (Z.to_nat n) 7) (fun n => replicate (Z.to_nat n) 9).

Lemma vc0_ok : vc_ok vc0.
Proof.
  apply get_mode_info_ok; try (vm_compute; intuition discriminate);
    intros n Hn; unfold zlen; rewrite length_replicate; lia.
Qed.

Lemma draw_pixel_in_bounds_witness :
  exists r v', draw_pixel 3 2 4660 vc0 = Ok (r, v') /\ vc_ok v'.
Proof.
  destruct (draw_pixel_in_bounds 3 2 4660 vc0 vc0_ok ltac:(lia) ltac:(lia)) as (r & v' & Hd & Hv & _).
  exists r, v'. split; [exact Hd | exact Hv].
Defined.

(** C26. [draw_xpm_x_y] draws the whole image with its corner at (x, y): each pixel
    of the screen that the image covers with an opaque pixel gets that pixel,
    every other pixel of the screen keeps its value, parts off the screen are
    clipped, and no access leaves a buffer. *)
Theorem draw_xpm_x_y_spec transparency img x y v :
  vc_ok v -> bytes_per_pixel v = 2 -> img_ok img ->
  0 <= x -> x + img_width img <= 65536 -> 0 <= y -> y + img_height img <= 65536 ->
  x < 65536 -> y < 65536 ->
  exists v', draw_xpm_x_y transparency img x y v = Ok v' /\ vc_ok v' /\ video_mem v' = video_mem v /\
    forall px py, on_screen v px py ->
      pixel16 v' px py =
      over_pixel img (transparency (img_type img)) x y px py (pixel16 v px py).
Proof.
  intros Hv H2 Himg Hx Hxw Hy Hyh Hx' Hy'.
  destruct (draw_xpm_x_y_draws transparency img x y v) as (v' & Hd & Hm & Hp); try done.
  exists v'. split; [done |]. split; [by eapply same_mode_ok |]. split; [apply Hm | exact Hp].
Qed.

(** A 2x2 image: one red pixel, two transparent ones, one blue. *)
Definition img0 : xpm_image_t := Xpm 2 2 2 [0; 248; 200; 1; 200; 1; 31; 0].

Lemma draw_xpm_x_y_spec_witness :
  exists v', draw_xpm_x_y (fun _ => 456) img0 3 1 vc0 = Ok v' /\
             pixel16 v' 3 1 = Some 63488 /\ pixel16 v' 3 2 = pixel16 vc0 3 2.
Proof.
  assert (Himg : img_ok img0) by (split; [cbn; lia |]; split; [cbn; lia |]; split; [vm_compute; discriminate |];
        cbn; repeat (apply List.Forall_cons; [lia |]); apply List.Forall_nil).
  destruct (draw_xpm_x_y_spec (fun _ => 456) img0 3 1 vc0 vc0_ok eq_refl Himg)
    as (v' & Hd & _ & _ & Hp); try (cbn; lia).
  exists v'. split; [exact Hd |]. split.
  - rewrite (Hp 3 1); [reflexivity | cbv; intuition discriminate].
  - rewrite (Hp 3 2); [reflexivity | cbv; intuition discriminate].
Defined.

(** A frame: what was drawn is shown, whole, and the next frame starts blank. *)
Theorem copy_to_video_spec v :
  vc_ok v ->
  exists v', copy_to_video v = Ok v' /\ vc_ok v' /\ video_mem v' = buffer v /\
             buffer v' = replicate (length (buffer v)) 0.
Proof. intros Hv. destruct (copy_to_video_shows v Hv) as (v' & ? & ? & _ & _ & _ & ? & ?). by exists v'. Qed.

Lemma copy_to_video_spec_witness :
  exists v', copy_to_video vc0 = Ok v' /\ video_mem v' = buffer vc0.
Proof.
  destruct (copy_to_video_spec vc0 vc0_ok) as (v' & Hc & _ & Hm & _).
  exists v'. split; [exact Hc | exact Hm].
Defined.

(** A mode of 15 bits per pixel is the exception: the buffer is allocated for
    [15 / 8 = 1] byte per pixel while [draw_pixel] writes [ceil(15 / 8.0) = 2],
    so drawing at the last pixel leaves the buffer. *)
Theorem draw_pixel_15bpp_overflows w h mapped fresh color :
  (forall n, 0 <= n -> zlen (fresh n) = n) ->
  0 < w < 65536 -> 0 < h < 32768 -> 2 <= w * h ->
  draw_pixel (w - 1) (h - 1) color (get_mode_info (ModeInfo w h 15) mapped fresh) = Undef OutOfBounds.
Proof.
  intros Hf Hw Hh Hwh. unfold draw_pixel, get_mode_info. cbn.
  change (15 / 8) with 1. change (u8 ((15 + 7) / 8)) with 2.
  replace (h <=? h - 1) with false by (symmetry; apply Z.leb_gt; lia).
  replace (w <=? w - 1) with false by (symmetry; apply Z.leb_gt; lia). cbn.
  unfold u32. rewrite !Z.mod_small by nia.
  change (Z.to_nat 2) with 2%nat. cbn [store_color].
  rewrite arr_set_None; [done |]. rewrite Hf by nia. nia.
Qed.

Lemma draw_pixel_15bpp_overflows_witness :
  draw_pixel 799 599 0
    (get_mode_info (ModeInfo 800 600 15) (fun _ => []) (fun n => replicate (Z.to_nat n) 0)) = Undef OutOfBounds.
Proof.
  apply (draw_pixel_15bpp_overflows 800 600 (fun _ => []) (fun n => replicate (Z.to_nat n) 0) 0); try lia.
  intros n Hn. unfold zlen. rewrite length_replicate. lia.
Defined.

(** ** Text boxes *)

(** The box holds the characters [s], laid out centred around [x0] with glyphs
    of width 42. *)
Record typed (x0 y0 max : Z) (s : list Z) (box : text_box) : Prop := Typed {
  typed_size : char_size box = zlen s;
  typed_max : char_max_size box = max;
  typed_fits : zlen s <= max;
  typed_cells : take (length s) (char_prop box) = map (fun c => Some (get_prop_from_char c)) s;
  typed_array : zlen (char_prop box) = MAX_TEXT_BOX_SIZE;
  typed_xi : xi box = x0 - 21 * zlen s;
  typed_yi : yi box = y0;
  typed_cursor : cursor_x box = x0 + 21 * zlen s;
  typed_min : min_x box = 0;
  typed_maxx : max_x box = 65535;
  typed_chars : Forall (fun c => c <> ch "/") s
}.

(** Room for [max] glyphs on both sides of [x0]. *)
Definition room (x0 max : Z) : Prop := 0 <= max <= MAX_TEXT_BOX_SIZE /\ 21 * (max + 1) <= x0 <= 60000.

Lemma typed_create x0 y0 max :
  room x0 max -> 0 <= y0 < 65536 ->
  typed x0 y0 max [] (create_writeable_text_box x0 y0 0 (-1) max).
Proof.
  intros [Hm Hx] Hy. unfold create_writeable_text_box, MAX_TEXT_BOX_SIZE in *.
  constructor; unfold zlen; cbn; rewrite ?u16_id by lia; try done; try reflexivity; try lia.
Qed.

(** Adding to a full box is refused and changes nothing. *)
Lemma typed_add_full im x0 y0 max s box c :
  typed x0 y0 max s box -> zlen s = max -> add_to_centered_text_box im c box = Ok (false, box).
Proof.
  intros Ht Hs. unfold add_to_centered_text_box.
  rewrite (typed_size _ _ _ _ _ Ht), (typed_max _ _ _ _ _ Ht), Hs. by rewrite Z.eqb_refl.
Qed.

Lemma map_snoc {A B} (f : A -> B) l a : map f (l ++ [a]) = map f l ++ [f a].
Proof. by rewrite map_app. Qed.

(** Otherwise it succeeds. *)
Lemma typed_add im x0 y0 max s box c :
  images_42 im -> room x0 max -> typed x0 y0 max s box -> zlen s < max -> c <> ch "/" ->
  exists box', add_to_centered_text_box im c box = Ok (true, box') /\
               typed x0 y0 max (s ++ [c]) box'.
Proof.
  intros Him [Hm Hx] Ht Hs Hc. unfold add_to_centered_text_box.
  rewrite (typed_size _ _ _ _ _ Ht), (typed_max _ _ _ _ _ Ht).
  replace (zlen s =? max) with false by (symmetry; apply Z.eqb_neq; lia).
  destruct (glyph_large_42 im c Him Hc) as (g & Hg & Hw). rewrite Hg, Hw.
  rewrite (typed_maxx _ _ _ _ _ Ht), (typed_cursor _ _ _ _ _ Ht), (typed_xi _ _ _ _ _ Ht),
    (typed_min _ _ _ _ _ Ht).
  unfold glyph_width. change (42 / 2) with 21. change (42 + 1 / 2) with 42.
  change ((42 + 1) / 2) with 21.
  assert (Hl0 : 0 <= zlen s) by (unfold zlen; lia). unfold MAX_TEXT_BOX_SIZE in *.
  replace (65535 <? x0 + 21 * zlen s + 21) with false by (symmetry; apply Z.ltb_ge; lia).
  replace (x0 - 21 * zlen s - 42 <? 0) with false by (symmetry; apply Z.ltb_ge; lia).
  pose proof (typed_array _ _ _ _ _ Ht) as Ha. unfold MAX_TEXT_BOX_SIZE in Ha.
  unfold push_prop. rewrite (typed_size _ _ _ _ _ Ht), arr_set_Some by lia.
  eexists. split; [done |]. rewrite !u16_id by lia.
  assert (Hzl : zlen (s ++ [c]) = zlen s + 1) by (unfold zlen; rewrite length_app; cbn; lia).
  constructor; cbn [char_size char_max_size char_prop xi yi cursor_x min_x max_x];
    rewrite ?Hzl, ?zlen_insert; try lia;
    try (apply Ht).
  - rewrite length_app, map_snoc, <- (typed_cells _ _ _ _ _ Ht). cbn [length].
    unfold zlen in *. rewrite Nat2Z.id, Nat.add_1_r, (take_S_r _ _ (Some (get_prop_from_char c))).
    + rewrite take_insert_ge by lia. done.
    + apply list_lookup_insert_eq. lia.
  - apply Forall_app. split; [apply Ht | by constructor].
Qed.

(** Removing the last character undoes the addition. *)
Lemma typed_remove im tr x0 y0 max s c box v v' :
  images_42 im -> room x0 max -> typed x0 y0 max (s ++ [c]) box -> erase_text_box im tr box v = Ok v' ->
  exists box', remove_from_centered_text_box im tr box v = Ok (box', v') /\ typed x0 y0 max s box'.
Proof.
  intros Him [Hm Hx] Ht He. unfold remove_from_centered_text_box.
  assert (Hzl : zlen (s ++ [c]) = zlen s + 1) by (unfold zlen; rewrite length_app; cbn; lia).
  pose proof (typed_size _ _ _ _ _ Ht) as Hsz. pose proof (typed_fits _ _ _ _ _ Ht) as Hf.
  pose proof (typed_array _ _ _ _ _ Ht) as Ha. pose proof (typed_cells _ _ _ _ _ Ht) as Hcells.
  pose proof (typed_chars _ _ _ _ _ Ht) as Hch. apply Forall_app in Hch as [Hch1 Hch2].
  apply Forall_inv in Hch2. cbn in Hch2.
  assert (Hl0 : 0 <= zlen s) by (unfold zlen; lia). unfold MAX_TEXT_BOX_SIZE in *.
  rewrite Hsz, Hzl in *.
  replace (zlen s + 1 =? 0) with false by (symmetry; apply Z.eqb_neq; lia). rewrite He. cbn [res_bind].
  replace (zlen s + 1 - 1) with (zlen s) by lia.
  rewrite length_app, map_snoc in Hcells. cbn [length] in Hcells.
  assert (Hcell : char_prop box !! length s = Some (Some (get_prop_from_char c))).
  { rewrite <- (lookup_take_lt _ (length s + 1)) by lia. rewrite Hcells.
    rewrite lookup_app_r by (rewrite length_map; lia). rewrite length_map, Nat.sub_diag. done. }
  unfold box_glyph, zlen. rewrite arr_get_lookup, Hcell.
  destruct (glyph_large_42 im c Him Hch2) as (g & Hg & Hw). rewrite Hg. cbn [res_bind].
  eexists. split; [done |]. rewrite Hw. unfold glyph_width.
  change (42 / 2) with 21. change ((42 + 1) / 2) with 21.
  rewrite (typed_cursor _ _ _ _ _ Ht), (typed_xi _ _ _ _ _ Ht), Hzl. fold (zlen s).
  rewrite !u16_id by lia.
  constructor; cbn [char_size char_max_size char_prop xi yi cursor_x min_x max_x]; try lia;
    try (apply Ht); try done.
  - apply (f_equal (take (length s))) in Hcells. rewrite take_take in Hcells.
    rewrite Nat.min_l in Hcells by lia. rewrite Hcells, take_app_le by (rewrite length_map; lia).
    apply take_ge. rewrite length_map. lia.
Qed.

Lemma typed_remove_empty im tr x0 y0 max box v :
  typed x0 y0 max [] box -> remove_from_centered_text_box im tr box v = Ok (box, v).
Proof.
  intros Ht. unfold remove_from_centered_text_box. by rewrite (typed_size _ _ _ _ _ Ht).
Qed.
