(* ===== verification/Screen.v ===== *)
(** [screen.c]: the images of the screens, and what the drawing code of every
    mode is built from. *)

From stdpp Require Import base tactics list.
From Stdlib Require Import ZArith Lia Ascii String.
From S2P Require Import Prelude Consts Keyboard NumLetters Vc.

(** ** The screens *)

(** The array [s] of [struct Screen] as [loadscreens] fills it; the other field,
    [mode], starts as [MENU]. *)
Definition loadscreens (xpm_load : string -> xpm_image_t) : list xpm_image_t * Game_Modes :=
  (map xpm_load
     ["play_menu_xpm"; "how_to_play_xpm"; "leaderboard_menu_xpm"; "exit_menu_xpm";
      "leaderboard_xpm"; "instructions_xpm"; "winner1_xpm"; "winner2_xpm";
      "VS_activated_xpm"; "default_xpm"; "green_pressed_xpm"; "yellow_pressed_xpm";
      "purple_pressed_xpm"; "blue_pressed_xpm"; "red_pressed_xpm"; "white_pressed_xpm";
      "hiscore_xpm"; "number_of_rounds_xpm"; "tie_xpm"; "OnePC_xpm"; "TwoPC_xpm";
      "how_to_play_serial_port_xpm"; "leaderboard_serial_port_xpm"; "exit_serial_port_xpm";
      "host_xpm"; "connect_xpm"]%string,
   MENU).

(** What drawing reads and does not change: the loaded images and the
    transparent colour of each image type. *)
Record assets := Assets {
  screens : list xpm_image_t;
  glyphs : images;
  transparency : Z -> Z
}.

(** [draw_xpm(game.s[i])]. *)
Definition draw_screen (a : assets) (i : Z) (v : vc) : res vc :=
  match arr_get (screens a) i with
  | None => Undef OutOfBounds
  | Some img => draw_xpm img v
  end.

(** [draw_xpm_x_y( *p, x, y)] for a pointer to a glyph. *)
Definition draw_prop (a : assets) (p : prop) (x y : Z) (v : vc) : res vc :=
  match glyph (glyphs a) p with
  | None => Undef OutOfBounds
  | Some img => draw_xpm_x_y (transparency a) img x y v
  end.

(** Drawing one thing after another. *)
Definition draw_seq (f g : vc -> res vc) (v : vc) : res vc := res_bind (f v) g.
Notation "f ;; g" := (draw_seq f g) (at level 100, g at level 200, right associativity) : c_scope.

(** ** Drawing that cannot go wrong

    A frame buffer of the mode the program sets (0x114: 800x600 pixels of two
    bytes), and the functions that draw into it without leaving a buffer and
    without touching the video memory. *)

Definition screen_ok (v : vc) : Prop :=
  vc_ok v /\ x_res v = WIDTH /\ y_res v = HEIGHT /\ bytes_per_pixel v = 2.

Definition draws (f : vc -> res vc) : Prop :=
  forall v, screen_ok v -> exists v', f v = Ok v' /\ same_mode v v'.

(** ** Pictures

    What a frame shows, apart from the bytes that hold it: the pixel at each
    place.  Two pictures are the same when they agree inside the frame. *)

Definition picture : Type := Z -> Z -> option Z.

Definition in_frame (x y : Z) : Prop := 0 <= x < WIDTH /\ 0 <= y < HEIGHT.
Definition same_picture (p q : picture) : Prop := forall x y, in_frame x y -> p x y = q x y.
Infix "~~" := same_picture (at level 70, no associativity) : c_scope.

#[export] Instance same_picture_equivalence : Equivalence same_picture.
Proof.
  split.
  - by intros p x y.
  - intros p q Hpq x y Hxy. by rewrite (Hpq x y Hxy).
  - intros p q r Hpq Hqr x y Hxy. by rewrite (Hpq x y Hxy), (Hqr x y Hxy).
Qed.

(** The pictures of the back buffer and of the video memory. *)
Definition drawn (v : vc) : picture := pixel16 v.
Definition displayed (v : vc) : picture := fun x y => read16 (video_mem v) (y * x_res v + x).

(** A glyph at a place, and a screen with glyphs over it, the last one on top. *)
Record sprite := Sprite { sprite_prop : prop; sprite_x : Z; sprite_y : Z }.
Record scene := Scene { backdrop : Z; sprites : list sprite }.

Definition over (a : assets) (p : picture) (s : sprite) : picture :=
  match glyph (glyphs a) (sprite_prop s) with
  | None => p
  | Some g => fun x y =>
      over_pixel g (transparency a (img_type g)) (sprite_x s) (sprite_y s) x y (p x y)
  end.

Definition overlay (a : assets) (ss : list sprite) (p : picture) : picture := fold_left (over a) ss p.

Definition screen_picture (a : assets) (i : Z) : picture := fun x y =>
  match arr_get (screens a) i with
  | None => None
  | Some img => read16 (img_bytes img) (y * WIDTH + x)
  end.

Definition render (a : assets) (sc : scene) : picture :=
  overlay a (sprites sc) (screen_picture a (backdrop sc)).

(** A line of glyphs [w] pixels apart, and one centred around [x]. *)
Fixpoint row (ps : list prop) (x y w : Z) : list sprite :=
  match ps with
  | [] => []
  | p :: ps => Sprite p x y :: row ps (x + w) y w
  end.
Definition centred (ps : list prop) (x y : Z) : list sprite := row ps (x - 21 * zlen ps) y glyph_width.

#[export] Instance over_proper a : Proper (same_picture ==> eq ==> same_picture) (over a).
Proof.
  intros p q Hpq s s' <- x y Hxy. unfold over. destruct (glyph _ _); [by rewrite (Hpq x y Hxy) | by apply Hpq].
Qed.

#[export] Instance overlay_proper a : Proper (eq ==> same_picture ==> same_picture) (overlay a).
Proof.
  intros ss ss' <-. induction ss as [| s ss IH]; intros p q Hpq; [done |].
  apply IH. by rewrite Hpq.
Qed.

Lemma overlay_app a ss1 ss2 p : overlay a (ss1 ++ ss2) p = overlay a ss2 (overlay a ss1 p).
Proof. apply fold_left_app. Qed.

(** [paints f ss]: [f] draws [ss] over what there is, and [shows f sc]: the whole
    frame becomes [sc]. *)
Definition paints (a : assets) (f : vc -> res vc) (ss : list sprite) : Prop :=
  forall v, screen_ok v -> exists v', f v = Ok v' /\ same_mode v v' /\ drawn v' ~~ overlay a ss (drawn v).
Definition shows (a : assets) (f : vc -> res vc) (sc : scene) : Prop :=
  forall v, screen_ok v -> exists v', f v = Ok v' /\ same_mode v v' /\ drawn v' ~~ render a sc.

Lemma paints_draws a f ss : paints a f ss -> draws f.
Proof. intros Hf v Hv. destruct (Hf v Hv) as (v' & H1 & H2 & _). by exists v'. Qed.

Lemma shows_draws a f sc : shows a f sc -> draws f.
Proof. intros Hf v Hv. destruct (Hf v Hv) as (v' & H1 & H2 & _). by exists v'. Qed.

Lemma screen_ok_same v v' : screen_ok v -> same_mode v v' -> screen_ok v'.
Proof.
  intros (Hv & Hx & Hy & Hb) Hm. split; [by eapply same_mode_ok |].
  destruct Hm as (-> & -> & _ & -> & _). done.
Qed.

Lemma paints_nil a : paints a Ok [].
Proof. intros v Hv. exists v. split; [done |]. split; [apply same_mode_refl | done]. Qed.

Lemma paints_seq a f g ss1 ss2 : paints a f ss1 -> paints a g ss2 -> paints a (f ;; g) (ss1 ++ ss2).
Proof.
  intros Hf Hg v Hv. destruct (Hf v Hv) as (v1 & H1 & Hm1 & Hp1). unfold draw_seq. rewrite H1. cbn [res_bind].
  destruct (Hg v1) as (v2 & H2 & Hm2 & Hp2); [by eapply screen_ok_same |].
  exists v2. split; [done |]. split; [by eapply same_mode_trans |]. by rewrite Hp2, Hp1, overlay_app.
Qed.

Lemma shows_seq a f g i ss1 ss2 :
  shows a f (Scene i ss1) -> paints a g ss2 -> shows a (f ;; g) (Scene i (ss1 ++ ss2)).
Proof.
  intros Hf Hg v Hv. destruct (Hf v Hv) as (v1 & H1 & Hm1 & Hp1). unfold draw_seq. rewrite H1. cbn [res_bind].
  destruct (Hg v1) as (v2 & H2 & Hm2 & Hp2); [by eapply screen_ok_same |].
  exists v2. split; [done |]. split; [by eapply same_mode_trans |]. unfold render in *. cbn [sprites backdrop] in *.
  by rewrite Hp2, Hp1, overlay_app.
Qed.

Lemma shows_then a f g i ss : shows a f (Scene i []) -> paints a g ss -> shows a (f ;; g) (Scene i ss).
Proof. apply shows_seq. Qed.

(** The images have all their pixels: the screens cover the frame, the glyphs
    are at most 400 pixels wide and high. *)
Definition glyph_ok (g : xpm_image_t) : Prop :=
  img_ok g /\ img_width g <= 400 /\ img_height g <= 400.

Record assets_ok (a : assets) : Prop := {
  ok_screens : zlen (screens a) = 26;
  ok_screen_size : Forall (fun g => WIDTH * HEIGHT * 2 <= zlen (img_bytes g)) (screens a);
  ok_width : images_42 (glyphs a);
  ok_letters : Forall glyph_ok (letters (glyphs a));
  ok_numbers : Forall glyph_ok (numbers (glyphs a));
  ok_lilletters : Forall glyph_ok (lilletters (glyphs a));
  ok_lilnumbers : Forall glyph_ok (lilnumbers (glyphs a));
  ok_mouse : glyph_ok (mouse_img (glyphs a))
}.

Lemma ok_glyphs a : assets_ok a -> images_ok (glyphs a).
Proof. intros Ha. apply (ok_width a Ha). Qed.

Lemma draws_id : draws Ok.
Proof. intros v Hv. exists v. split; [done | apply same_mode_refl]. Qed.

Lemma draws_seq f g : draws f -> draws g -> draws (f ;; g).
Proof.
  intros Hf Hg v Hv. destruct (Hf v Hv) as (v1 & H1 & Hm1). unfold draw_seq. rewrite H1. cbn.
  destruct (Hg v1) as (v2 & H2 & Hm2); [by eapply screen_ok_same |].
  exists v2. split; [done | by eapply same_mode_trans].
Qed.

(** A glyph is drawn whole. *)
Lemma paints_glyph a g p x y :
  glyph (glyphs a) p = Some g -> glyph_ok g -> 0 <= x <= 65000 -> 0 <= y <= 65000 ->
  paints a (draw_xpm_x_y (transparency a) g x y) [Sprite p x y].
Proof.
  intros Hp (Hg & Hw & Hh) Hx Hy v Hv. pose proof Hv as (Hok & Hxr & Hyr & H2).
  destruct (draw_xpm_x_y_draws (transparency a) g x y v) as (v' & Hd & Hm & Hpix); try done; try lia.
  exists v'. split; [done |]. split; [done |]. intros px py Hin. unfold overlay, over. cbn. rewrite Hp.
  apply Hpix. unfold on_screen. rewrite Hxr, Hyr. exact Hin.
Qed.

Lemma glyph_in a p g : assets_ok a -> glyph (glyphs a) p = Some g -> glyph_ok g.
Proof.
  intros Ha. destruct p; cbn; intros Hg.
  1-4: eapply arr_get_Forall; [| exact Hg]; apply Ha.
  injection Hg as <-. apply Ha.
Qed.

Lemma paints_prop a p x y :
  assets_ok a -> is_Some (glyph (glyphs a) p) -> 0 <= x <= 65000 -> 0 <= y <= 65000 ->
  paints a (draw_prop a p x y) [Sprite p x y].
Proof.
  intros Ha [g Hg] Hx Hy. unfold draw_prop. rewrite Hg.
  apply paints_glyph; [done | by eapply glyph_in | done | done].
Qed.

Lemma shows_screen a i : assets_ok a -> 0 <= i < 26 -> shows a (draw_screen a i) (Scene i []).
Proof.
  intros Ha Hi v (Hv & Hx & Hy & H2). unfold draw_screen.
  destruct (arr_get_Some (screens a) i) as [g Hg]; [rewrite (ok_screens a Ha); lia |].
  rewrite Hg. pose proof (arr_get_Forall _ _ _ _ (ok_screen_size a Ha) Hg) as Hs. cbn in Hs.
  unfold draw_xpm. destruct (frame_size_ok v Hv) as [Hf1 Hf2].
  pose proof Hv as (_ & _ & _ & _ & _ & Hl & _). rewrite Hx, Hy, H2 in Hl.
  rewrite memcpy_full by (rewrite ?Hf1, ?Hl; unfold WIDTH, HEIGHT in *; lia).
  cbn [res_bind]. eexists. split; [done |]. split.
  - repeat split; cbn. unfold zlen in *. rewrite length_take. unfold WIDTH, HEIGHT in *. lia.
  - intros x y Hin. unfold render, drawn, pixel16, screen_picture, set_buffer.
    cbn [sprites backdrop overlay fold_left buffer x_res]. rewrite Hg, Hx.
    apply read16_take; unfold in_frame, WIDTH, HEIGHT in *; lia.
Qed.

Lemma draws_prop a p x y :
  assets_ok a -> is_Some (glyph (glyphs a) p) -> 0 <= x <= 65000 -> 0 <= y <= 65000 ->
  draws (draw_prop a p x y).
Proof. intros. by eapply paints_draws, paints_prop. Qed.

Lemma draws_screen a i : assets_ok a -> 0 <= i < 26 -> draws (draw_screen a i).
Proof. intros. by eapply shows_draws, shows_screen. Qed.

#[export] Hint Resolve draws_id draws_seq draws_screen draws_prop glyph_small_ok ok_glyphs ok_width : simon.

(** A character of the large alphabet: its glyph has the width 42. *)
Lemma glyph_of_char a c :
  assets_ok a -> c <> ch "/" ->
  exists g, glyph (glyphs a) (get_prop_from_char c) = Some g /\ glyph_ok g /\ img_width g = glyph_width.
Proof.
  intros Ha Hc. destruct (glyph_large_42 (glyphs a) c (ok_width a Ha) Hc) as (g & Hg & Hw).
  exists g. split; [done |]. split; [by eapply glyph_in | done].
Qed.

(** A text box that holds the characters [s], none of them a slash. *)
Record box_holds (s : list Z) (box : text_box) : Prop := {
  bh_size : char_size box = zlen s;
  bh_cells : take (List.length s) (char_prop box) = map (fun c => Some (get_prop_from_char c)) s;
  bh_chars : Forall (fun c => c <> ch "/") s
}.

Lemma box_holds_glyph a s box i c :
  assets_ok a -> box_holds s box -> s !! i = Some c ->
  exists g, box_glyph (glyphs a) box (Z.of_nat i) = Ok g /\ glyph (glyphs a) (get_prop_from_char c) = Some g /\
    glyph_ok g /\ img_width g = glyph_width.
Proof.
  intros Ha [Hn Hcells Hs] Hi. rewrite Forall_lookup in Hs.
  destruct (glyph_of_char a c Ha (Hs _ _ Hi)) as (g & Hg & Hok & Hw). exists g. split; [| done].
  unfold box_glyph. rewrite arr_get_lookup.
  rewrite <- (lookup_take_lt _ (List.length s)) by (by eapply lookup_lt_Some).
  rewrite Hcells, list_lookup_fmap, Hi. cbn [fmap option_fmap option_map]. by rewrite Hg.
Qed.

(** It is drawn as the line of its characters. *)
Lemma paints_glyphs a s1 s2 box x :
  assets_ok a -> box_holds (s1 ++ s2) box -> 0 <= yi box <= 60000 -> 0 <= x ->
  x + glyph_width * zlen s2 <= 60000 ->
  paints a (draw_glyphs (glyphs a) (transparency a) (List.length s2) (zlen s1) x (yi box) box)
    (row (map get_prop_from_char s2) x (yi box) glyph_width).
Proof.
  intros Ha Hbox Hy. revert s1 x Hbox. induction s2 as [| c s2 IH]; intros s1 x Hbox Hx Hxn; [apply paints_nil |].
  unfold glyph_width, zlen in *. cbn [List.length] in Hxn.
  destruct (box_holds_glyph a (s1 ++ c :: s2) box (List.length s1) c Ha Hbox) as (g & Hb & Hg & Hok & Hw);
    [by rewrite lookup_app_r, Nat.sub_diag by done |].
  intros v. cbn [draw_glyphs List.length row map]. rewrite Hb. cbn [res_bind]. rewrite Hw.
  apply (paints_seq a (draw_xpm_x_y (transparency a) g x (yi box)) _ [_]); [apply paints_glyph; done || lia |].
  replace (Z.of_nat (List.length s1) + 1) with (Z.of_nat (List.length (s1 ++ [c]))) by (rewrite length_app; cbn; lia).
  apply IH; unfold glyph_width; [by rewrite <- app_assoc | lia | lia].
Qed.

Lemma paints_text_box a s box :
  assets_ok a -> box_holds s box -> 0 <= xi box <= 10000 -> 0 <= yi box <= 60000 -> zlen s <= MAX_TEXT_BOX_SIZE ->
  paints a (draw_text_box (glyphs a) (transparency a) box)
    (row (map get_prop_from_char s) (xi box) (yi box) glyph_width).
Proof.
  intros Ha Hbox Hx Hy Hn. unfold draw_text_box. rewrite (bh_size _ _ Hbox). unfold zlen at 1. rewrite Nat2Z.id.
  unfold MAX_TEXT_BOX_SIZE in *. apply (paints_glyphs a [] s); try done; unfold glyph_width; lia.
Qed.

(** The boxes the user types into are such boxes, centred. *)
Lemma typed_holds x0 y0 max s box : typed x0 y0 max s box -> box_holds s box.
Proof. intros Ht. constructor; apply Ht. Qed.

Lemma paints_typed a x0 y0 max s box :
  assets_ok a -> room x0 max -> x0 <= 10000 -> 0 <= y0 <= 60000 -> typed x0 y0 max s box ->
  paints a (draw_text_box (glyphs a) (transparency a) box) (centred (map get_prop_from_char s) x0 y0).
Proof.
  intros Ha [Hm Hx] Hx1 Hy Ht. pose proof (typed_fits _ _ _ _ _ Ht).
  assert (0 <= zlen s) by (unfold zlen; lia). unfold centred. unfold zlen at 1. rewrite length_map.
  fold (zlen s). rewrite <- (typed_xi _ _ _ _ _ Ht), <- (typed_yi _ _ _ _ _ Ht).
  apply paints_text_box; rewrite ?(typed_xi _ _ _ _ _ Ht), ?(typed_yi _ _ _ _ _ Ht); try done; try lia.
  by eapply typed_holds.
Qed.

(** Erasing such a box blanks a line of [zlen s] glyphs. *)
Definition blank_line (a : assets) (x0 y0 n : Z) (v : vc) : res vc :=
  match get_empty (glyphs a) with
  | None => Undef OutOfBounds
  | Some g => erase_glyphs (transparency a) (Z.to_nat n) (x0 - 21 * n) y0 g v
  end.

Lemma erase_typed a x0 y0 max s box v :
  typed x0 y0 max s box ->
  erase_text_box (glyphs a) (transparency a) box v = blank_line a x0 y0 (zlen s) v.
Proof.
  intros Ht. unfold erase_text_box, blank_line.
  by rewrite (typed_size _ _ _ _ _ Ht), (typed_xi _ _ _ _ _ Ht), (typed_yi _ _ _ _ _ Ht).
Qed.

Lemma paints_blank_line a x0 y0 n :
  assets_ok a -> 0 <= n <= MAX_TEXT_BOX_SIZE -> 21 * n <= x0 <= 10000 -> 0 <= y0 <= 60000 ->
  paints a (blank_line a x0 y0 n) (centred (replicate (Z.to_nat n) (Letter 27)) x0 y0).
Proof.
  intros Ha Hn Hx Hy. pose proof (ok_width a Ha) as ((Hl & _) & Hw & _).
  destruct (arr_get_Some (letters (glyphs a)) 27) as [g Hg]; [lia |].
  assert (Hok : glyph_ok g) by (by apply (glyph_in a (Letter 27))).
  pose proof (arr_get_Forall _ _ _ _ Hw Hg) as Hwg. cbn beta in Hwg.
  unfold blank_line, get_empty, centred. cbn [glyph]. rewrite Hg.
  replace (zlen (replicate (Z.to_nat n) (Letter 27))) with n by (unfold zlen; rewrite length_replicate; lia).
  assert (Hgen : forall k x, 0 <= x -> x + 42 * Z.of_nat k <= 60000 ->
      paints a (erase_glyphs (transparency a) k x y0 g) (row (replicate k (Letter 27)) x y0 glyph_width)).
  { induction k as [| k IH]; intros x Hx0 Hxk; [apply paints_nil |]. unfold glyph_width in *.
    intros v. cbn [erase_glyphs replicate row]. rewrite Hwg.
    apply (paints_seq a (draw_xpm_x_y (transparency a) g x y0) _ [_]);
      [apply paints_glyph; done || lia | apply IH; lia]. }
  unfold MAX_TEXT_BOX_SIZE in *. apply Hgen; lia.
Qed.

Lemma draws_blank_line a x0 y0 n :
  assets_ok a -> 0 <= n <= MAX_TEXT_BOX_SIZE -> 21 * n <= x0 <= 10000 -> 0 <= y0 <= 60000 ->
  draws (blank_line a x0 y0 n).
Proof. intros. by eapply paints_draws, paints_blank_line. Qed.

(** Deleting a character: the box, and the frame with its line blanked. *)
Lemma typed_delete a x0 y0 max s c box v :
  assets_ok a -> room x0 max -> x0 <= 10000 -> 0 <= y0 <= 60000 ->
  typed x0 y0 max (s ++ [c]) box -> screen_ok v ->
  exists box' v', remove_from_centered_text_box (glyphs a) (transparency a) box v = Ok (box', v') /\
    typed x0 y0 max s box' /\ blank_line a x0 y0 (zlen s + 1) v = Ok v' /\ same_mode v v'.
Proof.
  intros Ha Hr Hx Hy Ht Hv. pose proof (typed_fits _ _ _ _ _ Ht) as Hf. rewrite zlen_snoc in Hf.
  pose proof Hr as [Hm Hx0]. assert (0 <= zlen s) by (unfold zlen; lia).
  destruct (draws_blank_line a x0 y0 (zlen s + 1) Ha) with (v := v) as (v' & Hb & Hmode); try done; try lia.
  destruct (typed_remove (glyphs a) (transparency a) x0 y0 max s c box v v' (ok_width a Ha) Hr Ht) as (box' & Hrm & Ht').
  { by rewrite (erase_typed a _ _ _ _ _ _ Ht), zlen_snoc. }
  by exists box', v'.
Qed.

(** Assets of the real sizes, for the witnesses. *)
Definition blank_screen : xpm_image_t :=
  Xpm 2 WIDTH HEIGHT (replicate (Z.to_nat (WIDTH * HEIGHT * 2)) 0).
Definition blank_glyph (w h : Z) : xpm_image_t := Xpm 2 w h (replicate (Z.to_nat (2 * (w * h))) 0).
Definition assets0 : assets :=
  Assets (replicate 26 blank_screen)
    (Images (replicate 28 (blank_glyph 42 44)) (replicate 10 (blank_glyph 42 44))
            (replicate 27 (blank_glyph 19 28)) (replicate 10 (blank_glyph 19 28)) (blank_glyph 42 44))
    (fun _ => 456).

Lemma blank_glyph_ok w h : 0 <= w <= 400 -> 0 <= h <= 400 -> glyph_ok (blank_glyph w h).
Proof.
  intros Hw Hh. split; [| cbn; lia]. unfold img_ok, zlen. cbn [img_width img_height img_bytes blank_glyph].
  rewrite length_replicate. split; [lia |]. split; [lia |]. split; [nia |].
  apply Forall_replicate. lia.
Qed.

Lemma blank_screen_size : WIDTH * HEIGHT * 2 <= zlen (img_bytes blank_screen).
Proof. unfold zlen, blank_screen. cbn [img_bytes]. rewrite length_replicate. lia. Qed.

Lemma assets0_ok : assets_ok assets0.
Proof.
  constructor; cbn [screens glyphs letters numbers lilletters lilnumbers mouse_img assets0].
  - unfold zlen. by rewrite length_replicate.
  - apply Forall_replicate, blank_screen_size.
  - split; [repeat split; unfold zlen; by rewrite length_replicate |].
    split; by apply Forall_replicate.
  - apply Forall_replicate, blank_glyph_ok; lia.
  - apply Forall_replicate, blank_glyph_ok; lia.
  - apply Forall_replicate, blank_glyph_ok; lia.
  - apply Forall_replicate, blank_glyph_ok; lia.
  - apply blank_glyph_ok; lia.
Qed.

Definition frame0 : vc :=
  get_mode_info (ModeInfo WIDTH HEIGHT 16)
    (fun n => replicate (Z.to_nat n) 0) (fun n => replicate (Z.to_nat n) 0).

Lemma frame0_ok : screen_ok frame0.
Proof.
  split; [| split; [reflexivity | split; reflexivity]].
  apply get_mode_info_ok; try (cbv; intuition discriminate);
    intros n Hn; unfold zlen; rewrite length_replicate; lia.
Qed.

(** ** Properties of the text boxes *)

(** Typing a character into a centred box and deleting it again leaves the
    visible characters and the layout as they were, and stays in the frame. *)
Theorem text_box_add_remove a x0 y0 max s box c v :
  assets_ok a -> room x0 max -> x0 <= 10000 -> 0 <= y0 <= 60000 ->
  typed x0 y0 max s box -> zlen s < max -> c <> ch "/" -> screen_ok v ->
  exists box' box'' v', add_to_centered_text_box (glyphs a) c box = Ok (true, box') /\
    typed x0 y0 max (s ++ [c]) box' /\
    remove_from_centered_text_box (glyphs a) (transparency a) box' v = Ok (box'', v') /\
    typed x0 y0 max s box'' /\ screen_ok v'.
Proof.
  intros Ha Hr Hx Hy Ht Hs Hc Hv.
  destruct (typed_add (glyphs a) x0 y0 max s box c (ok_width a Ha) Hr Ht Hs Hc) as (b' & Hb & Ht').
  destruct (typed_delete a x0 y0 max s c b' v Ha Hr Hx Hy Ht' Hv) as (b'' & v' & Hd & Ht'' & _ & Hm).
  exists b', b'', v'. split; [done |]. split; [done |]. split; [done |]. split; [done | by eapply screen_ok_same].
Qed.

Lemma text_box_add_remove_witness :
  exists box' box'' v',
    add_to_centered_text_box (glyphs assets0) (ch "7") (create_writeable_text_box 400 360 0 (-1) 3) = Ok (true, box') /\
    typed 400 360 3 [ch "7"] box' /\
    remove_from_centered_text_box (glyphs assets0) (transparency assets0) box' frame0 = Ok (box'', v') /\
    typed 400 360 3 [] box'' /\ screen_ok v'.
Proof.
  assert (Hr : room 400 3) by (unfold room, MAX_TEXT_BOX_SIZE; lia).
  apply (text_box_add_remove assets0 400 360 3 [] _ (ch "7") frame0 assets0_ok Hr);
    [lia | lia | apply typed_create; [exact Hr | lia] | reflexivity | discriminate | exact frame0_ok].
Defined.
