(* ===== verification/CString.v ===== *)
(** C strings in character arrays, and what the code uses of [<string.h>] and
    [<stdio.h>]: [strlen], [strncat], [memmove], the conversions [%s] and [%d]
    of [sprintf], [fprintf] and [fscanf]. *)

From stdpp Require Import base tactics list.
From Stdlib Require Import ZArith Lia Ascii.
From S2P Require Import Prelude Keyboard.

(** The characters before the first NUL of an array, and their number; an array
    without a NUL is read past its end. *)
Fixpoint c_str (l : list Z) : option (list Z) :=
  match l with
  | [] => None
  | c :: l => if c =? 0 then Some [] else
                match c_str l with Some s => Some (c :: s) | None => None end
  end.

Definition str_res (l : list Z) : res (list Z) :=
  match c_str l with Some s => Ok s | None => Undef OutOfBounds end.

(** [str_put dst at s]: the characters [s] and a NUL, written from [dst + at]. *)
Definition str_put (dst : list Z) (at_ : nat) (s : list Z) : res (list Z) :=
  if (length dst <? at_ + length s + 1)%nat then Undef OutOfBounds
  else Ok (take at_ dst ++ s ++ [0] ++ drop (at_ + length s + 1) dst).

(** [memcpy] of all [n] bytes of an array of [n] bytes. *)
Definition copy_array (n : nat) (dst src : list Z) : res (list Z) :=
  if (length dst <? n)%nat || (length src <? n)%nat then Undef OutOfBounds
  else Ok (take n src ++ drop n dst).

(** [strncat(dst, &c, 1)]. *)
Definition strncat1 (dst : list Z) (c : Z) : res (list Z) :=
  res_bind (str_res dst) (fun s => str_put dst (length s) (if c =? 0 then [] else [c])).

(** ** Decimal numbers *)

Fixpoint digits (fuel : nat) (n : Z) : list Z :=
  match fuel with
  | O => []
  | S fuel => if n <? 10 then [48 + n] else digits fuel (n / 10) ++ [48 + n mod 10]
  end.

(** [%d]: ten digits are enough for a 32-bit integer. *)
Definition print_d (n : Z) : list Z :=
  if n <? 0 then 45 :: digits 10 (- n) else digits 10 n.

Definition digits_value (s : list Z) : Z := fold_left (fun v c => v * 10 + (c - 48)) s 0.

Definition isdigit (c : Z) : bool := (48 <=? c) && (c <=? 57).
Definition isspace (c : Z) : bool := (c =? 32) || ((9 <=? c) && (c <=? 13)).

(** ** Scanning

    A white-space directive skips white space; [%s] skips it and takes the
    longest run of other characters; [%d] skips it and takes an optional sign
    and digits.  A conversion that finds nothing leaves its argument alone
    ([None]). *)

Fixpoint span (p : Z -> bool) (l : list Z) : list Z * list Z :=
  match l with
  | [] => ([], [])
  | c :: l' => if p c then let r := span p l' in (c :: fst r, snd r) else ([], l)
  end.

Definition skip_ws (l : list Z) : list Z := snd (span isspace l).

Definition scan_s (l : list Z) : option (list Z * list Z) :=
  let r := span (fun c => negb (isspace c)) (skip_ws l) in
  match fst r with [] => None | _ => Some r end.

Definition scan_d (l : list Z) : option (Z * list Z) :=
  let l := skip_ws l in
  let neg := match l with 45 :: _ => true | _ => false end in
  let l := match l with 45 :: l' | 43 :: l' => l' | _ => l end in
  let r := span isdigit l in
  match fst r with
  | [] => None
  | ds => Some (if neg then - digits_value ds else digits_value ds, snd r)
  end.

(** A [%d] that finds no digit may have taken a sign. *)
Definition skip_sign (l : list Z) : list Z :=
  match l with 45 :: l' | 43 :: l' => l' | _ => l end.

Definition INT_MIN := -2147483648.
Definition INT_MAX := 2147483647.

(** [fscanf(f, "%s\n", dst)] and [fscanf(f, "%d\n", &dst)]: the new contents of
    the argument and the rest of the input. *)
Definition fscanf_s (dst rest : list Z) : res (list Z * list Z) :=
  match scan_s rest with
  | None => Ok (dst, [])
  | Some (t, r) => res_bind (str_put dst 0 t) (fun d => Ok (d, skip_ws r))
  end.

Definition fscanf_d (dst : Z) (rest : list Z) : res (Z * list Z) :=
  match scan_d rest with
  | None => Ok (dst, skip_sign (skip_ws rest))
  | Some (n, r) => if (INT_MIN <=? n) && (n <=? INT_MAX) then Ok (n, skip_ws r) else Undef IntOverflow
  end.

(** ** Lemmas *)

Lemma c_str_app s l : Forall (fun c => c <> 0) s -> c_str (s ++ 0 :: l) = Some s.
Proof.
  induction 1 as [| c s Hc Hs IH]; cbn; [done |].
  replace (c =? 0) with false by (symmetry; by apply Z.eqb_neq). by rewrite IH.
Qed.

Lemma c_str_inv l s :
  c_str l = Some s -> exists r, l = s ++ 0 :: r /\ Forall (fun c => c <> 0) s.
Proof.
  revert s. induction l as [| c l IH]; cbn; [done |]. intros s.
  destruct (Z.eqb_spec c 0) as [-> | Hc].
  - intros [= <-]. by exists l.
  - destruct (c_str l) as [s' |]; [| done]. intros [= <-].
    destruct (IH s' eq_refl) as (r & -> & Hs). exists r. split; [done | by constructor].
Qed.

Lemma str_put_length dst n s d : str_put dst n s = Ok d -> length d = length dst.
Proof.
  unfold str_put. destruct (Nat.ltb_spec (length dst) (n + length s + 1)); [done |].
  intros [= <-]. rewrite length_app, length_take, length_app. cbn. rewrite length_drop. lia.
Qed.

Lemma str_put_0 dst s :
  (length s < length dst)%nat -> str_put dst 0 s = Ok (s ++ 0 :: drop (length s + 1) dst).
Proof.
  intros H. unfold str_put. destruct (Nat.ltb_spec (length dst) (0 + length s + 1)); [lia | done].
Qed.

Lemma digits_spec fuel n :
  (0 < fuel)%nat -> 0 <= n < 10 ^ Z.of_nat fuel ->
  digits_value (digits fuel n) = n /\ Forall (fun c => 48 <= c <= 57) (digits fuel n).
Proof.
  revert n. induction fuel as [| fuel IH]; intros n Hf Hn; [lia |]. cbn [digits].
  destruct (Z.ltb_spec n 10).
  - split; [unfold digits_value; cbn; lia | repeat constructor; lia].
  - rewrite Nat2Z.inj_succ, Z.pow_succ_r in Hn by lia.
    destruct fuel as [| fuel]; [cbn in Hn; lia |].
    destruct (IH (n / 10)) as [Hv Hd]; [lia | zlia |]. split.
    + unfold digits_value in *. rewrite fold_left_app, Hv. cbn. zlia.
    + apply Forall_app. split; [done |]. repeat constructor; zlia.
Qed.

(** A number below [10 ^ k] has at most [k] digits. *)
Lemma digits_length fuel k n :
  (0 < k)%nat -> 0 <= n < 10 ^ Z.of_nat k -> (length (digits fuel n) <= k)%nat.
Proof.
  revert fuel n. induction k as [| k IH]; intros fuel n Hk Hn; [lia |].
  destruct fuel as [| fuel]; [cbn; lia |]. cbn [digits].
  destruct (Z.ltb_spec n 10); [cbn; lia |].
  rewrite Nat2Z.inj_succ, Z.pow_succ_r in Hn by lia.
  destruct k as [| k]; [cbn in Hn; lia |].
  rewrite length_app. cbn [length]. specialize (IH fuel (n / 10)).
  assert (length (digits fuel (n / 10)) <= S k)%nat by (apply IH; [lia | zlia]). lia.
Qed.

Lemma digits_nonempty fuel n : (0 < fuel)%nat -> digits fuel n <> [].
Proof.
  destruct fuel; [lia |]. intros _. cbn. destruct (n <? 10); [done |]. by destruct (digits _ _).
Qed.

Lemma digits_ge_2 fuel n : (1 < fuel)%nat -> 10 <= n -> (2 <= length (digits fuel n))%nat.
Proof.
  destruct fuel as [| [| fuel]]; try lia. intros _ Hn. cbn -[Z.div Z.modulo].
  destruct (Z.ltb_spec n 10); [lia |]. rewrite length_app. cbn.
  destruct (n / 10 <? 10); cbn; [lia |]. rewrite length_app. cbn. lia.
Qed.

Lemma span_app p s c l :
  Forall (fun x => p x = true) s -> p c = false -> span p (s ++ c :: l) = (s, c :: l).
Proof.
  induction 1 as [| x s Hx Hs IH]; intros Hc; cbn; [by rewrite Hc |].
  rewrite Hx, (IH Hc). done.
Qed.

Lemma skip_ws_nonspace c l : isspace c = false -> skip_ws (c :: l) = c :: l.
Proof. intros H. unfold skip_ws. cbn. by rewrite H. Qed.

Lemma skip_ws_space c l : isspace c = true -> skip_ws (c :: l) = skip_ws l.
Proof. intros H. unfold skip_ws. cbn. by rewrite H. Qed.

(** A token followed by white space is scanned back. *)
Lemma scan_s_token t c l :
  t <> [] -> Forall (fun x => isspace x = false) t -> isspace c = true ->
  scan_s (t ++ c :: l) = Some (t, c :: l).
Proof.
  intros Ht Hs Hc. unfold scan_s. destruct t as [| x t]; [done |].
  rewrite <- app_comm_cons, skip_ws_nonspace by (by inversion Hs).
  rewrite app_comm_cons, span_app; cbn; [done | | by rewrite Hc].
  eapply Forall_impl; [exact Hs |]. cbn. by intros y ->.
Qed.

Lemma isdigit_iff x : isdigit x = true <-> 48 <= x <= 57.
Proof. unfold isdigit. rewrite andb_true_iff, !Z.leb_le. done. Qed.

Lemma isdigit_nonspace x : 48 <= x <= 57 -> isspace x = false.
Proof. intros. unfold isspace. apply orb_false_iff. split; [apply Z.eqb_neq; lia |].
  apply andb_false_iff. right. apply Z.leb_gt. lia. Qed.

(** [%d] reads back what [%d] printed. *)
Lemma scan_d_print n c l :
  -(10 ^ 10) < n < 10 ^ 10 -> isdigit c = false ->
  scan_d (print_d n ++ c :: l) = Some (n, c :: l).
Proof.
  intros Hn Hc. unfold print_d, scan_d.
  assert (Hd : forall m, 0 <= m < 10 ^ 10 ->
    span isdigit (digits 10 m ++ c :: l) = (digits 10 m, c :: l)).
  { intros m Hm. apply span_app; [| done]. destruct (digits_spec 10 m) as [_ Hd]; [lia | done |].
    eapply Forall_impl; [exact Hd |]. intros x Hx. by apply isdigit_iff. }
  destruct (Z.ltb_spec n 0) as [Hneg | Hpos].
  - rewrite <- app_comm_cons, skip_ws_nonspace by done. cbn [fst snd].
    rewrite Hd by lia. destruct (digits_spec 10 (- n)) as [Hv _]; [lia | lia |].
    pose proof (digits_nonempty 10 (- n)) as Hne. cbn [fst snd].
    destruct (digits 10 (- n)) as [| d ds]; [by destruct Hne; [lia |] |].
    rewrite Hv. do 2 f_equal. lia.
  - assert (Hm : 0 <= n < 10 ^ 10) by lia.
    specialize (Hd n Hm). destruct (digits_spec 10 n) as [Hv Hds]; [lia | done |].
    pose proof (digits_nonempty 10 n) as Hne.
    destruct (digits 10 n) as [| d ds]; [by destruct Hne; [lia |] |].
    apply List.Forall_inv in Hds as Hd0.
    rewrite <- app_comm_cons in *. rewrite skip_ws_nonspace by (by apply isdigit_nonspace).
    assert (Hneg : (match d :: ds ++ c :: l with 45 :: _ => true | _ => false end) = false).
    { destruct d as [| d | d]; try lia. do 6 (destruct d as [d | d |]; try done; try lia). }
    assert (Hl : (match d :: ds ++ c :: l with 45 :: l' | 43 :: l' => l' | _ => d :: ds ++ c :: l end)
                 = d :: ds ++ c :: l).
    { destruct d as [| d | d]; try lia. do 6 (destruct d as [d | d |]; try done; try lia). }
    rewrite Hneg, Hl, Hd. cbn [fst snd]. by rewrite Hv.
Qed.

Lemma skip_ws_idem l : skip_ws (skip_ws l) = skip_ws l.
Proof.
  induction l as [| c l IH]; [done |]. destruct (isspace c) eqn:E.
  - rewrite (skip_ws_space c l E). exact IH.
  - by rewrite (skip_ws_nonspace c l E), (skip_ws_nonspace c l E).
Qed.

(** A token: what [%s] can read into an array of eleven bytes. *)
Definition token (t : list Z) : Prop :=
  t <> [] /\ (length t <= 10)%nat /\ Forall (fun x => isspace x = false /\ x <> 0) t.

Lemma fscanf_s_token dst r t c l :
  token t -> length dst = 11%nat -> isspace c = true -> skip_ws r = skip_ws (t ++ c :: l) ->
  exists d, fscanf_s dst r = Ok (d, skip_ws (c :: l)) /\ c_str d = Some t /\ length d = 11%nat.
Proof.
  intros (Ht & Hl & Hf) Hd Hc Hr. unfold fscanf_s.
  assert (Hs : scan_s r = scan_s (t ++ c :: l)) by (unfold scan_s; by rewrite Hr).
  rewrite Hs, scan_s_token; [| done | eapply Forall_impl; [exact Hf | by intros x []] | done].
  destruct (str_put dst 0 t) as [d |] eqn:E; [| rewrite str_put_0 in E by lia; done].
  exists d. split; [done |]. rewrite <- Hd. split; [| by eapply str_put_length].
  rewrite str_put_0 in E by lia. injection E as <-. apply c_str_app.
  eapply Forall_impl; [exact Hf | by intros x []].
Qed.

Lemma fscanf_d_print dst r n c l :
  INT_MIN <= n <= INT_MAX -> isdigit c = false -> skip_ws r = skip_ws (print_d n ++ c :: l) ->
  fscanf_d dst r = Ok (n, skip_ws (c :: l)).
Proof.
  intros Hn Hc Hr. unfold fscanf_d.
  assert (Hs : scan_d r = scan_d (print_d n ++ c :: l)) by (unfold scan_d; by rewrite Hr).
  rewrite Hs, scan_d_print by (unfold INT_MIN, INT_MAX in *; done || lia).
  replace ((INT_MIN <=? n) && (n <=? INT_MAX)) with true; [done |].
  symmetry. apply andb_true_iff. rewrite !Z.leb_le. lia.
Qed.
