(* ===== verification/Leaderboard.v ===== *)
(** [leaderboard.c]: the five best scores, their insertion, the text file they
    are kept in, and the screen that shows them. *)

From stdpp Require Import base tactics list.
From Stdlib Require Import ZArith Lia Ascii Sorted.
From S2P Require Import Prelude Consts Keyboard NumLetters Vc Screen CString.

Definition SIZE : Z := 5.

Record cont_winner := Winner { cw_date : list Z; cw_name : list Z; int_score : Z }.

(** The statics of [leaderboard.c] and the global [newWinner]. *)
Record lb := Lb { leaderboard : list cont_winner; newWinner : cont_winner; dummy : cont_winner }.

Definition set_leaderboard (x : list cont_winner) (l : lb) : lb := Lb x (newWinner l) (dummy l).
Definition set_newWinner (w : cont_winner) (l : lb) : lb := Lb (leaderboard l) w (dummy l).

(** Before the program starts. *)
Definition no_winner : cont_winner := Winner (replicate 11 0) (replicate 11 0) 0.
Definition lb_init : lb := Lb (replicate 5 no_winner) no_winner no_winner.

(** ** Insertion *)

Definition entry (i : Z) (l : lb) : res cont_winner :=
  match arr_get (leaderboard l) i with Some w => Ok w | None => Undef OutOfBounds end.

Definition set_entry (i : Z) (w : cont_winner) (l : lb) : res lb :=
  match arr_set (leaderboard l) i w with
  | Some x => Ok (set_leaderboard x l)
  | None => Undef OutOfBounds
  end.

Definition score_at (i : Z) (l : lb) : res Z := res_bind (entry i l) (fun w => Ok (int_score w)).

Definition getNewHiScorePos (l : lb) : res Z :=
  let score := int_score (newWinner l) in
  res_bind (score_at 0 l) (fun s0 => if s0 <? score then Ok 0 else
  res_bind (score_at 1 l) (fun s1 => if s1 <? score then Ok 1 else
  res_bind (score_at 2 l) (fun s2 => if s2 <? score then Ok 2 else
  res_bind (score_at 3 l) (fun s3 => if s3 <? score then Ok 3 else
  res_bind (score_at 4 l) (fun s4 => if s4 <? score then Ok 4 else Ok 4))))).

(** The loop of [updateData]: [temp] is [temp_name], [temp_date] and [score];
    [newWinner] is overwritten with each entry that moves. *)
Fixpoint shift_down (n : nat) (i : Z) (temp : cont_winner) (l : lb) : res lb :=
  match n with
  | O => Ok l
  | S n =>
      res_bind (entry i l) (fun e =>
        let l := set_newWinner e l in
        res_bind (set_entry i temp l) (fun l => shift_down n (i + 1) (newWinner l) l))
  end.

Definition updateData (l : lb) : res lb :=
  res_bind (getNewHiScorePos l) (fun i =>
    res_bind (entry i l) (fun temp =>
      res_bind (set_entry i (newWinner l) l) (fun l =>
        shift_down (Z.to_nat (5 - (i + 1))) (i + 1) temp l))).

Definition getLowestHiScore (l : lb) : res Z := score_at 4 l.

(** ** The file *)

Definition loadDummySt (l : lb) : lb :=
  let zeros := replicate 10 (ch "0") in
  Lb (leaderboard l) (newWinner l)
     (Winner (zeros ++ drop 10 (cw_date (dummy l))) (zeros ++ drop 10 (cw_name (dummy l))) 0).

(** The format [%s\n%d\n%s\n\n]. *)
Definition save_entry (w : cont_winner) : res (list Z) :=
  res_bind (str_res (cw_name w)) (fun name =>
    res_bind (str_res (cw_date w)) (fun date =>
      Ok (name ++ [10] ++ print_d (int_score w) ++ [10] ++ date ++ [10; 10]))).

Fixpoint save_entries (ws : list cont_winner) : res (list Z) :=
  match ws with
  | [] => Ok []
  | w :: ws => res_bind (save_entry w) (fun t => res_bind (save_entries ws) (fun f => Ok (t ++ f)))
  end.

(** The contents of the file written; [opened] is whether [fopen] succeeds. *)
Definition saveData (opened : bool) (l : lb) : res (list Z) :=
  if opened then save_entries (leaderboard l) else Undef NullDeref.

(** One round of [retrieveData], with the local arrays [name] and [date]. *)
Definition retrieve_entry (name date rest : list Z) (w : cont_winner)
  : res (cont_winner * (list Z * list Z * list Z)) :=
  res_bind (fscanf_s name rest) (fun r1 =>
    res_bind (fscanf_d (int_score w) (snd r1)) (fun r2 =>
      res_bind (fscanf_s date (snd r2)) (fun r3 =>
        Ok (Winner (fst r3) (fst r1) (fst r2), (fst r1, fst r3, snd r3))))).

Fixpoint retrieve_entries (ws : list cont_winner) (name date rest : list Z) : res (list cont_winner) :=
  match ws with
  | [] => Ok []
  | w :: ws =>
      res_bind (retrieve_entry name date rest w) (fun r =>
        let '(name, date, rest) := snd r in
        res_bind (retrieve_entries ws name date rest) (fun ws => Ok (fst r :: ws)))
  end.

(** [file] is what [fopen] finds; [name] and [date] are the indeterminate
    contents of the local arrays. *)
Definition retrieveData (file : option (list Z)) (name date : list Z) (l : lb) : res lb :=
  let l := loadDummySt l in
  match file with
  | None => Undef NullDeref
  | Some f => res_bind (retrieve_entries (leaderboard l) name date f) (fun ws => Ok (set_leaderboard ws l))
  end.

(** ** The screen *)

Definition leaderboard_update_status (k : key_press) (mode : Game_Modes) : Game_Modes :=
  if key k =? BACKSPACE then MENU else mode.

(** The [y] of line [i]; the first date is two pixels lower. *)
Definition line_y (i : Z) : Z :=
  match i with 0 => 143 | 1 => 215 | 2 => 287 | 3 => 358 | _ => 426 end.
Definition date_y (i : Z) : Z := if i =? 0 then 145 else line_y i.

Fixpoint draw_chars (a : assets) (s : list Z) (j x y : Z) (v : vc) : res vc :=
  match s with
  | [] => Ok v
  | c :: s => (draw_prop a (get_lilprop_from_char c) (x + j * 22) y ;; draw_chars a s (j + 1) x y) v
  end.

Definition draw_line (a : assets) (i : Z) (w : cont_winner) (v : vc) : res vc :=
  res_bind (str_put (replicate 4 0) 0 (print_d (int_score w))) (fun round =>
    res_bind (str_res (cw_name w)) (fun name =>
      res_bind (str_res round) (fun round =>
        res_bind (str_res (cw_date w)) (fun date =>
          (draw_chars a name 0 98 (line_y i) ;;
           draw_chars a round 0 357 (line_y i) ;;
           draw_chars a date 0 550 (date_y i)) v)))).

Fixpoint draw_lines (a : assets) (i : Z) (ws : list cont_winner) (v : vc) : res vc :=
  match ws with
  | [] => Ok v
  | w :: ws => (draw_line a i w ;; draw_lines a (i + 1) ws) v
  end.

Definition draw_leaderboard_graphics (a : assets) (l : lb) : vc -> res vc :=
  draw_screen a 4 ;; draw_lines a 0 (leaderboard l).

(** ** Well-formed tables *)

Definition by_score (a b : cont_winner) : Prop := int_score b <= int_score a.
Definition lb_sorted (l : lb) : Prop := StronglySorted by_score (leaderboard l).
Definition lb_size (l : lb) : Prop := length (leaderboard l) = 5%nat.

(** Reference insertion: before the first strictly lower score. *)
Fixpoint insert_winner (w : cont_winner) (ws : list cont_winner) : list cont_winner :=
  match ws with
  | [] => [w]
  | x :: ws => if int_score x <? int_score w then w :: x :: ws else x :: insert_winner w ws
  end.

Lemma insert_winner_Forall (P : cont_winner -> Prop) w ws :
  P w -> Forall P ws -> Forall P (insert_winner w ws).
Proof.
  intros Hw. induction 1 as [| x ws Hx Hws IH]; cbn; [by repeat constructor |].
  destruct (_ <? _); by repeat constructor.
Qed.

Lemma insert_winner_sorted w ws :
  StronglySorted by_score ws -> StronglySorted by_score (insert_winner w ws).
Proof.
  induction 1 as [| x ws Hs IH Hx]; cbn; [repeat constructor |].
  destruct (Z.ltb_spec (int_score x) (int_score w)).
  - constructor; [by constructor |]. constructor; [unfold by_score; lia |].
    eapply Forall_impl; [exact Hx |]. unfold by_score. intros. lia.
  - constructor; [done |]. apply insert_winner_Forall; [unfold by_score; lia | done].
Qed.

Lemma take_sorted {A} (R : A -> A -> Prop) n l : StronglySorted R l -> StronglySorted R (take n l).
Proof.
  intros H. revert n. induction H as [| x l Hs IH Hx]; intros [| n]; cbn; constructor; auto.
  by apply Forall_take.
Qed.

Lemma lb_five l : lb_size l ->
  exists a b c d e, leaderboard l = [a; b; c; d; e].
Proof.
  unfold lb_size. destruct (leaderboard l) as [| a [| b [| c [| d [| e [|]]]]]]; try done.
  intros _. by exists a, b, c, d, e.
Qed.

(** [updateData] on any table: an insertion that drops the last entry. *)
Lemma updateData_insert l low :
  lb_size l -> getLowestHiScore l = Ok low -> low < int_score (newWinner l) ->
  exists l', updateData l = Ok l' /\
    leaderboard l' = take 5 (insert_winner (newWinner l) (leaderboard l)).
Proof.
  intros Hsz Hlow Hgt. destruct (lb_five l Hsz) as (a & b & c & d & e & He).
  destruct l as [ws w dm]. cbn in *. subst ws. injection Hlow as <-.
  unfold updateData, getNewHiScorePos, score_at, entry.
  cbn [leaderboard newWinner].
  change (arr_get [a; b; c; d; e] 0) with (Some a). change (arr_get [a; b; c; d; e] 1) with (Some b).
  change (arr_get [a; b; c; d; e] 2) with (Some c). change (arr_get [a; b; c; d; e] 3) with (Some d).
  change (arr_get [a; b; c; d; e] 4) with (Some e). cbn [res_bind insert_winner].
  destruct (int_score a <? int_score w); [eexists; split; reflexivity |].
  destruct (int_score b <? int_score w); [eexists; split; reflexivity |].
  destruct (int_score c <? int_score w); [eexists; split; reflexivity |].
  destruct (int_score d <? int_score w); [eexists; split; reflexivity |].
  apply Z.ltb_lt in Hgt as Hgt'. rewrite Hgt'. eexists; split; reflexivity.
Qed.

(** Whatever the score, a table of five is updated, with nothing in it that was
    not in it or in [newWinner]. *)
Lemma updateData_Forall (P : cont_winner -> Prop) l :
  lb_size l -> P (newWinner l) -> Forall P (leaderboard l) ->
  exists l', updateData l = Ok l' /\ lb_size l' /\ P (newWinner l') /\ Forall P (leaderboard l').
Proof.
  intros Hsz Hw Hl. destruct (lb_five l Hsz) as (a & b & c & d & e & He).
  destruct l as [ws w dm]. cbn in *. subst ws.
  repeat match goal with H : Forall P (_ :: _) |- _ => apply Forall_cons_1 in H as [? ?] end.
  unfold updateData, getNewHiScorePos, score_at, entry. cbn [leaderboard newWinner].
  change (arr_get [a; b; c; d; e] 0) with (Some a). change (arr_get [a; b; c; d; e] 1) with (Some b).
  change (arr_get [a; b; c; d; e] 2) with (Some c). change (arr_get [a; b; c; d; e] 3) with (Some d).
  change (arr_get [a; b; c; d; e] 4) with (Some e). cbn [res_bind].
  repeat match goal with |- context [if ?x <? ?y then _ else _] => destruct (x <? y) end;
    eexists; (split; [reflexivity |]); split; try done; split; try done; by repeat constructor.
Qed.

(** ** Properties of the table *)

(** C19. A score above the lowest is inserted in order, after the entries with the
    same score; the lowest entry is dropped, and the table stays sorted. *)
Theorem updateData_inserts l low :
  lb_size l -> lb_sorted l -> getLowestHiScore l = Ok low -> low < int_score (newWinner l) ->
  exists l', updateData l = Ok l' /\ lb_size l' /\ lb_sorted l' /\
    leaderboard l' = take 5 (insert_winner (newWinner l) (leaderboard l)) /\
    In (newWinner l) (leaderboard l').
Proof.
  intros Hsz Hs Hlow Hgt. destruct (updateData_insert l low Hsz Hlow Hgt) as (l' & Hu & Hl').
  exists l'. split; [done |]. unfold lb_size, lb_sorted. rewrite Hl'.
  destruct (lb_five l Hsz) as (a & b & c & d & e & He).
  split.
  { rewrite He. cbn. by repeat (destruct (_ <? _); cbn). }
  split; [by apply take_sorted, insert_winner_sorted |]. split; [done |].
  unfold getLowestHiScore, score_at, entry in Hlow. rewrite He in *. cbn in *.
  injection Hlow as <-. apply Z.ltb_lt in Hgt.
  destruct (int_score a <? _); [cbn; auto |]. destruct (int_score b <? _); [cbn; auto |].
  destruct (int_score c <? _); [cbn; auto |]. destruct (int_score d <? _); [cbn; auto |].
  rewrite Hgt. cbn. auto 10.
Qed.

Definition winner0 (n : Z) : cont_winner := Winner (replicate 10 57 ++ [0]) (replicate 10 97 ++ [0]) n.
Definition lb0 : lb := Lb (map winner0 [9; 7; 7; 3; 1]) (winner0 7) no_winner.

Lemma updateData_inserts_witness :
  exists l', updateData lb0 = Ok l' /\ map int_score (leaderboard l') = [9; 7; 7; 7; 3].
Proof.
  assert (Hs : lb_sorted lb0) by (unfold lb_sorted; repeat constructor; discriminate).
  destruct (updateData_inserts lb0 1 eq_refl Hs eq_refl eq_refl) as (l' & Hu & _ & _ & Hl & _).
  exists l'. split; [exact Hu |]. rewrite Hl. reflexivity.
Defined.

(** ** Properties of the file *)

(** An entry whose strings the format can carry. *)
Definition entry_ok (w : cont_winner) : Prop :=
  (exists n, c_str (cw_name w) = Some n /\ token n) /\
  (exists d, c_str (cw_date w) = Some d /\ token d) /\
  INT_MIN <= int_score w <= INT_MAX.

(** The entries a reader sees. *)
Definition same_entry (a b : cont_winner) : Prop :=
  c_str (cw_name a) = c_str (cw_name b) /\ c_str (cw_date a) = c_str (cw_date b) /\
  int_score a = int_score b.

Lemma retrieve_saved_entry w w0 name date r rest :
  entry_ok w -> length name = 11%nat -> length date = 11%nat ->
  (exists t, save_entry w = Ok t /\ skip_ws r = skip_ws (t ++ rest)) ->
  exists w' name' date' r', retrieve_entry name date r w0 = Ok (w', (name', date', r')) /\
    same_entry w w' /\ length name' = 11%nat /\ length date' = 11%nat /\ skip_ws r' = skip_ws rest.
Proof.
  intros ((n & Hn & Htn) & (d & Hd & Htd) & Hsc) Hl1 Hl2 (t & Ht & Hr).
  unfold save_entry, str_res in Ht. rewrite Hn, Hd in Ht. injection Ht as <-.
  rewrite <- !app_assoc in Hr. cbn [app] in Hr. rewrite <- app_assoc in Hr. cbn [app] in Hr.
  rewrite <- app_assoc in Hr. cbn [app] in Hr. unfold retrieve_entry.
  destruct (fscanf_s_token name r n 10 _ Htn Hl1 eq_refl Hr) as (n' & Hs1 & Hn' & Hln).
  rewrite Hs1. cbn [res_bind fst snd].
  erewrite (fscanf_d_print _ _ (int_score w) 10);
    [| exact Hsc | done | rewrite skip_ws_idem; by rewrite (skip_ws_space 10)].
  cbn [res_bind fst snd].
  destruct (fscanf_s_token date (skip_ws (10 :: d ++ 10 :: 10 :: rest)) d 10 (10 :: rest) Htd Hl2 eq_refl)
    as (d' & Hs2 & Hd' & Hld); [rewrite skip_ws_idem; by rewrite (skip_ws_space 10) |].
  rewrite Hs2. cbn [res_bind fst snd].
  eexists _, _, _, _. split; [done |]. unfold same_entry. cbn [fst snd cw_name cw_date int_score].
  rewrite Hn, Hd, Hn', Hd', !(skip_ws_space 10), ?skip_ws_idem by done. done.
Qed.

Lemma retrieve_saved_entries ws w0s name date r f :
  Forall entry_ok ws -> length w0s = length ws -> length name = 11%nat -> length date = 11%nat ->
  save_entries ws = Ok f -> skip_ws r = skip_ws f ->
  exists ws', retrieve_entries w0s name date r = Ok ws' /\ Forall2 same_entry ws ws'.
Proof.
  intros Hok. revert w0s name date r f. induction Hok as [| w ws Hw Hws IH];
    intros [| w0 w0s] name date r f Hl Hl1 Hl2 Hs Hr; try done.
  - exists []. split; [done | constructor].
  - cbn in Hs. destruct (save_entry w) as [t |] eqn:Ht; [| done]. cbn in Hs.
    destruct (save_entries ws) as [f' |] eqn:Hf; [| done]. cbn in Hs. injection Hs as <-.
    destruct (retrieve_saved_entry w w0 name date r f' Hw Hl1 Hl2) as (w' & n' & d' & r' & He & Hsame & H1 & H2 & Hr');
      [by exists t |].
    cbn [retrieve_entries]. rewrite He. cbn [res_bind snd fst].
    destruct (IH w0s n' d' r' f') as (ws' & Hws' & Hall); try done; [by injection Hl |].
    rewrite Hws'. cbn. exists (w' :: ws'). split; [done | by constructor].
Qed.

Lemma save_entries_ok ws : Forall entry_ok ws -> exists f, save_entries ws = Ok f.
Proof.
  induction 1 as [| w ws ((n & Hn & _) & (d & Hd & _) & _) Hws (f & IH)]; [by exists [] |].
  cbn [save_entries]. unfold save_entry, str_res. rewrite Hn, Hd, IH. cbn. by eexists.
Qed.

Lemma retrieve_saved l l0 name date f :
  lb_size l -> lb_size l0 -> Forall entry_ok (leaderboard l) ->
  length name = 11%nat -> length date = 11%nat -> saveData true l = Ok f ->
  exists l', retrieveData (Some f) name date l0 = Ok l' /\ Forall2 same_entry (leaderboard l) (leaderboard l').
Proof.
  intros Hs Hs0 Hok H1 H2 Hf. unfold lb_size in *.
  destruct (retrieve_saved_entries (leaderboard l) (leaderboard l0) name date f f)
    as (ws & Hr & Hall); try done; [lia |].
  exists (set_leaderboard ws (loadDummySt l0)). unfold retrieveData.
  cbn [leaderboard loadDummySt]. rewrite Hr. done.
Qed.

(** Entries a reader cannot tell apart are written alike. *)
Lemma same_entries_saved ws ws' : Forall2 same_entry ws ws' -> save_entries ws' = save_entries ws.
Proof.
  induction 1 as [| w w' ws ws' (Hn & Hd & Hi) _ IH]; [done |].
  cbn [save_entries]. unfold save_entry, str_res. by rewrite Hn, Hd, Hi, IH.
Qed.

(** C20. Round trip: what [saveData] writes, [retrieveData] reads back into any
    table, whatever its arrays hold. *)
Theorem save_retrieve_roundtrip l l0 name date :
  lb_size l -> lb_size l0 -> Forall entry_ok (leaderboard l) ->
  length name = 11%nat -> length date = 11%nat ->
  exists f l', saveData true l = Ok f /\ retrieveData (Some f) name date l0 = Ok l' /\
    Forall2 same_entry (leaderboard l) (leaderboard l').
Proof.
  intros Hs Hs0 Hok H1 H2. destruct (save_entries_ok _ Hok) as [f Hf].
  destruct (retrieve_saved l l0 name date f) as (l' & Hr & Hall); try done. by exists f, l'.
Qed.

Lemma winner0_ok n : INT_MIN <= n <= INT_MAX -> entry_ok (winner0 n).
Proof.
  assert (Ht : forall c, isspace c = false -> c <> 0 -> token (replicate 10 c)).
  { intros c Hc Hc0. split; [done |]. split; [done |]. by apply Forall_replicate. }
  intros Hn. split; [exists (replicate 10 97); split; [done | by apply Ht] |].
  split; [exists (replicate 10 57); split; [done | by apply Ht] | done].
Qed.

Lemma save_retrieve_roundtrip_witness :
  exists f l', saveData true lb0 = Ok f /\
    retrieveData (Some f) (replicate 11 1) (replicate 11 1) lb_init = Ok l' /\
    Forall2 same_entry (map winner0 [9; 7; 7; 3; 1]) (leaderboard l').
Proof.
  apply (save_retrieve_roundtrip lb0 lb_init (replicate 11 1) (replicate 11 1)); try reflexivity.
  cbn [leaderboard lb0 map]. repeat constructor; apply winner0_ok; unfold INT_MIN, INT_MAX; lia.
Defined.

(** ** Properties of the screen *)

(** Entries that fit their lines. *)
Definition entry_shows (w : cont_winner) : Prop :=
  is_Some (c_str (cw_name w)) /\ is_Some (c_str (cw_date w)) /\
  (length (cw_name w) <= 11)%nat /\ (length (cw_date w) <= 11)%nat /\ 0 <= int_score w <= 999.

(** What is shown of them: the characters of the small alphabet, 22 pixels apart. *)
Definition small_row (s : list Z) (x y : Z) : list sprite := row (map get_lilprop_from_char s) x y 22.
Definition str_of (l : list Z) : list Z := from_option id [] (c_str l).

Definition table_line (i : Z) (w : cont_winner) : list sprite :=
  small_row (str_of (cw_name w)) 98 (line_y i) ++
  small_row (print_d (int_score w)) 357 (line_y i) ++
  small_row (str_of (cw_date w)) 550 (date_y i).

Fixpoint table_lines (i : Z) (ws : list cont_winner) : list sprite :=
  match ws with
  | [] => []
  | w :: ws => table_line i w ++ table_lines (i + 1) ws
  end.

Lemma paints_chars a s j x y :
  assets_ok a -> 0 <= j -> 0 <= x -> x + 22 * (j + zlen s) <= 60000 -> 0 <= y <= 600 ->
  paints a (draw_chars a s j x y) (small_row s (x + j * 22) y).
Proof.
  intros Ha. revert j. induction s as [| c s IH]; intros j Hj Hx Hxs Hy; [apply paints_nil |].
  unfold zlen in *. cbn [length] in Hxs. intros v. cbn [draw_chars].
  apply (paints_seq a (draw_prop a (get_lilprop_from_char c) (x + j * 22) y) _ [_]).
  - apply paints_prop; [done | by apply glyph_small_ok, ok_glyphs | lia | lia].
  - replace (x + j * 22 + 22) with (x + (j + 1) * 22) by lia. apply IH; lia.
Qed.

Lemma c_str_length l s : c_str l = Some s -> (length s < length l)%nat.
Proof. intros H. destruct (c_str_inv l s H) as (r & -> & _). rewrite length_app. cbn. lia. Qed.

Lemma paints_line a i w : assets_ok a -> entry_shows w -> paints a (draw_line a i w) (table_line i w).
Proof.
  intros Ha ([n Hn] & [d Hd] & Hl1 & Hl2 & Hsc) v. unfold draw_line, table_line, str_of.
  assert (Hp : print_d (int_score w) = digits 10 (int_score w))
    by (unfold print_d; destruct (Z.ltb_spec (int_score w) 0); [lia | done]).
  pose proof (digits_length 10 3 (int_score w) ltac:(lia) ltac:(lia)) as Hlen.
  destruct (digits_spec 10 (int_score w)) as [_ Hdig]; [lia | lia |].
  rewrite Hp, str_put_0 by (rewrite length_replicate; lia). cbn [res_bind].
  unfold str_res at 2. rewrite c_str_app by (eapply Forall_impl; [exact Hdig | cbn; lia]).
  unfold str_res. rewrite Hn, Hd. cbn [res_bind from_option id].
  apply c_str_length in Hn, Hd.
  assert (Hy : 0 <= line_y i <= 600 /\ 0 <= date_y i <= 600)
    by (unfold date_y, line_y; repeat case_match; lia).
  revert v. repeat apply paints_seq; apply (paints_chars _ _ 0); unfold zlen; try done; lia.
Qed.

Lemma shows_leaderboard a l :
  assets_ok a -> Forall entry_shows (leaderboard l) ->
  shows a (draw_leaderboard_graphics a l) (Scene 4 (table_lines 0 (leaderboard l))).
Proof.
  intros Ha Hl. apply shows_then; [apply shows_screen; [done | lia] |]. generalize 0.
  induction Hl as [| w ws Hw Hws IH]; intros i; [apply paints_nil |].
  apply (paints_seq a (draw_line a i w) (draw_lines a (i + 1) ws)); [by apply paints_line | apply IH].
Qed.

Lemma draws_leaderboard a l :
  assets_ok a -> Forall entry_shows (leaderboard l) -> draws (draw_leaderboard_graphics a l).
Proof. intros. by eapply shows_draws, shows_leaderboard. Qed.

(** A table whose strings are terminated and whose scores have at most three
    digits is shown without leaving any array: the local [round] of four bytes,
    the name and date buffers, the glyph tables and the frame buffer. *)
Theorem draw_leaderboard_safe a l v :
  assets_ok a -> screen_ok v -> Forall entry_shows (leaderboard l) ->
  exists v', draw_leaderboard_graphics a l v = Ok v' /\ screen_ok v' /\ video_mem v' = video_mem v.
Proof.
  intros Ha Hv Hl.
  destruct (draws_leaderboard a l Ha Hl v Hv) as (v' & Hr & Hm). exists v'. split; [done |].
  split; [by eapply screen_ok_same | apply Hm].
Qed.

Lemma draw_leaderboard_safe_witness :
  exists v', draw_leaderboard_graphics assets0 lb0 frame0 = Ok v' /\ screen_ok v'.
Proof.
  assert (Hl : Forall entry_shows (leaderboard lb0)).
  { cbn [leaderboard lb0 map]. repeat (apply List.Forall_cons; [| try apply List.Forall_nil]);
      (split; [by eexists |]; split; [by eexists |]; cbn; lia). }
  destruct (draw_leaderboard_safe assets0 lb0 frame0 assets0_ok frame0_ok Hl) as (v' & H1 & H2 & _).
  exists v'. split; [exact H1 | exact H2].
Defined.
