(* ===== verification/Highscore.v ===== *)
(** [highscore.c]: the screen where the winner of a good game types a name.

    The table, the mode and the clock belong to other files; what this one
    relies on is the interface [HighscoreEnv]. *)

From stdpp Require Import base tactics list.
From Stdlib Require Import ZArith Lia Ascii.
From S2P Require Import Prelude Consts Keyboard NumLetters Vc Screen CString Leaderboard.

(** ** The interface *)

Class HighscoreEnv (E : Type) := {
  hs_lb : E -> lb;
  hs_put_lb : lb -> E -> E;
  hs_mode : E -> Game_Modes;
  hs_put_mode : Game_Modes -> E -> E;
  hs_get_date : ST E date;         (* [get_date] of [rtc.c] *)
  hs_vc : E -> vc;                 (* the statics of [vc.c] *)
  hs_put_vc : vc -> E -> E
}.

Class HighscoreLaws (E : Type) `{HighscoreEnv E} := {
  hs_lb_put : forall l e, hs_lb (hs_put_lb l e) = l;
  hs_mode_put : forall m e, hs_mode (hs_put_mode m e) = m;
  hs_lb_put_mode : forall m e, hs_lb (hs_put_mode m e) = hs_lb e;
  hs_mode_put_lb : forall l e, hs_mode (hs_put_lb l e) = hs_mode e;
  hs_lb_date : forall e, hs_lb (snd (hs_get_date e)) = hs_lb e;
  hs_mode_date : forall e, hs_mode (snd (hs_get_date e)) = hs_mode e;
  hs_vc_put : forall v e, hs_vc (hs_put_vc v e) = v;
  hs_put_get : forall e, hs_put_vc (hs_vc e) e = e;
  hs_lb_put_vc : forall v e, hs_lb (hs_put_vc v e) = hs_lb e;
  hs_mode_put_vc : forall v e, hs_mode (hs_put_vc v e) = hs_mode e;
  hs_vc_put_lb : forall l e, hs_vc (hs_put_lb l e) = hs_vc e;
  hs_vc_put_mode : forall m e, hs_vc (hs_put_mode m e) = hs_vc e;
  hs_vc_date : forall e, hs_vc (snd (hs_get_date e)) = hs_vc e
}.

(** ** The statics of the file *)

Record hs := Hs { new_hiscore : text_box; player : list Z }.

Definition set_new_hiscore (b : text_box) (h : hs) : hs := Hs b (player h).
Definition set_player (p : list Z) (h : hs) : hs := Hs (new_hiscore h) p.

Definition no_box : text_box := TextBox (replicate 20 None) 0 0 0 0 0 0 0.
Definition hs_init : hs := Hs no_box (replicate 11 0).

Section Highscore.
Context {E : Type} `{HE : HighscoreEnv E}.
Variable a : assets.
#[local] Abbreviation im := (glyphs a).

(** [malloc n]: the indeterminate contents of the block, as many bytes as
    can be accessed. *)
Variable malloc : Z -> list Z.

(** The loops [date[size] = s[i]; size++]. *)
Fixpoint store_chars (d : list Z) (size : Z) (s : list Z) : res (list Z * Z) :=
  match s with
  | [] => Ok (d, size)
  | c :: s =>
      match arr_set d size c with
      | None => Undef OutOfBounds
      | Some d => store_chars d (size + 1) s
      end
  end.

(** [sprintf(a, "%d", n)] for an array [a] of [size] bytes, as a string. *)
Definition sprint_d (size : nat) (n : Z) : res (list Z) :=
  res_bind (str_put (replicate size 0) 0 (print_d n)) (fun a => str_res a).

Definition date_string (d : date) (block : list Z) : res (list Z) :=
  res_bind (sprint_d 3 (day d)) (fun dd =>
  res_bind (store_chars block 0 dd) (fun r =>
  res_bind (store_chars (fst r) (snd r) [ch "/"]) (fun r =>
  res_bind (sprint_d 3 (month d)) (fun mm =>
  res_bind (store_chars (fst r) (snd r) mm) (fun r =>
  res_bind (store_chars (fst r) (snd r) [ch "/"]) (fun r =>
  res_bind (sprint_d 5 (year d + 2000)) (fun yy =>
  res_bind (store_chars (fst r) (snd r) yy) (fun r =>
  res_bind (store_chars (fst r) (snd r) [0]) (fun r => Ok (fst r)))))))))).

Definition getDate : M hs E (list Z) :=
  let* d := env hs_get_date in
  lift (date_string d (malloc 10)).

(** Changes of [newWinner]. *)
Definition hs_on_lb (f : lb -> res lb) : M hs E unit :=
  env_res (fun e => res_bind (f (hs_lb e)) (fun l => Ok (hs_put_lb l e))).

Definition set_winner_name (p : list Z) (l : lb) : res lb :=
  let w := newWinner l in
  res_bind (copy_array 11 (cw_name w) p) (fun n =>
    Ok (set_newWinner (Winner (cw_date w) n (int_score w)) l)).
Definition set_winner_date (d : list Z) (l : lb) : res lb :=
  let w := newWinner l in
  res_bind (copy_array 11 (cw_date w) d) (fun d =>
    Ok (set_newWinner (Winner d (cw_name w) (int_score w)) l)).
Definition set_winner_score (n : Z) (l : lb) : lb :=
  let w := newWinner l in set_newWinner (Winner (cw_date w) (cw_name w) n) l.

Definition strlen_player : M hs E Z :=
  let* p := gets player in
  let* s := lift (str_res p) in ret (zlen s).

Definition submit : M hs E unit :=
  let* p := gets player in
  do* hs_on_lb (set_winner_name p) in
  let* d := getDate in
  do* hs_on_lb (set_winner_date d) in
  do* hs_on_lb updateData in
  env_ (hs_put_mode LEADERBOARD).

Definition add_char (c : Z) : M hs E unit :=
  let* b := gets new_hiscore in
  let* r := lift (add_to_centered_text_box im c b) in
  do* modify (set_new_hiscore (snd r)) in
  when (fst r)
    (let* p := gets player in
     let* p := lift (strncat1 p c) in
     modify (set_player p)).

(** [memmove(&player[i], &player[i + 1], strlen(player) - i)] with
    [i = strlen(player) - 1] moves one byte. *)
Definition delete_char : M hs E unit :=
  let* b := gets new_hiscore in
  let* v := env (fun e => (hs_vc e, e)) in
  let* r := lift (remove_from_centered_text_box im (transparency a) b v) in
  do* env_ (hs_put_vc (snd r)) in
  do* modify (set_new_hiscore (fst r)) in
  let* n := strlen_player in
  let idxToDel := n - 1 in
  let* p := gets player in
  match arr_get p (idxToDel + 1) with
  | None => undef OutOfBounds
  | Some c =>
      match arr_set p idxToDel c with
      | None => undef OutOfBounds
      | Some p => modify (set_player p)
      end
  end.

Definition highscore_update_status (k : key_press) : M hs E unit :=
  if down k then skip
  else
    do* when (key k =? ENTER)
          (let* n := strlen_player in when (negb (n =? 0)) submit) in
    do* when (is_alpha_numberical (key k)) (add_char (key k)) in
    when (key k =? BACKSPACE) delete_char.

Definition create_name_box (h : hs) : hs :=
  set_new_hiscore (create_writeable_text_box 400 330 0 (-1) 10) h.

Definition reset_hiscore (score : Z) : M hs E unit :=
  do* hs_on_lb (fun l => Ok (set_winner_score score l)) in
  modify create_name_box.

Definition draw_highscore_graph (h : hs) : vc -> res vc :=
  draw_screen a 16 ;; draw_text_box (glyphs a) (transparency a) (new_hiscore h).

(** A run of key presses. *)
Fixpoint type_keys (ks : list Z) : M hs E unit :=
  match ks with
  | [] => skip
  | k :: ks => do* highscore_update_status (KeyPress k false) in type_keys ks
  end.

(** ** Lemmas *)

(** [old] is what [player] held when the screen was entered, [s] what has been
    typed since: the box shows [s], the array holds [old ++ s]. *)
Record hs_inv (old s : list Z) (h : hs) : Prop := {
  inv_box : typed 400 330 10 s (new_hiscore h);
  inv_player : exists r, player h = (old ++ s) ++ 0 :: r;
  inv_size : length (player h) = 11%nat;
  inv_chars : Forall (fun c => c <> 0) (old ++ s)
}.

Lemma exists_last_dec {A} (l : list A) : l = [] \/ exists l' a, l = l' ++ [a].
Proof.
  destruct l as [| x l] using rev_ind; [by left | right]. by exists l, x.
Qed.

Lemma name_room : room 400 10.
Proof. unfold room, MAX_TEXT_BOX_SIZE. lia. Qed.

(** The name typed, centred. *)
Lemma shows_entry old s h :
  assets_ok a -> hs_inv old s h ->
  shows a (draw_highscore_graph h) (Scene 16 (centred (map get_prop_from_char s) 400 330)).
Proof.
  intros Ha Hi. apply shows_then; [apply shows_screen; [done | lia] |].
  apply (paints_typed a 400 330 10); [done | apply name_room | lia | lia | apply Hi].
Qed.

Lemma inv_c_str old s h : hs_inv old s h -> c_str (player h) = Some (old ++ s).
Proof. intros [_ (r & Hp) _ Hc]. rewrite Hp. by apply c_str_app. Qed.

Lemma create_inv old r h :
  player h = old ++ 0 :: r -> length (player h) = 11%nat -> Forall (fun c => c <> 0) old ->
  hs_inv old [] (create_name_box h).
Proof.
  intros Hp Hl Hc. constructor; cbn [create_name_box set_new_hiscore new_hiscore player].
  - apply typed_create; [apply name_room | lia].
  - exists r. by rewrite app_nil_r.
  - done.
  - by rewrite app_nil_r.
Qed.

Lemma alnum_char c : is_alpha_numberical c = true ->
  c <> 0 /\ c <> ch "/" /\ (c =? ENTER) = false /\ (c =? BACKSPACE) = false.
Proof.
  unfold is_alpha_numberical, is_numerical, ENTER, BACKSPACE. chars. intros Hc.
  rewrite !Z.eqb_neq. split_ifs; repeat case_match; unbool; try done; lia.
Qed.

Lemma strncat1_app s c r :
  Forall (fun c => c <> 0) s -> c <> 0 ->
  strncat1 (s ++ 0 :: r) c =
    match r with
    | [] => Undef OutOfBounds
    | _ :: r => Ok ((s ++ [c]) ++ 0 :: r)
    end.
Proof.
  intros Hs Hc. unfold strncat1, str_res. rewrite c_str_app by done. cbn [res_bind].
  replace (c =? 0) with false by (symmetry; by apply Z.eqb_neq).
  unfold str_put. destruct r as [| x r].
  - rewrite length_app. cbn [length].
    replace (length s + 1 <? length s + 1 + 1)%nat with true by (symmetry; apply Nat.ltb_lt; lia). done.
  - rewrite length_app. cbn [length].
    replace (length s + S (S (length r)) <? length s + 1 + 1)%nat with false
      by (symmetry; apply Nat.ltb_ge; lia).
    rewrite take_app_le, take_ge by lia. rewrite drop_app_ge by lia.
    replace (length s + 1 + 1 - length s)%nat with 2%nat by lia. cbn. by rewrite <- app_assoc.
Qed.

(** One key, case by case. *)
Lemma press_char_full old s h e c :
  hs_inv old s h -> is_alpha_numberical c = true -> zlen s = 10 ->
  highscore_update_status (KeyPress c false) (h, e) = Ok (tt, (h, e)).
Proof.
  intros Hi Hc H10. destruct (alnum_char c Hc) as (Hc0 & Hcs & He & Hb).
  unfold highscore_update_status, add_char. cbn [down key]. rewrite He, Hc, Hb. mrun.
  rewrite (typed_add_full im _ _ _ _ _ c (inv_box _ _ _ Hi) H10). by destruct h.
Qed.

Lemma press_char old s h e c :
  images_42 im -> hs_inv old s h -> is_alpha_numberical c = true -> zlen s < 10 ->
  if (length (old ++ s) <? 10)%nat
  then exists h', highscore_update_status (KeyPress c false) (h, e) = Ok (tt, (h', e)) /\
                  hs_inv old (s ++ [c]) h'
  else highscore_update_status (KeyPress c false) (h, e) = Undef OutOfBounds.
Proof.
  intros Him Hi Hc H10. destruct (alnum_char c Hc) as (Hc0 & Hcs & He & Hb).
  destruct (typed_add im 400 330 10 s (new_hiscore h) c Him name_room (inv_box _ _ _ Hi) H10 Hcs)
    as (b & Ha & Ht).
  destruct (inv_player _ _ _ Hi) as (r & Hr). pose proof (inv_size _ _ _ Hi) as Hl.
  pose proof (inv_chars _ _ _ Hi) as Hch.
  unfold highscore_update_status, add_char. cbn [down key]. rewrite He, Hc, Hb. mrun.
  rewrite Ha. mrun. cbn [set_new_hiscore player]. rewrite Hr, strncat1_app by done.
  rewrite Hr, length_app in Hl. cbn [length] in Hl.
  destruct (Nat.ltb_spec (length (old ++ s)) 10); destruct r as [| x r]; cbn [length] in Hl; try lia; [| done].
  eexists. split; [done |]. constructor; cbn [set_player set_new_hiscore new_hiscore player].
  - exact Ht.
  - exists r. by rewrite app_assoc.
  - rewrite !length_app in *. cbn [length]. lia.
  - rewrite app_assoc. apply Forall_app. split; [done | by constructor].
Qed.

(** The array loses its last character. *)
Lemma delete_last p s c r :
  p = (s ++ [c]) ++ 0 :: r ->
  arr_get p (zlen (s ++ [c]) - 1 + 1) = Some 0 /\
  arr_set p (zlen (s ++ [c]) - 1) 0 = Some (s ++ 0 :: 0 :: r).
Proof.
  intros ->. replace (zlen (s ++ [c]) - 1 + 1) with (Z.of_nat (length (s ++ [c]))) by (unfold zlen; lia).
  rewrite arr_get_lookup, lookup_app_r, Nat.sub_diag by lia. split; [done |].
  assert (Hz : zlen (s ++ [c]) - 1 = Z.of_nat (length s)) by (unfold zlen; rewrite length_app; cbn; lia).
  rewrite Hz, arr_set_Some by (unfold zlen; rewrite !length_app; cbn; lia).
  rewrite Nat2Z.id, <- app_assoc. rewrite insert_app_r_alt by lia. by rewrite Nat.sub_diag.
Qed.

Lemma press_backspace old s c h e :
  assets_ok a -> hs_inv old (s ++ [c]) h -> screen_ok (hs_vc e) ->
  exists h' v, highscore_update_status (KeyPress BACKSPACE false) (h, e) = Ok (tt, (h', hs_put_vc v e)) /\
             hs_inv old s h' /\ screen_ok v /\ blank_line a 400 330 (zlen s + 1) (hs_vc e) = Ok v.
Proof.
  intros Ha Hi Hv.
  destruct (typed_delete a 400 330 10 s c (new_hiscore h) (hs_vc e) Ha name_room ltac:(lia) ltac:(lia)
              (inv_box _ _ _ Hi) Hv) as (b & v & Hb & Ht & Hbl & Hm).
  destruct (inv_player _ _ _ Hi) as (r & Hr). rewrite app_assoc in Hr.
  pose proof (inv_c_str _ _ _ Hi) as Hs. rewrite app_assoc in Hs.
  destruct (delete_last (player h) (old ++ s) c r Hr) as [Hg Hset].
  unfold highscore_update_status, delete_char, strlen_player, str_res. cbn [down key].
  change (BACKSPACE =? ENTER) with false. change (is_alpha_numberical BACKSPACE) with false.
  change (BACKSPACE =? BACKSPACE) with true. mrun. rewrite Hb. mrun.
  cbn [set_new_hiscore player]. rewrite Hs. mrun.
  cbn [set_new_hiscore player]. rewrite Hg, Hset. cbv beta.
  eexists _, v. split; [done |]. split; [| split; [by eapply screen_ok_same | exact Hbl]].
  pose proof (inv_size _ _ _ Hi) as Hl. rewrite Hr in Hl.
  constructor; cbn [set_player set_new_hiscore new_hiscore player].
  - exact Ht.
  - by exists (0 :: r).
  - rewrite !length_app in *. cbn in *. lia.
  - pose proof (inv_chars _ _ _ Hi) as Hch. rewrite app_assoc in Hch. by apply Forall_app in Hch as [? _].
Qed.

Context `{HL : !HighscoreLaws E}.

(** With an empty box it takes a character of the old name away. *)
Lemma press_backspace_old old c h e :
  hs_inv (old ++ [c]) [] h ->
  exists h', highscore_update_status (KeyPress BACKSPACE false) (h, e) = Ok (tt, (h', e)) /\ hs_inv old [] h'.
Proof.
  intros Hi. destruct (inv_player _ _ _ Hi) as (r & Hr). pose proof (inv_c_str _ _ _ Hi) as Hs.
  rewrite app_nil_r in Hr, Hs. destruct (delete_last (player h) old c r Hr) as [Hg Hset].
  unfold highscore_update_status, delete_char, strlen_player, str_res. cbn [down key].
  change (BACKSPACE =? ENTER) with false. change (is_alpha_numberical BACKSPACE) with false.
  change (BACKSPACE =? BACKSPACE) with true. mrun.
  rewrite (typed_remove_empty im _ _ _ _ _ _ (inv_box _ _ _ Hi)). mrun.
  cbn [set_new_hiscore player]. rewrite Hs. mrun. cbn [set_new_hiscore player]. rewrite Hg, Hset. cbv beta.
  eexists. split; [by rewrite hs_put_get |]. pose proof (inv_size _ _ _ Hi) as Hl. rewrite Hr in Hl.
  constructor; cbn [set_player set_new_hiscore new_hiscore player].
  - apply Hi.
  - exists (0 :: r). by rewrite app_nil_r.
  - rewrite !length_app in *. cbn in *. lia.
  - pose proof (inv_chars _ _ _ Hi) as Hch. rewrite app_nil_r in *. by apply Forall_app in Hch as [? _].
Qed.

(** Backspace with nothing in [player] writes before the array. *)
Lemma press_backspace_empty h e :
  hs_inv [] [] h ->
  highscore_update_status (KeyPress BACKSPACE false) (h, e) = Undef OutOfBounds.
Proof.
  intros Hi. pose proof (inv_c_str _ _ _ Hi) as Hs. destruct (inv_player _ _ _ Hi) as (r & Hr).
  unfold highscore_update_status, delete_char, strlen_player, str_res. cbn [down key].
  change (BACKSPACE =? ENTER) with false. change (is_alpha_numberical BACKSPACE) with false.
  change (BACKSPACE =? BACKSPACE) with true. mrun.
  rewrite (typed_remove_empty im _ _ _ _ _ _ (inv_box _ _ _ Hi)). mrun.
  cbn [set_new_hiscore player]. rewrite Hs. mrun. cbn [set_new_hiscore player]. by rewrite Hr.
Qed.

Lemma press_other h e k :
  k <> ENTER -> k <> BACKSPACE -> is_alpha_numberical k = false ->
  highscore_update_status (KeyPress k false) (h, e) = Ok (tt, (h, e)).
Proof.
  intros H1 H2 H3. apply Z.eqb_neq in H1, H2. unfold highscore_update_status. cbn [down key].
  by rewrite H1, H2, H3.
Qed.

(** ** What typing does to the name *)

(** [None] where the code leaves its array. *)
Fixpoint edit (ks s : list Z) : option (list Z) :=
  match ks with
  | [] => Some s
  | k :: ks =>
      if k =? BACKSPACE then match s with [] => None | _ => edit ks (removelast s) end
      else if is_alpha_numberical k && (zlen s <? 10) then edit ks (s ++ [k])
      else edit ks s
  end.

Lemma type_keys_edit ks s h e :
  assets_ok a -> hs_inv [] s h -> screen_ok (hs_vc e) -> Forall (fun k => k <> ENTER) ks ->
  match edit ks s with
  | Some s' => exists h' e', type_keys ks (h, e) = Ok (tt, (h', e')) /\ hs_inv [] s' h' /\ hs_lb e' = hs_lb e
  | None => type_keys ks (h, e) = Undef OutOfBounds
  end.
Proof.
  intros Ha Hi Hv Hks. pose proof (ok_width a Ha) as Him. revert s h e Hi Hv.
  induction Hks as [| k ks Hk Hks IH]; intros s h e Hi Hv; cbn [edit type_keys].
  - by exists h, e.
  - destruct (Z.eqb_spec k BACKSPACE) as [-> | Hb].
    + destruct (exists_last_dec s) as [-> | (s' & c & ->)].
      * unfold bind. by rewrite (press_backspace_empty h e Hi).
      * destruct (press_backspace [] s' c h e Ha Hi Hv) as (h' & v & Hp & Hi' & Hv' & _).
        specialize (IH s' h' (hs_put_vc v e) Hi'). rewrite hs_vc_put in IH. specialize (IH Hv').
        rewrite hs_lb_put_vc in IH. rewrite removelast_last.
        replace (match s' ++ [c] with [] => None | _ => edit ks s' end) with (edit ks s') by (by destruct s').
        unfold bind. rewrite Hp. exact IH.
    + destruct (is_alpha_numberical k) eqn:Hal; cbn [andb].
      2: { unfold bind. rewrite (press_other h e k Hk Hb Hal). by apply IH. }
      destruct (Z.ltb_spec (zlen s) 10) as [Hl | Hl].
      * pose proof (press_char [] s h e k Him Hi Hal Hl) as Hp. cbn [app] in Hp.
        replace (length s <? 10)%nat with true in Hp
          by (symmetry; apply Nat.ltb_lt; unfold zlen in Hl; lia).
        destruct Hp as (h' & Hp & Hi'). unfold bind. rewrite Hp. by apply IH.
      * pose proof (typed_fits _ _ _ _ _ (inv_box _ _ _ Hi)).
        unfold bind. rewrite (press_char_full [] s h e k Hi Hal) by lia. by apply IH.
Qed.

(** ** The date *)

Definition date_ok (d : date) : Prop := 0 <= day d <= 99 /\ 0 <= month d <= 99 /\ 0 <= year d <= 99.

(** The text of a date. *)
Definition date_text (d : date) : list Z :=
  print_d (day d) ++ [ch "/"] ++ print_d (month d) ++ [ch "/"] ++ print_d (2000 + year d).

Lemma print_d_digits n : 0 <= n -> print_d n = digits 10 n.
Proof. intros H. unfold print_d. destruct (Z.ltb_spec n 0); [lia | done]. Qed.

Lemma print_d_nonzero n : 0 <= n < 10 ^ 10 -> Forall (fun c => c <> 0) (print_d n).
Proof.
  intros H. rewrite print_d_digits by lia. destruct (digits_spec 10 n) as [_ Hd]; [lia | lia |].
  eapply Forall_impl; [exact Hd | cbn; lia].
Qed.

Lemma print_d_length n k :
  (0 < k)%nat -> 0 <= n < 10 ^ Z.of_nat k -> (1 <= length (print_d n) <= k)%nat.
Proof.
  intros Hk Hn. rewrite print_d_digits by lia. split; [| by apply digits_length].
  pose proof (digits_nonempty 10 n ltac:(lia)). destruct (digits 10 n); cbn; [done | lia].
Qed.

Lemma sprint_d_ok size n k :
  (0 < k < size)%nat -> 0 <= n < 10 ^ Z.of_nat k -> n < 10 ^ 10 -> sprint_d size n = Ok (print_d n).
Proof.
  intros Hk Hn H10. unfold sprint_d. pose proof (print_d_length n k ltac:(lia) Hn).
  rewrite str_put_0 by (rewrite length_replicate; lia). cbn. unfold str_res.
  rewrite c_str_app by (apply print_d_nonzero; lia). done.
Qed.

(** Storing characters one by one, where they fit. *)
Lemma store_chars_ok l p q :
  (length q <= length p)%nat ->
  store_chars (l ++ p) (zlen l) q = Ok ((l ++ q) ++ drop (length q) p, zlen (l ++ q)).
Proof.
  revert l p. induction q as [| c q IH]; intros l p Hl; cbn [store_chars length].
  - by rewrite app_nil_r.
  - destruct p as [| x p]; cbn [length] in Hl; [lia |].
    rewrite arr_set_Some by (unfold zlen; rewrite length_app; cbn; lia).
    unfold zlen at 1. rewrite Nat2Z.id, insert_app_r_alt, Nat.sub_diag by lia. cbn [insert list_insert].
    replace (l ++ c :: p) with ((l ++ [c]) ++ p) by (by rewrite <- app_assoc).
    replace (zlen l + 1) with (zlen (l ++ [c])) by (unfold zlen; rewrite length_app; cbn; lia).
    rewrite IH by lia. rewrite <- (app_assoc l). done.
Qed.

Lemma store_chars_length d n q d' n' : store_chars d n q = Ok (d', n') -> length d' = length d.
Proof.
  revert d n. induction q as [| c q IH]; intros d n; cbn [store_chars]; [by intros [= <- _] |].
  destruct (arr_set d n c) as [d1 |] eqn:Hset; [| done]. intros Hs.
  apply arr_set_inv in Hset as [_ ->]. by rewrite (IH _ _ Hs), length_insert.
Qed.

(** With a block of at least eleven bytes the text of the date is there;
    without, what is there is as long as the block. *)
Lemma date_string_ok d block :
  date_ok d -> (11 <= length block)%nat ->
  exists r, date_string d block = Ok (date_text d ++ 0 :: r) /\
            length (date_text d ++ 0 :: r) = length block.
Proof.
  intros (Hd & Hm & Hy) Hb. unfold date_string.
  rewrite (sprint_d_ok 3 (day d) 2), (sprint_d_ok 3 (month d) 2), (sprint_d_ok 5 (year d + 2000) 4) by lia.
  pose proof (print_d_length (day d) 2 ltac:(lia) ltac:(lia)) as H1.
  pose proof (print_d_length (month d) 2 ltac:(lia) ltac:(lia)) as H2.
  pose proof (print_d_length (year d + 2000) 4 ltac:(lia) ltac:(lia)) as H3.
  cbn [res_bind]. change (store_chars block 0) with (store_chars ([] ++ block) (zlen (@nil Z))).
  rewrite store_chars_ok by lia. cbn [res_bind fst snd].
  do 5 (rewrite store_chars_ok by (cbn [length]; rewrite ?length_drop; cbn [length]; lia);
        cbn [res_bind fst snd]).
  assert (Ht : date_text d = (((([] ++ print_d (day d)) ++ [ch "/"]) ++ print_d (month d)) ++ [ch "/"])
                 ++ print_d (year d + 2000)).
  { unfold date_text. rewrite (Z.add_comm 2000). by rewrite app_nil_l, <- !app_assoc. }
  rewrite <- Ht, <- app_assoc. cbn [app]. eexists. split; [done |].
  rewrite Ht, !length_app. cbn [length]. rewrite !length_drop. cbn [length]. lia.
Qed.

Lemma date_string_length d block b : date_string d block = Ok b -> length b = length block.
Proof.
  unfold date_string. intros Hs.
  repeat match type of Hs with
    | res_bind ?m _ = _ =>
        let E := fresh "E" in destruct m as [? |] eqn:E; cbn [res_bind] in Hs; [| discriminate Hs]
    end.
  injection Hs as <-.
  repeat match goal with
    | E : store_chars _ _ _ = Ok ?r |- _ => destruct r; apply store_chars_length in E; cbn [fst snd] in *
    end.
  cbn [fst]. congruence.
Qed.

(** ** Submitting *)

Lemma copy_array_full dst src :
  length dst = 11%nat -> (11 <= length src)%nat -> copy_array 11 dst src = Ok (take 11 src).
Proof.
  intros Hd Hs. unfold copy_array. rewrite Hd. change (11 <? 11)%nat with false.
  destruct (Nat.ltb_spec (length src) 11); [lia |]. cbn [orb].
  rewrite (drop_ge dst) by lia. by rewrite app_nil_r.
Qed.

Definition winner_arrays (w : cont_winner) : Prop :=
  length (cw_name w) = 11%nat /\ length (cw_date w) = 11%nat.

Lemma take_c_str n p s r :
  p = s ++ 0 :: r -> (length s < n)%nat -> Forall (fun c => c <> 0) s -> c_str (take n p) = Some s.
Proof.
  intros -> Hl Hs. rewrite take_app_ge by lia.
  destruct (n - length s)%nat eqn:En; [lia |]. cbn [take]. by apply c_str_app.
Qed.

Lemma date_text_short d : date_ok d -> (length (date_text d) < 11)%nat.
Proof.
  intros (Hd & Hm & Hy). unfold date_text. rewrite !length_app. cbn [length].
  pose proof (print_d_length (day d) 2 ltac:(lia) ltac:(lia)).
  pose proof (print_d_length (month d) 2 ltac:(lia) ltac:(lia)).
  pose proof (print_d_length (2000 + year d) 4 ltac:(lia) ltac:(lia)). lia.
Qed.

Lemma date_text_nonzero d : date_ok d -> Forall (fun c => c <> 0) (date_text d).
Proof.
  intros (Hd & Hm & Hy). unfold date_text.
  repeat (apply Forall_app; split);
    first [apply print_d_nonzero; lia | apply List.Forall_cons; [discriminate | apply List.Forall_nil]].
Qed.

(** A table whose entries can be shown and copied. *)
Definition entry_good (w : cont_winner) : Prop :=
  is_Some (c_str (cw_name w)) /\ is_Some (c_str (cw_date w)) /\ winner_arrays w /\ 0 <= int_score w <= 999.
Definition lb_good (l : lb) : Prop := lb_size l /\ entry_good (newWinner l) /\ Forall entry_good (leaderboard l).

Lemma entry_good_shows w : entry_good w -> entry_shows w.
Proof. intros (H1 & H2 & [H3 H4] & H5). repeat split; try done; lia. Qed.

(** The winner that Enter submits. *)
Definition submitted (d : date) (name : list Z) (n : Z) (w : cont_winner) : Prop :=
  c_str (cw_name w) = Some name /\ c_str (cw_date w) = Some (date_text d) /\ int_score w = n /\ winner_arrays w.

(** Enter leaves the rest to [updateData]. *)
Lemma press_enter_run old s h e :
  (forall e, date_ok (fst (hs_get_date e))) -> (11 <= length (malloc 10))%nat ->
  hs_inv old s h -> old ++ s <> [] -> winner_arrays (newWinner (hs_lb e)) ->
  exists d w l2 e2, date_ok d /\ submitted d (old ++ s) (int_score (newWinner (hs_lb e))) w /\
    newWinner l2 = w /\ leaderboard l2 = leaderboard (hs_lb e) /\ hs_vc e2 = hs_vc e /\
    highscore_update_status (KeyPress ENTER false) (h, e) =
      res_bind (updateData l2) (fun l3 => Ok (tt, (h, hs_put_mode LEADERBOARD (hs_put_lb l3 e2)))).
Proof.
  intros Hdate Hblock Hi Hs [Hn11 Hd11].
  pose proof (inv_c_str _ _ _ Hi) as Hcs. destruct (inv_player _ _ _ Hi) as (r & Hr).
  pose proof (inv_size _ _ _ Hi) as Hpl.
  unfold highscore_update_status, strlen_player, str_res. cbn [down key].
  change (ENTER =? ENTER) with true. change (ENTER =? BACKSPACE) with false.
  change (is_alpha_numberical ENTER) with false. mrun. rewrite Hcs. mrun.
  replace (zlen (old ++ s) =? 0) with false
    by (symmetry; apply Z.eqb_neq; unfold zlen; destruct (old ++ s); [done | cbn; lia]).
  cbn [negb]. unfold submit, hs_on_lb, getDate, set_winner_name, set_winner_date. mrun.
  rewrite copy_array_full by lia. mrun.
  set (l1 := set_newWinner _ (hs_lb e)). set (e1 := hs_put_lb l1 e).
  specialize (Hdate e1). set (d := fst (hs_get_date e1)) in *.
  change (let (x, _) := hs_get_date e1 in x) with d.
  destruct (date_string_ok d (malloc 10) Hdate Hblock) as (rd & Hds & Hdl). rewrite Hds. mrun.
  change (let (_, y) := hs_get_date e1 in y) with (snd (hs_get_date e1)).
  assert (Hl1 : hs_lb (snd (hs_get_date e1)) = l1) by (rewrite hs_lb_date; apply hs_lb_put).
  rewrite Hl1. cbn [l1 set_newWinner newWinner cw_date cw_name int_score].
  rewrite copy_array_full by (cbn [set_newWinner newWinner cw_date]; lia). mrun.
  rewrite hs_lb_put.
  match goal with |- context [updateData ?x] => set (l2 := x) end.
  exists d, (newWinner l2), l2. eexists. split; [done |].
  split; [| split; [done | split; [done | split; [| destruct (updateData l2); mrun; reflexivity]]]].
  - split; [| split; [| split; [done | split]]]; cbn [l2 set_newWinner newWinner cw_name cw_date].
    + eapply take_c_str; [exact Hr | | apply Hi]. rewrite Hr, length_app in Hpl. cbn in Hpl. lia.
    + eapply take_c_str; [done | by apply date_text_short | by apply date_text_nonzero].
    + rewrite length_take. lia.
    + rewrite length_take. lia.
  - etransitivity; [apply hs_vc_put_lb |]. etransitivity; [apply hs_vc_date |]. apply hs_vc_put_lb.
Qed.

Lemma press_enter old s h e low :
  (forall e, date_ok (fst (hs_get_date e))) -> (11 <= length (malloc 10))%nat ->
  hs_inv old s h -> old ++ s <> [] ->
  lb_size (hs_lb e) -> winner_arrays (newWinner (hs_lb e)) ->
  getLowestHiScore (hs_lb e) = Ok low -> low < int_score (newWinner (hs_lb e)) ->
  exists d w e', highscore_update_status (KeyPress ENTER false) (h, e) = Ok (tt, (h, e')) /\
    date_ok d /\ hs_mode e' = LEADERBOARD /\
    c_str (cw_name w) = Some (old ++ s) /\ c_str (cw_date w) = Some (date_text d) /\
    int_score w = int_score (newWinner (hs_lb e)) /\
    leaderboard (hs_lb e') = take 5 (insert_winner w (leaderboard (hs_lb e))).
Proof.
  intros Hdate Hblock Hi Hs Hsz Hw Hlow Hgt.
  destruct (press_enter_run old s h e Hdate Hblock Hi Hs Hw)
    as (d & w & l2 & e2 & Hd & (Hn & Ht & Hsc & _) & Hl2 & Hlb & _ & ->).
  destruct (updateData_insert l2 low) as (l3 & Hu & Hl3);
    [by unfold lb_size; rewrite Hlb | by unfold getLowestHiScore, score_at, entry in *; rewrite Hlb
    | by rewrite Hl2, Hsc |].
  rewrite Hu. cbn [res_bind]. exists d, w. eexists. split; [reflexivity |].
  rewrite hs_mode_put, hs_lb_put_mode, hs_lb_put. rewrite Hl2, Hlb in Hl3. done.
Qed.

(** ** What the screen keeps *)

(** A name in the array, whatever the box. *)
Definition name_ok (h : hs) : Prop :=
  length (player h) = 11%nat /\ exists name r, player h = name ++ 0 :: r /\ Forall (fun c => c <> 0) name.

(** The keys that leave the array: Backspace on an empty name, and a character
    for which the box has room but the array has not. *)
Definition name_fault (k : key_press) (h : hs) : bool :=
  negb (down k) &&
  match c_str (player h) with
  | Some name =>
      (key k =? BACKSPACE) && (zlen name =? 0)
      || is_alpha_numberical (key k) && (char_size (new_hiscore h) <? 10) && (10 <=? zlen name)
  | None => false
  end.

Record name_kept (e : E) (h' : hs) (e' : E) : Prop := {
  nk_inv : exists old s, hs_inv old s h';
  nk_screen : screen_ok (hs_vc e');
  nk_table : lb_good (hs_lb e');
  nk_mode : hs_mode e' = hs_mode e \/ hs_mode e' = LEADERBOARD
}.

Lemma enter_kept old s h e :
  (forall e, date_ok (fst (hs_get_date e))) -> (11 <= length (malloc 10))%nat ->
  hs_inv old s h -> screen_ok (hs_vc e) -> lb_good (hs_lb e) ->
  exists e', highscore_update_status (KeyPress ENTER false) (h, e) = Ok (tt, (h, e')) /\ name_kept e h e'.
Proof.
  intros Hdate Hblock Hi Hv (Hsz & Hw & Hl).
  assert (Hkept : name_kept e h e) by (constructor; [by exists old, s | done | done | by left]).
  destruct (decide (old ++ s = [])) as [Hnil | Hne].
  { exists e. split; [| done]. pose proof (inv_c_str _ _ _ Hi) as Hcs. rewrite Hnil in Hcs.
    unfold highscore_update_status, strlen_player, str_res. cbn [down key].
    change (ENTER =? ENTER) with true. mrun. by rewrite Hcs. }
  destruct (press_enter_run old s h e Hdate Hblock Hi Hne (proj1 (proj2 (proj2 Hw))))
    as (d & w & l2 & e2 & Hd & (Hn & Ht & Hsc & Hwa) & Hl2 & Hlb & He2 & ->).
  destruct (updateData_Forall entry_good l2) as (l3 & Hu & H3); [by unfold lb_size; rewrite Hlb | | by rewrite Hlb |].
  { rewrite Hl2. split; [by rewrite Hn |]. split; [by rewrite Ht |]. split; [done |]. rewrite Hsc. apply Hw. }
  rewrite Hu. cbn [res_bind]. eexists. split; [reflexivity |].
  constructor; rewrite ?hs_vc_put_mode, ?hs_vc_put_lb, ?hs_lb_put_mode, ?hs_lb_put, ?hs_mode_put.
  - by exists old, s.
  - by rewrite He2.
  - exact H3.
  - by right.
Qed.

(** Any key: the statics stay in order unless it is one of those. *)
Lemma name_key k old s h e :
  assets_ok a -> (forall e, date_ok (fst (hs_get_date e))) -> (11 <= length (malloc 10))%nat ->
  hs_inv old s h -> screen_ok (hs_vc e) -> lb_good (hs_lb e) ->
  if name_fault k h then highscore_update_status k (h, e) = Undef OutOfBounds
  else exists h' e', highscore_update_status k (h, e) = Ok (tt, (h', e')) /\ name_kept e h' e'.
Proof.
  intros Ha Hdate Hblock Hi Hv Hl. unfold name_fault. rewrite (inv_c_str _ _ _ Hi).
  rewrite (typed_size _ _ _ _ _ (inv_box _ _ _ Hi)).
  assert (Hsame : forall h' e', (exists old s, hs_inv old s h') -> screen_ok (hs_vc e') -> hs_lb e' = hs_lb e ->
      hs_mode e' = hs_mode e -> name_kept e h' e').
  { intros h' e' H1 H2 H3 H4. constructor; [done | done | by rewrite H3 | by left]. }
  destruct k as [c [|]]; cbn [down key negb andb].
  { exists h, e. split; [done |]. apply Hsame; try done. by exists old, s. }
  destruct (Z.eqb_spec c BACKSPACE) as [-> | Hb]; cbn [andb].
  { change (is_alpha_numberical BACKSPACE) with false. cbn [andb]. rewrite orb_false_r.
    destruct (exists_last_dec s) as [-> | (s' & x & ->)].
    - rewrite app_nil_r. destruct (exists_last_dec old) as [-> | (old' & x & ->)].
      + by apply press_backspace_empty.
      + destruct (press_backspace_old old' x h e Hi) as (h' & Hp & Hi').
        replace (zlen (old' ++ [x]) =? 0) with false
          by (symmetry; apply Z.eqb_neq; unfold zlen; rewrite length_app; cbn; lia).
        exists h', e. split; [exact Hp |]. apply Hsame; try done. by exists old', [].
    - destruct (press_backspace old s' x h e Ha Hi Hv) as (h' & v & Hp & Hi' & Hv' & _).
      replace (zlen (old ++ s' ++ [x]) =? 0) with false
        by (symmetry; apply Z.eqb_neq; unfold zlen; rewrite !length_app; cbn; lia).
      exists h', (hs_put_vc v e). split; [exact Hp |].
      apply Hsame; rewrite ?hs_vc_put, ?hs_lb_put_vc, ?hs_mode_put_vc; try done. by exists old, s'. }
  destruct (is_alpha_numberical c) eqn:Hal; cbn [andb orb].
  - pose proof (typed_fits _ _ _ _ _ (inv_box _ _ _ Hi)) as Hf.
    destruct (Z.ltb_spec (zlen s) 10) as [Hlt | Hge]; cbn [andb].
    + pose proof (press_char old s h e c (ok_width a Ha) Hi Hal Hlt) as Hp.
      assert (Hz : (10 <=? zlen (old ++ s)) = negb (length (old ++ s) <? 10)%nat).
      { unfold zlen. destruct (Nat.ltb_spec (length (old ++ s)) 10); cbn [negb];
          [apply Z.leb_gt | apply Z.leb_le]; lia. }
      rewrite Hz. destruct (length (old ++ s) <? 10)%nat; cbn [negb]; [| exact Hp].
      destruct Hp as (h' & Hp & Hi'). exists h', e. split; [exact Hp |]. apply Hsame; try done. by exists old, (s ++ [c]).
    + exists h, e. split; [apply (press_char_full old s); [done | done | lia] |]. apply Hsame; try done. by exists old, s.
  - destruct (decide (c = ENTER)) as [-> | He].
    + destruct (enter_kept old s h e Hdate Hblock Hi Hv Hl) as (e' & Hp & Hk). by exists h, e'.
    + exists h, e. split; [by apply press_other |]. apply Hsame; try done. by exists old, s.
Qed.
End Highscore.

(** ** A concrete environment, for the witnesses *)

Record hs_env := HsEnv { w_lb : lb; w_mode : Game_Modes; w_vc : vc }.
Definition date0 : date := Date 21 12 25.

#[export] Instance hs_env_inst : HighscoreEnv hs_env := {
  hs_lb := w_lb;
  hs_put_lb l e := HsEnv l (w_mode e) (w_vc e);
  hs_mode := w_mode;
  hs_put_mode m e := HsEnv (w_lb e) m (w_vc e);
  hs_get_date e := (date0, e);
  hs_vc := w_vc;
  hs_put_vc v e := HsEnv (w_lb e) (w_mode e) v
}.

#[export] Instance hs_env_laws : HighscoreLaws hs_env.
Proof. constructor; try done. by intros []. Qed.

Definition hs_env0 : hs_env := HsEnv lb0 HIGHSCORE frame0.

(** ** Properties *)




(** A name typed on the first visit, for the witnesses. *)
Definition hs_ana : hs :=
  Hs (TextBox (map (fun c => Some (get_prop_from_char c)) [ch "a"; ch "n"; ch "a"] ++ replicate 17 None)
        337 330 65535 0 463 3 10)
     ([ch "a"; ch "n"; ch "a"] ++ replicate 8 0).

Lemma hs_ana_inv : hs_inv [] [ch "a"; ch "n"; ch "a"] hs_ana.
Proof.
  constructor; [| by eexists | done | repeat constructor; discriminate].
  constructor; try reflexivity; try done. repeat constructor; discriminate.
Qed.


(** With a block of exactly the ten bytes that are asked for, submitting is
    undefined whatever the date: the [memcpy] of the eleven bytes of
    [newWinner.date] reads past the block (and a date with two-digit day and
    month already does not fit). *)
Theorem getDate_block_too_small {E} `{HighscoreEnv E, !HighscoreLaws E} a (malloc : Z -> list Z) s h e :
  length (malloc 10%Z) = 10%nat -> hs_inv [] s h -> s <> [] ->
  exists u, highscore_update_status a malloc (KeyPress ENTER false) (h, e) = Undef u.
Proof.
  intros Hblock Hi Hs. pose proof (inv_c_str _ _ _ Hi) as Hcs. cbn [app] in *.
  unfold highscore_update_status, strlen_player, str_res. cbn [down key].
  change (ENTER =? ENTER) with true. mrun. rewrite Hcs. mrun.
  replace (zlen s =? 0) with false
    by (symmetry; apply Z.eqb_neq; unfold zlen; destruct s; [done | cbn; lia]).
  cbn [negb]. unfold submit, hs_on_lb, getDate, set_winner_name, set_winner_date. mrun.
  destruct (copy_array 11 _ (player h)); [| by eexists]. mrun.
  destruct (date_string _ _) as [b |] eqn:Hd; [| by eexists]. mrun.
  apply date_string_length in Hd. unfold copy_array at 1.
  replace (length b <? 11)%nat with true by (symmetry; apply Nat.ltb_lt; lia).
  rewrite orb_true_r. by eexists.
Qed.

Lemma getDate_block_too_small_witness :
  exists u, highscore_update_status assets0 (fun n => replicate (Z.to_nat n) 1) (KeyPress ENTER false)
              (hs_ana, hs_env0) = Undef u.
Proof.
  apply (getDate_block_too_small (E := hs_env) assets0 (fun n => replicate (Z.to_nat n) 1)
           [ch "a"; ch "n"; ch "a"]); [reflexivity | exact hs_ana_inv | discriminate].
Defined.

(** The name of the previous winner is not cleared: on a second visit the box
    is empty, but what is typed is appended to the old name, up to ten
    characters in all, after which the array overflows. *)
Theorem highscore_stale_name {E} `{HighscoreEnv E, !HighscoreLaws E} a (malloc : Z -> list Z) old c score h e :
  assets_ok a -> hs_inv [] old h -> is_alpha_numberical c = true ->
  let again := (do* reset_hiscore score in highscore_update_status a malloc (KeyPress c false)) (h, e) in
  if (length old <? 10)%nat
  then exists h' e', again = Ok (tt, (h', e')) /\
         typed 400 330 10 [c] (new_hiscore h') /\ c_str (player h') = Some (old ++ [c])
  else again = Undef OutOfBounds.
Proof.
  intros Ha Hi Hc again. destruct (inv_player _ _ _ Hi) as (r & Hr).
  assert (Hi' : hs_inv old [] (create_name_box h)) by (apply (create_inv old r); apply Hi || exact Hr).
  pose proof (press_char a malloc old [] _ (hs_put_lb (set_winner_score score (hs_lb e)) e) c
                (ok_width a Ha) Hi' Hc eq_refl) as Hp.
  rewrite app_nil_r in Hp. subst again. unfold bind at 1. unfold reset_hiscore, hs_on_lb. mrun.
  destruct (Nat.ltb_spec (length old) 10); [| exact Hp].
  destruct Hp as (h' & Hp & Hh'). exists h'. eexists. split; [exact Hp |].
  split; [apply Hh' | exact (inv_c_str _ _ _ Hh')].
Qed.

Lemma highscore_stale_name_witness :
  exists h' e', (do* reset_hiscore 8 in
      highscore_update_status assets0 (fun _ => []) (KeyPress (ch "z") false)) (hs_ana, hs_env0) = Ok (tt, (h', e')) /\
    typed 400 330 10 [ch "z"] (new_hiscore h') /\
    c_str (player h') = Some [ch "a"; ch "n"; ch "a"; ch "z"].
Proof.
  exact (highscore_stale_name (E := hs_env) assets0 (fun _ => []) [ch "a"; ch "n"; ch "a"] (ch "z") 8
           hs_ana hs_env0 assets0_ok hs_ana_inv eq_refl).
Defined.
