(* ===== verification/Menus.v ===== *)
(** The screens before a game: [menu.c], [host.c], [how_to_play.c] and
    [number_of_rounds.c].

    They change the mode and start games; those are operations of other files,
    reached through the interface [MenusEnv]. *)

From stdpp Require Import base tactics list.
From Stdlib Require Import ZArith Lia Ascii.
From S2P Require Import Prelude Consts Keyboard NumLetters Vc Screen CString.

(** ** The interface *)

Class MenusEnv (E : Type) := {
  set_mode : Game_Modes -> E -> E;
  menu_reset_number_of_rounds : bool -> E -> E;   (* [reset_number_of_rounds] *)
  menu_connect_mp_game : E -> E;                  (* [connect_mp_game] *)
  menu_reset_game : Z -> E -> E;                  (* [reset_game] *)
  menu_host_mp_game : Z -> E -> E;                (* [host_mp_game] *)
  menu_vc : E -> vc;                              (* the statics of [vc.c] *)
  menu_put_vc : vc -> E -> E
}.

(** The other calls leave the frame alone. *)
Class MenusLaws (E : Type) `{MenusEnv E} := {
  menu_vc_put : forall v e, menu_vc (menu_put_vc v e) = v;
  menu_put_get : forall e, menu_put_vc (menu_vc e) e = e;
  menu_vc_mode : forall m e, menu_vc (set_mode m e) = menu_vc e;
  menu_vc_game : forall n e, menu_vc (menu_reset_game n e) = menu_vc e;
  menu_vc_host : forall n e, menu_vc (menu_host_mp_game n e) = menu_vc e
}.

(** ** [menu.c]

    The enumeration [Menu_Selection] is used as the integer [position]. *)

Definition MENU_NUM_SELECTIONS := 5.
Definition SELECT_ONEPC := 0.
Definition SELECT_TWOPC := 1.
Definition SELECT_HOW_TO_PLAY := 2.
Definition SELECT_LEADERBOARD := 3.
Definition SELECT_EXIT := 4.

Definition draw_menu_graphics (a : assets) (position : Z) : vc -> res vc :=
  if position =? SELECT_ONEPC then draw_screen a 19
  else if position =? SELECT_TWOPC then draw_screen a 20
  else if position =? SELECT_HOW_TO_PLAY then draw_screen a 21
  else if position =? SELECT_LEADERBOARD then draw_screen a 22
  else if position =? SELECT_EXIT then draw_screen a 23
  else Ok.

Definition menu_update_status {E} `{MenusEnv E} (k : key_press) (position : Z) (e : E) : Z * E :=
  let key_char := key k in
  if down k then (position, e)
  else if (key_char =? UP_ARROW) || (key_char =? ch "w")
  then ((position + 4) mod MENU_NUM_SELECTIONS, e)
  else if (key_char =? DOWN_ARROW) || (key_char =? ch "s")
  then ((position + 1) mod MENU_NUM_SELECTIONS, e)
  else if key_char =? 10
  then (SELECT_ONEPC,
        if position =? SELECT_ONEPC then menu_reset_number_of_rounds false (set_mode NUM_ROUNDS e)
        else if position =? SELECT_TWOPC then set_mode HOST e
        else if position =? SELECT_HOW_TO_PLAY then set_mode HOW_TO_PLAY e
        else if position =? SELECT_LEADERBOARD then set_mode LEADERBOARD e
        else if position =? SELECT_EXIT then set_mode EXIT e
        else e)
  else (position, e).

(** ** [host.c]

    [host_position] is an enumeration without negative values, an unsigned
    integer: the subtraction wraps around. *)

Definition HOST_NUM_SELECTIONS := 2.
Definition HOST_SELECT_HOST := 0.
Definition HOST_SELECT_CONNECT := 1.

Definition draw_host_graphics (a : assets) (host_position : Z) : vc -> res vc :=
  if host_position =? HOST_SELECT_HOST then draw_screen a 24
  else if host_position =? HOST_SELECT_CONNECT then draw_screen a 25
  else Ok.

Definition host_update_status {E} `{MenusEnv E} (k : key_press) (host_position : Z) (e : E) : Z * E :=
  let key_char := key k in
  if down k then (host_position, e)
  else if (key_char =? UP_ARROW) || (key_char =? ch "w")
  then (u32 (host_position - 1) mod HOST_NUM_SELECTIONS, e)
  else if (key_char =? DOWN_ARROW) || (key_char =? ch "s")
  then (u32 (host_position + 1) mod HOST_NUM_SELECTIONS, e)
  else if key_char =? 10
  then (HOST_SELECT_HOST,
        if host_position =? HOST_SELECT_HOST then menu_reset_number_of_rounds true (set_mode NUM_ROUNDS e)
        else if host_position =? HOST_SELECT_CONNECT then menu_connect_mp_game (set_mode MP_GAME e)
        else e)
  else (host_position, e).

(** ** [how_to_play.c] *)

Definition draw_how_to_play_graphics (a : assets) : vc -> res vc := draw_screen a 5.

Definition how_to_play_update_status {E} `{MenusEnv E} (k : key_press) (e : E) : E :=
  if key k =? 8 then set_mode MENU e else e.

(** ** [number_of_rounds.c] *)

Record nr := Nr { num_rounds : text_box; num_rounds_value : Z; is_mp : bool }.

Definition set_num_rounds (b : text_box) (n : nr) : nr := Nr b (num_rounds_value n) (is_mp n).
Definition set_num_rounds_value (v : Z) (n : nr) : nr := Nr (num_rounds n) v (is_mp n).
Definition set_is_mp (mp : bool) (n : nr) : nr := Nr (num_rounds n) (num_rounds_value n) mp.

Definition create_num_box (n : nr) : nr :=
  set_num_rounds_value 0 (set_num_rounds (create_writeable_text_box 400 360 0 (-1) 3) n).

Definition reset_number_of_rounds (mp : bool) (n : nr) : nr := create_num_box (set_is_mp mp n).

Section NumberOfRounds.
Context {E : Type} `{ME : MenusEnv E}.
Variable a : assets.
#[local] Abbreviation im := (glyphs a).

Definition start_rounds (n : Z) : M nr E unit :=
  let* mp := gets is_mp in
  do* when (negb mp) (do* env_ (set_mode GAME) in env_ (menu_reset_game n)) in
  when mp (do* env_ (set_mode MP_GAME) in env_ (menu_host_mp_game n)).

Definition add_digit (c : Z) : M nr E unit :=
  let* b := gets num_rounds in
  let* r := lift (add_to_centered_text_box im c b) in
  do* modify (set_num_rounds (snd r)) in
  when (fst r)
    (modify (fun n => set_num_rounds_value (u32 (num_rounds_value n * 10 + (c - ch "0"))) n)).

Definition number_of_rounds_update_status (k : key_press) : M nr E unit :=
  if down k then skip
  else
    do* (let* v := gets num_rounds_value in
         when ((key k =? 10) && negb (v =? 0)) (start_rounds v)) in
    do* when (is_numerical (key k)) (add_digit (key k)) in
    when (key k =? BACKSPACE)
      (let* b := gets num_rounds in
       let* v := env (fun e => (menu_vc e, e)) in
       let* r := lift (remove_from_centered_text_box im (transparency a) b v) in
       do* env_ (menu_put_vc (snd r)) in
       do* modify (set_num_rounds (fst r)) in
       modify (fun n => set_num_rounds_value (num_rounds_value n / 10) n)).

Definition draw_num_of_rounds_graphics (n : nr) : vc -> res vc :=
  draw_screen a 17 ;; draw_text_box (glyphs a) (transparency a) (num_rounds n).

Fixpoint nr_keys (ks : list key_press) : M nr E unit :=
  match ks with
  | [] => skip
  | k :: ks => do* number_of_rounds_update_status k in nr_keys ks
  end.

(** ** What the screen promises

    A string of at most three digits; Enter starts a game of as many rounds
    as it says, unless it says none; Backspace blanks the line and takes the last
    digit away. *)
Definition blanked (s : list Z) (v : vc) : vc :=
  match blank_line a 400 360 (zlen s) v with Ok v => v | Undef _ => v end.

Definition rounds_step (mp : bool) (k : key_press) (st : list Z * E) : list Z * E :=
  let '(s, e) := st in
  if down k then st
  else if key k =? 10 then
    if digits_value s =? 0 then st
    else (s, if mp then menu_host_mp_game (digits_value s) (set_mode MP_GAME e)
             else menu_reset_game (digits_value s) (set_mode GAME e))
  else if is_numerical (key k) then (if zlen s <? 3 then s ++ [key k] else s, e)
  else if key k =? BACKSPACE then
    (removelast s, match s with [] => e | _ => menu_put_vc (blanked s (menu_vc e)) e end)
  else st.

(** The statics hold the digits [s]. *)
Record nr_inv (mp : bool) (s : list Z) (n : nr) : Prop := {
  nr_box : typed 400 360 3 s (num_rounds n);
  nr_value : num_rounds_value n = digits_value s;
  nr_mp : is_mp n = mp;
  nr_digits : Forall (fun c => is_numerical c = true) s
}.

Lemma rounds_room : room 400 3.
Proof. unfold room, MAX_TEXT_BOX_SIZE. lia. Qed.

Lemma reset_nr_inv mp n : nr_inv mp [] (reset_number_of_rounds mp n).
Proof. constructor; [apply typed_create; [apply rounds_room | lia] | done | done | done]. Qed.

Lemma digits_value_snoc s c : digits_value (s ++ [c]) = digits_value s * 10 + (c - 48).
Proof. unfold digits_value. by rewrite fold_left_app. Qed.

Lemma is_numerical_iff c : is_numerical c = true <-> 48 <= c <= 57.
Proof. unfold is_numerical. chars. rewrite andb_true_iff, !Z.leb_le. done. Qed.

Lemma digits_value_bound s :
  Forall (fun c => is_numerical c = true) s -> 0 <= digits_value s < 10 ^ zlen s.
Proof.
  induction s as [| c s IH] using rev_ind; intros Hs; [by vm_compute |].
  apply Forall_app in Hs as [Hs Hc]. apply List.Forall_inv, is_numerical_iff in Hc.
  rewrite digits_value_snoc. unfold zlen in *. rewrite length_app, Nat2Z.inj_add, Z.pow_add_r by lia.
  cbn [length]. change (10 ^ Z.of_nat 1) with 10. specialize (IH Hs). lia.
Qed.

Lemma digits_value_3 s :
  Forall (fun c => is_numerical c = true) s -> zlen s <= 3 -> 0 <= digits_value s <= 999.
Proof.
  intros Hs Hl. pose proof (digits_value_bound s Hs).
  assert (10 ^ zlen s <= 10 ^ 3) by (apply Z.pow_le_mono_r; lia). lia.
Qed.

(** One key of the code is one step of the specification. *)
Context `{ML : !MenusLaws E}.

Lemma rounds_step_sim mp s n k e :
  assets_ok a -> nr_inv mp s n -> screen_ok (menu_vc e) ->
  exists n', number_of_rounds_update_status k (n, e) = Ok (tt, (n', snd (rounds_step mp k (s, e)))) /\
             nr_inv mp (fst (rounds_step mp k (s, e))) n'.
Proof.
  intros Has Hi Hv. pose proof (ok_width a Has) as Him. destruct k as [c d]. unfold number_of_rounds_update_status, rounds_step. cbn [down key].
  destruct d; [by exists n |].
  destruct (Z.eqb_spec c 10) as [-> | Hc10]; cbn [andb].
  { change (is_numerical 10) with false. change (10 =? BACKSPACE) with false. unfold start_rounds. mrun.
    rewrite (nr_value _ _ _ Hi). exists n.
    destruct (digits_value s =? 0); cbn [negb]; mrun; [done |]. rewrite (nr_mp _ _ _ Hi). by destruct mp. }
  destruct (is_numerical c) eqn:Hnum.
  { assert (Hb : (c =? BACKSPACE) = false)
      by (apply is_numerical_iff in Hnum; apply Z.eqb_neq; unfold BACKSPACE; lia).
    assert (Hs : c <> ch "/") by (intros ->; discriminate).
    rewrite Hb. unfold add_digit. mrun. destruct (Z.ltb_spec (zlen s) 3) as [Hl | Hl].
    - destruct (typed_add im 400 360 3 s (num_rounds n) c Him rounds_room (nr_box _ _ _ Hi) Hl Hs)
        as (b & Ha & Ht).
      rewrite Ha. mrun. cbn [set_num_rounds num_rounds_value]. eexists. split; [done |].
      apply is_numerical_iff in Hnum as Hr. pose proof (digits_value_3 s (nr_digits _ _ _ Hi) ltac:(lia)).
      constructor; cbn [fst set_num_rounds_value set_num_rounds num_rounds num_rounds_value is_mp].
      + exact Ht.
      + rewrite digits_value_snoc, (nr_value _ _ _ Hi). chars. unfold u32. apply Z.mod_small. lia.
      + apply Hi.
      + apply Forall_app. split; [apply Hi | by constructor].
    - pose proof (typed_fits _ _ _ _ _ (nr_box _ _ _ Hi)).
      rewrite (typed_add_full im _ _ _ _ _ c (nr_box _ _ _ Hi)) by lia. mrun.
      exists n. split; [by destruct n | done]. }
  destruct (Z.eqb_spec c BACKSPACE) as [-> | Hcb]; [| exists n; by mrun].
  mrun. destruct s as [| x s] using rev_ind.
  - rewrite (typed_remove_empty im _ _ _ _ _ _ (nr_box _ _ _ Hi)). mrun. eexists.
    split; [by rewrite menu_put_get |].
    cbn. constructor; try apply Hi. cbn. by rewrite (nr_value _ _ _ Hi).
  - destruct (typed_delete a 400 360 3 s x (num_rounds n) (menu_vc e) Has rounds_room ltac:(lia) ltac:(lia)
                (nr_box _ _ _ Hi) Hv) as (b & v' & Hb & Ht & Hbl & _).
    rewrite Hb. mrun. eexists.
    split; [unfold blanked; rewrite zlen_snoc, Hbl; by destruct s |].
    pose proof (nr_digits _ _ _ Hi) as Hd. apply Forall_app in Hd as [Hd Hx].
    apply List.Forall_inv, is_numerical_iff in Hx.
    cbn [fst]. rewrite removelast_last.
    constructor; cbn [set_num_rounds_value set_num_rounds num_rounds num_rounds_value is_mp].
    + exact Ht.
    + rewrite (nr_value _ _ _ Hi), digits_value_snoc. zlia.
    + apply Hi.
    + exact Hd.
Qed.

(** The digits, centred. *)
Lemma shows_rounds mp s n :
  assets_ok a -> nr_inv mp s n ->
  shows a (draw_num_of_rounds_graphics n) (Scene 17 (centred (map get_prop_from_char s) 400 360)).
Proof.
  intros Ha Hn. apply shows_then; [apply shows_screen; [done | lia] |].
  apply (paints_typed a 400 360 3); [done | apply rounds_room | lia | lia | apply Hn].
Qed.

Lemma rounds_step_screen mp s n k e :
  assets_ok a -> nr_inv mp s n -> screen_ok (menu_vc e) -> screen_ok (menu_vc (snd (rounds_step mp k (s, e)))).
Proof.
  intros Ha Hi Hv. pose proof (typed_fits _ _ _ _ _ (nr_box _ _ _ Hi)) as Hf.
  unfold rounds_step. destruct (down k); [done |].
  destruct (key k =? 10).
  { destruct (digits_value s =? 0); [done |].
    destruct mp; cbn [snd]; by rewrite ?menu_vc_host, ?menu_vc_game, menu_vc_mode. }
  destruct (is_numerical (key k)); [done |]. destruct (key k =? BACKSPACE); [| done].
  destruct s as [| x s]; [done |]. cbn [snd]. rewrite menu_vc_put. unfold blanked.
  destruct (draws_blank_line a 400 360 (zlen (x :: s)) Ha) with (v := menu_vc e) as (v' & Hb & Hm); try done;
    try (unfold zlen, MAX_TEXT_BOX_SIZE in *; cbn [length] in *; lia).
  rewrite Hb. by eapply screen_ok_same.
Qed.
End NumberOfRounds.

(** ** Properties *)

(** A run of keys of a screen with a position. *)
Definition run_keys {E} (f : key_press -> Z -> E -> Z * E) (ks : list key_press) (st : Z * E) : Z * E :=
  fold_left (fun st k => f k (fst st) (snd st)) ks st.

(** Moves of the keys of a menu. *)
Definition up_key (k : key_press) : bool := (key k =? UP_ARROW) || (key k =? ch "w").
Definition down_key (k : key_press) : bool := (key k =? DOWN_ARROW) || (key k =? ch "s").
Definition moves (ks : list key_press) : Z :=
  fold_left (fun n k => if down k then n else if up_key k then n - 1 else if down_key k then n + 1 else n) ks 0.

(** Moving in a menu of [n] lines: the position stays in range and is the number
    of moves down less the moves up, modulo [n]; nothing else happens before
    Enter. *)
Definition navigates {E} (f : key_press -> Z -> E -> Z * E) (n : Z) : Prop :=
  forall ks p e, 0 <= p < n -> Forall (fun k => key k <> 10) ks ->
  run_keys f ks (p, e) = ((p + moves ks) mod n, e).

Lemma navigates_step {E} (f : key_press -> Z -> E -> Z * E) n :
  0 < n ->
  (forall k p e, 0 <= p < n -> key k <> 10 ->
     f k p e = ((p + if down k then 0 else if up_key k then -1 else if down_key k then 1 else 0) mod n, e)) ->
  navigates f n.
Proof.
  intros Hn Hstep ks. unfold run_keys. induction ks as [| k ks IH] using rev_ind; intros p e Hp Hks.
  - cbn. by rewrite Z.add_0_r, Z.mod_small.
  - apply Forall_app in Hks as [Hks Hk]. apply List.Forall_inv in Hk.
    rewrite fold_left_app. cbn [fold_left]. rewrite (IH p e Hp Hks). cbn [fst snd].
    rewrite Hstep by (done || apply Z.mod_pos_bound; lia). f_equal.
    rewrite Zplus_mod_idemp_l. unfold moves. rewrite fold_left_app. cbn [fold_left]. f_equal.
    destruct (down k); [lia |]. destruct (up_key k); [lia |]. destruct (down_key k); lia.
Qed.

Lemma menu_navigates {E} `{MenusEnv E} : navigates menu_update_status MENU_NUM_SELECTIONS.
Proof.
  apply navigates_step; [done |]. intros k p e Hp Hk. unfold MENU_NUM_SELECTIONS in *.
  unfold menu_update_status. fold (up_key k) (down_key k). apply Z.eqb_neq in Hk. rewrite Hk.
  destruct (down k); [by rewrite Z.add_0_r, Z.mod_small |].
  destruct (up_key k); [unfold MENU_NUM_SELECTIONS; f_equal; zlia |].
  destruct (down_key k); [done |]. by rewrite Z.add_0_r, Z.mod_small.
Qed.

Lemma host_navigates {E} `{MenusEnv E} : navigates host_update_status HOST_NUM_SELECTIONS.
Proof.
  apply navigates_step; [done |]. intros k p e Hp Hk. unfold HOST_NUM_SELECTIONS in *.
  unfold host_update_status. fold (up_key k) (down_key k). apply Z.eqb_neq in Hk. rewrite Hk.
  destruct (down k); [by rewrite Z.add_0_r, Z.mod_small |].
  destruct (up_key k); [unfold HOST_NUM_SELECTIONS, u32; f_equal; zlia |].
  destruct (down_key k); [unfold HOST_NUM_SELECTIONS, u32; f_equal; zlia |].
  by rewrite Z.add_0_r, Z.mod_small.
Qed.

(** The keys move the two menus around in a circle, without any other effect
    until Enter; Enter then does what the line shown says and goes back to the
    first line. *)
Theorem menus_select {E} `{MenusEnv E} ks (e : E) :
  Forall (fun k => key k <> 10) ks ->
  let enter := [KeyPress ENTER false] in
  run_keys menu_update_status (ks ++ enter) (SELECT_ONEPC, e) =
    (SELECT_ONEPC,
     match moves ks mod 5 with
     | 0 => menu_reset_number_of_rounds false (set_mode NUM_ROUNDS e)
     | 1 => set_mode HOST e
     | 2 => set_mode HOW_TO_PLAY e
     | 3 => set_mode LEADERBOARD e
     | _ => set_mode EXIT e
     end) /\
  run_keys host_update_status (ks ++ enter) (HOST_SELECT_HOST, e) =
    (HOST_SELECT_HOST,
     match moves ks mod 2 with
     | 0 => menu_reset_number_of_rounds true (set_mode NUM_ROUNDS e)
     | _ => menu_connect_mp_game (set_mode MP_GAME e)
     end).
Proof.
  intros Hks enter. unfold run_keys. rewrite !fold_left_app.
  fold (run_keys menu_update_status ks (SELECT_ONEPC, e)).
  fold (run_keys host_update_status ks (HOST_SELECT_HOST, e)).
  rewrite (menu_navigates ks SELECT_ONEPC e), (host_navigates ks HOST_SELECT_HOST e)
    by (done || unfold SELECT_ONEPC, HOST_SELECT_HOST, MENU_NUM_SELECTIONS, HOST_NUM_SELECTIONS; lia).
  unfold SELECT_ONEPC, HOST_SELECT_HOST, MENU_NUM_SELECTIONS, HOST_NUM_SELECTIONS. rewrite Z.add_0_l.
  pose proof (Z.mod_pos_bound (moves ks) 5 eq_refl) as H5.
  pose proof (Z.mod_pos_bound (moves ks) 2 eq_refl) as H2. split.
  - assert (Hm : moves ks mod 5 = 0 \/ moves ks mod 5 = 1 \/ moves ks mod 5 = 2 \/ moves ks mod 5 = 3 \/
                 moves ks mod 5 = 4) by lia.
    by destruct Hm as [-> | [-> | [-> | [-> | ->]]]].
  - assert (Hm : moves ks mod 2 = 0 \/ moves ks mod 2 = 1) by lia. by destruct Hm as [-> | ->].
Qed.

(** A recording environment, for the witnesses. *)
Inductive menu_call := SetMode (m : Game_Modes) | ResetRounds (b : bool) | Connect | ResetGame (n : Z) | HostGame (n : Z).
Definition menu_log : Type := list menu_call * vc.
#[export] Instance log_env : MenusEnv menu_log := {
  set_mode m l := (fst l ++ [SetMode m], snd l);
  menu_reset_number_of_rounds b l := (fst l ++ [ResetRounds b], snd l);
  menu_connect_mp_game l := (fst l ++ [Connect], snd l);
  menu_reset_game n l := (fst l ++ [ResetGame n], snd l);
  menu_host_mp_game n l := (fst l ++ [HostGame n], snd l);
  menu_vc l := snd l;
  menu_put_vc v l := (fst l, v)
}.
#[export] Instance log_laws : MenusLaws menu_log.
Proof. constructor; try done. by intros []. Qed.

Lemma menus_select_witness :
  run_keys menu_update_status [KeyPress UP_ARROW false; KeyPress ENTER false] (SELECT_ONEPC, ([], vc0))
    = (SELECT_ONEPC, ([SetMode EXIT], vc0)) /\
  run_keys host_update_status [KeyPress UP_ARROW false; KeyPress ENTER false] (HOST_SELECT_HOST, ([], vc0))
    = (HOST_SELECT_HOST, ([SetMode MP_GAME; Connect], vc0)).
Proof.
  assert (Hks : Forall (fun k => key k <> 10) [KeyPress UP_ARROW false]) by (repeat constructor; discriminate).
  exact (menus_select [KeyPress UP_ARROW false] (([], vc0) : menu_log) Hks).
Defined.


