(* ===== verification/Pad.v ===== *)
(** What [game.c] and [mp_game.c] have in common: both files carry the same
    code, with different names, for the mouse, the hit tests, the heap block of
    the sequence and the parts of the screen.  The two copies are instances of
    the definitions here. *)

From stdpp Require Import base tactics list.
From Stdlib Require Import ZArith Lia Ascii.
From S2P Require Import Prelude Consts Keyboard Mouse NumLetters Vc Screen CString.

(** ** The mouse *)

(** [struct mouse_state]; the positions are [uint16_t]. *)
Record mouse_state := MouseState { x_pos : Z; y_pos : Z; left_hold : bool; left_click : bool }.

Definition set_left_click (b : bool) (m : mouse_state) : mouse_state :=
  MouseState (x_pos m) (y_pos m) (left_hold m) b.

Definition center_mouse : mouse_state :=
  MouseState (get_mode_width / 2) (get_mode_height / 2) false false.

Definition move_x (p : packet) (x : Z) : Z :=
  if x_ov p then x
  else if x <? - delta_x p then 1
  else if get_mode_width - MOUSE_WIDTH <=? x + delta_x p then get_mode_width - MOUSE_WIDTH
  else u16 (x + delta_x p).

Definition move_y (p : packet) (y : Z) : Z :=
  if y_ov p then y
  else if y <? delta_y p then 1
  else if get_mode_height - MOUSE_HEIGHT <=? y - delta_y p then get_mode_height - MOUSE_HEIGHT
  else u16 (y - delta_y p).

(** A click is the change of the button from up to down. *)
Definition update_mouse (p : packet) (m : mouse_state) : mouse_state :=
  let x := move_x p (x_pos m) in
  let y := move_y p (y_pos m) in
  if lb p
  then if left_hold m then MouseState x y true false else MouseState x y true true
  else MouseState x y false false.

(** ** The buttons *)

Definition in_circle (cx cy : Z) (m : mouse_state) : bool :=
  (x_pos m - cx) * (x_pos m - cx) + (y_pos m - cy) * (y_pos m - cy) <=? BUTTON_WIDTH * BUTTON_WIDTH.

Definition button_at (m : mouse_state) : button_click_t :=
  if in_circle RED_X RED_Y m then RED_B
  else if in_circle GREEN_X GREEN_Y m then GREEN_B
  else if in_circle PURPLE_X PURPLE_Y m then PURPLE_B
  else if in_circle BLUE_X BLUE_Y m then BLUE_B
  else if in_circle YELLOW_X YELLOW_Y m then YELLOW_B
  else if in_circle VS_X VS_Y m then VS_B
  else NO_BUTTON.

(** ** The block [buttons]

    [malloc] is taken to succeed; the cells of the new block are indeterminate
    ([None]). *)
Inductive block := PNull | PFreed | PBlock (cells : list (option button_click_t)).

Definition malloc_block (n : Z) : block := PBlock (replicate (Z.to_nat n) None).

Definition block_get (b : block) (i : Z) : res button_click_t :=
  match b with
  | PNull => Undef NullDeref
  | PFreed => Undef UseAfterFree
  | PBlock cells =>
      match arr_get cells i with
      | None => Undef OutOfBounds
      | Some None => Undef Uninitialised
      | Some (Some c) => Ok c
      end
  end.

Definition block_set (b : block) (i : Z) (c : button_click_t) : res block :=
  match b with
  | PNull => Undef NullDeref
  | PFreed => Undef UseAfterFree
  | PBlock cells =>
      match arr_set cells i (Some c) with
      | None => Undef OutOfBounds
      | Some cells => Ok (PBlock cells)
      end
  end.

Definition block_free (b : block) : res block :=
  match b with
  | PNull => Ok PNull
  | PFreed => Undef DoubleFree
  | PBlock _ => Ok PFreed
  end.

(** The block holds the sequence [s], with room for [n] buttons in all. *)
Definition holds (b : block) (s : list button_click_t) (n : Z) : Prop :=
  zlen s <= n /\ b = PBlock (map Some s ++ replicate (Z.to_nat (n - zlen s)) None).

(** ** The screen *)

Definition play_screen (ps : Play_Screens) : Z :=
  match ps with
  | DEFAULT => 9 | GREEN => 10 | YELLOW => 11 | PURPLE => 12
  | BLUE => 13 | RED => 14 | VS => 8 | WHITE => 15
  end.

Definition winner_screen (w : Winners) : Z :=
  match w with WINNER1 => 6 | WINNER2 => 7 | TIE => 18 end.

(** The statics of [draw_counter] and [draw_round]. *)
Record counter := Counter { number : xpm_image_t; previous_time : Z }.
Definition counter_init : counter := Counter (Xpm 0 0 0 []) (-1).

Definition draw_counter_of (a : assets) (time_left_for_click : Z) (c : counter) (v : vc) : res (counter * vc) :=
  let time_left := if 0 <? time_left_for_click then time_left_for_click else 0 in
  res_bind (if previous_time c =? time_left then Ok c
            else match glyph (glyphs a) (get_prop_from_char (ch "0" + time_left)) with
                 | None => Undef OutOfBounds
                 | Some g => Ok (Counter g time_left)
                 end)
    (fun c => res_bind (draw_xpm_x_y (transparency a) (number c) 700 0 v) (fun v => Ok (c, v))).

Record round_cache := RoundCache { round : Z; round_text : text_box }.
Definition round_init : round_cache :=
  RoundCache (-1) (TextBox (replicate 20 None) 0 0 0 0 0 0 0).

(** The loop that writes the digits of [temp_round], last first, into the three
    cells of [chars]; the fourth digit does not fit. *)
Fixpoint round_digits (fuel : nat) (temp_round numbers_size : Z) (chars : list Z) : res (Z * list Z) :=
  if 0 <? temp_round then
    match fuel with
    | O => Undef OutOfBounds
    | S fuel =>
        match arr_set chars numbers_size (temp_round mod 10 + ch "0") with
        | None => Undef OutOfBounds
        | Some chars => round_digits fuel (temp_round / 10) (numbers_size + 1) chars
        end
    end
  else Ok (numbers_size, chars).

Definition swap_cells (i j : nat) (l : list Z) : list Z :=
  match l !! i, l !! j with
  | Some x, Some y => <[j := x]> (<[i := y]> l)
  | _, _ => l
  end.

Definition round_chars (round : Z) : res (list Z * Z) :=
  res_bind (round_digits 4 round 0 [ch "0"; ch "0"; ch "0"]) (fun r =>
    let '(n, chars) := r in
    Ok (if n =? 0 then (chars, 1)
        else if n =? 2 then (swap_cells 0 1 chars, n)
        else if n =? 3 then (swap_cells 0 2 chars, n)
        else (chars, n))).

Definition draw_round_of (a : assets) (buttons_size : Z) (c : round_cache) (v : vc) : res (round_cache * vc) :=
  res_bind (if round c =? buttons_size then Ok c
            else res_bind (round_chars buttons_size) (fun r =>
                   res_bind (create_static_text_box (glyphs a) 0 50 (fst r) (snd r)) (fun b =>
                     Ok (RoundCache buttons_size b))))
    (fun c => res_bind (draw_text_box (glyphs a) (transparency a) (round_text c) v) (fun v => Ok (c, v))).

(** ** Lemmas: the mouse *)

Definition mouse_in (m : mouse_state) : Prop := 0 <= x_pos m <= 758 /\ 0 <= y_pos m <= 556.

Lemma center_mouse_in : mouse_in center_mouse.
Proof. by vm_compute. Qed.

Lemma update_mouse_in p m : mouse_in m -> mouse_in (update_mouse p m).
Proof.
  intros [Hx Hy].
  assert (Hmx : 0 <= move_x p (x_pos m) <= 758).
  { unfold move_x. change (get_mode_width - MOUSE_WIDTH) with 758.
    split_ifs; rewrite ?u16_id; lia. }
  assert (Hmy : 0 <= move_y p (y_pos m) <= 556).
  { unfold move_y. change (get_mode_height - MOUSE_HEIGHT) with 556.
    split_ifs; rewrite ?u16_id; lia. }
  unfold update_mouse, mouse_in. destruct (lb p), (left_hold m); done.
Qed.

(** ** Lemmas: the block *)

Lemma holds_malloc n : 0 <= n -> holds (malloc_block n) [] n.
Proof. intros Hn. split; [done |]. unfold malloc_block, zlen. cbn. by rewrite Z.sub_0_r. Qed.

Lemma holds_get b s n i c : holds b s n -> s !! i = Some c -> block_get b (Z.of_nat i) = Ok c.
Proof.
  intros [_ ->] Hi. unfold block_get. rewrite arr_get_lookup, lookup_app_l.
  - by rewrite list_lookup_fmap, Hi.
  - rewrite length_map. by eapply lookup_lt_Some.
Qed.

Lemma holds_add b s n c :
  holds b s n -> zlen s < n -> exists b', block_set b (zlen s) c = Ok b' /\ holds b' (s ++ [c]) n.
Proof.
  intros [_ ->] Hn. unfold block_set.
  assert (Hl : zlen (map Some s ++ replicate (Z.to_nat (n - zlen s)) None) = n).
  { unfold zlen in *. rewrite length_app, length_map, length_replicate. lia. }
  rewrite arr_set_Some by (rewrite Hl; unfold zlen in *; lia).
  eexists. split; [done |]. unfold holds. unfold zlen in *. rewrite length_app. cbn [length].
  split; [lia |]. f_equal. rewrite Nat2Z.id.
  rewrite insert_app_r_alt by (rewrite length_map; lia). rewrite length_map, Nat.sub_diag.
  replace (Z.to_nat (n - Z.of_nat (length s))) with (S (Z.to_nat (n - Z.of_nat (length s + 1)))) by lia.
  rewrite map_app, <- app_assoc. done.
Qed.

Lemma holds_full b s n c : holds b s n -> zlen s = n -> block_set b (zlen s) c = Undef OutOfBounds.
Proof.
  intros [_ ->] Hn. unfold block_set. rewrite arr_set_None; [done |].
  unfold zlen in *. rewrite length_app, length_map, length_replicate. lia.
Qed.

Lemma holds_free b s n : holds b s n -> block_free b = Ok PFreed.
Proof. by intros [_ ->]. Qed.

(** ** Lemmas: the screen *)

Definition counter_ok (a : assets) (c : counter) : Prop :=
  previous_time c = -1 \/
  0 <= previous_time c <= 9 /\ glyph (glyphs a) (Number (previous_time c)) = Some (number c).

Lemma digit_prop d : 0 <= d <= 9 -> get_prop_from_char (ch "0" + d) = Number d.
Proof.
  intros Hd. unfold get_prop_from_char. chars.
  replace ((97 <=? 48 + d) && (48 + d <=? 122)) with false
    by (symmetry; apply andb_false_iff; rewrite !Z.leb_gt; lia).
  replace (48 + d =? 32) with false by (symmetry; apply Z.eqb_neq; lia).
  replace ((48 <=? 48 + d) && (48 + d <=? 57)) with true
    by (symmetry; apply andb_true_iff; rewrite !Z.leb_le; lia).
  f_equal. lia.
Qed.

(** The cache of [draw_counter] is transparent: the digit of the time left is
    drawn, and drawn safely. *)
Lemma draw_counter_cached a t c v :
  assets_ok a -> screen_ok v -> counter_ok a c -> t <= 9 ->
  exists c' v', draw_counter_of a t c v = Ok (c', v') /\ same_mode v v' /\ counter_ok a c' /\
    draw_prop a (Number (Z.max 0 t)) 700 0 v = Ok v'.
Proof.
  intros Ha Hv Hc Ht. unfold draw_counter_of.
  assert (Hm : (if 0 <? t then t else 0) = Z.max 0 t) by (destruct (Z.ltb_spec 0 t); lia).
  rewrite Hm. set (d := Z.max 0 t). assert (Hd : 0 <= d <= 9) by lia.
  pose proof (ok_glyphs a Ha) as (_ & Hn & _).
  destruct (arr_get_Some (numbers (glyphs a)) d) as [g Hg]; [lia |].
  assert (Hdraw : exists v', draw_prop a (Number d) 700 0 v = Ok v' /\ same_mode v v').
  { apply draws_prop; [done | by exists g | lia | lia | done]. }
  destruct Hdraw as (v' & Hd1 & Hd2). unfold draw_prop in Hd1 |- *. cbn [glyph] in Hd1 |- *. rewrite Hg in Hd1 |- *.
  rewrite digit_prop by done. cbn [glyph]. rewrite Hg.
  destruct (Z.eqb_spec (previous_time c) d) as [Heq | Hne]; cbn [res_bind].
  - assert (Hnum : number c = g).
    { destruct Hc as [Hc | [_ Hc]]; [lia |]. cbn [glyph] in Hc. rewrite Heq, Hg in Hc. by injection Hc. }
    rewrite Hnum, Hd1. cbn. by exists c, v'.
  - cbn [number]. rewrite Hd1. cbn. eexists _, v'. split; [done |]. split; [done |]. split; [| done].
    right. cbn [previous_time number glyph]. by rewrite Hg.
Qed.

Lemma counter_init_ok a : counter_ok a counter_init.
Proof. by left. Qed.

(** The digits of the round, for every round of at most three digits. *)
Definition round_check (n : Z) : bool :=
  match round_chars n with
  | Ok (chars, k) => bool_decide (take (Z.to_nat k) chars = print_d n) && (k =? zlen (print_d n)) && (zlen chars =? 3)
  | Undef _ => false
  end.

Lemma round_check_all : forallb round_check (map Z.of_nat (seq 0 1000)) = true.
Proof. by vm_compute. Qed.

Lemma round_chars_small n :
  0 <= n <= 999 ->
  exists chars, round_chars n = Ok (chars, zlen (print_d n)) /\
    take (length (print_d n)) chars = print_d n /\ zlen chars = 3.
Proof.
  intros Hn. pose proof round_check_all as Hall. rewrite forallb_forall in Hall.
  assert (Hc : round_check n = true).
  { apply Hall. apply in_map_iff. exists (Z.to_nat n). split; [lia |]. apply in_seq. lia. }
  unfold round_check in Hc. destruct (round_chars n) as [[chars k] |]; [| done].
  unbool. apply bool_decide_eq_true in H. subst k. exists chars. split; [done |]. split; [| done].
  unfold zlen in H. by rewrite Nat2Z.id in H.
Qed.

Lemma round_chars_large n : 1000 <= n -> round_chars n = Undef OutOfBounds.
Proof.
  intros Hn. unfold round_chars. cbn [round_digits].
  assert (H1 : n / 10 / 10 / 10 >= 1) by zlia.
  replace (0 <? n) with true by (symmetry; apply Z.ltb_lt; lia).
  replace (0 <? n / 10) with true by (symmetry; apply Z.ltb_lt; zlia).
  replace (0 <? n / 10 / 10) with true by (symmetry; apply Z.ltb_lt; zlia).
  replace (0 <? n / 10 / 10 / 10) with true by (symmetry; apply Z.ltb_lt; lia).
  done.
Qed.

(** A static text box: all its characters fit next to each other. *)
Record static_box (x y : Z) (s : list Z) (n : Z) (b : text_box) : Prop := {
  sb_size : char_size b = zlen s;
  sb_max : char_max_size b = n;
  sb_cells : take (length s) (char_prop b) = map (fun c => Some (get_prop_from_char c)) s;
  sb_array : zlen (char_prop b) = MAX_TEXT_BOX_SIZE;
  sb_xi : xi b = x;
  sb_yi : yi b = y;
  sb_maxx : max_x b = 65535;
  sb_cursor : cursor_x b = x + 42 * zlen s
}.

Lemma static_add im x y s n b c :
  images_42 im -> 0 <= x <= 10000 -> static_box x y s n b -> c <> ch "/" ->
  zlen s < n -> n <= MAX_TEXT_BOX_SIZE ->
  exists b', add_to_text_box im c b = Ok (true, b') /\ static_box x y (s ++ [c]) n b'.
Proof.
  intros Him Hx Hb Hc Hs Hn. unfold add_to_text_box, MAX_TEXT_BOX_SIZE in *.
  rewrite (sb_size _ _ _ _ _ Hb), (sb_max _ _ _ _ _ Hb).
  replace (zlen s =? n) with false by (symmetry; apply Z.eqb_neq; lia).
  destruct (glyph_large_42 im c Him Hc) as (g & Hg & Hw). rewrite Hg, Hw, (sb_maxx _ _ _ _ _ Hb),
    (sb_cursor _ _ _ _ _ Hb), (sb_xi _ _ _ _ _ Hb).
  unfold glyph_width. assert (0 <= zlen s) by (unfold zlen; lia).
  replace (65535 <? x + 42 * zlen s + 42) with false by (symmetry; apply Z.ltb_ge; lia).
  pose proof (sb_array _ _ _ _ _ Hb) as Ha. unfold MAX_TEXT_BOX_SIZE in Ha.
  unfold push_prop. rewrite (sb_size _ _ _ _ _ Hb), arr_set_Some by lia.
  eexists. split; [done |]. rewrite u16_id by lia.
  assert (Hzl : zlen (s ++ [c]) = zlen s + 1) by (unfold zlen; rewrite length_app; cbn; lia).
  constructor; cbn [char_size char_max_size char_prop xi yi cursor_x min_x max_x];
    rewrite ?Hzl, ?zlen_insert; try lia; try (apply Hb).
  rewrite length_app, map_snoc, <- (sb_cells _ _ _ _ _ Hb). cbn [length].
  unfold zlen in *. rewrite Nat2Z.id, Nat.add_1_r, (take_S_r _ _ (Some (get_prop_from_char c))).
  - rewrite take_insert_ge by lia. done.
  - apply list_lookup_insert_eq. lia.
Qed.

Lemma static_add_all im x y s t n b :
  images_42 im -> 0 <= x <= 10000 -> static_box x y s n b -> Forall (fun c => c <> ch "/") t ->
  zlen (s ++ t) <= n -> n <= MAX_TEXT_BOX_SIZE ->
  exists b', add_all im t b = Ok b' /\ static_box x y (s ++ t) n b'.
Proof.
  intros Him Hx Hb Ht Hl Hn. revert s b Hb Hl.
  induction Ht as [| c t Hc Ht IH]; intros s b Hb Hl; cbn [add_all].
  - exists b. rewrite app_nil_r. done.
  - assert (Hs : zlen s < n) by (unfold zlen in *; rewrite length_app in Hl; cbn in Hl; lia).
    destruct (static_add im x y s n b c Him Hx Hb Hc Hs Hn) as (b1 & Ha & Hb1).
    rewrite Ha. cbn [res_bind snd]. destruct (IH (s ++ [c]) b1 Hb1) as (b2 & Ha2 & Hb2);
      [by rewrite <- app_assoc |].
    exists b2. rewrite <- app_assoc in Hb2. done.
Qed.

Lemma static_holds x y s n b : Forall (fun c => c <> ch "/") s -> static_box x y s n b -> box_holds s b.
Proof. intros Hs Hb. constructor; [apply Hb | apply Hb | done]. Qed.

Definition round_ok (c : round_cache) : Prop :=
  round c = -1 \/
  0 <= round c <= 999 /\ static_box 0 50 (print_d (round c)) (zlen (print_d (round c))) (round_text c).

Lemma round_init_ok : round_ok round_init.
Proof. by left. Qed.

Lemma print_d_chars n : 0 <= n <= 999 ->
  Forall (fun c => c <> ch "/") (print_d n) /\ (1 <= length (print_d n) <= 3)%nat.
Proof.
  intros Hn. unfold print_d. destruct (Z.ltb_spec n 0); [lia |].
  destruct (digits_spec 10 n) as [_ Hd]; [lia | lia |]. split.
  - eapply Forall_impl; [exact Hd |]. chars. cbn. lia.
  - pose proof (digits_length 10 3 n ltac:(lia) ltac:(lia)).
    pose proof (digits_nonempty 10 n ltac:(lia)). destruct (digits 10 n); cbn in *; [done | lia].
Qed.

(** [draw_round] keeps the text box of the current round: the decimal digits of
    the round, drawn safely. *)
Definition round_row (n : Z) : list sprite := row (map get_prop_from_char (print_d n)) 0 50 glyph_width.

Lemma round_box_cached a n c :
  assets_ok a -> round_ok c -> 0 <= n <= 999 ->
  exists c', (if round c =? n then Ok c
              else res_bind (round_chars n) (fun r =>
                     res_bind (create_static_text_box (glyphs a) 0 50 (fst r) (snd r)) (fun b =>
                       Ok (RoundCache n b)))) = Ok c' /\ round_ok c' /\ round c' = n.
Proof.
  intros Ha Hc Hn. destruct (print_d_chars n Hn) as [Hch Hlen].
  destruct (Z.eqb_spec (round c) n) as [Heq | Hne]; [by exists c |].
  destruct (round_chars_small n Hn) as (chars & Hr & Ht & Hl). rewrite Hr. cbn [res_bind fst snd].
  unfold create_static_text_box.
  replace (zlen chars <? zlen (print_d n)) with false by (symmetry; apply Z.ltb_ge; unfold zlen in *; lia).
  unfold zlen at 1. rewrite Nat2Z.id, Ht.
  assert (H20 : zlen (print_d n) <= MAX_TEXT_BOX_SIZE) by (unfold zlen, MAX_TEXT_BOX_SIZE; lia).
  assert (H0 : static_box 0 50 [] (zlen (print_d n))
                 (create_writeable_text_box 0 50 0 65535 (zlen (print_d n)))) by (by constructor).
  destruct (static_add_all (glyphs a) 0 50 [] (print_d n) (zlen (print_d n)) _
              (ok_width a Ha) ltac:(lia) H0 Hch (Z.le_refl _) H20) as (b & Hb & Hs).
  rewrite Hb. cbn [res_bind]. eexists. split; [done |]. split; [| done]. by right.
Qed.

Lemma draw_round_cached a n c v :
  assets_ok a -> screen_ok v -> round_ok c -> 0 <= n <= 999 ->
  exists c' v', draw_round_of a n c v = Ok (c', v') /\ same_mode v v' /\ round_ok c' /\
    round c' = n /\ drawn v' ~~ overlay a (round_row n) (drawn v).
Proof.
  intros Ha Hv Hc Hn. unfold draw_round_of. destruct (print_d_chars n Hn) as [Hch Hlen].
  destruct (round_box_cached a n c Ha Hc Hn) as (c' & Hb & Hok & Hround). rewrite Hb. cbn [res_bind].
  assert (Hs : static_box 0 50 (print_d n) (zlen (print_d n)) (round_text c'))
    by (rewrite <- Hround at 1 2; destruct Hok as [Hm | [_ Hs]]; [lia | done]).
  pose proof (sb_xi _ _ _ _ _ Hs) as Hx. pose proof (sb_yi _ _ _ _ _ Hs) as Hy.
  destruct (paints_text_box a (print_d n) (round_text c') Ha) with (v := v) as (v' & Hd & Hm & Hp); try lia; try done.
  - by eapply static_holds.
  - unfold zlen, MAX_TEXT_BOX_SIZE. lia.
  - rewrite Hd. cbn [res_bind]. rewrite Hx, Hy in Hp. by exists c', v'.
Qed.

(** A frame of a running game, on one computer or on two: the buttons, the
    player, the seconds left, the round and the cursor. *)
Definition playing_scene (ps : Play_Screens) (p1 : bool) (t n : Z) (m : mouse_state) : scene :=
  Scene (play_screen ps)
    ([Sprite (Number (if p1 then 1 else 2)) 0 0; Sprite (Number (Z.max 0 t)) 700 0] ++ round_row n ++
     [Sprite MouseImg (x_pos m) (y_pos m)]).

Lemma shows_player a ps (p1 : bool) :
  assets_ok a ->
  shows a (draw_screen a (play_screen ps) ;;
     (if p1 then draw_prop a (get_prop_from_char (ch "1")) 0 0 else draw_prop a (get_prop_from_char (ch "2")) 0 0))
    (Scene (play_screen ps) [Sprite (Number (if p1 then 1 else 2)) 0 0]).
Proof.
  intros Ha. pose proof (ok_glyphs a Ha) as (_ & Hg & _).
  apply shows_then; [apply shows_screen; [done | by destruct ps] |].
  destruct p1; apply paints_prop; try done; apply arr_get_Some; rewrite Hg; by vm_compute.
Qed.

Lemma frame_drawn a ps (p1 : bool) t n m c r v :
  assets_ok a -> screen_ok v -> counter_ok a c -> round_ok r -> t <= 9 -> 0 <= n <= 999 -> mouse_in m ->
  exists v1 c' v2 r' v3 v4,
    (draw_screen a (play_screen ps) ;;
     (if p1 then draw_prop a (get_prop_from_char (ch "1")) 0 0 else draw_prop a (get_prop_from_char (ch "2")) 0 0)) v = Ok v1 /\
    draw_counter_of a t c v1 = Ok (c', v2) /\ draw_round_of a n r v2 = Ok (r', v3) /\
    draw_prop a get_mouse (x_pos m) (y_pos m) v3 = Ok v4 /\
    screen_ok v4 /\ video_mem v4 = video_mem v /\ counter_ok a c' /\ round_ok r' /\ round r' = n /\
    drawn v4 ~~ render a (playing_scene ps p1 t n m).
Proof.
  intros Ha Hv Hc Hr Ht Hn [Hx Hy].
  destruct (shows_player a ps p1 Ha v Hv) as (v1 & Hd1 & Hm1 & Hp1). pose proof (screen_ok_same _ _ Hv Hm1) as Hv1.
  destruct (draw_counter_cached a t c v1 Ha Hv1 Hc Ht) as (c' & v2 & Hd2 & Hm2 & Hc' & Hp2).
  pose proof (screen_ok_same _ _ Hv1 Hm2) as Hv2.
  assert (Hpic2 : drawn v2 ~~ over a (drawn v1) (Sprite (Number (Z.max 0 t)) 700 0)).
  { destruct (paints_prop a (Number (Z.max 0 t)) 700 0 Ha) with (v := v1) as (v2' & Hd & _ & Hpic); try lia; try done.
    - pose proof (ok_glyphs a Ha) as (_ & Hg & _). apply arr_get_Some. lia.
    - rewrite Hp2 in Hd. apply Ok_inj in Hd. by subst. }
  destruct (draw_round_cached a n r v2 Ha Hv2 Hr Hn) as (r' & v3 & Hd3 & Hm3 & Hr' & Hrn & Hp3).
  pose proof (screen_ok_same _ _ Hv2 Hm3) as Hv3.
  destruct (paints_prop a get_mouse (x_pos m) (y_pos m) Ha) with (v := v3) as (v4 & Hd4 & Hm4 & Hp4); [by eexists | lia | lia | done |].
  exists v1, c', v2, r', v3, v4. split_and!; try done.
  - by eapply screen_ok_same.
  - destruct Hm1 as (_ & _ & _ & _ & ? & _), Hm2 as (_ & _ & _ & _ & ? & _),
      Hm3 as (_ & _ & _ & _ & ? & _), Hm4 as (_ & _ & _ & _ & ? & _). congruence.
  - rewrite Hp4, Hp3, Hpic2, Hp1. unfold render, playing_scene. cbn [sprites backdrop app].
    change (?s1 :: ?s2 :: ?rest) with ([s1] ++ [s2] ++ rest). by rewrite !overlay_app.
Qed.

(** The screen of the winner. *)
Lemma winner_drawn a w v :
  assets_ok a -> screen_ok v ->
  exists v', draw_screen a (winner_screen w) v = Ok v' /\ screen_ok v' /\ video_mem v' = video_mem v /\
    drawn v' ~~ render a (Scene (winner_screen w) []).
Proof.
  intros Ha Hv. destruct (shows_screen a (winner_screen w) Ha) with (v := v) as (v' & Hd & Hm & Hp); [by destruct w | done |].
  exists v'. split; [done |]. split; [by eapply screen_ok_same |]. split; [apply Hm | done].
Qed.
