(* ===== verification/Game.v ===== *)
(** [game.c]: the game on one computer. *)

From stdpp Require Import base tactics list.
From Stdlib Require Import ZArith Lia Ascii.
From S2P Require Import Prelude Consts Keyboard Mouse NumLetters Vc Screen Pad.

(** ** The interface

    What the game uses of the other files: the mode, the alarms of [rtc.c], the
    lowest score of [leaderboard.c], the entry of [highscore.c], and [rand]. *)

Class GameEnv (E : Type) := {
  g_set_mode : Game_Modes -> E -> E;
  g_set_timed_alarm : Z -> E -> E;
  g_set_seconds_alarm : E -> E;
  g_getLowestHiScore : E -> res Z;
  g_reset_hiscore : Z -> E -> res E;
  g_rand : E -> Z * E
}.

(** ** The statics of [game.h] *)

Record gst := Gst {
  ws : Winners;
  buttons : block;
  ps : Play_Screens;
  mouse : mouse_state;
  buttons_size : Z;
  player_score : Z;
  max_buttons_size : Z;
  is_player_1 : bool;
  guessed : Z;
  time_left_for_click : Z;
  game_end : bool;
  VS_was_pressed : bool;
  is_vs_round : bool
}.

Definition set_ws (x : Winners) (g : gst) : gst :=
  Gst x (buttons g) (ps g) (mouse g) (buttons_size g) (player_score g) (max_buttons_size g)
    (is_player_1 g) (guessed g) (time_left_for_click g) (game_end g) (VS_was_pressed g)
    (is_vs_round g).
Definition set_buttons (x : block) (g : gst) : gst :=
  Gst (ws g) x (ps g) (mouse g) (buttons_size g) (player_score g) (max_buttons_size g)
    (is_player_1 g) (guessed g) (time_left_for_click g) (game_end g) (VS_was_pressed g)
    (is_vs_round g).
Definition set_ps (x : Play_Screens) (g : gst) : gst :=
  Gst (ws g) (buttons g) x (mouse g) (buttons_size g) (player_score g) (max_buttons_size g)
    (is_player_1 g) (guessed g) (time_left_for_click g) (game_end g) (VS_was_pressed g)
    (is_vs_round g).
Definition set_mouse (x : mouse_state) (g : gst) : gst :=
  Gst (ws g) (buttons g) (ps g) x (buttons_size g) (player_score g) (max_buttons_size g)
    (is_player_1 g) (guessed g) (time_left_for_click g) (game_end g) (VS_was_pressed g)
    (is_vs_round g).
Definition set_buttons_size (x : Z) (g : gst) : gst :=
  Gst (ws g) (buttons g) (ps g) (mouse g) x (player_score g) (max_buttons_size g)
    (is_player_1 g) (guessed g) (time_left_for_click g) (game_end g) (VS_was_pressed g)
    (is_vs_round g).
Definition set_player_score (x : Z) (g : gst) : gst :=
  Gst (ws g) (buttons g) (ps g) (mouse g) (buttons_size g) x (max_buttons_size g)
    (is_player_1 g) (guessed g) (time_left_for_click g) (game_end g) (VS_was_pressed g)
    (is_vs_round g).
Definition set_max_buttons_size (x : Z) (g : gst) : gst :=
  Gst (ws g) (buttons g) (ps g) (mouse g) (buttons_size g) (player_score g) x (is_player_1
    g) (guessed g) (time_left_for_click g) (game_end g) (VS_was_pressed g) (is_vs_round g).
Definition set_is_player_1 (x : bool) (g : gst) : gst :=
  Gst (ws g) (buttons g) (ps g) (mouse g) (buttons_size g) (player_score g)
    (max_buttons_size g) x (guessed g) (time_left_for_click g) (game_end g) (VS_was_pressed
    g) (is_vs_round g).
Definition set_guessed (x : Z) (g : gst) : gst :=
  Gst (ws g) (buttons g) (ps g) (mouse g) (buttons_size g) (player_score g)
    (max_buttons_size g) (is_player_1 g) x (time_left_for_click g) (game_end g)
    (VS_was_pressed g) (is_vs_round g).
Definition set_time_left_for_click (x : Z) (g : gst) : gst :=
  Gst (ws g) (buttons g) (ps g) (mouse g) (buttons_size g) (player_score g)
    (max_buttons_size g) (is_player_1 g) (guessed g) x (game_end g) (VS_was_pressed g)
    (is_vs_round g).
Definition set_game_end (x : bool) (g : gst) : gst :=
  Gst (ws g) (buttons g) (ps g) (mouse g) (buttons_size g) (player_score g)
    (max_buttons_size g) (is_player_1 g) (guessed g) (time_left_for_click g) x
    (VS_was_pressed g) (is_vs_round g).
Definition set_VS_was_pressed (x : bool) (g : gst) : gst :=
  Gst (ws g) (buttons g) (ps g) (mouse g) (buttons_size g) (player_score g)
    (max_buttons_size g) (is_player_1 g) (guessed g) (time_left_for_click g) (game_end g) x
    (is_vs_round g).
Definition set_is_vs_round (x : bool) (g : gst) : gst :=
  Gst (ws g) (buttons g) (ps g) (mouse g) (buttons_size g) (player_score g)
    (max_buttons_size g) (is_player_1 g) (guessed g) (time_left_for_click g) (game_end g)
    (VS_was_pressed g) x.

(** Before the first game. *)
Definition gst_init : gst :=
  Gst WINNER1 PNull DEFAULT (MouseState 0 0 false false) 0 0 0 false 0 0 false false false.

(** ** The operations *)

Section Game.
Context {E : Type} `{GE : GameEnv E}.

Definition get_red_click (g : gst) : bool := in_circle RED_X RED_Y (mouse g).
Definition get_green_click (g : gst) : bool := in_circle GREEN_X GREEN_Y (mouse g).
Definition get_purple_click (g : gst) : bool := in_circle PURPLE_X PURPLE_Y (mouse g).
Definition get_blue_click (g : gst) : bool := in_circle BLUE_X BLUE_Y (mouse g).
Definition get_yellow_click (g : gst) : bool := in_circle YELLOW_X YELLOW_Y (mouse g).
Definition get_vs_click (g : gst) : bool := in_circle VS_X VS_Y (mouse g).

Definition get_button_click (g : gst) : button_click_t :=
  if get_red_click g then RED_B
  else if get_green_click g then GREEN_B
  else if get_purple_click g then PURPLE_B
  else if get_blue_click g then BLUE_B
  else if get_yellow_click g then YELLOW_B
  else if get_vs_click g then VS_B
  else NO_BUTTON.

Definition is_VS_round : M gst E unit :=
  let* r := env g_rand in
  let random := r mod 10 in
  do* modify (set_VS_was_pressed false) in
  modify (set_is_vs_round (random mod 2 =? 0)).

Definition get_winner : M gst E unit :=
  modify (fun g => set_ws (if is_player_1 g then WINNER2 else WINNER1) g).

Definition get_max_buttons_size : M gst E Z := gets max_buttons_size.

Definition end_game : M gst E unit :=
  do* modify (set_game_end true) in
  let* b := gets buttons in
  let* b := lift (block_free b) in
  do* modify (set_buttons b) in
  env_ (g_set_timed_alarm 5).

Definition checkNewHiScore : M gst E unit :=
  let* score := gets player_score in
  let* low := (fun s => lift (g_getLowestHiScore (snd s)) s) in
  if low <? score
  then do* env_ (g_set_mode HIGHSCORE) in env_res (g_reset_hiscore score)
  else env_ (g_set_mode LEADERBOARD).

(** [buttons[buttons_size] = click; buttons_size++;] *)
Definition push_button (click : button_click_t) : M gst E unit :=
  let* g := gets id in
  let* b := lift (block_set (buttons g) (buttons_size g) click) in
  do* modify (set_buttons b) in
  modify (set_buttons_size (buttons_size g + 1)).

Definition flip_player : M gst E unit :=
  modify (fun g => set_is_player_1 (negb (is_player_1 g)) g).

Definition click_button (click : button_click_t) : M gst E unit :=
  if button_eqb click NO_BUTTON
  then modify (fun g => set_mouse (set_left_click false (mouse g)) g)
  else
    let* g := gets id in
    if (guessed g =? buttons_size g) || VS_was_pressed g then
      do* when (guessed g =? buttons_size g) (modify (set_player_score (buttons_size g))) in
      if guessed g =? max_buttons_size g then
        do* modify (set_ws TIE) in
        end_game
      else if is_vs_round g then
        if button_eqb click VS_B && negb (VS_was_pressed g) then
          do* modify (set_VS_was_pressed true) in
          do* push_button click in
          modify (set_time_left_for_click VS_INTERVAL)
        else
          do* push_button click in
          do* modify (set_guessed 0) in
          when (negb (VS_was_pressed g))
            (do* flip_player in
             do* is_VS_round in
             modify (set_time_left_for_click INTERVAL))
      else
        do* push_button click in
        do* modify (set_guessed 0) in
        when (negb (VS_was_pressed g))
          (do* flip_player in
           do* modify (set_time_left_for_click INTERVAL) in
           is_VS_round)
    else
      let* b := lift (block_get (buttons g) (guessed g)) in
      if button_eqb b click then
        do* modify (set_guessed (guessed g + 1)) in
        modify (set_time_left_for_click (if guessed g + 1 =? buttons_size g then -1 else INTERVAL))
      else
        do* get_winner in
        end_game.

Definition light_button (click : button_click_t) : M gst E unit :=
  modify (fun g => set_ps
    match click with
    | GREEN_B => GREEN
    | YELLOW_B => YELLOW
    | PURPLE_B => PURPLE
    | BLUE_B => BLUE
    | RED_B => RED
    | VS_B => if VS_was_pressed g && (time_left_for_click g =? VS_INTERVAL) then VS else WHITE
    | NO_BUTTON => DEFAULT
    end g).

Definition game_update_status_mouse (mouse_packet : packet) : M gst E unit :=
  let* ended := gets game_end in
  if ended then skip
  else
    do* modify (fun g => set_mouse (update_mouse mouse_packet (mouse g)) g) in
    let* g := gets id in
    let click := if left_click (mouse g) then get_button_click g else NO_BUTTON in
    do* click_button click in
    light_button click.

Definition game_update_status_key (k : key_press) : M gst E unit :=
  let* g := gets id in
  when (game_end g)
    (when (key k =? ENTER)
       (if winner_eqb (ws g) TIE then env_ (g_set_mode LEADERBOARD) else checkNewHiScore)).

Definition game_update_status_timer : M gst E unit :=
  modify (fun g => set_mouse (set_left_click false (mouse g)) g).

(** The two halves of [game_update_status_rtc]: the clock of the player, and
    leaving the winner screen. *)
Definition rtc_clock : M gst E unit :=
  let* g := gets id in
  if (time_left_for_click g =? 0) && negb (VS_was_pressed g) then
    do* get_winner in end_game
  else if (time_left_for_click g =? 0) && is_vs_round g && VS_was_pressed g then
    do* flip_player in
    do* modify (set_time_left_for_click INTERVAL) in
    is_VS_round
  else if 0 <? time_left_for_click g then
    modify (set_time_left_for_click (time_left_for_click g - 1))
  else skip.

Definition rtc_leave : M gst E unit :=
  let* g := gets id in
  when (game_end g)
    (do* env_ g_set_seconds_alarm in
     if winner_eqb (ws g) TIE then env_ (g_set_mode LEADERBOARD) else checkNewHiScore).

Definition game_update_status_rtc : M gst E unit :=
  do* rtc_clock in rtc_leave.

Definition reset_game (num_rounds : Z) : M gst E unit :=
  do* modify (set_mouse center_mouse) in
  do* modify (set_max_buttons_size num_rounds) in
  do* modify (set_buttons (malloc_block num_rounds)) in
  do* modify (set_buttons_size 0) in
  do* modify (set_player_score 0) in
  do* modify (set_guessed 0) in
  do* modify (set_is_player_1 true) in
  do* modify (set_game_end false) in
  do* modify (set_ps DEFAULT) in
  do* modify (set_time_left_for_click (-1)) in
  do* is_VS_round in
  modify (set_VS_was_pressed false).
End Game.

(** ** The screen *)

(** The statics of the drawing functions. *)
Record gdraw := GDraw { g_counter : counter; g_round : round_cache }.
Definition gdraw_init : gdraw := GDraw counter_init round_init.

Definition draw_winner_graphics (a : assets) (g : gst) : vc -> res vc := draw_screen a (winner_screen (ws g)).
Definition draw_buttons (a : assets) (g : gst) : vc -> res vc := draw_screen a (play_screen (ps g)).
Definition print_player1 (a : assets) : vc -> res vc := draw_prop a (get_prop_from_char (ch "1")) 0 0.
Definition print_player2 (a : assets) : vc -> res vc := draw_prop a (get_prop_from_char (ch "2")) 0 0.
Definition draw_player (a : assets) (g : gst) : vc -> res vc :=
  if is_player_1 g then print_player1 a else print_player2 a.
Definition draw_counter (a : assets) (g : gst) (c : counter) (v : vc) : res (counter * vc) :=
  draw_counter_of a (time_left_for_click g) c v.
Definition draw_round (a : assets) (g : gst) (c : round_cache) (v : vc) : res (round_cache * vc) :=
  draw_round_of a (buttons_size g) c v.
Definition draw_mouse (a : assets) (g : gst) : vc -> res vc :=
  draw_prop a get_mouse (x_pos (mouse g)) (y_pos (mouse g)).
Definition debugging (a : assets) (i : Z) : vc -> res vc :=
  draw_prop a (get_prop_from_char (ch "0")) 200 (200 + i * 40).

Definition draw_game_graphics (a : assets) (g : gst) (d : gdraw) (v : vc) : res (gdraw * vc) :=
  if negb (game_end g) then
    res_bind ((draw_buttons a g ;; draw_player a g) v) (fun v =>
    res_bind (draw_counter a g (g_counter d) v) (fun rc =>
    res_bind (draw_round a g (g_round d) (snd rc)) (fun rr =>
    res_bind (draw_mouse a g (snd rr)) (fun v =>
      Ok (GDraw (fst rc) (fst rr), v)))))
  else res_bind (draw_winner_graphics a g v) (fun v => Ok (d, v)).
