(* ===== verification/Says.v ===== *)
(** Simon says: the abstract game, and the refinement theorem that [game.c]
    plays it.

    The abstract game keeps the sequence as a list and the course of the game
    as a value; no memory is managed.  It says [Undef] in two situations, where
    the program overflows its block or frees it twice. *)

From stdpp Require Import base tactics list.
From Stdlib Require Import ZArith Lia Ascii.
From S2P Require Import Prelude Consts Keyboard Mouse NumLetters Vc Screen Pad Game.

(** ** The abstract game

    [pos] buttons of [seq] have been repeated by the player of the [turn]
    (player 1 when true); in a round with [vs_round] the VS button opens an
    interval in which buttons are added without limit ([vs_open]); [clock] is
    the number of seconds left, negative when there is no limit. *)

Record simon := Simon {
  seq : list button_click_t;
  pos : nat;
  turn : bool;
  vs_open : bool;
  vs_round : bool;
  over : option Winners;
  clock : Z;
  score : Z;
  rounds : Z;
  lit : Play_Screens;
  cursor : mouse_state
}.

Definition set_seq (x : list button_click_t) (s : simon) : simon :=
  Simon x (pos s) (turn s) (vs_open s) (vs_round s) (over s) (clock s) (score s) (rounds s)
    (lit s) (cursor s).
Definition set_pos (x : nat) (s : simon) : simon :=
  Simon (seq s) x (turn s) (vs_open s) (vs_round s) (over s) (clock s) (score s) (rounds s)
    (lit s) (cursor s).
Definition set_turn (x : bool) (s : simon) : simon :=
  Simon (seq s) (pos s) x (vs_open s) (vs_round s) (over s) (clock s) (score s) (rounds s)
    (lit s) (cursor s).
Definition set_vs_open (x : bool) (s : simon) : simon :=
  Simon (seq s) (pos s) (turn s) x (vs_round s) (over s) (clock s) (score s) (rounds s) (lit
    s) (cursor s).
Definition set_vs_round (x : bool) (s : simon) : simon :=
  Simon (seq s) (pos s) (turn s) (vs_open s) x (over s) (clock s) (score s) (rounds s) (lit
    s) (cursor s).
Definition set_over (x : option Winners) (s : simon) : simon :=
  Simon (seq s) (pos s) (turn s) (vs_open s) (vs_round s) x (clock s) (score s) (rounds s)
    (lit s) (cursor s).
Definition set_clock (x : Z) (s : simon) : simon :=
  Simon (seq s) (pos s) (turn s) (vs_open s) (vs_round s) (over s) x (score s) (rounds s)
    (lit s) (cursor s).
Definition set_score (x : Z) (s : simon) : simon :=
  Simon (seq s) (pos s) (turn s) (vs_open s) (vs_round s) (over s) (clock s) x (rounds s)
    (lit s) (cursor s).
Definition set_rounds (x : Z) (s : simon) : simon :=
  Simon (seq s) (pos s) (turn s) (vs_open s) (vs_round s) (over s) (clock s) (score s) x
    (lit s) (cursor s).
Definition set_lit (x : Play_Screens) (s : simon) : simon :=
  Simon (seq s) (pos s) (turn s) (vs_open s) (vs_round s) (over s) (clock s) (score s)
    (rounds s) x (cursor s).
Definition set_cursor (x : mouse_state) (s : simon) : simon :=
  Simon (seq s) (pos s) (turn s) (vs_open s) (vs_round s) (over s) (clock s) (score s)
    (rounds s) (lit s) x.

Definition opponent (t : bool) : Winners := if t then WINNER2 else WINNER1.

Section Spec.
Context {E : Type} `{GE : GameEnv E}.

Definition sp_draw_vs : M simon E unit :=
  let* r := env g_rand in
  do* modify (set_vs_open false) in
  modify (set_vs_round ((r mod 10) mod 2 =? 0)).

Definition sp_finish (w : Winners) : M simon E unit :=
  do* modify (set_over (Some w)) in env_ (g_set_timed_alarm 5).

Definition sp_append (c : button_click_t) : M simon E unit :=
  modify (fun s => set_seq (seq s ++ [c]) s).

Definition sp_pass_turn : M simon E unit :=
  do* modify (fun s => set_turn (negb (turn s)) s) in
  do* modify (set_clock INTERVAL) in
  sp_draw_vs.

(** A button is pressed. *)
Definition sp_press (c : button_click_t) : M simon E unit :=
  let* s := gets id in
  if vs_open s then
    if zlen (seq s) =? rounds s then undef OutOfBounds
    else do* sp_append c in modify (set_pos O)
  else
    match seq s !! pos s with
    | Some b =>
        if bool_decide (b = c) then
          do* modify (set_pos (S (pos s))) in
          modify (set_clock (if decide (S (pos s) = length (seq s)) then -1 else INTERVAL))
        else sp_finish (opponent (turn s))
    | None =>
        do* modify (set_score (zlen (seq s))) in
        if zlen (seq s) =? rounds s then sp_finish TIE
        else if vs_round s && bool_decide (c = VS_B) then
          do* modify (set_vs_open true) in
          do* sp_append c in
          modify (set_clock VS_INTERVAL)
        else
          do* sp_append c in
          do* modify (set_pos O) in
          sp_pass_turn
    end.

Definition sp_light (c : button_click_t) (s : simon) : Play_Screens :=
  match c with
  | GREEN_B => GREEN | YELLOW_B => YELLOW | PURPLE_B => PURPLE | BLUE_B => BLUE | RED_B => RED
  | VS_B => if vs_open s && (clock s =? VS_INTERVAL) then VS else WHITE
  | NO_BUTTON => DEFAULT
  end.

(** A mouse packet: nothing once the game is over. *)
Definition sp_mouse (p : packet) : M simon E unit :=
  let* s := gets id in
  match over s with
  | Some _ => skip
  | None =>
      let m := update_mouse p (cursor s) in
      let c := if left_click m then button_at m else NO_BUTTON in
      do* modify (set_cursor m) in
      do* (if bool_decide (c = NO_BUTTON)
           then modify (set_cursor (set_left_click false m)) else sp_press c) in
      modify (fun s => set_lit (sp_light c s) s)
  end.

(** Leaving the winner screen. *)
Definition sp_leave (w : Winners) : M simon E unit :=
  match w with
  | TIE => env_ (g_set_mode LEADERBOARD)
  | _ =>
      let* s := gets id in
      let* low := (fun se => lift (g_getLowestHiScore (snd se)) se) in
      if low <? score s
      then do* env_ (g_set_mode HIGHSCORE) in env_res (g_reset_hiscore (score s))
      else env_ (g_set_mode LEADERBOARD)
  end.

(** A tick of the clock.  A player whose time is up loses and the winner
    screen is left at once; a tick after the end with the clock at zero is
    where the program frees its block again. *)
Definition sp_tick : M simon E unit :=
  let* s := gets id in
  match over s with
  | Some w =>
      if clock s =? 0 then undef DoubleFree
      else
        do* modify (set_clock (if 0 <? clock s then clock s - 1 else clock s)) in
        do* env_ g_set_seconds_alarm in
        sp_leave w
  | None =>
      if clock s =? 0 then
        if vs_open s then sp_pass_turn
        else
          do* sp_finish (opponent (turn s)) in
          do* env_ g_set_seconds_alarm in
          sp_leave (opponent (turn s))
      else modify (set_clock (if 0 <? clock s then clock s - 1 else clock s))
  end.

Definition sp_key (k : key_press) : M simon E unit :=
  let* s := gets id in
  match over s with
  | Some w => when (key k =? ENTER) (sp_leave w)
  | None => skip
  end.

Definition sp_timer : M simon E unit :=
  modify (fun s => set_cursor (set_left_click false (cursor s)) s).

(** The start of a game of [n] rounds. *)
Definition simon_start (n : Z) (vs : bool) : simon :=
  Simon [] O true false vs None (-1) 0 n DEFAULT center_mouse.

(** ** Events *)

Inductive event := EMouse (p : packet) | ETick | EKey (k : key_press) | ETimer.

Definition sp_event (ev : event) : M simon E unit :=
  match ev with
  | EMouse p => sp_mouse p | ETick => sp_tick | EKey k => sp_key k | ETimer => sp_timer
  end.

Definition game_event (ev : event) : M gst E unit :=
  match ev with
  | EMouse p => game_update_status_mouse p
  | ETick => game_update_status_rtc
  | EKey k => game_update_status_key k
  | ETimer => game_update_status_timer
  end.

Fixpoint run_events {X} (f : event -> M X E unit) (evs : list event) : M X E unit :=
  match evs with
  | [] => skip
  | ev :: evs => do* f ev in run_events f evs
  end.

(** ** The simulation relation *)

Record sim (s : simon) (g : gst) : Prop := Sim {
  sim_rounds : max_buttons_size g = rounds s;
  sim_rounds_pos : 1 <= rounds s;
  sim_size : buttons_size g = zlen (seq s);
  sim_fits : zlen (seq s) <= rounds s;
  sim_pos : guessed g = Z.of_nat (pos s);
  sim_pos_in : (pos s <= length (seq s))%nat;
  sim_turn : is_player_1 g = turn s;
  sim_vs_open : VS_was_pressed g = vs_open s;
  sim_vs_round : is_vs_round g = vs_round s;
  sim_clock : time_left_for_click g = clock s;
  sim_score : player_score g = score s;
  sim_lit : ps g = lit s;
  sim_cursor : mouse g = cursor s;
  sim_vs : vs_open s = true -> vs_round s = true /\ (pos s < length (seq s))%nat /\ over s = None;
  sim_over : match over s with
             | None => game_end g = false /\ holds (buttons g) (seq s) (rounds s)
             | Some w => game_end g = true /\ ws g = w /\ buttons g = PFreed
             end
}.
End Spec.

(** ** Simulation of the parts *)

Section Simulation.
Context {E : Type} `{GE : GameEnv E}.

Definition step_ok (s : simon) (g : gst) (e : E) (m : M simon E unit) (n : M gst E unit) : Prop :=
  match m (s, e) with
  | Ok (_, (s', e')) => exists g', n (g, e) = Ok (tt, (g', e')) /\ sim s' g'
  | Undef u => n (g, e) = Undef u
  end.

Lemma step_bind s g e m1 n1 m2 n2 :
  step_ok s g e m1 n1 ->
  (forall s' g' e', m1 (s, e) = Ok (tt, (s', e')) -> sim s' g' -> step_ok s' g' e' m2 n2) ->
  step_ok s g e (do* m1 in m2) (do* n1 in n2).
Proof.
  unfold step_ok, bind. intros H1 H2. destruct (m1 (s, e)) as [[[] [s' e']] | u]; [| by rewrite H1].
  destruct H1 as (g' & -> & Hs). cbn [fst snd]. by apply H2.
Qed.

(** The states that differ in the cursor and the light only. *)
Lemma step_light s g e c :
  sim s g -> step_ok s g e (modify (fun s => set_lit (sp_light c s) s)) (light_button c).
Proof.
  intros Hs. unfold step_ok, light_button, modify. cbn [fst snd]. eexists. split; [done |].
  destruct Hs. destruct s, g. cbn in *. subst. by constructor.
Qed.

Lemma step_cursor s g e f :
  sim s g ->
  step_ok s g e (modify (fun s => set_cursor (f (cursor s)) s)) (modify (fun g => set_mouse (f (mouse g)) g)).
Proof.
  intros Hs. unfold step_ok, modify. cbn [fst snd]. eexists. split; [done |].
  destruct Hs. destruct s, g. cbn in *. subst. by constructor.
Qed.

(** The end of the game. *)
Lemma step_finish s g e w :
  sim s g -> over s = None -> vs_open s = false ->
  step_ok s g e (sp_finish w) (do* modify (set_ws w) in end_game).
Proof.
  intros Hs Ho Hv. unfold step_ok, sp_finish, end_game. mrun.
  pose proof (sim_over _ _ Hs) as Hov. rewrite Ho in Hov. destruct Hov as [Hge Hh].
  destruct s, g. cbn in *. rewrite (holds_free _ _ _ Hh). mrun. eexists. split; [done |].
  destruct Hs. cbn in *. subst. constructor; cbn; try done.
Qed.

Lemma step_winner s g e :
  sim s g -> over s = None -> vs_open s = false ->
  step_ok s g e (sp_finish (opponent (turn s))) (do* get_winner in end_game).
Proof.
  intros Hs Ho Hv. pose proof (step_finish s g e (opponent (turn s)) Hs Ho Hv) as Hf.
  unfold step_ok in *. unfold get_winner. mrun. rewrite (sim_turn _ _ Hs). exact Hf.
Qed.

(** Leaving the winner screen. *)
Lemma step_leave s g e w :
  sim s g -> over s = Some w ->
  step_ok s g e (sp_leave w)
    (let* g := gets id in
     if winner_eqb (ws g) TIE then env_ (g_set_mode LEADERBOARD) else checkNewHiScore).
Proof.
  intros Hs Ho. pose proof (sim_over _ _ Hs) as Hov. rewrite Ho in Hov. destruct Hov as (_ & Hws & _).
  unfold step_ok, sp_leave, checkNewHiScore. mrun. unfold id. rewrite Hws.
  assert (Hw : winner_eqb w TIE = match w with TIE => true | _ => false end) by (by destruct w).
  rewrite Hw. destruct w.
  3: { eexists. by split. }
  all: mrun; unfold id; rewrite (sim_score _ _ Hs); destruct (g_getLowestHiScore e) as [low | u]; [| done]; mrun;
    destruct (low <? score s); mrun; [| eexists; by split];
    destruct (g_reset_hiscore _ _); [eexists; by split | done].
Qed.

(** Writing one more button. *)
Lemma push_ok g (e : E) c q n b' :
  block_set (buttons g) (zlen q) c = Ok b' -> buttons_size g = zlen q -> holds b' (q ++ [c]) n ->
  push_button c (g, e) = Ok (tt, (set_buttons_size (zlen q + 1) (set_buttons b' g), e)).
Proof. intros Hb Hsz Hh. unfold push_button. mrun. unfold id. by rewrite Hsz, Hb. Qed.

Lemma push_sim s g c :
  sim s g -> over s = None -> zlen (seq s) < rounds s ->
  exists b', block_set (buttons g) (zlen (seq s)) c = Ok b' /\ holds b' (seq s ++ [c]) (rounds s).
Proof.
  intros Hs Ho Hl. pose proof (sim_over _ _ Hs) as Hov. rewrite Ho in Hov. destruct Hov as [_ Hh].
  exact (holds_add _ _ _ c Hh Hl).
Qed.

Lemma button_eqb_spec b c : button_eqb b c = bool_decide (b = c).
Proof. done. Qed.

Lemma button_eqb_NO c : c <> NO_BUTTON -> button_eqb c NO_BUTTON = false.
Proof. intros Hc. by apply bool_decide_eq_false_2. Qed.

Ltac sim_done Hs s g :=
  destruct Hs; destruct s, g; cbn in *; subst; constructor; cbn;
  rewrite ?zlen_snoc, ?length_app; cbn; first
    [done | lia | intros _; split; [done | split; [lia | done]] | split; [tauto | done]].

(** While the interval of the VS button is open. *)
Lemma step_press_vs s g e c :
  sim s g -> over s = None -> vs_open s = true -> c <> NO_BUTTON ->
  step_ok s g e (sp_press c) (click_button c).
Proof.
  intros Hs Ho Hv Hc. destruct (sim_vs _ _ Hs Hv) as (Hr & Hp & _).
  assert (Hpos : (guessed g =? buttons_size g) = false).
  { rewrite (sim_pos _ _ Hs), (sim_size _ _ Hs). apply Z.eqb_neq. unfold zlen. lia. }
  assert (Hmax : (guessed g =? max_buttons_size g) = false).
  { rewrite (sim_pos _ _ Hs), (sim_rounds _ _ Hs). apply Z.eqb_neq.
    pose proof (sim_fits _ _ Hs). unfold zlen in *. lia. }
  unfold step_ok, sp_press, click_button. rewrite (button_eqb_NO c Hc).
  mrun. unfold id. rewrite Hv, Hpos, Hmax, (sim_vs_open _ _ Hs), (sim_vs_round _ _ Hs), Hv, Hr.
  cbn [orb negb]. rewrite andb_false_r.
  destruct (Z.eqb_spec (zlen (seq s)) (rounds s)) as [Hfull | Hfull].
  - pose proof (sim_over _ _ Hs) as Hov. rewrite Ho in Hov. destruct Hov as [_ Hh].
    mrun. unfold push_button. mrun. unfold id. rewrite (sim_size _ _ Hs), (holds_full _ _ _ _ Hh Hfull). done.
  - destruct (push_sim s g c Hs Ho) as (b' & Hset & Hb'); [pose proof (sim_fits _ _ Hs); lia |].
    mrun. rewrite (push_ok g e c _ _ b' Hset (sim_size _ _ Hs) Hb'). unfold sp_append. mrun. eexists. split; [done |].
    sim_done Hs s g.
Qed.

(** Repeating the sequence. *)
Lemma step_press_repeat s g e c b :
  sim s g -> over s = None -> vs_open s = false -> c <> NO_BUTTON -> seq s !! pos s = Some b ->
  step_ok s g e (sp_press c) (click_button c).
Proof.
  intros Hs Ho Hv Hc Hb. pose proof (lookup_lt_Some _ _ _ Hb) as Hlt.
  pose proof (sim_over _ _ Hs) as Hov. rewrite Ho in Hov. destruct Hov as [_ Hh].
  assert (Hpos : (guessed g =? buttons_size g) = false).
  { rewrite (sim_pos _ _ Hs), (sim_size _ _ Hs). apply Z.eqb_neq. unfold zlen. lia. }
  pose proof (step_winner s g e Hs Ho Hv) as Hwin.
  unfold step_ok, sp_press, click_button in *. rewrite (button_eqb_NO c Hc).
  rewrite !bind_gets. unfold id. cbn [fst snd]. rewrite Hv, Hb, Hpos, (sim_vs_open _ _ Hs), Hv. cbn [orb].
  rewrite (sim_pos _ _ Hs), (holds_get _ _ _ _ _ Hh Hb), bind_lift.
  rewrite button_eqb_spec. destruct (bool_decide (b = c)); [| exact Hwin].
  mrun. eexists. split; [done |].
  destruct Hs. destruct s, g. cbn in *. subst. constructor; cbn; try done; try lia.
  replace (Z.of_nat pos0 + 1 =? zlen seq0) with (bool_decide (S pos0 = length seq0)).
  - case_decide; [rewrite bool_decide_eq_true_2 by done | rewrite bool_decide_eq_false_2 by done]; done.
  - apply eq_true_iff_eq. rewrite bool_decide_eq_true, Z.eqb_eq. unfold zlen. lia.
Qed.

(** Adding a button. *)
Lemma step_press_add s g e c :
  sim s g -> over s = None -> vs_open s = false -> c <> NO_BUTTON -> seq s !! pos s = None ->
  step_ok s g e (sp_press c) (click_button c).
Proof.
  intros Hs Ho Hv Hc Hb. pose proof (lookup_ge_None_1 _ _ Hb) as Hge. pose proof (sim_pos_in _ _ Hs) as Hin.
  assert (Hpos : guessed g = buttons_size g).
  { rewrite (sim_pos _ _ Hs), (sim_size _ _ Hs). unfold zlen. lia. }
  assert (Hs1 : sim (set_score (zlen (seq s)) s) (set_player_score (buttons_size g) g)).
  { destruct Hs. destruct s, g. cbn in *. subst. by constructor. }
  pose proof (step_finish _ _ e TIE Hs1 Ho Hv) as Hfin.
  unfold step_ok, sp_press, click_button in *. rewrite (button_eqb_NO c Hc).
  rewrite !bind_gets. unfold id. cbn [fst snd].
  rewrite Hv, Hb, Hpos, Z.eqb_refl. cbn [orb when]. rewrite !bind_modify. cbn [fst snd]. rewrite (sim_size _ _ Hs) in *. rewrite (sim_rounds _ _ Hs).
  destruct (Z.eqb_spec (zlen (seq s)) (rounds s)) as [Hfull | Hfull]; [exact Hfin |]. clear Hfin.
  assert (Hroom : zlen (seq s) < rounds s) by (pose proof (sim_fits _ _ Hs); lia).
  rewrite (sim_vs_round _ _ Hs), button_eqb_spec, (sim_vs_open _ _ Hs), Hv, andb_true_r. cbn [negb when].
  destruct (push_sim _ _ c Hs Ho Hroom) as (b' & Hset & Hb').
  assert (Hpush : forall g', buttons g' = buttons g -> buttons_size g' = buttons_size g ->
      push_button c (g', e) = Ok (tt, (set_buttons_size (zlen (seq s) + 1) (set_buttons b' g'), e))).
  { intros g' H1 H2. apply (push_ok g' e c (seq s) (rounds s)); [by rewrite H1 | rewrite H2; apply Hs | done]. }
  destruct (vs_round s) eqn:Hr; cbn [andb].
  - destruct (bool_decide (c = VS_B)).
    + mrun. rewrite Hpush by done. unfold sp_append. mrun. eexists. split; [done |].
      sim_done Hs s g.
    + mrun. rewrite Hpush by done. unfold sp_append, sp_pass_turn, flip_player, is_VS_round, sp_draw_vs. mrun.
      eexists. split; [done |].
      sim_done Hs s g.
  - mrun. rewrite Hpush by done. unfold sp_append, sp_pass_turn, flip_player, is_VS_round, sp_draw_vs. mrun.
    eexists. split; [done |].
    sim_done Hs s g.
Qed.

Lemma step_press s g e c :
  sim s g -> over s = None -> c <> NO_BUTTON -> step_ok s g e (sp_press c) (click_button c).
Proof.
  intros Hs Ho Hc. destruct (vs_open s) eqn:Hv; [by apply step_press_vs |].
  destruct (seq s !! pos s) eqn:Hb; [by eapply step_press_repeat | by apply step_press_add].
Qed.
End Simulation.

(** ** Simulation of the events *)

Section Events.
Context {E : Type} `{GE : GameEnv E}.

Lemma step_nothing s g (e : E) : sim s g -> step_ok s g e skip skip.
Proof. intros Hs. by exists g. Qed.

Lemma step_mouse p s g (e : E) : sim s g -> step_ok s g e (sp_mouse p) (game_update_status_mouse p).
Proof.
  intros Hs. unfold sp_mouse, game_update_status_mouse.
  unfold step_ok. rewrite !bind_gets. unfold id. cbn [fst]. pose proof (sim_over _ _ Hs) as Ho.
  destruct (over s) as [w |] eqn:Hover; destruct Ho as [-> Ho]; [by apply step_nothing |].
  rewrite !bind_modify, bind_gets. cbn [fst snd].
  set (m := update_mouse p (cursor s)).
  set (c := if left_click m then button_at m else NO_BUTTON).
  assert (Hs1 : sim (set_cursor m s) (set_mouse (update_mouse p (mouse g)) g)).
  { rewrite (sim_cursor _ _ Hs). fold m. destruct Hs. destruct s, g. cbn in *. subst. by constructor. }
  assert (Hc : (if left_click (mouse (set_mouse (update_mouse p (mouse g)) g))
                then get_button_click (set_mouse (update_mouse p (mouse g)) g) else NO_BUTTON) = c).
  { rewrite (sim_cursor _ _ Hs1). unfold get_button_click, get_red_click, get_green_click, get_purple_click,
      get_blue_click, get_yellow_click, get_vs_click. by rewrite (sim_cursor _ _ Hs1). }
  rewrite Hc. apply step_bind; [| intros; by apply step_light].
  destruct (decide (c = NO_BUTTON)) as [Hno | Hno].
  - rewrite bool_decide_eq_true_2 by done. rewrite Hno. unfold click_button, button_eqb.
    rewrite bool_decide_eq_true_2 by done.
    exact (step_cursor _ _ e (set_left_click false) Hs1).
  - rewrite bool_decide_eq_false_2 by done. by apply step_press.
Qed.

Lemma step_skip_r s g (e : E) m n : step_ok s g e (do* m in skip) n -> step_ok s g e m n.
Proof. unfold step_ok, bind, skip, ret. by destruct (m (s, e)) as [[[] [s' e']] | u]. Qed.

(** The second half of a tick. *)
Lemma step_tick_over s g (e : E) w :
  sim s g -> over s = Some w -> step_ok s g e (do* env_ g_set_seconds_alarm in sp_leave w) rtc_leave.
Proof.
  intros Hs Ho. pose proof (sim_over _ _ Hs) as Hov. rewrite Ho in Hov. destruct Hov as (Hg & _).
  pose proof (step_leave s g (g_set_seconds_alarm e) w Hs Ho) as Hl.
  unfold step_ok, rtc_leave in *. rewrite bind_gets in *. unfold id in *. cbn [fst] in *. rewrite Hg.
  exact Hl.
Qed.

Lemma step_tick_running s g (e : E) :
  sim s g -> over s = None -> step_ok s g e skip rtc_leave.
Proof.
  intros Hs Ho. pose proof (sim_over _ _ Hs) as Hov. rewrite Ho in Hov. destruct Hov as (Hg & _).
  unfold step_ok, rtc_leave. rewrite bind_gets. unfold id. cbn [fst]. rewrite Hg. by exists g.
Qed.

Lemma sim_set_clock s g t : sim s g -> sim (set_clock t s) (set_time_left_for_click t g).
Proof. intros Hs. destruct Hs. destruct s, g. cbn in *. subst. by constructor. Qed.

(** The first half, where the clock is not at zero. *)
Lemma step_countdown s g (e : E) :
  sim s g -> (clock s =? 0) = false ->
  step_ok s g e (modify (set_clock (if 0 <? clock s then clock s - 1 else clock s))) rtc_clock.
Proof.
  intros Hs Hc. unfold step_ok, rtc_clock. rewrite bind_gets. unfold id. cbn [fst].
  rewrite (sim_clock _ _ Hs), Hc. cbn [andb modify fst snd]. destruct (0 <? clock s).
  - eexists. split; [done |]. by apply sim_set_clock.
  - exists g. split; [done |]. pose proof (sim_set_clock _ _ (clock s) Hs) as H.
    rewrite <- (sim_clock _ _ Hs) in H at 2. by destruct g.
Qed.

(** The first half at zero. *)
Lemma step_time_up s g (e : E) :
  sim s g -> over s = None -> clock s = 0 ->
  step_ok s g e (if vs_open s then sp_pass_turn else sp_finish (opponent (turn s))) rtc_clock.
Proof.
  intros Hs Ho Hc. unfold step_ok, rtc_clock. rewrite bind_gets. unfold id. cbn [fst].
  rewrite (sim_clock _ _ Hs), (sim_vs_open _ _ Hs), (sim_vs_round _ _ Hs), Hc. cbn [Z.eqb andb].
  destruct (vs_open s) eqn:Hv; cbn [negb].
  - destruct (sim_vs _ _ Hs Hv) as (Hr & _ & _). rewrite Hr. cbn [andb].
    unfold sp_pass_turn, flip_player, is_VS_round, sp_draw_vs. mrun. eexists. split; [done |].
    destruct Hs. destruct s, g. cbn in *. subst. by constructor.
  - by apply step_winner.
Qed.

Lemma step_tick s g (e : E) : sim s g -> step_ok s g e sp_tick game_update_status_rtc.
Proof.
  intros Hs. unfold sp_tick, game_update_status_rtc.
  assert (Hunf : forall m n, step_ok s g e (m s) n -> step_ok s g e (let* s := gets id in m s) n)
    by (intros m n H; exact H).
  apply Hunf. destruct (over s) as [w |] eqn:Ho.
  - destruct (clock s =? 0) eqn:Hc.
    + pose proof (sim_over _ _ Hs) as Hov. rewrite Ho in Hov. destruct Hov as (_ & _ & Hf).
      assert (Hv : VS_was_pressed g = false).
      { rewrite (sim_vs_open _ _ Hs). destruct (vs_open s) eqn:Hv; [| done].
        destruct (sim_vs _ _ Hs Hv) as (_ & _ & ?). congruence. }
      unfold step_ok, rtc_clock, get_winner, end_game. mrun. unfold id.
      rewrite (sim_clock _ _ Hs), Hc, Hv. cbn [negb andb]. mrun. cbn [set_ws set_game_end buttons].
      by rewrite Hf.
    + apply step_bind; [by apply step_countdown |]. intros s' g' e' Hm Hs'.
      apply step_tick_over; [done |]. injection Hm as <- _. done.
  - destruct (clock s =? 0) eqn:Hc.
    + apply Z.eqb_eq in Hc. pose proof (step_time_up s g e Hs Ho Hc) as Ht. destruct (vs_open s) eqn:Hv.
      * apply step_skip_r. apply step_bind; [done |]. intros s' g' e' Hm Hs'.
        apply step_tick_running; [done |]. unfold sp_pass_turn, sp_draw_vs in Hm.
        revert Hm. mrun. by intros [= <- _].
      * apply step_bind; [done |]. intros s' g' e' Hm Hs'.
        apply step_tick_over; [done |]. revert Hm. unfold sp_finish. mrun. by intros [= <- _].
    + apply step_skip_r. apply step_bind; [by apply step_countdown |]. intros s' g' e' Hm Hs'.
      apply step_tick_running; [done |]. by injection Hm as <- _.
Qed.

Lemma step_key k s g (e : E) : sim s g -> step_ok s g e (sp_key k) (game_update_status_key k).
Proof.
  intros Hs. unfold sp_key, game_update_status_key, step_ok. rewrite !bind_gets. unfold id. cbn [fst].
  pose proof (sim_over _ _ Hs) as Hov.
  destruct (over s) as [w |] eqn:Ho; [destruct Hov as (-> & _) | destruct Hov as [-> _]]; cbn [when].
  - destruct (key k =? ENTER); [| by exists g]. exact (step_leave s g e w Hs Ho).
  - by exists g.
Qed.

Lemma step_event ev s g (e : E) : sim s g -> step_ok s g e (sp_event ev) (game_event ev).
Proof.
  intros Hs. destruct ev; cbn [sp_event game_event];
    [by apply step_mouse | by apply step_tick | by apply step_key |].
  exact (step_cursor s g e (set_left_click false) Hs).
Qed.

Lemma step_events evs s g (e : E) :
  sim s g -> step_ok s g e (run_events sp_event evs) (run_events game_event evs).
Proof.
  revert s g e. induction evs as [| ev evs IH]; intros s g e Hs; [by exists g |].
  cbn [run_events]. apply step_bind; [by apply step_event |]. intros. by apply IH.
Qed.

(** [reset_game] starts the abstract game. *)
Lemma reset_game_sim n g (e : E) :
  1 <= n ->
  exists g', reset_game n (g, e) = Ok (tt, (g', snd (g_rand e))) /\
             sim (simon_start n ((fst (g_rand e) mod 10) mod 2 =? 0)) g'.
Proof.
  intros Hn. unfold reset_game, is_VS_round. mrun.
  destruct (g_rand e) as [r e'] eqn:Hr. eexists. split; [done |].
  destruct g. constructor; cbn; try done; try lia.
  - change (zlen (@nil button_click_t)) with 0. lia.
  - split; [done |]. apply holds_malloc. lia.
Qed.
End Events.
