(* ===== verification/GameProps.v ===== *)
(** The properties of the game on one computer: the refinement of [Says.v], the
    invariants, how a turn goes, and the two faults of the program. *)

From stdpp Require Import base tactics list.
From Stdlib Require Import ZArith Lia Ascii.
From S2P Require Import Prelude Consts Keyboard Mouse NumLetters Vc Screen CString Pad Game Says.

(** ** A concrete environment, for the witnesses *)

Record genv := GEnv { ge_mode : Game_Modes; ge_alarm : Z; ge_low : Z; ge_hi : option Z; ge_random : Z }.

#[export] Instance genv_inst : GameEnv genv := {
  g_set_mode m e := GEnv m (ge_alarm e) (ge_low e) (ge_hi e) (ge_random e);
  g_set_timed_alarm s e := GEnv (ge_mode e) s (ge_low e) (ge_hi e) (ge_random e);
  g_set_seconds_alarm e := GEnv (ge_mode e) 0 (ge_low e) (ge_hi e) (ge_random e);
  g_getLowestHiScore e := Ok (ge_low e);
  g_reset_hiscore n e := Ok (GEnv (ge_mode e) (ge_alarm e) (ge_low e) (Some n) (ge_random e));
  g_rand e := (ge_random e, e)
}.

(** Even and odd random numbers: with and without a VS round. *)
Definition genv_vs : genv := GEnv GAME 0 1 None 4.
Definition genv_no_vs : genv := GEnv GAME 0 1 None 7.

(** The leaderboard and the highscore screen do not fault. *)
Class GameSafe (E : Type) `{GameEnv E} := {
  low_ok : forall e, is_ok (g_getLowestHiScore e) = true;
  hiscore_ok : forall n e, is_ok (g_reset_hiscore n e) = true
}.
#[export] Instance genv_safe : GameSafe genv.
Proof. by constructor. Qed.

(** Packets of a mouse that does not move: button down, button up. *)
Definition press : packet := Packet (0, 0, 0) false false true 0 0 false false.
Definition release : packet := Packet (0, 0, 0) false false false 0 0 false false.

(** ** Refinement *)

(** C1. The game plays Simon says: for every number of rounds and every sequence of
    mouse packets, clock ticks, keys and timer interrupts, the statics of
    [game.c] follow the abstract game (the same sequence, position, turn, clock,
    score, light and winner, the same calls of the other components), or both
    fault. *)
Theorem game_refines_simon {E} `{GameEnv E} n evs g (e : E) :
  1 <= n ->
  let start := simon_start n ((fst (g_rand e) mod 10) mod 2 =? 0) in
  match run_events sp_event evs (start, snd (g_rand e)) with
  | Ok (_, (s', e')) =>
      exists g', (do* reset_game n in run_events game_event evs) (g, e) = Ok (tt, (g', e')) /\ sim s' g'
  | Undef u => (do* reset_game n in run_events game_event evs) (g, e) = Undef u
  end.
Proof.
  intros Hn start. destruct (reset_game_sim n g e Hn) as (g0 & Hr & Hs).
  rewrite (bind_ok _ _ _ _ _ Hr). exact (step_events evs start g0 (snd (g_rand e)) Hs).
Qed.

(** One whole round for the witness: player 1 adds the button under the mouse. *)
Lemma game_refines_simon_witness :
  exists g', (do* reset_game 3 in run_events game_event [EMouse press; EMouse release; ETick])
      (gst_init, genv_no_vs) = Ok (tt, (g', genv_no_vs)) /\
    buttons_size g' = 1 /\ is_player_1 g' = false /\ time_left_for_click g' = 3.
Proof.
  pose proof (game_refines_simon 3 [EMouse press; EMouse release; ETick] gst_init genv_no_vs ltac:(lia)) as Hr.
  cbv zeta in Hr.
  replace (run_events sp_event [EMouse press; EMouse release; ETick] _)
    with (@Ok (unit * (simon * genv)) (tt, (Simon [VS_B] O false false false None 3 0 3 DEFAULT
                         (MouseState 400 300 false false), genv_no_vs))) in Hr by (vm_compute; reflexivity).
  destruct Hr as (g' & Hg & Hs). exists g'. split; [exact Hg |].
  split; [exact (sim_size _ _ Hs) |]. split; [exact (sim_turn _ _ Hs) | exact (sim_clock _ _ Hs)].
Defined.

(** ** Invariants *)

(** What the screen and the other components rely on. *)
Record game_inv (g : gst) : Prop := {
  inv_guessed : 0 <= guessed g <= buttons_size g;
  inv_buttons : buttons_size g <= max_buttons_size g;
  inv_score : 0 <= player_score g <= max_buttons_size g;
  inv_clock : -1 <= time_left_for_click g <= VS_INTERVAL;
  inv_mouse : mouse_in (mouse g);
  inv_block : game_end g = false ->
              exists q, holds (buttons g) q (max_buttons_size g) /\ buttons_size g = zlen q;
  inv_freed : game_end g = true -> buttons g = PFreed
}.

Record simon_inv (n : Z) (s : simon) : Prop := {
  si_rounds : rounds s = n;
  si_fits : zlen (seq s) <= rounds s;
  si_score : 0 <= score s <= rounds s;
  si_clock : -1 <= clock s <= VS_INTERVAL;
  si_cursor : mouse_in (cursor s)
}.

Lemma simon_start_inv n vs : 0 <= n -> simon_inv n (simon_start n vs).
Proof. intros Hn. constructor; cbn; [done | done | lia | unfold VS_INTERVAL; lia | apply center_mouse_in]. Qed.

Lemma sim_game_inv n s g : sim s g -> simon_inv n s -> game_inv g.
Proof.
  intros Hs Hi. pose proof (sim_over _ _ Hs) as Ho. pose proof (sim_pos_in _ _ Hs).
  constructor; rewrite ?(sim_pos _ _ Hs), ?(sim_size _ _ Hs), ?(sim_rounds _ _ Hs), ?(sim_score _ _ Hs),
    ?(sim_clock _ _ Hs), ?(sim_cursor _ _ Hs); try apply Hi.
  - unfold zlen. lia.
  - intros Hg. destruct (over s); [destruct Ho as [? _]; congruence |]. exists (seq s). split; [apply Ho | done].
  - intros Hg. destruct (over s); [apply Ho | destruct Ho as [? _]; congruence].
Qed.

(** [keeps P m]: a computation that keeps a property of the abstract state. *)
Definition keeps {E} (P : simon -> Prop) (m : M simon E unit) : Prop :=
  forall s e s' e', P s -> m (s, e) = Ok (tt, (s', e')) -> P s'.

Lemma keeps_modify {E} (P : simon -> Prop) f :
  (forall s, P s -> P (f s)) -> keeps (E := E) P (modify f).
Proof. intros Hf s e s' e' Hs [= <- <-]. by apply Hf. Qed.

Lemma keeps_bind {E A} (P : simon -> Prop) (m : M simon E A) k :
  (forall s e a s' e', P s -> m (s, e) = Ok (a, (s', e')) -> P s') ->
  (forall a, keeps P (k a)) -> keeps P (bind m k).
Proof.
  intros Hm Hk s e s' e' Hs. unfold bind. destruct (m (s, e)) as [[a [s1 e1]] |] eqn:Em; [| done].
  cbn. intros Hk1. eapply Hk; [| exact Hk1]. by eapply Hm.
Qed.

Lemma keeps_gets {E} (P : simon -> Prop) (k : simon -> M simon E unit) :
  (forall s, P s -> forall e s' e', k s (s, e) = Ok (tt, (s', e')) -> P s') ->
  keeps P (bind (gets id) k).
Proof. intros Hk s e s' e' Hs. rewrite bind_gets. unfold id. cbn. by apply Hk. Qed.

Lemma keeps_env {E} (P : simon -> Prop) (f : E -> E) : keeps P (env_ f).
Proof. intros s e s' e' Hs [= <- <-]. done. Qed.

Section Inv.
Context {E : Type} `{GE : GameEnv E}.

Lemma keeps_leave P w : keeps P (sp_leave (E := E) w).
Proof.
  intros s e s' e' Hs. unfold sp_leave. destruct w; mrun.
  1,2: destruct (g_getLowestHiScore e); [| done]; unfold id; destruct (_ <? _); mrun;
    [destruct (g_reset_hiscore _ _); [| done] |]; by intros [= <- <-].
  by intros [= <- <-].
Qed.

(** Closes the invariant of an updated state. *)
Ltac inv_done :=
  constructor; cbn; rewrite ?zlen_snoc;
    first [assumption | unfold VS_INTERVAL, INTERVAL, zlen in *; lia].

Lemma keeps_press n c : keeps (simon_inv n) (sp_press (E := E) c).
Proof.
  apply keeps_gets. intros s [Hn H0 H1 H2 H3] e s' e'. unfold sp_append, sp_pass_turn, sp_draw_vs, sp_finish.
  assert (Hz : 0 <= zlen (seq s)) by (unfold zlen; lia).
  destruct (vs_open s).
  - destruct (Z.eqb_spec (zlen (seq s)) (rounds s)); [done |]. mrun. intros [= <- <-]. inv_done.
  - destruct (seq s !! pos s).
    + destruct (bool_decide _); mrun; intros [= <- <-]; [case_decide |]; inv_done.
    + mrun. unfold id. destruct (Z.eqb_spec (zlen (seq s)) (rounds s)) as [Heq | Hne]; mrun.
      * intros [= <- <-]. inv_done.
      * destruct (_ && _); mrun; intros [= <- <-]; inv_done.
Qed.

Lemma keeps_tick n : keeps (simon_inv n) (sp_tick (E := E)).
Proof.
  apply keeps_gets. intros s [Hn H0 H1 H2 H3] e s' e'.
  assert (Hdec : simon_inv n (set_clock (if 0 <? clock s then clock s - 1 else clock s) s))
    by (destruct (Z.ltb_spec 0 (clock s)); inv_done).
  destruct (over s) as [w |].
  - destruct (clock s =? 0); [done |]. rewrite bind_modify. cbn [fst snd]. intros Hr.
    refine (keeps_bind _ (env_ g_set_seconds_alarm) (fun _ => sp_leave w) _ _ _ _ _ _ Hdec Hr);
      [intros ? ? [] ? ?; apply keeps_env | intros ?; apply keeps_leave].
  - destruct (clock s =? 0).
    + destruct (vs_open s); [unfold sp_pass_turn, sp_draw_vs; mrun; intros [= <- <-]; inv_done |].
      unfold sp_finish. mrun. intros Hr. eapply keeps_leave; [| exact Hr]. inv_done.
    + by intros [= <- <-].
Qed.

Lemma keeps_mouse n p : keeps (simon_inv n) (sp_mouse (E := E) p).
Proof.
  apply keeps_gets. intros s Hs e s' e'. destruct (over s); [by intros [= <- <-] |].
  rewrite bind_modify. cbn [fst snd].
  assert (Hm : mouse_in (update_mouse p (cursor s))) by apply update_mouse_in, Hs.
  assert (Hs1 : simon_inv n (set_cursor (update_mouse p (cursor s)) s)) by (destruct Hs; inv_done).
  revert Hs1. generalize (set_cursor (update_mouse p (cursor s)) s). intros s1 Hs1 Hr.
  revert Hr. apply (keeps_bind (simon_inv n)); [| | exact Hs1].
  - intros ? ? [] ? ? Hi. destruct (bool_decide _); [| by apply keeps_press].
    intros [= <- <-]. destruct Hi. inv_done.
  - intros ?. apply keeps_modify. intros ? []. inv_done.
Qed.

Lemma keeps_event n ev : keeps (simon_inv n) (sp_event (E := E) ev).
Proof.
  destruct ev; cbn [sp_event]; [apply keeps_mouse | apply keeps_tick | |].
  - apply keeps_gets. intros s Hs e s' e'. destruct (over s); [| by intros [= <- <-]].
    destruct (key k =? ENTER); [by apply keeps_leave | by intros [= <- <-]].
  - apply keeps_modify. intros s []. inv_done.
Qed.

Lemma keeps_events n evs : keeps (simon_inv n) (run_events (sp_event (E := E)) evs).
Proof.
  induction evs as [| ev evs IH]; [by intros s e s' e' Hs [= <- <-] |].
  apply keeps_bind; [| done]. intros ? ? [] ? ?. apply keeps_event.
Qed.

(** Every state the game reaches is related to an abstract state in order. *)
Lemma game_reaches n evs g (e : E) g' e' :
  1 <= n -> (do* reset_game n in run_events game_event evs) (g, e) = Ok (tt, (g', e')) ->
  exists s, sim s g' /\ simon_inv n s.
Proof.
  intros Hn Hr. destruct (reset_game_sim n g e Hn) as (g0 & Hr0 & Hs).
  rewrite (bind_ok _ _ _ _ _ Hr0) in Hr.
  pose proof (step_events evs _ g0 (snd (g_rand e)) Hs) as Hstep. unfold step_ok in Hstep.
  destruct (run_events sp_event evs _) as [[[] [s' e1]] | u] eqn:Hrun; [| congruence].
  destruct Hstep as (g1 & Hg1 & Hs1). assert (g1 = g') by congruence. subst g1.
  exists s'. split; [done |]. eapply keeps_events; [| exact Hrun]. apply simon_start_inv. lia.
Qed.
End Inv.

(** C11. In every state the game reaches from [reset_game]: the position is inside
    the sequence, the sequence inside its block (of the [n] cells that were
    allocated), the score at most [n], the clock between -1 and 6 seconds, the
    mouse inside the screen; and the block is freed exactly when the game has
    ended. *)
Theorem game_invariant {E} `{GameEnv E} n evs g (e : E) g' e' :
  1 <= n -> (do* reset_game n in run_events game_event evs) (g, e) = Ok (tt, (g', e')) ->
  game_inv g' /\ max_buttons_size g' = n.
Proof.
  intros Hn Hr. destruct (game_reaches n evs g e g' e' Hn Hr) as (s & Hs & Hi).
  split; [by eapply sim_game_inv |]. rewrite (sim_rounds _ _ Hs). apply Hi.
Qed.

Lemma game_invariant_witness :
  exists g', (do* reset_game 2 in run_events game_event [EMouse press; ETick]) (gst_init, genv_vs)
      = Ok (tt, (g', genv_vs)) /\ game_inv g'.
Proof.
  eexists. split; [vm_compute; reflexivity |].
  refine (proj1 (game_invariant 2 [EMouse press; ETick] gst_init genv_vs _ genv_vs _ _));
    [lia | vm_compute; reflexivity].
Defined.

(** ** Turns *)

Section Turns.
Context {E : Type} `{GE : GameEnv E}.

Fixpoint clicks (cs : list button_click_t) : M gst E unit :=
  match cs with
  | [] => skip
  | c :: cs => do* click_button c in clicks cs
  end.

(** A right button advances the position. *)
Lemma click_right s g (e : E) c :
  sim s g -> over s = None -> vs_open s = false -> c <> NO_BUTTON -> seq s !! pos s = Some c ->
  exists g', click_button c (g, e) = Ok (tt, (g', e)) /\
    sim (set_clock (if decide (S (pos s) = length (seq s)) then -1 else INTERVAL) (set_pos (S (pos s)) s)) g'.
Proof.
  intros Hs Ho Hv Hc Hb. pose proof (step_press s g e c Hs Ho Hc) as Hp.
  unfold step_ok, sp_press in Hp. rewrite bind_gets in Hp. unfold id in Hp. cbn [fst] in Hp.
  rewrite Hv, Hb, bool_decide_eq_true_2 in Hp by done. exact Hp.
Qed.

(** Repeating the rest of the sequence. *)
Lemma clicks_right cs s g (e : E) :
  sim s g -> over s = None -> vs_open s = false -> drop (pos s) (seq s) = cs -> cs <> [] ->
  Forall (fun c => c <> NO_BUTTON) cs ->
  exists g', clicks cs (g, e) = Ok (tt, (g', e)) /\
    sim (set_clock (-1) (set_pos (length (seq s)) s)) g'.
Proof.
  revert s g. induction cs as [| c cs IH]; intros s g Hs Ho Hv Hd Hne Hcs; [done |].
  apply Forall_cons_1 in Hcs as [Hc Hcs].
  assert (Hb : seq s !! pos s = Some c) by (rewrite <- (Nat.add_0_r (pos s)), <- lookup_drop, Hd; done).
  pose proof (lookup_lt_Some _ _ _ Hb) as Hlt.
  destruct (click_right s g e c Hs Ho Hv Hc Hb) as (g1 & Hg1 & Hs1).
  cbn [clicks]. rewrite (bind_ok _ _ _ _ _ Hg1).
  assert (Hd1 : drop (S (pos s)) (seq s) = cs).
  { rewrite <- (Nat.add_1_r (pos s)), <- drop_drop, Hd. done. }
  destruct cs as [| c' cs].
  - assert (Hlen : S (pos s) = length (seq s)).
    { apply (f_equal (@length _)) in Hd1. rewrite length_drop in Hd1. cbn in Hd1. lia. }
    rewrite decide_True in Hs1 by done. exists g1. split; [done |]. by rewrite Hlen in Hs1.
  - destruct (IH _ g1 Hs1 Ho Hv Hd1) as (g2 & Hg2 & Hs2); [done | done |].
    exists g2. split; [exact Hg2 |]. exact Hs2.
Qed.
End Turns.

(** A player who repeats the whole sequence in order passes: nothing is lost on
    the way, the clock stops, and the next button that is not the VS button of
    a VS round is added, scored and hands the turn to the other player, who
    starts from the beginning with the full interval. *)
Theorem perfect_turn {E} `{GameEnv E} s g (e : E) c :
  sim s g -> over s = None -> vs_open s = false -> pos s = O -> 0 < zlen (seq s) < rounds s ->
  Forall (fun c => c <> NO_BUTTON) (seq s) -> c <> NO_BUTTON -> vs_round s && bool_decide (c = VS_B) = false ->
  exists g', clicks (seq s ++ [c]) (g, e) = Ok (tt, (g', snd (g_rand e))) /\
    holds (buttons g') (seq s ++ [c]) (rounds s) /\ buttons_size g' = zlen (seq s) + 1 /\
    guessed g' = 0 /\ is_player_1 g' = negb (is_player_1 g) /\ player_score g' = zlen (seq s) /\
    time_left_for_click g' = INTERVAL /\ game_end g' = false.
Proof.
  intros Hs Ho Hv Hp [Hl Hr] Hcs Hc Hvs.
  destruct (clicks_right (seq s) s g e Hs Ho Hv) as (g1 & Hg1 & Hs1); [by rewrite Hp | | done |].
  { intros Heq. by rewrite Heq in Hl. }
  assert (Happ : forall l1 l2 st, clicks (l1 ++ l2) st = bind (clicks l1) (fun _ => clicks l2) st).
  { induction l1 as [| x l1 IHl]; intros l2 st; [by destruct st |].
    cbn [app clicks]. unfold bind at 1 3. unfold bind at 1.
    destruct (click_button x st) as [r |]; [apply IHl | done]. }
  rewrite Happ, (bind_ok _ _ _ _ _ Hg1). cbn [clicks].
  set (s1 := set_clock (-1) (set_pos (length (seq s)) s)) in *.
  pose proof (step_press s1 g1 e c Hs1 Ho Hc) as Hst. unfold step_ok, sp_press in Hst.
  rewrite bind_gets in Hst. unfold id in Hst. cbn [fst] in Hst.
  assert (Hnone : seq s1 !! pos s1 = None) by (apply lookup_ge_None_2; cbn; lia).
  change (vs_open s1) with (vs_open s) in Hst. rewrite Hv, Hnone, bind_modify in Hst. cbn [fst snd] in Hst.
  change (seq s1) with (seq s) in Hst. change (rounds s1) with (rounds s) in Hst.
  change (vs_round s1) with (vs_round s) in Hst.
  replace (zlen (seq s) =? rounds s) with false in Hst by (symmetry; apply Z.eqb_neq; lia).
  rewrite Hvs in Hst. unfold sp_append, sp_pass_turn, sp_draw_vs in Hst. revert Hst. mrun.
  intros (g2 & Hg2 & Hs2). exists g2. rewrite Hg2. split; [done |].
  pose proof (sim_over _ _ Hs2) as Hov. rewrite (sim_size _ _ Hs2), (sim_pos _ _ Hs2), (sim_turn _ _ Hs2),
    (sim_score _ _ Hs2), (sim_clock _ _ Hs2), (sim_turn _ _ Hs).
  cbn in *. rewrite Ho in Hov. rewrite zlen_snoc. destruct Hov as [? ?]. done.
Qed.

(** A game of five rounds where GREEN, RED has been played, player 1 to move. *)
Definition simon0 (p : nat) (t : Z) : simon :=
  Simon [GREEN_B; RED_B] p true false false None t 1 5 DEFAULT center_mouse.
Definition gst0 (p : nat) (t : Z) : gst :=
  Gst WINNER1 (PBlock [Some GREEN_B; Some RED_B; None; None; None]) DEFAULT center_mouse 2 1 5 true
    (Z.of_nat p) t false false false.

Lemma sim0 p t : (p <= 2)%nat -> sim (simon0 p t) (gst0 p t).
Proof. intros Hp. constructor; try done. Qed.

Lemma perfect_turn_witness :
  exists g', clicks [GREEN_B; RED_B; BLUE_B] (gst0 0 4, genv_vs) = Ok (tt, (g', genv_vs)) /\
    holds (buttons g') [GREEN_B; RED_B; BLUE_B] 5 /\ is_player_1 g' = false.
Proof.
  destruct (perfect_turn (simon0 0 4) (gst0 0 4) genv_vs BLUE_B) as (g' & Hg & Hb & _ & _ & Ht & _);
    try reflexivity; try discriminate.
  - apply sim0. lia.
  - split; reflexivity.
  - repeat constructor; discriminate.
  - exists g'. split; [exact Hg |]. split; [exact Hb | exact Ht].
Defined.

(** C17. A wrong button, or no button in time, ends the game, and the winner is the
    other player; repeating and adding all [n] buttons is a tie. *)
Theorem game_end_winner {E} `{GameEnv E} s g (e : E) :
  sim s g -> over s = None -> vs_open s = false ->
  (forall c, c <> NO_BUTTON -> seq s !! pos s <> Some c -> (pos s < length (seq s))%nat ->
     exists g', click_button c (g, e) = Ok (tt, (g', g_set_timed_alarm 5 e)) /\
       game_end g' = true /\ ws g' = opponent (is_player_1 g) /\ buttons g' = PFreed) /\
  (forall c, c <> NO_BUTTON -> pos s = length (seq s) -> zlen (seq s) = rounds s ->
     exists g', click_button c (g, e) = Ok (tt, (g', g_set_timed_alarm 5 e)) /\
       game_end g' = true /\ ws g' = TIE /\ player_score g' = rounds s /\ buttons g' = PFreed).
Proof.
  intros Hs Ho Hv. split; intros c Hc.
  - intros Hne Hlt. destruct (lookup_lt_is_Some_2 _ _ Hlt) as [b Hb].
    pose proof (step_press s g e c Hs Ho Hc) as Hst. unfold step_ok, sp_press in Hst.
    rewrite bind_gets in Hst. unfold id in Hst. cbn [fst] in Hst. rewrite Hv, Hb in Hst.
    rewrite bool_decide_eq_false_2 in Hst by congruence. unfold sp_finish in Hst. revert Hst. mrun.
    intros (g' & Hg & Hs'). exists g'. split; [exact Hg |].
    pose proof (sim_over _ _ Hs') as Hov. cbn in Hov. rewrite (sim_turn _ _ Hs). exact Hov.
  - intros Hp Hfull. pose proof (step_press s g e c Hs Ho Hc) as Hst. unfold step_ok, sp_press in Hst.
    rewrite bind_gets in Hst. unfold id in Hst. cbn [fst] in Hst.
    rewrite Hv, lookup_ge_None_2, bind_modify in Hst by lia. cbn [fst snd] in Hst.
    rewrite Hfull, Z.eqb_refl in Hst. unfold sp_finish in Hst. revert Hst. mrun.
    intros (g' & Hg & Hs'). exists g'. split; [exact Hg |].
    pose proof (sim_over _ _ Hs') as Hov. pose proof (sim_score _ _ Hs') as Hsc. cbn in Hov, Hsc.
    destruct Hov as (H1 & H2 & H3). done.
Qed.

Lemma game_end_winner_witness :
  exists g', click_button BLUE_B (gst0 1 4, genv_vs) = Ok (tt, (g', g_set_timed_alarm 5 genv_vs)) /\
    game_end g' = true /\ ws g' = WINNER2 /\ buttons g' = PFreed.
Proof.
  refine (proj1 (game_end_winner (simon0 1 4) (gst0 1 4) genv_vs _ _ _) BLUE_B _ _ _);
    [apply sim0; lia | reflexivity | reflexivity | discriminate | discriminate | cbn; lia].
Defined.

(** ** Faults *)

(** What the calls of a game rely on: a property [Q] of the environment that
    they keep, where the lowest score can be read and a score of at most [top]
    taken to the entry of the name. *)
Class GameSafeOn {E : Type} `{GameEnv E} (Q : E -> Prop) (top : Z) := {
  on_mode : forall e, Q e -> Q (g_set_mode LEADERBOARD e);
  on_alarm : forall s e, Q e -> Q (g_set_timed_alarm s e);
  on_seconds : forall e, Q e -> Q (g_set_seconds_alarm e);
  on_rand : forall e, Q e -> Q (snd (g_rand e));
  on_low : forall e, Q e -> is_ok (g_getLowestHiScore e) = true;
  on_hiscore : forall n e, Q e -> 0 <= n <= top ->
    exists e', g_reset_hiscore n (g_set_mode HIGHSCORE e) = Ok e' /\ Q e'
}.

#[export] Instance safe_anywhere {E} `{GameEnv E, !GameSafe E} top : GameSafeOn (fun _ : E => True) top.
Proof.
  constructor; try done; [intros e _; apply low_ok |]. intros n e _ _.
  pose proof (hiscore_ok n (g_set_mode HIGHSCORE e)) as Hh. destruct (g_reset_hiscore _ _) as [e' |]; [| done].
  by exists e'.
Qed.

(** The click a packet makes. *)
Definition packet_click (p : packet) (g : gst) : button_click_t :=
  let m := update_mouse p (mouse g) in if left_click m then button_at m else NO_BUTTON.

(** The two faulty events: a button pressed in the interval of the VS button
    with the block full, and a tick after the end with the clock at zero. *)
Definition faulty (ev : event) (g : gst) : option ub_kind :=
  match ev with
  | EMouse p =>
      if negb (game_end g) && VS_was_pressed g && (buttons_size g =? max_buttons_size g)
         && negb (button_eqb (packet_click p g) NO_BUTTON) then Some OutOfBounds else None
  | ETick =>
      if game_end g && (time_left_for_click g =? 0) then Some DoubleFree else None
  | _ => None
  end.

Section Faults.
Context {E : Type} `{GE : GameEnv E} (Q : E -> Prop) (top : Z).
Context `{GS : !GameSafeOn Q top}.

Definition returns (m : M simon E unit) (s : simon) (e : E) : Prop :=
  exists s' e', m (s, e) = Ok (tt, (s', e')) /\ Q e'.

Lemma leave_returns w s e : Q e -> 0 <= score s <= top -> returns (sp_leave w) s e.
Proof.
  intros Hq Hs. unfold returns, sp_leave. destruct w; mrun.
  3: { eexists _, _. split; [done | by apply on_mode]. }
  all: pose proof (on_low e Hq) as Hl; destruct (g_getLowestHiScore e); [| done]; unfold id;
    destruct (_ <? _); mrun; [| eexists _, _; split; [done | by apply on_mode]];
    destruct (on_hiscore (score s) e Hq Hs) as (e' & -> & Hq'); by eexists _, _.
Qed.

Lemma press_faults c s (e : E) :
  sp_press c (s, e) =
    if vs_open s && (zlen (seq s) =? rounds s) then Undef OutOfBounds else sp_press c (s, e).
Proof.
  destruct (vs_open s) eqn:Hv; [| done]. cbn [andb]. unfold sp_press. rewrite bind_gets. unfold id. cbn [fst].
  rewrite Hv. by destruct (_ =? _).
Qed.

Lemma press_returns c s e :
  vs_open s && (zlen (seq s) =? rounds s) = false -> Q e -> returns (sp_press c) s e.
Proof.
  intros Hf Hq. unfold returns, sp_press. rewrite bind_gets. unfold id. cbn [fst].
  unfold sp_append, sp_pass_turn, sp_draw_vs, sp_finish. destruct (vs_open s); cbn [andb] in Hf.
  - rewrite Hf. by eexists _, _.
  - destruct (seq s !! pos s).
    + destruct (bool_decide _); eexists _, _; (split; [reflexivity |]); [done | by apply on_alarm].
    + mrun. destruct (_ =? _); [eexists _, _; split; [reflexivity | by apply on_alarm] |].
      destruct (_ && _); eexists _, _; (split; [reflexivity |]); [done | by apply on_rand].
Qed.

(** One event. *)
Lemma mouse_returns p s g e n :
  sim s g -> simon_inv n s -> n <= top -> Q e ->
  match faulty (EMouse p) g with
  | Some u => sp_event (EMouse p) (s, e) = Undef u
  | None => returns (sp_event (EMouse p)) s e
  end.
Proof.
  intros Hs Hi Hn Hq. cbn [faulty sp_event]. unfold returns, sp_mouse. rewrite !bind_gets. unfold id. cbn [fst].
  pose proof (sim_over _ _ Hs) as Ho. destruct (over s); destruct Ho as [-> _]; [by eexists _, _ |].
  cbn [negb andb]. rewrite bind_modify. cbn [fst snd].
  unfold packet_click. rewrite (sim_cursor _ _ Hs), (sim_vs_open _ _ Hs), (sim_size _ _ Hs), (sim_rounds _ _ Hs).
  set (c := if left_click _ then _ else NO_BUTTON).
  unfold button_eqb. destruct (bool_decide (c = NO_BUTTON)) eqn:Hc; cbn [negb].
  - rewrite andb_false_r. by eexists _, _.
  - rewrite andb_true_r. unfold bind.
    set (s1 := set_cursor _ s). rewrite (press_faults c s1 e).
    change (vs_open s1) with (vs_open s). change (seq s1) with (seq s). change (rounds s1) with (rounds s).
    destruct (vs_open s && _) eqn:Hf; [done |].
    destruct (press_returns c s1 e Hf Hq) as (s2 & e2 & -> & Hq2). by eexists _, _.
Qed.

Lemma tick_returns s g e n :
  sim s g -> simon_inv n s -> n <= top -> Q e ->
  match faulty ETick g with
  | Some u => sp_event ETick (s, e) = Undef u
  | None => returns (sp_event ETick) s e
  end.
Proof.
  intros Hs Hi Hn Hq. cbn [faulty sp_event]. unfold returns, sp_tick. rewrite !bind_gets. unfold id. cbn [fst].
  assert (Hsc : 0 <= score s <= top) by (pose proof (si_score _ _ Hi); rewrite (si_rounds _ _ Hi) in *; lia).
  pose proof (sim_over _ _ Hs) as Ho. rewrite (sim_clock _ _ Hs).
  destruct (over s) as [w |]; destruct Ho as [-> _]; cbn [andb].
  - destruct (clock s =? 0); [done |]. rewrite bind_modify. unfold bind, env_. cbn [fst snd].
    apply leave_returns; [by apply on_seconds | done].
  - destruct (clock s =? 0); [| by eexists _, _]. destruct (vs_open s).
    + eexists _, _. split; [reflexivity | by apply on_rand].
    + unfold sp_finish, bind, env_, modify. cbn [fst snd].
      apply leave_returns; [by apply on_seconds, on_alarm | done].
Qed.

Lemma event_returns ev s g e n :
  sim s g -> simon_inv n s -> n <= top -> Q e ->
  match faulty ev g with
  | Some u => sp_event ev (s, e) = Undef u
  | None => returns (sp_event ev) s e
  end.
Proof.
  intros Hs Hi Hn Hq. destruct ev as [p | | k |]; [by apply (mouse_returns p s g e n) | by apply (tick_returns s g e n) | |].
  - cbn [faulty sp_event]. unfold returns, sp_key. rewrite bind_gets. unfold id. cbn [fst].
    destruct (over s); [| by eexists _, _]. destruct (key k =? ENTER); [| by eexists _, _].
    apply leave_returns; [done |]. pose proof (si_score _ _ Hi); rewrite (si_rounds _ _ Hi) in *; lia.
  - by eexists _, _.
Qed.

(** The code: a state in order faults as [faulty] says, and otherwise returns in
    order. *)
Lemma event_safe ev s g e n :
  sim s g -> simon_inv n s -> n <= top -> Q e ->
  match faulty ev g with
  | Some u => game_event ev (g, e) = Undef u
  | None => exists g' e' s', game_event ev (g, e) = Ok (tt, (g', e')) /\ sim s' g' /\ simon_inv n s' /\ Q e'
  end.
Proof.
  intros Hs Hi Hn Hq. pose proof (event_returns ev s g e n Hs Hi Hn Hq) as Hr.
  pose proof (step_event ev s g e Hs) as Hst. unfold step_ok in Hst.
  destruct (faulty ev g); [by rewrite Hr in Hst |]. destruct Hr as (s' & e' & Hr & Hq'). rewrite Hr in Hst.
  destruct Hst as (g' & Hg & Hs'). exists g', e', s'. split; [done |]. split; [done |].
  split; [by eapply keeps_event | done].
Qed.
End Faults.

(** C5. These are the only faults: whatever the event, a state the game reaches
    faults exactly as [faulty] says. *)
Theorem game_faults_exactly {E} `{GameEnv E, !GameSafe E} n evs g0 (e0 : E) g e ev :
  1 <= n -> (do* reset_game n in run_events game_event evs) (g0, e0) = Ok (tt, (g, e)) ->
  match faulty ev g with
  | Some u => game_event ev (g, e) = Undef u
  | None => is_ok (game_event ev (g, e)) = true
  end.
Proof.
  intros Hn Hr. destruct (game_reaches n evs g0 e0 g e Hn Hr) as (s & Hs & Hi).
  pose proof (event_safe (fun _ => True) n ev s g e n Hs Hi ltac:(lia) I) as Hev.
  destruct (faulty ev g); [done |]. by destruct Hev as (g' & e' & s' & -> & _).
Qed.

(** One round, the VS button pressed: the block is full. *)
Definition gst_vs_full : gst :=
  Gst WINNER1 (PBlock [Some VS_B]) DEFAULT (MouseState 400 300 false false) 1 0 1 true 0 6 false true true.

Lemma game_faults_exactly_witness :
  (do* reset_game 1 in run_events game_event [EMouse press; EMouse release]) (gst_init, genv_vs)
      = Ok (tt, (gst_vs_full, genv_vs)) /\ game_event (EMouse press) (gst_vs_full, genv_vs) = Undef OutOfBounds.
Proof.
  split; [vm_compute; reflexivity |].
  assert (Hr : (do* reset_game 1 in run_events game_event [EMouse press; EMouse release]) (gst_init, genv_vs)
      = Ok (tt, (gst_vs_full, genv_vs))) by (vm_compute; reflexivity).
  pose proof (game_faults_exactly 1 [EMouse press; EMouse release] gst_init genv_vs gst_vs_full genv_vs
                (EMouse press) ltac:(lia) Hr) as Hf.
  replace (faulty (EMouse press) gst_vs_full) with (Some OutOfBounds) in Hf by (vm_compute; reflexivity).
  exact Hf.
Defined.

(** Clicks without moving the mouse. *)
Fixpoint click_times (k : nat) : list event :=
  match k with
  | O => []
  | S k => EMouse press :: EMouse release :: click_times k
  end.

Section Overflow.
Context {E : Type} `{GE : GameEnv E}.

(** The abstract game after [k] clicks. *)
Definition vs_state (n : Z) (k : nat) (held : bool) (l : Play_Screens) : simon :=
  Simon (replicate k VS_B) O true true true None VS_INTERVAL 0 n l (MouseState 400 300 held held).

Lemma vs_clicks n k (e : E) l rest :
  Z.of_nat k < n -> (0 < k)%nat ->
  run_events sp_event (EMouse press :: EMouse release :: rest) (vs_state n k false l, e) =
  run_events sp_event rest (vs_state n (S k) false DEFAULT, e).
Proof.
  intros Hk Hk0. cbn [run_events sp_event]. unfold sp_mouse, sp_press, sp_append, vs_state.
  unfold bind at 1. rewrite bind_gets. unfold id. cbn [fst over]. rewrite bind_modify. cbn [fst snd cursor].
  change (left_click (update_mouse press (MouseState 400 300 false false))) with true. cbn iota.
  change (button_at (update_mouse press (MouseState 400 300 false false))) with VS_B.
  change (bool_decide (VS_B = NO_BUTTON)) with false. cbn iota.
  unfold bind at 1. rewrite bind_gets. unfold id. cbn [fst vs_open set_cursor seq rounds].
  replace (zlen (replicate k VS_B) =? n) with false
    by (symmetry; apply Z.eqb_neq; unfold zlen; rewrite length_replicate; lia).
  mrun. cbn. f_equal. rewrite <- replicate_cons_app. done.
Qed.

Lemma vs_first n (e : E) rest :
  1 <= n ->
  run_events sp_event (EMouse press :: EMouse release :: rest) (simon_start n true, e) =
  run_events sp_event rest (vs_state n 1 false DEFAULT, e).
Proof.
  intros Hn. cbn [run_events sp_event]. unfold sp_mouse, sp_press, sp_append, simon_start.
  unfold bind at 1. rewrite bind_gets. unfold id. cbn [fst over]. rewrite bind_modify. cbn [fst snd cursor].
  change (left_click (update_mouse press center_mouse)) with true. cbn iota.
  change (button_at (update_mouse press center_mouse)) with VS_B.
  change (bool_decide (VS_B = NO_BUTTON)) with false. cbn iota.
  unfold bind at 1. rewrite bind_gets. unfold id. cbn [fst vs_open set_cursor seq rounds pos].
  change (([] : list button_click_t) !! 0%nat) with (@None button_click_t). cbn iota. rewrite bind_modify.
  cbn [fst snd vs_round set_score].
  replace (zlen (@nil button_click_t) =? n) with false
    by (symmetry; apply Z.eqb_neq; change (zlen (@nil button_click_t)) with 0; lia).
  mrun. done.
Qed.

Lemma vs_overflow n k (e : E) l :
  Z.of_nat k = n -> run_events sp_event [EMouse press] (vs_state n k false l, e) = Undef OutOfBounds.
Proof.
  intros Hk. cbn [run_events sp_event]. unfold sp_mouse, sp_press, vs_state.
  unfold bind at 1. rewrite bind_gets. unfold id. cbn [fst over]. rewrite bind_modify. cbn [fst snd cursor].
  change (left_click (update_mouse press (MouseState 400 300 false false))) with true. cbn iota.
  change (button_at (update_mouse press (MouseState 400 300 false false))) with VS_B.
  change (bool_decide (VS_B = NO_BUTTON)) with false. cbn iota.
  unfold bind at 1. rewrite bind_gets. unfold id. cbn [fst vs_open set_cursor seq rounds].
  replace (zlen (replicate k VS_B) =? n) with true; [done |].
  symmetry. apply Z.eqb_eq. unfold zlen. rewrite length_replicate. lia.
Qed.

Lemma vs_clicks_all n k j (e : E) rest :
  Z.of_nat (j + k) <= n -> (0 < j)%nat ->
  run_events sp_event (click_times k ++ rest) (vs_state n j false DEFAULT, e) =
  run_events sp_event rest (vs_state n (j + k) false DEFAULT, e).
Proof.
  revert j. induction k as [| k IH]; intros j Hj Hj0; [by rewrite Nat.add_0_r |].
  cbn [click_times app]. rewrite vs_clicks by lia. rewrite IH by lia. by rewrite Nat.add_succ_r.
Qed.
End Overflow.

(** The interval of the VS button overflows the heap: in a game of [n] rounds
    whose first round is a VS round, [n] clicks on the VS button are accepted
    and the next one, without moving the mouse, writes past the [n] cells of the
    block. *)
Theorem vs_interval_overflows {E} `{GameEnv E} n g (e : E) :
  1 <= n -> (fst (g_rand e) mod 10) mod 2 = 0 ->
  let game evs := (do* reset_game n in run_events game_event evs) (g, e) in
  is_ok (game (click_times (Z.to_nat n))) = true /\
  game (click_times (Z.to_nat n) ++ [EMouse press]) = Undef OutOfBounds.
Proof.
  intros Hn Hr game. subst game. cbv beta.
  destruct (reset_game_sim n g e Hn) as (g0 & Hreset & Hs). rewrite !(bind_ok _ _ _ _ _ Hreset).
  rewrite Hr in Hs. change (0 =? 0) with true in Hs.
  destruct (Z.to_nat n) as [| k] eqn:Hk; [lia |].
  assert (Hrun : forall rest, run_events sp_event (click_times (S k) ++ rest) (simon_start n true, snd (g_rand e)) =
            run_events sp_event rest (vs_state n (S k) false DEFAULT, snd (g_rand e))).
  { intros rest. cbn [click_times app]. rewrite vs_first by done.
    apply (vs_clicks_all n k 1); lia. }
  split.
  - pose proof (step_events (click_times (S k)) _ g0 (snd (g_rand e)) Hs) as Hst. unfold step_ok in Hst.
    pose proof (Hrun []) as Hnil. rewrite app_nil_r in Hnil. rewrite Hnil in Hst.
    cbn [run_events] in Hst. unfold skip, ret in Hst. by destruct Hst as (g' & -> & _).
  - pose proof (step_events (click_times (S k) ++ [EMouse press]) _ g0 (snd (g_rand e)) Hs) as Hst.
    unfold step_ok in Hst. rewrite Hrun in Hst.
    replace (run_events sp_event [EMouse press] (vs_state n (S k) false DEFAULT, snd (g_rand e)))
      with (@Undef (unit * (simon * E)) OutOfBounds) in Hst; [exact Hst |].
    symmetry. apply vs_overflow. lia.
Qed.

Lemma vs_interval_overflows_witness :
  (do* reset_game 2 in run_events game_event
     [EMouse press; EMouse release; EMouse press; EMouse release; EMouse press]) (gst_init, genv_vs)
  = Undef OutOfBounds.
Proof. exact (proj2 (vs_interval_overflows 2 gst_init genv_vs ltac:(lia) eq_refl)). Defined.

(** A mistake made when the clock shows zero frees the block twice: the click
    ends the game, and the next tick, which should only leave the winner screen,
    finds the clock still at zero and ends it again. *)
Theorem late_mistake_double_free {E} `{GameEnv E} s g (e : E) c :
  sim s g -> over s = None -> vs_open s = false -> time_left_for_click g = 0 ->
  (pos s < length (seq s))%nat -> seq s !! pos s <> Some c -> c <> NO_BUTTON ->
  exists g' e', click_button c (g, e) = Ok (tt, (g', e')) /\
    game_update_status_rtc (g', e') = Undef DoubleFree.
Proof.
  intros Hs Ho Hv Hclk Hlt Hne Hc. destruct (lookup_lt_is_Some_2 _ _ Hlt) as [b Hb].
  pose proof (step_press s g e c Hs Ho Hc) as Hst. unfold step_ok, sp_press in Hst.
  rewrite bind_gets in Hst. unfold id in Hst. cbn [fst] in Hst. rewrite Hv, Hb in Hst.
  rewrite bool_decide_eq_false_2 in Hst by congruence. unfold sp_finish in Hst. revert Hst. mrun.
  intros (g' & Hg & Hs'). exists g'. eexists. split; [exact Hg |].
  pose proof (step_tick _ g' (g_set_timed_alarm 5 e) Hs') as Ht. unfold step_ok, sp_tick in Ht.
  rewrite bind_gets in Ht. unfold id in Ht. cbn [fst over set_over clock] in Ht.
  rewrite <- (sim_clock _ _ Hs), Hclk in Ht. exact Ht.
Qed.

Lemma late_mistake_double_free_witness :
  exists g' e', click_button BLUE_B (gst0 0 0, genv_vs) = Ok (tt, (g', e')) /\
    game_update_status_rtc (g', e') = Undef DoubleFree.
Proof.
  apply (late_mistake_double_free (simon0 0 0) (gst0 0 0) genv_vs BLUE_B); try reflexivity; try discriminate.
  - apply sim0. lia.
  - cbn. lia.
Defined.

Section Ticks.
Context {E : Type} `{GE : GameEnv E}.

Lemma ticks_down k s (e : E) rest :
  over s = None -> Z.of_nat k <= clock s ->
  run_events sp_event (replicate k ETick ++ rest) (s, e) =
  run_events sp_event rest (set_clock (clock s - Z.of_nat k) s, e).
Proof.
  revert s. induction k as [| k IH]; intros s Ho Hc.
  - rewrite Z.sub_0_r. by destruct s.
  - cbn [replicate app run_events sp_event]. unfold sp_tick. unfold bind at 1. rewrite bind_gets.
    unfold id. cbn [fst]. rewrite Ho.
    replace (clock s =? 0) with false by (symmetry; apply Z.eqb_neq; lia).
    replace (0 <? clock s) with true by (symmetry; apply Z.ltb_lt; lia). cbn [modify fst snd].
    rewrite IH by (cbn; done || lia). cbn [set_clock clock].
    replace (clock s - 1 - Z.of_nat k) with (clock s - Z.of_nat (S k)) by lia. by destruct s.
Qed.

Lemma tick_pass s (e : E) :
  over s = None -> clock s = 0 -> vs_open s = true ->
  run_events sp_event [ETick] (s, e) = sp_pass_turn (s, e).
Proof.
  intros Ho Hc Hv. cbn [run_events sp_event]. unfold sp_tick. unfold bind at 1. rewrite bind_gets.
  unfold id. cbn [fst]. by rewrite Ho, Hc, Hv.
Qed.
(** Pressing the VS button in a VS round. *)
Lemma click_vs s g (e : E) :
  sim s g -> over s = None -> vs_open s = false -> vs_round s = true ->
  pos s = length (seq s) -> zlen (seq s) < rounds s ->
  exists g1, click_button VS_B (g, e) = Ok (tt, (g1, e)) /\
    sim (Simon (seq s ++ [VS_B]) (pos s) (turn s) true true None VS_INTERVAL (zlen (seq s)) (rounds s)
           (lit s) (cursor s)) g1.
Proof.
  intros Hs Ho Hv Hr Hp Hl.
  pose proof (step_press s g e VS_B Hs Ho ltac:(done)) as Hst. unfold step_ok, sp_press in Hst.
  rewrite bind_gets in Hst. unfold id in Hst. cbn [fst] in Hst.
  rewrite Hv, lookup_ge_None_2, bind_modify in Hst by lia. cbn [fst snd] in Hst.
  replace (zlen (seq s) =? rounds s) with false in Hst by (symmetry; apply Z.eqb_neq; lia).
  rewrite Hr in Hst. change (bool_decide (VS_B = VS_B)) with true in Hst. cbn [andb] in Hst.
  unfold sp_append in Hst. rewrite !bind_modify in Hst. cbn [fst snd] in Hst.
  destruct Hst as (g1 & Hg1 & Hs1). exists g1. split; [exact Hg1 |].
  destruct s. cbn in *. by subst.
Qed.

(** The seven ticks of its interval. *)
Lemma ticks_vs s g (e : E) :
  sim s g -> over s = None -> vs_open s = true -> clock s = VS_INTERVAL ->
  exists g', run_events game_event (replicate 7 ETick) (g, e) = Ok (tt, (g', snd (g_rand e))) /\
    sim (Simon (seq s) (pos s) (negb (turn s)) false ((fst (g_rand e) mod 10) mod 2 =? 0) None INTERVAL
           (score s) (rounds s) (lit s) (cursor s)) g'.
Proof.
  intros Hs Ho Hv Hc. pose proof (step_events (replicate 7 ETick) s g e Hs) as Hst. unfold step_ok in Hst.
  assert (Hrun : run_events sp_event (replicate 7 ETick) (s, e) = sp_pass_turn (set_clock 0 s, e)).
  { change (replicate 7 ETick) with (replicate 6 ETick ++ [ETick]).
    rewrite (ticks_down 6) by (done || rewrite Hc; unfold VS_INTERVAL; lia). rewrite Hc.
    change (VS_INTERVAL - Z.of_nat 6) with 0. by apply tick_pass. }
  rewrite Hrun in Hst. unfold sp_pass_turn, sp_draw_vs in Hst. rewrite !bind_modify in Hst.
  cbn [fst snd] in Hst. unfold bind, env, modify in Hst. cbn [fst snd] in Hst.
  destruct Hst as (g' & Hg & Hs'). exists g'. split; [exact Hg |].
  destruct s. cbn in *. by subst.
Qed.
End Ticks.

(** A player who only presses the VS button spares the other player the
    sequence: when the interval is over the position is not reset, so the other
    player has nothing to repeat but the VS button. *)
Theorem vs_alone_skips_repetition {E} `{GameEnv E} s g (e : E) :
  sim s g -> over s = None -> vs_open s = false -> vs_round s = true ->
  pos s = length (seq s) -> zlen (seq s) < rounds s ->
  exists g', (do* click_button VS_B in run_events game_event (replicate 7 ETick)) (g, e)
      = Ok (tt, (g', snd (g_rand e))) /\
    is_player_1 g' = negb (is_player_1 g) /\ VS_was_pressed g' = false /\
    buttons_size g' = zlen (seq s) + 1 /\ guessed g' = zlen (seq s) /\
    exists g'', click_button VS_B (g', snd (g_rand e)) = Ok (tt, (g'', snd (g_rand e))) /\
      guessed g'' = buttons_size g'' /\ game_end g'' = false.
Proof.
  intros Hs Ho Hv Hr Hp Hl.
  set (s1 := Simon (seq s ++ [VS_B]) (pos s) (turn s) true true None VS_INTERVAL (zlen (seq s)) (rounds s)
               (lit s) (cursor s)).
  destruct (click_vs s g e Hs Ho Hv Hr Hp Hl) as (g1 & Hc1 & Hs1). fold s1 in Hs1.
  rewrite (bind_ok _ _ _ _ _ Hc1).
  set (s2 := Simon (seq s ++ [VS_B]) (pos s) (negb (turn s)) false
               ((fst (g_rand e) mod 10) mod 2 =? 0) None INTERVAL (zlen (seq s)) (rounds s) (lit s) (cursor s)).
  destruct (ticks_vs s1 g1 e Hs1 eq_refl eq_refl eq_refl) as (g2 & Hc2 & Hs2). change (sim s2 g2) in Hs2.
  exists g2. split; [exact Hc2 |].
  rewrite (sim_turn _ _ Hs2), (sim_vs_open _ _ Hs2), (sim_size _ _ Hs2), (sim_pos _ _ Hs2), (sim_turn _ _ Hs).
  cbn [s2 turn vs_open seq pos]. rewrite zlen_snoc, Hp. split; [done |]. split; [done |]. split; [done |].
  split; [done |].
  destruct (click_right s2 g2 (snd (g_rand e)) VS_B Hs2 eq_refl eq_refl ltac:(done)) as (g3 & Hg3 & Hs3).
  { cbn [s2 seq pos]. by rewrite Hp, lookup_app_r, Nat.sub_diag by lia. }
  exists g3. split; [exact Hg3 |]. rewrite (sim_pos _ _ Hs3), (sim_size _ _ Hs3).
  pose proof (sim_over _ _ Hs3) as Hov. cbn [set_clock set_pos s2 over] in Hov.
  cbn [set_clock set_pos s2 pos seq]. rewrite zlen_snoc, Hp. split; [unfold zlen; lia | apply Hov].
Qed.

Definition simon_vs : simon :=
  Simon [GREEN_B; RED_B] 2 true false true None (-1) 1 5 DEFAULT center_mouse.
Definition gst_vs : gst :=
  Gst WINNER1 (PBlock [Some GREEN_B; Some RED_B; None; None; None]) DEFAULT center_mouse 2 1 5 true
    2 (-1) false false true.

Lemma sim_vs0 : sim simon_vs gst_vs.
Proof. by constructor. Qed.

Lemma vs_alone_skips_repetition_witness :
  exists g', (do* click_button VS_B in run_events game_event (replicate 7 ETick)) (gst_vs, genv_vs)
      = Ok (tt, (g', genv_vs)) /\ is_player_1 g' = false /\ buttons_size g' = 3 /\ guessed g' = 2.
Proof.
  destruct (vs_alone_skips_repetition simon_vs gst_vs genv_vs sim_vs0 eq_refl eq_refl eq_refl eq_refl eq_refl)
    as (g' & Hr & Ht & _ & Hb & Hg & _).
  exists g'. split; [exact Hr |]. split; [exact Ht |]. split; [exact Hb | exact Hg].
Defined.

(** When the time of a player is up the winner screen is not shown: the same
    tick that ends the game leaves it for the leaderboard or the entry of a high
    score, and replaces the alarm of five seconds set for the screen. *)
Theorem timeout_leaves_at_once {E} `{GameEnv E, !GameSafe E} s g (e : E) :
  sim s g -> over s = None -> vs_open s = false -> time_left_for_click g = 0 ->
  exists low g' e', g_getLowestHiScore (g_set_seconds_alarm (g_set_timed_alarm 5 e)) = Ok low /\
    game_update_status_rtc (g, e) = Ok (tt, (g', e')) /\
    game_end g' = true /\ ws g' = opponent (is_player_1 g) /\
    (if low <? player_score g
     then g_reset_hiscore (player_score g)
            (g_set_mode HIGHSCORE (g_set_seconds_alarm (g_set_timed_alarm 5 e))) = Ok e'
     else e' = g_set_mode LEADERBOARD (g_set_seconds_alarm (g_set_timed_alarm 5 e))).
Proof.
  intros Hs Ho Hv Hclk. pose proof (step_tick s g e Hs) as Hst. unfold step_ok, sp_tick in Hst.
  rewrite bind_gets in Hst. unfold id in Hst. cbn [fst] in Hst.
  rewrite Ho, Hv, <- (sim_clock _ _ Hs), Hclk in Hst. change (0 =? 0) with true in Hst. cbn iota in Hst.
  rewrite (sim_score _ _ Hs), (sim_turn _ _ Hs).
  set (e2 := g_set_seconds_alarm (g_set_timed_alarm 5 e)) in *.
  pose proof (low_ok e2) as Hlow. destruct (g_getLowestHiScore e2) as [low |] eqn:Hl; [| done].
  pose proof (hiscore_ok (score s) (g_set_mode HIGHSCORE e2)) as Hhi.
  exists low. unfold sp_finish, sp_leave in Hst. revert Hst. mrun. unfold id.
  destruct (turn s); cbn [opponent]; mrun; unfold id; fold e2; rewrite Hl; mrun; cbn [set_over score];
    destruct (low <? score s); mrun.
  1,3: destruct (g_reset_hiscore _ _) as [e3 |]; [| done]; mrun; intros (g' & Hg & Hs'); exists g', e3.
  3,4: intros (g' & Hg & Hs'); exists g'; eexists.
  all: pose proof (sim_over _ _ Hs') as Hov; cbn in Hov; destruct Hov as (H1 & H2 & _); done.
Qed.

Lemma timeout_leaves_at_once_witness :
  exists g' e', game_update_status_rtc (gst0 1 0, genv_vs) = Ok (tt, (g', e')) /\
    game_end g' = true /\ ws g' = WINNER2.
Proof.
  destruct (timeout_leaves_at_once (simon0 1 0) (gst0 1 0) genv_vs (sim0 1 0 ltac:(lia)) eq_refl eq_refl eq_refl)
    as (low & g' & e' & _ & Hr & Hend & Hw & _).
  exists g', e'. split; [exact Hr |]. split; [exact Hend | exact Hw].
Defined.

(** ** The screen and the hit tests *)

(** What the drawing functions keep between frames. *)
Definition gdraw_ok (a : assets) (d : gdraw) : Prop := counter_ok a (g_counter d) /\ round_ok (g_round d).

(** The scene of the statics. *)
Definition game_scene (g : gst) : scene :=
  if game_end g then Scene (winner_screen (ws g)) []
  else playing_scene (ps g) (is_player_1 g) (time_left_for_click g) (buttons_size g) (mouse g).

Lemma draws_game a g d v :
  assets_ok a -> screen_ok v -> gdraw_ok a d -> game_inv g -> buttons_size g <= 999 ->
  exists d' v', draw_game_graphics a g d v = Ok (d', v') /\ screen_ok v' /\ video_mem v' = video_mem v /\
    gdraw_ok a d' /\ (game_end g = false -> round (g_round d') = buttons_size g) /\
    drawn v' ~~ render a (game_scene g).
Proof.
  intros Ha Hv [Hcd Hrd] Hg Hsz. unfold draw_game_graphics, game_scene. destruct (game_end g); cbn [negb].
  - destruct (winner_drawn a (ws g) v Ha Hv) as (v' & Hd & Hv' & Hm & Hp).
    unfold draw_winner_graphics. rewrite Hd. cbn [res_bind]. exists d, v'. split_and!; done.
  - destruct (frame_drawn a (ps g) (is_player_1 g) (time_left_for_click g) (buttons_size g) (mouse g) (g_counter d) (g_round d) v)
      as (v1 & c' & v2 & r' & v3 & v4 & Hd1 & Hd2 & Hd3 & Hd4 & Hv4 & Hm & Hc & Hr & Hn & Hp); try done.
    + pose proof (inv_clock g Hg). unfold VS_INTERVAL in *. lia.
    + pose proof (inv_guessed g Hg). lia.
    + apply (inv_mouse g Hg).
    + unfold draw_buttons, draw_player, print_player1, print_player2, draw_counter, draw_round, draw_mouse.
      rewrite Hd1. cbn [res_bind]. rewrite Hd2. cbn [res_bind fst snd]. rewrite Hd3. cbn [res_bind fst snd]. rewrite Hd4.
      eexists _, v4. split_and!; done.
Qed.

(** A frame of a running game is drawn without a fault, inside the back buffer,
    for every state within the invariant of at most 999 buttons; the counter
    shows the digit of the seconds left (0 when there is no limit), and the
    caches of the counter and of the round stay good for the next frame. *)
Theorem draw_game_safe a g d v :
  assets_ok a -> screen_ok v -> gdraw_ok a d -> game_inv g -> buttons_size g <= 999 ->
  exists d' v', draw_game_graphics a g d v = Ok (d', v') /\ screen_ok v' /\ video_mem v' = video_mem v /\
    gdraw_ok a d' /\ (game_end g = false -> round (g_round d') = buttons_size g).
Proof. intros. destruct (draws_game a g d v) as (d' & v' & ? & ? & ? & ? & ? & _); try done. by exists d', v'. Qed.

Lemma draw_game_safe_witness :
  exists d' v', draw_game_graphics assets0 (gst0 1 4) gdraw_init frame0 = Ok (d', v') /\ screen_ok v' /\
    round (g_round d') = 2.
Proof.
  assert (Hi : game_inv (gst0 1 4)).
  { constructor; try (cbn; unfold VS_INTERVAL; lia); try done.
    intros _. exists [GREEN_B; RED_B]. split; [split; [done | reflexivity] | done]. }
  destruct (draw_game_safe assets0 (gst0 1 4) gdraw_init frame0 assets0_ok frame0_ok
              (conj (counter_init_ok _) round_init_ok) Hi ltac:(cbn; lia)) as (d' & v' & H1 & H2 & _ & _ & H3).
  exists d', v'. split; [exact H1 |]. split; [exact H2 | exact (H3 eq_refl)].
Defined.

(** The counter: whatever was drawn before, the digit drawn is that of the
    seconds left, or zero without a limit. *)
Theorem counter_shows_time a g c v :
  assets_ok a -> screen_ok v -> counter_ok a c -> -1 <= time_left_for_click g <= 9 ->
  exists c' v', draw_counter a g c v = Ok (c', v') /\ counter_ok a c' /\
    draw_prop a (Number (Z.max 0 (time_left_for_click g))) 700 0 v = Ok v'.
Proof.
  intros Ha Hv Hc Ht.
  destruct (draw_counter_cached a (time_left_for_click g) c v Ha Hv Hc ltac:(lia))
    as (c' & v' & Hd & _ & Hc' & Hp). by exists c', v'.
Qed.

Lemma counter_shows_time_witness :
  exists c' v', draw_counter assets0 (gst0 1 4) counter_init frame0 = Ok (c', v') /\ counter_ok assets0 c' /\
    draw_prop assets0 (Number 4) 700 0 frame0 = Ok v'.
Proof.
  exact (counter_shows_time assets0 (gst0 1 4) counter_init frame0 assets0_ok frame0_ok (counter_init_ok _)
           ltac:(cbn; lia)).
Defined.

(** The number of the round: the three local digits hold its decimal
    representation up to 999, and are overrun from 1000 on. *)
Theorem round_digits_decimal n :
  0 <= n ->
  if n <=? 999
  then exists chars, round_chars n = Ok (chars, zlen (print_d n)) /\ take (length (print_d n)) chars = print_d n
  else round_chars n = Undef OutOfBounds.
Proof.
  intros Hn. destruct (Z.leb_spec n 999).
  - destruct (round_chars_small n ltac:(lia)) as (chars & H1 & H2 & _). by exists chars.
  - apply round_chars_large. lia.
Qed.

Lemma round_digits_decimal_witness :
  exists chars, round_chars 407 = Ok (chars, 3) /\ take 3 chars = [52; 48; 55].
Proof. exact (round_digits_decimal 407 ltac:(lia)). Defined.

(** The circle of a button. *)
Definition circle (b : button_click_t) (m : mouse_state) : bool :=
  match b with
  | RED_B => in_circle RED_X RED_Y m
  | GREEN_B => in_circle GREEN_X GREEN_Y m
  | PURPLE_B => in_circle PURPLE_X PURPLE_Y m
  | BLUE_B => in_circle BLUE_X BLUE_Y m
  | YELLOW_B => in_circle YELLOW_X YELLOW_Y m
  | VS_B => in_circle VS_X VS_Y m
  | NO_BUTTON => false
  end.

(** Two circles with a common point have centres at most two radii apart. *)
Lemma circles_meet cx cy dx dy m :
  in_circle cx cy m = true -> in_circle dx dy m = true ->
  (cx - dx) * (cx - dx) + (cy - dy) * (cy - dy) <= 4 * (BUTTON_WIDTH * BUTTON_WIDTH).
Proof.
  unfold in_circle. rewrite !Z.leb_le. generalize (BUTTON_WIDTH * BUTTON_WIDTH). intros r.
  assert (Hsq : forall p q, (p - q) * (p - q) <= 2 * (p * p) + 2 * (q * q)).
  { intros p q. pose proof (Z.square_nonneg (p + q)). lia. }
  pose proof (Hsq (x_pos m - dx) (x_pos m - cx)). pose proof (Hsq (y_pos m - dy) (y_pos m - cy)). lia.
Qed.

Lemma circles_apart b b' m :
  circle b m = true -> circle b' m = true -> b = b' \/ b = RED_B /\ b' = VS_B \/ b = VS_B /\ b' = RED_B.
Proof.
  destruct b, b'; cbn [circle]; intros H1 H2; try done; try tauto;
    exfalso; pose proof (circles_meet _ _ _ _ m H1 H2) as H; by vm_compute in H.
Qed.

(** The hit tests: the button of a click is one whose circle contains the mouse,
    there is none only outside every circle, and the only circles that overlap
    are the red one and the VS one, where the red button wins. *)
Theorem button_click_spec g b :
  get_button_click g = b <->
  match b with
  | NO_BUTTON => forall b', circle b' (mouse g) = false
  | VS_B => circle VS_B (mouse g) = true /\ circle RED_B (mouse g) = false
  | _ => circle b (mouse g) = true
  end.
Proof.
  unfold get_button_click, get_red_click, get_green_click, get_purple_click, get_blue_click, get_yellow_click,
    get_vs_click.
  pose proof (fun x y => circles_apart x y (mouse g)) as Hap. split.
  - intros <-. repeat case_match; unfold circle; try done. intros []; done.
  - intros Hb. assert (Hno : forall x y, circle x (mouse g) = true -> x <> y ->
        ~ (x = RED_B /\ y = VS_B) -> ~ (x = VS_B /\ y = RED_B) -> circle y (mouse g) = false).
    { intros x y Hx Hne H1 H2. destruct (circle y (mouse g)) eqn:Hy; [| done].
      destruct (Hap x y Hx Hy) as [| [|]]; tauto. }
    fold (circle RED_B (mouse g)) (circle GREEN_B (mouse g)) (circle PURPLE_B (mouse g))
      (circle BLUE_B (mouse g)) (circle YELLOW_B (mouse g)) (circle VS_B (mouse g)).
    destruct b; [| | | | | destruct Hb as [Hb Hr] |];
      repeat match goal with
        | |- context [circle ?y (mouse g)] =>
            first [rewrite Hb | rewrite Hr
                  | rewrite (Hno _ y Hb) by (first [discriminate | intros [? ?]; discriminate])]
        end; done.
Qed.
