(* ===== verification/FullGame.v ===== *)
(** A whole game on one computer: two players who make no mistake and keep their
    time come to a tie, whatever they do with the mouse in between. *)

From stdpp Require Import base tactics list.
From Stdlib Require Import ZArith Lia Ascii.
From S2P Require Import Prelude Consts Keyboard Mouse NumLetters Vc Screen CString Pad Game Says GameProps.

(** ** Hands

    The buttons a sequence of events presses, from the position of the cursor:
    packets that move, hold or release press nothing.  [None] when some press
    comes more than the interval after the one before it. *)
Definition click_of (m : mouse_state) : button_click_t :=
  if left_click m then button_at m else NO_BUTTON.

Fixpoint presses (m : mouse_state) (idle : Z) (evs : list event) : option (list button_click_t) :=
  match evs with
  | [] => Some []
  | ETick :: evs => if idle <? INTERVAL then presses m (idle + 1) evs else None
  | EKey _ :: evs => presses m idle evs
  | ETimer :: evs => presses (set_left_click false m) idle evs
  | EMouse p :: evs =>
      let m := update_mouse p m in
      match click_of m with
      | NO_BUTTON => presses (set_left_click false m) idle evs
      | c => option_map (cons c) (presses m 0 evs)
      end
  end.

(** The presses of a game in which the buttons [bs] are added: in turn [k] the
    first [k] buttons are repeated and one is added, and at the end all are
    repeated. *)
Definition moves (bs : list button_click_t) : list button_click_t :=
  concat (map (fun k => take k bs) (List.seq 1 (length bs))) ++ bs.

(** What is left of them in round [i] with [j] buttons repeated. *)
Definition rest (bs : list button_click_t) (i j : nat) : list button_click_t :=
  drop j (take (S i) bs) ++ concat (map (fun k => take k bs) (List.seq (S (S i)) (length bs - i))).

Lemma moves_rest bs : moves bs = rest bs 0 0.
Proof.
  unfold moves, rest. rewrite drop_0, Nat.sub_0_r.
  assert (Hs : forall a n, concat (map (fun k => take k bs) (List.seq a n)) ++ take (a + n) bs =
                 take a bs ++ concat (map (fun k => take k bs) (List.seq (S a) n))).
  { intros a n. revert a. induction n as [| n IH]; intros a; [by rewrite Nat.add_0_r, app_nil_r |].
    cbn [List.seq map concat]. rewrite <- app_assoc. f_equal. rewrite <- IH. by rewrite Nat.add_succ_r. }
  rewrite <- (Hs 1%nat (length bs)). cbn [Nat.add]. by rewrite (take_ge bs (S _)) by lia.
Qed.

(** The next press repeats a button or adds one. *)
Lemma rest_repeat bs i j c cs :
  (j < i <= length bs)%nat -> rest bs i j = c :: cs -> take i bs !! j = Some c /\ cs = rest bs i (S j).
Proof.
  intros Hj Hr. unfold rest in Hr |- *.
  destruct (lookup_lt_is_Some_2 (take (S i) bs) j) as [b Hb]; [rewrite length_take; lia |].
  rewrite (drop_S _ b j Hb) in Hr. injection Hr as -> <-. split; [| done].
  rewrite lookup_take_lt in Hb by lia. by rewrite lookup_take_lt by lia.
Qed.

Lemma rest_add bs i c cs :
  (i < length bs)%nat -> rest bs i i = c :: cs -> bs !! i = Some c /\ cs = rest bs (S i) 0.
Proof.
  intros Hi Hr. unfold rest in Hr |- *. destruct (lookup_lt_is_Some_2 bs i Hi) as [b Hb].
  rewrite (drop_S _ b i) in Hr by (by rewrite lookup_take_lt by lia). injection Hr as -> <-. split; [done |].
  rewrite (drop_ge (take _ _)) by (rewrite length_take; lia).
  replace (length bs - i)%nat with (S (length bs - S i)) by lia. by cbn [List.seq map concat app].
Qed.

Lemma rest_nil bs i j :
  (j <= i <= length bs)%nat -> rest bs i j = [] -> i = length bs /\ j = length bs.
Proof.
  intros Hj Hr. unfold rest in Hr. apply app_nil in Hr as [Hd Hc].
  apply (f_equal length) in Hd. rewrite length_drop, length_take in Hd. cbn [length] in Hd. lia.
Qed.

Lemma rest_end bs j c cs : rest bs (length bs) j = c :: cs -> (j < length bs)%nat.
Proof.
  unfold rest. rewrite Nat.sub_diag, app_nil_r. intros Hr. apply (f_equal length) in Hr.
  rewrite length_drop, length_take in Hr. cbn [length] in Hr. lia.
Qed.

(** ** The abstract game under such a hand *)

Section Hand.
Context {E : Type} `{GE : GameEnv E}.
Variable bs : list button_click_t.
Hypothesis Hbs : Forall (fun c => c <> NO_BUTTON /\ c <> VS_B) bs.

(** The environment after [n] random numbers. *)
Definition drawn_rand (n : nat) (e : E) : E := Nat.iter n (fun e => snd (g_rand e)) e.

(** Round [i], [j] buttons repeated, [idle] seconds after the last press. *)
Record at_round (i j : nat) (m : mouse_state) (idle : Z) (s : simon) : Prop := {
  at_in : (j <= i <= length bs)%nat;
  at_seq : seq s = take i bs;
  at_pos : pos s = j;
  at_turn : turn s = Nat.even i;
  at_vs : vs_open s = false;
  at_over : over s = None;
  at_clock : clock s = -1 \/ clock s = INTERVAL - idle;
  at_idle : 0 <= idle <= INTERVAL;
  at_rounds : rounds s = zlen bs;
  at_cursor : cursor s = m
}.

Lemma right_button i c : bs !! i = Some c -> c <> NO_BUTTON /\ c <> VS_B.
Proof. intros Hc. exact (Forall_lookup_1 _ _ _ _ Hbs Hc). Qed.

(** One press of the hand. *)
Lemma press_round i j m idle s (e : E) c cs :
  at_round i j m idle s -> rest bs i j = c :: cs ->
  exists i' j' s', sp_press c (s, drawn_rand (S i) e) = Ok (tt, (s', drawn_rand (S i') e)) /\
    at_round i' j' m 0 s' /\ cs = rest bs i' j'.
Proof.
  intros [Hin Hseq Hpos Ht Hv Ho Hc Hi Hr Hm] Hrest. unfold sp_press. rewrite bind_gets. unfold id. cbn [fst].
  rewrite Hv, Hseq, Hpos. assert (Hlen : length (take i bs) = i) by (rewrite length_take; lia).
  destruct (decide (j < i)%nat) as [Hj | Hj].
  - destruct (rest_repeat bs i j c cs) as [Hb ->]; [lia | done |]. rewrite Hb, bool_decide_eq_true_2 by done.
    rewrite Hlen. mrun. eexists i, (S j), _. split; [reflexivity |]. split; [| done].
    constructor; cbn; try done; try lia.
    destruct (decide _); [by left | right; lia].
  - assert (j = i) as -> by lia. rewrite lookup_ge_None_2 by lia.
    destruct (decide (i = length bs)) as [-> | Hne]; [apply rest_end in Hrest; lia |].
    destruct (rest_add bs i c cs) as [Hb ->]; [lia | done |]. destruct (right_button i c Hb) as [_ Hnv].
    rewrite Hr. replace (zlen (take i bs) =? zlen bs) with false
      by (symmetry; apply Z.eqb_neq; unfold zlen; rewrite Hlen; lia).
    rewrite (bool_decide_eq_false_2 (c = VS_B)), andb_false_r by done.
    unfold sp_append, sp_pass_turn, sp_draw_vs. mrun. eexists (S i), O, _. split; [reflexivity |]. split; [| done].
    assert (Hev : negb (turn s) = Nat.even (S i)) by (by rewrite Ht, Nat.even_succ, <- Nat.negb_even).
    constructor; cbn [seq pos turn vs_open over clock rounds cursor set_vs_round set_vs_open set_clock set_turn set_pos set_seq
      set_score]; try done; try lia.
    rewrite Hseq. symmetry. by apply take_S_r.
Qed.

(** An event of the hand. *)
Lemma event_round ev evs i j m idle s (e : E) :
  at_round i j m idle s -> presses m idle (ev :: evs) = Some (rest bs i j) ->
  exists i' j' m' idle' s', sp_event ev (s, drawn_rand (S i) e) = Ok (tt, (s', drawn_rand (S i') e)) /\
    at_round i' j' m' idle' s' /\ presses m' idle' evs = Some (rest bs i' j').
Proof.
  intros Hs Hp. pose proof Hs as [Hin Hseq Hpos Ht Hv Ho Hc Hi Hr Hm]. destruct ev as [p | | k |]; cbn [presses sp_event] in *.
  - unfold sp_mouse. rewrite bind_gets. unfold id. cbn [fst]. rewrite Ho, Hm. unfold click_of in Hp.
    set (m1 := update_mouse p m) in *. set (c := if left_click m1 then button_at m1 else NO_BUTTON) in *.
    rewrite bind_modify. cbn [fst snd].
    destruct (decide (c = NO_BUTTON)) as [Hn | Hn].
    + rewrite bool_decide_eq_true_2 by done. rewrite bind_modify. cbn [fst snd]. rewrite Hn in Hp.
      eexists i, j, _, idle, _. split; [reflexivity |]. split; [| exact Hp]. by constructor.
    + rewrite bool_decide_eq_false_2 by done.
      assert (Hp' : option_map (cons c) (presses m1 0 evs) = Some (rest bs i j)) by (by destruct c).
      destruct (presses m1 0 evs) as [cs |] eqn:Hcs; [| done]. cbn [option_map] in Hp'. injection Hp' as Hrest.
      destruct (press_round i j m1 idle (set_cursor m1 s) e c cs) as (i' & j' & s' & Hr1 & Hs' & ->);
        [by constructor | done |].
      rewrite (bind_ok _ _ _ _ _ Hr1). eexists i', j', m1, 0, _. split; [reflexivity |]. split; [| exact Hcs].
      destruct Hs'. by constructor.
  - unfold sp_tick. rewrite bind_gets. unfold id. cbn [fst]. rewrite Ho.
    destruct (Z.ltb_spec idle INTERVAL) as [Hlt | Hge]; [| done].
    replace (clock s =? 0) with false by (symmetry; apply Z.eqb_neq; lia).
    eexists i, j, m, (idle + 1), _. split; [reflexivity |]. split; [| exact Hp].
    constructor; try done; try lia. cbn [set_clock clock].
    destruct Hc as [Hc | Hc]; rewrite Hc; [by left |]. right.
    replace (0 <? INTERVAL - idle) with true by (symmetry; apply Z.ltb_lt; lia). lia.
  - unfold sp_key. rewrite bind_gets. unfold id. cbn [fst]. rewrite Ho. by eexists i, j, m, idle, s.
  - eexists i, j, _, idle, _. split; [reflexivity |]. split; [| exact Hp].
    constructor; cbn; try done. by rewrite Hm.
Qed.

Lemma events_round evs i j m idle s (e : E) :
  at_round i j m idle s -> presses m idle evs = Some (rest bs i j) ->
  exists m' idle' s', run_events sp_event evs (s, drawn_rand (S i) e) = Ok (tt, (s', drawn_rand (S (length bs)) e)) /\
    at_round (length bs) (length bs) m' idle' s'.
Proof.
  revert i j m idle s. induction evs as [| ev evs IH]; intros i j m idle s Hs Hp.
  - injection Hp as Hp. symmetry in Hp. apply rest_nil in Hp as [-> ->]; [| apply Hs]. by exists m, idle, s.
  - destruct (event_round ev evs i j m idle s e Hs Hp) as (i' & j' & m' & idle' & s' & Hr & Hs' & Hp').
    cbn [run_events]. rewrite (bind_ok _ _ _ _ _ Hr). by eapply IH.
Qed.

(** The press after the last. *)
Lemma last_press m idle s g (e : E) p :
  at_round (length bs) (length bs) m idle s -> sim s g -> packet_click p g <> NO_BUTTON ->
  exists g', game_update_status_mouse p (g, e) = Ok (tt, (g', g_set_timed_alarm 5 e)) /\
    game_end g' = true /\ ws g' = TIE /\ player_score g' = zlen bs /\ buttons g' = PFreed.
Proof.
  intros [Hin Hseq Hpos Ht Hv Ho Hc Hi Hr Hm] Hs Hp. pose proof (step_event (EMouse p) s g e Hs) as Hst.
  cbn [sp_event game_event] in Hst. unfold step_ok, sp_mouse in Hst. rewrite bind_gets in Hst. unfold id in Hst. cbn [fst] in Hst.
  unfold packet_click in Hp. rewrite (sim_cursor s g Hs) in Hp. rewrite Ho in Hst.
  set (c := if left_click (update_mouse p (cursor s)) then button_at (update_mouse p (cursor s)) else NO_BUTTON) in *.
  rewrite bind_modify in Hst. cbn [fst snd] in Hst. rewrite bool_decide_eq_false_2 in Hst by done.
  unfold sp_press in Hst. unfold bind at 1 in Hst. rewrite bind_gets in Hst. unfold id in Hst.
  cbn [fst set_cursor seq pos vs_open rounds] in Hst. rewrite take_ge in Hseq by lia.
  rewrite Hv, Hseq, Hpos, lookup_ge_None_2, Hr, Z.eqb_refl in Hst by lia. unfold sp_finish in Hst. revert Hst. mrun.
  intros (g' & Hg & Hs'). exists g'. split; [exact Hg |].
  pose proof (sim_over _ _ Hs') as Hov. pose proof (sim_score _ _ Hs') as Hsc. cbn in Hov, Hsc.
  destruct Hov as (H1 & H2 & H3). done.
Qed.
End Hand.

Lemma even_of_nat k : Z.even (Z.of_nat k) = Nat.even k.
Proof.
  induction k as [| k IH]; [done |].
  by rewrite Nat2Z.inj_succ, Z.even_succ, Nat.even_succ, <- Z.negb_even, <- Nat.negb_even, IH.
Qed.

(** ** Properties *)


(** Two rounds: player 1 moves to the red button and presses it; player 2 repeats
    it a second later and adds the green one; player 1 repeats both. *)
Definition hop (x y : Z) (down : bool) : packet := Packet (0, 0, 0) false false down x y false false.
Definition two_rounds : list event :=
  [EMouse (hop 0 208 false); EMouse (hop 0 0 true); ETimer; EMouse (hop 0 0 false); ETick; EMouse (hop 0 0 true);
   EMouse (hop (-182) (-126) false); EMouse (hop 0 0 true); EKey (KeyPress ENTER false);
   EMouse (hop 182 126 false); ETick; ETick; ETick; ETick; EMouse (hop 0 0 true);
   EMouse (hop (-182) (-126) false); EMouse (hop 0 0 true); EMouse (hop 0 0 false)].

