(* ===== verification/MpGame.v ===== *)
(** [mp_game.c]: the game on two computers connected by their serial ports.

    Its statics have the names of those of [game.c] and are other variables; the
    definitions are in the module [Mp]. *)

From stdpp Require Import base tactics list.
From Stdlib Require Import ZArith Lia Ascii.
From S2P Require Import Prelude Consts Keyboard Mouse NumLetters Vc Screen Pad.

(** ** The interface

    What this file uses of the other files: the mode, the alarms, the lowest
    score, the entry of the highscore screen, and of [uart.c]
    [check_thr_emtpy] and [serial_write_byte]. *)

Class MpEnv (E : Type) := {
  m_set_mode : Game_Modes -> E -> E;
  m_set_timed_alarm : Z -> E -> E;
  m_set_seconds_alarm : E -> E;
  m_getLowestHiScore : E -> res Z;
  m_reset_hiscore : Z -> E -> res E;
  m_check_thr_emtpy : ST E bool;
  m_serial_write_byte : Z -> ST E bool
}.

Module Mp.

(** ** The statics of [mp_game.h], and those of [start_game] *)

Record mst := Mst {
  ws : Winners;
  buttons : block;
  ps : Play_Screens;
  mp_mouse : mouse_state;
  buttons_size : Z;
  player_score : Z;
  max_buttons_size : Z;
  is_player_1 : bool;
  is_host : bool;
  guessed : Z;
  time_left_for_click : Z;
  time_left_for_screen : Z;
  game_end : bool;
  VS_was_pressed : bool;
  VS_screen : bool;
  is_vs_round : bool;
  game_started : bool;
  uart_data : Z;
  uart_has_data_to_send : bool;
  received_no_bytes : Z;
  num_round_sent_bytes : Z;
  received_byte : Z
}.

Definition set_ws (x : Winners) (g : mst) : mst :=
  Mst x (buttons g) (ps g) (mp_mouse g) (buttons_size g) (player_score g) (max_buttons_size
    g) (is_player_1 g) (is_host g) (guessed g) (time_left_for_click g) (time_left_for_screen
    g) (game_end g) (VS_was_pressed g) (VS_screen g) (is_vs_round g) (game_started g)
    (uart_data g) (uart_has_data_to_send g) (received_no_bytes g) (num_round_sent_bytes g)
    (received_byte g).
Definition set_buttons (x : block) (g : mst) : mst :=
  Mst (ws g) x (ps g) (mp_mouse g) (buttons_size g) (player_score g) (max_buttons_size g)
    (is_player_1 g) (is_host g) (guessed g) (time_left_for_click g) (time_left_for_screen g)
    (game_end g) (VS_was_pressed g) (VS_screen g) (is_vs_round g) (game_started g)
    (uart_data g) (uart_has_data_to_send g) (received_no_bytes g) (num_round_sent_bytes g)
    (received_byte g).
Definition set_ps (x : Play_Screens) (g : mst) : mst :=
  Mst (ws g) (buttons g) x (mp_mouse g) (buttons_size g) (player_score g) (max_buttons_size
    g) (is_player_1 g) (is_host g) (guessed g) (time_left_for_click g) (time_left_for_screen
    g) (game_end g) (VS_was_pressed g) (VS_screen g) (is_vs_round g) (game_started g)
    (uart_data g) (uart_has_data_to_send g) (received_no_bytes g) (num_round_sent_bytes g)
    (received_byte g).
Definition set_mp_mouse (x : mouse_state) (g : mst) : mst :=
  Mst (ws g) (buttons g) (ps g) x (buttons_size g) (player_score g) (max_buttons_size g)
    (is_player_1 g) (is_host g) (guessed g) (time_left_for_click g) (time_left_for_screen g)
    (game_end g) (VS_was_pressed g) (VS_screen g) (is_vs_round g) (game_started g)
    (uart_data g) (uart_has_data_to_send g) (received_no_bytes g) (num_round_sent_bytes g)
    (received_byte g).
Definition set_buttons_size (x : Z) (g : mst) : mst :=
  Mst (ws g) (buttons g) (ps g) (mp_mouse g) x (player_score g) (max_buttons_size g)
    (is_player_1 g) (is_host g) (guessed g) (time_left_for_click g) (time_left_for_screen g)
    (game_end g) (VS_was_pressed g) (VS_screen g) (is_vs_round g) (game_started g)
    (uart_data g) (uart_has_data_to_send g) (received_no_bytes g) (num_round_sent_bytes g)
    (received_byte g).
Definition set_player_score (x : Z) (g : mst) : mst :=
  Mst (ws g) (buttons g) (ps g) (mp_mouse g) (buttons_size g) x (max_buttons_size g)
    (is_player_1 g) (is_host g) (guessed g) (time_left_for_click g) (time_left_for_screen g)
    (game_end g) (VS_was_pressed g) (VS_screen g) (is_vs_round g) (game_started g)
    (uart_data g) (uart_has_data_to_send g) (received_no_bytes g) (num_round_sent_bytes g)
    (received_byte g).
Definition set_max_buttons_size (x : Z) (g : mst) : mst :=
  Mst (ws g) (buttons g) (ps g) (mp_mouse g) (buttons_size g) (player_score g) x
    (is_player_1 g) (is_host g) (guessed g) (time_left_for_click g) (time_left_for_screen g)
    (game_end g) (VS_was_pressed g) (VS_screen g) (is_vs_round g) (game_started g)
    (uart_data g) (uart_has_data_to_send g) (received_no_bytes g) (num_round_sent_bytes g)
    (received_byte g).
Definition set_is_player_1 (x : bool) (g : mst) : mst :=
  Mst (ws g) (buttons g) (ps g) (mp_mouse g) (buttons_size g) (player_score g)
    (max_buttons_size g) x (is_host g) (guessed g) (time_left_for_click g)
    (time_left_for_screen g) (game_end g) (VS_was_pressed g) (VS_screen g) (is_vs_round g)
    (game_started g) (uart_data g) (uart_has_data_to_send g) (received_no_bytes g)
    (num_round_sent_bytes g) (received_byte g).
Definition set_is_host (x : bool) (g : mst) : mst :=
  Mst (ws g) (buttons g) (ps g) (mp_mouse g) (buttons_size g) (player_score g)
    (max_buttons_size g) (is_player_1 g) x (guessed g) (time_left_for_click g)
    (time_left_for_screen g) (game_end g) (VS_was_pressed g) (VS_screen g) (is_vs_round g)
    (game_started g) (uart_data g) (uart_has_data_to_send g) (received_no_bytes g)
    (num_round_sent_bytes g) (received_byte g).
Definition set_guessed (x : Z) (g : mst) : mst :=
  Mst (ws g) (buttons g) (ps g) (mp_mouse g) (buttons_size g) (player_score g)
    (max_buttons_size g) (is_player_1 g) (is_host g) x (time_left_for_click g)
    (time_left_for_screen g) (game_end g) (VS_was_pressed g) (VS_screen g) (is_vs_round g)
    (game_started g) (uart_data g) (uart_has_data_to_send g) (received_no_bytes g)
    (num_round_sent_bytes g) (received_byte g).
Definition set_time_left_for_click (x : Z) (g : mst) : mst :=
  Mst (ws g) (buttons g) (ps g) (mp_mouse g) (buttons_size g) (player_score g)
    (max_buttons_size g) (is_player_1 g) (is_host g) (guessed g) x (time_left_for_screen g)
    (game_end g) (VS_was_pressed g) (VS_screen g) (is_vs_round g) (game_started g)
    (uart_data g) (uart_has_data_to_send g) (received_no_bytes g) (num_round_sent_bytes g)
    (received_byte g).
Definition set_time_left_for_screen (x : Z) (g : mst) : mst :=
  Mst (ws g) (buttons g) (ps g) (mp_mouse g) (buttons_size g) (player_score g)
    (max_buttons_size g) (is_player_1 g) (is_host g) (guessed g) (time_left_for_click g) x
    (game_end g) (VS_was_pressed g) (VS_screen g) (is_vs_round g) (game_started g)
    (uart_data g) (uart_has_data_to_send g) (received_no_bytes g) (num_round_sent_bytes g)
    (received_byte g).
Definition set_game_end (x : bool) (g : mst) : mst :=
  Mst (ws g) (buttons g) (ps g) (mp_mouse g) (buttons_size g) (player_score g)
    (max_buttons_size g) (is_player_1 g) (is_host g) (guessed g) (time_left_for_click g)
    (time_left_for_screen g) x (VS_was_pressed g) (VS_screen g) (is_vs_round g)
    (game_started g) (uart_data g) (uart_has_data_to_send g) (received_no_bytes g)
    (num_round_sent_bytes g) (received_byte g).
Definition set_VS_was_pressed (x : bool) (g : mst) : mst :=
  Mst (ws g) (buttons g) (ps g) (mp_mouse g) (buttons_size g) (player_score g)
    (max_buttons_size g) (is_player_1 g) (is_host g) (guessed g) (time_left_for_click g)
    (time_left_for_screen g) (game_end g) x (VS_screen g) (is_vs_round g) (game_started g)
    (uart_data g) (uart_has_data_to_send g) (received_no_bytes g) (num_round_sent_bytes g)
    (received_byte g).
Definition set_VS_screen (x : bool) (g : mst) : mst :=
  Mst (ws g) (buttons g) (ps g) (mp_mouse g) (buttons_size g) (player_score g)
    (max_buttons_size g) (is_player_1 g) (is_host g) (guessed g) (time_left_for_click g)
    (time_left_for_screen g) (game_end g) (VS_was_pressed g) x (is_vs_round g) (game_started
    g) (uart_data g) (uart_has_data_to_send g) (received_no_bytes g) (num_round_sent_bytes
    g) (received_byte g).
Definition set_is_vs_round (x : bool) (g : mst) : mst :=
  Mst (ws g) (buttons g) (ps g) (mp_mouse g) (buttons_size g) (player_score g)
    (max_buttons_size g) (is_player_1 g) (is_host g) (guessed g) (time_left_for_click g)
    (time_left_for_screen g) (game_end g) (VS_was_pressed g) (VS_screen g) x (game_started
    g) (uart_data g) (uart_has_data_to_send g) (received_no_bytes g) (num_round_sent_bytes
    g) (received_byte g).
Definition set_game_started (x : bool) (g : mst) : mst :=
  Mst (ws g) (buttons g) (ps g) (mp_mouse g) (buttons_size g) (player_score g)
    (max_buttons_size g) (is_player_1 g) (is_host g) (guessed g) (time_left_for_click g)
    (time_left_for_screen g) (game_end g) (VS_was_pressed g) (VS_screen g) (is_vs_round g) x
    (uart_data g) (uart_has_data_to_send g) (received_no_bytes g) (num_round_sent_bytes g)
    (received_byte g).
Definition set_uart_data (x : Z) (g : mst) : mst :=
  Mst (ws g) (buttons g) (ps g) (mp_mouse g) (buttons_size g) (player_score g)
    (max_buttons_size g) (is_player_1 g) (is_host g) (guessed g) (time_left_for_click g)
    (time_left_for_screen g) (game_end g) (VS_was_pressed g) (VS_screen g) (is_vs_round g)
    (game_started g) x (uart_has_data_to_send g) (received_no_bytes g) (num_round_sent_bytes
    g) (received_byte g).
Definition set_uart_has_data_to_send (x : bool) (g : mst) : mst :=
  Mst (ws g) (buttons g) (ps g) (mp_mouse g) (buttons_size g) (player_score g)
    (max_buttons_size g) (is_player_1 g) (is_host g) (guessed g) (time_left_for_click g)
    (time_left_for_screen g) (game_end g) (VS_was_pressed g) (VS_screen g) (is_vs_round g)
    (game_started g) (uart_data g) x (received_no_bytes g) (num_round_sent_bytes g)
    (received_byte g).
Definition set_received_no_bytes (x : Z) (g : mst) : mst :=
  Mst (ws g) (buttons g) (ps g) (mp_mouse g) (buttons_size g) (player_score g)
    (max_buttons_size g) (is_player_1 g) (is_host g) (guessed g) (time_left_for_click g)
    (time_left_for_screen g) (game_end g) (VS_was_pressed g) (VS_screen g) (is_vs_round g)
    (game_started g) (uart_data g) (uart_has_data_to_send g) x (num_round_sent_bytes g)
    (received_byte g).
Definition set_num_round_sent_bytes (x : Z) (g : mst) : mst :=
  Mst (ws g) (buttons g) (ps g) (mp_mouse g) (buttons_size g) (player_score g)
    (max_buttons_size g) (is_player_1 g) (is_host g) (guessed g) (time_left_for_click g)
    (time_left_for_screen g) (game_end g) (VS_was_pressed g) (VS_screen g) (is_vs_round g)
    (game_started g) (uart_data g) (uart_has_data_to_send g) (received_no_bytes g) x
    (received_byte g).
Definition set_received_byte (x : Z) (g : mst) : mst :=
  Mst (ws g) (buttons g) (ps g) (mp_mouse g) (buttons_size g) (player_score g)
    (max_buttons_size g) (is_player_1 g) (is_host g) (guessed g) (time_left_for_click g)
    (time_left_for_screen g) (game_end g) (VS_was_pressed g) (VS_screen g) (is_vs_round g)
    (game_started g) (uart_data g) (uart_has_data_to_send g) (received_no_bytes g)
    (num_round_sent_bytes g) x.

(** When the program starts. *)
Definition mst_init : mst :=
  Mst WINNER1 PNull DEFAULT (MouseState 0 0 false false) 0 0 0 false false 0 0 0 false false false
    false false 0 false 0 0 0.

Section MpGame.
Context {E : Type} `{ME : MpEnv E}.

(** ** The mouse and the buttons *)

Definition mp_get_red_click (g : mst) : bool := in_circle RED_X RED_Y (mp_mouse g).
Definition mp_get_green_click (g : mst) : bool := in_circle GREEN_X GREEN_Y (mp_mouse g).
Definition mp_get_purple_click (g : mst) : bool := in_circle PURPLE_X PURPLE_Y (mp_mouse g).
Definition mp_get_blue_click (g : mst) : bool := in_circle BLUE_X BLUE_Y (mp_mouse g).
Definition mp_get_yellow_click (g : mst) : bool := in_circle YELLOW_X YELLOW_Y (mp_mouse g).
Definition mp_get_vs_click (g : mst) : bool := in_circle VS_X VS_Y (mp_mouse g).

Definition mp_get_button_click (g : mst) : button_click_t :=
  if mp_get_red_click g then RED_B
  else if mp_get_green_click g then GREEN_B
  else if mp_get_purple_click g then PURPLE_B
  else if mp_get_blue_click g then BLUE_B
  else if mp_get_yellow_click g then YELLOW_B
  else if mp_get_vs_click g then VS_B
  else NO_BUTTON.

(** ** The serial line *)

Definition uart_set_queue (data : Z) : M mst E unit :=
  do* modify (set_uart_has_data_to_send true) in
  modify (set_uart_data data).

Definition serial_write (data : Z) : M mst E unit :=
  do* env (m_serial_write_byte data) in skip.

Definition uart_ready : M mst E unit :=
  do* modify (set_uart_has_data_to_send false) in
  let* data := gets uart_data in
  serial_write data.

(** [if (check_thr_emtpy()) serial_write_byte(data); else uart_set_queue(data);] *)
Definition write_or_queue (data : Z) : M mst E unit :=
  let* empty := env m_check_thr_emtpy in
  if empty then serial_write data else uart_set_queue data.

(** ** The game *)

(** The random choice after the [return] is never reached. *)
Definition mp_is_VS_round : M mst E unit :=
  do* modify (set_is_vs_round true) in
  modify (set_VS_was_pressed false).

Definition mp_get_winner : M mst E unit :=
  modify (fun g => set_ws (if is_player_1 g then WINNER2 else WINNER1) g).

Definition mp_checkNewHiScore : M mst E unit :=
  let* score := gets player_score in
  let* low := (fun s => lift (m_getLowestHiScore (snd s)) s) in
  if low <? score
  then do* env_ (m_set_mode HIGHSCORE) in env_res (m_reset_hiscore score)
  else env_ (m_set_mode LEADERBOARD).

Definition mp_end_game : M mst E unit :=
  do* modify (set_game_end true) in
  let* b := gets buttons in
  let* b := lift (block_free b) in
  do* modify (set_buttons b) in
  env_ (m_set_timed_alarm 5).

Definition mp_send_winner : M mst E unit :=
  let* w := gets ws in
  write_or_queue (if winner_eqb w TIE then TIE_REMOTE else LOSE).

Definition mp_send_button (click : button_click_t) : M mst E unit :=
  write_or_queue (u8 (GREEN_REMOTE + button_value click)).

Definition mp_add_button (click : button_click_t) : M mst E unit :=
  let* g := gets id in
  let* b := lift (block_set (buttons g) (buttons_size g) click) in
  do* modify (set_buttons b) in
  modify (set_buttons_size (buttons_size g + 1)).

Definition mp_change_player : M mst E unit :=
  do* modify (fun g => set_is_player_1 (negb (is_player_1 g)) g) in
  do* modify (set_guessed 0) in
  let* host := gets is_host in
  if host then
    do* mp_is_VS_round in
    let* vs := gets is_vs_round in
    write_or_queue (if vs then IS_VS else IS_NOT_VS)
  else write_or_queue READY.

Definition mp_click_button (click : button_click_t) : M mst E unit :=
  if button_eqb click NO_BUTTON
  then modify (fun g => set_mp_mouse (set_left_click false (mp_mouse g)) g)
  else
    let* g := gets id in
    if (guessed g =? buttons_size g) || VS_was_pressed g then
      do* when (guessed g =? buttons_size g) (modify (set_player_score (buttons_size g))) in
      if guessed g =? max_buttons_size g then
        do* modify (set_ws TIE) in
        do* mp_end_game in
        mp_send_winner
      else if is_vs_round g then
        if VS_was_pressed g then
          do* mp_add_button click in
          mp_send_button click
        else if button_eqb click VS_B then
          do* modify (set_VS_was_pressed true) in
          do* modify (set_VS_screen true) in
          do* mp_add_button click in
          do* mp_send_button click in
          modify (set_time_left_for_click VS_INTERVAL)
        else
          do* mp_add_button click in
          do* mp_send_button click in
          mp_change_player
      else
        do* mp_add_button click in
        do* mp_send_button click in
        mp_change_player
    else
      let* b := lift (block_get (buttons g) (guessed g)) in
      if button_eqb b click then
        do* mp_send_button click in
        do* modify (set_guessed (guessed g + 1)) in
        modify (set_time_left_for_click (if guessed g + 1 =? buttons_size g then -1 else INTERVAL))
      else
        do* mp_get_winner in
        do* mp_send_winner in
        mp_end_game.

Definition mp_remote_click_button (click : button_click_t) : M mst E unit :=
  let* g := gets id in
  if (guessed g =? buttons_size g) || VS_was_pressed g then
    do* when (guessed g =? buttons_size g) (modify (set_player_score (buttons_size g))) in
    if guessed g =? max_buttons_size g then
      do* modify (set_ws TIE) in
      mp_end_game
    else if is_vs_round g then
      if VS_was_pressed g then mp_add_button click
      else if button_eqb click VS_B then
        do* modify (set_VS_was_pressed true) in
        do* modify (set_VS_screen true) in
        mp_add_button click
      else mp_add_button click
    else mp_add_button click
  else
    let* b := lift (block_get (buttons g) (guessed g)) in
    when (button_eqb b click) (modify (set_guessed (guessed g + 1))).

Definition mp_light_button (click : button_click_t) : M mst E unit :=
  modify (fun g => set_ps
    match click with
    | GREEN_B => GREEN
    | YELLOW_B => YELLOW
    | PURPLE_B => PURPLE
    | BLUE_B => BLUE
    | RED_B => RED
    | VS_B => if VS_was_pressed g && VS_screen g then VS else WHITE
    | NO_BUTTON => DEFAULT
    end g).

Definition mp_buttons_handler (click : button_click_t) : M mst E unit :=
  let* g := gets id in
  do* (if Bool.eqb (is_host g) (is_player_1 g) then mp_click_button click else mp_remote_click_button click) in
  when (negb (button_eqb click NO_BUTTON))
    (do* mp_light_button click in modify (set_time_left_for_screen TIMER_BUTTON_MP)).

Definition mp_reset_game (num_rounds : Z) : M mst E unit :=
  do* modify (set_mp_mouse center_mouse) in
  do* modify (set_max_buttons_size num_rounds) in
  do* modify (set_buttons (malloc_block num_rounds)) in
  do* modify (set_buttons_size 0) in
  do* modify (set_player_score 0) in
  do* modify (set_guessed 0) in
  do* modify (set_is_player_1 true) in
  do* modify (set_game_end false) in
  do* modify (set_ps DEFAULT) in
  do* modify (set_time_left_for_click (-1)) in
  do* modify (set_time_left_for_screen 0) in
  do* mp_is_VS_round in
  modify (set_VS_was_pressed false).

(** ** Connecting *)

Definition host_mp_game (num_rounds : Z) : M mst E unit :=
  do* mp_reset_game num_rounds in
  do* modify (set_is_host true) in
  do* modify (set_is_player_1 true) in
  do* modify (set_game_started false) in
  modify (set_uart_has_data_to_send false).

Definition connect_mp_game : M mst E unit :=
  do* modify (set_is_player_1 false) in
  do* modify (set_is_host false) in
  do* serial_write CONNECTED in
  do* modify (set_uart_has_data_to_send false) in
  modify (set_game_started false).

(** The number of rounds is sent as [(uint8_t)max_buttons_size >> 8 * n]: the
    cast comes before the shift. *)
Definition start_game (data : Z) (empty_thr : bool) : M mst E unit :=
  let* g := gets id in
  if is_host g then
    do* when ((data =? CONNECTED) && (num_round_sent_bytes g <? 2))
          (let* empty := env m_check_thr_emtpy in
           when empty
             (do* serial_write (Z.shiftr (u8 (max_buttons_size g)) (8 * num_round_sent_bytes g)) in
              modify (set_num_round_sent_bytes (num_round_sent_bytes g + 1)))) in
    when (data =? ACK) (modify (set_game_started true))
  else if empty_thr then
    when (received_no_bytes g =? 2)
      (do* serial_write ACK in modify (set_game_started true))
  else
    do* (if received_no_bytes g =? 0 then modify (set_received_byte data)
         else
           let num_of_rounds := Z.lor (Z.shiftl data 8) (received_byte g) in
           do* mp_reset_game num_of_rounds in
           let* empty := env m_check_thr_emtpy in
           when empty (do* serial_write ACK in modify (set_game_started true))) in
    modify (fun g => set_received_no_bytes (received_no_bytes g + 1) g).

(** ** Receiving *)

(** A new round announced by the host. *)
Definition new_round (vs : bool) : M mst E unit :=
  do* modify (set_is_vs_round vs) in
  do* modify (set_VS_was_pressed false) in
  do* modify (set_guessed 0) in
  do* modify (fun g => set_is_player_1 (negb (is_player_1 g)) g) in
  modify (set_time_left_for_click INTERVAL).

(** The last test compares with [TIE] (2, the byte [CONNECTED]), not with
    [TIE_REMOTE]. *)
Definition play_game (data : Z) : M mst E unit :=
  if (3 <=? data) && (data <=? 8) then
    match button_of_value (data - GREEN_REMOTE) with
    | Some click => mp_buttons_handler click
    | None => skip
    end
  else if data =? IS_VS then new_round true
  else if data =? IS_NOT_VS then new_round false
  else if data =? READY then
    do* mp_is_VS_round in
    do* modify (set_guessed 0) in
    do* modify (fun g => set_is_player_1 (negb (is_player_1 g)) g) in
    modify (set_time_left_for_click INTERVAL)
  else if data =? LOSE then
    do* modify (fun g => set_ws (if is_host g then WINNER1 else WINNER2) g) in
    mp_end_game
  else if data =? winner_value TIE then
    do* modify (set_ws TIE) in
    mp_end_game
  else skip.

Definition mp_game_update_status_uart (data type : Z) : M mst E unit :=
  let* g := gets id in
  if type =? IIR_REC_DATA then
    if negb (game_started g) then start_game data false else play_game data
  else if type =? IIR_TRANS_EMPTY then
    if negb (game_started g) then start_game CONNECTED true
    else when (uart_has_data_to_send g) uart_ready
  else skip.

(** ** The other events *)

Definition mp_game_update_status_mouse (mouse_packet : packet) : M mst E unit :=
  let* g := gets id in
  if game_end g then skip
  else if game_started g then
    do* modify (fun g => set_mp_mouse (update_mouse mouse_packet (mp_mouse g)) g) in
    let* g := gets id in
    let click := if left_click (mp_mouse g) then mp_get_button_click g else NO_BUTTON in
    when (Bool.eqb (is_host g) (is_player_1 g)) (mp_buttons_handler click)
  else skip.

Definition mp_game_update_status_key (k : key_press) : M mst E unit :=
  let* g := gets id in
  when (game_end g)
    (when (key k =? ENTER)
       (if winner_eqb (ws g) TIE then env_ (m_set_mode LEADERBOARD) else mp_checkNewHiScore)).

Definition mp_game_update_status_timer : M mst E unit :=
  do* modify (fun g => set_mp_mouse (set_left_click false (mp_mouse g)) g) in
  let* g := gets id in
  if time_left_for_screen g =? 0 then modify (set_ps DEFAULT)
  else modify (set_time_left_for_screen (time_left_for_screen g - 1)).

(** The last part of [mp_game_update_status_rtc]. *)
Definition mp_rtc_leave : M mst E unit :=
  let* g := gets id in
  when (game_end g)
    (do* env_ m_set_seconds_alarm in
     if winner_eqb (ws g) TIE then env_ (m_set_mode LEADERBOARD) else mp_checkNewHiScore).

Definition mp_game_update_status_rtc : M mst E unit :=
  let* g := gets id in
  if Bool.eqb (is_host g) (is_player_1 g) && negb (game_end g) then
    if (time_left_for_click g =? 0) && negb (VS_was_pressed g) then
      do* mp_get_winner in
      do* mp_send_winner in
      mp_end_game
    else
      do* (if (time_left_for_click g =? 0) && is_vs_round g && VS_was_pressed g then mp_change_player
           else if 0 <? time_left_for_click g then
             modify (set_time_left_for_click (time_left_for_click g - 1))
           else skip) in
      mp_rtc_leave
  else mp_rtc_leave.
End MpGame.

(** ** The screen *)

Record mdraw := MDraw { m_counter : counter; m_round : round_cache }.
Definition mdraw_init : mdraw := MDraw counter_init round_init.

Definition mp_draw_winner_graphics (a : assets) (g : mst) : vc -> res vc := draw_screen a (winner_screen (ws g)).
Definition mp_draw_buttons (a : assets) (g : mst) : vc -> res vc := draw_screen a (play_screen (ps g)).
Definition mp_print_player1 (a : assets) : vc -> res vc := draw_prop a (get_prop_from_char (ch "1")) 0 0.
Definition mp_print_player2 (a : assets) : vc -> res vc := draw_prop a (get_prop_from_char (ch "2")) 0 0.
Definition mp_draw_player (a : assets) (g : mst) : vc -> res vc :=
  if is_player_1 g then mp_print_player1 a else mp_print_player2 a.
Definition mp_draw_counter (a : assets) (g : mst) (c : counter) (v : vc) : res (counter * vc) :=
  draw_counter_of a (time_left_for_click g) c v.
Definition mp_draw_round (a : assets) (g : mst) (c : round_cache) (v : vc) : res (round_cache * vc) :=
  draw_round_of a (buttons_size g) c v.
Definition mp_draw_mouse (a : assets) (g : mst) : vc -> res vc :=
  draw_prop a get_mouse (x_pos (mp_mouse g)) (y_pos (mp_mouse g)).
Definition mp_debugging (a : assets) (i : Z) : vc -> res vc :=
  draw_prop a (get_prop_from_char (ch "0")) 200 (200 + i * 40).

Definition mp_draw_game_graphics (a : assets) (g : mst) (d : mdraw) (v : vc) : res (mdraw * vc) :=
  if negb (game_end g) then
    res_bind ((mp_draw_buttons a g ;; mp_draw_player a g) v) (fun v =>
    res_bind (mp_draw_counter a g (m_counter d) v) (fun rc =>
    res_bind (mp_draw_round a g (m_round d) (snd rc)) (fun rr =>
    res_bind (mp_draw_mouse a g (snd rr)) (fun v =>
      Ok (MDraw (fst rc) (fst rr), v)))))
  else res_bind (mp_draw_winner_graphics a g v) (fun v => Ok (d, v)).

End Mp.
