(* ===== verification/MpLink.v ===== *)
(** Two computers playing: what one sends and what the other makes of it.

    The serial line is the interface [MpLine]: a list of the bytes sent, which the
    other side receives in order, and a transmitter that is ready in every
    environment that is [line_up].  [Programs] discharges it with the store of the
    whole program and its driver. *)

From stdpp Require Import base tactics list.
From Stdlib Require Import ZArith Lia Ascii.
From S2P Require Import Prelude Consts Keyboard Mouse NumLetters Vc Screen Pad MpGame.
Import Mp.

Class MpLine (E : Type) `{MpEnv E} := {
  sent : E -> list Z;
  line_up : E -> Prop;
  line_check e : line_up e ->
    fst (m_check_thr_emtpy e) = true /\ sent (snd (m_check_thr_emtpy e)) = sent e /\ line_up (snd (m_check_thr_emtpy e));
  line_write b e : line_up e -> 0 <= b < 256 ->
    sent (snd (m_serial_write_byte b e)) = sent e ++ [b] /\ line_up (snd (m_serial_write_byte b e));
  line_timed n e : line_up e -> sent (m_set_timed_alarm n e) = sent e /\ line_up (m_set_timed_alarm n e);
  line_seconds e : line_up e -> sent (m_set_seconds_alarm e) = sent e /\ line_up (m_set_seconds_alarm e)
}.

(** A concrete line, for the witnesses. *)
Record menv := MEnv { me_sent : list Z; me_mode : Game_Modes; me_alarm : Z }.
#[export] Instance menv_inst : MpEnv menv := {
  m_set_mode m e := MEnv (me_sent e) m (me_alarm e);
  m_set_timed_alarm n e := MEnv (me_sent e) (me_mode e) n;
  m_set_seconds_alarm e := MEnv (me_sent e) (me_mode e) 0;
  m_getLowestHiScore _ := Ok 0;
  m_reset_hiscore _ e := Ok e;
  m_check_thr_emtpy e := (true, e);
  m_serial_write_byte b e := (true, MEnv (me_sent e ++ [b]) (me_mode e) (me_alarm e))
}.
#[export, refine] Instance menv_line : MpLine menv := { sent := me_sent; line_up _ := True }.
Proof. all: done. Defined.
Lemma menv_up (e : menv) : line_up e.
Proof. done. Qed.
Definition menv0 : menv := MEnv [] MP_GAME 0.

(** Two peers agree: the same sequence, position, turn and VS state, one of them
    the host, the game running on both sides. *)
Record sync (q : list button_click_t) (L R : mst) : Prop := {
  sy_block_l : holds (buttons L) q (max_buttons_size L);
  sy_block_r : holds (buttons R) q (max_buttons_size R);
  sy_size_l : buttons_size L = zlen q;
  sy_size_r : buttons_size R = zlen q;
  sy_max : max_buttons_size R = max_buttons_size L;
  sy_guessed : guessed R = guessed L;
  sy_range : 0 <= guessed L <= zlen q;
  sy_turn : is_player_1 R = is_player_1 L;
  sy_host : is_host R = negb (is_host L);
  sy_vs : VS_was_pressed R = VS_was_pressed L;
  sy_vs_round_l : is_vs_round L = true;
  sy_vs_round_r : is_vs_round R = true;
  sy_end_l : game_end L = false;
  sy_end_r : game_end R = false;
  sy_started_l : game_started L = true;
  sy_started_r : game_started R = true
}.

Definition my_turn (g : mst) : bool := Bool.eqb (is_host g) (is_player_1 g).

Lemma sync_sym q L R : sync q L R -> sync q R L.
Proof.
  intros []. constructor; try done; try congruence; try lia.
  by rewrite sy_host0, negb_involutive.
Qed.

Lemma sync_turn q L R : sync q L R -> my_turn R = negb (my_turn L).
Proof.
  intros Hs. unfold my_turn. rewrite (sy_host _ _ _ Hs), (sy_turn _ _ _ Hs).
  by destruct (is_host L), (is_player_1 L).
Qed.

Section Link.
Context {E : Type} `{ME : MpEnv E}.
Context `{ML : !MpLine E}.

(** Receiving bytes one by one. *)
Fixpoint receive (bs : list Z) : M mst E unit :=
  match bs with
  | [] => skip
  | b :: bs => do* mp_game_update_status_uart b IIR_REC_DATA in receive bs
  end.

(** [runs m L e L' bs]: where the line is up [m] succeeds on [L], leaving [L'] and
    the line up, and sends [bs]. *)
Definition runs (m : M mst E unit) (L : mst) (e : E) (L' : mst) (bs : list Z) : Prop :=
  line_up e -> exists e', m (L, e) = Ok (tt, (L', e')) /\ sent e' = sent e ++ bs /\ line_up e'.

Lemma runs_pure m L e L' : m (L, e) = Ok (tt, (L', e)) -> runs m L e L' [].
Proof. intros Hm Hup. exists e. by rewrite app_nil_r. Qed.

(** Two computations that do the same. *)
Lemma runs_eq m m' L L1 e L' bs : m (L, e) = m' (L1, e) -> runs m' L1 e L' bs -> runs m L e L' bs.
Proof. intros He Hr Hup. destruct (Hr Hup) as (e' & Hm & Hs). exists e'. by rewrite He. Qed.

(** One that is followed by another. *)
Lemma runs_then (m : M mst E unit) (k : unit -> M mst E unit) L e L1 bs1 L2 bs2 :
  runs m L e L1 bs1 -> (forall e1, runs (k tt) L1 e1 L2 bs2) -> runs (bind m k) L e L2 (bs1 ++ bs2).
Proof.
  intros Hm Hk Hup. destruct (Hm Hup) as (e1 & Hm1 & Hs1 & Hup1). destruct (Hk e1 Hup1) as (e2 & Hk2 & Hs2 & Hup2).
  exists e2. rewrite (bind_ok _ _ _ _ _ Hm1). split; [exact Hk2 |]. by rewrite Hs2, Hs1, app_assoc.
Qed.

Lemma runs_bind m n L e L1 bs1 L2 bs2 :
  runs m L e L1 bs1 -> (forall e1, runs n L1 e1 L2 bs2) -> runs (do* m in n) L e L2 (bs1 ++ bs2).
Proof. exact (runs_then m (fun _ => n) L e L1 bs1 L2 bs2). Qed.

Lemma runs_modify f L e : runs (modify f) L e (f L) [].
Proof. by apply runs_pure. Qed.

Lemma runs_skip L e : runs skip L e L [].
Proof. by apply runs_pure. Qed.

Lemma runs_serial_write b L e : 0 <= b < 256 -> runs (serial_write b) L e L [b].
Proof.
  intros Hb Hup. destruct (line_write b e Hup Hb) as [Hs Hup']. exists (snd (m_serial_write_byte b e)).
  split; [done | by rewrite Hs].
Qed.

(** The line is free. *)
Lemma runs_check (k : bool -> M mst E unit) L e L' bs :
  (forall e1, runs (k true) L e1 L' bs) -> runs (bind (env m_check_thr_emtpy) k) L e L' bs.
Proof.
  intros Hk Hup. destruct (line_check e Hup) as (Hc & Hs & Hup1). destruct (Hk _ Hup1) as (e' & Hr & Hs' & Hup').
  exists e'. rewrite bind_env. cbn [fst snd]. rewrite Hc, Hs', Hs. done.
Qed.

Lemma runs_write b L e : 0 <= b < 256 -> runs (write_or_queue b) L e L [b].
Proof. intros Hb. apply runs_check. intros e1. by apply runs_serial_write. Qed.

Lemma runs_gets {A} (f : mst -> A) k L e L' bs :
  runs (k (f L)) L e L' bs -> runs (bind (gets f) k) L e L' bs.
Proof. by apply runs_eq. Qed.

Lemma runs_add c q L e :
  holds (buttons L) q (max_buttons_size L) -> buttons_size L = zlen q -> zlen q < max_buttons_size L ->
  exists b', runs (mp_add_button c) L e (set_buttons_size (zlen q + 1) (set_buttons b' L)) [] /\
             holds b' (q ++ [c]) (max_buttons_size L).
Proof.
  intros Hh Hsz Hlt. destruct (holds_add _ _ _ c Hh Hlt) as (b' & Hset & Hb'). exists b'. split; [| done].
  apply runs_pure. unfold mp_add_button. mrun. unfold id. by rewrite Hsz, Hset.
Qed.

Lemma runs_end L e q :
  holds (buttons L) q (max_buttons_size L) ->
  runs mp_end_game L e (set_buttons PFreed (set_game_end true L)) [].
Proof.
  intros Hh Hup. destruct (line_timed 5 e Hup) as [Hs Hup']. eexists. unfold mp_end_game. mrun.
  change (buttons (set_game_end true L)) with (buttons L). rewrite (holds_free _ _ _ Hh). mrun.
  split; [done |]. by rewrite Hs, app_nil_r.
Qed.

(** A button is lit for a while. *)
Definition shown (c : button_click_t) (g : mst) : mst :=
  set_time_left_for_screen TIMER_BUTTON_MP (set_ps
    match c with
    | GREEN_B => GREEN
    | YELLOW_B => YELLOW
    | PURPLE_B => PURPLE
    | BLUE_B => BLUE
    | RED_B => RED
    | VS_B => if VS_was_pressed g && VS_screen g then VS else WHITE
    | NO_BUTTON => DEFAULT
    end g).

(** A button handled by the player in turn, or by the other one. *)
Lemma runs_handler c L e L' bs :
  c <> NO_BUTTON ->
  runs (if my_turn L then mp_click_button c else mp_remote_click_button c) L e L' bs ->
  runs (mp_buttons_handler c) L e (shown c L') bs.
Proof.
  intros Hc Hr. rewrite <- (app_nil_r bs). apply runs_gets. unfold id. fold (my_turn L).
  apply (runs_then _ _ L e L' bs _ [] Hr). intros e1. apply runs_pure.
  unfold button_eqb. by rewrite bool_decide_eq_false_2.
Qed.

(** What the other side makes of each byte. *)
Lemma receive_one b R e R' :
  game_started R = true -> runs (play_game b) R e R' [] -> runs (receive [b]) R e R' [].
Proof.
  intros Hst Hr. cbn [receive]. apply (runs_bind _ _ R e R' [] R' []); [| intros e1; apply runs_skip].
  apply runs_gets. unfold id. by rewrite Hst.
Qed.

Lemma receive_app b bs R e R1 R2 :
  runs (receive [b]) R e R1 [] -> (forall e1, runs (receive bs) R1 e1 R2 []) ->
  runs (receive (b :: bs)) R e R2 [].
Proof.
  intros H1 H2 Hup. destruct (H1 Hup) as (e1 & Hr1 & Hs1 & Hup1). destruct (H2 e1 Hup1) as (e2 & Hr2 & Hs2 & Hup2).
  exists e2. cbn [receive] in *. unfold bind in *.
  destruct (mp_game_update_status_uart b IIR_REC_DATA (R, e)) as [[[] [R0 e0]] |]; [| done].
  cbn [fst snd] in *. injection Hr1 as -> ->. split; [exact Hr2 |]. by rewrite Hs2, Hs1, app_nil_r.
Qed.

Lemma play_button c R e R' bs :
  c <> NO_BUTTON -> runs (mp_buttons_handler c) R e R' bs ->
  runs (play_game (u8 (GREEN_REMOTE + button_value c))) R e R' bs.
Proof. intros Hc Hr. destruct c; try done; exact Hr. Qed.

Lemma play_new_round R e :
  runs (play_game IS_VS) R e
    (set_time_left_for_click INTERVAL (set_is_player_1 (negb (is_player_1 R))
       (set_guessed 0 (set_VS_was_pressed false (set_is_vs_round true R))))) [].
Proof. apply runs_pure. by destruct R. Qed.

Lemma play_ready R e :
  runs (play_game READY) R e
    (set_time_left_for_click INTERVAL (set_is_player_1 (negb (is_player_1 R))
       (set_guessed 0 (set_VS_was_pressed false (set_is_vs_round true R))))) [].
Proof. apply runs_pure. by destruct R. Qed.

Lemma play_lose R e q :
  holds (buttons R) q (max_buttons_size R) ->
  runs (play_game LOSE) R e
    (set_buttons PFreed (set_game_end true (set_ws (if is_host R then WINNER1 else WINNER2) R))) [].
Proof.
  intros Hh. exact (runs_end (set_ws (if is_host R then WINNER1 else WINNER2) R) e q Hh).
Qed.

(** Passing the turn, from either side. *)
Definition passed (L : mst) : mst :=
  let L1 := set_guessed 0 (set_is_player_1 (negb (is_player_1 L)) L) in
  if is_host L then set_VS_was_pressed false (set_is_vs_round true L1) else L1.

Lemma runs_change_player L e :
  runs mp_change_player L e (passed L) [if is_host L then IS_VS else READY].
Proof.
  set (L1 := set_guessed 0 (set_is_player_1 (negb (is_player_1 L)) L)).
  assert (Hh : is_host L1 = is_host L) by done. unfold passed. fold L1. rewrite <- Hh.
  apply (runs_eq _ (if is_host L1 then do* mp_is_VS_round in write_or_queue IS_VS else write_or_queue READY) _ L1).
  - unfold mp_change_player. rewrite !bind_modify, bind_gets. cbn [fst snd]. fold L1.
    by destruct (is_host L1).
  - destruct (is_host L1); [| by apply runs_write; vm_compute].
    apply (runs_eq _ (write_or_queue IS_VS) _ (set_VS_was_pressed false (set_is_vs_round true L1))); [done |].
    by apply runs_write; vm_compute.
Qed.
End Link.

(** ** The button of the player in turn, on both sides *)

Section Clicks.
Context {E : Type} `{ME : MpEnv E}.
Context `{ML : !MpLine E}.

Definition button_byte (c : button_click_t) : Z := u8 (GREEN_REMOTE + button_value c).

Lemma click_no c : c <> NO_BUTTON -> button_eqb c NO_BUTTON = false.
Proof. intros Hc. by apply bool_decide_eq_false_2. Qed.

(** Repeating: the right button advances both. *)
Lemma local_right q L e c b :
  holds (buttons L) q (max_buttons_size L) -> buttons_size L = zlen q -> VS_was_pressed L = false ->
  c <> NO_BUTTON -> guessed L = Z.of_nat b -> q !! b = Some c ->
  exists t, runs (mp_click_button c) L e (set_time_left_for_click t (set_guessed (guessed L + 1) L)) [button_byte c].
Proof.
  intros Hh Hsz Hv Hc Hg Hb. pose proof (lookup_lt_Some _ _ _ Hb) as Hlt.
  exists (if guessed L + 1 =? buttons_size L then -1 else INTERVAL).
  apply (runs_eq _ (do* mp_send_button c in do* modify (set_guessed (guessed L + 1)) in
           modify (set_time_left_for_click (if guessed L + 1 =? buttons_size L then -1 else INTERVAL))) _ L).
  - unfold mp_click_button. rewrite (click_no c Hc), bind_gets. unfold id. cbn [fst].
    replace (guessed L =? buttons_size L) with false by (symmetry; apply Z.eqb_neq; unfold zlen in *; lia).
    rewrite Hv. cbn [orb]. rewrite Hg at 1. rewrite (holds_get _ _ _ _ _ Hh Hb), bind_lift.
    unfold button_eqb. by rewrite bool_decide_eq_true_2.
  - apply (runs_then _ _ L e L [button_byte c] _ []); [apply runs_write, u8_range |]. intros e1. by apply runs_pure.
Qed.

Lemma remote_right q R e c b :
  holds (buttons R) q (max_buttons_size R) -> buttons_size R = zlen q -> VS_was_pressed R = false ->
  guessed R = Z.of_nat b -> q !! b = Some c ->
  runs (mp_remote_click_button c) R e (set_guessed (guessed R + 1) R) [].
Proof.
  intros Hh Hsz Hv Hg Hb. pose proof (lookup_lt_Some _ _ _ Hb) as Hlt.
  apply runs_pure.
  unfold mp_remote_click_button. rewrite bind_gets. unfold id. cbn [fst].
  replace (guessed R =? buttons_size R) with false by (symmetry; apply Z.eqb_neq; unfold zlen in *; lia).
  rewrite Hv. cbn [orb]. rewrite Hg at 1. rewrite (holds_get _ _ _ _ _ Hh Hb), bind_lift.
  unfold button_eqb. by rewrite bool_decide_eq_true_2.
Qed.

(** The player in turn loses. *)
Lemma runs_loses L e q :
  holds (buttons L) q (max_buttons_size L) ->
  runs (do* mp_get_winner in do* mp_send_winner in mp_end_game) L e
    (set_buttons PFreed (set_game_end true (set_ws (if is_player_1 L then WINNER2 else WINNER1) L))) [LOSE].
Proof.
  intros Hh. set (L1 := set_ws (if is_player_1 L then WINNER2 else WINNER1) L).
  apply (runs_eq _ (do* write_or_queue LOSE in mp_end_game) _ L1).
  - unfold mp_get_winner. rewrite bind_modify. cbn [fst snd]. fold L1. unfold mp_send_winner.
    unfold bind at 1. rewrite bind_gets. cbn [fst].
    by replace (winner_eqb (ws L1) TIE) with false by (unfold L1; cbn; by destruct (is_player_1 L)).
  - apply (runs_bind _ _ L1 e L1 [LOSE] _ []); [by apply runs_write; vm_compute |]. intros e1.
    exact (runs_end L1 e1 q Hh).
Qed.

(** A wrong button ends the game of the player in turn. *)
Lemma local_wrong q L e c b d :
  holds (buttons L) q (max_buttons_size L) -> buttons_size L = zlen q -> VS_was_pressed L = false ->
  c <> NO_BUTTON -> guessed L = Z.of_nat b -> q !! b = Some d -> d <> c ->
  runs (mp_click_button c) L e
    (set_buttons PFreed (set_game_end true (set_ws (if is_player_1 L then WINNER2 else WINNER1) L))) [LOSE].
Proof.
  intros Hh Hsz Hv Hc Hg Hb Hd. pose proof (lookup_lt_Some _ _ _ Hb) as Hlt.
  apply (runs_eq _ (do* mp_get_winner in do* mp_send_winner in mp_end_game) _ L); [| by apply (runs_loses L e q)].
  unfold mp_click_button. rewrite (click_no c Hc), bind_gets. unfold id. cbn [fst].
  replace (guessed L =? buttons_size L) with false by (symmetry; apply Z.eqb_neq; unfold zlen in *; lia).
  rewrite Hv. cbn [orb]. rewrite Hg at 1. rewrite (holds_get _ _ _ _ _ Hh Hb), bind_lift.
  unfold button_eqb. by rewrite bool_decide_eq_false_2.
Qed.

(** Adding a button, on either side: the score is set when the whole sequence
    has been repeated. *)
Definition scored (g : mst) : mst :=
  if guessed g =? buttons_size g then set_player_score (buttons_size g) g else g.

Lemma scored_fields g :
  buttons (scored g) = buttons g /\ buttons_size (scored g) = buttons_size g /\
  max_buttons_size (scored g) = max_buttons_size g.
Proof. unfold scored. by destruct (_ =? _). Qed.

Lemma scored_run g (e : E) {B} (k : unit -> M mst E B) :
  bind (when (guessed g =? buttons_size g) (modify (set_player_score (buttons_size g)))) k (g, e) = k tt (scored g, e).
Proof. unfold scored. by destruct (_ =? _). Qed.
End Clicks.

Section Adds.
Context {E : Type} `{ME : MpEnv E}.
Context `{ML : !MpLine E}.

(** The VS flags after a button: the VS button of a VS round sets them. *)
Definition vs_flags (c : button_click_t) (g : mst) : mst :=
  if negb (VS_was_pressed g) && button_eqb c VS_B then set_VS_screen true (set_VS_was_pressed true g) else g.

Lemma vs_flags_fields c g :
  buttons (vs_flags c g) = buttons g /\ buttons_size (vs_flags c g) = buttons_size g /\
  max_buttons_size (vs_flags c g) = max_buttons_size g.
Proof. unfold vs_flags. by destruct (_ && _). Qed.

(** What a button adds to the statics of either side. *)
Definition added (q : list button_click_t) (c : button_click_t) (b' : block) (g : mst) : mst :=
  set_buttons_size (zlen q + 1) (set_buttons b' (vs_flags c (scored g))).

(** The conditions under which a button is added. *)
Record adding (q : list button_click_t) (g : mst) : Prop := {
  ad_block : holds (buttons g) q (max_buttons_size g);
  ad_size : buttons_size g = zlen q;
  ad_room : zlen q < max_buttons_size g;
  ad_guessed : guessed g <= zlen q;
  ad_vs_round : is_vs_round g = true;
  ad_cond : (guessed g =? buttons_size g) || VS_was_pressed g = true
}.

Lemma adding_not_max q g : adding q g -> (guessed g =? max_buttons_size g) = false.
Proof. intros []. apply Z.eqb_neq. lia. Qed.

Lemma scored_vs g : VS_was_pressed (scored g) = VS_was_pressed g.
Proof. unfold scored. by destruct (_ =? _). Qed.

Lemma add_run q c g f :
  adding q g -> buttons (f (scored g)) = buttons g -> buttons_size (f (scored g)) = buttons_size g ->
  max_buttons_size (f (scored g)) = max_buttons_size g ->
  exists b', holds b' (q ++ [c]) (max_buttons_size g) /\
    forall e : E, mp_add_button c (f (scored g), e)
      = Ok (tt, (set_buttons_size (zlen q + 1) (set_buttons b' (f (scored g))), e)).
Proof.
  intros Ha H1 H2 H3. destruct (holds_add _ _ _ c (ad_block _ _ Ha) (ad_room _ _ Ha)) as (b' & Hset & Hb').
  exists b'. split; [done |]. intros e. unfold mp_add_button. mrun. unfold id.
  by rewrite H1, H2, (ad_size _ _ Ha), Hset.
Qed.

(** The remote side. *)
Lemma remote_add q R c :
  adding q R ->
  exists b', holds b' (q ++ [c]) (max_buttons_size R) /\
    forall e : E, runs (mp_remote_click_button c) R e (added q c b' R) [].
Proof.
  intros Ha. destruct (scored_fields R) as (F1 & F2 & F3).
  destruct (vs_flags_fields c (scored R)) as (G1 & G2 & G3).
  destruct (add_run q c R (vs_flags c) Ha) as (b' & Hb' & Hadd); [congruence.. |].
  exists b'. split; [done |]. intros e. apply runs_pure.
  unfold mp_remote_click_button. rewrite bind_gets. unfold id. cbn [fst].
  rewrite (ad_cond _ _ Ha), scored_run, (adding_not_max _ _ Ha), (ad_vs_round _ _ Ha).
  unfold added. specialize (Hadd e). unfold vs_flags in *. rewrite scored_vs in *.
  destruct (VS_was_pressed R); cbn [negb andb] in *; [exact Hadd |].
  destruct (button_eqb c VS_B); [| exact Hadd]. rewrite !bind_modify. exact Hadd.
Qed.

(** The local side: the button is sent, and the turn is passed unless the VS
    button was pressed. *)
Definition stays (c : button_click_t) (g : mst) : bool := VS_was_pressed g || button_eqb c VS_B.

Lemma local_add q L e c :
  adding q L -> c <> NO_BUTTON ->
  exists b' t, holds b' (q ++ [c]) (max_buttons_size L) /\
    runs (mp_click_button c) L e
      (if stays c L then set_time_left_for_click t (added q c b' L) else passed (added q c b' L))
      (button_byte c :: if stays c L then [] else [if is_host L then IS_VS else READY]).
Proof.
  intros Ha Hc. destruct (scored_fields L) as (F1 & F2 & F3).
  destruct (vs_flags_fields c (scored L)) as (G1 & G2 & G3).
  destruct (add_run q c L (vs_flags c) Ha) as (b' & Hb' & Hadd); [congruence.. |].
  exists b', (if VS_was_pressed L then time_left_for_click (scored L) else VS_INTERVAL). split; [done |].
  set (L1 := added q c b' L). fold (added q c b' L) in Hadd. fold L1 in Hadd.
  assert (Hhost : is_host L1 = is_host L).
  { unfold L1, added, vs_flags, scored. cbn. by destruct (_ =? _), (_ && _). }
  pose proof (runs_change_player L1) as Hp. rewrite Hhost in Hp.
  assert (Hw : forall e, runs (mp_send_button c) L1 e L1 [button_byte c]) by (intros e1; apply runs_write, u8_range).
  assert (Hclick : mp_click_button c (L, e) =
    (if VS_was_pressed L then do* mp_add_button c in mp_send_button c
     else if button_eqb c VS_B then
       do* modify (set_VS_was_pressed true) in do* modify (set_VS_screen true) in
       do* mp_add_button c in do* mp_send_button c in modify (set_time_left_for_click VS_INTERVAL)
     else do* mp_add_button c in do* mp_send_button c in mp_change_player) (scored L, e)).
  { unfold mp_click_button. rewrite (click_no c Hc), bind_gets. unfold id. cbn [fst].
    rewrite (ad_cond _ _ Ha), scored_run, (adding_not_max _ _ Ha), (ad_vs_round _ _ Ha). done. }
  apply (runs_eq _ _ _ _ _ _ _ Hclick). unfold stays. unfold vs_flags in Hadd. rewrite scored_vs in Hadd.
  destruct (VS_was_pressed L) eqn:Hv; cbn [negb andb orb] in *.
  - apply (runs_eq _ (mp_send_button c) _ L1); [exact (bind_ok _ _ _ _ _ (Hadd e)) |].
    assert (Ht : set_time_left_for_click (time_left_for_click (scored L)) L1 = L1).
    { replace (time_left_for_click (scored L)) with (time_left_for_click L1); [by destruct L1 |].
      unfold L1, added, vs_flags. by rewrite scored_vs, Hv. }
    rewrite Ht. apply Hw.
  - destruct (button_eqb c VS_B); cbn [andb] in *.
    + apply (runs_eq _ (do* mp_send_button c in modify (set_time_left_for_click VS_INTERVAL)) _ L1).
      { rewrite !bind_modify. cbn [fst snd]. exact (bind_ok _ _ _ _ _ (Hadd e)). }
      exact (runs_bind _ _ L1 e L1 [button_byte c] _ [] (Hw e) (fun e1 => runs_modify _ L1 e1)).
    + apply (runs_eq _ (do* mp_send_button c in mp_change_player) _ L1); [exact (bind_ok _ _ _ _ _ (Hadd e)) |].
      exact (runs_bind _ _ L1 e L1 [button_byte c] _ _ (Hw e) Hp).
Qed.
End Adds.

Arguments added : simpl never.
Arguments stays : simpl never.

Section Mirror.
Context {E : Type} `{ME : MpEnv E}.
Context `{ML : !MpLine E}.

Lemma added_fields q c b' g :
  buttons (added q c b' g) = b' /\ buttons_size (added q c b' g) = zlen q + 1 /\
  max_buttons_size (added q c b' g) = max_buttons_size g /\ guessed (added q c b' g) = guessed g /\
  is_player_1 (added q c b' g) = is_player_1 g /\ is_host (added q c b' g) = is_host g /\
  VS_was_pressed (added q c b' g) = stays c g /\ is_vs_round (added q c b' g) = is_vs_round g /\
  game_end (added q c b' g) = game_end g /\ game_started (added q c b' g) = game_started g.
Proof.
  unfold added, vs_flags, stays. rewrite scored_vs. unfold scored.
  destruct (VS_was_pressed g) eqn:Hv, (button_eqb c VS_B), (_ =? _); cbn; rewrite ?Hv; done.
Qed.

Lemma sync_adding q L R :
  sync q L R -> (guessed L =? zlen q) || VS_was_pressed L = true -> zlen q < max_buttons_size L ->
  adding q L /\ adding q R.
Proof.
  intros Hs Hc Hr. split; constructor; try apply Hs; try (by rewrite ?(sy_max _ _ _ Hs));
    rewrite ?(sy_guessed _ _ _ Hs), ?(sy_size_l _ _ _ Hs), ?(sy_size_r _ _ _ Hs), ?(sy_vs _ _ _ Hs);
    try done; apply Hs.
Qed.

(** ** Bytes on the way

    [drains bs g g']: a computer that is not in turn reads the bytes [bs] and
    becomes [g']. *)
Definition idle (g : mst) : Prop := my_turn g = false /\ game_end g = false /\ game_started g = true.

Inductive drains : list Z -> mst -> mst -> Prop :=
| drains_nil g : drains [] g g
| drains_cons b bs g g1 g2 :
    idle g -> (forall e : E, runs (play_game b) g e g1 []) -> drains bs g1 g2 -> drains (b :: bs) g g2.

Lemma drains_one b g g1 : idle g -> (forall e : E, runs (play_game b) g e g1 []) -> drains [b] g g1.
Proof. intros Hi Hr. eapply drains_cons; [done | exact Hr | constructor]. Qed.

Lemma drains_app bs1 bs2 g g1 g2 : drains bs1 g g1 -> drains bs2 g1 g2 -> drains (bs1 ++ bs2) g g2.
Proof. induction 1; intros H2; [done |]. cbn [app]. eapply drains_cons; eauto. Qed.

Lemma drains_receive bs g g' (e : E) : drains bs g g' -> runs (receive bs) g e g' [].
Proof.
  intros Hd. revert e. induction Hd as [g | b bs g g1 g2 (_ & _ & Hst) Hr Hd IH]; intros e; [apply runs_skip |].
  apply (receive_app b bs g e g1); [| exact IH]. by apply receive_one.
Qed.

Lemma sync_idle q L R : sync q L R -> my_turn L = true -> idle R.
Proof.
  intros Hs Ht. split; [| split; apply Hs]. by rewrite (sync_turn q L R Hs), Ht.
Qed.

(** The remote side of a button. *)
Lemma drains_button c R R' :
  idle R -> c <> NO_BUTTON -> (forall e : E, runs (mp_remote_click_button c) R e R' []) ->
  drains [button_byte c] R (shown c R').
Proof.
  intros Hi Hc Hr. apply drains_one; [done |]. intros e. apply play_button; [done |].
  apply runs_handler; [done |]. destruct Hi as (-> & _). apply Hr.
Qed.

(** Passing the turn, received. *)
Definition turned (R : mst) : mst :=
  set_time_left_for_click INTERVAL (set_is_player_1 (negb (is_player_1 R))
    (set_guessed 0 (set_VS_was_pressed false (set_is_vs_round true R)))).

Lemma drains_turn (host : bool) R : idle R -> drains [if host then IS_VS else READY] R (turned R).
Proof. intros Hi. apply drains_one; [done |]. intros e. destruct host; [apply play_new_round | apply play_ready]. Qed.

Lemma drains_lose q R :
  idle R -> holds (buttons R) q (max_buttons_size R) ->
  drains [LOSE] R (set_buttons PFreed (set_game_end true (set_ws (if is_host R then WINNER1 else WINNER2) R))).
Proof. intros Hi Hh. apply drains_one; [done |]. intros e. by apply (play_lose R e q). Qed.

(** An added button. *)
Lemma mirror_add q L R eL c :
  sync q L R -> my_turn L = true -> c <> NO_BUTTON ->
  (guessed L =? zlen q) || VS_was_pressed L = true -> zlen q < max_buttons_size L ->
  exists L' R' bs, runs (mp_buttons_handler c) L eL L' bs /\ drains bs R R' /\
    sync (q ++ [c]) L' R' /\ my_turn L' = stays c L.
Proof.
  intros Hs Ht Hc Hcond Hroom. destruct (sync_adding q L R Hs Hcond Hroom) as [HaL HaR].
  destruct (local_add q L eL c HaL Hc) as (bl & t & Hbl & Hrun).
  destruct (remote_add q R c HaR) as (br & Hbr & HrunR).
  pose proof (sync_idle q L R Hs Ht) as Hidle.
  pose proof (runs_handler c L eL _ _ Hc ltac:(rewrite Ht; exact Hrun)) as HL.
  pose proof (drains_button c R _ Hidle Hc HrunR) as HR.
  destruct (added_fields q c bl L) as (A1 & A2 & A3 & A4 & A5 & A6 & A7 & A8 & A9 & A10).
  destruct (added_fields q c br R) as (B1 & B2 & B3 & B4 & B5 & B6 & B7 & B8 & B9 & B10).
  assert (Hstays : stays c R = stays c L) by (unfold stays; by rewrite (sy_vs _ _ _ Hs)).
  pose proof (sy_range _ _ _ Hs). pose proof (sy_max _ _ _ Hs) as Hmax.
  destruct (stays c L) eqn:Hst.
  - eexists _, _, _. split; [exact HL |]. split; [exact HR |]. split.
    + constructor; cbn; rewrite ?A1, ?A2, ?A3, ?A4, ?A5, ?A6, ?A7, ?A8, ?A9, ?A10,
        ?B1, ?B2, ?B3, ?B4, ?B5, ?B6, ?B7, ?B8, ?B9, ?B10, ?zlen_snoc; try apply Hs; try done; try congruence; lia.
    + unfold my_turn in *. cbn. by rewrite A5, A6.
  - set (R1 := shown c (added q c br R)) in *.
    assert (Hidle1 : idle R1).
    { destruct Hidle as (I1 & I2 & I3). unfold idle, my_turn in *. unfold R1. cbn. by rewrite B5, B6, B9, B10. }
    eexists _, (turned R1), _. split; [exact HL |].
    split; [exact (drains_app [_] [_] _ _ _ HR (drains_turn (is_host L) R1 Hidle1)) |].
    unfold passed, turned. rewrite A6. split.
    + unfold R1. destruct (is_host L) eqn:Hh; constructor; cbn;
        rewrite ?A1, ?A2, ?A3, ?A4, ?A5, ?A6, ?A7, ?A8, ?A9, ?A10,
        ?B1, ?B2, ?B3, ?B4, ?B5, ?B6, ?B7, ?B8, ?B9, ?B10, ?zlen_snoc, ?Hh, ?(sy_host _ _ _ Hs), ?(sy_turn _ _ _ Hs);
        rewrite ?Hh; try apply Hs; try done; try congruence; try lia.
    + unfold my_turn in *. destruct (is_host L) eqn:Hh; cbn; rewrite ?A5, ?A6, ?Hh; by destruct (is_player_1 L).
Qed.

(** A repeated button. *)
Lemma mirror_right q L R eL c b :
  sync q L R -> my_turn L = true -> c <> NO_BUTTON -> VS_was_pressed L = false ->
  guessed L = Z.of_nat b -> q !! b = Some c ->
  exists L' R' bs, runs (mp_buttons_handler c) L eL L' bs /\ drains bs R R' /\
    sync q L' R' /\ guessed L' = guessed L + 1 /\ my_turn L' = true.
Proof.
  intros Hs Ht Hc Hv Hg Hb. pose proof (lookup_lt_Some _ _ _ Hb) as Hlt.
  destruct (local_right q L eL c b (sy_block_l _ _ _ Hs) (sy_size_l _ _ _ Hs) Hv Hc Hg Hb) as (t & HL).
  assert (HR : forall e : E, runs (mp_remote_click_button c) R e (set_guessed (guessed R + 1) R) []).
  { intros e. apply (remote_right q R e c b); try apply Hs; try done.
    - by rewrite (sy_vs _ _ _ Hs).
    - by rewrite (sy_guessed _ _ _ Hs). }
  pose proof (sync_idle q L R Hs Ht) as Hidle.
  pose proof (runs_handler c L eL _ _ Hc ltac:(rewrite Ht; exact HL)) as HL'.
  eexists _, _, _. split; [exact HL' |]. split; [exact (drains_button c R _ Hidle Hc HR) |].
  assert (guessed L < zlen q) by (unfold zlen; lia). pose proof (sy_range _ _ _ Hs).
  split; [| split; [done | exact Ht]].
  constructor; cbn; try apply Hs; try (rewrite (sy_guessed _ _ _ Hs)); try done; lia.
Qed.

(** Both computers have ended the game with the same winner. *)
Record ended (L R : mst) : Prop := {
  en_l : game_end L = true;
  en_r : game_end R = true;
  en_ws : ws R = ws L
}.

(** A wrong button. *)
Lemma mirror_wrong q L R eL c b d :
  sync q L R -> my_turn L = true -> c <> NO_BUTTON -> VS_was_pressed L = false ->
  guessed L = Z.of_nat b -> q !! b = Some d -> d <> c ->
  exists L' R' bs, runs (mp_buttons_handler c) L eL L' bs /\ drains bs R R' /\ ended L' R' /\
    ws L' = (if is_player_1 L then WINNER2 else WINNER1).
Proof.
  intros Hs Ht Hc Hv Hg Hb Hd.
  pose proof (local_wrong q L eL c b d (sy_block_l _ _ _ Hs) (sy_size_l _ _ _ Hs) Hv Hc Hg Hb Hd) as HL.
  pose proof (runs_handler c L eL _ _ Hc ltac:(rewrite Ht; exact HL)) as HL'.
  eexists _, _, _. split; [exact HL' |].
  split; [exact (drains_lose q R (sync_idle q L R Hs Ht) (sy_block_r _ _ _ Hs)) |].
  split; [constructor |]; try done.
  cbn. rewrite (sy_host _ _ _ Hs). unfold my_turn in Ht.
  destruct (is_host L), (is_player_1 L); done.
Qed.

(** The time of the player in turn is up. *)
Lemma mirror_timeout q L R eL :
  sync q L R -> my_turn L = true -> VS_was_pressed L = false -> time_left_for_click L = 0 ->
  exists L' R' bs, runs mp_game_update_status_rtc L eL L' bs /\ drains bs R R' /\ ended L' R' /\
    ws L' = (if is_player_1 L then WINNER2 else WINNER1).
Proof.
  intros Hs Ht Hv Htime. eexists _, _, _. split.
  { refine (runs_eq _ _ _ L _ _ _ _ (runs_loses L eL q (sy_block_l _ _ _ Hs))).
    unfold mp_game_update_status_rtc. rewrite bind_gets. unfold id. cbn [fst].
    fold (my_turn L). by rewrite Ht, (sy_end_l _ _ _ Hs), Htime, Hv. }
  split; [exact (drains_lose q R (sync_idle q L R Hs Ht) (sy_block_r _ _ _ Hs)) |].
  split; [constructor |]; try done.
  cbn. rewrite (sy_host _ _ _ Hs). unfold my_turn in Ht. by destruct (is_host L), (is_player_1 L).
Qed.

(** The interval of the VS button is over. *)
Lemma vs_interval_over q L R eL :
  sync q L R -> my_turn L = true -> VS_was_pressed L = true -> time_left_for_click L = 0 ->
  runs mp_game_update_status_rtc L eL (passed L) [if is_host L then IS_VS else READY] /\
  drains [if is_host L then IS_VS else READY] R (turned R).
Proof.
  intros Hs Ht Hv Htime.
  assert (Hend : game_end (passed L) = false) by (unfold passed; destruct (is_host L); cbn; apply Hs).
  split; [| exact (drains_turn (is_host L) R (sync_idle q L R Hs Ht))].
  rewrite <- (app_nil_r [_]). apply (runs_eq _ (do* mp_change_player in mp_rtc_leave) _ L).
  - unfold mp_game_update_status_rtc. rewrite bind_gets. unfold id. cbn [fst].
    fold (my_turn L). by rewrite Ht, (sy_end_l _ _ _ Hs), Htime, Hv, (sy_vs_round_l _ _ _ Hs).
  - apply (runs_bind _ _ L eL (passed L)); [apply runs_change_player |]. intros e1. apply runs_pure.
    unfold mp_rtc_leave. rewrite bind_gets. unfold id. cbn [fst]. by rewrite Hend.
Qed.

(** When it was the host's, the two computers agree again. *)
Lemma mirror_vs_host q L R :
  sync q L R -> my_turn L = true -> is_host L = true -> sync q (passed L) (turned R) /\ my_turn (passed L) = false.
Proof.
  intros Hs Ht Hh. pose proof (sy_range _ _ _ Hs).
  assert (Hz : 0 <= 0 <= zlen q) by (unfold zlen; lia).
  unfold my_turn, passed, turned in *. rewrite Hh in *. split.
  - constructor; cbn; rewrite ?Hh, ?(sy_turn _ _ _ Hs), ?(sy_host _ _ _ Hs); try apply Hs; try done; by rewrite Hh.
  - cbn. rewrite Hh. by destruct (is_player_1 L).
Qed.
End Mirror.

(** ** Properties *)


(** Host and client in the middle of a game of five rounds, player 1 (the host)
    to move. *)
Definition peer (host p1 vs : bool) (g t : Z) : mst :=
  Mst WINNER1 (PBlock [Some GREEN_B; Some RED_B; None; None; None]) DEFAULT center_mouse 2 1 5 p1 host
    g t 0 false vs false true true 0 false 0 2 0.

Lemma peer_sync p1 vs g t t' host :
  0 <= g <= 2 -> sync [GREEN_B; RED_B] (peer host p1 vs g t) (peer (negb host) p1 vs g t').
Proof. intros Hg. by constructor. Qed.


(** C18. A player whose time is up loses on both computers. *)
Theorem mp_timeout_mirrored {E} `{MpEnv E, !MpLine E} q L R (eL eR : E) :
  sync q L R -> my_turn L = true -> VS_was_pressed L = false -> time_left_for_click L = 0 ->
  exists L' R' bs, runs mp_game_update_status_rtc L eL L' bs /\ runs (receive bs) R eR R' [] /\
    game_end L' = true /\ game_end R' = true /\ ws R' = ws L' /\
    ws L' = (if is_player_1 L then WINNER2 else WINNER1).
Proof.
  intros Hs Ht Hv Htime. destruct (mirror_timeout q L R eL Hs Ht Hv Htime) as (L' & R' & bs & H1 & H2 & [] & H4).
  exists L', R', bs. split; [done |]. split; [by apply drains_receive | done].
Qed.

Lemma mp_timeout_mirrored_witness :
  exists L' R' bs, runs mp_game_update_status_rtc (peer false false false 1 0) menv0 L' bs /\
    runs (receive bs) (peer true false false 1 0) menv0 R' [] /\
    game_end L' = true /\ game_end R' = true /\ ws R' = ws L' /\ ws L' = WINNER1.
Proof.
  exact (mp_timeout_mirrored [GREEN_B; RED_B] (peer false false false 1 0) (peer true false false 1 0) menv0 menv0
           (peer_sync false false 1 0 0 false ltac:(lia)) eq_refl eq_refl eq_refl).
Defined.

(** The end of the interval of the VS button: when it is the host's, the two
    computers agree again, with the turn passed; when it is the client's, its own
    VS flag stays set while the host's is cleared. *)
Theorem mp_vs_interval_end {E} `{MpEnv E, !MpLine E} q L R (eL eR : E) :
  sync q L R -> my_turn L = true -> VS_was_pressed L = true -> time_left_for_click L = 0 ->
  exists L' R' bs, runs mp_game_update_status_rtc L eL L' bs /\ runs (receive bs) R eR R' [] /\
    my_turn L' = false /\ my_turn R' = true /\ guessed L' = 0 /\ guessed R' = 0 /\
    buttons L' = buttons L /\ buttons R' = buttons R /\
    if is_host L then sync q L' R' else VS_was_pressed L' = true /\ VS_was_pressed R' = false.
Proof.
  intros Hs Ht Hv Htime. destruct (vs_interval_over q L R eL Hs Ht Hv Htime) as [HL HR].
  exists (passed L), (turned R), [if is_host L then IS_VS else READY].
  split; [exact HL |]. split; [by apply drains_receive |].
  pose proof (sy_host _ _ _ Hs) as Hh. pose proof (sy_turn _ _ _ Hs) as Htu.
  assert (Hsync : is_host L = true -> sync q (passed L) (turned R))
    by (intros Hhost; by apply mirror_vs_host).
  unfold my_turn, passed, turned in *. destruct (is_host L) eqn:Hhost; cbn; rewrite ?Hhost, ?Hh, ?Htu, ?Hv;
    repeat split; try done; try (by destruct (is_player_1 L)); by apply Hsync.
Qed.

Lemma mp_vs_interval_end_witness :
  exists L' R' bs, runs mp_game_update_status_rtc (peer false false true 1 0) menv0 L' bs /\
    runs (receive bs) (peer true false true 1 0) menv0 R' [] /\
    VS_was_pressed L' = true /\ VS_was_pressed R' = false.
Proof.
  destruct (mp_vs_interval_end [GREEN_B; RED_B] (peer false false true 1 0) (peer true false true 1 0) menv0 menv0
              (peer_sync false true 1 0 0 false ltac:(lia)) eq_refl eq_refl eq_refl)
    as (L' & R' & bs & H1 & H2 & _ & _ & _ & _ & _ & _ & H3).
  exists L', R', bs. split; [exact H1 |]. split; [exact H2 | exact H3].
Defined.

(** After that the two computers drift apart: with its VS flag still set, the
    client adds the buttons with which the host repeats the sequence. *)
Theorem mp_client_vs_desync {E} `{MpEnv E, !MpLine E} q A B (eH eC : E) c :
  my_turn A = true -> my_turn B = false -> game_started B = true ->
  holds (buttons A) q (max_buttons_size A) -> holds (buttons B) q (max_buttons_size B) ->
  buttons_size A = zlen q -> buttons_size B = zlen q ->
  guessed A = 0 -> guessed B = 0 -> 0 < zlen q < max_buttons_size B ->
  VS_was_pressed A = false -> VS_was_pressed B = true -> is_vs_round B = true ->
  q !! 0%nat = Some c -> c <> NO_BUTTON ->
  exists A' B' bs, runs (mp_buttons_handler c) A eH A' bs /\ runs (receive bs) B eC B' [] /\
    buttons_size A' = zlen q /\ guessed A' = 1 /\ buttons_size B' = zlen q + 1 /\ guessed B' = 0.
Proof.
  intros HtH HtC Hst HhH HhC HsH HsC HgH HgC [Hq0 Hq] HvH HvC Hvr Hb Hc.
  destruct (local_right q A eH c 0 HhH HsH HvH Hc HgH Hb) as (t & HL).
  pose proof (runs_handler c A eH _ _ Hc ltac:(rewrite HtH; exact HL)) as HL'.
  assert (Ha : adding q B).
  { constructor; try done; [lia |]. by rewrite HvC, orb_true_r. }
  destruct (remote_add (E := E) q B c Ha) as (b' & _ & HR).
  assert (HR' : runs (receive [button_byte c]) B eC (shown c (added q c b' B)) []).
  { apply receive_one; [done |]. apply play_button, runs_handler; [done | done |]. by rewrite HtC. }
  eexists _, _, _. split; [exact HL' |]. split; [exact HR' |].
  destruct (added_fields q c b' B) as (_ & B2 & _ & B4 & _). cbn. rewrite B2, B4, HgC, HgH, HsH. done.
Qed.

Lemma mp_client_vs_desync_witness :
  exists A' B' bs, runs (mp_buttons_handler GREEN_B) (peer true true false 0 4) menv0 A' bs /\
    runs (receive bs) (peer false true true 0 4) menv0 B' [] /\
    buttons_size A' = 2 /\ guessed A' = 1 /\ buttons_size B' = 3 /\ guessed B' = 0.
Proof.
  apply (mp_client_vs_desync [GREEN_B; RED_B] (peer true true false 0 4) (peer false true true 0 4) menv0 menv0 GREEN_B);
    try reflexivity; try discriminate; try (split; reflexivity); (split; [discriminate | reflexivity]).
Defined.

(** A tie is not delivered: the byte [TIE_REMOTE] that announces it is not
    recognised, and the other computer goes on waiting, its game unchanged. *)
Theorem mp_tie_not_delivered {E} `{MpEnv E, !MpLine E} q L R (eL eR : E) c :
  sync q L R -> my_turn L = true -> c <> NO_BUTTON -> VS_was_pressed L = false ->
  guessed L = zlen q -> zlen q = max_buttons_size L ->
  exists L', runs (mp_buttons_handler c) L eL L' [TIE_REMOTE] /\ game_end L' = true /\ ws L' = TIE /\
    runs (receive [TIE_REMOTE]) R eR R [] /\ game_end R = false.
Proof.
  intros Hs Ht Hc Hv Hg Hm.
  set (L1 := set_ws TIE (set_player_score (buttons_size L) L)).
  set (L2 := set_buttons PFreed (set_game_end true L1)).
  assert (Hrun : runs (mp_click_button c) L eL L2 [TIE_REMOTE]).
  { apply (runs_eq _ (do* mp_end_game in mp_send_winner) _ L1).
    - unfold mp_click_button. rewrite (click_no c Hc), bind_gets. unfold id. cbn [fst].
      rewrite (sy_size_l _ _ _ Hs), Hg, Hm, Z.eqb_refl. cbn [orb when]. rewrite bind_modify. cbn [fst snd].
      rewrite bind_modify. cbn [fst snd]. by rewrite <- Hm, <- (sy_size_l _ _ _ Hs).
    - apply (runs_bind _ _ L1 eL L2 [] _ [TIE_REMOTE] (runs_end L1 eL q (sy_block_l _ _ _ Hs))). intros e1.
      apply runs_gets. by apply runs_write; vm_compute. }
  pose proof (runs_handler c L eL _ _ Hc ltac:(rewrite Ht; exact Hrun)) as HL.
  eexists. split; [exact HL |]. split; [done |]. split; [done |]. split; [| apply Hs].
  apply receive_one; [apply Hs |]. apply runs_skip.
Qed.

Definition peer_full (host : bool) : mst :=
  Mst WINNER1 (PBlock [Some GREEN_B; Some RED_B]) DEFAULT center_mouse 2 1 2 true host
    2 4 0 false false false true true 0 false 0 2 0.

Lemma mp_tie_not_delivered_witness :
  exists L', runs (mp_buttons_handler BLUE_B) (peer_full true) menv0 L' [TIE_REMOTE] /\ game_end L' = true /\
    ws L' = TIE /\ runs (receive [TIE_REMOTE]) (peer_full false) menv0 (peer_full false) [] /\
    game_end (peer_full false) = false.
Proof.
  assert (Hs : sync [GREEN_B; RED_B] (peer_full true) (peer_full false)) by (by constructor).
  apply (mp_tie_not_delivered [GREEN_B; RED_B] (peer_full true) (peer_full false) menv0 menv0 BLUE_B Hs);
    (reflexivity || discriminate).
Defined.

(** ** Connecting *)

Section Connect.
Context {E : Type} `{ME : MpEnv E}.
Context `{ML : !MpLine E}.

(** The statics after [mp_reset_game]. *)
Definition reset (n : Z) (g : mst) : mst :=
  set_VS_was_pressed false (set_VS_was_pressed false (set_is_vs_round true
    (set_time_left_for_screen 0 (set_time_left_for_click (-1) (set_ps DEFAULT (set_game_end false
      (set_is_player_1 true (set_guessed 0 (set_player_score 0 (set_buttons_size 0
        (set_buttons (malloc_block n) (set_max_buttons_size n (set_mp_mouse center_mouse g))))))))))))).

#[local] Arguments reset : simpl never.

Lemma run_reset n g (e : E) : mp_reset_game n (g, e) = Ok (tt, (reset n g, e)).
Proof. done. Qed.

Definition hosting (n : Z) (g : mst) : mst :=
  set_uart_has_data_to_send false (set_game_started false (set_is_player_1 true (set_is_host true (reset n g)))).

Lemma run_host n g (e : E) : host_mp_game n (g, e) = Ok (tt, (hosting n g, e)).
Proof. done. Qed.

Definition connecting (g : mst) : mst :=
  set_game_started false (set_uart_has_data_to_send false (set_is_host false (set_is_player_1 false g))).

Lemma runs_connect g (e : E) : runs connect_mp_game g e (connecting g) [CONNECTED].
Proof.
  apply (runs_eq _ (do* serial_write CONNECTED in
           do* modify (set_uart_has_data_to_send false) in modify (set_game_started false)) _
           (set_is_host false (set_is_player_1 false g))).
  - unfold connect_mp_game. by rewrite !bind_modify.
  - eapply (runs_then _ _ _ e _ [CONNECTED] _ []).
    + by apply runs_serial_write; vm_compute.
    + intros e1. by apply runs_pure.
Qed.

(** The host's answer while it has sent fewer than two bytes. *)
Lemma runs_start_host g (e : E) t :
  is_host g = true -> 0 <= num_round_sent_bytes g < 2 ->
  runs (start_game CONNECTED t) g e (set_num_round_sent_bytes (num_round_sent_bytes g + 1) g)
    [Z.shiftr (u8 (max_buttons_size g)) (8 * num_round_sent_bytes g)].
Proof.
  intros Hh Hn. set (b := Z.shiftr _ _).
  assert (Hb : 0 <= b < 256).
  { unfold b. rewrite Z.shiftr_div_pow2 by lia. pose proof (u8_range (max_buttons_size g)).
    pose proof (Z.pow_pos_nonneg 2 (8 * num_round_sent_bytes g)).
    split; [apply Z.div_pos; lia |]. apply Z.div_lt_upper_bound; nia. }
  apply (runs_eq _ (bind (env m_check_thr_emtpy) (fun empty =>
           when empty (do* serial_write b in modify (set_num_round_sent_bytes (num_round_sent_bytes g + 1))))) _ g).
  - unfold start_game. rewrite bind_gets. unfold id. cbn [fst]. rewrite Hh.
    change (CONNECTED =? CONNECTED) with true. change (CONNECTED =? ACK) with false.
    replace (num_round_sent_bytes g <? 2) with true by (symmetry; apply Z.ltb_lt; lia). cbn [andb when].
    fold b. unfold bind, env, when, skip, ret. cbn [fst snd].
    destruct (m_check_thr_emtpy e) as [[] e1]; cbn [fst snd]; [| done]. unfold serial_write, bind, env, modify. done.
  - apply runs_check. intros e1.
    exact (runs_bind _ _ g e1 g [b] _ [] (runs_serial_write b g e1 Hb) (fun e2 => runs_modify _ g e2)).
Qed.

(** An interrupt before the game has started. *)
Lemma uart_not_started b g (e : E) :
  game_started g = false ->
  mp_game_update_status_uart b IIR_REC_DATA (g, e) = start_game b false (g, e) /\
  mp_game_update_status_uart b IIR_TRANS_EMPTY (g, e) = start_game CONNECTED true (g, e).
Proof.
  intros Hg. unfold mp_game_update_status_uart. rewrite !bind_gets. unfold id. cbn [fst]. by rewrite Hg.
Qed.

Lemma receive_not_started b g (e : E) g' bs :
  game_started g = false -> runs (start_game b false) g e g' bs -> runs (receive [b]) g e g' bs.
Proof.
  intros Hg Hr. cbn [receive]. rewrite <- (app_nil_r bs). apply (runs_bind _ _ g e g').
  - exact (runs_eq _ _ _ _ _ _ _ (proj1 (uart_not_started b g e Hg)) Hr).
  - intros e1. apply runs_skip.
Qed.

(** The client's two bytes. *)
Lemma runs_client_first b g (e : E) :
  is_host g = false -> received_no_bytes g = 0 ->
  runs (start_game b false) g e (set_received_no_bytes 1 (set_received_byte b g)) [].
Proof.
  intros Hh Hn. apply runs_pure.
  unfold start_game. rewrite bind_gets. unfold id. cbn [fst]. rewrite Hh, Hn.
  change (0 =? 0) with true. cbn iota. rewrite bind_modify. unfold modify. cbn [fst snd].
  change (received_no_bytes (set_received_byte b g)) with (received_no_bytes g). by rewrite Hn.
Qed.

Lemma runs_client_second b g (e : E) :
  is_host g = false -> received_no_bytes g <> 0 ->
  let n := Z.lor (Z.shiftl b 8) (received_byte g) in
  runs (start_game b false) g e
    (set_received_no_bytes (received_no_bytes g + 1) (set_game_started true (reset n g))) [ACK].
Proof.
  intros Hh Hn n. set (done g' := set_received_no_bytes (received_no_bytes g + 1) g').
  apply (runs_eq _ (do* (bind (env m_check_thr_emtpy) (fun empty =>
           when empty (do* serial_write ACK in modify (set_game_started true)))) in
           modify (fun g => set_received_no_bytes (received_no_bytes g + 1) g)) _ (reset n g)).
  - unfold start_game. rewrite bind_gets. unfold id. cbn [fst]. rewrite Hh.
    replace (received_no_bytes g =? 0) with false by (symmetry; by apply Z.eqb_neq). fold n.
    unfold bind at 1. unfold bind at 1. rewrite run_reset. reflexivity.
  - apply (runs_bind _ _ _ e (set_game_started true (reset n g)) [ACK] _ []).
    + apply runs_check. intros e1. refine (runs_bind _ _ _ e1 _ [ACK] _ [] (runs_serial_write _ _ _ _) _);
        [by vm_compute | intros e2; apply runs_modify].
    + intros e1. by apply runs_pure.
Qed.

Lemma runs_host_ack g (e : E) :
  is_host g = true -> runs (start_game ACK false) g e (set_game_started true g) [].
Proof.
  intros Hh. apply runs_pure. unfold start_game. rewrite bind_gets. unfold id.
  cbn [fst]. by rewrite Hh.
Qed.
End Connect.

(** C14. The handshake of a first game: the client announces itself, the host sends
    the number of rounds in two bytes, the second on its transmitter interrupt,
    the client acknowledges, and both have started.  The number the client gets
    is [n] modulo 256, because the host converts it to a byte before it shifts;
    up to 255 rounds the two computers agree. *)
Theorem mp_handshake {E} `{MpEnv E, !MpLine E} n A B (eA eB : E) :
  0 <= n -> num_round_sent_bytes A = 0 -> received_no_bytes B = 0 ->
  exists A1 A2 A3 B1 B2,
    runs connect_mp_game B eB B1 [CONNECTED] /\
    (exists e, host_mp_game n (A, eA) = Ok (tt, (hosting n A, e)) /\
       runs (receive [CONNECTED]) (hosting n A) e A1 [n mod 256]) /\
    (forall e, runs (mp_game_update_status_uart 0 IIR_TRANS_EMPTY) A1 e A2 [0]) /\
    (forall e, runs (receive [n mod 256]) B1 e (set_received_no_bytes 1 (set_received_byte (n mod 256) B1)) [] /\
       runs (receive [0]) (set_received_no_bytes 1 (set_received_byte (n mod 256) B1)) e B2 [ACK]) /\
    (forall e, runs (receive [ACK]) A2 e A3 []) /\
    game_started A3 = true /\ game_started B2 = true /\
    max_buttons_size A3 = n /\ max_buttons_size B2 = n mod 256 /\
    (n < 256 -> sync [] A3 B2 /\ my_turn A3 = true).
Proof.
  intros Hn HA HB.
  set (A0 := hosting n A). set (A1 := set_num_round_sent_bytes (num_round_sent_bytes A0 + 1) A0).
  set (A2 := set_num_round_sent_bytes (num_round_sent_bytes A1 + 1) A1).
  set (B1 := connecting B). set (B1' := set_received_no_bytes 1 (set_received_byte (n mod 256) B1)).
  set (B2 := set_received_no_bytes (received_no_bytes B1' + 1)
               (set_game_started true (reset (Z.lor (Z.shiftl 0 8) (received_byte B1')) B1'))).
  exists A1, A2, (set_game_started true A2), B1, B2.
  assert (HA0 : num_round_sent_bytes A0 = 0) by exact HA.
  assert (HA1 : num_round_sent_bytes A1 = 1) by (unfold A1; cbn; rewrite HA; done).
  assert (Hlor : Z.lor (Z.shiftl 0 8) (received_byte B1') = n mod 256).
  { rewrite Z.shiftl_0_l. apply Z.lor_0_l. }
  split; [apply runs_connect |]. split.
  { exists eA. split; [apply run_host |]. apply receive_not_started; [done |].
    pose proof (runs_start_host A0 eA false eq_refl ltac:(rewrite HA0; lia)) as Hr.
    rewrite HA0, Z.mul_0_r, Z.shiftr_0_r in Hr. fold A0. unfold A1. rewrite HA0. exact Hr. }
  split.
  { intros e. pose proof (runs_start_host A1 e true eq_refl ltac:(rewrite HA1; lia)) as Hr.
    replace (Z.shiftr (u8 (max_buttons_size A1)) (8 * num_round_sent_bytes A1)) with 0 in Hr.
    - exact (runs_eq _ _ _ _ _ _ _ (proj2 (uart_not_started 0 A1 e eq_refl)) Hr).
    - rewrite HA1, Z.shiftr_div_pow2 by lia. change (2 ^ (8 * 1)) with 256.
      symmetry. apply Z.div_small, u8_range. }
  split.
  { intros e. split; apply receive_not_started; try done.
    - by apply runs_client_first.
    - apply runs_client_second; done. }
  split; [intros e; apply receive_not_started; [done |]; by apply runs_host_ack |].
  split; [done |]. split; [done |]. split; [done |]. split; [exact Hlor |].
  intros H256. split; [| done].
  assert (Hmax : max_buttons_size B2 = n) by (change (Z.lor (Z.shiftl 0 8) (received_byte B1') = n); rewrite Hlor; apply Z.mod_small; lia).
  assert (HblB : buttons B2 = malloc_block n).
  { change (malloc_block (Z.lor (Z.shiftl 0 8) (received_byte B1')) = malloc_block n). rewrite Hlor, Z.mod_small by lia. done. }
  constructor; rewrite ?Hmax, ?HblB; try done; try (by apply holds_malloc).
Qed.

Lemma mp_handshake_witness :
  exists A3 B2, max_buttons_size A3 = 300 /\ max_buttons_size B2 = 44 /\
    game_started A3 = true /\ game_started B2 = true.
Proof.
  destruct (mp_handshake 300 mst_init mst_init menv0 menv0 ltac:(lia) eq_refl eq_refl)
    as (A1 & A2 & A3 & B1 & B2 & _ & _ & _ & _ & _ & H1 & H2 & H3 & H4 & _).
  exists A3, B2. split; [exact H3 |]. split; [exact H4 |]. split; [exact H1 | exact H2].
Defined.

(** A second game cannot be hosted: the counters of [start_game] are not reset,
    and a host that has sent its two bytes once answers neither the client nor
    its own interrupts. *)
Theorem mp_second_hosting_silent {E} `{MpEnv E, !MpLine E} n A (e : E) :
  2 <= num_round_sent_bytes A ->
  exists e1, host_mp_game n (A, e) = Ok (tt, (hosting n A, e1)) /\
    runs (receive [CONNECTED]) (hosting n A) e1 (hosting n A) [] /\
    (forall e2, runs (mp_game_update_status_uart 0 IIR_TRANS_EMPTY) (hosting n A) e2 (hosting n A) []) /\
    game_started (hosting n A) = false.
Proof.
  intros Hn. exists e. split; [apply run_host |].
  assert (Hsil : forall t e2, start_game CONNECTED t (hosting n A, e2) = Ok (tt, (hosting n A, e2))).
  { intros t e2. unfold start_game. rewrite bind_gets. unfold id. cbn [fst].
    change (is_host (hosting n A)) with true. change (num_round_sent_bytes (hosting n A)) with (num_round_sent_bytes A).
    replace (num_round_sent_bytes A <? 2) with false by (symmetry; apply Z.ltb_ge; lia).
    by rewrite andb_false_r. }
  split; [apply receive_not_started; [done |]; apply runs_pure, Hsil |].
  split; [| done]. intros e2. apply runs_pure. rewrite (proj2 (uart_not_started 0 (hosting n A) e2 eq_refl)). apply Hsil.
Qed.

Lemma mp_second_hosting_silent_witness :
  exists e1, host_mp_game 7 (peer true true false 2 4, menv0) = Ok (tt, (hosting 7 (peer true true false 2 4), e1)) /\
    runs (receive [CONNECTED]) (hosting 7 (peer true true false 2 4)) e1 (hosting 7 (peer true true false 2 4)) [].
Proof.
  destruct (mp_second_hosting_silent 7 (peer true true false 2 4) menv0 ltac:(cbn; lia)) as (e1 & H1 & H2 & _).
  exists e1. split; [exact H1 | exact H2].
Defined.

(** The queue of [mp_game.c] has one place: when the transmitter stays busy, the
    byte that passes the turn replaces the byte of the button, and the button is
    never sent. *)
Theorem mp_queue_overwrites {E} `{MpEnv E} q L (e : E) c :
  (forall e, fst (m_check_thr_emtpy e) = false) ->
  adding q L -> c <> NO_BUTTON -> stays c L = false ->
  exists L' e', mp_click_button c (L, e) = Ok (tt, (L', e')) /\ buttons_size L' = zlen q + 1 /\
    uart_has_data_to_send L' = true /\ uart_data L' = (if is_host L then IS_VS else READY) /\
    uart_data L' <> button_byte c.
Proof.
  intros Hbusy Ha Hc Hst. unfold stays in Hst. apply orb_false_iff in Hst as [Hv Hvs].
  assert (Hq : forall b g (e : E), exists e', write_or_queue b (g, e) =
            Ok (tt, (set_uart_data b (set_uart_has_data_to_send true g), e'))).
  { intros b g e0. exists (snd (m_check_thr_emtpy e0)). unfold write_or_queue, bind, env. cbn [fst snd].
    by rewrite Hbusy. }
  destruct (scored_fields L) as (F1 & F2 & F3).
  destruct (holds_add _ _ _ c (ad_block _ _ Ha) (ad_room _ _ Ha)) as (b' & Hset & Hb').
  set (L1 := set_buttons_size (zlen q + 1) (set_buttons b' (scored L))).
  assert (Hadd : mp_add_button c (scored L, e) = Ok (tt, (L1, e))).
  { unfold mp_add_button. mrun. unfold id. by rewrite F1, F2, (ad_size _ _ Ha), Hset. }
  destruct (Hq (button_byte c) L1 e) as (e1 & Hw1).
  set (L2 := set_uart_data (button_byte c) (set_uart_has_data_to_send true L1)) in *.
  assert (Hhost : is_host L2 = is_host L) by (unfold L2, L1, scored; cbn; by destruct (_ =? _)).
  assert (Hcp : exists L3 e3, mp_change_player (L2, e1) = Ok (tt, (L3, e3)) /\ buttons_size L3 = zlen q + 1 /\
            uart_has_data_to_send L3 = true /\ uart_data L3 = (if is_host L then IS_VS else READY)).
  { unfold mp_change_player. rewrite !bind_modify, bind_gets. cbn [fst snd].
    change (is_host (set_guessed 0 (set_is_player_1 (negb (is_player_1 L2)) L2))) with (is_host L2).
    rewrite Hhost. destruct (is_host L).
    - unfold mp_is_VS_round. unfold bind at 1. rewrite bind_modify. cbn [modify fst snd]. rewrite bind_gets.
      cbn [fst]. change (is_vs_round (set_VS_was_pressed false (set_is_vs_round true ?x))) with true.
      destruct (Hq IS_VS (set_VS_was_pressed false (set_is_vs_round true
                 (set_guessed 0 (set_is_player_1 (negb (is_player_1 L2)) L2)))) e1) as (e3 & Hw).
      eexists _, e3. split; [exact Hw | done].
    - destruct (Hq READY (set_guessed 0 (set_is_player_1 (negb (is_player_1 L2)) L2)) e1) as (e3 & Hw).
      eexists _, e3. split; [exact Hw | done]. }
  destruct Hcp as (L3 & e3 & Hcp & H1 & H2 & H3). exists L3, e3.
  unfold mp_click_button. rewrite (click_no c Hc), bind_gets. unfold id. cbn [fst].
  rewrite (ad_cond _ _ Ha), scored_run, (adding_not_max _ _ Ha), (ad_vs_round _ _ Ha), Hv, Hvs.
  rewrite (bind_ok _ _ _ _ _ Hadd). unfold mp_send_button. fold (button_byte c). rewrite (bind_ok _ _ _ _ _ Hw1).
  split; [exact Hcp |]. split; [exact H1 |]. split; [exact H2 |]. split; [exact H3 |].
  rewrite H3. destruct (is_host L), c; done.
Qed.

(** A transmitter that is always busy, for the witness. *)
#[export] Instance busy_inst : MpEnv unit := {
  m_set_mode _ e := e; m_set_timed_alarm _ e := e; m_set_seconds_alarm e := e;
  m_getLowestHiScore _ := Ok 0; m_reset_hiscore _ e := Ok e;
  m_check_thr_emtpy e := (false, e); m_serial_write_byte _ e := (false, e)
}.

Lemma mp_queue_overwrites_witness :
  exists L' e', mp_click_button BLUE_B (peer true true false 2 4, tt) = Ok (tt, (L', e')) /\ buttons_size L' = 3 /\
    uart_has_data_to_send L' = true /\ uart_data L' = IS_VS /\ uart_data L' <> button_byte BLUE_B.
Proof.
  apply (mp_queue_overwrites [GREEN_B; RED_B] (peer true true false 2 4) tt BLUE_B);
    [reflexivity | constructor; try done; split; done | discriminate | reflexivity].
Defined.
