(* ===== verification/MpNet.v ===== *)
(** The game on two computers as a protocol: two computers, the bytes on their
    way in either direction, and any interleaving of what happens on either side
    with the arrival of the bytes. *)

From stdpp Require Import base tactics list.
From Stdlib Require Import ZArith Lia Ascii.
From S2P Require Import Prelude Consts Keyboard Mouse NumLetters Vc Screen Pad MpGame MpLink.
Import Mp.

(** The other calls of [mp_game.c] return and send nothing. *)
Class MpQuiet (E : Type) `{MpLine E} := {
  quiet_mode m e : line_up e -> sent (m_set_mode m e) = sent e /\ line_up (m_set_mode m e);
  quiet_low e : line_up e -> is_ok (m_getLowestHiScore e) = true;
  quiet_hiscore n e : line_up e -> exists e', m_reset_hiscore n e = Ok e' /\ sent e' = sent e /\ line_up e'
}.
#[export] Instance menv_quiet : MpQuiet menv.
Proof. constructor; try done. intros n e. by exists e. Qed.

(** ** The network *)

(** A computer is its statics and the rest of its store. *)
Record net (E : Type) := Net {
  near : mst * E; far : mst * E;
  to_far : list Z; to_near : list Z
}.
Arguments Net {E}.
Arguments near {E}.
Arguments far {E}.
Arguments to_far {E}.
Arguments to_near {E}.

Definition swap {E} (n : net E) : net E := Net (far n) (near n) (to_near n) (to_far n).

Inductive input := Mouse (p : packet) | Tick | Key (k : key_press) | Timer.

Section Net.
Context {E : Type} `{ME : MpEnv E}.
Context `{ML : !MpLine E}.

Definition mp_event (ev : input) : M mst E unit :=
  match ev with
  | Mouse p => mp_game_update_status_mouse p
  | Tick => mp_game_update_status_rtc
  | Key k => mp_game_update_status_key k
  | Timer => mp_game_update_status_timer
  end.

(** What a computation of the near computer does to the network. *)
Definition near_runs (m : M mst E unit) (rest : list Z) (n : net E) : res (net E) :=
  res_bind (m (near n)) (fun r =>
    let bytes := drop (length (sent (snd (near n)))) (sent (snd (snd r))) in
    Ok (Net (snd r) (far n) (to_far n ++ bytes) rest)).

Definition near_local (ev : input) (n : net E) : res (net E) := near_runs (mp_event ev) (to_near n) n.

Definition near_deliver (n : net E) : res (net E) :=
  match to_near n with
  | [] => Ok n
  | b :: bs => near_runs (mp_game_update_status_uart b IIR_REC_DATA) bs n
  end.

(** On either side (the near one when true). *)
Inductive action := Local (s : bool) (ev : input) | Deliver (s : bool).

Definition on_side (s : bool) (f : net E -> res (net E)) (n : net E) : res (net E) :=
  if s then f n else res_bind (f (swap n)) (fun n => Ok (swap n)).

Definition net_step (act : action) : net E -> res (net E) :=
  match act with
  | Local s ev => on_side s (near_local ev)
  | Deliver s => on_side s near_deliver
  end.

Fixpoint net_run (acts : list action) (n : net E) : res (net E) :=
  match acts with
  | [] => Ok n
  | act :: acts => res_bind (net_step act n) (net_run acts)
  end.

Definition side (s : bool) (n : net E) : mst := fst (if s then near n else far n).

(** ** Agreement *)

Definition linked (L R : mst) : Prop := (exists q, sync q L R) \/ ended L R.

Lemma linked_sym L R : linked L R -> linked R L.
Proof.
  intros [(q & Hs) | [H1 H2 H3]]; [left; exists q; by apply sync_sym | right; by constructor].
Qed.

(** The near computer is ahead: when the far one has read what is on the way,
    they agree. *)
Definition ahead (n : net E) : Prop :=
  to_near n = [] /\ exists R, drains (E := E) (to_far n) (fst (far n)) R /\ linked (fst (near n)) R.

Definition lines_up (n : net E) : Prop := line_up (snd (near n)) /\ line_up (snd (far n)).

Definition consistent (n : net E) : Prop := lines_up n /\ (ahead n \/ ahead (swap n)).

(** What ends the agreement: the last button of a full sequence (a tie), a button
    past the block in the VS interval, the end of a VS interval of the client. *)
Inductive cause := ATie | AnOverflow | AClientInterval.

Definition breaks (ev : input) (g : mst) : option cause :=
  if my_turn g && negb (game_end g) then
    match ev with
    | Mouse p =>
        let m := update_mouse p (mp_mouse g) in
        let c := if left_click m then button_at m else NO_BUTTON in
        if button_eqb c NO_BUTTON || (buttons_size g <? max_buttons_size g) then None
        else if guessed g =? max_buttons_size g then Some ATie
        else if VS_was_pressed g then Some AnOverflow
        else None
    | Tick =>
        if (time_left_for_click g =? 0) && VS_was_pressed g && negb (is_host g) then Some AClientInterval else None
    | _ => None
    end
  else None.

(** ** What a computer out of turn may change *)

Definition dress (m : mouse_state) (p : Play_Screens) (t : Z) (g : mst) : mst :=
  set_mp_mouse m (set_ps p (set_time_left_for_screen t g)).

(** Up to the cursor, the light and its time. *)
Definition same_core (g h : mst) : Prop := exists m p t, h = dress m p t g.

Lemma same_core_refl g : same_core g g.
Proof. exists (mp_mouse g), (ps g), (time_left_for_screen g). by destruct g. Qed.

Lemma same_core_mouse m g : same_core g (set_mp_mouse m g).
Proof. exists m, (ps g), (time_left_for_screen g). by destruct g. Qed.

Lemma same_core_trans g h i : same_core g h -> same_core h i -> same_core g i.
Proof. intros (m & p & t & ->) (m' & p' & t' & ->). by exists m', p', t'. Qed.

Lemma sync_core q L L' R : sync q L R -> same_core L L' -> sync q L' R.
Proof. intros [] (m & p & t & ->). by constructor. Qed.

Lemma linked_core L L' R : linked L R -> same_core L L' -> linked L' R.
Proof.
  intros [(q & Hs) | [H1 H2 H3]] Hc; [left; exists q; by eapply sync_core |].
  right. destruct Hc as (m & p & t & ->). by constructor.
Qed.

Lemma idle_core g h : idle g -> same_core g h -> idle h.
Proof. intros Hi (m & p & t & ->). exact Hi. Qed.

(** Two runs that differ so. *)
Definition dressed (m : mouse_state) (p : Play_Screens) (t : Z) (r : res (unit * (mst * E))) :=
  match r with
  | Ok (_, (g, e)) => Ok (tt, (dress m p t g, e))
  | Undef u => Undef u
  end.

Definition dresses (m : mouse_state) (p : Play_Screens) (t : Z) (x : M mst E unit) : Prop :=
  forall g e, x (dress m p t g, e) = dressed m p t (x (g, e)).

Section Dress.
Variables (m : mouse_state) (p : Play_Screens) (t : Z).
#[local] Abbreviation dr := (dresses m p t).

Lemma dresses_bind x y : dr x -> dr y -> dr (do* x in y).
Proof.
  intros Hx Hy g e. unfold bind. rewrite Hx. destruct (x (g, e)) as [[[] [g' e']] | u]; cbn [dressed fst snd]; [apply Hy | done].
Qed.

Lemma dresses_modify f : (forall g, f (dress m p t g) = dress m p t (f g)) -> dr (modify f).
Proof. intros Hf g e. unfold modify. cbn [fst snd dressed]. by rewrite Hf. Qed.

Lemma dresses_skip : dr skip.
Proof. done. Qed.

Lemma dresses_when b x : dr x -> dr (when b x).
Proof. intros Hx. by destruct b. Qed.

Lemma dresses_gets (k : mst -> M mst E unit) :
  (forall g, k (dress m p t g) = k g) -> (forall g, dr (k g)) -> dr (bind (gets id) k).
Proof. intros Hk Hd g e. rewrite !bind_gets. unfold id. cbn [fst]. rewrite Hk. apply Hd. Qed.

Lemma dresses_lift {A} (r : res A) k : (forall x, dr (k x)) -> dr (bind (lift r) k).
Proof. intros Hk g e. destruct r as [x |]; [apply Hk | done]. Qed.

Ltac dress_step :=
  first [apply dresses_bind | apply dresses_skip | apply dresses_when | apply dresses_lift; intros ?
        | apply dresses_gets; [reflexivity | intros ?] | apply dresses_modify; reflexivity
        | match goal with |- dresses _ _ _ (if ?b then _ else _) => destruct b end].

Lemma add_dress c : dr (mp_add_button c).
Proof. unfold mp_add_button. repeat dress_step. Qed.

Lemma end_dress : dr mp_end_game.
Proof.
  intros g e. unfold mp_end_game. mrun. change (buttons (set_game_end true (dress m p t g))) with (buttons g).
  change (buttons (set_game_end true g)) with (buttons g). by destruct (block_free (buttons g)).
Qed.

Lemma remote_dress c : dr (mp_remote_click_button c).
Proof. unfold mp_remote_click_button. repeat first [apply add_dress | apply end_dress | dress_step]. Qed.

(** The bytes of the line: a button is lit whatever was lit before. *)
Definition lights (b : Z) : bool :=
  (3 <=? b) && (b <=? 8) &&
  match button_of_value (b - GREEN_REMOTE) with Some c => negb (button_eqb c NO_BUTTON) | None => false end.

Definition redress (lit : bool) (g : mst) : mst := if lit then set_mp_mouse m g else dress m p t g.

Lemma redress_core lit g : same_core g (redress lit g).
Proof. destruct lit; [apply same_core_mouse | by exists m, p, t]. Qed.

Lemma handler_dress c g (e : E) g' e' :
  my_turn g = false -> mp_buttons_handler c (g, e) = Ok (tt, (g', e')) ->
  mp_buttons_handler c (dress m p t g, e) = Ok (tt, (redress (negb (button_eqb c NO_BUTTON)) g', e')).
Proof.
  intros Ht. unfold mp_buttons_handler. rewrite !bind_gets. unfold id. cbn [fst].
  fold (my_turn g). fold (my_turn (dress m p t g)). change (my_turn (dress m p t g)) with (my_turn g). rewrite Ht.
  unfold bind. rewrite remote_dress. destruct (mp_remote_click_button c (g, e)) as [[[] [g1 e1]] |]; [| done].
  cbn [dressed fst snd]. destruct (negb (button_eqb c NO_BUTTON)); cbn [when redress].
  - unfold mp_light_button, modify. cbn [fst snd]. intros He. apply Ok_inj in He. injection He as <- <-. reflexivity.
  - intros He. apply Ok_inj in He. injection He as <- <-. reflexivity.
Qed.

Lemma dresses_run x g (e : E) g' e' :
  dr x -> x (g, e) = Ok (tt, (g', e')) -> x (dress m p t g, e) = Ok (tt, (dress m p t g', e')).
Proof. intros Hx Hr. by rewrite Hx, Hr. Qed.

Lemma play_dress b g (e : E) g' e' :
  my_turn g = false -> play_game b (g, e) = Ok (tt, (g', e')) ->
  play_game b (dress m p t g, e) = Ok (tt, (redress (lights b) g', e')).
Proof.
  intros Ht. unfold play_game, new_round, mp_is_VS_round, lights.
  destruct (_ && _); cbn [andb]; [destruct (button_of_value _); [by apply handler_dress |] |]; cbn [redress]; repeat case_match;
    apply dresses_run; repeat first [apply end_dress | dress_step].
Qed.
End Dress.

Lemma drains_core bs g g' h :
  drains (E := E) bs g g' -> same_core g h -> exists h', drains (E := E) bs h h' /\ same_core g' h'.
Proof.
  intros Hd. revert h. induction Hd as [g | b bs g g1 g2 Hi Hr Hd IH]; intros h Hc.
  - exists h. by split; [constructor |].
  - pose proof (idle_core g h Hi Hc) as Hih. destruct Hc as (m & p & t & ->).
    destruct (IH (redress m p t (lights b) g1) (redress_core _ _ _ _ _)) as (h2 & Hd2 & Hc2).
    exists h2. split; [| done]. refine (drains_cons b bs _ _ _ Hih _ Hd2).
    intros e Hup. destruct (Hr e Hup) as (e1 & He & Hs). exists e1. split; [| done].
    apply play_dress; [apply Hi | exact He].
Qed.

(** ** Events *)

Context `{MQ : !MpQuiet E}.

(** An event that changes nothing the other computer could see. *)
Definition unseen (ev : input) (g : mst) : Prop :=
  forall e : E, exists g', runs (mp_event ev) g e g' [] /\ same_core g g'.

Lemma unseen_pure ev g : (forall e : E, exists g', mp_event ev (g, e) = Ok (tt, (g', e)) /\ same_core g g') -> unseen ev g.
Proof. intros Hp e. destruct (Hp e) as (g' & Hr & Hc). exists g'. split; [by apply runs_pure | done]. Qed.

Lemma leave_unseen g (e : E) (b : bool) :
  runs (if b then env_ (m_set_mode LEADERBOARD) else mp_checkNewHiScore) g e g [].
Proof.
  intros Hup. rewrite app_nil_r. destruct (quiet_mode LEADERBOARD e Hup) as [Hs Hup1].
  destruct b; [eexists; by split_and! |].
  unfold mp_checkNewHiScore. mrun. pose proof (quiet_low e Hup) as Hl. destruct (m_getLowestHiScore e) as [low |]; [| done].
  mrun. destruct (low <? player_score g); mrun; [| eexists; by split_and!].
  destruct (quiet_mode HIGHSCORE e Hup) as [Hs2 Hup2].
  destruct (quiet_hiscore (player_score g) (m_set_mode HIGHSCORE e) Hup2) as (e' & He & Hs3 & Hup3). rewrite He.
  exists e'. split; [done |]. by rewrite Hs3.
Qed.

Lemma unseen_timer g : unseen Timer g.
Proof.
  apply unseen_pure. intros e. cbn [mp_event]. unfold mp_game_update_status_timer. mrun. unfold id.
  set (m := set_left_click false (mp_mouse g)).
  change (time_left_for_screen (set_mp_mouse m g)) with (time_left_for_screen g).
  destruct (time_left_for_screen g =? 0); (eexists; split; [reflexivity |]).
  - exists m, DEFAULT, (time_left_for_screen g). by destruct g.
  - exists m, (ps g), (time_left_for_screen g - 1). by destruct g.
Qed.

(** Out of turn. *)
Lemma unseen_idle ev g : idle g -> unseen ev g.
Proof.
  intros (Ht & He & Hst). destruct ev as [p | | k |]; [| | | apply unseen_timer]; apply unseen_pure; intros e; cbn [mp_event].
  - unfold mp_game_update_status_mouse. rewrite bind_gets. unfold id. cbn [fst]. rewrite He, Hst.
    rewrite bind_modify, bind_gets. cbn [fst snd].
    set (m := update_mouse p (mp_mouse g)).
    change (Bool.eqb (is_host (set_mp_mouse m g)) (is_player_1 (set_mp_mouse m g))) with (my_turn g). rewrite Ht.
    eexists. split; [reflexivity | apply same_core_mouse].
  - exists g. split; [| apply same_core_refl]. unfold mp_game_update_status_rtc, mp_rtc_leave.
    rewrite bind_gets. unfold id. cbn [fst]. fold (my_turn g). rewrite Ht. cbn [andb]. rewrite bind_gets. cbn [fst].
    by rewrite He.
  - exists g. split; [| apply same_core_refl]. unfold mp_game_update_status_key.
    rewrite !bind_gets. unfold id. cbn [fst]. by rewrite He.
Qed.

(** After the end. *)
Lemma unseen_ended ev g : game_end g = true -> unseen ev g.
Proof.
  intros He. destruct ev as [p | | k |]; [| | | apply unseen_timer]; intros e; cbn [mp_event];
    exists g; (split; [| apply same_core_refl]).
  - apply runs_pure. unfold mp_game_update_status_mouse. rewrite !bind_gets. unfold id. cbn [fst]. by rewrite He.
  - intros Hup. destruct (line_seconds e Hup) as [Hs1 Hup1].
    destruct (leave_unseen g (m_set_seconds_alarm e) (winner_eqb (ws g) TIE) Hup1) as (e' & Hl & Hs).
    exists e'. rewrite <- Hs1. split; [| done].
    unfold mp_game_update_status_rtc, mp_rtc_leave. rewrite !bind_gets. unfold id. cbn [fst].
    rewrite He, andb_false_r. rewrite bind_gets. cbn [fst]. rewrite He. cbn [when]. exact Hl.
  - apply runs_gets. unfold id. rewrite He. cbn [when]. destruct (key k =? ENTER); [| apply runs_skip].
    apply leave_unseen.
Qed.

(** ** The computer in turn *)

(** What an event of the computer in turn does on both sides. *)
Definition in_step (ev : input) (L R : mst) (e : E) : Prop :=
  exists L' R' bs, runs (mp_event ev) L e L' bs /\ drains (E := E) bs R R' /\ linked L' R'.

Lemma unseen_in_step ev L R e : unseen ev L -> linked L R -> in_step ev L R e.
Proof.
  intros Hu Hl. destruct (Hu e) as (L' & Hr & Hc). exists L', R, [].
  split; [exact Hr |]. split; [constructor | by eapply linked_core].
Qed.

Lemma click_in_step q L R (e : E) c :
  sync q L R -> my_turn L = true -> c <> NO_BUTTON ->
  (buttons_size L < max_buttons_size L \/ VS_was_pressed L = false /\ guessed L <> max_buttons_size L) ->
  exists L' R' bs, runs (mp_buttons_handler c) L e L' bs /\ drains (E := E) bs R R' /\ linked L' R'.
Proof.
  intros Hs Ht Hc Hroom. pose proof (sy_size_l _ _ _ Hs) as Hsz. pose proof (sy_range _ _ _ Hs) as Hr.
  pose proof (proj1 (sy_block_l _ _ _ Hs)) as Hfits.
  destruct ((guessed L =? zlen q) || VS_was_pressed L) eqn:Hcond.
  - assert (Hlt : zlen q < max_buttons_size L).
    { destruct Hroom as [? | [Hv Hg]]; [lia |]. rewrite Hv, orb_false_r in Hcond. apply Z.eqb_eq in Hcond. lia. }
    destruct (mirror_add q L R e c Hs Ht Hc Hcond Hlt) as (L' & R' & bs & H1 & H2 & H3 & _).
    exists L', R', bs. split; [done |]. split; [done |]. left. by eexists.
  - apply orb_false_iff in Hcond as [Hg Hv]. apply Z.eqb_neq in Hg.
    destruct (lookup_lt_is_Some_2 q (Z.to_nat (guessed L))) as [d Hd]; [unfold zlen in *; lia |].
    destruct (decide (d = c)) as [-> | Hne].
    + destruct (mirror_right q L R e c (Z.to_nat (guessed L)) Hs Ht Hc Hv ltac:(lia) Hd) as (L' & R' & bs & H1 & H2 & H3 & _).
      exists L', R', bs. split; [done |]. split; [done |]. left. by eexists.
    + destruct (mirror_wrong q L R e c (Z.to_nat (guessed L)) d Hs Ht Hc Hv ltac:(lia) Hd Hne) as (L' & R' & bs & H1 & H2 & H3 & _).
      exists L', R', bs. split; [done |]. split; [done |]. by right.
Qed.

Lemma mouse_in_step q L R (e : E) p :
  sync q L R -> my_turn L = true -> breaks (Mouse p) L = None -> in_step (Mouse p) L R e.
Proof.
  intros Hs Ht Hb. unfold breaks in Hb. rewrite Ht, (sy_end_l _ _ _ Hs) in Hb. cbn [negb andb] in Hb.
  set (m := update_mouse p (mp_mouse L)) in *. set (c := if left_click m then button_at m else NO_BUTTON) in *.
  set (L1 := set_mp_mouse m L).
  assert (Hs1 : sync q L1 R) by (eapply sync_core; [exact Hs | apply same_core_mouse]).
  assert (Hrun : forall L' bs, runs (mp_buttons_handler c) L1 e L' bs -> runs (mp_event (Mouse p)) L e L' bs).
  { intros L' bs. apply runs_eq. cbn [mp_event]. unfold mp_game_update_status_mouse.
    rewrite bind_gets. unfold id. cbn [fst]. rewrite (sy_end_l _ _ _ Hs), (sy_started_l _ _ _ Hs).
    rewrite bind_modify, bind_gets. cbn [fst snd]. fold m L1.
    change (Bool.eqb (is_host L1) (is_player_1 L1)) with (my_turn L). by rewrite Ht. }
  destruct (button_eqb c NO_BUTTON) eqn:Hno.
  - apply bool_decide_eq_true in Hno. exists (set_mp_mouse (set_left_click false m) L1), R, [].
    split; [| split; [constructor | left; exists q; eapply sync_core; [exact Hs1 | apply same_core_mouse]]].
    apply Hrun. rewrite Hno. apply runs_pure. unfold mp_buttons_handler.
    rewrite bind_gets. unfold id. cbn [fst]. by destruct (Bool.eqb _ _) eqn:Ht1; [| change (my_turn L = false) in Ht1; congruence].
  - cbn [orb] in Hb. destruct (click_in_step q L1 R e c Hs1) as (L' & R' & bs & H1 & H2 & H3).
    + exact Ht.
    + by apply bool_decide_eq_false in Hno.
    + change (buttons_size L1) with (buttons_size L). change (max_buttons_size L1) with (max_buttons_size L).
      change (VS_was_pressed L1) with (VS_was_pressed L). change (guessed L1) with (guessed L).
      destruct (Z.ltb_spec (buttons_size L) (max_buttons_size L)); [by left | right].
      destruct (Z.eqb_spec (guessed L) (max_buttons_size L)); [done |]. by destruct (VS_was_pressed L).
    + exists L', R', bs. split; [by apply Hrun | done].
Qed.

Lemma tick_in_step q L R (e : E) :
  sync q L R -> my_turn L = true -> breaks Tick L = None -> in_step Tick L R e.
Proof.
  intros Hs Ht Hb. unfold breaks in Hb. rewrite Ht, (sy_end_l _ _ _ Hs) in Hb. cbn [negb andb] in Hb.
  destruct (Z.eqb_spec (time_left_for_click L) 0) as [Hz | Hnz].
  - cbn [andb] in Hb. destruct (VS_was_pressed L) eqn:Hv; cbn [andb] in Hb.
    + destruct (is_host L) eqn:Hh; [| done].
      destruct (vs_interval_over q L R e Hs Ht Hv Hz) as [H1 H2].
      exists (passed L), (turned R), [if is_host L then IS_VS else READY]. split; [exact H1 |]. split; [exact H2 |].
      left. exists q. by apply mirror_vs_host.
    + destruct (mirror_timeout q L R e Hs Ht Hv Hz) as (L' & R' & bs & H1 & H2 & H3 & _).
      exists L', R', bs. split; [done |]. split; [done | by right].
  - set (t := if 0 <? time_left_for_click L then time_left_for_click L - 1 else time_left_for_click L).
    exists (set_time_left_for_click t L), R, []. split; [| split; [constructor | left; exists q; destruct Hs; by constructor]].
    apply runs_pure. cbn [mp_event]. unfold mp_game_update_status_rtc, mp_rtc_leave.
    rewrite bind_gets. unfold id. cbn [fst]. fold (my_turn L). rewrite Ht, (sy_end_l _ _ _ Hs).
    apply Z.eqb_neq in Hnz. rewrite Hnz. cbn [negb andb]. unfold t.
    destruct (0 <? time_left_for_click L).
    + rewrite bind_modify, bind_gets. cbn [fst snd].
      change (game_end (set_time_left_for_click ?x L)) with (game_end L). by rewrite (sy_end_l _ _ _ Hs).
    + unfold bind at 1. unfold skip, ret. cbn [fst snd]. rewrite bind_gets. cbn [fst]. rewrite (sy_end_l _ _ _ Hs).
      by destruct L.
Qed.

(** Any event of a computer that has read everything. *)
Lemma event_in_step ev L R e : linked L R -> breaks ev L = None -> in_step ev L R e.
Proof.
  intros Hl Hb. pose proof Hl as [(q & Hs) | [He _ _]]; [| by apply unseen_in_step; [apply unseen_ended |]].
  destruct (my_turn L) eqn:Ht.
  - destruct ev as [p | | k |]; [by eapply mouse_in_step | by eapply tick_in_step | |].
    + apply unseen_in_step; [| done]. apply unseen_pure. intros e1. exists L. split; [| apply same_core_refl].
      cbn [mp_event]. unfold mp_game_update_status_key. rewrite bind_gets. unfold id. cbn [fst].
      by rewrite (sy_end_l _ _ _ Hs).
    + apply unseen_in_step; [apply unseen_timer | done].
  - apply unseen_in_step; [| done]. apply unseen_idle. split; [done |]. split; apply Hs.
Qed.

(** ** The steps of the network *)

(** What the near computer runs succeeds, and [P] holds of the network after it. *)
Definition near_ok (m : M mst E unit) (rest : list Z) (n : net E) (P : net E -> Prop) : Prop :=
  exists L' e' bs, m (near n) = Ok (tt, (L', e')) /\ sent e' = sent (snd (near n)) ++ bs /\
    P (Net (L', e') (far n) (to_far n ++ bs) rest).

Lemma near_ok_runs m rest n P : near_ok m rest n P -> exists n', near_runs m rest n = Ok n' /\ P n'.
Proof.
  intros (L' & e' & bs & Hr & Hs & HP). eexists. split; [| exact HP].
  unfold near_runs. rewrite Hr. cbn [res_bind fst snd]. by rewrite Hs, drop_app_length.
Qed.

Lemma near_ok_mono m rest n (P Q : net E -> Prop) :
  near_ok m rest n P -> (forall n', P n' -> Q n') -> near_ok m rest n Q.
Proof. intros (L' & e' & bs & Hr & Hs & HP) HQ. exists L', e', bs. auto. Qed.

Lemma runs_near_ok m rest n L' bs (P : net E -> Prop) :
  runs m (fst (near n)) (snd (near n)) L' bs -> lines_up n ->
  (forall e', P (Net (L', e') (far n) (to_far n ++ bs) rest)) ->
  near_ok m rest n (fun n' => lines_up n' /\ P n').
Proof.
  intros Hm Hup HP. destruct (Hm (proj1 Hup)) as (e' & Hr & Hs & Hup'). exists L', e', bs.
  destruct (near n) as [L e]. split; [exact Hr |]. split; [exact Hs |]. split; [exact (conj Hup' (proj2 Hup)) | apply HP].
Qed.

Lemma local_ahead ev n :
  lines_up n -> ahead n -> breaks ev (fst (near n)) = None ->
  near_ok (mp_event ev) (to_near n) n (fun n' => lines_up n' /\ ahead n').
Proof.
  intros Hup (Hn & R & Hd & Hl) Hb.
  destruct (event_in_step ev (fst (near n)) R (snd (near n)) Hl Hb) as (L' & R' & bs & H1 & H2 & H3).
  apply (runs_near_ok _ _ _ L' bs _ H1 Hup). intros e'.
  split; [exact Hn |]. exists R'. cbn. split; [by eapply drains_app | done].
Qed.

Lemma local_behind ev n :
  lines_up n -> ahead (swap n) -> breaks ev (fst (near n)) = None ->
  near_ok (mp_event ev) (to_near n) n consistent.
Proof.
  intros Hup Ha Hb. pose proof Ha as (Hn & L & Hd & Hl). cbn in Hn, Hd, Hl.
  destruct (to_near n) as [| b bs] eqn:Htn.
  - inversion Hd; subst. pose proof (local_ahead ev n Hup) as Hr. rewrite Htn in Hr.
    eapply near_ok_mono; [apply Hr; [| done] |].
    + split; [exact Htn |]. rewrite Hn. exists (fst (far n)). split; [constructor | by apply linked_sym].
    + intros n' [Hup' Hn']. split; [done | by left].
  - assert (Hi : idle (fst (near n))) by (by inversion Hd).
    destruct (unseen_idle ev _ Hi (snd (near n))) as (L' & Hr & Hc).
    apply (runs_near_ok _ _ _ L' [] _ Hr Hup). intros e'.
    rewrite app_nil_r, Hn. right. split; [done |]. cbn.
    destruct (drains_core _ _ _ L' Hd Hc) as (L2 & Hd2 & Hc2). exists L2. split; [exact Hd2 |].
    apply linked_sym. eapply linked_core; [by apply linked_sym | exact Hc2].
Qed.

(** A computer that is behind is out of turn and playing. *)
Lemma waiting_idle n b bs : consistent n -> to_near n = b :: bs -> idle (fst (near n)) /\ ahead (swap n).
Proof.
  intros [_ [(Hn & _) | Ha]] Htn; [congruence |]. split; [| done]. destruct Ha as (_ & L & Hd & _).
  cbn in Hd. rewrite Htn in Hd. by inversion Hd.
Qed.

Lemma deliver_one n b bs :
  lines_up n -> ahead (swap n) -> to_near n = b :: bs ->
  near_ok (mp_game_update_status_uart b IIR_REC_DATA) bs n (fun n' => lines_up n' /\ ahead (swap n')).
Proof.
  intros Hup (Hn & L & Hd & Hl) Htn. cbn in Hn, Hd, Hl. rewrite Htn in Hd.
  inversion Hd as [| ? ? ? L1 ? Hi Hp Hd1]; subst. apply (runs_near_ok _ _ _ L1 [] _); [| exact Hup |].
  - refine (runs_eq _ _ _ _ _ _ _ _ (Hp (snd (near n)))).
    unfold mp_game_update_status_uart. rewrite bind_gets. unfold id. cbn [fst]. by rewrite (proj2 (proj2 Hi)).
  - intros e'. split; [cbn; by rewrite Hn |]. by exists L.
Qed.

Lemma deliver_near n b bs :
  consistent n -> to_near n = b :: bs -> near_ok (mp_game_update_status_uart b IIR_REC_DATA) bs n consistent.
Proof.
  intros Hc Htn. destruct (waiting_idle n b bs Hc Htn) as [_ Ha].
  eapply near_ok_mono; [exact (deliver_one n b bs (proj1 Hc) Ha Htn) |].
  intros n' [Hup' Ha']. split; [done | by right].
Qed.

Lemma deliver_ok n : consistent n -> exists n', near_deliver n = Ok n' /\ consistent n'.
Proof.
  intros Hcon. unfold near_deliver. destruct (to_near n) as [| b bs] eqn:Htn; [by exists n |].
  by apply near_ok_runs, deliver_near.
Qed.

Lemma swap_swap (n : net E) : swap (swap n) = n.
Proof. by destruct n. Qed.

Lemma consistent_swap n : consistent n -> consistent (swap n).
Proof. unfold consistent, lines_up. rewrite swap_swap. cbn. tauto. Qed.

Lemma local_near ev n :
  consistent n -> breaks ev (fst (near n)) = None -> near_ok (mp_event ev) (to_near n) n consistent.
Proof.
  intros [Hup [Ha | Ha]] Hb; [| by apply local_behind].
  eapply near_ok_mono; [exact (local_ahead ev n Hup Ha Hb) |]. intros n' [Hup' Ha']. split; [done | by left].
Qed.

Lemma local_ok ev n :
  consistent n -> breaks ev (fst (near n)) = None -> exists n', near_local ev n = Ok n' /\ consistent n'.
Proof. intros Hc Hb. by apply near_ok_runs, local_near. Qed.

(** The agreement an action would end. *)
Definition act_breaks (act : action) (n : net E) : option cause :=
  match act with
  | Local s ev => breaks ev (side s n)
  | Deliver _ => None
  end.

Lemma net_step_ok act n :
  consistent n -> act_breaks act n = None -> exists n', net_step act n = Ok n' /\ consistent n'.
Proof.
  intros Hc Hb.
  assert (Hf : forall f, (exists n', f (swap n) = Ok n' /\ consistent n') ->
                 exists n', on_side false f n = Ok n' /\ consistent n').
  { intros f (n' & Hr & Hc'). exists (swap n'). unfold on_side. rewrite Hr. split; [done | by apply consistent_swap]. }
  pose proof (consistent_swap n Hc) as Hcs.
  destruct act as [[|] ev | [|]]; cbn [net_step act_breaks] in *.
  - by apply local_ok.
  - by apply Hf, local_ok.
  - by apply deliver_ok.
  - by apply Hf, deliver_ok.
Qed.

(** The run until the first action that ends the agreement, if there is one. *)
Fixpoint until_break (acts : list action) (n : net E) : res (net E * option cause) :=
  match acts with
  | [] => Ok (n, None)
  | act :: acts =>
      match act_breaks act n with
      | Some c => Ok (n, Some c)
      | None => res_bind (net_step act n) (until_break acts)
      end
  end.

Lemma until_break_ok acts n :
  consistent n -> exists n' o, until_break acts n = Ok (n', o) /\ consistent n' /\
    (o = None -> net_run acts n = Ok n').
Proof.
  revert n. induction acts as [| act acts IH]; intros n Hc; [by exists n, None |].
  cbn [until_break net_run]. destruct (act_breaks act n) as [c |] eqn:Hb; [by exists n, (Some c) |].
  destruct (net_step_ok act n Hc Hb) as (n1 & Hr & Hc1). rewrite Hr. cbn [res_bind]. by apply IH.
Qed.

(** Delivering what is on the way. *)
Lemma ahead_delivers n k :
  lines_up n -> ahead n -> length (to_far n) = k ->
  exists n', net_run (replicate k (Deliver false)) n = Ok n' /\ to_far n' = [] /\ to_near n' = [] /\
    linked (fst (near n')) (fst (far n')) /\ near n' = near n.
Proof.
  revert n. induction k as [| k IH]; intros n Hup Ha Hk; cbn [replicate net_run].
  - apply nil_length_inv in Hk. destruct Ha as (Hn & R & Hd & Hl). rewrite Hk in Hd. inversion Hd; subst.
    by exists n.
  - destruct (to_far n) as [| b bs] eqn:Hf; [done |]. pose proof (proj1 Ha) as Hn.
    rewrite <- (swap_swap n) in Ha.
    destruct (deliver_one (swap n) b bs (conj (proj2 Hup) (proj1 Hup)) Ha Hf) as (R' & e' & bs' & Hr & Hs & Hup1 & Ha1).
    cbn [net_step on_side]. unfold near_deliver. change (to_near (swap n)) with (to_far n). rewrite Hf.
    unfold near_runs. rewrite Hr. cbn [res_bind fst snd]. rewrite Hs, drop_app_length.
    refine (IH (swap (Net (R', e') (far (swap n)) (to_far (swap n) ++ bs') bs)) (conj (proj2 Hup1) (proj1 Hup1)) Ha1 _).
    by injection Hk.
Qed.

Lemma deliver_swapped k n n' :
  net_run (replicate k (Deliver false)) (swap n) = Ok n' -> net_run (replicate k (Deliver true)) n = Ok (swap n').
Proof.
  revert n. induction k as [| k IH]; intros n; cbn [replicate net_run].
  - intros Hr. apply Ok_inj in Hr. by rewrite <- Hr, swap_swap.
  - cbn [net_step on_side]. rewrite swap_swap. destruct (near_deliver n) as [n1 |]; [| done]. cbn [res_bind]. apply IH.
Qed.

Lemma consistent_delivers n :
  consistent n -> exists s k n', net_run (replicate k (Deliver s)) n = Ok n' /\ to_far n' = [] /\ to_near n' = [] /\
    linked (side true n') (side false n') /\ side (negb s) n' = side (negb s) n.
Proof.
  intros [Hup [Ha | Ha]].
  - destruct (ahead_delivers n _ Hup Ha eq_refl) as (n' & H1 & H2 & H3 & H4 & H5).
    exists false, (length (to_far n)), n'. unfold side. cbn [negb]. rewrite H5. by rewrite H5 in H4.
  - destruct (ahead_delivers (swap n) _ (conj (proj2 Hup) (proj1 Hup)) Ha eq_refl) as (n' & H1 & H2 & H3 & H4 & H5).
    exists true, (length (to_far (swap n))), (swap n'). split; [by apply deliver_swapped |].
    unfold side. cbn. rewrite H5. split; [done |]. split; [done |]. split; [| done].
    rewrite <- H5. by apply linked_sym.
Qed.
End Net.

Lemma sync_linked {E} `{MpEnv E, !MpLine E} q L R (eL eR : E) :
  line_up eL -> line_up eR -> sync q L R -> consistent (Net (L, eL) (R, eR) [] []).
Proof. intros HL HR Hs. split; [done |]. left. split; [done |]. exists R. split; [constructor |]. left. by exists q. Qed.

(** ** Properties *)



(** Nothing is lost: from any such moment, delivering the bytes on their way, and
    nothing else, brings the two computers to agree. *)
Theorem bytes_reconcile {E} `{MpEnv E, !MpLine E, !MpQuiet E} (n : net E) :
  consistent n ->
  exists s k n', net_run (replicate k (Deliver s)) n = Ok n' /\ to_far n' = [] /\ to_near n' = [] /\
    linked (side true n') (side false n') /\ side (negb s) n' = side (negb s) n.
Proof. apply consistent_delivers. Qed.

Lemma bytes_reconcile_witness :
  exists s k n', net_run (replicate k (Deliver s))
      (Net (peer true true false 2 4, menv0) (peer false true false 2 4, menv0) [] []) = Ok n' /\
    linked (side true n') (side false n').
Proof.
  destruct (bytes_reconcile _ (sync_linked [GREEN_B; RED_B] (peer true true false 2 4) (peer false true false 2 4)
              menv0 menv0 (menv_up menv0) (menv_up menv0) (peer_sync true false 2 4 4 true ltac:(lia)))) as (s & k & n' & H1 & _ & _ & H2 & _).
  exists s, k, n'. split; [exact H1 | exact H2].
Defined.
