(* ===== verification/MpSafe.v ===== *)
(** One computer of the game on two, whatever arrives on its serial line: the
    invariant of the statics of [mp_game.c], and the exact events that leave the
    defined behaviour. *)

From stdpp Require Import base tactics list.
From Stdlib Require Import ZArith Lia Ascii.
From S2P Require Import Prelude Consts Keyboard Mouse NumLetters Vc Screen Pad MpGame MpLink MpNet.
Import Mp.

(** ** The invariant *)

Definition live (g : mst) : Prop :=
  game_end g = false /\
  exists s, holds (buttons g) s (max_buttons_size g) /\ zlen s = buttons_size g /\ 0 <= guessed g <= buttons_size g.

(** No game has been set up since the program started. *)
Definition unset (g : mst) : Prop :=
  buttons g = PNull /\ game_started g = false /\ is_host g = false /\ received_no_bytes g <= 1.

Record mp_ok (g : mst) : Prop := {
  mo_block : unset g \/ buttons g = PFreed /\ game_end g = true \/ live g;
  mo_max : 0 <= max_buttons_size g <= 999;
  mo_size : 0 <= buttons_size g <= 999;
  mo_score : 0 <= player_score g <= 999;
  mo_clock : -1 <= time_left_for_click g <= VS_INTERVAL;
  mo_mouse : mouse_in (mp_mouse g);
  mo_received : 0 <= received_no_bytes g;
  mo_byte : 0 <= received_byte g < 256
}.

Lemma mst_init_ok : mp_ok mst_init.
Proof. constructor; try (cbn; unfold VS_INTERVAL; lia); [by left | by vm_compute]. Qed.

(** ** The events and their faults *)

Inductive mp_event_kind := Here (ev : input) | Uart (data type : Z).

Definition mp_any {E} `{MpEnv E} (ev : mp_event_kind) : M mst E unit :=
  match ev with
  | Here ev => mp_event ev
  | Uart data type => mp_game_update_status_uart data type
  end.

Definition freed (g : mst) : bool := match buttons g with PFreed => true | _ => false end.

(** A button past the block, in the VS interval. *)
Definition overflows (g : mst) : bool :=
  VS_was_pressed g && (buttons_size g =? max_buttons_size g) && negb (guessed g =? max_buttons_size g).

Definition click_of (p : packet) (g : mst) : button_click_t :=
  let m := update_mouse p (mp_mouse g) in if left_click m then button_at m else NO_BUTTON.

(** The byte of a button or of the end of the game, after the end. *)
Definition byte_fault (data : Z) (g : mst) : option ub_kind :=
  if (3 <=? data) && (data <=? 8) then
    if freed g then
      Some (if ((guessed g =? buttons_size g) || VS_was_pressed g) && (guessed g =? max_buttons_size g)
            then DoubleFree else UseAfterFree)
    else if overflows g then Some OutOfBounds else None
  else if ((data =? LOSE) || (data =? winner_value TIE)) && freed g then Some DoubleFree
  else None.

Definition mp_faulty (ev : mp_event_kind) (g : mst) : option ub_kind :=
  match ev with
  | Here (Mouse p) =>
      if negb (game_end g) && game_started g && my_turn g && negb (button_eqb (click_of p g) NO_BUTTON) && overflows g
      then Some OutOfBounds else None
  | Here _ => None
  | Uart data type => if (type =? IIR_REC_DATA) && game_started g then byte_fault data g else None
  end.

(** The line announces more rounds than the screen of the rounds allows; a host
    of this program never does. *)
Definition announces (ev : mp_event_kind) (g : mst) : bool :=
  match ev with
  | Here _ => false
  | Uart data type =>
      (type =? IIR_REC_DATA) && negb (game_started g) && negb (is_host g) && negb (received_no_bytes g =? 0)
      && (999 <? Z.lor (Z.shiftl data 8) (received_byte g))
  end.

Definition byte_in (ev : mp_event_kind) : Prop :=
  match ev with Here _ => True | Uart data _ => 0 <= data < 256 end.

(** What the calls of a game rely on, as [GameSafeOn]. *)
Class MpSafeOn {E : Type} `{MpEnv E} (Q : E -> Prop) (top : Z) := {
  mon_mode : forall e, Q e -> Q (m_set_mode LEADERBOARD e);
  mon_alarm : forall s e, Q e -> Q (m_set_timed_alarm s e);
  mon_seconds : forall e, Q e -> Q (m_set_seconds_alarm e);
  mon_check : forall e, Q e -> Q (snd (m_check_thr_emtpy e));
  mon_write : forall b e, Q e -> Q (snd (m_serial_write_byte b e));
  mon_low : forall e, Q e -> is_ok (m_getLowestHiScore e) = true;
  mon_hiscore : forall n e, Q e -> 0 <= n <= top ->
    exists e', m_reset_hiscore n (m_set_mode HIGHSCORE e) = Ok e' /\ Q e'
}.

(** ** Running the code *)

Section MpSafe.
Context {E : Type} `{ME : MpEnv E} (Q : E -> Prop).
Context `{MS : !MpSafeOn Q 999}.

(** [m] returns, in order for the environment, in statics where [P]. *)
Definition ends {A} (m : M mst E A) (g : mst) (e : E) (P : A -> mst -> Prop) : Prop :=
  exists a g' e', m (g, e) = Ok (a, (g', e')) /\ P a g' /\ Q e'.

Lemma ends_bind {A B} (m : M mst E A) (k : A -> M mst E B) g e (P : A -> mst -> Prop) R :
  ends m g e P -> (forall a g e, P a g -> Q e -> ends (k a) g e R) -> ends (bind m k) g e R.
Proof.
  intros (a & g1 & e1 & Hm & Hp & Hq) Hk. destruct (Hk a g1 e1 Hp Hq) as (b & g2 & e2 & Hr & Hr2).
  exists b, g2, e2. by rewrite (bind_ok _ _ _ _ _ Hm).
Qed.

Lemma ends_mono {A} (m : M mst E A) g e (P R : A -> mst -> Prop) :
  ends m g e P -> (forall a g, P a g -> R a g) -> ends m g e R.
Proof. intros (a & g1 & e1 & Hm & Hp & Hq) Hk. exists a, g1, e1. auto. Qed.

Lemma ends_ret {A} (a : A) g e (P : A -> mst -> Prop) : Q e -> P a g -> ends (ret a) g e P.
Proof. intros Hq Hp. by exists a, g, e. Qed.

Lemma ends_gets {A B} (f : mst -> A) (k : A -> M mst E B) g e R : ends (k (f g)) g e R -> ends (bind (gets f) k) g e R.
Proof. by intros. Qed.

Lemma ends_set (f : mst -> mst) {B} (k : unit -> M mst E B) g e R :
  ends (k tt) (f g) e R -> ends (bind (modify f) k) g e R.
Proof. by intros. Qed.

Lemma ends_modify (f : mst -> mst) g e (P : unit -> mst -> Prop) : Q e -> P tt (f g) -> ends (modify f) g e P.
Proof. intros Hq Hp. by exists tt, (f g), e. Qed.

Lemma ends_env_ f g e (P : unit -> mst -> Prop) : Q (f e) -> P tt g -> ends (env_ f) g e P.
Proof. intros Hq Hp. by exists tt, g, (f e). Qed.

(** The statics of the queue have no part in the invariant. *)
Definition queue (b : bool) (x : Z) (g : mst) : mst := set_uart_data x (set_uart_has_data_to_send b g).

Lemma queue_none g : g = queue (uart_has_data_to_send g) (uart_data g) g.
Proof. by destruct g. Qed.

Lemma ends_write b g e : Q e -> ends (serial_write b) g e (fun _ g' => g' = g).
Proof. intros Hq. exists tt, g, (snd (m_serial_write_byte b e)). split; [done |]. split; [done | by apply mon_write]. Qed.

Lemma ends_check {B} (k : bool -> M mst E B) g e R :
  Q e -> (forall b e, Q e -> ends (k b) g e R) -> ends (bind (env m_check_thr_emtpy) k) g e R.
Proof. intros Hq Hk. unfold ends. rewrite bind_env. apply Hk. by apply mon_check. Qed.

Lemma ends_queue b g e : Q e -> ends (write_or_queue b) g e (fun _ g' => exists f x, g' = queue f x g).
Proof.
  intros Hq. apply ends_check; [done |]. intros [] e1 Hq1.
  - eapply ends_mono; [by apply ends_write |]. intros _ g' ->. exists (uart_has_data_to_send g), (uart_data g). apply queue_none.
  - apply ends_set. apply ends_modify; [done |]. by exists true, b.
Qed.

(** *** The invariant and the assignments *)

Ltac same_ok := intros []; constructor; assumption.

Lemma ok_queue f x g : mp_ok g -> mp_ok (queue f x g).
Proof. same_ok. Qed.
Lemma ok_vs b g : mp_ok g -> mp_ok (set_VS_was_pressed b g).
Proof. same_ok. Qed.
Lemma ok_vs_screen b g : mp_ok g -> mp_ok (set_VS_screen b g).
Proof. same_ok. Qed.
Lemma ok_vs_round b g : mp_ok g -> mp_ok (set_is_vs_round b g).
Proof. same_ok. Qed.
Lemma ok_player b g : mp_ok g -> mp_ok (set_is_player_1 b g).
Proof. same_ok. Qed.
Lemma ok_winner w g : mp_ok g -> mp_ok (set_ws w g).
Proof. same_ok. Qed.
Lemma ok_screen p g : mp_ok g -> mp_ok (set_ps p g).
Proof. same_ok. Qed.
Lemma ok_screen_time t g : mp_ok g -> mp_ok (set_time_left_for_screen t g).
Proof. same_ok. Qed.
Lemma ok_sent n g : mp_ok g -> mp_ok (set_num_round_sent_bytes n g).
Proof. same_ok. Qed.
Lemma ok_time t g : -1 <= t <= VS_INTERVAL -> mp_ok g -> mp_ok (set_time_left_for_click t g).
Proof. intros Ht. same_ok. Qed.
Lemma ok_score g : mp_ok g -> mp_ok (set_player_score (buttons_size g) g).
Proof. same_ok. Qed.
Lemma ok_mouse m g : mouse_in m -> mp_ok g -> mp_ok (set_mp_mouse m g).
Proof. intros Hm. same_ok. Qed.
Lemma ok_byte b g : 0 <= b < 256 -> mp_ok g -> mp_ok (set_received_byte b g).
Proof. intros Hb. same_ok. Qed.

Lemma ok_guessed n g : (live g -> 0 <= n <= buttons_size g) -> mp_ok g -> mp_ok (set_guessed n g).
Proof.
  intros Hn []. constructor; try assumption. destruct mo_block0 as [? | [? | Hl]]; [by left | by right; left |].
  right. right. pose proof (Hn Hl). destruct Hl as (He & s & Hs & Hz & _). split; [done |]. by exists s.
Qed.

Lemma ok_rewind g : mp_ok g -> mp_ok (set_guessed 0 g).
Proof. intros Hg. apply ok_guessed; [| done]. intros _. pose proof (mo_size g Hg). lia. Qed.

Hint Resolve ok_queue ok_vs ok_vs_screen ok_vs_round ok_player ok_winner ok_screen ok_screen_time ok_sent ok_score
  ok_rewind : simon.

(** A handler that ends in order. *)
Definition fine (m : M mst E unit) (g : mst) (e : E) : Prop := ends m g e (fun _ g' => mp_ok g').

Lemma fine_set (f : mst -> mst) (k : unit -> M mst E unit) g e :
  (mp_ok g -> mp_ok (f g)) -> mp_ok g -> (mp_ok (f g) -> fine (k tt) (f g) e) -> fine (bind (modify f) k) g e.
Proof. intros Hf Hg Hk. apply ends_set. exact (Hk (Hf Hg)). Qed.

Lemma fine_modify (f : mst -> mst) g e : Q e -> mp_ok (f g) -> fine (modify f) g e.
Proof. intros Hq Hg. by apply ends_modify. Qed.

Lemma fine_skip g e : Q e -> mp_ok g -> fine skip g e.
Proof. intros Hq Hg. by apply ends_ret. Qed.

Lemma fine_bind m k g e : fine m g e -> (forall g e, mp_ok g -> Q e -> fine (k tt) g e) -> fine (bind m k) g e.
Proof. intros Hm Hk. eapply ends_bind; [exact Hm |]. intros [] g1 e1. apply Hk. Qed.

Lemma fine_queue b g e : mp_ok g -> Q e -> fine (write_or_queue b) g e.
Proof. intros Hg Hq. eapply ends_mono; [by apply ends_queue |]. intros _ g' (f & x & ->). by apply ok_queue. Qed.

Lemma fine_write b g e : mp_ok g -> Q e -> fine (serial_write b) g e.
Proof. intros Hg Hq. eapply ends_mono; [by apply ends_write |]. by intros _ g' ->. Qed.

(** *** The operations *)

Lemma fine_end g e : freed g = false -> mp_ok g -> Q e -> fine mp_end_game g e.
Proof.
  intros Hf Hg Hq. unfold fine, mp_end_game. apply ends_set, ends_gets. cbn [buttons set_game_end].
  destruct Hg. unfold freed in Hf. destruct (buttons g) as [| | cells] eqn:Hb; [| done |]; cbn [block_free]; unfold ends;
    rewrite bind_lift, bind_modify; unfold env_; cbn [fst snd]; eexists _, _, _;
    (split; [done |]; split; [| by apply mon_alarm]); constructor; cbn; try assumption.
  - left. destruct mo_block0 as [(_ & ?) | [[? _] | (_ & s & [_ Hs] & _)]]; [by split | congruence | congruence].
  - right. by left.
Qed.

Lemma end_twice g (e : E) : freed g = true -> mp_end_game (g, e) = Undef DoubleFree.
Proof. intros Hf. unfold mp_end_game, freed in *. destruct (buttons g) eqn:Hb; try done.
  mrun. cbn [buttons set_game_end]. by rewrite Hb. Qed.

Lemma fine_vs_round g e : mp_ok g -> Q e -> fine mp_is_VS_round g e.
Proof. intros Hg Hq. apply fine_set; [apply ok_vs_round | done |]. intros. apply fine_modify; [done |]. by apply ok_vs. Qed.

Lemma fine_change g e : mp_ok g -> Q e -> fine mp_change_player g e.
Proof.
  intros Hg Hq. apply fine_set; [apply ok_player | done |]. intros Hg1. apply fine_set; [apply ok_rewind | done |].
  intros Hg2. apply ends_gets. destruct (is_host _); [| by apply fine_queue].
  apply fine_bind; [by apply fine_vs_round |]. intros g' e' Hg' Hq'. apply ends_gets. by apply fine_queue.
Qed.

Lemma fine_add c g e :
  live g -> buttons_size g < max_buttons_size g -> mp_ok g -> Q e -> fine (mp_add_button c) g e.
Proof.
  intros (Hend & s & Hs & Hz & Hgs) Hlt Hg Hq. unfold fine, mp_add_button. apply ends_gets. unfold id.
  destruct (holds_add (buttons g) s (max_buttons_size g) c Hs ltac:(lia)) as (b & Hb & Hb').
  rewrite <- Hz at 1. unfold ends. rewrite Hb, bind_lift, bind_modify. eexists _, _, _. split; [done |].
  split; [| done]. cbn [fst snd]. pose proof (mo_max g Hg). destruct Hg. constructor; cbn; try assumption; try lia.
  right. right. split; [done |]. exists (s ++ [c]). cbn. rewrite zlen_snoc. split; [done |]. lia.
Qed.

Lemma add_faults c g (e : E) :
  freed g = true \/ live g /\ buttons_size g = max_buttons_size g ->
  mp_add_button c (g, e) = Undef (if freed g then UseAfterFree else OutOfBounds).
Proof.
  intros Hc. unfold mp_add_button. rewrite bind_gets. unfold id. cbn [fst]. unfold freed in *. destruct Hc as [Hf | (Hl & Hfull)].
  - by destruct (buttons g).
  - destruct Hl as (_ & s & Hs & Hz & _). rewrite <- Hz in Hfull |- *.
    pose proof (holds_full _ _ _ c Hs ltac:(lia)) as Hb. rewrite Hz in *. unfold bind at 1. rewrite Hb. cbn.
    destruct Hs as [_ ->]. done.
Qed.

(** *** The buttons *)

(** The score, when the sequence has been repeated. *)
Lemma fine_scored (b : bool) (k : unit -> M mst E unit) g e :
  mp_ok g ->
  (forall g1, mp_ok g1 -> g1 = g \/ g1 = set_player_score (buttons_size g) g -> fine (k tt) g1 e) ->
  fine (bind (when b (modify (set_player_score (buttons_size g)))) k) g e.
Proof.
  intros Hg Hk. destruct b; cbn [when].
  - apply ends_set, Hk; [by apply ok_score | by right].
  - exact (Hk g Hg (or_introl eq_refl)).
Qed.

Lemma scored_faults (b : bool) (m : M mst E unit) g e u :
  (forall g1, g1 = g \/ g1 = set_player_score (buttons_size g) g -> m (g1, e) = Undef u) ->
  bind (when b (modify (set_player_score (buttons_size g)))) (fun _ => m) (g, e) = Undef u.
Proof. intros Hm. destruct b; apply Hm; auto. Qed.

Lemma bind_undef {A B} (m : M mst E A) (k : A -> M mst E B) s u : m s = Undef u -> bind m k s = Undef u.
Proof. intros Hm. unfold bind. by rewrite Hm. Qed.

(** Where a button faults: past the block, or with the block freed. *)
Definition click_fault (g : mst) : option ub_kind :=
  if freed g then
    Some (if ((guessed g =? buttons_size g) || VS_was_pressed g) && (guessed g =? max_buttons_size g)
          then DoubleFree else UseAfterFree)
  else if overflows g then Some OutOfBounds else None.

Lemma live_not_freed g : live g -> freed g = false.
Proof. intros (_ & s & [_ Hs] & _). unfold freed. by rewrite Hs. Qed.

Lemma not_freed_cases g : mp_ok g -> game_started g = true -> freed g = true \/ live g.
Proof.
  intros Hg Hs. destruct (mo_block g Hg) as [(_ & Hn & _) | [[Hb _] | Hl]]; [congruence | left | by right].
  unfold freed. by rewrite Hb.
Qed.

(** What the tests before a button is added leave of the block. *)
Definition same_block (g h : mst) : Prop :=
  freed h = freed g /\ buttons_size h = buttons_size g /\ max_buttons_size h = max_buttons_size g /\ (live g -> live h).

Lemma add_undef c g h (e : E) u :
  same_block g h -> freed g = true \/ live g -> (guessed g =? max_buttons_size g) = false ->
  click_fault g = Some u -> (guessed g =? buttons_size g) || VS_was_pressed g = true ->
  mp_add_button c (h, e) = Undef u.
Proof.
  intros (Hf & Hs & Hm & Hl) Hb Hmax Hu Hfull. unfold click_fault, overflows in Hu. rewrite Hmax, andb_false_r in Hu.
  rewrite add_faults, Hf.
  - destruct (freed g); [congruence |]. destruct (_ && _); congruence.
  - rewrite Hf, Hs, Hm. destruct Hb as [Hb | Hb]; [by left |]. right. split; [by apply Hl |].
    rewrite (live_not_freed g Hb) in Hu. cbn [negb] in Hu. rewrite andb_true_r in Hu.
    destruct (_ && _) eqn:Hv; [| discriminate]. by unbool.
Qed.

Lemma fine_adds c g h e :
  same_block g h -> live g -> mp_ok g -> mp_ok h -> Q e -> (guessed g =? max_buttons_size g) = false ->
  overflows g = false -> (guessed g =? buttons_size g) || VS_was_pressed g = true -> fine (mp_add_button c) h e.
Proof.
  intros (Hf & Hs & Hm & Hl) Hlg Hg Hh Hq Hmax Ho Hfull. apply fine_add; [by apply Hl | | done | done].
  rewrite Hs, Hm. destruct Hlg as (_ & s & [Hz _] & Hsize & _). unfold overflows in Ho. rewrite Hmax in Ho.
  cbn [negb] in Ho. rewrite andb_true_r in Ho. apply andb_false_iff in Ho as [Ho | Ho]; [| unbool; lia].
  rewrite Ho, orb_false_r in Hfull. unbool. lia.
Qed.

(** The button the player expects, or another. *)
Lemma expected g : live g -> (guessed g =? buttons_size g) = false -> exists b, block_get (buttons g) (guessed g) = Ok b.
Proof.
  intros (_ & s & Hs & Hz & Hg) Hne. unbool. destruct (lookup_lt_is_Some_2 s (Z.to_nat (guessed g))) as [b Hb];
    [unfold zlen in *; lia |]. exists b. rewrite <- (Z2Nat.id (guessed g)) by lia. by eapply holds_get.
Qed.

Lemma full_fault g u :
  click_fault g = Some u -> (guessed g =? buttons_size g) || VS_was_pressed g = true ->
  (guessed g =? max_buttons_size g) = true -> freed g = true /\ u = DoubleFree.
Proof.
  intros Hu Hfull Hmax. unfold click_fault, overflows in Hu. rewrite Hfull, Hmax, andb_false_r in Hu.
  destruct (freed g); by simplify_eq.
Qed.

Lemma get_undef g u (e : E) :
  click_fault g = Some u -> (guessed g =? buttons_size g) || VS_was_pressed g = false ->
  lift (block_get (buttons g) (guessed g)) (g, e) = Undef u.
Proof.
  intros Hu Hfull. unfold click_fault, overflows in Hu. apply orb_false_iff in Hfull as [Hz Hv].
  rewrite Hz, Hv in Hu. cbn [andb orb] in Hu. unfold freed in Hu. destruct (buttons g); by simplify_eq.
Qed.

Ltac block_same := unfold same_block; repeat match goal with H : _ = ?g \/ _ = set_player_score _ ?g |- _ => destruct H as [-> | ->] end; split_and!; done.

Lemma local_faults c g (e : E) u :
  c <> NO_BUTTON -> freed g = true \/ live g -> click_fault g = Some u -> mp_click_button c (g, e) = Undef u.
Proof.
  intros Hc Hb Hu. unfold mp_click_button. rewrite (click_no c Hc), bind_gets. unfold id. cbn [fst].
  destruct ((guessed g =? buttons_size g) || VS_was_pressed g) eqn:Hfull.
  - apply scored_faults. intros g1 Hg1. destruct (guessed g =? max_buttons_size g) eqn:Hmax.
    + destruct (full_fault g u Hu Hfull Hmax) as [Hfr ->]. rewrite bind_modify. cbn [fst snd]. apply bind_undef, end_twice. by destruct Hg1 as [-> | ->].
    + pose proof (fun h Hh => add_undef c g h e u Hh Hb Hmax Hu Hfull) as Hadd. clear Hfull.
      repeat case_match; rewrite ?bind_modify; cbn [fst snd]; apply bind_undef, Hadd; block_same.
  - apply bind_undef. by apply get_undef.
Qed.

Lemma remote_faults c g (e : E) u :
  freed g = true \/ live g -> click_fault g = Some u -> mp_remote_click_button c (g, e) = Undef u.
Proof.
  intros Hb Hu. unfold mp_remote_click_button. rewrite bind_gets. unfold id. cbn [fst].
  destruct ((guessed g =? buttons_size g) || VS_was_pressed g) eqn:Hfull.
  - apply scored_faults. intros g1 Hg1. destruct (guessed g =? max_buttons_size g) eqn:Hmax.
    + destruct (full_fault g u Hu Hfull Hmax) as [Hfr ->]. rewrite bind_modify. cbn [fst snd]. apply end_twice. by destruct Hg1 as [-> | ->].
    + pose proof (fun h Hh => add_undef c g h e u Hh Hb Hmax Hu Hfull) as Hadd. clear Hfull.
      repeat case_match; rewrite ?bind_modify; cbn [fst snd]; apply Hadd; block_same.
  - apply bind_undef. by apply get_undef.
Qed.

Lemma ends_send_winner g e : Q e -> ends mp_send_winner g e (fun _ g' => exists f x, g' = queue f x g).
Proof. intros Hq. apply ends_gets. by apply ends_queue. Qed.

Lemma fine_send_winner g e : mp_ok g -> Q e -> fine mp_send_winner g e.
Proof. intros Hg Hq. apply ends_gets. by apply fine_queue. Qed.

Lemma click_ok_facts g : click_fault g = None -> overflows g = false.
Proof. unfold click_fault. destruct (freed g); [discriminate |]. by destruct (overflows g). Qed.

(** Three ways a button that has been added goes on. *)
Lemma fine_add_send c h e (k : unit -> M mst E unit) :
  fine (mp_add_button c) h e -> (forall g e, mp_ok g -> Q e -> fine (k tt) g e) ->
  fine (do* mp_add_button c in bind (mp_send_button c) k) h e.
Proof. intros Ha Hk. apply fine_bind; [done |]. intros g1 e1 Hg1 Hq1. apply fine_bind; [by apply fine_queue | done]. Qed.

Lemma local_fine c g e :
  c <> NO_BUTTON -> live g -> mp_ok g -> Q e -> click_fault g = None -> fine (mp_click_button c) g e.
Proof.
  intros Hc Hl Hg Hq Hu. pose proof (click_ok_facts g Hu) as Ho. unfold mp_click_button. rewrite (click_no c Hc).
  apply ends_gets. unfold id. destruct ((guessed g =? buttons_size g) || VS_was_pressed g) eqn:Hfull.
  - apply fine_scored; [done |]. intros g1 Hg1 Heq. destruct (guessed g =? max_buttons_size g) eqn:Hmax.
    + apply fine_set; [apply ok_winner | done |]. intros Hg2.
      apply fine_bind; [apply fine_end; [| done | done] | intros; by apply fine_send_winner].
      rewrite <- (live_not_freed g Hl). by destruct Heq as [-> | ->].
    + pose proof (fun h Hh Hok => fine_adds c g h e Hh Hl Hg Hok Hq Hmax Ho Hfull) as Hadd. clear Hfull.
      destruct (is_vs_round g); [destruct (VS_was_pressed g); [| destruct (button_eqb c VS_B)] |].
      * apply fine_bind; [apply Hadd; [block_same | done] | intros; by apply fine_queue].
      * apply fine_set; [apply ok_vs | done |]. intros Hg2. apply fine_set; [apply ok_vs_screen | done |]. intros Hg3.
        apply (fine_add_send c); [apply Hadd; [block_same | done] |]. intros g4 e4 Hg4 Hq4. apply fine_modify; [done |].
        apply ok_time; [by unfold VS_INTERVAL | done].
      * apply (fine_add_send c); [apply Hadd; [block_same | done] |]. intros. by apply fine_change.
      * apply (fine_add_send c); [apply Hadd; [block_same | done] |]. intros. by apply fine_change.
  - apply orb_false_iff in Hfull as [Hne _]. destruct (expected g Hl Hne) as [b Hb]. rewrite Hb.
    destruct Hl as (Hend & s & Hs & Hz & Hgs). unbool.
    assert (Hl : live g) by (split; [done | by exists s]).
    unfold fine, ends. rewrite bind_lift. destruct (button_eqb b c).
    + apply (ends_bind _ _ _ _ _ _ (ends_queue _ g e Hq)). intros _ g1 e1 (f & x & ->) Hq1.
      apply ends_set, fine_modify; [done |].
      apply ok_time; [destruct (_ =? _); by unfold VS_INTERVAL, INTERVAL |]. apply ok_guessed; [intros; cbn; lia | by apply ok_queue].
    + apply ends_set. apply (ends_bind _ _ _ _ _ _ (ends_send_winner _ e Hq)). intros _ g1 e1 (f & x & ->) Hq1.
      apply fine_end; [exact (live_not_freed g Hl) | by apply ok_queue, ok_winner | done].
Qed.

Lemma remote_fine c g e : live g -> mp_ok g -> Q e -> click_fault g = None -> fine (mp_remote_click_button c) g e.
Proof.
  intros Hl Hg Hq Hu. pose proof (click_ok_facts g Hu) as Ho. unfold mp_remote_click_button.
  apply ends_gets. unfold id. destruct ((guessed g =? buttons_size g) || VS_was_pressed g) eqn:Hfull.
  - apply fine_scored; [done |]. intros g1 Hg1 Heq. destruct (guessed g =? max_buttons_size g) eqn:Hmax.
    + apply fine_set; [apply ok_winner | done |]. intros Hg2. apply fine_end; [| done | done].
      rewrite <- (live_not_freed g Hl). by destruct Heq as [-> | ->].
    + pose proof (fun h Hh Hok => fine_adds c g h e Hh Hl Hg Hok Hq Hmax Ho Hfull) as Hadd. clear Hfull.
      destruct (is_vs_round g); [destruct (VS_was_pressed g); [| destruct (button_eqb c VS_B)] |];
        try (apply Hadd; [block_same | done]).
      apply fine_set; [apply ok_vs | done |]. intros Hg2. apply fine_set; [apply ok_vs_screen | done |]. intros Hg3.
      apply Hadd; [block_same | done].
  - apply orb_false_iff in Hfull as [Hne _]. destruct (expected g Hl Hne) as [b Hb]. rewrite Hb.
    destruct Hl as (_ & s & _ & _ & Hgs). unbool. unfold fine, ends. rewrite bind_lift.
    destruct (button_eqb b c); cbn [when]; [| by apply fine_skip].
    apply fine_modify; [done |]. apply ok_guessed; [intros; lia | done].
Qed.

(** [mp_buttons_handler]: the button and its light. *)
Lemma handler_case c g e :
  c <> NO_BUTTON -> mp_ok g -> freed g = true \/ live g -> Q e ->
  match click_fault g with
  | Some u => mp_buttons_handler c (g, e) = Undef u
  | None => fine (mp_buttons_handler c) g e
  end.
Proof.
  intros Hc Hg Hb Hq. destruct (click_fault g) as [u |] eqn:Hu; unfold mp_buttons_handler.
  - rewrite bind_gets. unfold id. cbn [fst]. apply bind_undef.
    destruct (Bool.eqb _ _); [by apply local_faults | by apply remote_faults].
  - assert (Hl : live g).
    { destruct Hb as [Hb | Hb]; [| done]. unfold click_fault in Hu. by rewrite Hb in Hu. }
    apply ends_gets. unfold id. apply fine_bind; [destruct (Bool.eqb _ _); [by apply local_fine | by apply remote_fine] |].
    intros g1 e1 Hg1 Hq1. rewrite (click_no c Hc). cbn [negb when].
    apply fine_set; [apply ok_screen | done |]. intros Hg2. apply fine_modify; [done |]. by apply ok_screen_time.
Qed.

Lemma handler_no_button g e : my_turn g = true -> mp_ok g -> Q e -> fine (mp_buttons_handler NO_BUTTON) g e.
Proof.
  intros Ht Hg Hq. apply ends_gets. unfold id. unfold my_turn in Ht. rewrite Ht.
  apply fine_bind; [| by intros; apply fine_skip]. unfold mp_click_button. apply fine_modify; [done |].
  apply ok_mouse; [| done]. apply (mo_mouse g Hg).
Qed.

(** *** The events *)

Lemma overflow_click g : live g -> click_fault g = if overflows g then Some OutOfBounds else None.
Proof. intros Hl. unfold click_fault. by rewrite (live_not_freed g Hl). Qed.

Lemma mouse_case p g e :
  mp_ok g -> Q e ->
  match mp_faulty (Here (Mouse p)) g with
  | Some u => mp_game_update_status_mouse p (g, e) = Undef u
  | None => fine (mp_game_update_status_mouse p) g e
  end.
Proof.
  intros Hg Hq. cbn [mp_faulty].
  assert (Hrun : mp_game_update_status_mouse p (g, e) =
    if game_end g then skip (g, e)
    else if game_started g then
      when (my_turn g) (mp_buttons_handler (click_of p g)) (set_mp_mouse (update_mouse p (mp_mouse g)) g, e)
    else skip (g, e)) by (unfold mp_game_update_status_mouse; rewrite bind_gets; unfold id; cbn [fst]; by repeat case_match).
  unfold fine, ends. rewrite Hrun. destruct (game_end g) eqn:Hend; [by apply fine_skip |].
  destruct (game_started g) eqn:Hs; [| by apply fine_skip]. cbn [negb andb].
  set (g1 := set_mp_mouse _ g). assert (Hg1 : mp_ok g1) by (apply ok_mouse, Hg; apply update_mouse_in, Hg).
  destruct (my_turn g) eqn:Ht; cbn [when andb]; [| by apply fine_skip].
  assert (Hl : live g1).
  { destruct (not_freed_cases g Hg Hs) as [Hf | Hl]; [| exact Hl].
    destruct (mo_block g Hg) as [(_ & Hn & _) | [[_ He] | Hl]]; [congruence | congruence | exact Hl]. }
  destruct (decide (click_of p g = NO_BUTTON)) as [Hc | Hc].
  - rewrite Hc. cbn [negb andb]. by apply handler_no_button.
  - rewrite (click_no _ Hc). cbn [negb andb]. pose proof (handler_case (click_of p g) g1 e Hc Hg1 (or_intror Hl) Hq) as Hh.
    rewrite (overflow_click g1 Hl) in Hh. change (overflows g1) with (overflows g) in Hh. by destruct (overflows g).
Qed.

Lemma fine_check g e : mp_ok g -> Q e -> fine mp_checkNewHiScore g e.
Proof.
  intros Hg Hq. unfold fine, ends, mp_checkNewHiScore. rewrite bind_gets. unfold bind at 1, lift. cbn [fst snd].
  pose proof (mon_low e Hq) as Hl. destruct (m_getLowestHiScore e) as [low |]; [| done]. cbn [fst snd].
  destruct (low <? player_score g).
  - destruct (mon_hiscore (player_score g) e Hq (mo_score g Hg)) as (e1 & He1 & Hq1).
    exists tt, g, e1. split; [| done]. unfold bind, env_, env_res. cbn [fst snd]. by rewrite He1.
  - by apply ends_env_; [apply mon_mode |].
Qed.

Lemma fine_leave (w : Winners) g e : mp_ok g -> Q e ->
  fine (if winner_eqb w TIE then env_ (m_set_mode LEADERBOARD) else mp_checkNewHiScore) g e.
Proof. intros Hg Hq. destruct (winner_eqb w TIE); [by apply ends_env_; [apply mon_mode |] | by apply fine_check]. Qed.

Lemma fine_key k g e : mp_ok g -> Q e -> fine (mp_game_update_status_key k) g e.
Proof.
  intros Hg Hq. apply ends_gets. unfold id. destruct (game_end g); cbn [when]; [| by apply fine_skip].
  destruct (_ =? ENTER); cbn [when]; [by apply fine_leave | by apply fine_skip].
Qed.

Lemma fine_timer g e : mp_ok g -> Q e -> fine mp_game_update_status_timer g e.
Proof.
  intros Hg Hq. apply fine_set; [intros; by apply ok_mouse; [apply (mo_mouse g Hg) |] | done |]. intros Hg1.
  apply ends_gets. unfold id. destruct (_ =? 0); apply fine_modify; try done; [by apply ok_screen | by apply ok_screen_time].
Qed.

Lemma fine_rtc_leave g e : mp_ok g -> Q e -> fine mp_rtc_leave g e.
Proof.
  intros Hg Hq. apply ends_gets. unfold id. destruct (game_end g); cbn [when]; [| by apply fine_skip].
  apply fine_bind; [by apply ends_env_; [apply mon_seconds |] |]. intros. by apply fine_leave.
Qed.

Lemma fine_rtc g e : mp_ok g -> Q e -> fine mp_game_update_status_rtc g e.
Proof.
  intros Hg Hq. apply ends_gets. unfold id. destruct (Bool.eqb _ _ && negb (game_end g)) eqn:Hturn; [| by apply fine_rtc_leave].
  apply andb_true_iff in Hturn as [_ Hend]. apply negb_true_iff in Hend.
  assert (Hf : freed g = false).
  { destruct (mo_block g Hg) as [(Hb & _) | [[_ He] | Hl]]; [unfold freed; by rewrite Hb | congruence | by apply live_not_freed]. }
  destruct (_ && negb (VS_was_pressed g)).
  - apply ends_set. apply (ends_bind _ _ _ _ _ _ (ends_send_winner _ e Hq)). intros _ g1 e1 (f & x & ->) Hq1.
    apply fine_end; [exact Hf | by apply ok_queue, ok_winner | done].
  - apply fine_bind; [| intros; by apply fine_rtc_leave]. destruct (_ && _ && _); [by apply fine_change |].
    destruct (0 <? time_left_for_click g) eqn:Ht; [| by apply fine_skip]. unbool. apply fine_modify; [done |].
    apply ok_time; [pose proof (mo_clock g Hg); lia | done].
Qed.

(** *** The serial line *)

Lemma ok_started g : is_host g = true \/ 2 <= received_no_bytes g \/ live g -> mp_ok g -> mp_ok (set_game_started true g).
Proof.
  intros Hc []. constructor; try assumption. destruct mo_block0 as [(Hb & Hs & Hh & Hr) | [? | ?]];
    [exfalso | right; by left | right; by right].
  destruct Hc as [Hc | [Hc | (_ & s & [_ Hc] & _)]]; [congruence | lia | congruence].
Qed.

Lemma ok_received g : (unset g -> received_no_bytes g = 0) -> mp_ok g ->
  mp_ok (set_received_no_bytes (received_no_bytes g + 1) g).
Proof.
  intros Hu []. constructor; try assumption; [| cbn; lia]. destruct mo_block0 as [Hn | [? | ?]];
    [left | right; by left | right; by right].
  pose proof (Hu Hn). destruct Hn as (Hb & Hs & Hh & Hr). split_and!; try done. cbn. lia.
Qed.

Lemma live_reset n g : 0 <= n -> live (reset n g).
Proof. intros Hn. split; [done |]. exists []. split; [by apply (holds_malloc n) |]. done. Qed.

Lemma reset_fields n g :
  max_buttons_size (reset n g) = n /\ buttons_size (reset n g) = 0 /\ player_score (reset n g) = 0 /\
  time_left_for_click (reset n g) = -1 /\ mp_mouse (reset n g) = center_mouse /\
  received_no_bytes (reset n g) = received_no_bytes g /\ received_byte (reset n g) = received_byte g.
Proof. split_and!; reflexivity. Qed.

Lemma ok_reset n g : 0 <= n <= 999 -> mp_ok g -> mp_ok (reset n g).
Proof.
  intros Hn Hg. destruct (reset_fields n g) as (H1 & H2 & H3 & H4 & H5 & H6 & H7).
  constructor; rewrite ?H1, ?H2, ?H3, ?H4, ?H5, ?H6, ?H7; try apply Hg; try (unfold VS_INTERVAL; lia).
  - right. right. apply live_reset. lia.
  - apply center_mouse_in.
Qed.

Lemma ok_hosting n g : 0 <= n <= 999 -> mp_ok g -> mp_ok (hosting n g).
Proof.
  intros Hn Hg. pose proof (ok_reset n g Hn Hg) as Hr. pose proof (live_reset n g ltac:(lia)) as Hl.
  unfold hosting. generalize dependent (reset n g). intros r Hr Hl. destruct Hr. constructor; try assumption. right. by right.
Qed.

Lemma ok_connecting g : mp_ok g -> mp_ok (connecting g).
Proof.
  intros []. constructor; try assumption. destruct mo_block0 as [(Hb & Hs & Hh & Hr) | [? | ?]];
    [left; by split_and! | right; by left | right; by right].
Qed.

Lemma fine_host_start data t g e : is_host g = true -> mp_ok g -> Q e -> fine (start_game data t) g e.
Proof.
  intros Hh Hg Hq. apply ends_gets. unfold id. rewrite Hh.
  apply (ends_bind _ _ _ _ (fun _ g' => mp_ok g' /\ is_host g' = true)).
  - destruct (_ && _); cbn [when]; [| by apply ends_ret]. apply ends_check; [done |]. intros [] e1 Hq1; cbn [when]; [| by apply ends_ret].
    apply (ends_bind _ _ _ _ _ _ (ends_write _ g e1 Hq1)). intros _ g1 e2 -> Hq2. apply ends_modify; [done |].
    split; [by apply ok_sent | exact Hh].
  - intros _ g1 e1 [Hg1 Hh1] Hq1. destruct (data =? ACK); cbn [when]; [| by apply fine_skip].
    apply fine_modify; [done |]. apply ok_started; [by left | done].
Qed.

Lemma fine_client_empty data g e : is_host g = false -> mp_ok g -> Q e -> fine (start_game data true) g e.
Proof.
  intros Hh Hg Hq. apply ends_gets. unfold id. rewrite Hh. destruct (received_no_bytes g =? 2) eqn:Hr; cbn [when]; [| by apply fine_skip].
  unbool. apply (ends_bind _ _ _ _ _ _ (ends_write _ g e Hq)). intros _ g1 e2 -> Hq2. apply fine_modify; [done |].
  apply ok_started; [right; left; lia | done].
Qed.

Lemma fine_client_data data g e :
  is_host g = false -> 0 <= data < 256 ->
  received_no_bytes g = 0 \/ Z.lor (Z.shiftl data 8) (received_byte g) <= 999 ->
  mp_ok g -> Q e -> fine (start_game data false) g e.
Proof.
  intros Hh Hd Hn Hg Hq. apply ends_gets. unfold id. rewrite Hh. destruct (received_no_bytes g =? 0) eqn:Hr; unbool.
  - apply fine_set; [by apply ok_byte | done |]. intros Hg1. apply fine_modify; [done |]. by apply ok_received.
  - destruct Hn as [Hn | Hn]; [done |]. set (n := Z.lor _ _) in *. cbv zeta.
    assert (Hn0 : 0 <= n) by (apply Z.lor_nonneg; split; [apply Z.shiftl_nonneg; lia | apply (mo_byte g Hg)]).
    assert (Hgr : mp_ok (reset n g)) by (apply ok_reset; [lia | done]). pose proof (live_reset n g Hn0) as Hl.
    apply (ends_bind _ _ _ _ (fun _ g' => mp_ok g' /\ live g')).
    + unfold ends. rewrite (bind_ok _ _ _ _ _ (run_reset n g e)). revert Hgr Hl. generalize (reset n g). intros r Hgr Hl.
      apply ends_check; [done |]. intros [] e1 Hq1; cbn [when]; [| by apply ends_ret].
      apply (ends_bind _ _ _ _ _ _ (ends_write _ r e1 Hq1)). intros _ g1 e2 -> Hq2. apply ends_modify; [done |].
      split; [apply ok_started; [by right; right | done] | exact Hl].
    + intros _ g1 e1 [Hg1 (_ & s & [_ Hs] & _)] Hq1. apply fine_modify; [done |]. apply ok_received; [| done].
      intros (Hb & _). congruence.
Qed.

Lemma fine_new_round vs g e : mp_ok g -> Q e -> fine (new_round vs) g e.
Proof.
  intros Hg Hq. apply fine_set; [apply ok_vs_round | done |]. intros Hg1. apply fine_set; [apply ok_vs | done |]. intros Hg2.
  apply fine_set; [apply ok_rewind | done |]. intros Hg3. apply fine_set; [apply ok_player | done |]. intros Hg4.
  apply fine_modify; [done |]. by apply ok_time.
Qed.

Lemma byte_button data : 3 <= data <= 8 -> exists c, button_of_value (data - GREEN_REMOTE) = Some c /\ c <> NO_BUTTON.
Proof.
  intros Hd. unfold GREEN_REMOTE. assert (Hc : data = 3 \/ data = 4 \/ data = 5 \/ data = 6 \/ data = 7 \/ data = 8) by lia.
  repeat destruct Hc as [-> | Hc]; [by eexists .. | subst data; by eexists].
Qed.

(** The bytes that announce the end, and the others. *)
Lemma remote_end w g e :
  mp_ok g -> Q e ->
  if freed g then bind (modify (set_ws w)) (fun _ => mp_end_game) (g, e) = Undef DoubleFree
  else fine (bind (modify (set_ws w)) (fun _ => mp_end_game)) g e.
Proof.
  intros Hg Hq. destruct (freed g) eqn:Hf; [by apply end_twice |].
  apply fine_set; [apply ok_winner | done |]. intros Hg1. by apply fine_end.
Qed.

Lemma fine_ready g e :
  mp_ok g -> Q e ->
  fine (do* mp_is_VS_round in do* modify (set_guessed 0) in
        do* modify (fun g => set_is_player_1 (negb (is_player_1 g)) g) in modify (set_time_left_for_click INTERVAL)) g e.
Proof.
  intros Hg Hq. apply fine_bind; [by apply fine_vs_round |]. intros g1 e1 Hg1 Hq1.
  apply fine_set; [apply ok_rewind | done |]. intros Hg2. apply fine_set; [apply ok_player | done |]. intros Hg3.
  apply fine_modify; [done |]. by apply ok_time.
Qed.

Lemma play_case data g e :
  game_started g = true -> mp_ok g -> Q e ->
  match byte_fault data g with
  | Some u => play_game data (g, e) = Undef u
  | None => fine (play_game data) g e
  end.
Proof.
  intros Hs Hg Hq. pose proof (not_freed_cases g Hg Hs) as Hb. unfold byte_fault, fine, ends, play_game.
  destruct ((3 <=? data) && (data <=? 8)) eqn:Hbtn.
  { unbool. destruct (byte_button data ltac:(lia)) as (c & -> & Hc). exact (handler_case c g e Hc Hg Hb Hq). }
  clear Hbtn. destruct (Z.eqb_spec data LOSE) as [-> | Hlose]; [| destruct (Z.eqb_spec data (winner_value TIE)) as [-> | Htie]];
    cbn [orb andb].
  - pose proof (remote_end (if is_host g then WINNER1 else WINNER2) g e Hg Hq) as Hend. by destruct (freed g).
  - pose proof (remote_end TIE g e Hg Hq) as Hend. by destruct (freed g).
  - destruct (data =? IS_VS); [by apply fine_new_round |]. destruct (data =? IS_NOT_VS); [by apply fine_new_round |].
    destruct (data =? READY); [by apply fine_ready | by apply fine_skip].
Qed.

Lemma uart_case data type g e :
  0 <= data < 256 -> announces (Uart data type) g = false -> mp_ok g -> Q e ->
  match mp_faulty (Uart data type) g with
  | Some u => mp_game_update_status_uart data type (g, e) = Undef u
  | None => fine (mp_game_update_status_uart data type) g e
  end.
Proof.
  intros Hd Ha Hg Hq. cbn [mp_faulty announces] in *. unfold fine, ends, mp_game_update_status_uart.
  rewrite bind_gets. unfold id. cbn [fst]. destruct (type =? IIR_REC_DATA); cbn [andb] in *.
  - destruct (game_started g) eqn:Hs; cbn [negb andb] in *; [exact (play_case data g e Hs Hg Hq) |].
    destruct (is_host g) eqn:Hh; cbn [negb andb] in Ha; [by apply fine_host_start |].
    apply fine_client_data; try done. destruct (Z.eqb_spec (received_no_bytes g) 0) as [Hr | Hr]; [by left | right].
    cbn [negb andb] in Ha. by apply Z.ltb_ge.
  - destruct (type =? IIR_TRANS_EMPTY); [| by apply fine_skip]. destruct (game_started g) eqn:Hs; cbn [negb].
    + destruct (uart_has_data_to_send g); cbn [when]; [| by apply fine_skip].
      apply ends_set, ends_gets. apply fine_write; [| done]. destruct Hg. by constructor.
    + destruct (is_host g) eqn:Hh; [by apply fine_host_start | by apply fine_client_empty].
Qed.

(** Any event: a state in order faults as [mp_faulty] says, and otherwise the
    handler returns in order. *)
Lemma mp_event_safe ev g e :
  byte_in ev -> announces ev g = false -> mp_ok g -> Q e ->
  match mp_faulty ev g with
  | Some u => mp_any ev (g, e) = Undef u
  | None => fine (mp_any ev) g e
  end.
Proof.
  intros Hb Ha Hg Hq. destruct ev as [[p | | k |] | data type]; cbn [mp_any].
  - by apply mouse_case.
  - by apply fine_rtc.
  - by apply fine_key.
  - by apply fine_timer.
  - by apply uart_case.
Qed.
End MpSafe.

(** ** The screen *)

Definition mdraw_ok (a : assets) (d : mdraw) : Prop := counter_ok a (m_counter d) /\ round_ok (m_round d).

Definition mp_scene (g : mst) : scene :=
  if game_end g then Scene (winner_screen (ws g)) []
  else playing_scene (ps g) (is_player_1 g) (time_left_for_click g) (buttons_size g) (mp_mouse g).

Lemma draws_mp a g d v :
  assets_ok a -> screen_ok v -> mdraw_ok a d -> mp_ok g ->
  exists d' v', mp_draw_game_graphics a g d v = Ok (d', v') /\ screen_ok v' /\ mdraw_ok a d' /\
    drawn v' ~~ render a (mp_scene g).
Proof.
  intros Ha Hv [Hcd Hrd] Hg. unfold mp_draw_game_graphics, mp_scene. destruct (game_end g); cbn [negb].
  - destruct (winner_drawn a (ws g) v Ha Hv) as (v' & Hd & Hv' & _ & Hp).
    unfold mp_draw_winner_graphics. rewrite Hd. cbn [res_bind]. exists d, v'. split_and!; done.
  - destruct (frame_drawn a (ps g) (is_player_1 g) (time_left_for_click g) (buttons_size g) (mp_mouse g) (m_counter d) (m_round d) v)
      as (v1 & c' & v2 & r' & v3 & v4 & Hd1 & Hd2 & Hd3 & Hd4 & Hv4 & _ & Hc & Hr & _ & Hp); try done.
    + pose proof (mo_clock g Hg). unfold VS_INTERVAL in *. lia.
    + apply (mo_size g Hg).
    + apply (mo_mouse g Hg).
    + unfold mp_draw_buttons, mp_draw_player, mp_print_player1, mp_print_player2, mp_draw_counter, mp_draw_round, mp_draw_mouse.
      rewrite Hd1. cbn [res_bind]. rewrite Hd2. cbn [res_bind fst snd]. rewrite Hd3. cbn [res_bind fst snd]. rewrite Hd4.
      eexists _, v4. split_and!; done.
Qed.

(** ** Properties *)


#[export] Instance menv_safe : MpSafeOn (fun _ : menv => True) 999.
Proof. constructor; try done. intros n e _ _. by eexists. Qed.

(** A game of one round against a host that has lost: a second [LOSE]. *)
Definition lost_game : mst := set_game_end true (set_buttons PFreed (set_game_started true (connecting (reset 1 mst_init)))).

Lemma lost_game_ok : mp_ok lost_game.
Proof. constructor; try (vm_compute; repeat split; discriminate). right. by left. Qed.


(** A computer that connects counts as the one in turn, with the clock at zero: a
    tick before the handshake is over ends its game, and a second one leaves the
    screen. *)
Theorem waiting_client_ends {E} `{MpEnv E, !MpLine E} g (e : E) :
  buttons g = PNull -> game_end g = false -> VS_was_pressed g = false -> time_left_for_click g = 0 ->
  exists g', runs mp_game_update_status_rtc (connecting g) e g' [LOSE] /\ game_end g' = true /\ ws g' = WINNER1 /\
    forall e', mp_game_update_status_rtc (g', e') = (do* env_ m_set_seconds_alarm in mp_checkNewHiScore) (g', e').
Proof.
  intros Hb Hend Hv Ht. set (g1 := set_ws WINNER1 (connecting g)).
  exists (set_buttons PNull (set_game_end true g1)). split.
  - apply (runs_eq _ (do* write_or_queue LOSE in mp_end_game) _ g1).
    + unfold mp_game_update_status_rtc. rewrite bind_gets. unfold id. cbn [fst].
      change (Bool.eqb (is_host (connecting g)) (is_player_1 (connecting g))) with true.
      change (game_end (connecting g)) with (game_end g). change (time_left_for_click (connecting g)) with (time_left_for_click g).
      change (VS_was_pressed (connecting g)) with (VS_was_pressed g). rewrite Hend, Ht, Hv. reflexivity.
    + apply (runs_bind _ _ g1 e g1 [LOSE] _ []); [by apply runs_write; vm_compute |].
      intros e1 Hup. destruct (line_timed 5 e1 Hup) as [Hs1 Hup1]. exists (m_set_timed_alarm 5 e1).
      rewrite Hs1, app_nil_r. split; [| done]. unfold mp_end_game. rewrite bind_modify, bind_gets. cbn [fst].
      change (buttons (set_game_end true g1)) with (buttons g). by rewrite Hb.
  - split; [done |]. split; [done |]. intros e'. unfold mp_game_update_status_rtc. rewrite bind_gets. unfold id. cbn [fst].
    change (game_end (set_buttons PNull (set_game_end true g1))) with true. rewrite andb_false_r. reflexivity.
Qed.

Lemma waiting_client_ends_witness :
  exists g', runs mp_game_update_status_rtc (connecting mst_init) menv0 g' [LOSE] /\ game_end g' = true.
Proof.
  destruct (waiting_client_ends mst_init menv0 eq_refl eq_refl eq_refl eq_refl) as (g' & Hr & He & _). by exists g'.
Defined.
