(* ===== verification/Simon.v ===== *)
(** [simon.c] and [proj.c]: the main loop, the dispatch of the interrupts to the
    modes, and the composition of the components.

    The store of the whole program is the record [world]; the interfaces of the
    components are discharged by their neighbours in it. *)

From stdpp Require Import base tactics list.
From Stdlib Require Import ZArith Lia Ascii String.
From S2P Require Import Prelude Consts Ports Rtc Uart Timer Keyboard Mouse NumLetters Vc Screen CString.
From S2P Require Import Leaderboard Highscore Menus Pad Game MpGame.

(** ** The store

    The mode and the statics of every file, the interrupt flags of [simon.h],
    and the devices [D]. *)

Record world (D : Type) := World {
  w_mode : Game_Modes;
  w_position : Z;
  w_host_position : Z;
  w_nr : nr;
  w_game : gst;
  w_mp : Mp.mst;
  w_hs : hs;
  w_lb : lb;
  w_gdraw : gdraw;
  w_mdraw : Mp.mdraw;
  w_vc : vc;
  w_kbd : kbd;
  w_mdrv : mdrv;
  w_rtc_previous : Z;
  w_keyboard_packet : key_press;
  w_mouse_packet : packet;
  w_data_packet : Z;
  w_got_key_press : bool;
  w_got_mouse_packet : bool;
  w_timer_interrupt : bool;
  w_rtc_interrupt : bool;
  w_uart_interrupt : bool;
  w_uart_type : Z;
  w_count : Z;
  w_dev : D
}.
Arguments World {D}.
Arguments w_mode {D}.
Arguments w_position {D}.
Arguments w_host_position {D}.
Arguments w_nr {D}.
Arguments w_game {D}.
Arguments w_mp {D}.
Arguments w_hs {D}.
Arguments w_lb {D}.
Arguments w_gdraw {D}.
Arguments w_mdraw {D}.
Arguments w_vc {D}.
Arguments w_kbd {D}.
Arguments w_mdrv {D}.
Arguments w_rtc_previous {D}.
Arguments w_keyboard_packet {D}.
Arguments w_mouse_packet {D}.
Arguments w_data_packet {D}.
Arguments w_got_key_press {D}.
Arguments w_got_mouse_packet {D}.
Arguments w_timer_interrupt {D}.
Arguments w_rtc_interrupt {D}.
Arguments w_uart_interrupt {D}.
Arguments w_uart_type {D}.
Arguments w_count {D}.
Arguments w_dev {D}.

Definition set_w_mode {D} (x : Game_Modes) (w : world D) : world D :=
  World x (w_position w) (w_host_position w) (w_nr w) (w_game w) (w_mp w) (w_hs w) (w_lb w)
    (w_gdraw w) (w_mdraw w) (w_vc w) (w_kbd w) (w_mdrv w) (w_rtc_previous w)
    (w_keyboard_packet w) (w_mouse_packet w) (w_data_packet w) (w_got_key_press w)
    (w_got_mouse_packet w) (w_timer_interrupt w) (w_rtc_interrupt w) (w_uart_interrupt w)
    (w_uart_type w) (w_count w) (w_dev w).
Definition set_w_position {D} (x : Z) (w : world D) : world D :=
  World (w_mode w) x (w_host_position w) (w_nr w) (w_game w) (w_mp w) (w_hs w) (w_lb w)
    (w_gdraw w) (w_mdraw w) (w_vc w) (w_kbd w) (w_mdrv w) (w_rtc_previous w)
    (w_keyboard_packet w) (w_mouse_packet w) (w_data_packet w) (w_got_key_press w)
    (w_got_mouse_packet w) (w_timer_interrupt w) (w_rtc_interrupt w) (w_uart_interrupt w)
    (w_uart_type w) (w_count w) (w_dev w).
Definition set_w_host_position {D} (x : Z) (w : world D) : world D :=
  World (w_mode w) (w_position w) x (w_nr w) (w_game w) (w_mp w) (w_hs w) (w_lb w) (w_gdraw
    w) (w_mdraw w) (w_vc w) (w_kbd w) (w_mdrv w) (w_rtc_previous w) (w_keyboard_packet w)
    (w_mouse_packet w) (w_data_packet w) (w_got_key_press w) (w_got_mouse_packet w)
    (w_timer_interrupt w) (w_rtc_interrupt w) (w_uart_interrupt w) (w_uart_type w) (w_count
    w) (w_dev w).
Definition set_w_nr {D} (x : nr) (w : world D) : world D :=
  World (w_mode w) (w_position w) (w_host_position w) x (w_game w) (w_mp w) (w_hs w) (w_lb
    w) (w_gdraw w) (w_mdraw w) (w_vc w) (w_kbd w) (w_mdrv w) (w_rtc_previous w)
    (w_keyboard_packet w) (w_mouse_packet w) (w_data_packet w) (w_got_key_press w)
    (w_got_mouse_packet w) (w_timer_interrupt w) (w_rtc_interrupt w) (w_uart_interrupt w)
    (w_uart_type w) (w_count w) (w_dev w).
Definition set_w_game {D} (x : gst) (w : world D) : world D :=
  World (w_mode w) (w_position w) (w_host_position w) (w_nr w) x (w_mp w) (w_hs w) (w_lb w)
    (w_gdraw w) (w_mdraw w) (w_vc w) (w_kbd w) (w_mdrv w) (w_rtc_previous w)
    (w_keyboard_packet w) (w_mouse_packet w) (w_data_packet w) (w_got_key_press w)
    (w_got_mouse_packet w) (w_timer_interrupt w) (w_rtc_interrupt w) (w_uart_interrupt w)
    (w_uart_type w) (w_count w) (w_dev w).
Definition set_w_mp {D} (x : Mp.mst) (w : world D) : world D :=
  World (w_mode w) (w_position w) (w_host_position w) (w_nr w) (w_game w) x (w_hs w) (w_lb
    w) (w_gdraw w) (w_mdraw w) (w_vc w) (w_kbd w) (w_mdrv w) (w_rtc_previous w)
    (w_keyboard_packet w) (w_mouse_packet w) (w_data_packet w) (w_got_key_press w)
    (w_got_mouse_packet w) (w_timer_interrupt w) (w_rtc_interrupt w) (w_uart_interrupt w)
    (w_uart_type w) (w_count w) (w_dev w).
Definition set_w_hs {D} (x : hs) (w : world D) : world D :=
  World (w_mode w) (w_position w) (w_host_position w) (w_nr w) (w_game w) (w_mp w) x (w_lb
    w) (w_gdraw w) (w_mdraw w) (w_vc w) (w_kbd w) (w_mdrv w) (w_rtc_previous w)
    (w_keyboard_packet w) (w_mouse_packet w) (w_data_packet w) (w_got_key_press w)
    (w_got_mouse_packet w) (w_timer_interrupt w) (w_rtc_interrupt w) (w_uart_interrupt w)
    (w_uart_type w) (w_count w) (w_dev w).
Definition set_w_lb {D} (x : lb) (w : world D) : world D :=
  World (w_mode w) (w_position w) (w_host_position w) (w_nr w) (w_game w) (w_mp w) (w_hs w)
    x (w_gdraw w) (w_mdraw w) (w_vc w) (w_kbd w) (w_mdrv w) (w_rtc_previous w)
    (w_keyboard_packet w) (w_mouse_packet w) (w_data_packet w) (w_got_key_press w)
    (w_got_mouse_packet w) (w_timer_interrupt w) (w_rtc_interrupt w) (w_uart_interrupt w)
    (w_uart_type w) (w_count w) (w_dev w).
Definition set_w_gdraw {D} (x : gdraw) (w : world D) : world D :=
  World (w_mode w) (w_position w) (w_host_position w) (w_nr w) (w_game w) (w_mp w) (w_hs w)
    (w_lb w) x (w_mdraw w) (w_vc w) (w_kbd w) (w_mdrv w) (w_rtc_previous w)
    (w_keyboard_packet w) (w_mouse_packet w) (w_data_packet w) (w_got_key_press w)
    (w_got_mouse_packet w) (w_timer_interrupt w) (w_rtc_interrupt w) (w_uart_interrupt w)
    (w_uart_type w) (w_count w) (w_dev w).
Definition set_w_mdraw {D} (x : Mp.mdraw) (w : world D) : world D :=
  World (w_mode w) (w_position w) (w_host_position w) (w_nr w) (w_game w) (w_mp w) (w_hs w)
    (w_lb w) (w_gdraw w) x (w_vc w) (w_kbd w) (w_mdrv w) (w_rtc_previous w)
    (w_keyboard_packet w) (w_mouse_packet w) (w_data_packet w) (w_got_key_press w)
    (w_got_mouse_packet w) (w_timer_interrupt w) (w_rtc_interrupt w) (w_uart_interrupt w)
    (w_uart_type w) (w_count w) (w_dev w).
Definition set_w_vc {D} (x : vc) (w : world D) : world D :=
  World (w_mode w) (w_position w) (w_host_position w) (w_nr w) (w_game w) (w_mp w) (w_hs w)
    (w_lb w) (w_gdraw w) (w_mdraw w) x (w_kbd w) (w_mdrv w) (w_rtc_previous w)
    (w_keyboard_packet w) (w_mouse_packet w) (w_data_packet w) (w_got_key_press w)
    (w_got_mouse_packet w) (w_timer_interrupt w) (w_rtc_interrupt w) (w_uart_interrupt w)
    (w_uart_type w) (w_count w) (w_dev w).
Definition set_w_kbd {D} (x : kbd) (w : world D) : world D :=
  World (w_mode w) (w_position w) (w_host_position w) (w_nr w) (w_game w) (w_mp w) (w_hs w)
    (w_lb w) (w_gdraw w) (w_mdraw w) (w_vc w) x (w_mdrv w) (w_rtc_previous w)
    (w_keyboard_packet w) (w_mouse_packet w) (w_data_packet w) (w_got_key_press w)
    (w_got_mouse_packet w) (w_timer_interrupt w) (w_rtc_interrupt w) (w_uart_interrupt w)
    (w_uart_type w) (w_count w) (w_dev w).
Definition set_w_mdrv {D} (x : mdrv) (w : world D) : world D :=
  World (w_mode w) (w_position w) (w_host_position w) (w_nr w) (w_game w) (w_mp w) (w_hs w)
    (w_lb w) (w_gdraw w) (w_mdraw w) (w_vc w) (w_kbd w) x (w_rtc_previous w)
    (w_keyboard_packet w) (w_mouse_packet w) (w_data_packet w) (w_got_key_press w)
    (w_got_mouse_packet w) (w_timer_interrupt w) (w_rtc_interrupt w) (w_uart_interrupt w)
    (w_uart_type w) (w_count w) (w_dev w).
Definition set_w_rtc_previous {D} (x : Z) (w : world D) : world D :=
  World (w_mode w) (w_position w) (w_host_position w) (w_nr w) (w_game w) (w_mp w) (w_hs w)
    (w_lb w) (w_gdraw w) (w_mdraw w) (w_vc w) (w_kbd w) (w_mdrv w) x (w_keyboard_packet w)
    (w_mouse_packet w) (w_data_packet w) (w_got_key_press w) (w_got_mouse_packet w)
    (w_timer_interrupt w) (w_rtc_interrupt w) (w_uart_interrupt w) (w_uart_type w) (w_count
    w) (w_dev w).
Definition set_w_keyboard_packet {D} (x : key_press) (w : world D) : world D :=
  World (w_mode w) (w_position w) (w_host_position w) (w_nr w) (w_game w) (w_mp w) (w_hs w)
    (w_lb w) (w_gdraw w) (w_mdraw w) (w_vc w) (w_kbd w) (w_mdrv w) (w_rtc_previous w) x
    (w_mouse_packet w) (w_data_packet w) (w_got_key_press w) (w_got_mouse_packet w)
    (w_timer_interrupt w) (w_rtc_interrupt w) (w_uart_interrupt w) (w_uart_type w) (w_count
    w) (w_dev w).
Definition set_w_mouse_packet {D} (x : packet) (w : world D) : world D :=
  World (w_mode w) (w_position w) (w_host_position w) (w_nr w) (w_game w) (w_mp w) (w_hs w)
    (w_lb w) (w_gdraw w) (w_mdraw w) (w_vc w) (w_kbd w) (w_mdrv w) (w_rtc_previous w)
    (w_keyboard_packet w) x (w_data_packet w) (w_got_key_press w) (w_got_mouse_packet w)
    (w_timer_interrupt w) (w_rtc_interrupt w) (w_uart_interrupt w) (w_uart_type w) (w_count
    w) (w_dev w).
Definition set_w_data_packet {D} (x : Z) (w : world D) : world D :=
  World (w_mode w) (w_position w) (w_host_position w) (w_nr w) (w_game w) (w_mp w) (w_hs w)
    (w_lb w) (w_gdraw w) (w_mdraw w) (w_vc w) (w_kbd w) (w_mdrv w) (w_rtc_previous w)
    (w_keyboard_packet w) (w_mouse_packet w) x (w_got_key_press w) (w_got_mouse_packet w)
    (w_timer_interrupt w) (w_rtc_interrupt w) (w_uart_interrupt w) (w_uart_type w) (w_count
    w) (w_dev w).
Definition set_w_got_key_press {D} (x : bool) (w : world D) : world D :=
  World (w_mode w) (w_position w) (w_host_position w) (w_nr w) (w_game w) (w_mp w) (w_hs w)
    (w_lb w) (w_gdraw w) (w_mdraw w) (w_vc w) (w_kbd w) (w_mdrv w) (w_rtc_previous w)
    (w_keyboard_packet w) (w_mouse_packet w) (w_data_packet w) x (w_got_mouse_packet w)
    (w_timer_interrupt w) (w_rtc_interrupt w) (w_uart_interrupt w) (w_uart_type w) (w_count
    w) (w_dev w).
Definition set_w_got_mouse_packet {D} (x : bool) (w : world D) : world D :=
  World (w_mode w) (w_position w) (w_host_position w) (w_nr w) (w_game w) (w_mp w) (w_hs w)
    (w_lb w) (w_gdraw w) (w_mdraw w) (w_vc w) (w_kbd w) (w_mdrv w) (w_rtc_previous w)
    (w_keyboard_packet w) (w_mouse_packet w) (w_data_packet w) (w_got_key_press w) x
    (w_timer_interrupt w) (w_rtc_interrupt w) (w_uart_interrupt w) (w_uart_type w) (w_count
    w) (w_dev w).
Definition set_w_timer_interrupt {D} (x : bool) (w : world D) : world D :=
  World (w_mode w) (w_position w) (w_host_position w) (w_nr w) (w_game w) (w_mp w) (w_hs w)
    (w_lb w) (w_gdraw w) (w_mdraw w) (w_vc w) (w_kbd w) (w_mdrv w) (w_rtc_previous w)
    (w_keyboard_packet w) (w_mouse_packet w) (w_data_packet w) (w_got_key_press w)
    (w_got_mouse_packet w) x (w_rtc_interrupt w) (w_uart_interrupt w) (w_uart_type w)
    (w_count w) (w_dev w).
Definition set_w_rtc_interrupt {D} (x : bool) (w : world D) : world D :=
  World (w_mode w) (w_position w) (w_host_position w) (w_nr w) (w_game w) (w_mp w) (w_hs w)
    (w_lb w) (w_gdraw w) (w_mdraw w) (w_vc w) (w_kbd w) (w_mdrv w) (w_rtc_previous w)
    (w_keyboard_packet w) (w_mouse_packet w) (w_data_packet w) (w_got_key_press w)
    (w_got_mouse_packet w) (w_timer_interrupt w) x (w_uart_interrupt w) (w_uart_type w)
    (w_count w) (w_dev w).
Definition set_w_uart_interrupt {D} (x : bool) (w : world D) : world D :=
  World (w_mode w) (w_position w) (w_host_position w) (w_nr w) (w_game w) (w_mp w) (w_hs w)
    (w_lb w) (w_gdraw w) (w_mdraw w) (w_vc w) (w_kbd w) (w_mdrv w) (w_rtc_previous w)
    (w_keyboard_packet w) (w_mouse_packet w) (w_data_packet w) (w_got_key_press w)
    (w_got_mouse_packet w) (w_timer_interrupt w) (w_rtc_interrupt w) x (w_uart_type w)
    (w_count w) (w_dev w).
Definition set_w_uart_type {D} (x : Z) (w : world D) : world D :=
  World (w_mode w) (w_position w) (w_host_position w) (w_nr w) (w_game w) (w_mp w) (w_hs w)
    (w_lb w) (w_gdraw w) (w_mdraw w) (w_vc w) (w_kbd w) (w_mdrv w) (w_rtc_previous w)
    (w_keyboard_packet w) (w_mouse_packet w) (w_data_packet w) (w_got_key_press w)
    (w_got_mouse_packet w) (w_timer_interrupt w) (w_rtc_interrupt w) (w_uart_interrupt w) x
    (w_count w) (w_dev w).
Definition set_w_count {D} (x : Z) (w : world D) : world D :=
  World (w_mode w) (w_position w) (w_host_position w) (w_nr w) (w_game w) (w_mp w) (w_hs w)
    (w_lb w) (w_gdraw w) (w_mdraw w) (w_vc w) (w_kbd w) (w_mdrv w) (w_rtc_previous w)
    (w_keyboard_packet w) (w_mouse_packet w) (w_data_packet w) (w_got_key_press w)
    (w_got_mouse_packet w) (w_timer_interrupt w) (w_rtc_interrupt w) (w_uart_interrupt w)
    (w_uart_type w) x (w_dev w).
Definition set_w_dev {D} (x : D) (w : world D) : world D :=
  World (w_mode w) (w_position w) (w_host_position w) (w_nr w) (w_game w) (w_mp w) (w_hs w)
    (w_lb w) (w_gdraw w) (w_mdraw w) (w_vc w) (w_kbd w) (w_mdrv w) (w_rtc_previous w)
    (w_keyboard_packet w) (w_mouse_packet w) (w_data_packet w) (w_got_key_press w)
    (w_got_mouse_packet w) (w_timer_interrupt w) (w_rtc_interrupt w) (w_uart_interrupt w)
    (w_uart_type w) (w_count w) x.

(** ** The components in the store *)

Section World.
Context {D : Type} `{PD : Ports D} `{DD : Delay D} `{ID : Irqs D}.
Variable a : assets.                (* the loaded images *)
Variable rand : D -> Z * D.         (* [rand] of the C library *)
Variable malloc : Z -> list Z.      (* the block [getDate] gets *)
Variable polls : nat.               (* how long [get_date] waits for the clock *)

Definition on_dev {A} (m : ST D A) (w : world D) : A * world D :=
  let r := m (w_dev w) in (fst r, set_w_dev (snd r) w).

(** [get_date] of [rtc.c]; an update in progress for longer than [polls]
    readings is not considered. *)
#[export] Instance world_highscore : HighscoreEnv (world D) := {
  hs_lb := w_lb;
  hs_put_lb := set_w_lb;
  hs_mode := w_mode;
  hs_put_mode := set_w_mode;
  hs_get_date := fun w =>
    let r := on_dev (get_date polls) w in
    (match fst r with Some d => d | None => Date 0 0 0 end, snd r);
  hs_vc := w_vc;
  hs_put_vc := set_w_vc
}.

#[export] Instance world_highscore_laws : HighscoreLaws (world D).
Proof. constructor; try done. by intros []. Qed.

(** A component's computation in the store. *)
Definition on_hs (m : M hs (world D) unit) (w : world D) : res (world D) :=
  res_bind (m (w_hs w, w)) (fun r => Ok (set_w_hs (fst (snd r)) (snd (snd r)))).

#[export] Instance world_game : GameEnv (world D) := {
  g_set_mode := set_w_mode;
  g_set_timed_alarm := fun s w => snd (on_dev (set_timed_alarm s) w);
  g_set_seconds_alarm := fun w => snd (on_dev set_seconds_alarm w);
  g_getLowestHiScore := fun w => getLowestHiScore (w_lb w);
  g_reset_hiscore := fun n => on_hs (reset_hiscore n);
  g_rand := fun w => on_dev rand w
}.

#[export] Instance world_mp : MpEnv (world D) := {
  m_set_mode := set_w_mode;
  m_set_timed_alarm := fun s w => snd (on_dev (set_timed_alarm s) w);
  m_set_seconds_alarm := fun w => snd (on_dev set_seconds_alarm w);
  m_getLowestHiScore := fun w => getLowestHiScore (w_lb w);
  m_reset_hiscore := fun n => on_hs (reset_hiscore n);
  m_check_thr_emtpy := on_dev check_thr_emtpy;
  m_serial_write_byte := fun b => on_dev (serial_write_byte b)
}.

Definition on_game (m : M gst (world D) unit) (w : world D) : res (world D) :=
  res_bind (m (w_game w, w)) (fun r => Ok (set_w_game (fst (snd r)) (snd (snd r)))).
Definition on_mp (m : M Mp.mst (world D) unit) (w : world D) : res (world D) :=
  res_bind (m (w_mp w, w)) (fun r => Ok (set_w_mp (fst (snd r)) (snd (snd r)))).

(** The operations the menus call are total (lemma [menus_total] below): the
    store is the one they return. *)
Definition total (r : res (world D)) (w : world D) : world D :=
  match r with Ok w' => w' | Undef _ => w end.

#[export] Instance world_menus : MenusEnv (world D) := {
  set_mode := set_w_mode;
  menu_reset_number_of_rounds := fun mp w => set_w_nr (reset_number_of_rounds mp (w_nr w)) w;
  menu_connect_mp_game := fun w => total (on_mp Mp.connect_mp_game w) w;
  menu_reset_game := fun n w => total (on_game (reset_game n) w) w;
  menu_host_mp_game := fun n w => total (on_mp (Mp.host_mp_game n) w) w;
  menu_vc := w_vc;
  menu_put_vc := set_w_vc
}.

Definition on_nr (m : M nr (world D) unit) (w : world D) : res (world D) :=
  res_bind (m (w_nr w, w)) (fun r => Ok (set_w_nr (fst (snd r)) (snd (snd r)))).

Lemma menus_total n w :
  is_ok (on_mp Mp.connect_mp_game w) = true /\ is_ok (on_game (reset_game n) w) = true /\
  is_ok (on_mp (Mp.host_mp_game n) w) = true.
Proof. done. Qed.

#[export] Instance world_menus_laws : MenusLaws (world D).
Proof. constructor; try done. by intros []. Qed.

(** ** Drawing in the store *)

Definition on_vc (f : vc -> res vc) (w : world D) : res (world D) :=
  res_bind (f (w_vc w)) (fun v => Ok (set_w_vc v w)).

Definition draw_game (w : world D) : res (world D) :=
  res_bind (draw_game_graphics a (w_game w) (w_gdraw w) (w_vc w)) (fun r =>
    Ok (set_w_vc (snd r) (set_w_gdraw (fst r) w))).

Definition draw_mp (w : world D) : res (world D) :=
  res_bind (Mp.mp_draw_game_graphics a (w_mp w) (w_mdraw w) (w_vc w)) (fun r =>
    Ok (set_w_vc (snd r) (set_w_mdraw (fst r) w))).

(** ** [event_handler] *)

Definition whenw (b : bool) (f : world D -> res (world D)) (w : world D) : res (world D) :=
  if b then f w else Ok w.

Definition then_ (f g : world D -> res (world D)) (w : world D) : res (world D) := res_bind (f w) g.
Notation "f >> g" := (then_ f g) (at level 60, right associativity).

(** A handler that reads a flag of the store when its turn comes. *)
Definition on_flag (flag : world D -> bool) (f : world D -> world D -> res (world D)) (w : world D) :=
  whenw (flag w) (f w) w.

Definition on_menu (w : world D) : res (world D) :=
  let r := menu_update_status (w_keyboard_packet w) (w_position w) w in
  Ok (set_w_position (fst r) (snd r)).

Definition on_host (w : world D) : res (world D) :=
  let r := host_update_status (w_keyboard_packet w) (w_host_position w) w in
  Ok (set_w_host_position (fst r) (snd r)).

Definition handle_mode (w : world D) : res (world D) :=
  match w_mode w with
  | MENU =>
      (on_vc (draw_menu_graphics a (w_position w)) >>
       (fun w => whenw (negb (w_count w =? 0)) (fun w => whenw (w_got_key_press w) on_menu w) w) >>
       (fun w => Ok (set_w_count (w_count w + 1) w))) w
  | HOST =>
      (on_vc (draw_host_graphics a (w_host_position w)) >>
       on_flag w_got_key_press (fun _ => on_host)) w
  | HOW_TO_PLAY =>
      (on_vc (draw_how_to_play_graphics a) >>
       on_flag w_got_key_press (fun w0 w => Ok (how_to_play_update_status (w_keyboard_packet w0) w))) w
  | LEADERBOARD =>
      (on_vc (draw_leaderboard_graphics a (w_lb w)) >>
       on_flag w_got_key_press (fun w0 w =>
         Ok (set_w_mode (leaderboard_update_status (w_keyboard_packet w0) (w_mode w)) w))) w
  | NUM_ROUNDS =>
      (on_vc (draw_num_of_rounds_graphics a (w_nr w)) >>
       on_flag w_got_key_press (fun w0 =>
         on_nr (number_of_rounds_update_status a (w_keyboard_packet w0)))) w
  | GAME =>
      (draw_game >>
       on_flag w_got_key_press (fun w0 => on_game (game_update_status_key (w_keyboard_packet w0))) >>
       on_flag w_got_mouse_packet (fun w0 => on_game (game_update_status_mouse (w_mouse_packet w0))) >>
       on_flag w_timer_interrupt (fun _ => on_game game_update_status_timer) >>
       on_flag w_rtc_interrupt (fun _ => on_game game_update_status_rtc)) w
  | MP_GAME =>
      (draw_mp >>
       on_flag w_got_key_press (fun w0 => on_mp (Mp.mp_game_update_status_key (w_keyboard_packet w0))) >>
       on_flag w_got_mouse_packet (fun w0 => on_mp (Mp.mp_game_update_status_mouse (w_mouse_packet w0))) >>
       on_flag w_timer_interrupt (fun _ => on_mp Mp.mp_game_update_status_timer) >>
       on_flag w_rtc_interrupt (fun _ => on_mp Mp.mp_game_update_status_rtc) >>
       on_flag w_uart_interrupt (fun w0 =>
         on_mp (Mp.mp_game_update_status_uart (w_data_packet w0) (w_uart_type w0)))) w
  | HIGHSCORE =>
      (on_vc (draw_highscore_graph a (w_hs w)) >>
       on_flag w_got_key_press (fun w0 =>
         on_hs (highscore_update_status a malloc (w_keyboard_packet w0)))) w
  | EXIT => Ok w
  end.

(** The result is [exit]. *)
Definition event_handler (w : world D) : res (bool * world D) :=
  res_bind (handle_mode w) (fun w =>
    let exit := mode_eqb (w_mode w) EXIT in
    res_bind (on_vc copy_to_video w) (fun w => Ok (exit, w))).

(** ** [run] *)

(** What [driver_receive] delivers: an error, something that is not a hardware
    notification, or the set of pending interrupts ([m_notify.interrupts]). *)
Inductive message :=
| ReceiveFailed
| NotHardware
| Hardware (interrupts : Z).

Definition keyboard_irq (set : bool) (w : world D) : world D :=
  if set then
    let '(got, k, kb, w) :=
      let r := on_dev (keyboard_handler 0 (w_kbd w)) w in
      let '(got, k, kb) := fst r in (got, k, kb, snd r) in
    let w := set_w_kbd kb (set_w_got_key_press got w) in
    match k with Some k => set_w_keyboard_packet k w | None => w end
  else
    set_w_keyboard_packet (KeyPress 0 (down (w_keyboard_packet w))) (set_w_got_key_press false w).

Definition mouse_irq (set : bool) (w : world D) : res (world D) :=
  if set then
    let r := on_dev (mouse_handler (w_mdrv w)) w in
    res_bind (fst r) (fun pm =>
      let w := set_w_mdrv (snd pm) (snd r) in
      Ok match fst pm with
         | Some p => set_w_mouse_packet p (set_w_got_mouse_packet true w)
         | None => set_w_got_mouse_packet false w
         end)
  else Ok (set_w_got_mouse_packet false w).

(** An interrupt of the clock that is not an alarm leaves the flag alone. *)
Definition rtc_irq (set : bool) (w : world D) : world D :=
  if set then
    let r := on_dev (rtc_handler (w_rtc_previous w)) w in
    let w := set_w_rtc_previous (snd (fst r)) (snd r) in
    match fst (fst r) with ALARM => set_w_rtc_interrupt true w | _ => w end
  else set_w_rtc_interrupt false w.

Definition uart_irq (set : bool) (w : world D) : world D :=
  if set then
    let r := on_dev (uart_handler (w_data_packet w)) w in
    set_w_uart_interrupt true
      (set_w_data_packet (snd (fst r)) (set_w_uart_type (fst (fst r)) (snd r)))
  else set_w_uart_interrupt false w.

(** The handlers of the pending interrupts, which set the flags of [simon.h].
    The bit a driver asks for when it subscribes is the number of its line, so
    the masks [irq_set] of the code are [BIT] of the line. *)
Definition latch_irqs (interrupts : Z) (w : world D) : res (world D) :=
  res_bind (mouse_irq (flag interrupts MOUSE_IRQ) (keyboard_irq (flag interrupts KBD_IRQ) w)) (fun w =>
    let w := set_w_timer_interrupt (flag interrupts TIMER0_IRQ) w in
    Ok (uart_irq (flag interrupts UART_IRQ) (rtc_irq (flag interrupts RTC_IRQ) w))).

(** One turn of the loop; the result is [exit] (false where it is not set). *)
Definition run_message (m : message) (w : world D) : res (bool * world D) :=
  match m with
  | ReceiveFailed | NotHardware => Ok (false, w)
  | Hardware interrupts => res_bind (latch_irqs interrupts w) event_handler
  end.

(** [do ... while (!scancode_is_esc_break() && !exit)]; the result says whether
    the loop has ended within the messages given. *)
Fixpoint run_loop (ms : list message) (w : world D) : res (bool * world D) :=
  match ms with
  | [] => Ok (false, w)
  | m :: ms =>
      res_bind (run_message m w) (fun r =>
        if negb (scancode_is_esc_break (w_kbd (snd r))) && negb (fst r) then run_loop ms (snd r)
        else Ok (true, snd r))
  end.

(** The subscriptions of [run], and the static [timer_hook_id]. *)
Record hooks := Hooks {
  h_kbd : subscription; h_timer : subscription; h_mouse : subscription;
  h_rtc : subscription; h_uart : subscription
}.

(** The part of [run] before the loop, once the video mode is set. *)
Definition run_start (w : world D) : hooks * world D :=
  let w := set_w_mode MENU w in
  let w := snd (on_dev enable_alarm_int w) in
  let w := snd (on_dev disable_updates w) in
  let w := snd (on_dev disable_periodic_int w) in
  let k := on_dev keyboard_subscribe w in
  let t := on_dev timer_subscribe_int (snd k) in
  let r := on_dev (mouse_data_reporting_enable (w_mdrv (snd t))) (snd t) in
  let m := on_dev mouse_subscribe (set_w_mdrv (snd (fst r)) (snd r)) in
  let c := on_dev rtc_subscribe (snd m) in
  let u := on_dev uart_subscribe (snd c) in
  let w := snd (on_dev set_seconds_alarm (snd u)) in
  let b := on_dev check_buffer w in
  (Hooks (fst k) (fst t) (fst m) (fst c) (fst u),
   if fst b =? 0 then snd (on_dev serial_read_byte (snd b)) else snd b).

(** The part after the loop; the hook of the serial port is not among them. *)
Definition run_stop (h : hooks) (w : world D) : world D :=
  let w := snd (on_dev (keyboard_unsubscribe (notification (h_kbd h))) w) in
  let w := snd (on_dev (mouse_unsubscribe (notification (h_mouse h))) w) in
  let w := snd (on_dev (timer_unsubscribe_int (notification (h_timer h))) w) in
  snd (on_dev (rtc_unsubscribe (notification (h_rtc h))) w).

(** The video card and the allocator: the mode block, the mapped memory and a
    fresh block of a given size, the BIOS. *)
Record video := Video {
  vbe_get_mode_info : Z -> vbe_mode_info_t;
  vm_map_phys : Z -> list Z;
  malloc_block : Z -> list Z;
  sys_int86 : reg86 -> Z
}.

Definition VBE_MODE : Z := 276.   (* 0x114 *)

Definition mode_vc (v : video) : vc :=
  get_mode_info (vbe_get_mode_info v VBE_MODE) (vm_map_phys v) (malloc_block v).

(** The result says whether the loop has ended. *)
Definition run (v : video) (ms : list message) (w : world D) : res (bool * world D) :=
  let w := set_w_vc (mode_vc v) w in
  if set_vbe_mode (sys_int86 v) VBE_MODE =? 1 then Ok (true, w)
  else
    let s := run_start w in
    res_bind (run_loop ms (snd s)) (fun r =>
      Ok (if fst r then (true, run_stop (fst s) (snd r)) else r)).

(** [proj_main_loop]: the file before, and the file after. *)
Definition proj_main_loop (file : option (list Z)) (name date : list Z) (v : video)
  (ms : list message) (can_write : bool) (w : world D) : res (bool * list Z * world D) :=
  res_bind (retrieveData file name date (w_lb w)) (fun l =>
    res_bind (run v ms (set_w_lb l w)) (fun r =>
      res_bind (saveData can_write (w_lb (snd r))) (fun f => Ok (fst r, f, snd r)))).
End World.
