(* ===== verification/SimonProps.v ===== *)
(** The properties of the whole program: how the modes follow each other, when
    the table of scores can change, and what the interrupt flags do. *)

From stdpp Require Import base tactics list relations.
From Stdlib Require Import ZArith Lia Ascii String.
From S2P Require Import Prelude Consts Ports Rtc Uart Timer Keyboard Mouse NumLetters Vc Screen CString.
From S2P Require Import Leaderboard Highscore Menus Pad Game MpGame Simon.

(** ** What a computation does to its environment

    [steps R m]: whatever [m] does, the environment afterwards is related to the
    one before by [R]. *)

Definition steps {X E A} (R : E -> E -> Prop) (m : M X E A) : Prop :=
  forall s a s', m s = Ok (a, s') -> R (snd s) (snd s').

Section Steps.
Context {X E : Type} (R : E -> E -> Prop) `{PO : !PreOrder R}.

Lemma steps_bind {A B} (m : M X E A) (k : A -> M X E B) :
  steps R m -> (forall a, steps R (k a)) -> steps R (bind m k).
Proof.
  intros Hm Hk s b s'. unfold bind. destruct (m s) as [[a s1] |] eqn:Em; [| discriminate].
  cbn. intros Ek. transitivity (snd s1); [by eapply Hm | by eapply Hk].
Qed.

Lemma steps_ret {A} (a : A) : steps (X := X) R (ret a).
Proof. intros s b s' [= <- <-]. reflexivity. Qed.

Lemma steps_skip : steps (X := X) R skip.
Proof. apply steps_ret. Qed.

Lemma steps_gets {A} (f : X -> A) : steps R (gets f).
Proof. intros s b s' [= <- <-]. reflexivity. Qed.

Lemma steps_modify (f : X -> X) : steps R (modify f).
Proof. intros s b s' [= <- <-]. reflexivity. Qed.

Lemma steps_undef {A} u : steps (X := X) (A := A) R (undef u).
Proof. intros s b s' [=]. Qed.

Lemma steps_lift {A} (r : res A) : steps (X := X) R (lift r).
Proof. intros s b s'. unfold lift. destruct r; [| discriminate]. intros [= <- <-]. reflexivity. Qed.

Lemma steps_read {A} (f : E -> res A) : steps (X := X) R (fun s => lift (f (snd s)) s).
Proof. intros s b s' H. exact (steps_lift _ s b s' H). Qed.

Lemma steps_when b (m : M X E unit) : steps R m -> steps R (when b m).
Proof. intros Hm. destruct b; [done | apply steps_skip]. Qed.

Lemma steps_env {A} (m : ST E A) : (forall e, R e (snd (m e))) -> steps (X := X) R (env m).
Proof. intros Hm s b s' [= <- <-]. apply Hm. Qed.

Lemma steps_env_ (f : E -> E) : (forall e, R e (f e)) -> steps (X := X) R (env_ f).
Proof. intros Hf s b s' [= <- <-]. apply Hf. Qed.

Lemma steps_env_res (f : E -> res E) :
  (forall e e', f e = Ok e' -> R e e') -> steps (X := X) R (env_res f).
Proof.
  intros Hf s b s'. unfold env_res. destruct (f (snd s)) eqn:Ef; [| discriminate].
  intros [= <- <-]. by apply Hf.
Qed.
End Steps.

(** [follow] walks through the code; the calls of other definitions are left. *)
Ltac follow_step :=
  match goal with
  | |- forall _, _ => intro
  | |- steps _ (bind _ _) => apply steps_bind
  | |- steps _ skip => apply steps_skip
  | |- steps _ (ret _) => apply steps_ret
  | |- steps _ (gets _) => apply steps_gets
  | |- steps _ (modify _) => apply steps_modify
  | |- steps _ (undef _) => apply steps_undef
  | |- steps _ (lift _) => apply steps_lift
  | |- steps _ (when _ _) => apply steps_when
  | |- steps _ (env_ _) => apply steps_env_
  | |- steps _ (env_res _) => apply steps_env_res
  | |- steps _ (env _) => apply steps_env
  | |- steps _ (match ?x with _ => _ end) => destruct x
  | |- steps _ (let _ := _ in _) => cbv zeta
  | |- steps _ (fun _ => _) => apply steps_read
  end.
Ltac follow := repeat (follow_step; try assumption).

(** ** The components, against their interfaces *)

Section GameSteps.
Context {E : Type} `{GE : GameEnv E} (R : E -> E -> Prop) `{PO : !PreOrder R}.
Hypothesis set_mode_R : forall m e, m = LEADERBOARD \/ m = HIGHSCORE -> R e (g_set_mode m e).
Hypothesis timed_R : forall n e, R e (g_set_timed_alarm n e).
Hypothesis seconds_R : forall e, R e (g_set_seconds_alarm e).
Hypothesis reset_R : forall n e e', g_reset_hiscore n e = Ok e' -> R e e'.
Hypothesis rand_R : forall e, R e (snd (g_rand e)).

Ltac go := follow; eauto using set_mode_R.

Lemma is_VS_round_steps : steps R is_VS_round.
Proof. unfold is_VS_round. go. Qed.
Lemma end_game_steps : steps R end_game.
Proof. unfold end_game. go. Qed.
Lemma checkNewHiScore_steps : steps R checkNewHiScore.
Proof. unfold checkNewHiScore. go. Qed.
Lemma push_button_steps c : steps R (push_button c).
Proof. unfold push_button. go. Qed.

Hint Resolve is_VS_round_steps end_game_steps checkNewHiScore_steps push_button_steps : core.

Lemma reset_game_steps n : steps R (reset_game n).
Proof. unfold reset_game. go. Qed.
Lemma click_button_steps c : steps R (click_button c).
Proof. unfold click_button, flip_player, get_winner. go. Qed.
Lemma game_mouse_steps p : steps R (game_update_status_mouse p).
Proof. unfold game_update_status_mouse, light_button. follow. apply click_button_steps. Qed.
Lemma game_key_steps k : steps R (game_update_status_key k).
Proof. unfold game_update_status_key. go. Qed.
Lemma game_timer_steps : steps R game_update_status_timer.
Proof. unfold game_update_status_timer. go. Qed.
Lemma game_rtc_steps : steps R game_update_status_rtc.
Proof. unfold game_update_status_rtc, rtc_clock, rtc_leave, flip_player, get_winner. go. Qed.
End GameSteps.

Section MpSteps.
Import Mp.
Context {E : Type} `{ME : MpEnv E} (R : E -> E -> Prop) `{PO : !PreOrder R}.
Hypothesis set_mode_R : forall m e, m = LEADERBOARD \/ m = HIGHSCORE -> R e (m_set_mode m e).
Hypothesis timed_R : forall n e, R e (m_set_timed_alarm n e).
Hypothesis seconds_R : forall e, R e (m_set_seconds_alarm e).
Hypothesis reset_R : forall n e e', m_reset_hiscore n e = Ok e' -> R e e'.
Hypothesis check_R : forall e, R e (snd (m_check_thr_emtpy e)).
Hypothesis write_R : forall b e, R e (snd (m_serial_write_byte b e)).

Ltac go := follow; eauto using set_mode_R.

Lemma serial_write_steps b : steps R (serial_write b).
Proof. unfold serial_write. go. Qed.
Lemma write_or_queue_steps b : steps R (write_or_queue b).
Proof. unfold write_or_queue, uart_set_queue. follow; eauto using serial_write_steps. Qed.
Lemma mp_end_game_steps : steps R mp_end_game.
Proof. unfold mp_end_game. go. Qed.
Lemma mp_checkNewHiScore_steps : steps R mp_checkNewHiScore.
Proof. unfold mp_checkNewHiScore. go. Qed.
Lemma mp_add_button_steps c : steps R (mp_add_button c).
Proof. unfold mp_add_button. go. Qed.
Lemma mp_is_VS_round_steps : steps R mp_is_VS_round.
Proof. unfold mp_is_VS_round. go. Qed.

Hint Resolve serial_write_steps write_or_queue_steps mp_end_game_steps mp_checkNewHiScore_steps
  mp_add_button_steps mp_is_VS_round_steps : core.

Lemma mp_change_player_steps : steps R mp_change_player.
Proof. unfold mp_change_player. go. Qed.
Lemma mp_send_winner_steps : steps R mp_send_winner.
Proof. unfold mp_send_winner. go. Qed.
Lemma mp_send_button_steps c : steps R (mp_send_button c).
Proof. unfold mp_send_button. go. Qed.
Lemma mp_reset_game_steps n : steps R (mp_reset_game n).
Proof. unfold mp_reset_game. go. Qed.

Hint Resolve mp_change_player_steps mp_send_winner_steps mp_send_button_steps mp_reset_game_steps : core.

Lemma host_mp_game_steps n : steps R (host_mp_game n).
Proof. unfold host_mp_game. go. Qed.
Lemma connect_mp_game_steps : steps R connect_mp_game.
Proof. unfold connect_mp_game. go. Qed.
Lemma mp_click_button_steps c : steps R (mp_click_button c).
Proof. unfold mp_click_button, mp_get_winner. go. Qed.
Lemma mp_remote_click_button_steps c : steps R (mp_remote_click_button c).
Proof. unfold mp_remote_click_button. go. Qed.
Lemma mp_buttons_handler_steps c : steps R (mp_buttons_handler c).
Proof.
  unfold mp_buttons_handler, mp_light_button. follow.
  - apply mp_click_button_steps.
  - apply mp_remote_click_button_steps.
Qed.

Hint Resolve mp_buttons_handler_steps : core.

Lemma start_game_steps d b : steps R (start_game d b).
Proof. unfold start_game. go. Qed.
Lemma play_game_steps d : steps R (play_game d).
Proof. unfold play_game, new_round. go. Qed.
Lemma mp_uart_steps d t : steps R (mp_game_update_status_uart d t).
Proof. unfold mp_game_update_status_uart, uart_ready. go; auto using start_game_steps, play_game_steps. Qed.
Lemma mp_mouse_steps p : steps R (mp_game_update_status_mouse p).
Proof. unfold mp_game_update_status_mouse. go. Qed.
Lemma mp_key_steps k : steps R (mp_game_update_status_key k).
Proof. unfold mp_game_update_status_key. go. Qed.
Lemma mp_timer_steps : steps R mp_game_update_status_timer.
Proof. unfold mp_game_update_status_timer. go. Qed.
Lemma mp_rtc_steps : steps R mp_game_update_status_rtc.
Proof. unfold mp_game_update_status_rtc, mp_rtc_leave, mp_get_winner. go. Qed.
End MpSteps.

Section HighscoreSteps.
Context {E : Type} `{HE : HighscoreEnv E} (R : E -> E -> Prop) `{PO : !PreOrder R}.

Lemma reset_hiscore_steps n :
  (forall e, R e (hs_put_lb (set_winner_score n (hs_lb e)) e)) -> steps R (reset_hiscore n).
Proof. intros Hput. unfold reset_hiscore, hs_on_lb. follow. cbn in *. simplify_eq. apply Hput. Qed.

Lemma highscore_steps a malloc k :
  (forall l e, R e (hs_put_lb l e)) -> (forall e, R e (hs_put_mode LEADERBOARD e)) ->
  (forall e, R e (snd (hs_get_date e))) ->
  (key k = BACKSPACE -> forall v e, R e (hs_put_vc v e)) ->
  steps R (highscore_update_status a malloc k).
Proof.
  intros Hput Hmode Hdate Hvc.
  assert (Hon : forall f, steps R (hs_on_lb f)).
  { intros f. unfold hs_on_lb. follow.
    match goal with H : res_bind ?r _ = Ok _ |- _ => destruct r; [| discriminate] end.
    cbn in *. simplify_eq. apply Hput. }
  assert (Hdel : steps R (when (key k =? BACKSPACE) (delete_char a))).
  { destruct (Z.eqb_spec (key k) BACKSPACE) as [Hk |]; [| exact (steps_skip R)].
    unfold delete_char, strlen_player. follow; first [by auto | reflexivity]. }
  unfold highscore_update_status, submit, getDate, add_char, strlen_player.
  follow; auto.
Qed.
End HighscoreSteps.

Section MenuSteps.
Context {E : Type} `{ME : MenusEnv E} (R : E -> E -> Prop) `{PO : !PreOrder R}.

Lemma rounds_steps a k :
  (forall m e, m = GAME \/ m = MP_GAME -> R e (set_mode m e)) ->
  (forall n e, R e (menu_reset_game n e)) -> (forall n e, R e (menu_host_mp_game n e)) ->
  (forall v e, R e (menu_put_vc v e)) ->
  steps R (number_of_rounds_update_status a k).
Proof.
  intros Hm Hr Hh Hv. unfold number_of_rounds_update_status, start_rounds, add_digit.
  follow; auto. reflexivity.
Qed.
End MenuSteps.

(** ** The modes and the table *)

(** What a handler does to the mode and to the table of scores: the mode stays
    or becomes one of [T], the table stays unless [tbl]. *)
Definition goes {D} (T : list Game_Modes) (tbl : bool) (w w' : world D) : Prop :=
  (w_mode w' = w_mode w \/ In (w_mode w') T) /\
  (tbl = true \/ Leaderboard.leaderboard (w_lb w') = Leaderboard.leaderboard (w_lb w)).

#[export] Instance goes_preorder {D} T tbl : PreOrder (@goes D T tbl).
Proof.
  split; [by split; [left | right] |].
  intros x y z [[Hxy | Hxy] Lxy] [[Hyz | Hyz] Lyz]; (split; [| destruct Lxy, Lyz; [by left .. | right; congruence]]).
  - left. congruence.
  - by right.
  - right. by rewrite Hyz.
  - by right.
Qed.

Lemma goes_id {D} T tbl (w w' : world D) :
  w_mode w' = w_mode w -> w_lb w' = w_lb w -> goes T tbl w w'.
Proof. intros Hm Hl. split; [by left | right; by rewrite Hl]. Qed.

Lemma goes_mode {D} T tbl m (w : world D) : In m T -> goes T tbl w (set_w_mode m w).
Proof. intros Hm. split; [by right | by right]. Qed.

(** The successors of a mode. *)
Definition next_modes (m : Game_Modes) : list Game_Modes :=
  match m with
  | MENU => [NUM_ROUNDS; HOST; HOW_TO_PLAY; LEADERBOARD; EXIT]
  | HOST => [NUM_ROUNDS; MP_GAME]
  | HOW_TO_PLAY | LEADERBOARD => [MENU]
  | NUM_ROUNDS => [GAME; MP_GAME]
  | GAME | MP_GAME => [LEADERBOARD; HIGHSCORE]
  | HIGHSCORE => [LEADERBOARD]
  | EXIT => []
  end.
Definition edge (m m' : Game_Modes) : Prop := In m' (next_modes m).

Section WorldSteps.
Context {D : Type} `{PD : Ports D} `{DD : Delay D}.
Variable a : assets.
Variable rand : D -> Z * D.
Variable malloc : Z -> list Z.
Variable polls : nat.
#[local] Abbreviation W := (world D).
#[local] Instance W_highscore : HighscoreEnv W := world_highscore polls.
#[local] Instance W_game : GameEnv W := world_game rand polls.
#[local] Instance W_mp : MpEnv W := world_mp polls.
#[local] Instance W_menus : MenusEnv W := world_menus rand polls.

(** A handler of the store. *)
Definition wsteps (R : W -> W -> Prop) (f : W -> res W) : Prop := forall w w', f w = Ok w' -> R w w'.

Lemma wsteps_then R `{!PreOrder R} f g : wsteps R f -> wsteps R g -> wsteps R (then_ f g).
Proof.
  intros Hf Hg w w'. unfold then_. destruct (f w) as [w1 |] eqn:Ef; [| discriminate]. cbn.
  intros Eg. transitivity w1; [by apply Hf | by apply Hg].
Qed.

Lemma wsteps_flag R `{!PreOrder R} b f : (forall w, wsteps R (f w)) -> wsteps R (on_flag b f).
Proof.
  intros Hf w w'. unfold on_flag, whenw. destruct (b w); [apply Hf | intros [= <-]; reflexivity].
Qed.

Lemma on_game_goes T tbl m : steps (goes T tbl) m -> wsteps (goes T tbl) (on_game m).
Proof.
  intros Hm w w'. unfold on_game. destruct (m (w_game w, w)) as [[u [g w1]] |] eqn:Em; [| discriminate].
  cbn. intros [= <-]. exact (Hm _ _ _ Em).
Qed.

Lemma on_mp_goes T tbl m : steps (goes T tbl) m -> wsteps (goes T tbl) (on_mp m).
Proof.
  intros Hm w w'. unfold on_mp. destruct (m (w_mp w, w)) as [[u [g w1]] |] eqn:Em; [| discriminate].
  cbn. intros [= <-]. exact (Hm _ _ _ Em).
Qed.

Lemma on_hs_goes T tbl m : steps (goes T tbl) m -> wsteps (goes T tbl) (on_hs m).
Proof.
  intros Hm w w'. unfold on_hs. destruct (m (w_hs w, w)) as [[u [g w1]] |] eqn:Em; [| discriminate].
  cbn. intros [= <-]. exact (Hm _ _ _ Em).
Qed.

Lemma on_nr_goes T tbl m : steps (goes T tbl) m -> wsteps (goes T tbl) (on_nr m).
Proof.
  intros Hm w w'. unfold on_nr. destruct (m (w_nr w, w)) as [[u [g w1]] |] eqn:Em; [| discriminate].
  cbn. intros [= <-]. exact (Hm _ _ _ Em).
Qed.

Lemma on_vc_goes T tbl f : wsteps (goes T tbl) (on_vc f).
Proof.
  intros w w'. unfold on_vc. destruct (f (w_vc w)); [| discriminate]. intros [= <-]. by apply goes_id.
Qed.

Lemma on_dev_goes T tbl {A} (m : ST D A) w : goes T tbl w (snd (on_dev m w)).
Proof. by apply goes_id. Qed.

Lemma total_goes T tbl f w : wsteps (goes T tbl) f -> goes T tbl w (total (f w) w).
Proof. intros Hf. unfold total. destruct (f w) eqn:Ef; [by apply Hf | reflexivity]. Qed.

Hint Resolve on_vc_goes on_dev_goes goes_preorder : core.

#[local] Abbreviation G := (goes [LEADERBOARD; HIGHSCORE] false).

Lemma world_reset_hiscore_goes T n w w' : on_hs (reset_hiscore n) w = Ok w' -> goes T false w w'.
Proof. apply on_hs_goes, reset_hiscore_steps; [done |]. intros e. split; [by left | by right]. Qed.

Lemma mode_in_two m (e : W) : m = LEADERBOARD \/ m = HIGHSCORE -> G e (set_w_mode m e).
Proof. intros [-> | ->]; apply goes_mode; cbn; auto. Qed.

Lemma draw_game_goes T tbl : wsteps (goes T tbl) (draw_game a).
Proof.
  intros w w'. unfold draw_game. destruct (draw_game_graphics _ _ _ _); [| discriminate].
  intros [= <-]. by apply goes_id.
Qed.

Lemma draw_mp_goes T tbl : wsteps (goes T tbl) (draw_mp a).
Proof.
  intros w w'. unfold draw_mp. destruct (Mp.mp_draw_game_graphics _ _ _ _); [| discriminate].
  intros [= <-]. by apply goes_id.
Qed.

Lemma game_goes (m : M gst W unit) :
  (forall R : W -> W -> Prop, PreOrder R ->
     (forall m e, m = LEADERBOARD \/ m = HIGHSCORE -> R e (g_set_mode m e)) ->
     (forall n e, R e (g_set_timed_alarm n e)) -> (forall e, R e (g_set_seconds_alarm e)) ->
     (forall n e e', g_reset_hiscore n e = Ok e' -> R e e') -> (forall e, R e (snd (g_rand e))) ->
     steps R m) ->
  wsteps G (on_game m).
Proof.
  intros Hm. apply on_game_goes, Hm.
  - exact _.
  - apply mode_in_two.
  - intros n e. apply on_dev_goes.
  - intros e. apply on_dev_goes.
  - intros n e e'. apply world_reset_hiscore_goes.
  - intros e. apply on_dev_goes.
Qed.

Lemma mp_goes (m : M Mp.mst W unit) :
  (forall R : W -> W -> Prop, PreOrder R ->
     (forall m e, m = LEADERBOARD \/ m = HIGHSCORE -> R e (m_set_mode m e)) ->
     (forall n e, R e (m_set_timed_alarm n e)) -> (forall e, R e (m_set_seconds_alarm e)) ->
     (forall n e e', m_reset_hiscore n e = Ok e' -> R e e') ->
     (forall e, R e (snd (m_check_thr_emtpy e))) -> (forall b e, R e (snd (m_serial_write_byte b e))) ->
     steps R m) ->
  wsteps G (on_mp m).
Proof.
  intros Hm. apply on_mp_goes, Hm.
  - exact _.
  - apply mode_in_two.
  - intros n e. apply on_dev_goes.
  - intros e. apply on_dev_goes.
  - intros n e e'. apply world_reset_hiscore_goes.
  - intros e. apply on_dev_goes.
  - intros b e. apply on_dev_goes.
Qed.

(** What the menus call changes neither the mode nor the table. *)
Lemma menu_reset_game_goes T n (w : W) : goes T false w (menu_reset_game n w).
Proof.
  apply total_goes, on_game_goes, reset_game_steps; [done |]. intros e. apply on_dev_goes.
Qed.
Lemma menu_host_goes T n (w : W) : goes T false w (menu_host_mp_game n w).
Proof. apply total_goes, on_mp_goes, host_mp_game_steps; done. Qed.
Lemma menu_connect_goes T (w : W) : goes T false w (menu_connect_mp_game w).
Proof.
  apply total_goes, on_mp_goes, connect_mp_game_steps; [done |]. intros b e. apply on_dev_goes.
Qed.

(** Every mode's case. *)
Ltac screen_case :=
  apply wsteps_then; [exact _ | apply on_vc_goes |]; apply wsteps_flag; [exact _ |]; intros w0.
Ltac flag_case := apply wsteps_flag; [exact _ | intros w0].

Lemma game_case_goes (w w' : W) :
  w_mode w = GAME -> handle_mode a rand malloc polls w = Ok w' -> G w w'.
Proof.
  unfold handle_mode. intros ->.
  repeat (apply wsteps_then; [exact _ | |]); [apply draw_game_goes | ..]; flag_case;
    apply game_goes; intros R HR Hs Ht Hsec Hr Hrand.
  - by apply game_key_steps.
  - by apply game_mouse_steps.
  - by apply game_timer_steps.
  - by apply game_rtc_steps.
Qed.

Lemma mp_case_goes (w w' : W) :
  w_mode w = MP_GAME -> handle_mode a rand malloc polls w = Ok w' -> G w w'.
Proof.
  unfold handle_mode. intros ->.
  repeat (apply wsteps_then; [exact _ | |]); [apply draw_mp_goes | ..]; flag_case;
    apply mp_goes; intros R HR Hs Ht Hsec Hr Hc Hw.
  - by apply mp_key_steps.
  - by apply mp_mouse_steps.
  - by apply mp_timer_steps.
  - by apply mp_rtc_steps.
  - by apply mp_uart_steps.
Qed.

Lemma handle_mode_goes (w w' : W) :
  handle_mode a rand malloc polls w = Ok w' ->
  goes (next_modes (w_mode w)) (mode_eqb (w_mode w) HIGHSCORE) w w'.
Proof.
  destruct (w_mode w) eqn:Hmode;
    try (intros Hh; first [exact (game_case_goes _ _ Hmode Hh) | exact (mp_case_goes _ _ Hmode Hh)]);
    unfold handle_mode; rewrite Hmode; cbn [next_modes];
    repeat match goal with |- context [mode_eqb ?x ?y] => change (mode_eqb x y) with false end.
  - (* MENU *)
    apply wsteps_then; [exact _ | apply on_vc_goes |].
    apply wsteps_then; [exact _ | | intros w1 w2 [= <-]; by apply goes_id].
    intros w1 w2. unfold whenw. destruct (negb _), (w_got_key_press w1); try (intros [= <-]; reflexivity).
    unfold on_menu, menu_update_status. intros [= <-].
    repeat case_match; cbn [fst snd]; try by apply goes_id.
    all: split; [right; cbn; tauto | by right].
  - (* HOW_TO_PLAY *)
    screen_case. intros w1 w2 [= <-]. unfold how_to_play_update_status.
    destruct (_ =? 8); [apply goes_mode; cbn; tauto | reflexivity].
  - (* LEADERBOARD *)
    screen_case. intros w1 w2 [= <-]. unfold leaderboard_update_status.
    destruct (_ =? BACKSPACE); [apply goes_mode; cbn; tauto | by apply goes_id].
  - (* NUM_ROUNDS *)
    screen_case. apply on_nr_goes, rounds_steps;
      [exact _ | | apply menu_reset_game_goes | apply menu_host_goes | intros v e; by apply goes_id].
    intros m e [-> | ->]; apply goes_mode; cbn; tauto.
  - (* HIGHSCORE *)
    screen_case. apply on_hs_goes, highscore_steps; [exact _ | | | | intros _ v e; by apply goes_id].
    + intros l e. split; by left.
    + intros e. apply goes_mode. cbn. tauto.
    + intros e. apply on_dev_goes.
  - (* HOST *)
    screen_case. intros w1 w2 [= <-]. unfold on_host, host_update_status.
    repeat case_match; cbn [fst snd]; try by apply goes_id.
    + split; [right; cbn; tauto | by right].
    + transitivity (set_w_mode MP_GAME w1); [apply goes_mode; cbn; tauto | apply menu_connect_goes].
  - (* EXIT *) intros He. injection He as <-. reflexivity.
Qed.

(** One message. *)
Lemma irqs_goes T i w w' : latch_irqs i w = Ok w' -> goes T false w w'.
Proof.
  unfold latch_irqs. generalize (flag i KBD_IRQ), (flag i MOUSE_IRQ), (flag i TIMER0_IRQ), (flag i RTC_IRQ), (flag i UART_IRQ).
  intros k m t r u.
  assert (Hk : goes T false w (keyboard_irq k w)).
  { unfold keyboard_irq. destruct k; [| by apply goes_id].
    destruct (on_dev _ w) as [[[got key] kb] w1] eqn:Eo.
    assert (Hw1 : goes T false w w1).
    { change w1 with (snd (got, key, kb, w1)). rewrite <- Eo. apply on_dev_goes. }
    cbn. destruct key; (etransitivity; [exact Hw1 | by apply goes_id]). }
  assert (Hm : forall w1 w2, mouse_irq m w1 = Ok w2 -> goes T false w1 w2).
  { intros w1 w2. unfold mouse_irq. destruct m; [| intros [= <-]; by apply goes_id].
    destruct (fst (on_dev _ w1)) as [[pk md] |]; [| discriminate]. cbn. intros [= <-].
    destruct pk; by apply goes_id. }
  assert (Hr : forall w1, goes T false w1 (rtc_irq r w1)).
  { intros w1. unfold rtc_irq. destruct r; [| by apply goes_id]. destruct (fst (fst _)); by apply goes_id. }
  assert (Hu : forall w1, goes T false w1 (uart_irq u w1)).
  { intros w1. unfold uart_irq. destruct u; by apply goes_id. }
  destruct (mouse_irq m (keyboard_irq k w)) as [w1 |] eqn:Em; [| discriminate]. cbn. intros [= <-].
  etransitivity; [exact Hk |]. etransitivity; [exact (Hm _ _ Em) |].
  etransitivity; [| apply Hu]. etransitivity; [| apply Hr]. by apply goes_id.
Qed.

Lemma event_handler_goes (w w' : W) b :
  event_handler a rand malloc polls w = Ok (b, w') ->
  goes (next_modes (w_mode w)) (mode_eqb (w_mode w) HIGHSCORE) w w' /\ b = mode_eqb (w_mode w') EXIT.
Proof.
  unfold event_handler. destruct (handle_mode _ _ _ _ w) as [w1 |] eqn:Eh; [| discriminate].
  cbn. destruct (on_vc copy_to_video w1) as [w2 |] eqn:Ev; [| discriminate]. cbn. intros [= <- <-].
  assert (Hm : w_mode w2 = w_mode w1).
  { unfold on_vc in Ev. destruct (copy_to_video _); [| discriminate]. by injection Ev as <-. }
  split; [| by rewrite Hm]. etransitivity; [by apply handle_mode_goes |]. by eapply on_vc_goes.
Qed.

Lemma run_message_goes m (w w' : W) b :
  run_message a rand malloc polls m w = Ok (b, w') ->
  goes (next_modes (w_mode w)) (mode_eqb (w_mode w) HIGHSCORE) w w' /\
  (w_mode w <> EXIT -> b = mode_eqb (w_mode w') EXIT).
Proof.
  destruct m as [| | i]; cbn [run_message].
  1, 2: intros [= <- <-]; split; [reflexivity |]; intros Hne; symmetry; by apply bool_decide_eq_false.
  destruct (latch_irqs i w) as [w1 |] eqn:Em; [| discriminate]. cbn [res_bind]. intros Hev.
  destruct (irqs_goes [] i w w1 Em) as [[Hmode | []] [[=] | Hlb]].
  destruct (event_handler_goes _ _ _ Hev) as [[Hm Hl] Hb]. split; [| done].
  rewrite Hmode in Hm, Hl. split; [exact Hm |]. destruct Hl as [Hl | Hl]; [by left | right; congruence].
Qed.

(** The loop: the mode moves along the edges; the table stays until a state in
    mode [HIGHSCORE] has been reached; the loop ends as the code says. *)
Lemma run_loop_spec ms (w w' : W) b :
  w_mode w <> EXIT -> scancode_is_esc_break (w_kbd w) = false ->
  run_loop a rand malloc polls ms w = Ok (b, w') ->
  rtc edge (w_mode w) (w_mode w') /\
  b = mode_eqb (w_mode w') EXIT || scancode_is_esc_break (w_kbd w') /\
  (Leaderboard.leaderboard (w_lb w') = Leaderboard.leaderboard (w_lb w) \/
   exists ms1 ms2 w1, ms = ms1 ++ ms2 /\ run_loop a rand malloc polls ms1 w = Ok (false, w1) /\
     w_mode w1 = HIGHSCORE).
Proof.
  revert w. induction ms as [| m ms IH]; intros w Hx He; cbn [run_loop].
  { intros [= <- <-]. split; [apply rtc_refl |]. split; [| by left].
    rewrite He, orb_false_r. symmetry. by apply bool_decide_eq_false. }
  destruct (run_message a rand malloc polls m w) as [[e w1] |] eqn:Em; [| discriminate]. cbn [res_bind fst snd].
  destruct (run_message_goes _ _ _ _ Em) as [[Hm Hl] Hb]. specialize (Hb Hx). subst e.
  assert (Hstep : rtc edge (w_mode w) (w_mode w1)).
  { destruct Hm as [-> | Hm]; [apply rtc_refl | by apply rtc_once]. }
  assert (Htbl : Leaderboard.leaderboard (w_lb w1) = Leaderboard.leaderboard (w_lb w) \/ w_mode w = HIGHSCORE).
  { destruct Hl as [Hl | Hl]; [right | by left]. by apply bool_decide_eq_true in Hl. }
  destruct Htbl as [Htbl | Hhs].
  2: assert (Hfin : exists ms1 ms2 w1, m :: ms = ms1 ++ ms2 /\
              run_loop a rand malloc polls ms1 w = Ok (false, w1) /\ w_mode w1 = HIGHSCORE)
       by (by exists [], (m :: ms), w).
  all: destruct (mode_eqb (w_mode w1) EXIT) eqn:Hex.
  all: rewrite ?andb_false_r, ?andb_true_r.
  1, 3: intros [= <- <-]; rewrite Hex; auto.
  all: apply bool_decide_eq_false in Hex; destruct (scancode_is_esc_break (w_kbd w1)) eqn:Hesc; cbn [negb].
  1, 3: intros [= <- <-]; rewrite Hesc, orb_true_r; auto.
  all: intros Hr; destruct (IH w1 Hex Hesc Hr) as (Hr1 & Hb1 & Ht1);
    split; [by etransitivity |]; split; [done |]; auto.
  destruct Ht1 as [Ht1 | (ms1 & ms2 & w2 & -> & Hr3 & Hw2)]; [left; congruence | right].
  exists (m :: ms1), ms2, w2. split; [done |]. split; [| done]. cbn [run_loop]. rewrite Em. cbn [res_bind fst snd].
  rewrite Hesc. replace (mode_eqb (w_mode w1) EXIT) with false by (symmetry; by apply bool_decide_eq_false).
  exact Hr3.
Qed.
End WorldSteps.
