(* ===== verification/Session.v ===== *)
(** Sessions of the whole program: from the menu to a game, the scores kept from
    one run to the next, and what the interrupt flags let through. *)

From stdpp Require Import base tactics list relations.
From Stdlib Require Import ZArith Lia Ascii.
From S2P Require Import Prelude Consts Ports Rtc Uart Keyboard Mouse NumLetters Vc Screen CString.
From S2P Require Import Leaderboard Highscore Menus Pad Game Says MpGame MpLink Simon SimonProps.

Section Session.
Context {D : Type} `{PD : Ports D} `{DD : Delay D}.
Variable a : assets.
Variable rand : D -> Z * D.
Variable malloc : Z -> list Z.
Variable polls : nat.
#[local] Abbreviation W := (world D).
#[local] Instance S_game : GameEnv W := world_game rand polls.
#[local] Instance S_mp : MpEnv W := world_mp polls.
#[local] Instance S_menus : MenusEnv W := world_menus rand polls.
#[local] Instance S_menus_laws : MenusLaws W := world_menus_laws rand polls.

(** A message that brings the key press [k]. *)
Definition keystroke (k : key_press) (w : W) : res (bool * W) :=
  event_handler a rand malloc polls (set_w_keyboard_packet k (set_w_got_key_press true w)).

(** Keys that are released one after the other. *)
Fixpoint keystrokes (ks : list Z) (w : W) : res (bool * W) :=
  match ks with
  | [] => Ok (false, w)
  | k :: ks => res_bind (keystroke (KeyPress k false) w) (fun r => if fst r then Ok r else keystrokes ks (snd r))
  end.

Hypothesis Ha : assets_ok a.

Lemma show f (w : W) :
  draws f -> screen_ok (w_vc w) -> exists v, on_vc f w = Ok (set_w_vc v w) /\ screen_ok v.
Proof.
  intros Hf Hv. destruct (Hf _ Hv) as (v & Hd & Hm). exists v. unfold on_vc. rewrite Hd. split; [done |].
  by eapply screen_ok_same.
Qed.

Lemma flush (w : W) :
  screen_ok (w_vc w) -> exists v, on_vc copy_to_video w = Ok (set_w_vc v w) /\ screen_ok v.
Proof.
  intros (Hv & Hx & Hy & H2). destruct (copy_to_video_shows _ Hv) as (v & Hc & Hv' & Hx' & Hy' & H2' & _).
  exists v. unfold on_vc. rewrite Hc. split; [done |]. split; [done |]. by rewrite Hx', Hy', H2'.
Qed.

(** A handler that leaves the frame alone, between the drawing of its screen
    and the end of the frame. *)
Lemma event_handler_done (w w1 : W) :
  handle_mode a rand malloc polls w = Ok w1 -> screen_ok (w_vc w1) ->
  exists v, event_handler a rand malloc polls w = Ok (mode_eqb (w_mode w1) EXIT, set_w_vc v w1) /\ screen_ok v.
Proof.
  intros Hh Hv. unfold event_handler. rewrite Hh. cbn [res_bind].
  destruct (flush w1 Hv) as (v & -> & Hv'). by exists v.
Qed.

Lemma on_flag_set f g (w : W) : f w = true -> on_flag f g w = g w w.
Proof. intros Hf. unfold on_flag, whenw. by rewrite Hf. Qed.

Lemma then_ok f g (w w1 : W) : f w = Ok w1 -> then_ f g w = g w1.
Proof. intros Hf. unfold then_. by rewrite Hf. Qed.

(** The menu: the key moves the position or follows the line shown. *)
Lemma menu_event (w1 : W) :
  w_mode w1 = MENU -> w_got_key_press w1 = true -> w_count w1 <> 0 -> 0 <= w_position w1 < 5 ->
  screen_ok (w_vc w1) ->
  exists v v', screen_ok v /\ screen_ok v' /\
    let r := menu_update_status (w_keyboard_packet w1) (w_position w1) (set_w_vc v w1) in
    event_handler a rand malloc polls w1 =
      Ok (mode_eqb (w_mode (snd r)) EXIT,
          set_w_vc v' (set_w_count (w_count (snd r) + 1) (set_w_position (fst r) (snd r)))).
Proof.
  intros Hm Hg Hc Hp Hv.
  destruct (show (draw_menu_graphics a (w_position w1)) w1) as (v & Hd & Hv1).
  { unfold draw_menu_graphics, SELECT_ONEPC, SELECT_TWOPC, SELECT_HOW_TO_PLAY, SELECT_LEADERBOARD, SELECT_EXIT.
    repeat case_match; try apply draws_id; apply draws_screen; auto; lia. }
  { exact Hv. }
  assert (Hframe : forall k e, w_vc (snd (menu_update_status k (w_position w1) (e : W))) = w_vc e).
  { intros k e. unfold menu_update_status. by repeat case_match. }
  set (r := menu_update_status (w_keyboard_packet w1) (w_position w1) (set_w_vc v w1)).
  destruct (event_handler_done w1 (set_w_count (w_count (snd r) + 1) (set_w_position (fst r) (snd r))))
    as (v' & He & Hv'); [| change (screen_ok (w_vc (snd r))); unfold r; by rewrite Hframe |].
  - unfold handle_mode. rewrite Hm. erewrite then_ok by exact Hd. unfold then_ at 1.
    change (w_count (set_w_vc v w1)) with (w_count w1). apply Z.eqb_neq in Hc. rewrite Hc.
    cbn [negb whenw]. change (w_got_key_press (set_w_vc v w1)) with (w_got_key_press w1). by rewrite Hg.
  - exists v, v'. split; [done |]. split; [done |]. exact He.
Qed.

Lemma menu_key k (w : W) :
  w_mode w = MENU -> w_count w <> 0 -> 0 <= w_position w < 5 -> screen_ok (w_vc w) ->
  exists v v', screen_ok v /\ screen_ok v' /\
    let w0 := set_w_vc v (set_w_keyboard_packet k (set_w_got_key_press true w)) in
    let r := menu_update_status k (w_position w) w0 in
    keystroke k w =
      Ok (mode_eqb (w_mode (snd r)) EXIT,
          set_w_vc v' (set_w_count (w_count (snd r) + 1) (set_w_position (fst r) (snd r)))).
Proof.
  intros Hm Hc Hp Hv. exact (menu_event (set_w_keyboard_packet k (set_w_got_key_press true w)) Hm eq_refl Hc Hp Hv).
Qed.

(** A screen with one handler for the keys. *)
Lemma screen_key k (w : W) f h :
  (forall w1, w_mode w1 = w_mode w -> w_nr w1 = w_nr w -> w_host_position w1 = w_host_position w ->
     handle_mode a rand malloc polls w1 = then_ (on_vc f) (on_flag w_got_key_press h) w1) ->
  draws f -> screen_ok (w_vc w) ->
  (forall v, screen_ok v ->
     let w0 := set_w_vc v (set_w_keyboard_packet k (set_w_got_key_press true w)) in
     exists w3, h w0 w0 = Ok w3 /\ screen_ok (w_vc w3)) ->
  exists v v' w3, screen_ok v /\ screen_ok v' /\
    (let w0 := set_w_vc v (set_w_keyboard_packet k (set_w_got_key_press true w)) in h w0 w0 = Ok w3) /\
    keystroke k w = Ok (mode_eqb (w_mode w3) EXIT, set_w_vc v' w3).
Proof.
  intros Hh Hf Hv Hk. set (w1 := set_w_keyboard_packet k (set_w_got_key_press true w)).
  destruct (show f w1 Hf Hv) as (v & Hd & Hv1). destruct (Hk v Hv1) as (w3 & Hr & Hv3).
  destruct (event_handler_done w1 w3) as (v' & He & Hv'); [| done |].
  - rewrite Hh by done. erewrite then_ok by exact Hd. by rewrite on_flag_set.
  - exists v, v', w3. auto.
Qed.

(** Digits typed so far on the screen of the rounds. *)
Record at_rounds (mp : bool) (s : list Z) (w : W) : Prop := {
  ar_mode : w_mode w = NUM_ROUNDS;
  ar_nr : nr_inv mp s (w_nr w);
  ar_screen : screen_ok (w_vc w)
}.

Lemma rounds_key mp s k (w : W) :
  at_rounds mp s w ->
  exists v v' n, screen_ok v /\ screen_ok v' /\
    let w0 := set_w_vc v (set_w_keyboard_packet k (set_w_got_key_press true w)) in
    let r := rounds_step a mp k (s, w0) in
    nr_inv mp (fst r) n /\
    keystroke k w = Ok (mode_eqb (w_mode (snd r)) EXIT, set_w_vc v' (set_w_nr n (snd r))).
Proof.
  intros [Hm Hn Hv].
  destruct (screen_key k w (draw_num_of_rounds_graphics a (w_nr w))
    (fun w0 => on_nr (number_of_rounds_update_status a (w_keyboard_packet w0))))
    as (v & v' & w3 & Hv1 & Hv' & Hh & Hk).
  - intros w1 Hm1 Hn1 _. unfold handle_mode. rewrite Hm1, Hm, Hn1. done.
  - eapply shows_draws, (shows_rounds a mp s); [done | exact Hn].
  - done.
  - intros v Hv1 w0. assert (Hv0 : screen_ok (menu_vc w0)) by exact Hv1.
    destruct (rounds_step_sim a mp s (w_nr w) k w0 Ha Hn Hv0) as (n & Hs & _).
    cbv beta. change (w_keyboard_packet w0) with k. unfold on_nr. change (w_nr w0) with (w_nr w). rewrite Hs.
    cbn [res_bind fst snd]. eexists. split; [done |]. exact (rounds_step_screen a mp s (w_nr w) k w0 Ha Hn Hv0).
  - exists v, v'. cbv zeta in Hh.
    set (w0 := set_w_vc v (set_w_keyboard_packet k (set_w_got_key_press true w))) in *.
    assert (Hv0 : screen_ok (menu_vc w0)) by exact Hv1.
    destruct (rounds_step_sim a mp s (w_nr w) k w0 Ha Hn Hv0) as (n & Hs & Hn').
    exists n. split; [done |]. split; [done |]. split; [exact Hn' |].
    revert Hh. change (w_keyboard_packet w0) with k. unfold on_nr. change (w_nr w0) with (w_nr w). rewrite Hs.
    cbn [res_bind fst snd]. intros Hw3. apply Ok_inj in Hw3. rewrite <- Hw3 in Hk. exact Hk.
Qed.

Lemma rounds_digits mp ds s (w : W) :
  Forall (fun c => is_numerical c = true) ds -> (length s + length ds <= 3)%nat -> at_rounds mp s w ->
  exists w', keystrokes ds w = Ok (false, w') /\ at_rounds mp (s ++ ds) w' /\ w_mp w' = w_mp w.
Proof.
  intros Hd. revert s w. induction Hd as [| c ds Hc Hds IH]; intros s w Hl Hw; cbn [keystrokes].
  { exists w. by rewrite app_nil_r. }
  destruct (rounds_key mp s (KeyPress c false) w Hw) as (v & v' & n & Hv & Hv' & Hn & Hk).
  pose proof Hc as Hc'. apply is_numerical_iff in Hc'.
  cbv zeta in Hn, Hk. unfold rounds_step in Hn, Hk. cbn [down key] in Hn, Hk.
  replace (c =? 10) with false in Hn, Hk by (symmetry; apply Z.eqb_neq; lia).
  rewrite Hc in Hn, Hk. cbn [length] in Hl.
  replace (zlen s <? 3) with true in Hn, Hk by (symmetry; apply Z.ltb_lt; unfold zlen; lia).
  cbn [fst snd] in Hn, Hk. rewrite Hk.
  assert (Hmode : w_mode (set_w_vc v (set_w_keyboard_packet (KeyPress c false) (set_w_got_key_press true w)))
                  = NUM_ROUNDS) by apply Hw.
  rewrite Hmode. cbn [res_bind fst snd].
  replace (s ++ c :: ds) with ((s ++ [c]) ++ ds) by (by rewrite <- app_assoc).
  destruct (IH (s ++ [c]) (set_w_vc v' (set_w_nr n
    (set_w_vc v (set_w_keyboard_packet (KeyPress c false) (set_w_got_key_press true w))))))
    as (w' & Hks & Hw' & Hmp); [rewrite length_app; cbn; lia | by constructor |]. by exists w'.
Qed.

(** The games the screen of the rounds starts. *)
Lemma started_alone n (w : W) :
  1 <= n ->
  exists g d, menu_reset_game n w = set_w_game g (set_w_dev d w) /\
    sim (simon_start n ((fst (g_rand w) mod 10) mod 2 =? 0)) g.
Proof.
  intros Hn. destruct (reset_game_sim n (w_game w) w Hn) as (g & Hr & Hs).
  exists g, (snd (rand (w_dev w))). split; [| exact Hs].
  unfold menu_reset_game, S_menus, world_menus, on_game. fold S_game. by rewrite Hr.
Qed.

Lemma started_host n (w : W) : menu_host_mp_game n w = set_w_mp (hosting n (w_mp w)) w.
Proof.
  unfold menu_host_mp_game, S_menus, world_menus, on_mp. fold S_mp. by rewrite run_host.
Qed.

(** The last Enter. *)
Lemma rounds_enter mp s (w : W) :
  at_rounds mp s w -> digits_value s <> 0 ->
  exists w', keystroke (KeyPress ENTER false) w = Ok (false, w') /\ screen_ok (w_vc w') /\
    if mp then w_mode w' = MP_GAME /\ w_mp w' = hosting (digits_value s) (w_mp w)
    else w_mode w' = GAME /\ exists vs, sim (simon_start (digits_value s) vs) (w_game w').
Proof.
  intros Hw Hs. destruct (rounds_key mp s (KeyPress ENTER false) w Hw) as (v & v' & n & _ & Hv' & Hn & Hk).
  pose proof (digits_value_bound s (nr_digits _ _ _ (ar_nr _ _ _ Hw))) as [Hpos _].
  cbv zeta in Hk. unfold rounds_step in Hk. cbn [down key] in Hk.
  change (ENTER =? 10) with true in Hk. apply Z.eqb_neq in Hs as Hs'. rewrite Hs' in Hk. cbn [fst snd] in Hk.
  set (w0 := set_w_vc v (set_w_keyboard_packet (KeyPress ENTER false) (set_w_got_key_press true w))) in Hk.
  destruct mp.
  - rewrite started_host in Hk. eexists. split; [exact Hk |]. done.
  - destruct (started_alone (digits_value s) (set_mode GAME w0)) as (g & d & Hg & Hsim); [lia |].
    rewrite Hg in Hk. eexists. split; [exact Hk |]. split; [done |]. split; [done |]. by eexists.
Qed.

(** The ways from the menu to the screen of the rounds. *)
Definition in_menu (w : W) : Prop :=
  w_mode w = MENU /\ w_position w = SELECT_ONEPC /\ w_host_position w = HOST_SELECT_HOST /\
  0 < w_count w /\ screen_ok (w_vc w).

Definition menu_keys (mp : bool) : list Z := if mp then [ch "s"; ENTER; ENTER] else [ENTER].

Lemma menu_down (w : W) :
  in_menu w ->
  exists w', keystroke (KeyPress (ch "s") false) w = Ok (false, w') /\ w_mode w' = MENU /\
    w_position w' = SELECT_TWOPC /\ w_host_position w' = HOST_SELECT_HOST /\ 0 < w_count w' /\
    screen_ok (w_vc w') /\ w_mp w' = w_mp w.
Proof.
  intros (Hm & Hp & Hh & Hc & Hv).
  destruct (menu_key (KeyPress (ch "s") false) w Hm) as (v & v' & _ & Hv' & Hk); [lia | by rewrite Hp | done |].
  cbv zeta in Hk. rewrite Hp in Hk. eexists. split; [rewrite Hk; f_equal; f_equal; exact (f_equal (fun m => mode_eqb m EXIT) Hm) |].
  split; [exact Hm |]. split; [done |]. split; [exact Hh |]. split; [change (0 < w_count w + 1); lia | done].
Qed.

Lemma menu_enter_host (w : W) :
  w_mode w = MENU -> w_position w = SELECT_TWOPC -> 0 < w_count w -> screen_ok (w_vc w) ->
  exists w', keystroke (KeyPress ENTER false) w = Ok (false, w') /\ w_mode w' = HOST /\
    w_host_position w' = w_host_position w /\ screen_ok (w_vc w') /\ w_mp w' = w_mp w.
Proof.
  intros Hm Hp Hc Hv.
  destruct (menu_key (KeyPress ENTER false) w Hm) as (v & v' & _ & Hv' & Hk); [lia | by rewrite Hp | done |].
  cbv zeta in Hk. rewrite Hp in Hk. eexists. split; [exact Hk |]. done.
Qed.

Lemma menu_enter_rounds (w : W) :
  in_menu w ->
  exists w', keystroke (KeyPress ENTER false) w = Ok (false, w') /\ at_rounds false [] w' /\ w_mp w' = w_mp w.
Proof.
  intros (Hm & Hp & _ & Hc & Hv).
  destruct (menu_key (KeyPress ENTER false) w Hm) as (v & v' & _ & Hv' & Hk); [lia | by rewrite Hp | done |].
  cbv zeta in Hk. rewrite Hp in Hk. eexists. split; [exact Hk |]. split; [| done].
  constructor; [done | apply reset_nr_inv | done].
Qed.

Lemma host_enter (w : W) :
  w_mode w = HOST -> w_host_position w = HOST_SELECT_HOST -> screen_ok (w_vc w) ->
  exists w', keystroke (KeyPress ENTER false) w = Ok (false, w') /\ at_rounds true [] w' /\ w_mp w' = w_mp w.
Proof.
  intros Hm Hh Hv.
  destruct (screen_key (KeyPress ENTER false) w (draw_host_graphics a (w_host_position w))
              (fun _ => on_host rand polls)) as (v & v' & w3 & _ & Hv' & Hr & Hk); [| | done | |].
  - intros w' Hm' _ Hh'. unfold handle_mode. by rewrite Hm', Hm, Hh'.
  - rewrite Hh. apply draws_screen; [done | lia].
  - intros v Hv1 w0. eexists. split; [done |]. change (w_host_position w0) with (w_host_position w). by rewrite Hh.
  - cbv zeta in Hr. set (w0 := set_w_vc v _) in Hr. unfold on_host in Hr.
    change (w_host_position w0) with (w_host_position w) in Hr. rewrite Hh in Hr.
    apply Ok_inj in Hr. rewrite <- Hr in Hk.
    eexists. split; [exact Hk |]. split; [| done]. constructor; [done | apply reset_nr_inv | done].
Qed.

Lemma menu_rounds mp (w : W) :
  in_menu w ->
  exists w', keystrokes (menu_keys mp) w = Ok (false, w') /\ at_rounds mp [] w' /\ w_mp w' = w_mp w.
Proof.
  intros Hw. destruct mp; cbn [menu_keys keystrokes].
  - destruct (menu_down w Hw) as (w1 & -> & Hm1 & Hp1 & Hh1 & Hc1 & Hv1 & Hmp1). cbn [res_bind fst snd].
    destruct (menu_enter_host w1 Hm1 Hp1 Hc1 Hv1) as (w2 & -> & Hm2 & Hh2 & Hv2 & Hmp2). cbn [res_bind fst snd].
    destruct (host_enter w2 Hm2) as (w3 & -> & Hw3 & Hmp3); [congruence | done |]. cbn [res_bind fst snd].
    exists w3. split; [done |]. split; [done | congruence].
  - destruct (menu_enter_rounds w Hw) as (w1 & -> & H1 & Hmp1). by exists w1.
Qed.

Lemma keystrokes_app ks1 ks2 (w w' : W) :
  keystrokes ks1 w = Ok (false, w') -> keystrokes (ks1 ++ ks2) w = keystrokes ks2 w'.
Proof.
  revert w. induction ks1 as [| k ks1 IH]; intros w; cbn [keystrokes app]; [by intros [= ->] |].
  destruct (keystroke (KeyPress k false) w) as [[e w1] |]; [| done]. cbn [res_bind fst snd].
  destruct e; [done | apply IH].
Qed.

Lemma menu_starts mp ds (w : W) :
  in_menu w -> Forall (fun c => is_numerical c = true) ds -> (length ds <= 3)%nat -> digits_value ds <> 0 ->
  exists w', keystrokes (menu_keys mp ++ ds ++ [ENTER]) w = Ok (false, w') /\ screen_ok (w_vc w') /\
    if mp then w_mode w' = MP_GAME /\ w_mp w' = hosting (digits_value ds) (w_mp w)
    else w_mode w' = GAME /\ exists vs, sim (simon_start (digits_value ds) vs) (w_game w').
Proof.
  intros Hw Hd Hl Hn. destruct (menu_rounds mp w Hw) as (w1 & Hk1 & Hw1 & Hmp1).
  destruct (rounds_digits mp ds [] w1 Hd Hl Hw1) as (w2 & Hk2 & Hw2 & Hmp2).
  destruct (rounds_enter mp ds w2 Hw2 Hn) as (w3 & Hk3 & Hv3 & Hw3).
  exists w3. rewrite (keystrokes_app _ _ _ _ Hk1), (keystrokes_app _ _ _ _ Hk2). cbn [keystrokes].
  rewrite Hk3. split; [done |]. split; [done |]. destruct mp; [| done]. by rewrite <- Hmp1, <- Hmp2.
Qed.
End Session.

(** ** Properties *)

(** When the program starts: the statics are zero, the images loaded. *)
Definition world_start {D} (v : vc) (l : lb) (d : D) : world D :=
  World MENU 0 0 (Nr no_box 0 false) gst_init Mp.mst_init hs_init l gdraw_init Mp.mdraw_init v kbd_init mdrv_init 0
    (KeyPress 0 false) (Packet (0, 0, 0) false false false 0 0 false false) 0 false false false false false 0 0 d.



#[export] Instance no_delay : Delay unit := {| tickdelay := fun d => (tt, d) |}.

(** A kernel that accepts every subscription. *)
#[export] Instance no_irqs : Irqs unit := {|
  sys_irqsetpolicy := fun _ _ hook_id d => ((0, hook_id), d);
  sys_irqrmpolicy := fun _ d => (0, d);
  sys_irqenable := fun _ d => (0, d);
  sys_irqdisable := fun _ d => (0, d)
|}.

(** What precedes and follows the loop. *)
Lemma run_start_keeps {D} `{Ports D, Delay D, Irqs D} (w : world D) :
  let w' := snd (run_start w) in w_mode w' = MENU /\ w_kbd w' = w_kbd w /\ w_lb w' = w_lb w.
Proof.
  unfold run_start. cbn [snd]. match goal with |- context [if ?b then _ else _] => destruct b end; done.
Qed.

Lemma run_stop_dev {D} `{Irqs D} h (w : world D) : exists d, run_stop h w = set_w_dev d w.
Proof. eexists. reflexivity. Qed.

Lemma run_inv {D} `{Ports D, Delay D, Irqs D} a rand malloc polls v ms (w : world D) b w' :
  set_vbe_mode (sys_int86 v) VBE_MODE = 0 -> run a rand malloc polls v ms w = Ok (b, w') ->
  exists w1, run_loop a rand malloc polls ms (snd (run_start (set_w_vc (mode_vc v) w))) = Ok (b, w1) /\
    exists d, w' = set_w_dev d w1.
Proof.
  intros Hv. unfold run. rewrite Hv. cbn [Z.eqb]. set (s := run_start _). clearbody s.
  destruct (run_loop _ _ _ _ ms (snd s)) as [[e w1] |]; [| discriminate]. cbn [res_bind fst snd].
  intros Hr. apply Ok_inj in Hr. destruct e; injection Hr as <- <-; exists w1; split; [done | | done |].
  - apply run_stop_dev.
  - exists (w_dev w1). by destruct w1.
Qed.


(** Images of the size of a small screen, to evaluate runs. *)
Definition assets1 : assets := Assets (replicate 26 (Xpm 2 4 3 (replicate 24 5))) images0 (fun _ => 456).
Definition video1 : video :=
  Video (fun _ => ModeInfo 4 3 16) (fun n => replicate (Z.to_nat n) 7) (fun n => replicate (Z.to_nat n) 9) (fun _ => 0).

(** One interrupt of the timer, then the release of ESC. *)
Definition esc_run : list message := [Hardware (BIT TIMER0_IRQ); Hardware (BIT KBD_IRQ)].




Lemma latch_keyboard {D} `{Ports D} (w : world D) :
  latch_irqs (BIT KBD_IRQ) w =
  Ok (uart_irq false (rtc_irq false (set_w_timer_interrupt false (set_w_got_mouse_packet false (keyboard_irq true w))))).
Proof. reflexivity. Qed.

(** The handler of a prefix byte that follows a complete scancode. *)
Lemma prefix_handler {D} `{Ports D} (k : kbd) (d d1 d2 : D) indet :
  assemblied_word k = true -> inb KBC_STAT_REG d = (1, d1) -> inb KBC_OUT_BUF d1 = (TWO_BYTE_SCANCODE_PREFIX, d2) ->
  exists k', keyboard_handler indet k d = ((true, None, k'), d2) /\ assemblied_word k' = false /\
    scancode_is_esc_break k' = false.
Proof.
  intros Hw H1 H2. unfold keyboard_handler, kbc_ih, st_bind. rewrite H1. cbn [fst snd].
  change (flag 1 0) with true. cbn iota. rewrite H2. cbn [fst snd st_ret].
  unfold keyboard_feed, keyboard_get_scancode. cbn [kbc_ih_err kbc_ih_obf kbc_ih_output assemblied_word bytes].
  rewrite Hw. change (truth (Z.land 1 (Z.lor (BIT 7) (BIT 6)))) with false. cbn. eexists. done.
Qed.

(** A key can act twice: the prefix byte of the next key (an arrow) makes
    [keyboard_handler] return true before that key is known, so the handlers get
    the key press of the last message again.  In the menu, the selection moves
    once more in the direction of the key released before. *)
Theorem prefix_replays_key {D} `{Ports D} a rand malloc polls (w : world D) d1 d2 :
  assets_ok a -> w_mode w = MENU -> w_count w <> 0 -> 0 <= w_position w < 5 -> screen_ok (w_vc w) ->
  assemblied_word (w_kbd w) = true -> key (w_keyboard_packet w) <> 10 ->
  inb KBC_STAT_REG (w_dev w) = (1, d1) -> inb KBC_OUT_BUF d1 = (TWO_BYTE_SCANCODE_PREFIX, d2) ->
  exists w', run_message a rand malloc polls (Hardware (BIT KBD_IRQ)) w = Ok (false, w') /\
    w_keyboard_packet w' = w_keyboard_packet w /\ w_mode w' = MENU /\
    w_position w' = (w_position w + moves [w_keyboard_packet w]) mod 5.
Proof.
  intros Ha Hm Hc Hp Hv Hw Hkey H1 H2. destruct (prefix_handler (w_kbd w) (w_dev w) d1 d2 0 Hw H1 H2) as (k' & Hk & _).
  set (w1 := uart_irq false (rtc_irq false (set_w_timer_interrupt false
               (set_w_got_mouse_packet false (set_w_kbd k' (set_w_got_key_press true (set_w_dev d2 w))))))).
  assert (Hrun : run_message a rand malloc polls (Hardware (BIT KBD_IRQ)) w =
                 event_handler a rand malloc polls w1).
  { cbn [run_message]. rewrite latch_keyboard. cbn [res_bind]. unfold keyboard_irq, on_dev. rewrite Hk. done. }
  destruct (menu_event a rand malloc polls Ha w1 Hm eq_refl Hc Hp Hv) as (v & v' & _ & _ & He).
  change (w_keyboard_packet w1) with (w_keyboard_packet w) in He.
  change (w_position w1) with (w_position w) in He.
  pose proof (menu_navigates (E := world D) (H := S_menus rand polls) [w_keyboard_packet w] (w_position w) (set_w_vc v w1) Hp
                ltac:(by constructor)) as Hnav.
  unfold run_keys in Hnav. cbn [fold_left fst snd] in Hnav. cbv zeta in He.
  rewrite Hnav in He. cbn [fst snd] in He. rewrite Hrun, He.
  change (w_mode (set_w_vc v w1)) with (w_mode w). rewrite Hm. eexists. split; [done |]. done.
Qed.

Lemma prefix_replays_key_witness :
  exists w', @run_message unit (fixed_ports 1 TWO_BYTE_SCANCODE_PREFIX) assets0 (fun d => (0, d)) (fun n => []) 1
      (Hardware (BIT KBD_IRQ))
      (set_w_keyboard_packet (KeyPress (ch "s") false) (set_w_kbd kbd_ready (set_w_count 1 (world_start frame0 lb0 tt))))
    = Ok (false, w') /\ w_position w' = 1.
Proof.
  destruct (@prefix_replays_key unit (fixed_ports 1 TWO_BYTE_SCANCODE_PREFIX) assets0 (fun d => (0, d)) (fun n => []) 1
      (set_w_keyboard_packet (KeyPress (ch "s") false) (set_w_kbd kbd_ready (set_w_count 1 (world_start frame0 lb0 tt))))
      tt tt assets0_ok eq_refl ltac:(discriminate) ltac:(cbn; lia) frame0_ok eq_refl ltac:(discriminate) eq_refl eq_refl)
    as (w' & Hr & _ & _ & Hpos).
  exists w'. split; [exact Hr | exact Hpos].
Defined.
