(* ===== verification/Run1.v ===== *)
(** [run1] of [simon.c], an earlier main loop that nothing calls: the serial port,
    the keyboard and the mouse, with the frames of [event_handler]. *)

From stdpp Require Import base tactics list.
From Stdlib Require Import ZArith Lia Ascii.
From S2P Require Import Prelude Consts Ports Rtc Uart Keyboard Mouse NumLetters Vc Screen CString.
From S2P Require Import Leaderboard Highscore Menus Pad Game MpGame Simon SimonProps Session.

Section Run1.
Context {D : Type} `{PD : Ports D} `{DD : Delay D} `{ID : Irqs D}.
Variable a : assets.
Variable rand : D -> Z * D.
Variable malloc : Z -> list Z.
Variable polls : nat.
#[local] Abbreviation W := (world D).

Record hooks1 := Hooks1 { h1_uart : subscription; h1_kbd : subscription; h1_mouse : subscription }.

(** The part before the loop. *)
Definition run1_start (w : W) : hooks1 * W :=
  let u := on_dev uart_subscribe w in
  let k := on_dev keyboard_subscribe (snd u) in
  let m := on_dev mouse_subscribe (snd k) in
  let w := snd (on_dev enable_received_data_int (snd m)) in
  let w := snd (on_dev enable_trans_empty_int w) in
  (Hooks1 (fst u) (fst k) (fst m), w).

(** The packet is a new variable each time, read whether or not the handler has
    stored one in it. *)
Definition run1_mouse (set : bool) (w : W) : res W :=
  if set then
    let r := on_dev (mouse_handler (w_mdrv w)) w in
    res_bind (fst r) (fun pm =>
      let w := set_w_mdrv (snd pm) (snd r) in
      match fst pm with
      | None => Undef Uninitialised
      | Some apacket => Ok (if Mouse.lb apacket then snd (on_dev (serial_write_byte (ch "a")) w) else w)
      end)
  else Ok w.

(** An interrupt of the serial port is not handled. *)
Definition run1_irqs (interrupts : Z) (w : W) : res W :=
  run1_mouse (flag interrupts MOUSE_IRQ) (keyboard_irq (flag interrupts KBD_IRQ) w).

Definition run1_message (m : message) (w : W) : res (bool * W) :=
  match m with
  | ReceiveFailed | NotHardware => Ok (false, w)
  | Hardware interrupts => res_bind (run1_irqs interrupts w) (event_handler a rand malloc polls)
  end.

Fixpoint run1_loop (ms : list message) (w : W) : res (bool * W) :=
  match ms with
  | [] => Ok (false, w)
  | m :: ms =>
      res_bind (run1_message m w) (fun r =>
        if negb (scancode_is_esc_break (w_kbd (snd r))) && negb (fst r) then run1_loop ms (snd r)
        else Ok (true, snd r))
  end.

(** The part after it: the two registers are read to be printed. *)
Definition run1_stop (h : hooks1) (w : W) : W :=
  let w := snd (on_dev (keyboard_unsubscribe (notification (h1_kbd h))) w) in
  let w := snd (on_dev (mouse_unsubscribe (notification (h1_mouse h))) w) in
  let w := snd (on_dev check_buffer w) in
  let w := snd (on_dev check_thr_emtpy w) in
  snd (on_dev (uart_unsubscribe (notification (h1_uart h))) w).

(** The result says whether the loop has ended. *)
Definition run1 (ms : list message) (w : W) : res (bool * W) :=
  let s := run1_start w in
  res_bind (run1_loop ms (snd s)) (fun r => Ok (if fst r then (true, run1_stop (fst s) (snd r)) else r)).

(** ** The packet that is not there *)

(** A byte completes a packet only as its third. *)
Lemma mouse_feed_early k p k' : m_count k < 2 -> mouse_feed k = Ok (Some p, k') -> False.
Proof.
  intros Hk. unfold mouse_feed. destruct (m_err k || _ || _); [done |]. destruct (store_byte _ _ _); [| done].
  destruct (negb _); [done |]. replace (m_count k + 1 <? 3) with true by (symmetry; apply Z.ltb_lt; lia). done.
Qed.

Lemma keyboard_irq_mdrv set (w : W) : w_mdrv (keyboard_irq set w) = w_mdrv w.
Proof.
  unfold keyboard_irq. destruct set; [| done]. unfold on_dev. cbn [fst snd].
  destruct (keyboard_handler 0 (w_kbd w) (w_dev w)) as [[[got k] kb] d]. cbn [fst snd]. by destruct k.
Qed.

(** An interrupt of the mouse that does not bring the third byte of a packet
    reads a packet that was never stored; the first one of a run never does. *)
Theorem run1_mouse_undefined i (w : W) :
  0 <= m_count (w_mdrv w) < 2 -> flag i MOUSE_IRQ = true -> run1_message (Hardware i) w = Undef Uninitialised.
Proof.
  intros Hc Hi. cbn [run1_message]. unfold run1_irqs. rewrite Hi.
  pose proof (keyboard_irq_mdrv (flag i KBD_IRQ) w) as Hm. set (w1 := keyboard_irq _ w) in *. clearbody w1.
  rewrite <- Hm in Hc. unfold run1_mouse, on_dev, mouse_handler. cbn [fst snd].
  set (k := fst (mouse_get_state (w_mdrv w1) (w_dev w1))).
  assert (Hk : m_count k = m_count (w_mdrv w1)) by reflexivity. clearbody k.
  destruct (mouse_feed k) as [[[p |] k'] | u] eqn:Hf; cbn [res_bind fst snd].
  - exfalso. apply (mouse_feed_early k p k'); [lia | exact Hf].
  - done.
  - exfalso. unfold mouse_feed in Hf. destruct (m_err k || _ || _); [done |].
    assert (Hs : is_Some (store_byte (m_bytes k) (m_count k) (m_output k))).
    { unfold store_byte. destruct (m_bytes k) as [[b0 b1] b2].
      destruct (m_count k =? 0) eqn:E0; [by eexists |]. destruct (m_count k =? 1) eqn:E1; [by eexists |]. unbool. lia. }
    destruct Hs as [bs Hs]. rewrite Hs in Hf. by repeat case_match.
Qed.
End Run1.

Lemma run1_mouse_undefined_witness :
  @run1_message unit (fixed_ports 33 8) assets0 (fun d => (0, d)) (fun _ => []) 1 (Hardware (BIT MOUSE_IRQ))
    (world_start frame0 lb0 tt) = Undef Uninitialised.
Proof. apply run1_mouse_undefined; [cbn; lia | reflexivity]. Defined.
