(* ===== verification/Safety.v ===== *)
(** The whole program within the defined behaviour of C: an invariant of the
    store, and where alone a run leaves it. *)

From stdpp Require Import base tactics list.
From Stdlib Require Import ZArith Lia Ascii.
From S2P Require Import Prelude Consts Ports Rtc Uart Timer Keyboard Mouse NumLetters Vc Screen CString.
From S2P Require Import Leaderboard Highscore Menus Pad Game Says GameProps MpGame MpLink MpNet MpSafe.
From S2P Require Import Simon SimonProps Session.

Section Safety.
Context {D : Type} `{PD : Ports D} `{DD : Delay D} `{ID : Irqs D}.
Variable a : assets.
Variable rand : D -> Z * D.
Variable malloc : Z -> list Z.
Variable polls : nat.
#[local] Abbreviation W := (world D).
#[local] Instance F_highscore : HighscoreEnv W := world_highscore polls.
#[local] Instance F_highscore_laws : HighscoreLaws W := world_highscore_laws polls.
#[local] Instance F_game : GameEnv W := world_game rand polls.
#[local] Instance F_mp : MpEnv W := world_mp polls.
#[local] Instance F_menus : MenusEnv W := world_menus rand polls.
#[local] Instance F_menus_laws : MenusLaws W := world_menus_laws rand polls.

(** ** The invariant *)

(** In every mode. *)
Record base_ok (w : W) : Prop := {
  bo_screen : screen_ok (w_vc w);
  bo_table : lb_good (w_lb w);
  bo_name : name_ok (w_hs w);
  bo_position : 0 <= w_position w < MENU_NUM_SELECTIONS;
  bo_host : 0 <= w_host_position w < HOST_NUM_SELECTIONS;
  bo_gdraw : gdraw_ok a (w_gdraw w);
  bo_mouse : 0 <= m_count (w_mdrv w) <= 2;
  bo_mdraw : mdraw_ok a (w_mdraw w);
  bo_mp : mp_ok (w_mp w);
  bo_byte : 0 <= w_data_packet w < 256
}.

Definition typing_name (h : hs) : Prop := exists old s, hs_inv old s h.
Definition typing_rounds (n : nr) : Prop := exists mp s, nr_inv mp s n.
Definition game_of (n : Z) (g : gst) : Prop := exists s, sim s g /\ simon_inv n s.

(** The statics of the screen that is shown. *)
Definition mode_ok (w : W) : Prop :=
  match w_mode w with
  | NUM_ROUNDS => typing_rounds (w_nr w)
  | GAME => exists n, n <= 999 /\ game_of n (w_game w)
  | HIGHSCORE => typing_name (w_hs w)
  | _ => True
  end.

Definition safe (w : W) : Prop := base_ok w /\ mode_ok w.

(** ** What keeps it *)

Definition keeps_base (w w' : W) : Prop := base_ok w -> base_ok w'.

#[local] Instance keeps_base_preorder : PreOrder keeps_base.
Proof. split; [intros w Hw; exact Hw |]. intros x y z Hxy Hyz Hx. by apply Hyz, Hxy. Qed.

Ltac base := intros []; constructor; assumption.

Lemma dev_base {A} (m : ST D A) w : keeps_base w (snd (on_dev m w)).
Proof. base. Qed.
Lemma devices_base d w : keeps_base w (set_w_dev d w).
Proof. base. Qed.
Lemma mode_base m w : keeps_base w (set_w_mode m w).
Proof. base. Qed.
Lemma game_base g w : keeps_base w (set_w_game g w).
Proof. base. Qed.
Lemma mp_base g w : mp_ok g -> keeps_base w (set_w_mp g w).
Proof. intros Hg. base. Qed.
Lemma mdraw_base d w : mdraw_ok a d -> keeps_base w (set_w_mdraw d w).
Proof. intros Hd. base. Qed.
Lemma nr_base n w : keeps_base w (set_w_nr n w).
Proof. base. Qed.
Lemma count_base n w : keeps_base w (set_w_count n w).
Proof. base. Qed.
Lemma vc_base v w : screen_ok v -> keeps_base w (set_w_vc v w).
Proof. intros Hv. base. Qed.
Lemma lb_base l w : lb_good l -> keeps_base w (set_w_lb l w).
Proof. intros Hl. base. Qed.
Lemma hs_base h w : name_ok h -> keeps_base w (set_w_hs h w).
Proof. intros Hh. base. Qed.
Lemma gdraw_base d w : gdraw_ok a d -> keeps_base w (set_w_gdraw d w).
Proof. intros Hd. base. Qed.
Lemma position_base p w : 0 <= p < MENU_NUM_SELECTIONS -> keeps_base w (set_w_position p w).
Proof. intros Hp. base. Qed.
Lemma host_base p w : 0 <= p < HOST_NUM_SELECTIONS -> keeps_base w (set_w_host_position p w).
Proof. intros Hp. base. Qed.

Lemma typing_name_ok h : typing_name h -> name_ok h.
Proof.
  intros (old & s & Hi). split; [apply Hi |]. destruct (inv_player _ _ _ Hi) as (r & Hr).
  exists (old ++ s), r. split; [exact Hr | apply Hi].
Qed.

Lemma name_typing h : name_ok h -> typing_name (create_name_box h).
Proof. intros (Hl & name & r & Hp & Hc). exists name, []. by apply (create_inv name r). Qed.

Lemma safe_vc v w : screen_ok v -> safe w -> safe (set_w_vc v w).
Proof. intros Hv [Hb Hm]. split; [by apply vc_base | exact Hm]. Qed.

(** During a game of mode [m], and after it; [reset_hiscore] starts the entry of
    the name. *)
Definition in_play (m : Game_Modes) (w : W) : Prop :=
  base_ok w /\ (w_mode w = m \/ w_mode w = LEADERBOARD \/ w_mode w = HIGHSCORE /\ typing_name (w_hs w)).

Lemma reset_hiscore_run n (w : W) :
  on_hs (reset_hiscore n) w =
    Ok (set_w_hs (create_name_box (w_hs w)) (set_w_lb (set_winner_score n (w_lb w)) w)).
Proof. reflexivity. Qed.

Lemma score_good n l : lb_good l -> 0 <= n <= 999 -> lb_good (set_winner_score n l).
Proof. intros (Hs & (H1 & H2 & H3 & _) & Hl) Hn. split; [exact Hs |]. split; [by split | exact Hl]. Qed.

Lemma low_reads w : base_ok w -> is_ok (getLowestHiScore (w_lb w)) = true.
Proof.
  intros Hb. destruct (lb_five (w_lb w) (proj1 (bo_table w Hb))) as (x1 & x2 & x3 & x4 & x5 & Hl).
  unfold getLowestHiScore, score_at, entry. by rewrite Hl.
Qed.

Lemma hiscore_play m n w :
  base_ok w -> 0 <= n <= 999 ->
  exists w', on_hs (reset_hiscore n) (set_w_mode HIGHSCORE w) = Ok w' /\ in_play m w'.
Proof.
  intros Hb Hn. eexists. split; [apply reset_hiscore_run |].
  pose proof (name_typing _ (bo_name w Hb)) as Ht. split; [| by right; right].
  apply hs_base; [by apply typing_name_ok |]. apply lb_base; [| by apply mode_base].
  apply score_good; [apply Hb | exact Hn].
Qed.

#[local] Instance world_game_safe : GameSafeOn (in_play GAME) 999.
Proof.
  constructor.
  - intros w [Hb _]. split; [by apply mode_base | right; by left].
  - intros s w [Hb Hm]. split; [by apply dev_base | exact Hm].
  - intros w [Hb Hm]. split; [by apply dev_base | exact Hm].
  - intros w [Hb Hm]. split; [by apply dev_base | exact Hm].
  - intros w [Hb _]. exact (low_reads w Hb).
  - intros n w [Hb _]. by apply hiscore_play.
Qed.

#[local] Instance world_mp_safe : MpSafeOn (in_play MP_GAME) 999.
Proof.
  constructor.
  - intros w [Hb _]. split; [by apply mode_base | right; by left].
  - intros s w [Hb Hm]. split; [by apply dev_base | exact Hm].
  - intros w [Hb Hm]. split; [by apply dev_base | exact Hm].
  - intros w [Hb Hm]. split; [by apply dev_base | exact Hm].
  - intros b w [Hb Hm]. split; [by apply dev_base | exact Hm].
  - intros w [Hb _]. exact (low_reads w Hb).
  - intros n w [Hb _]. by apply hiscore_play.
Qed.

(** ** Sequences of events

    The events of a message, handled one after the other: [bad] ones apart, each
    keeps [ok] or faults as [wrong] says. *)
Section Sequence.
Context {Ev : Type} (play : Ev -> W -> res W).

Fixpoint plays (evs : list Ev) (w : W) : res W :=
  match evs with
  | [] => Ok w
  | ev :: evs => then_ (play ev) (plays evs) w
  end.

(** The first events run, and the next is such that [P]. *)
Definition comes_to (evs : list Ev) (w : W) (P : Ev -> W -> Prop) : Prop :=
  exists evs1 ev evs2 w1, evs = evs1 ++ ev :: evs2 /\ plays evs1 w = Ok w1 /\ P ev w1.

Lemma comes_to_cons ev evs w w1 P : play ev w = Ok w1 -> comes_to evs w1 P -> comes_to (ev :: evs) w P.
Proof.
  intros Hp (evs1 & ev' & evs2 & w2 & -> & Hr & HP). exists (ev :: evs1), ev', evs2, w2. split; [done |].
  split; [| done]. cbn [plays]. unfold then_. by rewrite Hp.
Qed.

Context (bad : Ev -> W -> bool) (wrong : Ev -> W -> option ub_kind) (ok : W -> Prop).
Hypothesis play_ok : forall ev w, ok w -> bad ev w = false ->
  match wrong ev w with
  | Some u => play ev w = Undef u
  | None => exists w', play ev w = Ok w' /\ ok w'
  end.

Lemma plays_ok evs w :
  ok w ->
  (exists w', plays evs w = Ok w' /\ ok w') \/
  (exists u, plays evs w = Undef u /\ comes_to evs w (fun ev w => wrong ev w = Some u)) \/
  comes_to evs w (fun ev w => bad ev w = true).
Proof.
  revert w. induction evs as [| ev evs IH]; intros w Hw; [left; by exists w |].
  destruct (bad ev w) eqn:Hbad; [right; right; by exists [], ev, evs, w |].
  cbn [plays]. unfold then_. pose proof (play_ok ev w Hw Hbad) as Hp. destruct (wrong ev w) as [u |] eqn:Hf.
  { right. left. exists u. rewrite Hp. split; [done |]. by exists [], ev, evs, w. }
  destruct Hp as (w1 & Hp & Hw1). rewrite Hp. cbn [res_bind].
  destruct (IH w1 Hw1) as [Hok | [(u & Hu & Hc) | Hc]]; [by left | right; left | right; right].
  - exists u. split; [exact Hu |]. by eapply comes_to_cons.
  - by eapply comes_to_cons.
Qed.

Lemma plays_wrong evs w u :
  ok w -> ~ comes_to evs w (fun ev w => bad ev w = true) ->
  comes_to evs w (fun ev w => wrong ev w = Some u) -> plays evs w = Undef u.
Proof.
  intros Hw Hnb (evs1 & ev & evs2 & w1 & -> & Hr & Hf). revert w Hw Hnb Hr.
  induction evs1 as [| ev1 evs1 IH]; intros w Hw Hnb Hr; cbn [plays app] in *; unfold then_ in *.
  - apply Ok_inj in Hr. subst w1. destruct (bad ev w) eqn:Hbad; [exfalso; apply Hnb; by exists [], ev, evs2, w |].
    pose proof (play_ok ev w Hw Hbad) as Hp. rewrite Hf in Hp. by rewrite Hp.
  - destruct (bad ev1 w) eqn:Hbad; [exfalso; apply Hnb; by exists [], ev1, (evs1 ++ ev :: evs2), w |].
    pose proof (play_ok ev1 w Hw Hbad) as Hp. destruct (wrong ev1 w); [by rewrite Hp in Hr |].
    destruct Hp as (w2 & Hp & Hw2). rewrite Hp in Hr |- *. cbn [res_bind] in *. apply IH; [done | | done].
    intros Hc. apply Hnb. by eapply comes_to_cons.
Qed.
End Sequence.

(** The handlers do not touch the flags and the packets of the message. *)
Definition inputs (w : W) :=
  (w_got_key_press w, w_keyboard_packet w, w_got_mouse_packet w, w_mouse_packet w, w_timer_interrupt w,
   w_rtc_interrupt w, (w_uart_interrupt w, w_data_packet w, w_uart_type w)).
Definition inputs_kept (w w' : W) : Prop := inputs w' = inputs w.

#[local] Instance inputs_kept_preorder : PreOrder inputs_kept.
Proof. split; [intros w; reflexivity |]. intros x y z Hxy Hyz. exact (eq_trans Hyz Hxy). Qed.

Lemma inputs_fields w w' :
  inputs_kept w w' ->
  (w_got_key_press w' = w_got_key_press w /\ w_keyboard_packet w' = w_keyboard_packet w) /\
  (w_got_mouse_packet w' = w_got_mouse_packet w /\ w_mouse_packet w' = w_mouse_packet w) /\
  w_timer_interrupt w' = w_timer_interrupt w /\ w_rtc_interrupt w' = w_rtc_interrupt w /\
  w_uart_interrupt w' = w_uart_interrupt w /\ w_data_packet w' = w_data_packet w /\ w_uart_type w' = w_uart_type w.
Proof. unfold inputs_kept, inputs. intros Hw'. injection Hw' as -> -> -> -> -> -> -> -> ->. by split_and!. Qed.

Lemma reset_hiscore_inputs n e e' : on_hs (reset_hiscore n) e = Ok e' -> inputs_kept e e'.
Proof. rewrite reset_hiscore_run. intros Hr. apply Ok_inj in Hr. by rewrite <- Hr. Qed.

Lemma flag_plays {Ev} (play : Ev -> W -> res W) flag (f : W -> W -> res W) ev rest evs w0 w :
  (forall ev w w', play ev w = Ok w' -> inputs_kept w w') ->
  inputs_kept w0 w -> (forall w, inputs_kept w0 w -> flag w = flag w0) -> f w = play ev ->
  (forall w, inputs_kept w0 w -> rest w = plays play evs w) ->
  then_ (on_flag flag f) rest w = plays play ((if flag w0 then [ev] else []) ++ evs) w.
Proof.
  intros Hplay Hw Hflag Hf Hrest. unfold then_ at 1, on_flag, whenw. rewrite (Hflag w Hw), Hf.
  destruct (flag w0); cbn [app plays]; [| exact (Hrest w Hw)].
  unfold then_. destruct (play ev w) as [w1 |] eqn:Hp; [| done]. cbn [res_bind].
  apply Hrest. transitivity w; [done | by eapply Hplay].
Qed.

Lemma then_Ok f (w : W) : then_ f Ok w = f w.
Proof. unfold then_. by destruct (f w). Qed.

(** ** The game on one computer *)

Definition play (ev : event) : W -> res W := on_game (game_event ev).

(** The events of a message, in the order of [event_handler]. *)
Definition game_events (w : W) : list event :=
  (if w_got_key_press w then [EKey (w_keyboard_packet w)] else []) ++
  (if w_got_mouse_packet w then [EMouse (w_mouse_packet w)] else []) ++
  (if w_timer_interrupt w then [ETimer] else []) ++
  (if w_rtc_interrupt w then [ETick] else []).

Definition playing (n : Z) (w : W) : Prop := in_play GAME w /\ game_of n (w_game w).

Lemma play_safe n ev w :
  n <= 999 -> playing n w ->
  match faulty ev (w_game w) with
  | Some u => play ev w = Undef u
  | None => exists w', play ev w = Ok w' /\ playing n w'
  end.
Proof.
  intros Hn [Hw (s & Hs & Hi)]. pose proof (event_safe (in_play GAME) 999 ev s (w_game w) w n Hs Hi Hn Hw) as Hev.
  unfold play, on_game. destruct (faulty ev (w_game w)); [by rewrite Hev |].
  destruct Hev as (g & w1 & s' & Hr & Hs' & Hi' & [Hb Hm]). rewrite Hr. cbn [res_bind fst snd].
  eexists. split; [done |]. split; [split; [by apply game_base | exact Hm] |]. by exists s'.
Qed.

Lemma play_inputs ev w w' : play ev w = Ok w' -> inputs_kept w w'.
Proof.
  assert (Hs : steps inputs_kept (game_event ev)).
  { destruct ev; cbn [game_event];
      [apply game_mouse_steps | apply game_rtc_steps | apply game_key_steps | apply game_timer_steps];
      first [exact reset_hiscore_inputs | exact _ | intros; reflexivity]. }
  unfold play, on_game. destruct (game_event ev (w_game w, w)) as [[[] [g w1]] |] eqn:Hr; [| done].
  cbn [res_bind fst snd]. intros Hw'. apply Ok_inj in Hw'. rewrite <- Hw'. exact (Hs _ _ _ Hr).
Qed.

(** The case of the mode [GAME] after the drawing. *)
Lemma handle_game w w1 :
  w_mode w = GAME -> draw_game a w = Ok w1 -> inputs_kept w w1 ->
  handle_mode a rand malloc polls w = plays play (game_events w) w1.
Proof.
  intros Hm Hd Hk. unfold handle_mode. rewrite Hm. rewrite (then_ok _ _ _ _ Hd).
  apply (flag_plays play _ _ (EKey (w_keyboard_packet w))); [exact play_inputs | done | by intros w' [[? _] _]%inputs_fields
    | by destruct (inputs_fields _ _ Hk) as [[_ ->] _] |].
  intros w2 H2. apply (flag_plays play _ _ (EMouse (w_mouse_packet w))); [exact play_inputs | done
    | by intros w' (_ & [? _] & _)%inputs_fields | by destruct (inputs_fields _ _ H2) as (_ & [_ ->] & _) |].
  intros w3 H3. apply (flag_plays play _ _ ETimer); [exact play_inputs | done | by intros w' (_ & _ & ? & _)%inputs_fields | reflexivity |].
  intros w4 H4. rewrite <- then_Ok, <- (app_nil_r (if w_rtc_interrupt w then [ETick] else [])).
  apply (flag_plays play _ _ ETick); [exact play_inputs | done | by intros w' (_ & _ & _ & ? & _)%inputs_fields | reflexivity |]. done.
Qed.

(** ** The game on two computers *)

Definition mp_play (ev : mp_event_kind) : W -> res W := on_mp (mp_any ev).

Definition mp_events (w : W) : list mp_event_kind :=
  (if w_got_key_press w then [Here (Key (w_keyboard_packet w))] else []) ++
  (if w_got_mouse_packet w then [Here (MpNet.Mouse (w_mouse_packet w))] else []) ++
  (if w_timer_interrupt w then [Here MpNet.Timer] else []) ++
  (if w_rtc_interrupt w then [Here Tick] else []) ++
  (if w_uart_interrupt w then [Uart (w_data_packet w) (w_uart_type w)] else []).

Definition byte_ok (ev : mp_event_kind) : bool :=
  match ev with Here _ => true | Uart data _ => (0 <=? data) && (data <? 256) end.

(** Its statics are in order in every mode. *)
Lemma mp_play_safe ev w :
  in_play MP_GAME w -> negb (byte_ok ev) || announces ev (w_mp w) = false ->
  match mp_faulty ev (w_mp w) with
  | Some u => mp_play ev w = Undef u
  | None => exists w', mp_play ev w = Ok w' /\ in_play MP_GAME w'
  end.
Proof.
  intros Hw [Hbyte Ha]%orb_false_iff. assert (Hin : byte_in ev) by (destruct ev; [done | cbn in *; unbool; lia]).
  pose proof (mp_event_safe (in_play MP_GAME) ev (w_mp w) w Hin Ha (bo_mp w (proj1 Hw)) Hw) as Hev.
  unfold mp_play, on_mp. destruct (mp_faulty ev (w_mp w)); [by rewrite Hev |].
  destruct Hev as ([] & g & w1 & Hr & Hg & [Hb Hm]). rewrite Hr. cbn [res_bind fst snd].
  eexists. split; [done |]. split; [by apply mp_base | exact Hm].
Qed.

Lemma mp_play_inputs ev w w' : mp_play ev w = Ok w' -> inputs_kept w w'.
Proof.
  assert (Hs : steps inputs_kept (mp_any ev)).
  { destruct ev as [[] |]; cbn [mp_any mp_event];
      [apply mp_mouse_steps | apply mp_rtc_steps | apply mp_key_steps | apply mp_timer_steps | apply mp_uart_steps];
      first [exact reset_hiscore_inputs | exact _ | intros; reflexivity]. }
  unfold mp_play, on_mp. destruct (mp_any ev (w_mp w, w)) as [[[] [g w1]] |] eqn:Hr; [| done].
  cbn [res_bind fst snd]. intros Hw'. apply Ok_inj in Hw'. rewrite <- Hw'. exact (Hs _ _ _ Hr).
Qed.

Lemma handle_mp w w1 :
  w_mode w = MP_GAME -> draw_mp a w = Ok w1 -> inputs_kept w w1 ->
  handle_mode a rand malloc polls w = plays mp_play (mp_events w) w1.
Proof.
  intros Hm Hd Hk. unfold handle_mode. rewrite Hm. rewrite (then_ok _ _ _ _ Hd).
  apply (flag_plays mp_play _ _ (Here (Key (w_keyboard_packet w)))); [exact mp_play_inputs | done | by intros w' [[? _] _]%inputs_fields
    | by destruct (inputs_fields _ _ Hk) as [[_ ->] _] |].
  intros w2 H2. apply (flag_plays mp_play _ _ (Here (MpNet.Mouse (w_mouse_packet w)))); [exact mp_play_inputs | done
    | by intros w' (_ & [? _] & _)%inputs_fields | by destruct (inputs_fields _ _ H2) as (_ & [_ ->] & _) |].
  intros w3 H3. apply (flag_plays mp_play _ _ (Here MpNet.Timer)); [exact mp_play_inputs | done
    | by intros w' (_ & _ & ? & _)%inputs_fields | reflexivity |].
  intros w4 H4. apply (flag_plays mp_play _ _ (Here Tick)); [exact mp_play_inputs | done
    | by intros w' (_ & _ & _ & ? & _)%inputs_fields | reflexivity |].
  intros w5 H5. rewrite <- then_Ok, <- (app_nil_r (if w_uart_interrupt w then [_] else [])).
  apply (flag_plays mp_play); [exact mp_play_inputs | done | by intros w' (_ & _ & _ & _ & ? & _)%inputs_fields
    | by destruct (inputs_fields _ _ H5) as (_ & _ & _ & _ & _ & -> & ->) |]. done.
Qed.

(** The images are loaded; [malloc] gives one byte more than [getDate] asks
    for; the clock shows dates. *)
Hypothesis Ha : assets_ok a.
Hypothesis Hblock : (11 <= length (malloc 10))%nat.
Hypothesis Hclock : forall d x, fst (get_date polls d) = Some x -> date_ok x.

(** A frame of the games. *)
Lemma draw_mp_ok w :
  in_play MP_GAME w ->
  exists w', draw_mp a w = Ok w' /\ in_play MP_GAME w' /\ inputs_kept w w' /\
    drawn (w_vc w') ~~ render a (mp_scene (w_mp w)).
Proof.
  intros [Hb Hm]. unfold draw_mp.
  destruct (draws_mp a (w_mp w) (w_mdraw w) (w_vc w) Ha (bo_screen w Hb) (bo_mdraw w Hb) (bo_mp w Hb))
    as (d & v & Hd & Hv & Hmd & Hpic).
  rewrite Hd. cbn [res_bind fst snd]. eexists. split; [done |].
  split; [| split; [reflexivity | exact Hpic]]. split; [| exact Hm].
  apply vc_base; [done |]. by apply mdraw_base.
Qed.

Lemma draw_game_ok n w :
  n <= 999 -> playing n w ->
  exists w', draw_game a w = Ok w' /\ playing n w' /\ inputs_kept w w' /\
    drawn (w_vc w') ~~ render a (game_scene (w_game w)).
Proof.
  intros Hn [[Hb Hm] (s & Hs & Hi)]. pose proof (sim_game_inv n s _ Hs Hi) as Hg. unfold draw_game.
  pose proof (si_fits _ _ Hi). pose proof (si_rounds _ _ Hi).
  destruct (draws_game a (w_game w) (w_gdraw w) (w_vc w) Ha (bo_screen w Hb) (bo_gdraw w Hb) Hg)
    as (d & v & Hd & Hv & _ & Hgd & _ & Hpic); [rewrite (sim_size _ _ Hs); lia |].
  rewrite Hd. cbn [res_bind fst snd]. eexists. split; [done |].
  split; [| split; [reflexivity | exact Hpic]]. split; [split; [| exact Hm] | by exists s].
  apply vc_base; [done |]. by apply gdraw_base.
Qed.


(** ** The handlers *)

(** What may be wrong with a message: the state is that before the dispatch. *)
Definition game_fault (w : W) (u : ub_kind) : Prop :=
  w_mode w = GAME /\ exists w1, draw_game a w = Ok w1 /\
    comes_to play (game_events w) w1 (fun ev w => faulty ev (w_game w) = Some u).

Definition mp_fault (w : W) (u : ub_kind) : Prop :=
  w_mode w = MP_GAME /\ exists w1, draw_mp a w = Ok w1 /\
    comes_to mp_play (mp_events w) w1 (fun ev w => mp_faulty ev (w_mp w) = Some u).

(** The line announces a number of rounds no host of this program sends. *)
Definition announced (w : W) : Prop :=
  w_mode w = MP_GAME /\ exists w1, draw_mp a w = Ok w1 /\
    comes_to mp_play (mp_events w) w1 (fun ev w => announces ev (w_mp w) = true).

Definition entry_fault (w : W) (u : ub_kind) : Prop :=
  w_mode w = HIGHSCORE /\ u = OutOfBounds /\ w_got_key_press w = true /\
  name_fault (w_keyboard_packet w) (w_hs w) = true.

Definition fault (w : W) (u : ub_kind) : Prop := game_fault w u \/ mp_fault w u \/ entry_fault w u.

(** A screen with one handler for the keys. *)
Lemma shown_then f (h : W -> W -> res W) w :
  draws f -> screen_ok (w_vc w) ->
  exists v, screen_ok v /\
    then_ (on_vc f) (on_flag w_got_key_press h) w =
      if w_got_key_press w then h (set_w_vc v w) (set_w_vc v w) else Ok (set_w_vc v w).
Proof.
  intros Hf Hv. destruct (show f w Hf Hv) as (v & Hd & Hv1). exists v. split; [done |].
  by rewrite (then_ok _ _ _ _ Hd).
Qed.

Lemma safe_shown f h w :
  draws f -> safe w ->
  (forall w1, safe w1 -> w_mode w1 = w_mode w -> exists w', h w1 w1 = Ok w' /\ safe w') ->
  exists w', then_ (on_vc f) (on_flag w_got_key_press h) w = Ok w' /\ safe w'.
Proof.
  intros Hf Hs Hh. destruct (shown_then f h w Hf (bo_screen w (proj1 Hs))) as (v & Hv & ->).
  pose proof (safe_vc v w Hv Hs) as Hs1. destruct (w_got_key_press w); [by apply Hh | by eexists].
Qed.

(** The menus. *)
Lemma enter_rounds_safe mp w :
  base_ok w -> safe (menu_reset_number_of_rounds mp (set_mode NUM_ROUNDS w)).
Proof.
  intros Hb. split; [apply nr_base; by apply mode_base |]. exists mp, []. apply reset_nr_inv.
Qed.

Lemma mode_safe m w : base_ok w -> ~ In m [NUM_ROUNDS; GAME; HIGHSCORE] -> safe (set_w_mode m w).
Proof.
  intros Hb Hm. split; [by apply mode_base |]. unfold mode_ok. cbn [w_mode set_w_mode].
  destruct m; try done; exfalso; apply Hm; cbn; tauto.
Qed.

Lemma connect_safe w : base_ok w -> safe (menu_connect_mp_game (set_mode MP_GAME w)).
Proof.
  intros Hb. split; [| done].
  replace (menu_connect_mp_game _) with
    (set_w_mp (connecting (w_mp w)) (snd (on_dev (serial_write_byte CONNECTED) (set_mode MP_GAME w)))) by reflexivity.
  apply mp_base; [apply ok_connecting, Hb |]. by apply dev_base, mode_base.
Qed.

Lemma on_host_safe w : safe w -> w_mode w = HOST -> exists w', on_host rand polls w = Ok w' /\ safe w'.
Proof.
  intros [Hb _] Hm. eexists. split; [reflexivity |]. unfold host_update_status.
  pose proof (bo_host w Hb) as Hp. set (p := w_host_position w) in *.
  assert (Hkeep : forall q, 0 <= q < HOST_NUM_SELECTIONS -> safe (set_w_host_position q w)).
  { intros q Hq. split; [by apply host_base |]. unfold mode_ok.
    change (w_mode (set_w_host_position q w)) with (w_mode w). by rewrite Hm. }
  unfold HOST_NUM_SELECTIONS in *.
  repeat case_match; cbn [fst snd]; try (apply Hkeep; first [exact Hp | unfold u32; zlia]).
  - destruct (enter_rounds_safe true w Hb) as [Hb1 Hm1]. split; [| exact Hm1]. apply host_base; [done | exact Hb1].
  - destruct (connect_safe w Hb) as [Hb1 Hm1]. split; [| exact Hm1]. apply host_base; [done | exact Hb1].
  - by apply Hkeep.
Qed.

Lemma on_menu_safe w : safe w -> w_mode w = MENU -> exists w', on_menu rand polls w = Ok w' /\ safe w'.
Proof.
  intros [Hb _] Hm. eexists. split; [reflexivity |]. unfold menu_update_status.
  pose proof (bo_position w Hb) as Hp. set (p := w_position w) in *.
  assert (Hkeep : forall q, 0 <= q < MENU_NUM_SELECTIONS -> safe (set_w_position q w)).
  { intros q Hq. split; [by apply position_base |]. unfold mode_ok.
    change (w_mode (set_w_position q w)) with (w_mode w). by rewrite Hm. }
  assert (Hgo : forall w1, safe w1 -> safe (set_w_position SELECT_ONEPC w1)).
  { intros w1 [H1 H2]. split; [by apply position_base | exact H2]. }
  assert (Hms : forall m, ~ In m [NUM_ROUNDS; GAME; HIGHSCORE] -> safe (set_mode m w)) by (intros m; by apply mode_safe).
  unfold MENU_NUM_SELECTIONS in *.
  destruct (down _); [by apply Hkeep |]. destruct (_ || _); [apply Hkeep; cbn [fst]; zlia |].
  destruct (_ || _); [apply Hkeep; cbn [fst]; zlia |]. destruct (_ =? 10); [| by apply Hkeep].
  cbn [fst snd]. apply Hgo.
  destruct (_ =? _); [by apply enter_rounds_safe |].
  repeat (destruct (_ =? _); [apply Hms; cbn; intuition discriminate |]).
  split; [exact Hb |]. unfold mode_ok. by rewrite Hm.
Qed.

(** The number of rounds. *)
Lemma on_rounds_safe k w :
  safe w -> w_mode w = NUM_ROUNDS ->
  exists w', on_nr (number_of_rounds_update_status a k) w = Ok w' /\ safe w'.
Proof.
  intros [Hb Hmode] Hm. unfold mode_ok in Hmode. rewrite Hm in Hmode. destruct Hmode as (mp & s & Hi).
  assert (Hv : screen_ok (menu_vc w)) by apply Hb.
  destruct (rounds_step_sim a mp s (w_nr w) k w Ha Hi Hv) as (n & Hr & Hn).
  unfold on_nr. rewrite Hr. cbn [res_bind fst snd]. eexists. split; [done |].
  pose proof (rounds_step_screen a mp s (w_nr w) k w Ha Hi Hv) as Hv'.
  pose proof (digits_value_3 s (nr_digits _ _ _ Hi)) as H3.
  pose proof (typed_fits _ _ _ _ _ (nr_box _ _ _ Hi)) as Hfit.
  assert (Hrest : forall e, base_ok e -> w_mode e = NUM_ROUNDS -> safe (set_w_nr n e)).
  { intros e He Hme. split; [by apply nr_base |]. unfold mode_ok.
    change (w_mode (set_w_nr n e)) with (w_mode e). rewrite Hme. by eexists mp, _. }
  revert Hv'. unfold rounds_step. destruct (down k); [intros _; by apply Hrest |].
  destruct (key k =? 10).
  { destruct (Z.eqb_spec (digits_value s) 0) as [Hz | Hz]; [intros _; by apply Hrest |]. intros _. cbn [snd].
    destruct mp.
    - replace (menu_host_mp_game _ _) with (set_w_mp (hosting (digits_value s) (w_mp w)) (set_mode MP_GAME w))
        by (symmetry; exact (started_host rand polls _ _)).
      split; [| done]. apply nr_base, mp_base; [| by apply mode_base]. apply ok_hosting; [| apply Hb].
      lia.
    - destruct (started_alone rand polls (digits_value s) (set_mode GAME w)) as (g & d & Hg & Hsim); [lia |].
      replace (menu_reset_game _ _) with (set_w_game g (set_w_dev d (set_mode GAME w))) by (symmetry; exact Hg).
      split.
      + apply nr_base, game_base, devices_base, mode_base, Hb.
      + unfold mode_ok. exists (digits_value s). split; [lia |]. eexists. split; [exact Hsim |].
        apply simon_start_inv. lia. }
  destruct (is_numerical _); [intros _; by apply Hrest |].
  destruct (_ =? BACKSPACE); [| intros _; by apply Hrest].
  cbn [snd]. intros Hv'. destruct s as [| c s]; [by apply Hrest |].
  apply Hrest; [| exact Hm]. apply vc_base; [| exact Hb]. rewrite menu_vc_put in Hv'. exact Hv'.
Qed.

(** The entry of the name: what the handler leaves alone. *)
Definition frame_kept (w w' : W) : Prop :=
  (w_position w', w_host_position w', w_gdraw w', w_mdrv w', w_mdraw w', w_mp w', w_data_packet w') =
  (w_position w, w_host_position w, w_gdraw w, w_mdrv w, w_mdraw w, w_mp w, w_data_packet w).

#[local] Instance frame_kept_preorder : PreOrder frame_kept.
Proof. split; [intros w; reflexivity |]. intros x y z Hxy Hyz. exact (eq_trans Hyz Hxy). Qed.

Lemma on_entry_safe k w :
  safe w -> w_mode w = HIGHSCORE ->
  if name_fault k (w_hs w) then on_hs (highscore_update_status a malloc k) w = Undef OutOfBounds
  else exists w', on_hs (highscore_update_status a malloc k) w = Ok w' /\ safe w'.
Proof.
  intros [Hb Hmode] Hm. unfold mode_ok in Hmode. rewrite Hm in Hmode. destruct Hmode as (old & s & Hi).
  assert (Hdate : forall e : W, date_ok (fst (hs_get_date e))).
  { intros e. cbn [hs_get_date F_highscore world_highscore on_dev fst snd].
    destruct (fst (get_date polls (w_dev e))) as [x |] eqn:Hx; [by eapply Hclock | unfold date_ok; cbn; lia]. }
  assert (Hv : screen_ok (hs_vc w)) by apply Hb. assert (Hl : lb_good (hs_lb w)) by apply Hb.
  pose proof (name_key a malloc k old s (w_hs w) w Ha Hdate Hblock Hi Hv Hl) as Hk.
  unfold on_hs. destruct (name_fault k (w_hs w)); [by rewrite Hk |].
  destruct Hk as (h & e & Hr & [Hn Hv' Hl' Hmode]). rewrite Hr. cbn [res_bind fst snd]. eexists. split; [done |].
  assert (Hf : steps frame_kept (highscore_update_status a malloc k)).
  { apply highscore_steps; [exact _ | intros; reflexivity ..]. }
  apply Hf in Hr. cbn [fst snd] in Hr. unfold frame_kept in Hr. injection Hr as Hp1 Hp2 Hp3 Hp4 Hp5 Hp6 Hp7.
  split.
  - pose proof (typing_name_ok h Hn).
    constructor; cbn [w_vc w_lb w_hs w_position w_host_position w_gdraw w_mdrv w_mdraw w_mp w_data_packet set_w_hs];
      rewrite ?Hp1, ?Hp2, ?Hp3, ?Hp4, ?Hp5, ?Hp6, ?Hp7; try done; apply Hb.
  - unfold mode_ok. change (w_mode (set_w_hs h e)) with (hs_mode e).
    destruct Hmode as [-> | ->]; [| done]. change (hs_mode w) with (w_mode w). by rewrite Hm.
Qed.

(** ** The dispatch *)

Lemma draws_rounds w : safe w -> w_mode w = NUM_ROUNDS -> draws (draw_num_of_rounds_graphics a (w_nr w)).
Proof.
  intros [_ Hmode] Hm. unfold mode_ok in Hmode. rewrite Hm in Hmode. destruct Hmode as (mp & s & Hi).
  eapply shows_draws, (shows_rounds a mp s); [done | exact Hi].
Qed.

Lemma draws_entry w : safe w -> w_mode w = HIGHSCORE -> draws (draw_highscore_graph a (w_hs w)).
Proof.
  intros [_ Hmode] Hm. unfold mode_ok in Hmode. rewrite Hm in Hmode. destruct Hmode as (old & s & Hi).
  eapply shows_draws, (shows_entry a old s); [done | exact Hi].
Qed.

Lemma draws_menu w : safe w -> draws (draw_menu_graphics a (w_position w)).
Proof.
  intros _. unfold draw_menu_graphics. repeat case_match; try apply draws_id; apply draws_screen; auto; lia.
Qed.

Lemma draws_host w : safe w -> draws (draw_host_graphics a (w_host_position w)).
Proof.
  intros _. unfold draw_host_graphics. repeat case_match; try apply draws_id; apply draws_screen; auto; lia.
Qed.

Lemma draws_scores w : safe w -> draws (draw_leaderboard_graphics a (w_lb w)).
Proof.
  intros [Hb _]. apply draws_leaderboard; [done |]. destruct (bo_table w Hb) as (_ & _ & Hl).
  eapply Forall_impl; [exact Hl | apply entry_good_shows].
Qed.

(** The menu counts its frames. *)
Lemma menu_case w :
  safe w -> w_mode w = MENU -> exists w', handle_mode a rand malloc polls w = Ok w' /\ safe w'.
Proof.
  intros Hs Hm. destruct (show _ w (draws_menu w Hs) (bo_screen w (proj1 Hs))) as (v & Hd & Hv).
  unfold handle_mode. rewrite Hm, (then_ok _ _ _ _ Hd). pose proof (safe_vc v w Hv Hs) as Hs1.
  set (w1 := set_w_vc v w) in *. assert (Hm1 : w_mode w1 = MENU) by exact Hm.
  assert (Hmid : exists w2, whenw (negb (w_count w1 =? 0))
      (fun w => whenw (w_got_key_press w) (on_menu rand polls) w) w1 = Ok w2 /\ safe w2).
  { unfold whenw. destruct (negb _); [| by exists w1]. destruct (w_got_key_press w1); [| by exists w1].
    by apply on_menu_safe. }
  destruct Hmid as (w2 & Hmid & [Hb2 Hm2]). unfold then_ at 1. cbv beta. rewrite Hmid.
  eexists. split; [reflexivity |]. split; [by apply count_base | exact Hm2].
Qed.

Lemma game_case w :
  safe w -> w_mode w = GAME ->
  (exists w', handle_mode a rand malloc polls w = Ok w' /\ safe w') \/
  (exists u, handle_mode a rand malloc polls w = Undef u /\ fault w u).
Proof.
  intros [Hb Hmode] Hm. unfold mode_ok in Hmode. rewrite Hm in Hmode. destruct Hmode as (n & Hn & Hg).
  assert (Hp : playing n w) by (split; [split; [done | by left] | done]).
  destruct (draw_game_ok n w Hn Hp) as (w1 & Hd & Hp1 & Hk & _).
  rewrite (handle_game w w1 Hm Hd Hk).
  destruct (plays_ok play (fun _ _ => false) (fun ev w => faulty ev (w_game w)) (playing n)
              (fun ev w Hw _ => play_safe n ev w Hn Hw) (game_events w) w1 Hp1)
    as [(w2 & Hr & [[Hb2 Hm2] Hg2]) | [(u & Hr & Hf) | (? & ? & ? & ? & _ & _ & [=])]].
  - left. exists w2. split; [exact Hr |]. split; [exact Hb2 |]. unfold mode_ok.
    destruct Hm2 as [-> | [-> | [-> Ht]]]; [by exists n | done | done].
  - right. exists u. split; [exact Hr |]. left. split; [exact Hm |]. by exists w1.
Qed.

Definition mp_bad (ev : mp_event_kind) (w : W) : bool := negb (byte_ok ev) || announces ev (w_mp w).

Lemma bad_announces w w1 :
  base_ok w -> comes_to mp_play (mp_events w) w1 (fun ev w => mp_bad ev w = true) ->
  comes_to mp_play (mp_events w) w1 (fun ev w => announces ev (w_mp w) = true).
Proof.
  intros Hb (evs1 & ev & evs2 & w2 & He & Hr & Hbad). exists evs1, ev, evs2, w2. split; [done |]. split; [done |].
  assert (Hall : Forall (fun ev => byte_ok ev = true) (mp_events w)).
  { assert (Hone : forall (b : bool) ev, byte_ok ev = true -> Forall (fun ev => byte_ok ev = true) (if b then [ev] else []))
      by (intros [] ? ?; by repeat constructor).
    pose proof (bo_byte w Hb). unfold mp_events. repeat apply Forall_app_2; apply Hone; try done.
    cbn. apply andb_true_iff. split; [apply Z.leb_le | apply Z.ltb_lt]; lia. }
  rewrite He in Hall. apply Forall_app in Hall as [_ Hall]. apply Forall_cons_1 in Hall as [Hbyte _].
  unfold mp_bad in Hbad. by rewrite Hbyte in Hbad.
Qed.

Lemma mp_case w :
  safe w -> w_mode w = MP_GAME ->
  (exists w', handle_mode a rand malloc polls w = Ok w' /\ safe w') \/
  (exists u, handle_mode a rand malloc polls w = Undef u /\ fault w u) \/ announced w.
Proof.
  intros [Hb _] Hm. destruct (draw_mp_ok w (conj Hb (or_introl Hm))) as (w1 & Hd & Hp1 & Hk & _).
  rewrite (handle_mp w w1 Hm Hd Hk).
  destruct (plays_ok mp_play mp_bad (fun ev w => mp_faulty ev (w_mp w)) (in_play MP_GAME) mp_play_safe (mp_events w) w1 Hp1)
    as [(w2 & Hr & [Hb2 Hm2]) | [(u & Hr & Hf) | Hbad]].
  - left. exists w2. split; [exact Hr |]. split; [exact Hb2 |]. unfold mode_ok.
    destruct Hm2 as [-> | [-> | [-> Ht]]]; done.
  - right. left. exists u. split; [exact Hr |]. right. left. split; [exact Hm |]. by exists w1.
  - right. right. split; [exact Hm |]. exists w1. split; [exact Hd |]. by apply bad_announces.
Qed.

Lemma entry_case w :
  safe w -> w_mode w = HIGHSCORE ->
  (exists w', handle_mode a rand malloc polls w = Ok w' /\ safe w') \/
  (exists u, handle_mode a rand malloc polls w = Undef u /\ fault w u).
Proof.
  intros Hs Hm. destruct (shown_then _ (fun w0 => on_hs (highscore_update_status a malloc (w_keyboard_packet w0))) w
              (draws_entry w Hs Hm) (bo_screen w (proj1 Hs))) as (v & Hv & Heq).
  assert (Hcase : handle_mode a rand malloc polls w =
            if w_got_key_press w then on_hs (highscore_update_status a malloc (w_keyboard_packet w)) (set_w_vc v w)
            else Ok (set_w_vc v w)) by (unfold handle_mode; rewrite Hm; exact Heq).
  rewrite Hcase. clear Heq Hcase.
  pose proof (safe_vc v w Hv Hs) as Hs1. destruct (w_got_key_press w) eqn:Hgot; [| left; by eexists].
  pose proof (on_entry_safe (w_keyboard_packet w) (set_w_vc v w) Hs1 Hm) as Hk.
  change (w_hs (set_w_vc v w)) with (w_hs w) in Hk.
  destruct (name_fault (w_keyboard_packet w) (w_hs w)) eqn:Hf; [| by left].
  right. exists OutOfBounds. split; [exact Hk |]. right. right. by split.
Qed.

Lemma handle_mode_safe w :
  safe w ->
  (exists w', handle_mode a rand malloc polls w = Ok w' /\ safe w') \/
  (exists u, handle_mode a rand malloc polls w = Undef u /\ fault w u) \/ announced w.
Proof.
  intros Hs. destruct (w_mode w) eqn:Hm; try (by apply mp_case);
    try (by destruct (game_case w Hs Hm); auto); try (by destruct (entry_case w Hs Hm); auto); try (left; by apply menu_case);
    left; unfold handle_mode; rewrite Hm.
  - (* HOW_TO_PLAY *)
    apply safe_shown; [apply draws_screen; [done | lia] | done |]. intros w1 Hs1 Hm1. eexists. split; [reflexivity |].
    unfold how_to_play_update_status. destruct (_ =? 8); [| done].
    apply mode_safe; [apply Hs1 | cbn; intuition discriminate].
  - (* LEADERBOARD *)
    apply safe_shown; [by apply draws_scores | done |]. intros w1 Hs1 Hm1. eexists. split; [reflexivity |].
    unfold leaderboard_update_status. rewrite Hm1, Hm.
    destruct (_ =? BACKSPACE); apply mode_safe; try apply Hs1; cbn; intuition discriminate.
  - (* NUM_ROUNDS *)
    apply safe_shown; [by apply draws_rounds | done |]. intros w1 Hs1 Hm1. apply on_rounds_safe; [done | congruence].
  - (* HOST *)
    apply safe_shown; [by apply draws_host | done |]. intros w1 Hs1 Hm1. apply on_host_safe; [done | congruence].
  - (* EXIT *) by exists w.
Qed.

Lemma event_handler_safe w :
  safe w ->
  (exists b w', event_handler a rand malloc polls w = Ok (b, w') /\ safe w') \/
  (exists u, event_handler a rand malloc polls w = Undef u /\ fault w u) \/ announced w.
Proof.
  intros Hs. unfold event_handler.
  destruct (handle_mode_safe w Hs) as [(w1 & -> & Hs1) | [(u & -> & Hf) | Ht]]; cbn [res_bind];
    [left | right; left; by exists u | by right; right].
  destruct (flush w1 (bo_screen w1 (proj1 Hs1))) as (v & -> & Hv). cbn [res_bind].
  eexists _, _. split; [reflexivity | by apply safe_vc].
Qed.

(** ** The messages *)

(** The state when [event_handler] is called. *)
Definition latched (m : message) (w : W) : option (res W) :=
  match m with
  | ReceiveFailed | NotHardware => None
  | Hardware interrupts => Some (latch_irqs interrupts w)
  end.

(** What the interrupts change has no part in the invariant but the mouse's count. *)
Definition safe_parts (w : W) :=
  (w_mode w, w_position w, w_host_position w, w_nr w, w_game w, w_hs w, w_lb w, w_gdraw w, w_vc w, w_mdraw w, w_mp w).

Lemma safe_irq w w' :
  safe_parts w' = safe_parts w -> 0 <= m_count (w_mdrv w') <= 2 -> 0 <= w_data_packet w' < 256 -> safe w -> safe w'.
Proof.
  unfold safe_parts. intros He Hc Hd [[] Hm]. injection He as E1 E2 E3 E4 E5 E6 E7 E8 E9 E10 E11.
  split; [constructor; congruence || (rewrite ?E2, ?E3, ?E6, ?E7, ?E8, ?E9, ?E10, ?E11; assumption) |].
  unfold mode_ok in *. by rewrite E1, E4, E5, E6.
Qed.

Lemma keyboard_irq_parts set w :
  safe_parts (keyboard_irq set w) = safe_parts w /\ w_mdrv (keyboard_irq set w) = w_mdrv w /\
  w_data_packet (keyboard_irq set w) = w_data_packet w.
Proof.
  unfold keyboard_irq. destruct set; [| done]. unfold on_dev. cbn [fst snd].
  destruct (keyboard_handler 0 (w_kbd w) (w_dev w)) as [[[got k] kb] d]. cbn [fst snd]. by destruct k.
Qed.

Lemma latched_safe m w r :
  safe w -> latched m w = Some r -> exists w', r = Ok w' /\ safe w' /\ w_mode w' = w_mode w.
Proof.
  intros Hs. destruct m as [| | i]; try discriminate. cbn [latched]. intros [= <-]. unfold latch_irqs.
  generalize (flag i KBD_IRQ), (flag i MOUSE_IRQ), (flag i TIMER0_IRQ), (flag i RTC_IRQ), (flag i UART_IRQ).
  intros k ms t rt u.
  destruct (keyboard_irq_parts k w) as (Hp & Hd & Hb). set (w1 := keyboard_irq k w) in *.
  pose proof (bo_mouse w (proj1 Hs)) as Hc. rewrite <- Hd in Hc.
  pose proof (bo_byte w (proj1 Hs)) as Hbyte. rewrite <- Hb in Hbyte.
  assert (Hm : exists w2, mouse_irq ms w1 = Ok w2 /\ safe_parts w2 = safe_parts w1 /\ 0 <= m_count (w_mdrv w2) <= 2 /\
                 w_data_packet w2 = w_data_packet w1).
  { unfold mouse_irq. destruct ms; [| by eexists].
    unfold on_dev. cbn [fst snd]. destruct (mouse_handler_ok (w_mdrv w1) (w_dev w1) Hc) as (p & k' & Hr & Hk').
    rewrite Hr. cbn [res_bind fst snd]. eexists. split; [done |]. destruct p; (split; [reflexivity | split; [exact Hk' | reflexivity]]). }
  destruct Hm as (w2 & -> & Hp2 & Hc2 & Hb2). cbn [res_bind]. eexists. split; [done |].
  set (w3 := rtc_irq rt (set_w_timer_interrupt t w2)).
  assert (Hp3 : safe_parts w3 = safe_parts w2 /\ w_mdrv w3 = w_mdrv w2 /\ w_data_packet w3 = w_data_packet w2)
    by (unfold w3, rtc_irq; destruct rt; [destruct (fst (fst _)) |]; split_and!; reflexivity).
  destruct Hp3 as (Hp3 & Hd3 & Hb3). clearbody w3.
  assert (Hp4 : safe_parts (uart_irq u w3) = safe_parts w3 /\ w_mdrv (uart_irq u w3) = w_mdrv w3) by (destruct u; by split).
  destruct Hp4 as [Hp4 Hd4]. assert (Hb4 : 0 <= w_data_packet (uart_irq u w3) < 256).
  { assert (Hb0 : 0 <= w_data_packet w3 < 256) by lia. destruct u; [| exact Hb0].
    apply (uart_handler_byte (w_data_packet w3) (w_dev w3) Hb0). }
  assert (Hp5 : safe_parts (uart_irq u w3) = safe_parts w) by congruence.
  split; [apply (safe_irq w); [done | by rewrite Hd4, Hd3 | done | done] |].
  unfold safe_parts in Hp5. by injection Hp5.
Qed.

(** The faults are the code's. *)
Lemma game_fault_undef w u : safe w -> game_fault w u -> handle_mode a rand malloc polls w = Undef u.
Proof.
  intros [Hb Hmode] (Hm & w1 & Hd & Hf). unfold mode_ok in Hmode. rewrite Hm in Hmode. destruct Hmode as (n & Hn & Hg).
  assert (Hp : playing n w) by (split; [split; [done | by left] | done]).
  destruct (draw_game_ok n w Hn Hp) as (w2 & Hd2 & Hp2 & Hk & _).
  assert (w2 = w1) as -> by (apply Ok_inj; by rewrite <- Hd2).
  rewrite (handle_game w w1 Hm Hd Hk).
  apply (plays_wrong play (fun _ _ => false) (fun ev w => faulty ev (w_game w)) (playing n)
    (fun ev w Hw _ => play_safe n ev w Hn Hw) (game_events w) w1 u Hp2); [| exact Hf].
  by intros (? & ? & ? & ? & _ & _ & [=]).
Qed.

Lemma mp_fault_undef w u : safe w -> ~ announced w -> mp_fault w u -> handle_mode a rand malloc polls w = Undef u.
Proof.
  intros [Hb _] Hnot (Hm & w1 & Hd & Hf). destruct (draw_mp_ok w (conj Hb (or_introl Hm))) as (w2 & Hd2 & Hp2 & Hk & _).
  assert (w2 = w1) as -> by (apply Ok_inj; by rewrite <- Hd2).
  rewrite (handle_mp w w1 Hm Hd Hk).
  apply (plays_wrong mp_play mp_bad (fun ev w => mp_faulty ev (w_mp w)) (in_play MP_GAME) mp_play_safe (mp_events w) w1 u Hp2);
    [| exact Hf].
  intros Hbad. apply Hnot. split; [exact Hm |]. exists w1. split; [exact Hd |]. by apply bad_announces.
Qed.

Lemma entry_fault_undef w u : safe w -> entry_fault w u -> handle_mode a rand malloc polls w = Undef u.
Proof.
  intros Hs (Hm & -> & Hgot & Hf).
  destruct (shown_then _ (fun w0 => on_hs (highscore_update_status a malloc (w_keyboard_packet w0))) w
              (draws_entry w Hs Hm) (bo_screen w (proj1 Hs))) as (v & Hv & Heq).
  rewrite Hgot in Heq. pose proof (on_entry_safe (w_keyboard_packet w) (set_w_vc v w) (safe_vc v w Hv Hs) Hm) as Hk.
  change (w_hs (set_w_vc v w)) with (w_hs w) in Hk. rewrite Hf in Hk. unfold handle_mode. rewrite Hm. exact (eq_trans Heq Hk).
Qed.

Lemma fault_undef w u : safe w -> ~ announced w -> fault w u -> handle_mode a rand malloc polls w = Undef u.
Proof.
  intros Hs Hnot [Hf | [Hf | Hf]]; [by apply game_fault_undef | by apply mp_fault_undef | by apply entry_fault_undef].
Qed.

Lemma event_handler_exact w :
  safe w -> ~ announced w ->
  match event_handler a rand malloc polls w with
  | Ok (_, w') => safe w' /\ forall u, ~ fault w u
  | Undef u => fault w u
  end.
Proof.
  intros Hs Hnot. destruct (event_handler_safe w Hs) as [(b & w' & Hr & Hs') | [(u & Hr & Hf) | Ht]]; [| | done]; rewrite Hr; [| done].
  split; [done |]. intros u Hf. unfold event_handler in Hr. by rewrite (fault_undef w u Hs Hnot Hf) in Hr.
Qed.

(** ** The loop *)

Lemma message_safe m w :
  safe w ->
  (exists b w', run_message a rand malloc polls m w = Ok (b, w') /\ safe w') \/
  (exists w1, latched m w = Some (Ok w1) /\
     (announced w1 \/ exists u, run_message a rand malloc polls m w = Undef u /\ fault w1 u)).
Proof.
  intros Hs. destruct m as [| | i]; [left; by eexists _, _ .. |].
  destruct (latched_safe (Hardware i) w _ Hs eq_refl) as (w1 & Hr & Hs1 & Hm1).
  cbn [run_message latched]. rewrite Hr. cbn [res_bind].
  destruct (event_handler_safe w1 Hs1) as [Hok | [(u' & Hu & Hf) | Ht]]; [by left | right | right]; exists w1; (split; [done |]);
    [right; by exists u' | by left].
Qed.

(** Where a run that starts in order ends. *)
Definition run_outcome (ms : list message) (run : list message -> res (bool * W)) : Prop :=
  (exists b w', run ms = Ok (b, w') /\ safe w') \/
  (exists ms1 m ms2 w1 w2, ms = ms1 ++ m :: ms2 /\ run ms1 = Ok (false, w1) /\ safe w1 /\
     latched m w1 = Some (Ok w2) /\ (announced w2 \/ exists u, fault w2 u /\ run ms = Undef u)).

Lemma run_loop_safe ms w : safe w -> run_outcome ms (fun ms => run_loop a rand malloc polls ms w).
Proof.
  revert w. induction ms as [| m ms IH]; intros w Hs; [left; by eexists _, _ |].
  destruct (message_safe m w Hs) as [(b & w' & Hr & Hs') | (w1 & Hl & Ho)].
  2: { right. exists [], m, ms, w, w1. split_and!; try done. destruct Ho as [Ht | (u & Hr & Hf)]; [by left | right].
       exists u. cbn [run_loop]. by rewrite Hr. }
  unfold run_outcome. cbn [run_loop]. rewrite Hr. cbn [res_bind fst snd].
  destruct (negb (scancode_is_esc_break (w_kbd w')) && negb b) eqn:Hgo; [| left; by eexists _, _].
  assert (Hcons : forall ms1, run_loop a rand malloc polls (m :: ms1) w = run_loop a rand malloc polls ms1 w').
  { intros ms1. cbn [run_loop]. rewrite Hr. cbn [res_bind fst snd]. by rewrite Hgo. }
  destruct (IH w' Hs') as [Hok | (ms1 & m1 & ms2 & w1 & w2 & -> & H1 & H2)]; [by left | right].
  exists (m :: ms1), m1, ms2, w1, w2. split; [done |]. by rewrite Hcons.
Qed.

Lemma run_start_safe w : base_ok w -> safe (snd (run_start w)).
Proof.
  intros Hb. split; [| unfold mode_ok; by rewrite (proj1 (run_start_keeps w))]. unfold run_start.
  set (t := on_dev timer_subscribe_int _).
  assert (Hb1 : base_ok (snd t)) by (repeat apply dev_base; by apply mode_base). clearbody t.
  pose proof (mouse_enable_count (w_mdrv (snd t)) (w_dev (snd t))) as Hc.
  set (r := on_dev (mouse_data_reporting_enable (w_mdrv (snd t))) (snd t)).
  set (w2 := set_w_mdrv (snd (fst r)) (snd r)).
  assert (Hb2 : base_ok w2).
  { destruct Hb1. constructor; try assumption. unfold w2, r, on_dev. cbn [w_mdrv set_w_mdrv fst snd]. by rewrite Hc. }
  clearbody w2. cbn [snd]. destruct (fst (on_dev check_buffer _) =? 0); by repeat apply dev_base.
Qed.

Lemma run_stop_safe h w : safe w -> safe (run_stop h w).
Proof. intros [Hb Hm]. split; [by repeat apply dev_base | exact Hm]. Qed.

Lemma run_video_safe v ms w :
  base_ok (set_w_vc (mode_vc v) w) -> set_vbe_mode (sys_int86 v) VBE_MODE = 0 ->
  run_outcome ms (fun ms => run a rand malloc polls v ms w).
Proof.
  intros Hb Hv. pose proof (run_start_safe _ Hb) as Hs. unfold run. rewrite Hv. cbn [Z.eqb].
  set (s := run_start _) in *. clearbody s.
  destruct (run_loop_safe ms (snd s) Hs)
    as [(b & w' & Hr & Hw) | (ms1 & m & ms2 & w1 & w2 & -> & Hr & Hw & Hl & Ho)].
  - left. rewrite Hr. cbn [res_bind fst snd]. destruct b; eexists _, _; [| done].
    split; [reflexivity | by apply run_stop_safe].
  - right. exists ms1, m, ms2, w1, w2. rewrite Hr. split_and!; try done.
    destruct Ho as [Ht | (u & Hf & Hu)]; [by left | right]. exists u. by rewrite Hu.
Qed.
End Safety.

(** ** Properties *)



(** The first state of the program, for the witnesses. *)
Lemma start_base_of {D} (d : D) : base_ok assets0 (world_start frame0 lb0 d).
Proof.
  assert (Hg : forall n, 0 <= n <= 999 -> entry_good (winner0 n)).
  { intros n Hn. split; [by eexists |]. split; [by eexists |]. done. }
  constructor; cbn [w_vc w_lb w_hs w_position w_host_position w_gdraw w_mdrv w_mdraw w_mp w_data_packet world_start].
  - exact frame0_ok.
  - split; [done |]. split; [apply Hg; lia |]. cbn [leaderboard lb0 map]. repeat constructor; apply Hg; lia.
  - split; [done |]. by exists [], (replicate 10 0).
  - unfold MENU_NUM_SELECTIONS. lia.
  - unfold HOST_NUM_SELECTIONS. lia.
  - exact (conj (counter_init_ok _) round_init_ok).
  - cbn. lia.
  - exact (conj (counter_init_ok _) round_init_ok).
  - exact mst_init_ok.
  - cbn. lia.
Qed.

Lemma start_base : base_ok assets0 (@world_start unit frame0 lb0 tt).
Proof. exact (start_base_of tt). Qed.

Lemma clock0 d x : fst (@get_date unit (fixed_ports 0 0) 1 d) = Some x -> date_ok x.
Proof. destruct d. vm_compute. intros [= <-]. repeat split; discriminate. Qed.


(** The mode 0x114: 800 by 600 pixels of two bytes. *)
Definition video0 : video :=
  Video (fun _ => ModeInfo WIDTH HEIGHT 16) (fun n => replicate (Z.to_nat n) 0)
    (fun n => replicate (Z.to_nat n) 0) (fun _ => 0).

