(* ===== verification/Scenes.v ===== *)
(** What the player sees: the frame in the video memory after each message is
    the scene of the state, and in a game that of the abstract game. *)

From stdpp Require Import base tactics list.
From Stdlib Require Import ZArith Lia Ascii.
From S2P Require Import Prelude Consts Ports Rtc Uart Timer Keyboard Mouse NumLetters Vc Screen CString.
From S2P Require Import Leaderboard Highscore Menus Pad Game Says GameProps MpGame MpLink MpNet MpSafe.
From S2P Require Import Simon SimonProps Session Safety.

(** ** The scene of a state *)

(** The abstract game: the buttons as they are lit, the player whose turn it is,
    the seconds left, the length of the sequence and the cursor; at the end the
    screen of the result. *)
Definition simon_scene (s : simon) : scene :=
  match over s with
  | Some w => Scene (winner_screen w) []
  | None => playing_scene (lit s) (turn s) (clock s) (zlen (seq s)) (cursor s)
  end.

Lemma sim_scene s g : sim s g -> game_scene g = simon_scene s.
Proof.
  intros Hs. unfold game_scene, simon_scene. pose proof (sim_over s g Hs) as Ho. destruct (over s) as [w |].
  - by destruct Ho as (-> & -> & _).
  - destruct Ho as [-> _].
    by rewrite (sim_lit s g Hs), (sim_turn s g Hs), (sim_clock s g Hs), (sim_size s g Hs), (sim_cursor s g Hs).
Qed.

(** What has been typed into a box. *)
Definition box_text (b : text_box) : list prop := omap id (take (Z.to_nat (char_size b)) (char_prop b)).

Lemma box_text_holds s b : box_holds s b -> box_text b = map get_prop_from_char s.
Proof.
  intros [Hn Hc _]. unfold box_text. rewrite Hn. unfold zlen. rewrite Nat2Z.id, Hc.
  clear. induction s as [| c s IH]; [done |]. cbn. by f_equal.
Qed.

(** A centred box; while its last character is deleted the line is blanked in the
    frame that is about to be shown. *)
Definition blanks (n : nat) (y : Z) : list sprite := centred (replicate n (Letter 27)) 400 y.
Definition typed_sprites (b : text_box) (y : Z) (erasing : bool) : list sprite :=
  centred (box_text b) 400 y ++ if erasing then blanks (length (box_text b)) y else [].

(** The back buffer holds a scene. *)
Definition pictures (a : assets) (v : vc) (sc : scene) : Prop := screen_ok v /\ drawn v ~~ render a sc.

Section Scenes.
Context {D : Type} `{PD : Ports D} `{DD : Delay D} `{ID : Irqs D}.
Variable a : assets.
Variable rand : D -> Z * D.
Variable malloc : Z -> list Z.
Variable polls : nat.
#[local] Abbreviation W := (world D).
#[local] Instance V_highscore : HighscoreEnv W := world_highscore polls.
#[local] Instance V_highscore_laws : HighscoreLaws W := world_highscore_laws polls.
#[local] Instance V_game : GameEnv W := world_game rand polls.
#[local] Instance V_mp : MpEnv W := world_mp polls.
#[local] Instance V_menus : MenusEnv W := world_menus rand polls.
#[local] Instance V_menus_laws : MenusLaws W := world_menus_laws rand polls.

Definition erasing (w : W) : bool :=
  w_got_key_press w && negb (down (w_keyboard_packet w)) && (key (w_keyboard_packet w) =? BACKSPACE).

Definition scene_of (w : W) : scene :=
  match w_mode w with
  | MENU => Scene (19 + w_position w) []
  | HOST => Scene (24 + w_host_position w) []
  | HOW_TO_PLAY => Scene 5 []
  | LEADERBOARD => Scene 4 (table_lines 0 (leaderboard (w_lb w)))
  | NUM_ROUNDS => Scene 17 (typed_sprites (num_rounds (w_nr w)) 360 (erasing w))
  | HIGHSCORE => Scene 16 (typed_sprites (new_hiscore (w_hs w)) 330 (erasing w))
  | GAME => game_scene (w_game w)
  | MP_GAME => mp_scene (w_mp w)
  | EXIT => Scene 0 []
  end.



Definition frame_same (w w' : W) : Prop := w_vc w' = w_vc w.

#[local] Instance frame_same_preorder : PreOrder frame_same.
Proof. split; [intros w; reflexivity |]. intros x y z Hxy Hyz. exact (eq_trans Hyz Hxy). Qed.

Lemma reset_hiscore_frame n e e' : on_hs (reset_hiscore n) e = Ok e' -> frame_same e e'.
Proof.
  intros Hr. pose proof (eq_trans (eq_sym (reset_hiscore_run polls n e)) Hr) as He. apply Ok_inj in He. by rewrite <- He.
Qed.

Lemma play_frame ev w w' : play rand polls ev w = Ok w' -> frame_same w w'.
Proof.
  assert (Hs : steps frame_same (game_event ev)).
  { destruct ev; cbn [game_event];
      [apply game_mouse_steps | apply game_rtc_steps | apply game_key_steps | apply game_timer_steps];
      first [exact reset_hiscore_frame | exact _ | intros; reflexivity]. }
  unfold play, on_game. destruct (game_event ev (w_game w, w)) as [[[] [g w1]] |] eqn:Hr; [| done].
  cbn [res_bind fst snd]. intros Hw'. apply Ok_inj in Hw'. rewrite <- Hw'. exact (Hs _ _ _ Hr).
Qed.

Lemma mp_play_frame ev w w' : mp_play polls ev w = Ok w' -> frame_same w w'.
Proof.
  assert (Hs : steps frame_same (mp_any ev)).
  { destruct ev as [[] |]; cbn [mp_any mp_event];
      [apply mp_mouse_steps | apply mp_rtc_steps | apply mp_key_steps | apply mp_timer_steps | apply mp_uart_steps];
      first [exact reset_hiscore_frame | exact _ | intros; reflexivity]. }
  unfold mp_play, on_mp. destruct (mp_any ev (w_mp w, w)) as [[[] [g w1]] |] eqn:Hr; [| done].
  cbn [res_bind fst snd]. intros Hw'. apply Ok_inj in Hw'. rewrite <- Hw'. exact (Hs _ _ _ Hr).
Qed.

Lemma plays_frame {Ev} (p : Ev -> W -> res W) evs w w' :
  (forall ev w w', p ev w = Ok w' -> frame_same w w') -> plays p evs w = Ok w' -> frame_same w w'.
Proof.
  intros Hp. revert w. induction evs as [| ev evs IH]; intros w Hr; cbn [plays] in Hr.
  - apply Ok_inj in Hr. by rewrite Hr.
  - unfold then_ in Hr. destruct (p ev w) as [w1 |] eqn:Hev; [| done]. transitivity w1; [by eapply Hp | by apply IH].
Qed.

(** ** The scene of each mode *)

Hypothesis Ha : assets_ok a.
Hypothesis Hblock : (11 <= length (malloc 10))%nat.
Hypothesis Hclock : forall d x, fst (get_date polls d) = Some x -> date_ok x.

Lemma on_vc_shows f sc (w : W) :
  shows a f sc -> screen_ok (w_vc w) ->
  exists v, on_vc f w = Ok (set_w_vc v w) /\ pictures a v sc.
Proof.
  intros Hf Hv. destruct (Hf _ Hv) as (v & Hd & Hm & Hp). exists v. unfold on_vc. rewrite Hd. split; [done |].
  split; [by eapply screen_ok_same | exact Hp].
Qed.

(** A screen whose handler of the keys leaves the frame alone. *)
Lemma screen_scene f sc (h : W -> W -> res W) w w' :
  shows a f sc -> screen_ok (w_vc w) ->
  (forall w1 w2, w_mode w1 = w_mode w -> h w1 w1 = Ok w2 -> frame_same w1 w2) ->
  then_ (on_vc f) (on_flag w_got_key_press h) w = Ok w' -> pictures a (w_vc w') sc.
Proof.
  intros Hf Hv Hh. destruct (on_vc_shows f sc w Hf Hv) as (v & Hd & Hp). rewrite (then_ok _ _ _ _ Hd).
  unfold on_flag, whenw. destruct (w_got_key_press (set_w_vc v w)); intros Hr.
  - apply Hh in Hr; [| done]. unfold frame_same in Hr. by rewrite Hr.
  - apply Ok_inj in Hr. by rewrite <- Hr.
Qed.

Lemma shows_menu p : 0 <= p < MENU_NUM_SELECTIONS -> shows a (draw_menu_graphics a p) (Scene (19 + p) []).
Proof.
  unfold MENU_NUM_SELECTIONS. intros Hp. unfold draw_menu_graphics.
  repeat match goal with |- context [?x =? ?y] => destruct (Z.eqb_spec x y); [subst; apply shows_screen; done |] end.
  unfold SELECT_ONEPC, SELECT_TWOPC, SELECT_HOW_TO_PLAY, SELECT_LEADERBOARD, SELECT_EXIT in *. lia.
Qed.

Lemma shows_host p : 0 <= p < HOST_NUM_SELECTIONS -> shows a (draw_host_graphics a p) (Scene (24 + p) []).
Proof.
  unfold HOST_NUM_SELECTIONS. intros Hp. unfold draw_host_graphics.
  repeat match goal with |- context [?x =? ?y] => destruct (Z.eqb_spec x y); [subst; apply shows_screen; done |] end.
  unfold HOST_SELECT_HOST, HOST_SELECT_CONNECT in *. lia.
Qed.

Lemma on_host_frame (w w' : W) : on_host rand polls w = Ok w' -> frame_same w w'.
Proof.
  unfold on_host, host_update_status. intros Hr. apply Ok_inj in Hr. rewrite <- Hr. by repeat case_match.
Qed.

Lemma on_menu_frame (w w' : W) : on_menu rand polls w = Ok w' -> frame_same w w'.
Proof.
  unfold on_menu, menu_update_status. intros Hr. apply Ok_inj in Hr. rewrite <- Hr. by repeat case_match.
Qed.

Lemma menu_scene (w w' : W) :
  safe a w -> w_mode w = MENU -> handle_mode a rand malloc polls w = Ok w' -> pictures a (w_vc w') (scene_of w).
Proof.
  intros [Hb _] Hm. unfold handle_mode, scene_of. rewrite Hm.
  destruct (on_vc_shows _ _ w (shows_menu _ (bo_position _ _ Hb)) (bo_screen _ _ Hb)) as (v & Hd & Hp).
  rewrite (then_ok _ _ _ _ Hd). set (w1 := set_w_vc v w). change v with (w_vc w1) in Hp.
  unfold then_ at 1. cbv beta. destruct (whenw _ _ w1) as [w2 |] eqn:Hw; [| done]. cbn [res_bind]. intros Hr.
  apply Ok_inj in Hr. rewrite <- Hr. change (w_vc (set_w_count _ w2)) with (w_vc w2).
  assert (Hf : frame_same w1 w2).
  { unfold whenw in Hw. destruct (negb _); [destruct (w_got_key_press w1); [by apply on_menu_frame |] |];
      apply Ok_inj in Hw; by rewrite Hw. }
  unfold frame_same in Hf. by rewrite Hf.
Qed.

Lemma game_shown (w w' : W) :
  safe a w -> w_mode w = GAME -> handle_mode a rand malloc polls w = Ok w' -> pictures a (w_vc w') (scene_of w).
Proof.
  intros [Hb Hmode] Hm. unfold mode_ok in Hmode. unfold scene_of. rewrite Hm in Hmode |- *. destruct Hmode as (n & Hn & Hg).
  assert (Hp : playing a n w) by (split; [split; [done | by left] | done]).
  destruct (draw_game_ok a malloc Ha Hblock n w Hn Hp) as (w1 & Hd & [[Hb1 _] _] & Hk & Hpic).
  rewrite (handle_game a rand malloc polls w w1 Hm Hd Hk). intros Hr.
  apply plays_frame in Hr; [| exact play_frame]. unfold frame_same in Hr. rewrite Hr. by split; [apply Hb1 |].
Qed.

Lemma mp_shown (w w' : W) :
  safe a w -> w_mode w = MP_GAME -> handle_mode a rand malloc polls w = Ok w' -> pictures a (w_vc w') (scene_of w).
Proof.
  intros [Hb _] Hm. unfold scene_of. rewrite Hm.
  destruct (draw_mp_ok a Ha w (conj Hb (or_introl Hm))) as (w1 & Hd & [Hb1 _] & Hk & Hpic).
  rewrite (handle_mp a rand malloc polls w w1 Hm Hd Hk). intros Hr.
  apply plays_frame in Hr; [| exact mp_play_frame]. unfold frame_same in Hr. rewrite Hr. by split; [apply Hb1 |].
Qed.

(** The line of a box blanked over the frame. *)
Lemma blanked_line n y sc v v' :
  0 <= n <= 10 -> 0 <= y <= 600 -> pictures a v sc -> blank_line a 400 y n v = Ok v' ->
  pictures a v' (Scene (backdrop sc) (sprites sc ++ blanks (Z.to_nat n) y)).
Proof.
  intros Hn Hy [Hv Hp] Hb.
  destruct (paints_blank_line a 400 y n Ha) with (v := v) as (v1 & Hd & Hm & Hp1); try (unfold MAX_TEXT_BOX_SIZE; lia); [done |].
  rewrite Hb in Hd. apply Ok_inj in Hd. subst v1. split; [by eapply screen_ok_same |]. rewrite Hp1, Hp. unfold render, blanks. cbn [sprites backdrop].
  by rewrite overlay_app.
Qed.

Definition deletes (k : key_press) : bool := negb (down k) && (key k =? BACKSPACE).

Lemma on_rounds_frame k mp s i ss (w w' : W) :
  nr_inv mp s (w_nr w) -> pictures a (w_vc w) (Scene i ss) ->
  on_nr (number_of_rounds_update_status a k) w = Ok w' ->
  pictures a (w_vc w') (Scene i (ss ++ if deletes k then blanks (length s) 360 else [])).
Proof.
  intros Hi Hp. assert (Hv1 : screen_ok (menu_vc w)) by apply Hp.
  destruct (rounds_step_sim a mp s (w_nr w) k w Ha Hi Hv1) as (n & Hs & _).
  unfold on_nr. rewrite Hs. cbn [res_bind fst snd]. intros Hr. apply Ok_inj in Hr. rewrite <- Hr.
  change (w_vc (set_w_nr n ?e)) with (w_vc e). clear Hr Hs.
  assert (Hsame : forall e : W, w_vc e = w_vc w -> pictures a (w_vc e) (Scene i (ss ++ []))).
  { intros e ->. rewrite app_nil_r. exact Hp. }
  unfold rounds_step, deletes. destruct (down _); cbn [negb andb]; [by apply Hsame |].
  destruct (Z.eqb_spec (key k) 10) as [-> | H10].
  { change (10 =? BACKSPACE) with false. destruct (digits_value s =? 0); [by apply Hsame |]. cbn [snd].
    apply Hsame. destruct mp; exact eq_refl. }
  destruct (is_numerical _) eqn:Hnum.
  { replace (key k =? BACKSPACE) with false; [by apply Hsame |].
    symmetry. apply Z.eqb_neq. apply is_numerical_iff in Hnum. unfold BACKSPACE. lia. }
  destruct (_ =? BACKSPACE); [| by apply Hsame]. cbn [snd]. destruct s as [| c s]; [by apply Hsame |].
  change (w_vc (menu_put_vc ?v w)) with v. change (menu_vc w) with (w_vc w).
  pose proof (typed_fits _ _ _ _ _ (nr_box _ _ _ Hi)) as Hf. unfold blanked.
  destruct (draws_blank_line a 400 360 (zlen (c :: s)) Ha) with (v := w_vc w) as (v' & Hb & _);
    try (unfold zlen, MAX_TEXT_BOX_SIZE in *; cbn [length] in *; lia); [done |].
  rewrite Hb. replace (length (c :: s)) with (Z.to_nat (zlen (c :: s))) by (unfold zlen; lia).
  refine (blanked_line _ 360 (Scene i ss) (w_vc w) v' _ _ Hp Hb); unfold zlen in *; lia.
Qed.

(** Keys of the entry of the name that do not delete. *)
Lemma highscore_frame k (h : hs) (w : W) r :
  key k <> BACKSPACE -> highscore_update_status a malloc k (h, w) = Ok r -> frame_same w (snd (snd r)).
Proof.
  intros Hk. destruct r as [[] [h' w']]. intros Hr.
  exact (highscore_steps frame_same a malloc k ltac:(done) ltac:(done) ltac:(done) ltac:(done) _ _ _ Hr).
Qed.

Lemma on_entry_frame k old s i ss (w w' : W) :
  hs_inv old s (w_hs w) -> pictures a (w_vc w) (Scene i ss) ->
  on_hs (highscore_update_status a malloc k) w = Ok w' ->
  pictures a (w_vc w') (Scene i (ss ++ if deletes k then blanks (length s) 330 else [])).
Proof.
  intros Hi Hp. assert (Hv1 : screen_ok (hs_vc w)) by apply Hp. unfold on_hs.
  assert (Hsame : forall e : W, w_vc e = w_vc w -> pictures a (w_vc e) (Scene i (ss ++ []))).
  { intros e ->. rewrite app_nil_r. exact Hp. }
  destruct k as [c d]. unfold deletes. cbn [down key]. destruct (Z.eqb_spec c BACKSPACE) as [-> | Hc]; cbn [andb].
  2: { destruct (highscore_update_status a malloc (KeyPress c d) (w_hs w, w)) as [r |] eqn:Hr; [| done]. cbn [res_bind].
       apply highscore_frame in Hr; [| exact Hc]. intros He. apply Ok_inj in He. rewrite <- He.
       rewrite andb_false_r. apply Hsame. exact Hr. }
  rewrite andb_true_r. destruct d; cbn [negb].
  { intros Hr. apply Ok_inj in Hr. rewrite <- Hr. by apply Hsame. }
  destruct (exists_last_dec s) as [-> | (s' & c & ->)].
  - assert (Hno : pictures a (w_vc w) (Scene i (ss ++ blanks 0 330))) by (by apply Hsame).
    destruct (exists_last_dec old) as [-> | (old' & c & ->)].
    + by rewrite (press_backspace_empty a malloc (w_hs w) w Hi).
    + destruct (press_backspace_old a malloc old' c (w_hs w) w Hi) as (h' & -> & _). cbn [res_bind fst snd].
      intros Hr. apply Ok_inj in Hr. by rewrite <- Hr.
  - destruct (press_backspace a malloc old s' c (w_hs w) w Ha Hi Hv1) as (h' & v & -> & _ & _ & Hb).
    cbn [res_bind fst snd]. intros Hr. apply Ok_inj in Hr. rewrite <- Hr.
    change (w_vc (set_w_hs h' (hs_put_vc v w))) with v. change (hs_vc w) with (w_vc w) in Hb.
    pose proof (typed_fits _ _ _ _ _ (inv_box _ _ _ Hi)) as Hf. rewrite zlen_snoc in Hf.
    replace (length (s' ++ [c])) with (Z.to_nat (zlen s' + 1)) by (rewrite length_app; unfold zlen; cbn; lia).
    refine (blanked_line _ 330 (Scene i ss) (w_vc w) v _ _ Hp Hb); unfold zlen in *; lia.
Qed.

(** A screen with a box. *)
Lemma box_scene f i ss (h : W -> W -> res W) (blank : list sprite) (w w' : W) :
  shows a f (Scene i ss) -> screen_ok (w_vc w) ->
  (forall v, pictures a v (Scene i ss) -> h (set_w_vc v w) (set_w_vc v w) = Ok w' ->
     pictures a (w_vc w') (Scene i (ss ++ if deletes (w_keyboard_packet w) then blank else []))) ->
  then_ (on_vc f) (on_flag w_got_key_press h) w = Ok w' ->
  pictures a (w_vc w') (Scene i (ss ++ if erasing w then blank else [])).
Proof.
  intros Hf Hv Hh. destruct (on_vc_shows f _ w Hf Hv) as (v & Hd & Hp). rewrite (then_ok _ _ _ _ Hd).
  unfold on_flag, whenw, erasing. change (w_got_key_press (set_w_vc v w)) with (w_got_key_press w).
  destruct (w_got_key_press w); cbn [andb]; intros Hr; [by apply (Hh v) |].
  apply Ok_inj in Hr. by rewrite <- Hr, app_nil_r.
Qed.

Lemma rounds_shown (w w' : W) :
  safe a w -> w_mode w = NUM_ROUNDS -> handle_mode a rand malloc polls w = Ok w' ->
  pictures a (w_vc w') (scene_of w).
Proof.
  intros [Hb Hmode] Hm. unfold mode_ok in Hmode. unfold handle_mode, scene_of. rewrite Hm in Hmode |- *.
  destruct Hmode as (mp & s & Hi). unfold typed_sprites.
  rewrite (box_text_holds s) by (eapply typed_holds; apply Hi). rewrite length_map.
  apply box_scene; [by apply (shows_rounds a mp) | apply Hb |]. intros v Hp.
  by apply (on_rounds_frame (w_keyboard_packet w) mp s).
Qed.

Lemma entry_shown (w w' : W) :
  safe a w -> w_mode w = HIGHSCORE -> handle_mode a rand malloc polls w = Ok w' ->
  pictures a (w_vc w') (scene_of w).
Proof.
  intros [Hb Hmode] Hm. unfold mode_ok in Hmode. unfold handle_mode, scene_of. rewrite Hm in Hmode |- *.
  destruct Hmode as (old & s & Hi). unfold typed_sprites.
  rewrite (box_text_holds s) by (eapply typed_holds; apply Hi). rewrite length_map.
  apply box_scene; [by apply (shows_entry a old) | apply Hb |]. intros v Hp.
  by apply (on_entry_frame (w_keyboard_packet w) old s).
Qed.

(** ** The dispatch *)

Lemma handle_scene (w w' : W) :
  safe a w -> w_mode w <> EXIT -> handle_mode a rand malloc polls w = Ok w' -> pictures a (w_vc w') (scene_of w).
Proof.
  intros Hs Hx. pose proof (bo_screen _ _ (proj1 Hs)) as Hv. destruct (w_mode w) eqn:Hm; try done;
    first [by apply menu_scene | by apply game_shown | by apply mp_shown | by apply rounds_shown | by apply entry_shown | idtac];
    unfold handle_mode, scene_of; rewrite Hm; apply screen_scene; try done.
  - by apply shows_screen.
  - intros w1 w2 _ Hr. apply Ok_inj in Hr. rewrite <- Hr. unfold how_to_play_update_status. by case_match.
  - apply shows_leaderboard; [done |]. destruct (bo_table _ _ (proj1 Hs)) as (_ & _ & Hl).
    eapply Forall_impl; [exact Hl | apply entry_good_shows].
  - intros w1 w2 _ Hr. apply Ok_inj in Hr. by rewrite <- Hr.
  - by apply shows_host, Hs.
  - intros w1 w2 _. apply on_host_frame.
Qed.

(** The frame is copied whole. *)
Lemma flush_scene sc (w w' : W) :
  pictures a (w_vc w) sc -> on_vc copy_to_video w = Ok w' -> displayed (w_vc w') ~~ render a sc.
Proof.
  intros [(Hv & _) Hp]. destruct (copy_to_video_shows _ Hv) as (v & Hc & _ & Hx & _ & _ & Hm & _).
  unfold on_vc. rewrite Hc. cbn [res_bind]. intros Hr. apply Ok_inj in Hr. rewrite <- Hr.
  intros x y Hxy. rewrite <- (Hp x y Hxy). unfold displayed, drawn, pixel16. cbn [w_vc set_w_vc]. by rewrite Hm, Hx.
Qed.

Lemma event_handler_scene (w : W) b w' :
  safe a w -> w_mode w <> EXIT -> event_handler a rand malloc polls w = Ok (b, w') ->
  displayed (w_vc w') ~~ render a (scene_of w).
Proof.
  intros Hs Hx. unfold event_handler. destruct (handle_mode a rand malloc polls w) as [w1 |] eqn:Hh; [| done]. cbn [res_bind].
  destruct (on_vc copy_to_video w1) as [w2 |] eqn:Hc; [| done]. cbn [res_bind]. intros Hr.
  assert (w2 = w') as <- by (by injection Hr). eapply flush_scene; [by apply handle_scene | exact Hc].
Qed.
End Scenes.

(** ** Runs *)

Section Runs.
Context {D : Type} `{PD : Ports D} `{DD : Delay D} `{ID : Irqs D}.
Variable a : assets.
Variable rand : D -> Z * D.
Variable malloc : Z -> list Z.
Variable polls : nat.

(** Somewhere in the run the line announces more than 999 rounds. *)
Definition announced_in (ms : list message) (run : list message -> res (bool * world D)) : Prop :=
  exists ms1 m ms2 w1 w2, ms = ms1 ++ m :: ms2 /\ run ms1 = Ok (false, w1) /\
    latched m w1 = Some (Ok w2) /\ announced a polls w2.

Lemma run_loop_more ms ms' w (w1 : world D) :
  run_loop a rand malloc polls ms w = Ok (false, w1) ->
  run_loop a rand malloc polls (ms ++ ms') w = run_loop a rand malloc polls ms' w1.
Proof.
  revert w. induction ms as [| m ms IH]; intros w; cbn [run_loop app].
  - intros Hr. apply Ok_inj in Hr. by injection Hr as <-.
  - destruct (run_message a rand malloc polls m w) as [[b w2] |]; [| done]. cbn [res_bind fst snd].
    destruct (negb _ && negb b); [apply IH |]. intros Hr. apply Ok_inj in Hr. by injection Hr.
Qed.

Lemma run_running v ms (w w1 : world D) :
  set_vbe_mode (sys_int86 v) VBE_MODE = 0 -> run a rand malloc polls v ms w = Ok (false, w1) ->
  run_loop a rand malloc polls ms (snd (run_start (set_w_vc (mode_vc v) w))) = Ok (false, w1).
Proof.
  intros Hv. unfold run. rewrite Hv. cbn [Z.eqb]. set (s := run_start _). clearbody s.
  destruct (run_loop _ _ _ _ ms (snd s)) as [[[|] w2] |]; [| | done]; cbn [res_bind fst snd]; intros Hr; [| exact Hr].
  apply Ok_inj in Hr. by injection Hr.
Qed.

(** One more message of a run. *)
Lemma run_one_more v ms i (w w1 : world D) b w' :
  set_vbe_mode (sys_int86 v) VBE_MODE = 0 -> run a rand malloc polls v ms w = Ok (false, w1) ->
  run a rand malloc polls v (ms ++ [Hardware i]) w = Ok (b, w') ->
  exists w2 b3 w3, latch_irqs i w1 = Ok w2 /\ event_handler a rand malloc polls w2 = Ok (b3, w3) /\ w_vc w' = w_vc w3.
Proof.
  intros Hv Hr Hr'. apply (run_running v ms w w1 Hv) in Hr.
  destruct (run_inv _ _ _ _ _ _ _ _ _ Hv Hr') as (w4 & Hl & d & ->). rewrite (run_loop_more _ _ _ _ Hr) in Hl.
  cbn [run_loop run_message] in Hl. destruct (latch_irqs i w1) as [w2 |]; [| done]. cbn [res_bind] in Hl.
  destruct (event_handler a rand malloc polls w2) as [[b3 w3] |] eqn:Hh; [| done]. cbn [res_bind fst snd] in Hl.
  exists w2, b3, w3. split; [done |]. split; [done |].
  destruct (negb _ && negb b3); apply Ok_inj in Hl; by injection Hl as _ <-.
Qed.
End Runs.

(** ** Properties *)


