(* ===== verification/Programs.v ===== *)
(** Two whole programs in a game, joined by the line between their serial ports:
    the store of the program and its driver discharge the interface [MpLine] of
    [MpLink], a message of the main loop is a few actions of the protocol of
    [MpNet], and the screens of the two computers agree. *)

From stdpp Require Import base tactics list.
From Stdlib Require Import ZArith Lia Ascii.
From S2P Require Import Prelude Consts Ports Rtc Uart Timer Keyboard Mouse NumLetters Vc Screen CString.
From S2P Require Import Leaderboard Highscore Menus Pad Game Says GameProps MpGame MpLink MpNet MpSafe.
From S2P Require Import Simon SimonProps Session Safety Scenes.

(** ** The other drivers are apart from the serial port *)

Section Apart.
Context {D : Type} `{SL : SerialLine D}.

Ltac apart_all := keeps_all ltac:(first [apply apart_inb; reflexivity | apply apart_outb; reflexivity]).

Lemma apart_set_seconds_alarm : st_keeps apart set_seconds_alarm.
Proof. unfold set_seconds_alarm. apart_all. Qed.
Lemma apart_set_timed_alarm n : st_keeps apart (set_timed_alarm n).
Proof. unfold set_timed_alarm. apart_all. Qed.
Lemma apart_rtc_handler p : st_keeps apart (rtc_handler p).
Proof. unfold rtc_handler, clear_interruptions. apart_all. Qed.
Lemma apart_keyboard_handler i k : st_keeps apart (keyboard_handler i k).
Proof. unfold keyboard_handler, kbc_ih. apart_all. Qed.
Lemma apart_mouse_get_state k : st_keeps apart (mouse_get_state k).
Proof. unfold mouse_get_state. apart_all. Qed.
End Apart.

(** ** The line of the program *)

(** The port is up and the table of scores is there. *)
Definition program_up {D} `{SerialLine D} (w : world D) : Prop :=
  link_up (w_dev w) /\ is_ok (getLowestHiScore (w_lb w)) = true.

Section Line.
Context {D : Type} `{PD : Ports D} `{DD : Delay D} {UD : UartDevice D} `{SL : !SerialLine D}.
Variable polls : nat.
#[local] Abbreviation W := (world D).

Lemma apart_up {A} (m : ST D A) (w : W) :
  st_keeps apart m -> program_up w ->
  uart_tx (w_dev (snd (on_dev m w))) = uart_tx (w_dev w) /\ program_up (snd (on_dev m w)).
Proof. intros Hm [Hup Hl]. destruct (apart_link _ _ (Hm (w_dev w)) Hup) as (Hup' & Ht & _). by split. Qed.

#[export, refine] Instance program_line : @MpLine W (world_mp polls) := {
  sent w := uart_tx (w_dev w);
  line_up := program_up
}.
Proof.
  - intros w [Hup Hl]. destruct (link_check _ Hup) as (Hc & Ht & Hup'). by split_and!.
  - intros b w [Hup Hl] Hb. destruct (link_write b _ Hup Hb) as [Ht Hup']. by split_and!.
  - intros n w. apply apart_up, apart_set_timed_alarm.
  - intros w. apply apart_up, apart_set_seconds_alarm.
Defined.

#[export] Instance program_quiet : @MpQuiet W (world_mp polls) program_line.
Proof.
  constructor.
  - done.
  - intros w [_ Hl]. exact Hl.
  - intros n w Hup. eexists. split; [apply reset_hiscore_run |]. exact (conj eq_refl Hup).
Qed.
End Line.

(** ** Turns of the main loop *)

Section Turns.
Context {D : Type} `{PD : Ports D} `{DD : Delay D} {UD : UartDevice D} `{SL : !SerialLine D}.
Variable a : assets.
Variable rand : D -> Z * D.
Variable malloc : Z -> list Z.
Variable polls : nat.
#[local] Abbreviation W := (world D).
#[local] Instance P_mp : MpEnv W := world_mp polls.
#[local] Instance P_line : MpLine W := program_line polls.
#[local] Instance P_quiet : MpQuiet W := program_quiet polls.

(** Two programs and the bytes on their way in either direction. *)
Record programs := Programs { p_near : W; p_far : W; wire_far : list Z; wire_near : list Z }.

Definition flip (p : programs) : programs := Programs (p_far p) (p_near p) (wire_near p) (wire_far p).

(** The serial port interrupts for a byte that comes in, and only then: the first
    byte of the wire arrives when the message has the bit of the port. *)
Definition raised (i : Z) (bytes : list Z) : Z := match bytes with [] => Z.clearbit i UART_IRQ | _ => i end.

Definition arriving (i : Z) (bytes : list Z) (w : W) : W :=
  match bytes with
  | b :: _ => if flag i UART_IRQ then set_w_dev (arrive b (w_dev w)) w else w
  | [] => w
  end.

Definition waiting (i : Z) (bytes : list Z) : list Z := if flag i UART_IRQ then tail bytes else bytes.

(** A message of the near program's loop; what it sends goes on its way. *)
Definition near_turn (i : Z) (p : programs) : res programs :=
  res_bind (run_message a rand malloc polls (Hardware (raised i (wire_near p))) (arriving i (wire_near p) (p_near p)))
    (fun r => Ok (Programs (snd r) (p_far p)
      (wire_far p ++ drop (length (uart_tx (w_dev (p_near p)))) (uart_tx (w_dev (snd r)))) (waiting i (wire_near p)))).

(** On either side (the near one when true). *)
Definition turn (t : bool * Z) (p : programs) : res programs :=
  if fst t then near_turn (snd t) p else res_bind (near_turn (snd t) (flip p)) (fun p => Ok (flip p)).

Fixpoint turns (ts : list (bool * Z)) (p : programs) : res programs :=
  match ts with
  | [] => Ok p
  | t :: ts => res_bind (turn t p) (turns ts)
  end.

(** What ends the account: the program is no longer in the game or in its loop,
    or one of the events of the message ends the agreement. *)
Inductive stop := Away | Parted (c : cause).

Fixpoint parting (evs : list mp_event_kind) (w : W) : option cause :=
  match evs with
  | [] => None
  | ev :: evs =>
      match (match ev with Here ev => breaks ev (w_mp w) | Uart _ _ => None end) with
      | Some c => Some c
      | None => match mp_play polls ev w with Ok w => parting evs w | Undef _ => None end
      end
  end.

Definition in_game (w : W) : bool := mode_eqb (w_mode w) MP_GAME && negb (scancode_is_esc_break (w_kbd w)).

Definition near_stop (i : Z) (p : programs) : option stop :=
  if in_game (p_near p) then
    match latch_irqs (raised i (wire_near p)) (arriving i (wire_near p) (p_near p)) with
    | Ok w =>
        match draw_mp a w with
        | Ok w' => Parted <$> parting (mp_events w) w'
        | Undef _ => None
        end
    | Undef _ => None
    end
  else Some Away.

Definition turn_stop (t : bool * Z) (p : programs) : option stop := near_stop (snd t) (if fst t then p else flip p).

(** The turns until the first that ends the account, if there is one. *)
Fixpoint until_stop (ts : list (bool * Z)) (p : programs) : res (programs * option stop) :=
  match ts with
  | [] => Ok (p, None)
  | t :: ts =>
      match turn_stop t p with
      | Some s => Ok (p, Some s)
      | None => res_bind (turn t p) (until_stop ts)
      end
  end.

(** *** What is sent is bytes *)

Definition bytes (l : list Z) : Prop := Forall (fun b => 0 <= b < 256) l.

Definition sends (w w' : W) : Prop := exists l, uart_tx (w_dev w') = uart_tx (w_dev w) ++ l /\ bytes l.

#[local] Instance sends_preorder : PreOrder sends.
Proof.
  split; [intros w; exists []; by rewrite app_nil_r; split; [| constructor] |].
  intros w1 w2 w3 (l & E & Hl) (l' & E' & Hl'). exists (l ++ l'). rewrite E', E, app_assoc.
  split; [done | by apply Forall_app].
Qed.

Lemma sends_same (w w' : W) : uart_tx (w_dev w') = uart_tx (w_dev w) -> sends w w'.
Proof. intros E. exists []. rewrite app_nil_r. by split; [| constructor]. Qed.

Lemma sends_apart {A} (m : ST D A) (w : W) : st_keeps apart m -> sends w (snd (on_dev m w)).
Proof. intros Hm. apply sends_same. pose proof (Hm (w_dev w)) as He. unfold apart in He. by injection He. Qed.

Lemma sends_write b (w : W) : sends w (snd (on_dev (serial_write_byte b) w)).
Proof.
  destruct (serial_write_byte_sends (w_dev w) b) as (_ & Ht & _). destruct (flag _ _); [| rewrite app_nil_r in Ht; exact (sends_same w (snd (on_dev (serial_write_byte b) w)) Ht)].
  exists [u8 b]. split; [exact Ht |]. repeat constructor; apply u8_range.
Qed.

Lemma mp_play_sends ev (w w' : W) : mp_play polls ev w = Ok w' -> sends w w'.
Proof.
  assert (Hs : steps sends (mp_any ev)).
  { assert (Hc : forall w : W, sends w (snd (m_check_thr_emtpy w)))
      by (intros w1; apply sends_same; apply (check_thr_empty_keeps (w_dev w1))).
    assert (Ht : forall n (w : W), sends w (m_set_timed_alarm n w)) by (intros n w1; apply sends_apart, apart_set_timed_alarm).
    assert (Hsec : forall w : W, sends w (m_set_seconds_alarm w)) by (intros w1; apply sends_apart, apart_set_seconds_alarm).
    assert (Hm : forall m (w : W), sends w (m_set_mode m w)) by (intros m w1; by apply sends_same).
    assert (Hh : forall n (w w' : W), m_reset_hiscore n w = Ok w' -> sends w w').
    { intros n w1 w2 Hr. apply Ok_inj in Hr. rewrite <- Hr. by apply sends_same. }
    assert (Hw : forall b (w : W), sends w (snd (m_serial_write_byte b w))) by (intros b w1; apply sends_write).
    destruct ev as [[] |]; cbn [mp_any mp_event];
      [apply mp_mouse_steps | apply mp_rtc_steps | apply mp_key_steps | apply mp_timer_steps | apply mp_uart_steps];
      auto; exact _. }
  unfold mp_play, on_mp. destruct (mp_any ev (w_mp w, w)) as [[[] [g w1]] |] eqn:Hr; [| done].
  cbn [res_bind fst snd]. intros Hw'. apply Ok_inj in Hw'. rewrite <- Hw'. exact (Hs _ _ _ Hr).
Qed.

(** ** The network of the two programs *)

Definition net_of (p : programs) : net W :=
  Net (w_mp (p_near p), p_near p) (w_mp (p_far p), p_far p) (wire_far p) (wire_near p).

Definition agreeing (p : programs) : Prop :=
  (safe a (p_near p) /\ safe a (p_far p)) /\ (bytes (wire_near p) /\ bytes (wire_far p)) /\ consistent (net_of p).

Lemma agreeing_flip p : agreeing p -> agreeing (flip p).
Proof. intros ([H1 H2] & [H3 H4] & H5). split; [done |]. split; [done |]. exact (consistent_swap (net_of p) H5). Qed.

(** *** The events of a message *)

(** The near program after some of them, the far one and the wires as they are. *)
Definition near_net (w : W) (far : Mp.mst * W) (out inn : list Z) : net W := Net (w_mp w, w) far out inn.

Lemma consistent_put L (e : W) far out inn :
  consistent (Net (L, e) far out inn) -> consistent (near_net (set_w_mp L e) far out inn).
Proof. intros [[Hn Hf] Ha]. split; [split; [exact Hn | exact Hf] | exact Ha]. Qed.

Lemma play_near ev (w : W) far out inn rest P :
  near_ok (mp_any ev) rest (near_net w far out inn) P ->
  in_play a MP_GAME w -> negb (byte_ok ev) || announces ev (w_mp w) = false ->
  exists g e bs, mp_play polls ev w = Ok (set_w_mp g e) /\ in_play a MP_GAME (set_w_mp g e) /\
    uart_tx (w_dev e) = uart_tx (w_dev w) ++ bs /\ bytes bs /\ P (Net (g, e) far (out ++ bs) rest).
Proof.
  intros (g & e & bs & Hr & Hs & HP) Hw Ha. exists g, e, bs.
  assert (Hp : mp_play polls ev w = Ok (set_w_mp g e)).
  { unfold mp_play, on_mp. change (mp_any ev (w_mp w, w)) with (mp_any ev (near (near_net w far out inn))). by rewrite Hr. }
  split; [exact Hp |]. split.
  - pose proof (mp_play_safe a polls ev w Hw Ha) as Hsafe. destruct (mp_faulty ev (w_mp w)); [by rewrite Hp in Hsafe |].
    destruct Hsafe as (w' & Hp' & Hw'). assert (set_w_mp g e = w') as -> by (apply Ok_inj; exact (eq_trans (eq_sym Hp) Hp')).
    exact Hw'.
  - destruct (mp_play_sends ev w _ Hp) as (l & E & Hl). cbn in Hs. split; [exact Hs |]. split; [| exact HP].
    assert (bs = l) as ->; [| done]. apply (app_inv_head (uart_tx (w_dev w))). exact (eq_trans (eq_sym Hs) E).
Qed.

(** What is known of the near program between two events. *)
Definition amid (w : W) (far : Mp.mst * W) (out inn : list Z) : Prop :=
  in_play a MP_GAME w /\ bytes out /\ consistent (near_net w far out inn).

(** What comes of [w]: it is [amid] again, and what it has sent is on its way. *)
Definition leads_to (r : res W) (w : W) (far : Mp.mst * W) (out inn : list Z) : Prop :=
  exists w' bs, r = Ok w' /\ uart_tx (w_dev w') = uart_tx (w_dev w) ++ bs /\ amid w' far (out ++ bs) inn.

Lemma play_leads ev w far out inn rest :
  near_ok (mp_any ev) rest (near_net w far out inn) consistent ->
  amid w far out inn -> negb (byte_ok ev) || announces ev (w_mp w) = false ->
  leads_to (mp_play polls ev w) w far out rest.
Proof.
  intros Hn (Hw & Ho & _) Ha. destruct (play_near ev w far out inn rest consistent Hn Hw Ha) as (g & e & bs & Hp & Hw' & Ht & Hb & Hc').
  exists (set_w_mp g e), bs. split; [exact Hp |]. split; [exact Ht |]. split; [exact Hw' |].
  split; [by apply Forall_app | exact (consistent_put _ _ _ _ _ Hc')].
Qed.

Lemma leads_then (f g : W -> res W) w far out inn inn' :
  leads_to (f w) w far out inn ->
  (forall w' out', f w = Ok w' -> amid w' far out' inn -> leads_to (g w') w' far out' inn') ->
  leads_to (then_ f g w) w far out inn'.
Proof.
  intros (w1 & bs1 & Hf & Ht1 & Hw1) Hg. destruct (Hg w1 _ Hf Hw1) as (w2 & bs2 & Hr & Ht2 & Hw2).
  exists w2, (bs1 ++ bs2). unfold then_. rewrite Hf. cbn [res_bind]. rewrite Ht2, Ht1, <- !app_assoc in *. done.
Qed.

Lemma plays_here evs rest w far out inn inn' :
  Forall (fun ev => match ev with Here _ => True | Uart _ _ => False end) evs -> amid w far out inn ->
  parting (evs ++ rest) w = None ->
  (forall w' out', amid w' far out' inn -> leads_to (plays (mp_play polls) rest w') w' far out' inn') ->
  leads_to (plays (mp_play polls) (evs ++ rest) w) w far out inn'.
Proof.
  intros Hev. revert w out. induction Hev as [| ev evs Hev1 Hev IH]; intros w out Hw Hpart Hrest; [by apply Hrest |].
  destruct ev as [ev |]; [| done]. cbn [parting app plays] in *. destruct (breaks ev (w_mp w)) eqn:Hb; [done |].
  apply (leads_then _ _ w far out inn).
  - apply (play_leads (Here ev) w far out inn inn); [| exact Hw | done]. apply (local_near ev _ (proj2 (proj2 Hw)) Hb).
  - intros w1 out1 Hp Hw1. rewrite Hp in Hpart. by apply IH.
Qed.

(** The byte that has come in. *)
Lemma byte_of_wire (w : W) far out b rest :
  consistent (near_net w far out (b :: rest)) -> 0 <= b < 256 ->
  negb (byte_ok (Uart b IIR_REC_DATA)) || announces (Uart b IIR_REC_DATA) (w_mp w) = false.
Proof.
  intros Hc Hb. destruct (waiting_idle _ b rest Hc eq_refl) as [(_ & _ & Hst) _]. cbn [near near_net fst] in Hst.
  unfold byte_ok, announces. rewrite Hst.
  replace (0 <=? b) with true by (symmetry; apply Z.leb_le; lia).
  replace (b <? 256) with true by (symmetry; apply Z.ltb_lt; lia). by rewrite andb_false_r.
Qed.

Lemma play_byte w far out b rest :
  amid w far out (b :: rest) -> 0 <= b < 256 ->
  leads_to (mp_play polls (Uart b IIR_REC_DATA) w) w far out rest.
Proof.
  intros Hw Hb. pose proof (proj2 (proj2 Hw)) as Hc. apply (play_leads _ w far out (b :: rest)); [| exact Hw |].
  - exact (deliver_near _ b rest Hc eq_refl).
  - exact (byte_of_wire w far out b rest Hc Hb).
Qed.

(** *** The interrupts *)

(** The other interrupts leave the line and the game alone. *)
Definition apartw (w w' : W) : Prop := apart (w_dev w) (w_dev w') /\ w_mp w' = w_mp w /\ w_lb w' = w_lb w.

Lemma apartw_trans w1 w2 w3 : apartw w1 w2 -> apartw w2 w3 -> apartw w1 w3.
Proof.
  intros (H1 & H2 & H3) (H4 & H5 & H6).
  split; [etransitivity; [exact H1 | exact H4] |]. split; [exact (eq_trans H5 H2) | exact (eq_trans H6 H3)].
Qed.

Lemma apartw_same (w w' : W) : w_dev w' = w_dev w -> w_mp w' = w_mp w -> w_lb w' = w_lb w -> apartw w w'.
Proof. intros Hd Hm Hl. split; [rewrite Hd; reflexivity | by split]. Qed.

Lemma apartw_up (w w' : W) :
  apartw w w' -> program_up w ->
  program_up w' /\ uart_tx (w_dev w') = uart_tx (w_dev w) /\ uart_rx (w_dev w') = uart_rx (w_dev w).
Proof.
  intros (Ha & _ & Hl) [Hup Ht]. destruct (apart_link _ _ Ha Hup) as (Hup' & Htx & Hrx).
  split; [split; [exact Hup' | by rewrite Hl] | by split].
Qed.

Lemma keyboard_irq_apart set (w : W) : apartw w (keyboard_irq set w).
Proof.
  unfold keyboard_irq. destruct set; [| by apply apartw_same].
  pose proof (apart_keyboard_handler 0 (w_kbd w) (w_dev w)) as Hq. unfold on_dev.
  destruct (keyboard_handler 0 (w_kbd w) (w_dev w)) as [[[got key] kb] d]. cbn [fst snd] in *. by destruct key.
Qed.

Lemma mouse_irq_apart set (w w' : W) : mouse_irq set w = Ok w' -> apartw w w'.
Proof.
  unfold mouse_irq. destruct set; [| intros Hr; apply Ok_inj in Hr; subst; by apply apartw_same].
  pose proof (apart_mouse_get_state (w_mdrv w) (w_dev w)) as Hq. unfold on_dev, mouse_handler. cbn [fst snd].
  destruct (mouse_feed _) as [[p k] |]; [| done]. cbn [res_bind fst snd]. intros Hr. apply Ok_inj in Hr. subst.
  by destruct p.
Qed.

Lemma rtc_irq_apart set (w : W) : apartw w (rtc_irq set w).
Proof.
  unfold rtc_irq. destruct set; [| by apply apartw_same].
  pose proof (apart_rtc_handler (w_rtc_previous w) (w_dev w)) as Hq. unfold on_dev.
  by destruct (rtc_handler (w_rtc_previous w) (w_dev w)) as [[[] x] d].
Qed.

Lemma uart_irq_line set b (w : W) :
  program_up w -> (set = true -> uart_rx (w_dev w) = Some b) ->
  let w' := uart_irq set w in
  program_up w' /\ uart_tx (w_dev w') = uart_tx (w_dev w) /\ w_mp w' = w_mp w /\ w_uart_interrupt w' = set /\
  (set = true -> w_data_packet w' = b /\ w_uart_type w' = IIR_REC_DATA).
Proof.
  intros [Hup Hl] Hrx. destruct set; [| by split_and!].
  destruct (link_handler (w_data_packet w) b (w_dev w) Hup (Hrx eq_refl)) as (Hv & Ht & Hup').
  cbv zeta. unfold uart_irq, on_dev. rewrite Hv. cbn [fst snd]. by split_and!.
Qed.

(** A message with the bit of the port only when a byte waits. *)
Lemma latch_line i b (w w' : W) :
  latch_irqs i w = Ok w' -> program_up w -> (flag i UART_IRQ = true -> uart_rx (w_dev w) = Some b) ->
  program_up w' /\ uart_tx (w_dev w') = uart_tx (w_dev w) /\ w_mp w' = w_mp w /\ w_uart_interrupt w' = flag i UART_IRQ /\
  (flag i UART_IRQ = true -> w_data_packet w' = b /\ w_uart_type w' = IIR_REC_DATA).
Proof.
  unfold latch_irqs. destruct (mouse_irq _ _) as [w1 |] eqn:Hm; [| done]. cbn [res_bind]. intros Hr Hup Hrx.
  apply Ok_inj in Hr. subst w'.
  set (w2 := rtc_irq (flag i RTC_IRQ) (set_w_timer_interrupt (flag i TIMER0_IRQ) w1)).
  assert (Ha : apartw w w2).
  { apply (apartw_trans _ w1); [exact (apartw_trans _ _ _ (keyboard_irq_apart _ w) (mouse_irq_apart _ _ _ Hm)) |].
    apply (apartw_trans _ (set_w_timer_interrupt (flag i TIMER0_IRQ) w1)); [by apply apartw_same | apply rtc_irq_apart]. }
  destruct (apartw_up w w2 Ha Hup) as (Hup2 & Ht2 & Hr2).
  destruct (uart_irq_line (flag i UART_IRQ) b w2 Hup2) as (H1 & H2 & H3 & H4 & H5); [by rewrite Hr2 |].
  rewrite H2, H3, Ht2. by destruct Ha as (_ & -> & _).
Qed.

(** The bit of the port, and the byte. *)
Lemma arriving_cases i l (w : W) :
  bytes l -> program_up w ->
  program_up (arriving i l w) /\ uart_tx (w_dev (arriving i l w)) = uart_tx (w_dev w) /\ w_mp (arriving i l w) = w_mp w /\
  ((flag (raised i l) UART_IRQ = false /\ waiting i l = l) \/
   exists b rest, l = b :: rest /\ flag (raised i l) UART_IRQ = true /\ waiting i l = rest /\
     uart_rx (w_dev (arriving i l w)) = Some b).
Proof.
  intros Hl [Hup Ht]. unfold arriving, raised, waiting. destruct l as [| b rest].
  - split; [done |]. split; [done |]. split; [done |]. left. split; [| by destruct (flag i UART_IRQ)].
    rewrite flag_testbit by (unfold UART_IRQ; lia). rewrite Z.clearbit_eq. done.
  - destruct (flag i UART_IRQ) eqn:Hi; [| by split_and!; auto].
    apply Forall_cons in Hl as [Hb _]. pose proof (rx_arrive b (w_dev w) Hb) as He. injection He as Hlcr Hlsr Htx Hrx.
    split; [split; [unfold link_up; cbn [w_dev set_w_dev]; by rewrite Hlcr, Hlsr | exact Ht] |].
    split; [exact Htx |]. split; [done |]. right. by exists b, rest.
Qed.

(** *** A turn *)

Lemma in_play_safe (w : W) : in_play a MP_GAME w -> safe a w.
Proof.
  intros [Hb Hm]. split; [done |]. unfold mode_ok. by destruct Hm as [-> | [-> | [-> Ht]]].
Qed.

(** The events of a message: those of this computer, then the byte. *)
Definition here_events (w : W) : list mp_event_kind :=
  (if w_got_key_press w then [Here (Key (w_keyboard_packet w))] else []) ++
  (if w_got_mouse_packet w then [Here (MpNet.Mouse (w_mouse_packet w))] else []) ++
  (if w_timer_interrupt w then [Here MpNet.Timer] else []) ++
  (if w_rtc_interrupt w then [Here Tick] else []).

Lemma mp_events_split (w : W) :
  mp_events w = here_events w ++ (if w_uart_interrupt w then [Uart (w_data_packet w) (w_uart_type w)] else []).
Proof. unfold mp_events, here_events. by rewrite <- !app_assoc. Qed.

Lemma here_events_here (w : W) :
  Forall (fun ev => match ev with Here _ => True | Uart _ _ => False end) (here_events w).
Proof. unfold here_events. by destruct (w_got_key_press w), (w_got_mouse_packet w), (w_timer_interrupt w), (w_rtc_interrupt w); repeat constructor. Qed.

Hypothesis Ha : assets_ok a.
Hypothesis Hblock : (11 <= length (malloc 10))%nat.

(** What is known of the near program when its message is dispatched. *)
Lemma near_latched i p :
  agreeing p -> in_game (p_near p) = true ->
  exists w1 w2, latch_irqs (raised i (wire_near p)) (arriving i (wire_near p) (p_near p)) = Ok w1 /\
    draw_mp a w1 = Ok w2 /\ inputs_kept w1 w2 /\ safe a w1 /\ w_mode w1 = MP_GAME /\ w_mp w1 = w_mp (p_near p) /\
    uart_tx (w_dev w2) = uart_tx (w_dev (p_near p)) /\
    amid w2 (w_mp (p_far p), p_far p) (wire_far p) (wire_near p) /\
    if w_uart_interrupt w1
    then wire_near p = w_data_packet w1 :: waiting i (wire_near p) /\ w_uart_type w1 = IIR_REC_DATA
    else wire_near p = waiting i (wire_near p).
Proof.
  intros ((Hs & _) & (Hbn & Hbf) & Hc) Hg. apply andb_true_iff in Hg as [Hm _]. apply bool_decide_eq_true in Hm.
  destruct (arriving_cases i (wire_near p) (p_near p) Hbn (proj1 (proj1 Hc))) as (Hup0 & Ht0 & Hmp0 & Hcase).
  set (w0 := arriving i (wire_near p) (p_near p)) in *. set (r := raised i (wire_near p)) in *.
  assert (Hs0 : safe a w0 /\ w_mode w0 = MP_GAME).
  { unfold w0, arriving. destruct (wire_near p); [done |]. destruct (flag i UART_IRQ); [| done].
    split; [| exact Hm]. destruct Hs as [Hb Hmode]. split; [by apply devices_base | exact Hmode]. }
  destruct Hs0 as [Hs0 Hm0]. clearbody w0 r.
  destruct (latched_safe a malloc Hblock (Hardware r) w0 _ Hs0 eq_refl) as (w1 & Hl & Hs1 & Hm1). rewrite Hm0 in Hm1.
  assert (Hline : exists b, flag r UART_IRQ = true -> uart_rx (w_dev w0) = Some b).
  { destruct Hcase as [[Hf _] | (b & rest & _ & _ & _ & Hrx)]; [by exists 0; rewrite Hf | by exists b]. }
  destruct Hline as [b Hrx]. destruct (latch_line r b w0 w1 Hl Hup0 Hrx) as (Hup1 & Ht1 & Hmp1 & Hint & Hdata).
  destruct (draw_mp_ok a Ha w1 (conj (proj1 Hs1) (or_introl Hm1))) as (w2 & Hd & Hw2 & Hk & _).
  exists w1, w2. split; [exact Hl |]. split; [exact Hd |]. split; [exact Hk |]. split; [exact Hs1 |]. split; [exact Hm1 |].
  split; [congruence |].
  assert (Hsame : w_mp w2 = w_mp w1 /\ w_dev w2 = w_dev w1 /\ w_lb w2 = w_lb w1).
  { unfold draw_mp in Hd. destruct (Mp.mp_draw_game_graphics _ _ _ _); [| done]. cbn [res_bind] in Hd.
    apply Ok_inj in Hd. by rewrite <- Hd. }
  destruct Hsame as (Hmp2 & Hd2 & Hl2). split; [congruence |]. split.
  - split; [exact Hw2 |]. split; [exact Hbf |]. unfold near_net. rewrite Hmp2, Hmp1, Hmp0.
    destruct Hc as [[_ Hfar] Hab]. split; [split; [| exact Hfar] | exact Hab].
    cbn [near snd]. destruct Hup1 as [Hup1 Htab1]. split; [by rewrite Hd2 | by rewrite Hl2].
  - rewrite Hint. destruct Hcase as [(Hf & Hw) | (b' & rest & Hwire & Hf & Hw & Hrx')]; rewrite Hf; [by rewrite Hw |].
    destruct (Hdata Hf) as [-> ->]. rewrite Hw, Hwire. split; [| done]. f_equal. pose proof (Hrx Hf) as He. congruence.
Qed.

Lemma near_turn_eq i p (w1 w2 w3 : W) bs :
  latch_irqs (raised i (wire_near p)) (arriving i (wire_near p) (p_near p)) = Ok w1 -> safe a w1 -> w_mode w1 = MP_GAME ->
  draw_mp a w1 = Ok w2 -> inputs_kept w1 w2 -> plays (mp_play polls) (mp_events w1) w2 = Ok w3 -> in_play a MP_GAME w3 ->
  uart_tx (w_dev w3) = uart_tx (w_dev (p_near p)) ++ bs ->
  exists v, near_turn i p = Ok (Programs (set_w_vc v w3) (p_far p) (wire_far p ++ bs) (waiting i (wire_near p))) /\
    safe a (set_w_vc v w3) /\ displayed v ~~ render a (mp_scene (w_mp w1)).
Proof.
  intros Hl Hs1 Hm1 Hd Hk Hr Hw3 Ht. destruct (flush w3 (bo_screen a w3 (proj1 Hw3))) as (v & Hf & Hv).
  assert (Heh : event_handler a rand malloc polls w1 = Ok (mode_eqb (w_mode w3) EXIT, set_w_vc v w3)).
  { unfold event_handler. rewrite (handle_mp a rand malloc polls w1 w2 Hm1 Hd Hk), Hr. cbn [res_bind]. by rewrite Hf. }
  exists v. split; [| split].
  - unfold near_turn. cbn [run_message]. rewrite Hl. cbn [res_bind]. rewrite Heh. cbn [res_bind snd].
    change (uart_tx (w_dev (set_w_vc v w3))) with (uart_tx (w_dev w3)). by rewrite Ht, drop_app_length.
  - apply safe_vc; [exact Hv | by apply in_play_safe].
  - pose proof (event_handler_scene a rand malloc polls Ha Hblock w1 _ _ Hs1 ltac:(congruence) Heh) as Hsc.
    unfold scene_of in Hsc. by rewrite Hm1 in Hsc.
Qed.

Lemma waiting_bytes i l : bytes l -> bytes (waiting i l).
Proof. intros Hl. unfold waiting. destruct (flag i UART_IRQ); [| done]. destruct Hl; [constructor | done]. Qed.

Lemma near_turn_ok i p :
  agreeing p -> near_stop i p = None ->
  exists p', near_turn i p = Ok p' /\ agreeing p' /\ p_far p' = p_far p /\ wire_near p' = waiting i (wire_near p) /\
    displayed (w_vc (p_near p')) ~~ render a (mp_scene (w_mp (p_near p))).
Proof.
  intros Hp. unfold near_stop. destruct (in_game (p_near p)) eqn:Hg; [| done].
  destruct (near_latched i p Hp Hg) as (w1 & w2 & Hl & Hd & Hk & Hs1 & Hm1 & Hmp1 & Ht2 & Hw2 & Hwire). rewrite Hl, Hd.
  destruct (parting (mp_events w1) w2) eqn:Hpart; [done |]. intros _. destruct Hp as ((_ & Hsf) & (Hbn & _) & _).
  assert (Hplays : leads_to (plays (mp_play polls) (mp_events w1) w2) w2 (w_mp (p_far p), p_far p) (wire_far p) (waiting i (wire_near p))).
  { rewrite mp_events_split in Hpart |- *. apply (plays_here _ _ _ _ _ (wire_near p)); [apply here_events_here | exact Hw2 | exact Hpart |].
    intros w' out' Hw'. destruct (w_uart_interrupt w1).
    - destruct Hwire as [Hwire ->]. cbn [plays]. rewrite then_Ok. rewrite Hwire in Hw'. apply play_byte; [exact Hw' |].
      rewrite Hwire in Hbn. by apply Forall_cons in Hbn as [Hb _].
    - exists w', []. rewrite !app_nil_r, <- Hwire. done. }
  destruct Hplays as (w3 & bs & Hr & Ht3 & Hw3 & Hb3 & Hc3). rewrite Ht2 in Ht3.
  destruct (near_turn_eq i p w1 w2 w3 bs Hl Hs1 Hm1 Hd Hk Hr Hw3 Ht3) as (v & Ht & Hsv & Hsc). rewrite Hmp1 in Hsc.
  eexists. split; [exact Ht |]. split; [| by split_and!]. split; [by split |].
  split; [split; [by apply waiting_bytes | exact Hb3] |].
  destruct Hc3 as [[H1 H2] H3]. split; [split; [exact H1 | exact H2] | exact H3].
Qed.

Lemma turn_ok t p : agreeing p -> turn_stop t p = None -> exists p', turn t p = Ok p' /\ agreeing p'.
Proof.
  intros Hp. unfold turn_stop, turn. destruct (fst t); intros Hs.
  - destruct (near_turn_ok (snd t) p Hp Hs) as (p' & Hr & Hp' & _). by exists p'.
  - destruct (near_turn_ok (snd t) (flip p) (agreeing_flip p Hp) Hs) as (p' & Hr & Hp' & _). rewrite Hr.
    exists (flip p'). split; [done | by apply agreeing_flip].
Qed.

Lemma until_stop_ok ts p :
  agreeing p -> exists p' o, until_stop ts p = Ok (p', o) /\ agreeing p' /\ (o = None -> turns ts p = Ok p').
Proof.
  revert p. induction ts as [| t ts IH]; intros p Hp; [by exists p, None |].
  cbn [until_stop turns]. destruct (turn_stop t p) as [s |] eqn:Hs; [by exists p, (Some s) |].
  destruct (turn_ok t p Hp Hs) as (p1 & Hr & Hp1). rewrite Hr. cbn [res_bind]. by apply IH.
Qed.

(** *** What the players see in the end *)

(** A message with a byte and nothing else, and one with nothing. *)
Definition byte_only : Z := BIT UART_IRQ.

Lemma latch_byte (w : W) :
  latch_irqs byte_only w =
    Ok (uart_irq true (rtc_irq false (set_w_timer_interrupt false (set_w_got_mouse_packet false (keyboard_irq false w))))).
Proof. reflexivity. Qed.

Lemma latch_nothing (w : W) :
  latch_irqs 0 w =
    Ok (uart_irq false (rtc_irq false (set_w_timer_interrupt false (set_w_got_mouse_packet false (keyboard_irq false w))))).
Proof. reflexivity. Qed.

Lemma byte_events (w : W) :
  let w1 := uart_irq true (rtc_irq false (set_w_timer_interrupt false (set_w_got_mouse_packet false (keyboard_irq false w)))) in
  mp_events w1 = [Uart (w_data_packet w1) (w_uart_type w1)] /\ w_uart_interrupt w1 = true /\ w_kbd w1 = w_kbd w.
Proof.
  set (w0 := rtc_irq false _).
  assert (H0 : w_got_key_press w0 = false /\ w_got_mouse_packet w0 = false /\ w_timer_interrupt w0 = false /\
            w_rtc_interrupt w0 = false /\ w_kbd w0 = w_kbd w) by (split_and!; reflexivity).
  clearbody w0. destruct H0 as (H1 & H2 & H3 & H4 & H5).
  assert (Hu : w_got_key_press (uart_irq true w0) = false /\ w_got_mouse_packet (uart_irq true w0) = false /\
            w_timer_interrupt (uart_irq true w0) = false /\ w_rtc_interrupt (uart_irq true w0) = false /\
            w_uart_interrupt (uart_irq true w0) = true /\ w_kbd (uart_irq true w0) = w_kbd w).
  { assert (Hw : exists x y d, uart_irq true w0 = set_w_uart_interrupt true (set_w_data_packet x (set_w_uart_type y (set_w_dev d w0))))
      by (eexists _, _, _; reflexivity).
    destruct Hw as (x & y & d & ->). by split_and!. }
  cbv zeta. destruct Hu as (U1 & U2 & U3 & U4 & U5 & U6). unfold mp_events. by rewrite U1, U2, U3, U4, U5, U6.
Qed.

Lemma no_events (w : W) :
  mp_events (uart_irq false (rtc_irq false (set_w_timer_interrupt false (set_w_got_mouse_packet false (keyboard_irq false w))))) = [].
Proof. reflexivity. Qed.

Lemma quiet_turn p :
  agreeing p -> in_game (p_near p) = true ->
  exists w, near_turn 0 p = Ok (Programs w (p_far p) (wire_far p) (wire_near p)) /\
    agreeing (Programs w (p_far p) (wire_far p) (wire_near p)) /\ w_mp w = w_mp (p_near p) /\
    displayed (w_vc w) ~~ render a (mp_scene (w_mp (p_near p))).
Proof.
  intros Hp Hg. destruct (near_latched 0 p Hp Hg) as (w1 & w2 & Hl & Hd & Hk & Hs1 & Hm1 & Hmp1 & Ht2 & Hw2 & _).
  assert (Hev : mp_events w1 = []).
  { replace (raised 0 (wire_near p)) with 0 in Hl by (by destruct (wire_near p)). rewrite latch_nothing in Hl.
    apply Ok_inj in Hl. rewrite <- Hl. apply no_events. }
  destruct Hw2 as (Hplay & Hout & [[H1 H2] H3]).
  destruct (near_turn_eq 0 p w1 w2 w2 [] Hl Hs1 Hm1 Hd Hk) as (v & Ht & Hsv & Hsc); [by rewrite Hev | exact Hplay | by rewrite app_nil_r |].
  rewrite app_nil_r in Ht. rewrite Hmp1 in Hsc. exists (set_w_vc v w2). split; [exact Ht |]. split; [| split; [| exact Hsc]].
  2: { unfold draw_mp in Hd. destruct (Mp.mp_draw_game_graphics _ _ _ _); [| done]. cbn [res_bind] in Hd.
       apply Ok_inj in Hd. by rewrite <- Hd. }
  destruct Hp as ((_ & Hsf) & (Hbn & _) & _). split; [by split |]. split; [by split |].
  split; [split; [exact H1 | exact H2] | exact H3].
Qed.

(** A byte changes neither the mode nor the keyboard. *)
Lemma byte_keeps_game b (w w' : W) :
  mp_play polls (Uart b IIR_REC_DATA) w = Ok w' -> w_mode w' = w_mode w /\ w_kbd w' = w_kbd w.
Proof.
  set (R := fun e e' : W => w_mode e' = w_mode e /\ w_kbd e' = w_kbd e).
  assert (HR : PreOrder R).
  { split; [by intros e |]. intros e1 e2 e3 [H1 H2] [H3 H4]. split; [exact (eq_trans H3 H1) | exact (eq_trans H4 H2)]. }
  assert (Hs : steps R (mp_any (Uart b IIR_REC_DATA))) by (apply mp_uart_steps; done).
  unfold mp_play, on_mp. destruct (mp_any _ (w_mp w, w)) as [[[] [g w1]] |] eqn:Hr; [| done].
  cbn [res_bind fst snd]. intros Hw'. apply Ok_inj in Hw'. rewrite <- Hw'. exact (Hs _ _ _ Hr).
Qed.

Lemma deliver_turn p b rest :
  agreeing p -> ahead (swap (net_of p)) -> in_game (p_near p) = true -> wire_near p = b :: rest ->
  exists p', near_turn byte_only p = Ok p' /\ agreeing p' /\ ahead (swap (net_of p')) /\ in_game (p_near p') = true /\
    p_far p' = p_far p /\ wire_near p' = rest.
Proof.
  intros Hp Hahead Hg Hwire.
  destruct (near_latched byte_only p Hp Hg) as (w1 & w2 & Hl & Hd & Hk & Hs1 & Hm1 & Hmp1 & Ht2 & Hw2 & Hbyte).
  assert (Hev : mp_events w1 = [Uart b IIR_REC_DATA] /\ w_kbd w1 = w_kbd (p_near p)).
  { rewrite Hwire in Hl. cbn [raised arriving] in Hl. rewrite latch_byte in Hl. apply Ok_inj in Hl.
    destruct (byte_events (set_w_dev (arrive b (w_dev (p_near p))) (p_near p))) as (Hev & Hint & Hkbd).
    change (flag byte_only UART_IRQ) with true in Hl. cbn iota in Hl. rewrite Hl in Hev, Hint, Hkbd.
    rewrite Hint in Hbyte. destruct Hbyte as [Hb Ht]. rewrite Hwire in Hb. injection Hb as Hb.
    rewrite Hev, Ht, <- Hb. by split. }
  destruct Hev as [Hev Hkbd]. destruct Hw2 as (Hplay & Hout & Hc2). rewrite Hwire in Hc2.
  destruct (waiting_idle _ b rest Hc2 eq_refl) as [_ Ha2].
  destruct Hp as ((_ & Hsf) & (Hbn & _) & _). rewrite Hwire in Hbn. apply Forall_cons in Hbn as [Hb Hrest].
  destruct (play_near (Uart b IIR_REC_DATA) w2 _ _ _ rest _ (deliver_one _ b rest (proj1 Hc2) Ha2 eq_refl) Hplay
              (byte_of_wire w2 _ _ b rest Hc2 Hb)) as (g & e & bs & Hr & Hw3 & Ht3 & Hbs & Hup3 & Ha3).
  destruct (near_turn_eq byte_only p w1 w2 (set_w_mp g e) bs Hl Hs1 Hm1 Hd Hk) as (v & Ht & Hsv & _); [| exact Hw3 | |].
  { rewrite Hev. cbn [plays]. by rewrite then_Ok. }
  { change (w_dev (set_w_mp g e)) with (w_dev e). by rewrite Ht3, Ht2. }
  destruct (byte_keeps_game b w2 _ Hr) as [Hmode Hkbd3].
  eexists. split; [exact Ht |]. cbn [p_near p_far wire_near]. rewrite Hwire. cbn [waiting tail].
  change (flag byte_only UART_IRQ) with true. cbn iota. split; [| split; [exact Ha3 | split; [| done]]].
  - split; [by split |]. split; [split; [exact Hrest | by apply Forall_app] |].
    destruct Hup3 as [H1 H2]. split; [split; [exact H1 | exact H2] | right; exact Ha3].
  - unfold in_game in Hg |- *. change (w_mode (set_w_vc v (set_w_mp g e))) with (w_mode (set_w_mp g e)).
    change (w_kbd (set_w_vc v (set_w_mp g e))) with (w_kbd (set_w_mp g e)). rewrite Hmode, Hkbd3.
    assert (Hdraw : w_mode w2 = w_mode w1 /\ w_kbd w2 = w_kbd w1).
    { unfold draw_mp in Hd. destruct (Mp.mp_draw_game_graphics _ _ _ _); [| done]. cbn [res_bind] in Hd.
      apply Ok_inj in Hd. by rewrite <- Hd. }
    destruct Hdraw as [-> ->]. rewrite Hm1, Hkbd. by apply andb_true_iff in Hg as [_ ->].
Qed.

Lemma turn_flip s i p p' : turn (s, i) (flip p) = Ok p' -> turn (negb s, i) p = Ok (flip p').
Proof.
  unfold turn. destruct s; cbn [fst snd negb].
  - intros Hr. by rewrite Hr.
  - replace (flip (flip p)) with p by (by destruct p). destruct (near_turn i p) as [q |]; [| done]. cbn [res_bind].
    intros Hr. apply Ok_inj in Hr. rewrite <- Hr. by destruct q.
Qed.

Lemma turns_flip s i k p p' : turns (replicate k (s, i)) (flip p) = Ok p' -> turns (replicate k (negb s, i)) p = Ok (flip p').
Proof.
  revert p. induction k as [| k IH]; intros p; cbn [replicate turns].
  - intros Hr. apply Ok_inj in Hr. rewrite <- Hr. by destruct p.
  - destruct (turn (s, i) (flip p)) as [q |] eqn:Ht; [| done]. cbn [res_bind].
    rewrite (turn_flip s i p q Ht). cbn [res_bind]. intros Hr. apply IH. by replace (flip (flip q)) with q by (by destruct q).
Qed.

Lemma turns_app ts ts' p p' : turns ts p = Ok p' -> turns (ts ++ ts') p = turns ts' p'.
Proof.
  revert p. induction ts as [| t ts IH]; intros p; cbn [app turns]; [intros Hr; apply Ok_inj in Hr; by rewrite Hr |].
  destruct (turn t p) as [q |]; [| done]. cbn [res_bind]. apply IH.
Qed.

(** Everything is read: nothing is on its way and the statics agree. *)
Definition settled (p : programs) : Prop :=
  agreeing p /\ wire_near p = [] /\ wire_far p = [] /\ linked (w_mp (p_near p)) (w_mp (p_far p)) /\
  in_game (p_near p) = true /\ in_game (p_far p) = true.

Lemma settled_flip p : settled p -> settled (flip p).
Proof.
  intros (H1 & H2 & H3 & H4 & H5 & H6). split; [by apply agreeing_flip |]. split_and!; try done. by apply linked_sym.
Qed.

Lemma deliver_all k p :
  agreeing p -> ahead (swap (net_of p)) -> in_game (p_near p) = true -> in_game (p_far p) = true -> length (wire_near p) = k ->
  exists p', turns (replicate k (true, byte_only)) p = Ok p' /\ settled p'.
Proof.
  revert p. induction k as [| k IH]; intros p Hp Hah Hgn Hgf Hk; cbn [replicate turns].
  - apply nil_length_inv in Hk. exists p. split; [done |]. destruct Hah as (Hf & L & Hd & Hl). cbn in Hf, Hd, Hl.
    rewrite Hk in Hd. inversion Hd; subst. split_and!; try done. by apply linked_sym.
  - destruct (wire_near p) as [| b rest] eqn:Hw; [done |].
    destruct (deliver_turn p b rest Hp Hah Hgn Hw) as (p1 & Hr & Hp1 & Hah1 & Hg1 & Hf1 & Hw1).
    unfold turn at 1. cbn [fst snd]. rewrite Hr. cbn [res_bind].
    apply IH; [done | done | done | by rewrite Hf1 | rewrite Hw1; by injection Hk].
Qed.

Lemma delivered p :
  agreeing p -> in_game (p_near p) = true -> in_game (p_far p) = true ->
  exists s k p', turns (replicate k (s, byte_only)) p = Ok p' /\ settled p'.
Proof.
  intros Hp Hgn Hgf. pose proof Hp as (_ & _ & _ & [Hah | Hah]).
  - destruct (deliver_all _ (flip p) (agreeing_flip p Hp) Hah Hgf Hgn eq_refl) as (p' & Hr & Hs).
    exists false, (length (wire_near (flip p))), (flip p'). split; [exact (turns_flip true byte_only _ p p' Hr) | by apply settled_flip].
  - destruct (deliver_all _ p Hp Hah Hgn Hgf eq_refl) as (p' & Hr & Hs). by exists true, (length (wire_near p)), p'.
Qed.

(** The same picture but for the cursor, the light and the seconds, which each
    computer has for itself; the same result. *)
Inductive alike : scene -> scene -> Prop :=
| alike_playing ps ps' p1 t t' n m m' : alike (playing_scene ps p1 t n m) (playing_scene ps' p1 t' n m')
| alike_result w : alike (Scene (winner_screen w) []) (Scene (winner_screen w) []).

Lemma linked_alike L R : linked L R -> alike (mp_scene L) (mp_scene R).
Proof.
  unfold mp_scene. intros [(q & Hs) | [Hl Hr Hw]].
  - rewrite (sy_end_l _ _ _ Hs), (sy_end_r _ _ _ Hs), (sy_turn _ _ _ Hs), (sy_size_l _ _ _ Hs), (sy_size_r _ _ _ Hs). constructor.
  - rewrite Hl, Hr, Hw. constructor.
Qed.

Lemma settled_shown p :
  settled p ->
  exists p', turns [(true, 0); (false, 0)] p = Ok p' /\ wire_near p' = [] /\ wire_far p' = [] /\
    displayed (w_vc (p_near p')) ~~ render a (mp_scene (w_mp (p_near p'))) /\
    displayed (w_vc (p_far p')) ~~ render a (mp_scene (w_mp (p_far p'))) /\
    alike (mp_scene (w_mp (p_near p'))) (mp_scene (w_mp (p_far p'))).
Proof.
  intros (Hp & Hwn & Hwf & Hl & Hgn & Hgf).
  destruct (quiet_turn p Hp Hgn) as (w & Hr1 & Hp1 & Hm1 & Hd1).
  destruct (quiet_turn (flip (Programs w (p_far p) (wire_far p) (wire_near p)))) as (w' & Hr2 & _ & Hm2 & Hd2);
    [by apply agreeing_flip | exact Hgf |].
  cbn [flip p_near p_far] in Hm2, Hd2. rewrite <- Hm1 in Hd1. rewrite <- Hm2 in Hd2.
  exists (Programs w w' (wire_far p) (wire_near p)). split; [| split; [done |]; split; [done |]; split; [exact Hd1 | split; [exact Hd2 |]]].
  - cbn [turns]. unfold turn. cbn [fst snd]. rewrite Hr1. cbn [res_bind]. by rewrite Hr2.
  - cbn [p_near p_far]. rewrite Hm1, Hm2. by apply linked_alike.
Qed.
End Turns.

(** Two programs in a game that agree. *)
Lemma sync_agreeing {D} `{SerialLine D} a polls q (w w' : world D) :
  safe a w -> safe a w' -> program_up w -> program_up w' -> sync q (w_mp w) (w_mp w') ->
  agreeing a polls (Programs w w' [] []).
Proof.
  intros Hw Hw' Hu Hu' Hs. split; [done |]. split; [split; constructor |].
  by apply (@sync_linked _ (world_mp polls) (program_line polls) q).
Qed.

(** ** Properties *)


(** Host and client in the middle of a game. *)
Definition in_mp_game (host : bool) : world serial :=
  set_w_mp (peer host true false 2 4) (set_w_mode MP_GAME (world_start frame0 lb0 serial0)).

Lemma peer_ok host : mp_ok (peer host true false 2 4).
Proof.
  constructor; cbn [Mp.max_buttons_size Mp.buttons_size Mp.player_score Mp.time_left_for_click Mp.received_no_bytes Mp.received_byte peer];
    try (unfold VS_INTERVAL; lia); [| exact center_mouse_in].
  right. right. split; [done |]. exists [GREEN_B; RED_B]. by split.
Qed.

Lemma in_mp_game_safe host : safe assets0 (in_mp_game host).
Proof. split; [| done]. apply mp_base; [apply peer_ok |]. apply mode_base, start_base_of. Qed.

Lemma in_mp_game_up host : program_up (in_mp_game host).
Proof. split; [by split | done]. Qed.

Lemma in_mp_game_agreeing : agreeing assets0 1 (Programs (in_mp_game true) (in_mp_game false) [] []).
Proof.
  apply (sync_agreeing assets0 1 [GREEN_B; RED_B]); try apply in_mp_game_safe; try apply in_mp_game_up.
  exact (peer_sync true false 2 4 4 true ltac:(lia)).
Qed.



