(* ===== verification/Devices.v ===== *)
(** What the program does to the machine: the accesses of a whole run to the
    ports and to the interrupt lines.

    A machine that keeps a log of the calls made to it ([LoggedMachine]) tells
    them apart; [touches P] is a step that logs only accesses that satisfy [P].
    Every driver routine is checked once, and [SimonProps]'s account of what a
    computation does to its environment carries it to the whole loop. *)

From stdpp Require Import base tactics list.
From Stdlib Require Import ZArith Lia Ascii.
From S2P Require Import Prelude Consts Ports Rtc Uart Timer Keyboard Mouse NumLetters Vc Screen CString.
From S2P Require Import Leaderboard Highscore Menus Pad Game MpGame Simon SimonProps Session.

(** ** The log *)

Inductive access :=
| In_ (port : Z)
| Out_ (port value : Z)
| Tick
| SetPolicy (line policy bit hook : Z)
| RmPolicy (hook : Z)
| Enable (hook : Z)
| Disable (hook : Z).

Class LoggedMachine (E : Type) `{Ports E, Delay E, Irqs E} (rand : E -> Z * E) := {
  log : E -> list access;
  log_in p e : log (snd (sys_inb p e)) = log e ++ [In_ p];
  log_out p v e : log (snd (sys_outb p v e)) = log e ++ [Out_ p v];
  log_tick e : log (snd (tickdelay e)) = log e ++ [Tick];
  log_rand e : log (snd (rand e)) = log e;
  log_set l p h e :
    log (snd (sys_irqsetpolicy l p h e)) = log e ++ [SetPolicy l p h (snd (fst (sys_irqsetpolicy l p h e)))];
  log_rm h e : log (snd (sys_irqrmpolicy h e)) = log e ++ [RmPolicy h];
  log_enable h e : log (snd (sys_irqenable h e)) = log e ++ [Enable h];
  log_disable h e : log (snd (sys_irqdisable h e)) = log e ++ [Disable h]
}.

(** The accesses of the loop: the data and the line-status registers of the
    serial port, its line-control register with the divisor latch closed; the
    registers of the clock; the keyboard controller, to which only the command
    that enables the mouse is written.  The interrupt-enable register of the
    serial port and the interrupt lines are not among them. *)
Definition clock_registers : list Z :=
  [SECONDS_REG; SECONDS_ALARM; MINUTES_ALARM; HOURS_ALARM; DAY_REG; MONTH_REG; YEAR_REG;
   REGISTER_A; REGISTER_B; REGISTER_C].

Definition mem (z : Z) (l : list Z) : bool := existsb (Z.eqb z) l.

Definition port_ok (x : access) : bool :=
  match x with
  | In_ p => mem p [KBC_OUT_BUF; KBC_STAT_REG; RTC_DATA_REG; COM1 + SER_DATA; COM1 + IIR; COM1 + LCR; COM1 + LSR]
  | Out_ p v =>
      if p =? KBC_CMD_REG then v =? BYTE_TO_MOUSE_CMD
      else if p =? KBC_ARG_REG then v =? MOUSE_ENAB_DATA_REP
      else if p =? RTC_ADDR_REG then mem v clock_registers
      else if p =? COM1 + LCR then negb (flag v LCR_DLAB)
      else mem p [RTC_DATA_REG; COM1 + SER_DATA]
  | Tick => true
  | _ => false
  end.

Definition is_irq (x : access) : bool :=
  match x with In_ _ | Out_ _ _ | Tick => false | _ => true end.

Example ier_not_accessed v : port_ok (In_ (COM1 + IER)) = false /\ port_ok (Out_ (COM1 + IER) v) = false.
Proof. by split. Qed.

(** The calls on the interrupt lines in a log. *)
Definition irq_calls (l : list access) : list access := List.filter is_irq l.

Lemma irq_calls_app l l' : irq_calls (l ++ l') = irq_calls l ++ irq_calls l'.
Proof. apply List.filter_app. Qed.

Lemma irq_calls_ports l : Forall (fun x => port_ok x = true) l -> irq_calls l = [].
Proof. induction 1 as [| x l Hx Hl IH]; [done |]. by destruct x. Qed.

(** ** The drivers *)

Section Drivers.
Context {D : Type} `{LM : LoggedMachine D}.

Definition touches (d d' : D) : Prop :=
  exists l, log d' = log d ++ l /\ Forall (fun x => port_ok x = true) l.

#[export] Instance touches_preorder : PreOrder touches.
Proof.
  split; [intros d; exists []; by rewrite app_nil_r |].
  intros d1 d2 d3 (l & E & Hl) (l' & E' & Hl'). exists (l ++ l').
  rewrite E', E, app_assoc. split; [done | by apply Forall_app].
Qed.

Lemma touches_one x d d' : log d' = log d ++ [x] -> port_ok x = true -> touches d d'.
Proof. intros Hl Hx. exists [x]. by repeat constructor. Qed.

(** A routine of a driver. *)
#[local] Abbreviation quiet := (st_keeps touches).

Lemma quiet_inb p : port_ok (In_ p) = true -> quiet (inb p).
Proof. intros Hp d. eapply touches_one; [apply log_in | exact Hp]. Qed.

Lemma quiet_outb p v : port_ok (Out_ p v) = true -> quiet (outb p v).
Proof. intros Hp d. eapply touches_one; [apply log_out | exact Hp]. Qed.

Lemma quiet_tick : quiet tickdelay.
Proof. intros d. eapply touches_one; [apply log_tick | done]. Qed.

Ltac quiet_all :=
  keeps_all ltac:(first [apply quiet_inb; reflexivity | apply quiet_outb; reflexivity | apply quiet_tick]).

Lemma quiet_enable_alarm_int : quiet enable_alarm_int.
Proof. unfold enable_alarm_int. quiet_all. Qed.
Lemma quiet_disable_updates : quiet disable_updates.
Proof. unfold disable_updates. quiet_all. Qed.
Lemma quiet_disable_periodic_int : quiet disable_periodic_int.
Proof. unfold disable_periodic_int. quiet_all. Qed.
Lemma quiet_set_seconds_alarm : quiet set_seconds_alarm.
Proof. unfold set_seconds_alarm. quiet_all. Qed.
Lemma quiet_set_timed_alarm n : quiet (set_timed_alarm n).
Proof. unfold set_timed_alarm. quiet_all. Qed.
Lemma quiet_rtc_handler p : quiet (rtc_handler p).
Proof. unfold rtc_handler, clear_interruptions. quiet_all. Qed.
Lemma quiet_get_date n : quiet (get_date n).
Proof.
  induction n as [| n IH]; cbn [get_date]; [quiet_all |].
  unfold disable_updates, read_date, enable_updates. quiet_all. exact IH.
Qed.

Lemma quiet_check_buffer : quiet check_buffer.
Proof. unfold check_buffer. quiet_all. Qed.
Lemma quiet_check_thr_emtpy : quiet check_thr_emtpy.
Proof. unfold check_thr_emtpy. quiet_all. Qed.
Lemma quiet_serial_read_byte : quiet serial_read_byte.
Proof. unfold serial_read_byte, check_thr_emtpy. quiet_all. Qed.
Lemma quiet_uart_handler x : quiet (uart_handler x).
Proof. unfold uart_handler, get_int_origin, serial_read_byte, check_thr_emtpy. quiet_all. Qed.

Lemma quiet_set_data_dlab : quiet set_data_dlab.
Proof.
  unfold set_data_dlab. apply st_keeps_bind; [exact _ | apply quiet_inb; reflexivity | intros lcr]. apply quiet_outb.
  change (negb (flag (Z.land lcr (Z.lnot (BIT LCR_DLAB))) LCR_DLAB) = true).
  rewrite flag_testbit by (unfold LCR_DLAB; lia).
  rewrite Z.land_spec, Z.lnot_spec, BIT_testbit by (unfold LCR_DLAB; lia).
  by rewrite Z.eqb_refl, andb_false_r.
Qed.

Lemma quiet_serial_write_byte b : quiet (serial_write_byte b).
Proof.
  unfold serial_write_byte, check_data_dlab, check_thr_emtpy. quiet_all. apply quiet_set_data_dlab.
Qed.

Lemma quiet_keyboard_handler i k : quiet (keyboard_handler i k).
Proof. unfold keyboard_handler, kbc_ih. quiet_all. Qed.

Lemma quiet_mouse_get_state k : quiet (mouse_get_state k).
Proof. unfold mouse_get_state. quiet_all. Qed.

Lemma quiet_mouse_handler k d : touches d (snd (mouse_handler k d)).
Proof. apply (quiet_mouse_get_state k d). Qed.

Lemma quiet_mouse_enable k : quiet (mouse_data_reporting_enable k).
Proof.
  assert (Hb : forall n k, quiet (mouse_write_byte_loop n MOUSE_ENAB_DATA_REP k)).
  { intros n. induction n as [| n IH]; intros k'; cbn [mouse_write_byte_loop]; [quiet_all |].
    unfold mouse_write_byte_ack. quiet_all; [apply quiet_mouse_get_state | apply IH]. }
  assert (Ht : forall n k, quiet (try_mouse_operation_loop n MOUSE_ENAB_DATA_REP [] false k)).
  { intros n. induction n as [| n IH]; intros k'; cbn [try_mouse_operation_loop]; [quiet_all |].
    unfold mouse_write_command, mouse_write_byte. cbn [mouse_write_args]. quiet_all; [apply Hb | apply IH]. }
  unfold mouse_data_reporting_enable, try_mouse_operation. quiet_all. apply Ht.
Qed.

Lemma quiet_rand : quiet rand.
Proof. intros d. exists []. by rewrite log_rand, app_nil_r. Qed.
End Drivers.

(** ** The loop *)

Section Loop.
Context {D : Type} `{LM : LoggedMachine D}.
Variable a : assets.
Variable malloc : Z -> list Z.
Variable polls : nat.
#[local] Abbreviation W := (world D).
#[local] Abbreviation quiet := (st_keeps touches).
#[local] Instance L_highscore : HighscoreEnv W := world_highscore polls.
#[local] Instance L_game : GameEnv W := world_game rand polls.
#[local] Instance L_mp : MpEnv W := world_mp polls.
#[local] Instance L_menus : MenusEnv W := world_menus rand polls.

Definition touchesw (w w' : W) : Prop := touches (w_dev w) (w_dev w').

#[local] Instance touchesw_preorder : PreOrder touchesw.
Proof. split; [intros w; red; reflexivity | intros w1 w2 w3; unfold touchesw; apply transitivity]. Qed.

Lemma same_dev (w w' : W) : w_dev w' = w_dev w -> touchesw w w'.
Proof. unfold touchesw. intros ->. reflexivity. Qed.

Lemma on_dev_touches {A} (m : ST D A) (w : W) : quiet m -> touchesw w (snd (on_dev m w)).
Proof. intros Hm. apply (Hm (w_dev w)). Qed.

(** A handler of the store built from a component's computation. *)
Lemma run_on_touches {X} (m : M X W unit) (x : W -> X) (put : X -> W -> W) :
  (forall s w, w_dev (put s w) = w_dev w) -> steps touchesw m ->
  wsteps touchesw (fun w => res_bind (m (x w, w)) (fun r => Ok (put (fst (snd r)) (snd (snd r))))).
Proof.
  intros Hput Hm w w'. cbv beta. destruct (m (x w, w)) as [[u [s w1]] |] eqn:Em; [| discriminate].
  cbn [res_bind fst snd]. intros Hr. apply Ok_inj in Hr. subst w'. unfold touchesw. rewrite Hput.
  exact (Hm _ _ _ Em).
Qed.

Lemma total_touches f w : wsteps touchesw f -> touchesw w (total (f w) w).
Proof. intros Hf. unfold total. destruct (f w) eqn:Ef; [by apply Hf | reflexivity]. Qed.

Lemma on_vc_touches f : wsteps touchesw (on_vc f).
Proof.
  intros w w'. unfold on_vc. destruct (f (w_vc w)); [| discriminate]. cbn [res_bind].
  intros Hr. apply Ok_inj in Hr. subst. by apply same_dev.
Qed.

Lemma draw_game_touches : wsteps touchesw (draw_game a).
Proof.
  intros w w'. unfold draw_game. destruct (draw_game_graphics _ _ _ _); [| discriminate]. cbn [res_bind].
  intros Hr. apply Ok_inj in Hr. subst. by apply same_dev.
Qed.

Lemma draw_mp_touches : wsteps touchesw (draw_mp a).
Proof.
  intros w w'. unfold draw_mp. destruct (Mp.mp_draw_game_graphics _ _ _ _); [| discriminate]. cbn [res_bind].
  intros Hr. apply Ok_inj in Hr. subst. by apply same_dev.
Qed.

Lemma reset_hiscore_touches n w w' : on_hs (reset_hiscore n) w = Ok w' -> touchesw w w'.
Proof. apply run_on_touches; [done |]. by apply reset_hiscore_steps; [exact _ | intros e; apply same_dev]. Qed.

Lemma game_touches (m : M gst W unit) :
  (forall R : W -> W -> Prop, PreOrder R ->
     (forall m e, m = LEADERBOARD \/ m = HIGHSCORE -> R e (g_set_mode m e)) ->
     (forall n e, R e (g_set_timed_alarm n e)) -> (forall e, R e (g_set_seconds_alarm e)) ->
     (forall n e e', g_reset_hiscore n e = Ok e' -> R e e') -> (forall e, R e (snd (g_rand e))) ->
     steps R m) ->
  wsteps touchesw (on_game m).
Proof.
  intros Hm. apply run_on_touches; [done |]. apply Hm.
  - exact _.
  - intros x e _. by apply same_dev.
  - intros n e. apply on_dev_touches, quiet_set_timed_alarm.
  - intros e. apply on_dev_touches, quiet_set_seconds_alarm.
  - intros n e e'. apply reset_hiscore_touches.
  - intros e. apply on_dev_touches, quiet_rand.
Qed.

Lemma mp_touches (m : M Mp.mst W unit) :
  (forall R : W -> W -> Prop, PreOrder R ->
     (forall m e, m = LEADERBOARD \/ m = HIGHSCORE -> R e (m_set_mode m e)) ->
     (forall n e, R e (m_set_timed_alarm n e)) -> (forall e, R e (m_set_seconds_alarm e)) ->
     (forall n e e', m_reset_hiscore n e = Ok e' -> R e e') ->
     (forall e, R e (snd (m_check_thr_emtpy e))) -> (forall b e, R e (snd (m_serial_write_byte b e))) ->
     steps R m) ->
  wsteps touchesw (on_mp m).
Proof.
  intros Hm. apply run_on_touches; [done |]. apply Hm.
  - exact _.
  - intros x e _. by apply same_dev.
  - intros n e. apply on_dev_touches, quiet_set_timed_alarm.
  - intros e. apply on_dev_touches, quiet_set_seconds_alarm.
  - intros n e e'. apply reset_hiscore_touches.
  - intros e. apply on_dev_touches, quiet_check_thr_emtpy.
  - intros b e. apply on_dev_touches, quiet_serial_write_byte.
Qed.

Lemma menu_reset_game_touches n (w : W) : touchesw w (menu_reset_game n w).
Proof. apply total_touches, game_touches. intros R HR Hs Ht Hsec Hr Hrand. by apply reset_game_steps. Qed.
Lemma menu_host_touches n (w : W) : touchesw w (menu_host_mp_game n w).
Proof. apply total_touches, mp_touches. intros R HR Hs Ht Hsec Hr Hc Hw. by apply host_mp_game_steps. Qed.
Lemma menu_connect_touches (w : W) : touchesw w (menu_connect_mp_game w).
Proof. apply total_touches, mp_touches. intros R HR Hs Ht Hsec Hr Hc Hw. by apply connect_mp_game_steps. Qed.

Ltac flag_case := apply wsteps_flag; [exact _ | intros w0].
Ltac screen_case := apply wsteps_then; [exact _ | apply on_vc_touches |]; flag_case.
Ltac same := let w := fresh in let w' := fresh in let Hr := fresh in
  intros w w' Hr; apply Ok_inj in Hr; subst w'; by apply same_dev.

Lemma handle_mode_touches : wsteps touchesw (handle_mode a rand malloc polls).
Proof.
  intros w w'. unfold handle_mode. destruct (w_mode w).
  - (* MENU *)
    apply wsteps_then; [exact _ | apply on_vc_touches |]. apply wsteps_then; [exact _ | | same].
    intros w1 w2. unfold whenw. destruct (negb _), (w_got_key_press w1);
      try (intros Hr; apply Ok_inj in Hr; subst; reflexivity).
    unfold on_menu, menu_update_status. intros Hr. apply Ok_inj in Hr. subst.
    repeat case_match; by apply same_dev.
  - (* HOW_TO_PLAY *)
    screen_case. intros w1 w2 Hr. apply Ok_inj in Hr. subst. unfold how_to_play_update_status.
    destruct (_ =? 8); by apply same_dev.
  - (* LEADERBOARD *) screen_case. same.
  - (* NUM_ROUNDS *)
    screen_case. apply run_on_touches; [done |]. apply rounds_steps; [exact _ | | | |].
    + intros m e _. by apply same_dev.
    + apply menu_reset_game_touches.
    + apply menu_host_touches.
    + intros v e. by apply same_dev.
  - (* GAME *)
    repeat (apply wsteps_then; [exact _ | |]); [apply draw_game_touches | ..]; flag_case;
      apply game_touches; intros R HR Hs Ht Hsec Hr Hrand.
    + by apply game_key_steps.
    + by apply game_mouse_steps.
    + by apply game_timer_steps.
    + by apply game_rtc_steps.
  - (* HIGHSCORE *)
    screen_case. apply run_on_touches; [done |]. apply highscore_steps; [exact _ | | | |].
    + intros l e. by apply same_dev.
    + intros e. by apply same_dev.
    + intros e. apply on_dev_touches, quiet_get_date.
    + intros _ v e. by apply same_dev.
  - (* HOST *)
    screen_case. intros w1 w2 Hr. apply Ok_inj in Hr. subst. unfold on_host, host_update_status.
    repeat case_match; cbn [fst snd]; try by apply same_dev.
    transitivity (set_w_mode MP_GAME w1); [by apply same_dev | apply menu_connect_touches].
  - (* MP_GAME *)
    repeat (apply wsteps_then; [exact _ | |]); [apply draw_mp_touches | ..]; flag_case;
      apply mp_touches; intros R HR Hs Ht Hsec Hr Hc Hw.
    + by apply mp_key_steps.
    + by apply mp_mouse_steps.
    + by apply mp_timer_steps.
    + by apply mp_rtc_steps.
    + by apply mp_uart_steps.
  - (* EXIT *) intros Hr. apply Ok_inj in Hr. subst. reflexivity.
Qed.

Lemma latch_irqs_touches i : wsteps touchesw (latch_irqs i).
Proof.
  intros w w'. unfold latch_irqs.
  generalize (flag i KBD_IRQ), (flag i MOUSE_IRQ), (flag i TIMER0_IRQ), (flag i RTC_IRQ), (flag i UART_IRQ).
  intros k m t r u.
  assert (Hk : touchesw w (keyboard_irq k w)).
  { unfold keyboard_irq. destruct k; [| by apply same_dev]. pose proof (quiet_keyboard_handler 0 (w_kbd w) (w_dev w)) as Hq.
    unfold on_dev. destruct (keyboard_handler 0 (w_kbd w) (w_dev w)) as [[[got key] kb] d]. cbn [fst snd] in *.
    by destruct key. }
  destruct (mouse_irq m (keyboard_irq k w)) as [w1 |] eqn:Em; [| discriminate]. cbn [res_bind].
  intros Hr. apply Ok_inj in Hr. subst w'. etransitivity; [exact Hk |].
  assert (Hm : touchesw (keyboard_irq k w) w1).
  { revert Em. generalize (keyboard_irq k w). intros w0. unfold mouse_irq.
    destruct m; [| intros Hr; apply Ok_inj in Hr; subst; by apply same_dev].
    pose proof (quiet_mouse_handler (w_mdrv w0) (w_dev w0)) as Hq. unfold on_dev. cbn [fst snd].
    destruct (mouse_handler (w_mdrv w0) (w_dev w0)) as [[[p k'] |] d]; [| discriminate]. cbn [res_bind fst snd] in *.
    intros Hr. apply Ok_inj in Hr. subst. by destruct p. }
  etransitivity; [exact Hm |]. transitivity (rtc_irq r (set_w_timer_interrupt t w1)).
  - unfold rtc_irq. destruct r; [| by apply same_dev].
    pose proof (quiet_rtc_handler (w_rtc_previous w1) (w_dev w1)) as Hq.
    change (w_rtc_previous (set_w_timer_interrupt t w1)) with (w_rtc_previous w1). unfold on_dev.
    change (w_dev (set_w_timer_interrupt t w1)) with (w_dev w1).
    destruct (rtc_handler (w_rtc_previous w1) (w_dev w1)) as [[[] p] d]; exact Hq.
  - generalize (rtc_irq r (set_w_timer_interrupt t w1)). intros w2. unfold uart_irq.
    destruct u; [apply (quiet_uart_handler (w_data_packet w2) (w_dev w2)) | by apply same_dev].
Qed.

Lemma event_handler_touches (w w' : W) b : event_handler a rand malloc polls w = Ok (b, w') -> touchesw w w'.
Proof.
  unfold event_handler. destruct (handle_mode _ _ _ _ w) as [w1 |] eqn:Eh; [| discriminate].
  cbn [res_bind]. destruct (on_vc copy_to_video w1) as [w2 |] eqn:Ev; [| discriminate]. cbn [res_bind].
  intros Hr. apply Ok_inj in Hr. injection Hr as _ <-.
  etransitivity; [by apply handle_mode_touches | by eapply on_vc_touches].
Qed.

Lemma run_message_touches m (w w' : W) b : run_message a rand malloc polls m w = Ok (b, w') -> touchesw w w'.
Proof.
  destruct m as [| | i]; cbn [run_message].
  1, 2: intros Hr; apply Ok_inj in Hr; injection Hr as _ <-; reflexivity.
  destruct (latch_irqs i w) as [w1 |] eqn:El; [| discriminate]. cbn [res_bind]. intros Hr.
  etransitivity; [by eapply latch_irqs_touches | by eapply event_handler_touches].
Qed.

Lemma run_loop_touches ms : forall (w w' : W) b, run_loop a rand malloc polls ms w = Ok (b, w') -> touchesw w w'.
Proof.
  induction ms as [| m ms IH]; intros w w' b; cbn [run_loop].
  { intros Hr. apply Ok_inj in Hr. injection Hr as _ <-. reflexivity. }
  destruct (run_message a rand malloc polls m w) as [[e w1] |] eqn:Em; [| discriminate]. cbn [res_bind fst snd].
  intros Hr. transitivity w1; [by eapply run_message_touches |].
  destruct (_ && _); [by eapply IH |]. apply Ok_inj in Hr. injection Hr as _ <-. reflexivity.
Qed.

(** ** Before and after the loop *)

(** The accesses of a step: the ports of the loop, and the calls [c] on the
    interrupt lines, in their order. *)
Definition accesses (c : list access) (w w' : W) : Prop :=
  exists l, log (w_dev w') = log (w_dev w) ++ l /\
    Forall (fun x => port_ok x || is_irq x = true) l /\ irq_calls l = c.

Lemma accesses_trans c c' w w1 w2 : accesses c w w1 -> accesses c' w1 w2 -> accesses (c ++ c') w w2.
Proof.
  intros (l & E & Hl & <-) (l' & E' & Hl' & <-). exists (l ++ l'). rewrite E', E, app_assoc.
  split; [done |]. split; [by apply Forall_app | apply irq_calls_app].
Qed.

Lemma touches_accesses w w' : touchesw w w' -> accesses [] w w'.
Proof.
  intros (l & E & Hl). exists l. split; [done |]. split; [| by apply irq_calls_ports].
  eapply Forall_impl; [exact Hl |]. cbn. intros x ->. done.
Qed.

Lemma accesses_one x w d : log d = log (w_dev w) ++ [x] -> is_irq x = true -> accesses [x] w (set_w_dev d w).
Proof.
  intros E Hx. exists [x]. split; [done |]. split; [repeat constructor; by rewrite Hx, orb_true_r |].
  cbn. by rewrite Hx.
Qed.

Lemma accesses_quiet {A} c w w1 (m : ST D A) : accesses c w w1 -> quiet m -> accesses c w (snd (on_dev m w1)).
Proof.
  intros Hw Hm. rewrite <- (app_nil_r c). eapply accesses_trans; [exact Hw |].
  by apply touches_accesses, on_dev_touches.
Qed.

(** The calls of [run] before the loop and after it, with the hooks the kernel
    gave.  The hook of the serial port is never removed. *)
Definition subscribes (h : hooks) : list access :=
  let both := Z.lor IRQ_REENABLE IRQ_EXCLUSIVE in
  [SetPolicy KBD_IRQ both KBD_IRQ (notification (h_kbd h));
   SetPolicy TIMER0_IRQ IRQ_REENABLE TIMER0_IRQ (notification (h_timer h));
   SetPolicy MOUSE_IRQ both MOUSE_IRQ (notification (h_mouse h));
   SetPolicy RTC_IRQ IRQ_REENABLE RTC_IRQ (notification (h_rtc h)); Enable (notification (h_rtc h));
   SetPolicy UART_IRQ both UART_IRQ (notification (h_uart h)); Enable (notification (h_uart h))].

Definition unsubscribes (h : hooks) : list access :=
  [RmPolicy (notification (h_kbd h)); RmPolicy (notification (h_mouse h)); RmPolicy (notification (h_timer h));
   RmPolicy (notification (h_rtc h)); Disable (notification (h_rtc h))].


(** A subscription that sets the policy of a line, and one that enables it too. *)
Lemma set_accesses line policy (w : W) :
  let r := sys_irqsetpolicy line policy line (w_dev w) in
  accesses [SetPolicy line policy line (snd (fst r))] w (set_w_dev (snd r) w).
Proof. apply accesses_one; [apply log_set | done]. Qed.

Lemma set_enable_accesses line policy (w : W) :
  let r := sys_irqsetpolicy line policy line (w_dev w) in
  accesses [SetPolicy line policy line (snd (fst r)); Enable (snd (fst r))] w
    (set_w_dev (snd (sys_irqenable (snd (fst r)) (snd r))) w).
Proof.
  intros r. apply (accesses_trans [_] [_] w (set_w_dev (snd r) w)); [apply set_accesses |].
  apply (accesses_one _ (set_w_dev (snd r) w)); [apply log_enable | done].
Qed.

Lemma rm_accesses h (w : W) : accesses [RmPolicy h] w (snd (on_dev (sys_irqrmpolicy h) w)).
Proof. apply accesses_one; [apply log_rm | done]. Qed.

(** The subscriptions of the drivers. *)
Lemma keyboard_subscribe_accesses (w : W) :
  accesses [SetPolicy KBD_IRQ (Z.lor IRQ_REENABLE IRQ_EXCLUSIVE) KBD_IRQ (notification (fst (on_dev keyboard_subscribe w)))]
    w (snd (on_dev keyboard_subscribe w)).
Proof. exact (set_accesses _ _ w). Qed.

Lemma timer_subscribe_accesses (w : W) :
  accesses [SetPolicy TIMER0_IRQ IRQ_REENABLE TIMER0_IRQ (notification (fst (on_dev timer_subscribe_int w)))]
    w (snd (on_dev timer_subscribe_int w)).
Proof. exact (set_accesses _ _ w). Qed.

Lemma mouse_subscribe_accesses (w : W) :
  accesses [SetPolicy MOUSE_IRQ (Z.lor IRQ_REENABLE IRQ_EXCLUSIVE) MOUSE_IRQ (notification (fst (on_dev mouse_subscribe w)))]
    w (snd (on_dev mouse_subscribe w)).
Proof. exact (set_accesses _ _ w). Qed.

Lemma rtc_subscribe_accesses (w : W) :
  let h := notification (fst (on_dev rtc_subscribe w)) in
  accesses [SetPolicy RTC_IRQ IRQ_REENABLE RTC_IRQ h; Enable h] w (snd (on_dev rtc_subscribe w)).
Proof. exact (set_enable_accesses _ _ w). Qed.

Lemma uart_subscribe_accesses (w : W) :
  let h := notification (fst (on_dev uart_subscribe w)) in
  accesses [SetPolicy UART_IRQ (Z.lor IRQ_REENABLE IRQ_EXCLUSIVE) UART_IRQ h; Enable h] w (snd (on_dev uart_subscribe w)).
Proof. exact (set_enable_accesses _ _ w). Qed.

(** The end of [run_start]: the alarm, and the byte that waits on the line. *)
Lemma run_start_end_accesses (w : W) :
  let b := on_dev check_buffer (snd (on_dev set_seconds_alarm w)) in
  accesses [] w (if fst b =? 0 then snd (on_dev serial_read_byte (snd b)) else snd b).
Proof.
  intros b. assert (Hb : accesses [] w (snd b)).
  { repeat (apply accesses_quiet; [| first [apply quiet_check_buffer | apply quiet_set_seconds_alarm]]).
    apply touches_accesses. reflexivity. }
  destruct (fst b =? 0); [apply accesses_quiet; [exact Hb | apply quiet_serial_read_byte] | exact Hb].
Qed.

Lemma run_start_accesses (w : W) : accesses (subscribes (fst (run_start w))) w (snd (run_start w)).
Proof.
  unfold run_start. set (w1 := snd (on_dev disable_periodic_int _)).
  assert (Hw1 : accesses [] w w1).
  { repeat (apply accesses_quiet;
      [| first [apply quiet_disable_periodic_int | apply quiet_disable_updates | apply quiet_enable_alarm_int]]).
    apply touches_accesses. by apply same_dev. }
  clearbody w1. cbv zeta. pose proof (keyboard_subscribe_accesses w1) as Hk.
  set (k := on_dev keyboard_subscribe w1) in *. clearbody k. pose proof (timer_subscribe_accesses (snd k)) as Ht.
  set (t := on_dev timer_subscribe_int (snd k)) in *. clearbody t.
  set (e := on_dev (mouse_data_reporting_enable (w_mdrv (snd t))) (snd t)). set (w2 := set_w_mdrv (snd (fst e)) (snd e)).
  assert (Hw2 : accesses [] (snd t) w2).
  { apply touches_accesses. transitivity (snd e); [apply on_dev_touches, quiet_mouse_enable | by apply same_dev]. }
  clearbody w2. clear e. pose proof (mouse_subscribe_accesses w2) as Hm. set (m := on_dev mouse_subscribe w2) in *.
  clearbody m. pose proof (rtc_subscribe_accesses (snd m)) as Hc. cbv zeta in Hc.
  set (c := on_dev rtc_subscribe (snd m)) in *. clearbody c. pose proof (uart_subscribe_accesses (snd c)) as Hu.
  cbv zeta in Hu. set (u := on_dev uart_subscribe (snd c)) in *. clearbody u.
  pose proof (run_start_end_accesses (snd u)) as He. cbv zeta in He.
  pose proof (accesses_trans _ _ _ _ _ Hw1 (accesses_trans _ _ _ _ _ Hk (accesses_trans _ _ _ _ _ Ht
    (accesses_trans _ _ _ _ _ Hw2 (accesses_trans _ _ _ _ _ Hm (accesses_trans _ _ _ _ _ Hc
      (accesses_trans _ _ _ _ _ Hu He))))))) as H'. exact H'.
Qed.

Lemma rtc_unsubscribe_accesses h (w : W) : accesses [RmPolicy h; Disable h] w (snd (on_dev (rtc_unsubscribe h) w)).
Proof.
  apply (accesses_trans [_] [_] w _ _ (rm_accesses h w)).
  apply (accesses_one _ (snd (on_dev (sys_irqrmpolicy h) w))); [apply log_disable | done].
Qed.

Lemma run_stop_accesses h (w : W) : accesses (unsubscribes h) w (run_stop h w).
Proof.
  unfold run_stop, keyboard_unsubscribe, mouse_unsubscribe, timer_unsubscribe_int. cbv zeta.
  apply (accesses_trans [_] [_; _; _; _] _ _ _ (rm_accesses _ _)).
  apply (accesses_trans [_] [_; _; _] _ _ _ (rm_accesses _ _)).
  apply (accesses_trans [_] [_; _] _ _ _ (rm_accesses _ _)).
  apply rtc_unsubscribe_accesses.
Qed.
End Loop.

(** ** Properties *)

(** C30. The accesses of a whole run to the machine: the ports of [port_ok], so
    the interrupt-enable register of the serial port is never touched and its
    divisor latch stays closed; and of the interrupt lines, the five
    subscriptions in their order and, once the loop has ended, the removal of
    four of them: the hook of the serial port stays. *)
Theorem run_accesses {D} `{LM : LoggedMachine D rand} a malloc polls v ms (w : world D) b w' :
  set_vbe_mode (sys_int86 v) VBE_MODE = 0 -> run a rand malloc polls v ms w = Ok (b, w') ->
  exists h, accesses (subscribes h ++ if b then unsubscribes h else []) w w'.
Proof.
  intros Hv. unfold run. rewrite Hv. cbn [Z.eqb].
  pose proof (run_start_accesses (set_w_vc (mode_vc v) w)) as Hs. set (s := run_start _) in *. clearbody s.
  destruct (run_loop _ _ _ _ ms (snd s)) as [[e w1] |] eqn:El; [| discriminate]. cbn [res_bind fst snd].
  intros Hr. apply Ok_inj in Hr. exists (fst s).
  pose proof (accesses_trans _ _ _ _ _ Hs (touches_accesses _ _ (run_loop_touches a malloc polls ms _ _ _ El))) as Hl.
  rewrite app_nil_r in Hl. destruct e; injection Hr as <- <-.
  - eapply accesses_trans; [exact Hl | apply run_stop_accesses].
  - by rewrite app_nil_r.
Qed.

(** A machine that is its log: the keyboard controller holds the release of ESC,
    every other port reads as 0, the kernel numbers the hooks by the length of
    the log. *)
Definition tape_ports : Ports (list access) := {|
  sys_inb := fun p l => ((0, Some (if p =? KBC_STAT_REG then 1 else if p =? KBC_OUT_BUF then ESC_BREAK_CODE else 0)),
                         l ++ [In_ p]);
  sys_outb := fun p v l => (0, l ++ [Out_ p v]) |}.
Definition tape_delay : Delay (list access) := {| tickdelay := fun l => (tt, l ++ [Tick]) |}.
Definition tape_irqs : Irqs (list access) := {|
  sys_irqsetpolicy := fun line policy bit l => ((0, zlen l), l ++ [SetPolicy line policy bit (zlen l)]);
  sys_irqrmpolicy := fun h l => (0, l ++ [RmPolicy h]);
  sys_irqenable := fun h l => (0, l ++ [Enable h]);
  sys_irqdisable := fun h l => (0, l ++ [Disable h]) |}.
Definition tape_rand (l : list access) : Z * list access := (0, l).

Definition tape_machine : @LoggedMachine (list access) tape_ports tape_delay tape_irqs tape_rand.
Proof. by refine (@Build_LoggedMachine _ tape_ports tape_delay tape_irqs tape_rand (fun l => l) _ _ _ _ _ _ _ _). Defined.

Lemma run_accesses_witness :
  exists w' h, @run _ tape_ports tape_delay tape_irqs assets1 tape_rand (fun n => []) 1 video1 esc_run
      (world_start vc0 lb0 []) = Ok (true, w') /\
    @accesses _ _ _ _ _ tape_machine (subscribes h ++ unsubscribes h) (world_start vc0 lb0 []) w'.
Proof.
  assert (Hr : exists w', @run _ tape_ports tape_delay tape_irqs assets1 tape_rand (fun n => []) 1 video1 esc_run
      (world_start vc0 lb0 []) = Ok (true, w')) by (eexists; vm_compute; reflexivity).
  destruct Hr as (w' & Hr). exists w'.
  destruct (@run_accesses _ _ _ _ _ tape_machine assets1 (fun n => []) 1 video1 esc_run
              (world_start vc0 lb0 []) true w' eq_refl Hr) as (h & Hh).
  by exists h.
Defined.
