(* ===== verification/LabTimer.v ===== *)
(** The timer of the laboratories: [lab2/timer.c], [lab2/lab2.c] and
    [lab2/utils.c] (module [Lab2]), and the later [lab5/timer.c] (module [Lab5]).

    The routines program the i8254 through its four ports; what they promise is
    proved for a machine whose ports behave as that chip ([I8254]). *)

From stdpp Require Import base tactics list.
From Stdlib Require Import ZArith Lia.
From S2P Require Import Prelude Consts Ports.

(** ** [i8254.h] *)

Definition TIMER_FREQ := 1193182.
Definition TIMER_0 := 64.      (* 0x40 *)
Definition TIMER_1 := 65.
Definition TIMER_2 := 66.
Definition TIMER_CTRL := 67.
Definition TIMER_SEL0 := 0.
Definition TIMER_SEL1 := BIT 6.
Definition TIMER_SEL2 := BIT 7.
Definition TIMER_RB_CMD := Z.lor (BIT 7) (BIT 6).
Definition TIMER_LSB_MSB := Z.lor (BIT 4) (BIT 5).
Definition TIMER_BIN := 0.
Definition TIMER_RB_COUNT_ := BIT 5.
Definition TIMER_RB_STATUS_ := BIT 4.
Definition TIMER_RB_SEL (n : Z) := BIT (n + 1).

(** The fields of the status byte that can be shown, and the union that holds
    one of them. *)
Inductive timer_status_field := tsf_all | tsf_initial | tsf_mode | tsf_base.

Inductive timer_status_field_val :=
| byte (b : Z)
| in_mode (m : Z)
| count_mode (m : Z)
| bcd (b : bool).

(** The functions of the LCF library that show results. *)
Class TimerLcf (E : Type) := {
  timer_print_config : Z -> timer_status_field -> timer_status_field_val -> ST E Z;
  timer_print_elapsed_time : ST E unit
}.

(** What [driver_receive] delivers in the laboratories. *)
Inductive lab_message :=
| LabFailed
| LabOther
| LabHardware (interrupts : Z).

Module Lab2.
Section Lab2.
Context {E : Type} `{Ports E, Irqs E, TimerLcf E}.

(** The value found in a variable that has not been set. *)
Variable indet : Z.

(** The statics of [timer.c]. *)
Record statics := Statics { counter : Z; hook_id : Z }.
Definition set_counter (c : Z) (s : statics) : statics := Statics c (hook_id s).
Definition set_hook_id (h : Z) (s : statics) : statics := Statics (counter s) h.

(** *** [utils.c] *)

Definition util_sys_inb (port : Z) (value : ptr_arg) : ST E (Z * option Z) :=
  match value with
  | NullPtr => st_ret (1, None)
  | ValidPtr =>
      let+ r := sys_inb port in
      st_ret (0, Some (u8 (default indet (snd r))))
  end.

(** *** [timer.c] *)

(** The three tests that choose the port: a fourth timer leaves it unset. *)
Definition timer_port (timer : Z) : res Z :=
  if timer =? 0 then Ok TIMER_0
  else if timer =? 1 then Ok TIMER_1
  else if timer =? 2 then Ok TIMER_2
  else Undef Uninitialised.

Definition timer_sel (timer : Z) : res Z :=
  if timer =? 0 then Ok TIMER_SEL0
  else if timer =? 1 then Ok TIMER_SEL1
  else if timer =? 2 then Ok TIMER_SEL2
  else Undef Uninitialised.

(** The code, and the byte stored in [*st]. *)
Definition timer_get_conf (timer : Z) : M statics E (Z * option Z) :=
  let rbc := Z.lor (Z.lor TIMER_RB_CMD TIMER_RB_COUNT_) (TIMER_RB_SEL timer) in
  let* r := env (sys_outb TIMER_CTRL rbc) in
  if r =? 1 then ret (1, None)
  else
    let* port := lift (timer_port timer) in
    env (util_sys_inb port ValidPtr).

Definition timer_set_frequency (timer freq : Z) : M statics E Z :=
  if (freq <? 19) || (TIMER_FREQ <? freq) then ret 1
  else
    let* c := timer_get_conf timer in
    if fst c =? 1 then ret 1
    else
      let st := default indet (snd c) in
      let savefb := u8 (Z.land st 15) in
      let* sel := lift (timer_sel timer) in
      let* port := lift (timer_port timer) in
      let ctrl_word := u8 (Z.lor (Z.lor sel TIMER_LSB_MSB) savefb) in
      let* r := env (sys_outb TIMER_CTRL ctrl_word) in
      if r =? 1 then ret 1
      else
        let d_value := TIMER_FREQ / freq in
        let new_d_value := u16 d_value in
        let new_lsb := default indet (snd (util_get_LSB new_d_value ValidPtr)) in
        let new_msb := default indet (snd (util_get_MSB new_d_value ValidPtr)) in
        let* r := env (sys_outb port new_lsb) in
        if r =? 1 then ret 1
        else
          let* r := env (sys_outb port new_msb) in
          if r =? 1 then ret 1 else ret 0.

Definition timer_subscribe_int (bit_no : Z) : M statics E Z :=
  do* modify (set_hook_id bit_no) in
  let* h := gets hook_id in
  let* r := env (sys_irqsetpolicy TIMER0_IRQ IRQ_REENABLE h) in
  do* modify (set_hook_id (snd r)) in
  if fst r =? 1 then ret 1 else ret 0.

Definition timer_unsubscribe_int : M statics E Z :=
  let* h := gets hook_id in
  let* r := env (sys_irqrmpolicy h) in
  if r =? 1 then ret 1 else ret 0.

Definition timer_int_handler : M statics E unit :=
  modify (fun s => set_counter (counter s + 1) s).

(** The byte of the union that is shown.  [TIMER_BIN] is zero, so the test of
    the base is never true. *)
Definition status_field (st : Z) (field : timer_status_field) : timer_status_field_val :=
  match field with
  | tsf_all => byte st
  | tsf_initial => in_mode (Z.shiftr (Z.land st TIMER_LSB_MSB) 4)
  | tsf_mode => count_mode (u8 (Z.shiftr (Z.land st 15) 1))
  | tsf_base => bcd (negb (Z.land TIMER_BIN st =? 1))
  end.

Definition timer_display_conf (timer st : Z) (field : timer_status_field) : M statics E Z :=
  let* r := env (timer_print_config timer field (status_field st field)) in
  if r =? 1 then ret 1 else ret 0.

(** *** [lab2.c] *)

Definition timer_test_read_config (timer : Z) (field : timer_status_field) : M statics E Z :=
  if timer <? 0 then ret 1
  else if 2 <? timer then ret 1
  else
    let* c := timer_get_conf timer in
    if fst c =? 1 then ret 1
    else
      let* r := timer_display_conf timer (default indet (snd c)) field in
      if r =? 1 then ret 1 else ret 0.

Definition timer_test_time_base (timer freq : Z) : M statics E Z :=
  if timer <? 0 then ret 1
  else if 2 <? timer then ret 1
  else
    let* r := timer_set_frequency timer freq in
    if r =? 1 then ret 1 else ret 0.

(** The handling of one message. *)
Definition timer_message (bit_no : Z) (m : lab_message) : M statics E unit :=
  match m with
  | LabFailed | LabOther => skip
  | LabHardware interrupts =>
      when (truth (Z.land interrupts (BIT bit_no)))
        (do* timer_int_handler in
         let* c := gets counter in
         when (Z.rem c 60 =? 0) (env timer_print_elapsed_time))
  end.

(** The loop over the messages received; the result says whether it has ended. *)
Fixpoint timer_loop (bit_no time : Z) (ms : list lab_message) : M statics E bool :=
  let* c := gets counter in
  if c <? time * 60 then
    match ms with
    | [] => ret false
    | m :: ms => do* timer_message bit_no m in timer_loop bit_no time ms
    end
  else ret true.

(** The code returned, or [None] while the loop goes on. *)
Definition timer_test_int (time : Z) (ms : list lab_message) : M statics E (option Z) :=
  let bit_no := u8 TIMER0_IRQ in
  let* r := timer_subscribe_int bit_no in
  if r =? 1 then ret (Some 1)
  else
    let* ended := timer_loop bit_no time ms in
    if ended then
      let* r := timer_unsubscribe_int in
      if r =? 1 then ret (Some 1) else ret (Some 0)
    else ret None.
End Lab2.
End Lab2.

(** [timer.c] of [lab3] and [lab4], which differs from that of [lab2] in the test
    of the frequency alone; [freq] may be zero where it divides. *)
Module Lab3.
Definition timer_set_frequency {E} `{Ports E, Irqs E, TimerLcf E} (indet timer freq : Z) : M Lab2.statics E Z :=
  if TIMER_FREQ <? freq then ret 1
  else
    let* c := Lab2.timer_get_conf indet timer in
    if fst c =? 1 then ret 1
    else
      let st := default indet (snd c) in
      let savefb := u8 (Z.land st 15) in
      let* sel := lift (Lab2.timer_sel timer) in
      let* port := lift (Lab2.timer_port timer) in
      let ctrl_word := u8 (Z.lor (Z.lor sel TIMER_LSB_MSB) savefb) in
      let* r := env (sys_outb TIMER_CTRL ctrl_word) in
      if r =? 1 then ret 1
      else if freq =? 0 then undef DivisionByZero
      else
        let d_value := TIMER_FREQ / freq in
        let new_d_value := u16 d_value in
        let new_lsb := default indet (snd (util_get_LSB new_d_value ValidPtr)) in
        let new_msb := default indet (snd (util_get_MSB new_d_value ValidPtr)) in
        let* r := env (sys_outb port new_lsb) in
        if r =? 1 then ret 1
        else
          let* r := env (sys_outb port new_msb) in
          if r =? 1 then ret 1 else ret 0.
End Lab3.

Module Lab5.
Section Lab5.
Context {E : Type} `{Ports E, Irqs E, TimerLcf E}.
Variable indet : Z.

Record statics := Statics { timer_freq_counter : Z; timer_hook_id : Z }.
Definition set_freq_counter (c : Z) (s : statics) : statics := Statics c (timer_hook_id s).
Definition set_timer_hook_id (h : Z) (s : statics) : statics := Statics (timer_freq_counter s) h.

(** The two [switch]es; [None] is their [default]. *)
Definition timer_address (timer : Z) : option Z :=
  match timer with 0 => Some TIMER_0 | 1 => Some TIMER_1 | 2 => Some TIMER_2 | _ => None end.
Definition timer_control (timer : Z) : option Z :=
  match timer with 0 => Some TIMER_SEL0 | 1 => Some TIMER_SEL1 | 2 => Some TIMER_SEL2 | _ => None end.

(** The code, and the byte left in [*st].  [!TIMER_RB_STATUS_] is zero. *)
Definition timer_get_conf (timer : Z) (st : ptr_arg) : M statics E (Z * option Z) :=
  match st with
  | NullPtr => ret (1, None)
  | ValidPtr =>
      match timer_address timer with
      | None => ret (1, None)
      | Some address =>
          let rbc := u8 (Z.lor (Z.lor (Z.lor TIMER_RB_CMD TIMER_RB_COUNT_)
                                      (if truth TIMER_RB_STATUS_ then 0 else 1)) (TIMER_RB_SEL timer)) in
          let* call_back := env (sys_outb TIMER_CTRL rbc) in
          let* r := env (util_sys_inb address ValidPtr) in
          ret (Z.lor call_back (fst r), snd r)
      end
  end.

(** [freq] is compared with zero only after the division by it. *)
Definition timer_set_frequency (timer freq : Z) : M statics E Z :=
  match timer_control timer, timer_address timer with
  | Some control, Some address =>
      if freq =? 0 then undef DivisionByZero
      else if (Z.shiftl 1 16 <=? TIMER_FREQ / freq) || (freq =? 0) then ret 1
      else
        let* c := timer_get_conf timer ValidPtr in
        let call_back := Z.lor 0 (fst c) in
        let st := u8 (Z.lor (Z.lor control TIMER_LSB_MSB) (Z.land (default indet (snd c)) 15)) in
        let* r := env (sys_outb TIMER_CTRL st) in
        let call_back := Z.lor call_back r in
        let half_word_freq := u16 (TIMER_FREQ / freq) in
        let l := util_get_LSB half_word_freq ValidPtr in
        let call_back := Z.lor call_back (fst l) in
        let* r := env (sys_outb address (default st (snd l))) in
        let call_back := Z.lor call_back r in
        let m := util_get_MSB half_word_freq ValidPtr in
        let call_back := Z.lor call_back (fst m) in
        let* r := env (sys_outb address (default st (snd m))) in
        ret (Z.lor call_back r)
  | _, _ => ret 1
  end.

(** The code, and [*bit_no]. *)
Definition timer_subscribe_int : M statics E (Z * Z) :=
  let hook_id := TIMER0_IRQ in
  let bit_no := u8 hook_id in
  let* r := env (sys_irqsetpolicy TIMER0_IRQ IRQ_REENABLE hook_id) in
  do* modify (set_timer_hook_id (snd r)) in
  ret (fst r, bit_no).

Definition timer_unsubscribe_int : M statics E Z :=
  let* h := gets timer_hook_id in
  env (sys_irqrmpolicy h).

Definition timer_int_handler : M statics E unit :=
  modify (fun s => set_freq_counter (timer_freq_counter s + 1) s).

Definition status_field (st : Z) (field : timer_status_field) : timer_status_field_val :=
  match field with
  | tsf_all => byte st
  | tsf_initial => in_mode (Z.shiftr (Z.land 48 st) 4)
  | tsf_mode => count_mode (u8 (Z.shiftr (Z.land 14 st) 1))
  | tsf_base => bcd (truth (Z.land st 1))
  end.

Definition timer_display_conf (timer st : Z) (field : timer_status_field) : M statics E Z :=
  if 2 <? timer then ret 1
  else env (timer_print_config timer field (status_field st field)).
End Lab5.
End Lab5.

(** ** The i8254

    For each of the three timers its mode (the low six bits of its status) and
    its divisor, the timer whose status is latched, and the timer being loaded
    with the byte it has got.  A read-back command (bits 7 and 6) with bit 5 set
    latches no count and with bit 4 clear latches the status of the timer of its
    bit; a control word with bits 5 and 4 set asks for the two bytes of the
    divisor, the lower one first. *)
Class I8254 (E : Type) `{Ports E} := {
  t_mode : E -> Z -> Z;
  t_divisor : E -> Z -> Z;
  t_latched : E -> option Z;
  t_loading : E -> option (Z * option Z);
  t_out_ok p v e : 64 <= p <= 67 -> fst (sys_outb p v e) = 0;
  t_readback n e :
    0 <= n <= 2 ->
    let e' := snd (sys_outb TIMER_CTRL (224 + 2 ^ (n + 1)) e) in
    t_latched e' = Some n /\ (forall m, t_mode e' m = t_mode e m) /\ (forall m, t_divisor e' m = t_divisor e m);
  t_in_latched n e :
    0 <= n <= 2 -> t_latched e = Some n ->
    let r := sys_inb (TIMER_0 + n) e in
    (exists st, fst r = (0, Some st) /\ 0 <= st < 256 /\ st mod 64 = t_mode e n) /\
    (forall m, t_mode (snd r) m = t_mode e m) /\ (forall m, t_divisor (snd r) m = t_divisor e m);
  t_control n v e :
    0 <= n <= 2 -> 0 <= v < 16 ->
    let e' := snd (sys_outb TIMER_CTRL (64 * n + 48 + v) e) in
    t_loading e' = Some (n, None) /\ t_mode e' n = 48 + v /\
    (forall m, m <> n -> t_mode e' m = t_mode e m) /\ (forall m, t_divisor e' m = t_divisor e m);
  t_load_lsb n v e :
    0 <= n <= 2 -> t_loading e = Some (n, None) -> 0 <= v < 256 ->
    let e' := snd (sys_outb (TIMER_0 + n) v e) in
    t_loading e' = Some (n, Some v) /\ (forall m, t_mode e' m = t_mode e m) /\
    (forall m, t_divisor e' m = t_divisor e m);
  t_load_msb n l v e :
    0 <= n <= 2 -> t_loading e = Some (n, Some l) -> 0 <= v < 256 ->
    let e' := snd (sys_outb (TIMER_0 + n) v e) in
    (forall m, t_mode e' m = t_mode e m) /\
    t_divisor e' n = l + 256 * v /\ (forall m, m <> n -> t_divisor e' m = t_divisor e m)
}.

(** The timer [n] programmed with the divisor [d]: counting goes on in the mode
    and the base it had, both bytes are loaded, the other timers are as before. *)
Definition programmed {E} `{I8254 E} (n d : Z) (e e' : E) : Prop :=
  t_divisor e' n = d /\ t_mode e' n = 48 + t_mode e n mod 16 /\
  (forall m, m <> n -> t_mode e' m = t_mode e m /\ t_divisor e' m = t_divisor e m).

Section Program.
Context {E : Type} `{I8254 E}.

(** The five accesses of the two routines. *)
Lemma read_status n (e : E) :
  0 <= n <= 2 ->
  let e1 := snd (sys_outb TIMER_CTRL (224 + 2 ^ (n + 1)) e) in
  let r := sys_inb (TIMER_0 + n) e1 in
  exists st, fst r = (0, Some st) /\ 0 <= st < 256 /\ st mod 64 = t_mode e n /\
    (forall m, t_mode (snd r) m = t_mode e m) /\ (forall m, t_divisor (snd r) m = t_divisor e m).
Proof.
  intros Hn e1 r. destruct (t_readback n e Hn) as (Hl & Hm & Hd).
  destruct (t_in_latched n e1 Hn Hl) as ((st & Hr & Hst & Hmod) & Hm' & Hd').
  exists st. split; [exact Hr |]. split; [done |]. unfold r, e1 in *. cbv zeta in *.
  rewrite Hmod, Hm. split; [done |]. split; intros m; [by rewrite Hm', Hm | by rewrite Hd', Hd].
Qed.

Lemma load_divisor n st l h (e : E) :
  0 <= n <= 2 -> 0 <= st -> 0 <= l < 256 -> 0 <= h < 256 ->
  let e1 := snd (sys_outb TIMER_CTRL (64 * n + 48 + st mod 16) e) in
  let e2 := snd (sys_outb (TIMER_0 + n) l e1) in
  let e3 := snd (sys_outb (TIMER_0 + n) h e2) in
  t_divisor e3 n = l + 256 * h /\ t_mode e3 n = 48 + st mod 16 /\
  (forall m, m <> n -> t_mode e3 m = t_mode e m /\ t_divisor e3 m = t_divisor e m).
Proof.
  intros Hn Hst Hl Hh e1 e2 e3. pose proof (t_control n (st mod 16) e Hn ltac:(zlia)) as (Hld & Hmn & Hm & Hd).
  destruct (t_load_lsb n l e1 Hn Hld Hl) as (Hld2 & Hm2 & Hd2).
  destruct (t_load_msb n l h e2 Hn Hld2 Hh) as (Hm3 & Hdn & Hd3). fold e1 in Hmn, Hm, Hd.
  fold e2 in Hm2, Hd2. fold e3 in Hm3, Hdn, Hd3. split; [exact Hdn |]. split; [by rewrite Hm3, Hm2 |].
  intros m Hne. by rewrite Hm3, Hm2, Hm, Hd3, Hd2, Hd.
Qed.
End Program.

(** The words the routines write. *)
Lemma readback_word n : 0 <= n <= 2 ->
  Z.lor (Z.lor TIMER_RB_CMD TIMER_RB_COUNT_) (TIMER_RB_SEL n) = 224 + 2 ^ (n + 1) /\
  u8 (Z.lor (Z.lor (Z.lor TIMER_RB_CMD TIMER_RB_COUNT_) (if truth TIMER_RB_STATUS_ then 0 else 1)) (TIMER_RB_SEL n))
    = 224 + 2 ^ (n + 1).
Proof. intros Hn. assert (n = 0 \/ n = 1 \/ n = 2) as [-> | [-> | ->]] by lia; done. Qed.

Lemma control_word n st :
  0 <= n <= 2 -> 0 <= st < 256 ->
  u8 (Z.lor (Z.lor (64 * n) TIMER_LSB_MSB) (Z.land st 15)) = 64 * n + 48 + st mod 16.
Proof.
  intros Hn Hst. change 15 with (Z.ones 4). rewrite Z.land_ones by lia. change (2 ^ 4) with 16.
  assert (Hv : 0 <= st mod 16 < 16) by zlia. revert Hv. generalize (st mod 16). intros v Hv.
  assert (Hall : forallb (fun n => forallb (fun v =>
            u8 (Z.lor (Z.lor (64 * n) TIMER_LSB_MSB) v) =? 64 * n + 48 + v) (map Z.of_nat (seq 0 16))) [0; 1; 2] = true)
    by reflexivity.
  rewrite forallb_forall in Hall. specialize (Hall n ltac:(cbn; lia)). rewrite forallb_forall in Hall.
  apply Z.eqb_eq, Hall, in_map_iff. exists (Z.to_nat v). split; [lia | apply in_seq; lia].
Qed.

Lemma timer_selects n :
  0 <= n <= 2 -> Lab2.timer_sel n = Ok (64 * n) /\ Lab2.timer_port n = Ok (TIMER_0 + n) /\
  Lab5.timer_control n = Some (64 * n) /\ Lab5.timer_address n = Some (TIMER_0 + n).
Proof. intros Hn. assert (n = 0 \/ n = 1 \/ n = 2) as [-> | [-> | ->]] by lia; done. Qed.

Lemma divisor_range freq : 19 <= freq <= TIMER_FREQ -> 0 < TIMER_FREQ / freq < 65536.
Proof.
  unfold TIMER_FREQ. intros Hf. split; [apply Z.div_str_pos; lia |].
  apply Z.div_lt_upper_bound; lia.
Qed.

(** The status read is that of the timer, and reading it changes nothing. *)
Definition same_timers {E} `{I8254 E} (e e' : E) : Prop :=
  (forall m, t_mode e' m = t_mode e m) /\ (forall m, t_divisor e' m = t_divisor e m).

Section Conf.
Context {E : Type} `{I8254 E, Irqs E, TimerLcf E}.

Lemma get_conf2 indet timer s (e : E) :
  0 <= timer <= 2 ->
  exists st e', Lab2.timer_get_conf indet timer (s, e) = Ok ((0, Some st), (s, e')) /\
    0 <= st < 256 /\ st mod 64 = t_mode e timer /\ same_timers e e'.
Proof.
  intros Hn. destruct (read_status timer e Hn) as (st & Hr & Hst & Hmod & Hsame).
  exists st. eexists. split; [| split; [exact Hst | split; [exact Hmod | exact Hsame]]].
  unfold Lab2.timer_get_conf. rewrite (proj1 (readback_word timer Hn)), bind_env. cbn [fst snd].
  rewrite t_out_ok by (unfold TIMER_CTRL; lia). destruct (timer_selects timer Hn) as (_ & -> & _). cbn [Z.eqb].
  rewrite bind_lift. unfold env, Lab2.util_sys_inb, st_bind, st_ret. cbn [fst snd]. rewrite Hr. cbn [fst snd from_option id].
  by rewrite u8_id.
Qed.

Lemma get_conf5 timer s (e : E) :
  0 <= timer <= 2 ->
  exists st e', Lab5.timer_get_conf timer ValidPtr (s, e) = Ok ((0, Some st), (s, e')) /\
    0 <= st < 256 /\ st mod 64 = t_mode e timer /\ same_timers e e'.
Proof.
  intros Hn. destruct (read_status timer e Hn) as (st & Hr & Hst & Hmod & Hsame).
  exists st. eexists. split; [| split; [exact Hst | split; [exact Hmod | exact Hsame]]].
  unfold Lab5.timer_get_conf. destruct (timer_selects timer Hn) as (_ & _ & _ & ->). cbv zeta.
  rewrite (proj2 (readback_word timer Hn)), bind_env. cbn [fst snd].
  rewrite t_out_ok by (unfold TIMER_CTRL; lia). rewrite bind_env. unfold ret, util_sys_inb, st_bind, st_ret.
  cbn [fst snd]. rewrite Hr. cbn [fst snd from_option id]. by rewrite land_ones8, u8_id.
Qed.

(** The control word and the two bytes, written after the status [st] was read. *)
Lemma programmed_after timer st d (e e1 : E) :
  0 <= timer <= 2 -> 0 <= st < 256 -> 0 <= d < 65536 -> st mod 64 = t_mode e timer -> same_timers e e1 ->
  exists l h, util_get_LSB d ValidPtr = (0, Some l) /\ util_get_MSB d ValidPtr = (0, Some h) /\
    programmed timer d e
      (snd (sys_outb (TIMER_0 + timer) h (snd (sys_outb (TIMER_0 + timer) l
        (snd (sys_outb TIMER_CTRL (64 * timer + 48 + st mod 16) e1)))))).
Proof.
  intros Hn Hst Hd Hmod [Hm Hdv]. destruct (util_LSB_MSB_roundtrip d ltac:(lia)) as (l & h & Hl & Hh & Hlr & Hhr & Hdd).
  exists l, h. split; [done |]. split; [done |].
  destruct (load_divisor timer st l h e1 Hn ltac:(lia) Hlr Hhr) as (Hd1 & Hm1 & Ho). split; [congruence |].
  split; [rewrite Hm1, <- Hmod; f_equal; zlia |]. intros m Hne. destruct (Ho m Hne) as [-> ->]. by rewrite Hm, Hdv.
Qed.
End Conf.

(** The version of [lab3] and [lab4] on every frequency. *)
Lemma set_frequency3 {E} `{I8254 E, Irqs E, TimerLcf E} indet timer freq s (e : E) :
  0 <= timer <= 2 -> 0 <= freq <= TIMER_FREQ ->
  if freq =? 0 then Lab3.timer_set_frequency indet timer freq (s, e) = Undef DivisionByZero
  else exists e', Lab3.timer_set_frequency indet timer freq (s, e) = Ok (0, (s, e')) /\
    programmed timer (u16 (TIMER_FREQ / freq)) e e'.
Proof.
  intros Hn Hf. destruct (timer_selects timer Hn) as (Hsel & Hport & _ & _).
  destruct (get_conf2 indet timer s e Hn) as (st & e1 & Hc & Hst & Hmod & Hsame).
  destruct (programmed_after timer st _ e e1 Hn Hst (u16_range (TIMER_FREQ / freq)) Hmod Hsame) as (l & h & Hl & Hh & Hp).
  unfold Lab3.timer_set_frequency. replace (TIMER_FREQ <? freq) with false by (symmetry; apply Z.ltb_ge; lia).
  rewrite (bind_ok _ _ _ _ _ Hc). cbn [fst snd Z.eqb]. cbv zeta. rewrite Hsel, bind_lift, Hport, bind_lift. cbn [from_option id].
  rewrite (u8_id (Z.land st 15)) by (change 15 with (Z.ones 4); rewrite Z.land_ones by lia; change (2 ^ 4) with 16; zlia).
  rewrite control_word, bind_env by done. cbn [fst snd]. rewrite t_out_ok by (unfold TIMER_CTRL; lia). cbn [Z.eqb].
  destruct (freq =? 0); [done |]. eexists. split; [| exact Hp].
  rewrite Hl, Hh. cbn [snd from_option id]. rewrite bind_env. cbn [fst snd].
  rewrite t_out_ok by (unfold TIMER_0; lia). cbn [Z.eqb]. rewrite bind_env. cbn [fst snd].
  by rewrite t_out_ok by (unfold TIMER_0; lia).
Qed.

(** C33. [timer_set_frequency] of [lab2], on a machine with an i8254: a frequency
    the divisor cannot express is refused and nothing is written; any other one
    makes the timer count down from [TIMER_FREQ / freq] in the mode it was in, and
    leaves the other timers alone. *)
Theorem set_frequency_programs {E} `{I8254 E, Irqs E, TimerLcf E} indet timer freq s (e : E) :
  0 <= timer <= 2 ->
  if (19 <=? freq) && (freq <=? TIMER_FREQ) then
    exists e', Lab2.timer_set_frequency indet timer freq (s, e) = Ok (0, (s, e')) /\
      programmed timer (TIMER_FREQ / freq) e e' /\ 0 < TIMER_FREQ / freq < 65536
  else Lab2.timer_set_frequency indet timer freq (s, e) = Ok (1, (s, e)).
Proof.
  intros Hn. replace ((19 <=? freq) && (freq <=? TIMER_FREQ)) with (negb ((freq <? 19) || (TIMER_FREQ <? freq)))
    by (rewrite negb_orb, <- !Z.leb_antisym; done).
  destruct (_ || _) eqn:Hf; cbn [negb]; [by unfold Lab2.timer_set_frequency; rewrite Hf |].
  unbool. pose proof (divisor_range freq ltac:(lia)) as Hd.
  pose proof (set_frequency3 indet timer freq s e Hn ltac:(lia)) as Hgen.
  assert (Hz : (freq =? 0) = false) by (apply Z.eqb_neq; lia). rewrite Hz in Hgen. destruct Hgen as (e' & Hgen & Hp).
  rewrite u16_id in Hp by lia. exists e'. split; [| done]. rewrite <- Hgen.
  unfold Lab2.timer_set_frequency, Lab3.timer_set_frequency.
  replace (freq <? 19) with false by (symmetry; apply Z.ltb_ge; lia).
  replace (TIMER_FREQ <? freq) with false by (symmetry; apply Z.ltb_ge; lia). by rewrite Hz.
Qed.

(** The version of [lab3] and [lab4] has lost the lower bound: zero is a
    division by zero, and below 19 the divisor is cut to 16 bits, so the timer is
    programmed with another frequency and the call says it has succeeded. *)
Theorem set_frequency_cut {E} `{I8254 E, Irqs E, TimerLcf E} indet timer freq s (e : E) :
  0 <= timer <= 2 -> 0 <= freq < 19 ->
  if freq =? 0 then Lab3.timer_set_frequency indet timer freq (s, e) = Undef DivisionByZero
  else exists e', Lab3.timer_set_frequency indet timer freq (s, e) = Ok (0, (s, e')) /\
    programmed timer (TIMER_FREQ / freq mod 65536) e e' /\ TIMER_FREQ / freq mod 65536 < TIMER_FREQ / freq.
Proof.
  intros Hn Hf. pose proof (set_frequency3 indet timer freq s e Hn ltac:(unfold TIMER_FREQ; lia)) as Hgen.
  destruct (freq =? 0) eqn:Hz; [done |]. unbool. destruct Hgen as (e' & Hgen & Hp). exists e'. split_and!; [done | done |].
  assert (65536 <= TIMER_FREQ / freq) by (apply Z.div_le_lower_bound; unfold TIMER_FREQ; lia).
  pose proof (Z.mod_pos_bound (TIMER_FREQ / freq) 65536). lia.
Qed.

(** The later version computes the divisor before it tests the frequency: zero
    is a division by zero, and a frequency above the clock's is accepted with
    the divisor 0, which the chip takes for 65536. *)
Theorem set_frequency_later {E} `{I8254 E, Irqs E, TimerLcf E} indet timer freq s (e : E) :
  0 <= timer <= 2 -> 0 <= freq ->
  if freq =? 0 then Lab5.timer_set_frequency indet timer freq (s, e) = Undef DivisionByZero
  else if freq <? 19 then Lab5.timer_set_frequency indet timer freq (s, e) = Ok (1, (s, e))
  else exists e', Lab5.timer_set_frequency indet timer freq (s, e) = Ok (0, (s, e')) /\
      programmed timer (TIMER_FREQ / freq) e e'.
Proof.
  intros Hn Hf0. destruct (timer_selects timer Hn) as (_ & _ & Hctl & Hadr).
  unfold Lab5.timer_set_frequency. rewrite Hctl, Hadr. destruct (freq =? 0) eqn:Hz; [done |]. unbool.
  rewrite orb_false_r. assert (Hrange : (Z.shiftl 1 16 <=? TIMER_FREQ / freq) = (freq <? 19)).
  { change (Z.shiftl 1 16) with 65536. unfold TIMER_FREQ. destruct (freq <? 19) eqn:Hlt; unbool;
      [apply Z.leb_le, Z.div_le_lower_bound; lia | apply Z.leb_gt, Z.div_lt_upper_bound; lia]. }
  rewrite Hrange. destruct (freq <? 19) eqn:Hlt; [done |]. unbool.
  assert (Hd : 0 <= TIMER_FREQ / freq < 65536).
  { unfold TIMER_FREQ. split; [apply Z.div_pos; lia | apply Z.div_lt_upper_bound; lia]. }
  destruct (get_conf5 timer s e Hn) as (st & e1 & Hc & Hst & Hmod & Hsame).
  destruct (programmed_after timer st _ e e1 Hn Hst Hd Hmod Hsame) as (l & h & Hl & Hh & Hp).
  eexists. split; [| exact Hp].
  rewrite (bind_ok _ _ _ _ _ Hc). cbn [fst snd]. cbv zeta. cbn [from_option id].
  rewrite control_word, bind_env by done. cbn [fst snd]. rewrite t_out_ok by (unfold TIMER_CTRL; lia).
  rewrite u16_id, Hl, Hh by lia. cbn [fst snd from_option id]. rewrite bind_env. cbn [fst snd].
  rewrite t_out_ok by (unfold TIMER_0; lia). rewrite bind_env. cbn [fst snd].
  by rewrite t_out_ok by (unfold TIMER_0; lia).
Qed.

(** ** A concrete i8254, for the witnesses *)

Record pit := Pit { p_mode : Z -> Z; p_div : Z -> Z; p_latched : option Z; p_loading : option (Z * option Z) }.

Definition upd (f : Z -> Z) (n v : Z) : Z -> Z := fun m => if m =? n then v else f m.

Definition pit_inb (port : Z) (p : pit) : (Z * option Z) * pit :=
  match p_latched p with
  | Some n => ((0, Some (p_mode p n mod 64)), Pit (p_mode p) (p_div p) None (p_loading p))
  | None => ((0, Some 0), p)
  end.

(** The timer a read-back command names. *)
Definition readback_of (v : Z) : Z := if flag v 1 then 0 else if flag v 2 then 1 else 2.

Definition pit_outb (port v : Z) (p : pit) : Z * pit :=
  (0,
   if port =? TIMER_CTRL then
     if 192 <=? v then Pit (p_mode p) (p_div p) (Some (readback_of v)) (p_loading p)
     else Pit (upd (p_mode p) (v / 64) (v mod 64)) (p_div p) (p_latched p) (Some (v / 64, None))
   else
     match p_loading p with
     | Some (n, None) => Pit (p_mode p) (p_div p) (p_latched p) (Some (n, Some v))
     | Some (n, Some l) => Pit (p_mode p) (upd (p_div p) n (l + 256 * v)) (p_latched p) (Some (n, None))
     | None => p
     end).

#[export] Instance pit_ports : Ports pit := {| sys_inb := pit_inb; sys_outb := pit_outb |}.
#[export] Instance pit_irqs : Irqs pit := {|
  sys_irqsetpolicy := fun _ _ hook_id d => ((0, hook_id), d);
  sys_irqrmpolicy := fun _ d => (0, d);
  sys_irqenable := fun _ d => (0, d);
  sys_irqdisable := fun _ d => (0, d)
|}.
#[export] Instance pit_lcf : TimerLcf pit := {|
  timer_print_config := fun _ _ _ d => (0, d); timer_print_elapsed_time := fun d => (tt, d) |}.

Lemma upd_same f n v : upd f n v n = v.
Proof. unfold upd. by rewrite Z.eqb_refl. Qed.
Lemma upd_other f n v m : m <> n -> upd f n v m = f m.
Proof. unfold upd. intros Hne. by apply Z.eqb_neq in Hne as ->. Qed.

#[export] Instance pit_8254 : I8254 pit.
Proof.
  refine {| t_mode := fun p n => p_mode p n mod 64; t_divisor := p_div;
            t_latched := p_latched; t_loading := p_loading |}.
  - done.
  - intros n p Hn. assert (n = 0 \/ n = 1 \/ n = 2) as [-> | [-> | ->]] by lia; done.
  - intros n p Hn Hl. cbn. unfold pit_inb. rewrite Hl. cbn [fst snd]. split; [| done].
    exists (p_mode p n mod 64). split; [done |]. split; zlia.
  - intros n v p Hn Hv. cbn [sys_outb pit_ports]. unfold pit_outb. rewrite Z.eqb_refl.
    replace (192 <=? 64 * n + 48 + v) with false by (symmetry; apply Z.leb_gt; lia). cbn [snd p_loading p_mode p_div].
    replace ((64 * n + 48 + v) / 64) with n by zlia. split; [done |]. rewrite upd_same. split; [zlia |].
    split; [| done]. intros m Hne. by rewrite upd_other.
  - intros n v p Hn Hl Hv. cbn [sys_outb pit_ports]. unfold pit_outb.
    replace (TIMER_0 + n =? TIMER_CTRL) with false by (symmetry; apply Z.eqb_neq; unfold TIMER_0, TIMER_CTRL; lia).
    rewrite Hl. done.
  - intros n l v p Hn Hl Hv. cbn [sys_outb pit_ports]. unfold pit_outb.
    replace (TIMER_0 + n =? TIMER_CTRL) with false by (symmetry; apply Z.eqb_neq; unfold TIMER_0, TIMER_CTRL; lia).
    rewrite Hl. cbn [snd p_mode p_div]. split; [done |]. rewrite upd_same. split; [done |].
    intros m Hne. by rewrite upd_other.
Defined.

(** Sixty interrupts a second from a timer that was in mode 3. *)
Definition pit0 : pit := Pit (fun _ => 6) (fun _ => 65535) None None.

Lemma set_frequency_programs_witness :
  exists e', Lab2.timer_set_frequency 0 0 60 (Lab2.Statics 0 0, pit0) = Ok (0, (Lab2.Statics 0 0, e')) /\
    programmed 0 19886 pit0 e' /\ t_divisor e' 0 = 19886.
Proof.
  destruct (set_frequency_programs 0 0 60 (Lab2.Statics 0 0) pit0 ltac:(lia)) as (e' & Hr & Hp & _).
  exists e'. split; [exact Hr |]. split; [exact Hp | exact (proj1 Hp)].
Defined.

Lemma set_frequency_cut_witness :
  Lab3.timer_set_frequency 0 0 0 (Lab2.Statics 0 0, pit0) = Undef DivisionByZero /\
  exists e', Lab3.timer_set_frequency 0 0 1 (Lab2.Statics 0 0, pit0) = Ok (0, (Lab2.Statics 0 0, e')) /\ t_divisor e' 0 = 13534.
Proof.
  split; [exact (set_frequency_cut 0 0 0 (Lab2.Statics 0 0) pit0 ltac:(lia) ltac:(lia)) |].
  destruct (set_frequency_cut 0 0 1 (Lab2.Statics 0 0) pit0 ltac:(lia) ltac:(lia)) as (e' & Hr & (Hd & _) & _).
  exists e'. split; [exact Hr | rewrite Hd; reflexivity].
Defined.

Lemma set_frequency_later_witness :
  Lab5.timer_set_frequency 0 0 0 (Lab5.Statics 0 0, pit0) = Undef DivisionByZero /\
  exists e', Lab5.timer_set_frequency 0 2 2000000 (Lab5.Statics 0 0, pit0) = Ok (0, (Lab5.Statics 0 0, e')) /\
    t_divisor e' 2 = 0.
Proof.
  split; [exact (set_frequency_later 0 0 0 (Lab5.Statics 0 0) pit0 ltac:(lia) ltac:(lia)) |].
  destruct (set_frequency_later 0 2 2000000 (Lab5.Statics 0 0) pit0 ltac:(lia) ltac:(lia)) as (e' & Hr & Hp & _).
  exists e'. split; [exact Hr | exact Hp].
Defined.

(** ** [timer_test_int] *)

Definition ticks (bit_no : Z) (ms : list lab_message) : Z :=
  zlen (List.filter (fun m => match m with LabHardware i => truth (Z.land i (BIT bit_no)) | _ => false end) ms).

Section TestInt.
Context {E : Type} `{Ports E, Irqs E, TimerLcf E}.

(** The seconds that have been shown. *)
Definition show_seconds (n : Z) (e : E) : E := Nat.iter (Z.to_nat n) (fun e => snd (timer_print_elapsed_time e)) e.

Lemma show_seconds_snoc n (e : E) :
  0 <= n -> show_seconds (n + 1) e = snd (timer_print_elapsed_time (show_seconds n e)).
Proof. intros Hn. unfold show_seconds. rewrite Z.add_1_r, Z2Nat.inj_succ by lia. done. Qed.

Lemma show_seconds_step n (e : E) :
  0 <= n -> show_seconds (n + 1) e = show_seconds n (snd (timer_print_elapsed_time e)).
Proof. intros Hn. unfold show_seconds. by rewrite Z.add_1_r, Z2Nat.inj_succ, Nat.iter_succ_r by lia. Qed.

(** One message: a second has passed when the counter gets to a multiple of 60. *)
Lemma timer_message_spec bit_no m (s : Lab2.statics) (e : E) :
  0 <= Lab2.counter s ->
  let c := Lab2.counter s + ticks bit_no [m] in
  Lab2.timer_message bit_no m (s, e) =
  Ok (tt, (Lab2.set_counter c s, show_seconds (c / 60 - Lab2.counter s / 60) e)).
Proof.
  intros Hc c. assert (Hno : ticks bit_no [m] = 0 -> Ok (tt, (s, e)) =
    Ok (tt, (Lab2.set_counter c s, show_seconds (c / 60 - Lab2.counter s / 60) e))).
  { intros Hz. unfold c. rewrite Hz, Z.add_0_r, Z.sub_diag. by destruct s. }
  destruct m as [| | i]; [by apply Hno .. |]. cbn [Lab2.timer_message].
  unfold c, ticks in *. cbn [List.filter] in *. destruct (truth (Z.land i (BIT bit_no))); [| by apply Hno].
  change (zlen [LabHardware i]) with 1. unfold when. unfold Lab2.timer_int_handler. rewrite bind_modify, bind_gets.
  cbn [fst snd Lab2.counter Lab2.set_counter]. rewrite Z.rem_mod_nonneg by lia. destruct (_ =? 0) eqn:Hm; unbool.
  - unfold env. cbn [fst snd]. replace ((Lab2.counter s + 1) / 60 - Lab2.counter s / 60) with (0 + 1) by zlia.
    rewrite show_seconds_snoc by lia. change (show_seconds 0 e) with e. by destruct (timer_print_elapsed_time e) as [[] e'].
  - by replace ((Lab2.counter s + 1) / 60 - Lab2.counter s / 60) with 0 by zlia.
Qed.

Lemma show_seconds_add n m (e : E) : 0 <= n -> 0 <= m -> show_seconds m (show_seconds n e) = show_seconds (n + m) e.
Proof.
  intros Hn Hm. unfold show_seconds. rewrite Z.add_comm, Z2Nat.inj_add by lia. symmetry. apply Nat.iter_add.
Qed.

Lemma ticks_cons bit_no m ms : ticks bit_no (m :: ms) = ticks bit_no [m] + ticks bit_no ms.
Proof. unfold ticks, zlen. cbn [List.filter]. destruct (match m with LabHardware _ => _ | _ => _ end); cbn [length]; lia. Qed.

Lemma ticks_one bit_no m : 0 <= ticks bit_no [m] <= 1.
Proof. unfold ticks, zlen. cbn [List.filter]. destruct (match m with LabHardware _ => _ | _ => _ end); cbn [length]; lia. Qed.

Lemma ticks_nonneg bit_no ms : 0 <= ticks bit_no ms.
Proof. unfold ticks, zlen. lia. Qed.

(** The loop ends with the interrupt that brings the counter to [60 * time], or
    at once if it is already there. *)
Lemma timer_loop_spec bit_no time ms : forall (s : Lab2.statics) (e : E),
  0 <= Lab2.counter s ->
  let c := Z.max (Lab2.counter s) (Z.min (Lab2.counter s + ticks bit_no ms) (time * 60)) in
  Lab2.timer_loop bit_no time ms (s, e) =
  Ok (time * 60 <=? c, (Lab2.set_counter c s, show_seconds (c / 60 - Lab2.counter s / 60) e)).
Proof.
  induction ms as [| m ms IH]; intros s e Hs c;
    cbn [Lab2.timer_loop]; rewrite bind_gets; cbn [fst]; destruct (_ <? _) eqn:Hlt; unbool.
  - replace c with (Lab2.counter s) by (unfold c, ticks, zlen; cbn; lia). rewrite Z.sub_diag.
    replace (time * 60 <=? Lab2.counter s) with false by (symmetry; apply Z.leb_gt; lia). by destruct s.
  - replace c with (Lab2.counter s) by (unfold c, ticks, zlen; cbn; lia). rewrite Z.sub_diag.
    replace (time * 60 <=? Lab2.counter s) with true by (symmetry; apply Z.leb_le; lia). by destruct s.
  - pose proof (ticks_one bit_no m) as Hone. rewrite (bind_ok _ _ _ _ _ (timer_message_spec bit_no m s e Hs)).
    pose proof (ticks_nonneg bit_no ms) as Ht. rewrite IH by (cbn [Lab2.counter Lab2.set_counter]; lia). cbn [Lab2.counter Lab2.set_counter Lab2.hook_id].
    replace (Z.max (Lab2.counter s + ticks bit_no [m]) _) with c by (unfold c; rewrite (ticks_cons bit_no m ms); lia).
    assert (Hge : Lab2.counter s + ticks bit_no [m] <= c) by (unfold c; rewrite (ticks_cons bit_no m ms); lia). clearbody c.
    pose proof (Z.div_le_mono (Lab2.counter s) (Lab2.counter s + ticks bit_no [m]) 60 ltac:(lia) ltac:(lia)).
    pose proof (Z.div_le_mono _ c 60 ltac:(lia) Hge). rewrite show_seconds_add by lia.
    by replace (_ - _ + (c / 60 - _)) with (c / 60 - Lab2.counter s / 60) by lia.
  - pose proof (ticks_nonneg bit_no (m :: ms)). replace c with (Lab2.counter s) by (unfold c; lia). rewrite Z.sub_diag.
    replace (time * 60 <=? Lab2.counter s) with true by (symmetry; apply Z.leb_le; lia). by destruct s.
Qed.
End TestInt.

(** ** [timer_test_read_config] *)

(** The two versions of [timer_display_conf] show the same, but for the base,
    which the first one always shows as BCD. *)
Theorem status_fields_agree st field :
  0 <= st < 256 ->
  Lab2.status_field st tsf_base = bcd true /\
  Lab5.status_field st tsf_base = bcd (Z.odd st) /\
  (field <> tsf_base -> Lab2.status_field st field = Lab5.status_field st field).
Proof.
  intros Hst. split; [done |]. split.
  - cbn [Lab5.status_field]. f_equal. unfold truth. rewrite (Z.land_ones st 1 ltac:(lia) : Z.land st 1 = _). change (2 ^ 1) with 2. rewrite Zmod_odd. by destruct (Z.odd st).
  - intros Hne. destruct field; [done | | | done]; cbn [Lab2.status_field Lab5.status_field].
    + by rewrite Z.land_comm.
    + do 2 f_equal. change 15 with (Z.lor 14 1). rewrite Z.land_lor_distr_r, Z.shiftr_lor, (Z.land_comm st 14).
      replace (Z.shiftr (Z.land st 1) 1) with 0; [apply Z.lor_0_r |].
      rewrite (Z.land_ones st 1 ltac:(lia) : Z.land st 1 = _), Z.shiftr_div_pow2 by lia. change (2 ^ 1) with 2. zlia.
Qed.

Lemma status_fields_agree_witness : Lab2.status_field 54 tsf_mode = Lab5.status_field 54 tsf_mode.
Proof. apply (status_fields_agree 54 tsf_mode); [lia | discriminate]. Defined.
