(* ===== verification/LabKbc.v ===== *)
(** The keyboard laboratory: [lab3/kbc.c] and [lab3/lab3.c].

    The scancodes are assembled in an array of two bytes by the three test
    functions, which share the code and the statics; the polling one then tries
    to enable the interrupts of the keyboard again. *)

From stdpp Require Import base tactics list.
From Stdlib Require Import ZArith Lia.
From S2P Require Import Prelude Consts Ports Mouse LabTimer.

(** ** [i8042.h] *)

Definition ESC_BREAKCODE := 129.    (* 0x81 *)
Definition KBC_IRQ := 1.
Definition KBC_ST_REG := 100.       (* 0x64 *)
Definition KBC_RBC_COMMAND := 32.   (* 0x20 *)
Definition KBC_WRT_COMMAND := 96.   (* 0x60 *)
Definition ENB_KBD_INT := 174.      (* 0xAE *)
Definition FB_OF_TB := 224.         (* 0xE0 *)
Definition PAR := BIT 7.
Definition TIMEOUT := BIT 6.
Definition IBF := BIT 1.
Definition OBF := BIT 0.

(** The functions of the LCF library that show results; the first one gets the
    array, of which it reads the [size] first bytes. *)
Class KbdLcf (E : Type) := {
  kbd_print_scancode : bool -> Z -> list Z -> ST E unit;
  kbd_print_no_sysinb : Z -> ST E unit
}.

(** The statics of [kbc.c], [lab3.c] and [timer.c]. *)
Record lab3 := Lab3 {
  hook_id_kbc : Z;
  sc_byte : Z;
  inb_counter : Z;
  size : Z;
  bytes : list Z;         (* [bytes[2]] *)
  counter : Z;
  hook_id_timer : Z
}.

Definition set_hook_id_kbc x (s : lab3) := Lab3 x (sc_byte s) (inb_counter s) (size s) (bytes s) (counter s) (hook_id_timer s).
Definition set_sc_byte x (s : lab3) := Lab3 (hook_id_kbc s) x (inb_counter s) (size s) (bytes s) (counter s) (hook_id_timer s).
Definition set_inb_counter x (s : lab3) := Lab3 (hook_id_kbc s) (sc_byte s) x (size s) (bytes s) (counter s) (hook_id_timer s).
Definition set_size x (s : lab3) := Lab3 (hook_id_kbc s) (sc_byte s) (inb_counter s) x (bytes s) (counter s) (hook_id_timer s).
Definition set_bytes x (s : lab3) := Lab3 (hook_id_kbc s) (sc_byte s) (inb_counter s) (size s) x (counter s) (hook_id_timer s).
Definition set_counter x (s : lab3) := Lab3 (hook_id_kbc s) (sc_byte s) (inb_counter s) (size s) (bytes s) x (hook_id_timer s).
Definition set_hook_id_timer x (s : lab3) := Lab3 (hook_id_kbc s) (sc_byte s) (inb_counter s) (size s) (bytes s) (counter s) x.

Definition lab3_init : lab3 := Lab3 0 0 0 0 [0; 0] 0 0.

Section Lab3.
Context {E : Type} `{Ports E, Irqs E, Delay E, KbdLcf E}.

(** The value found in a variable that has not been set. *)
Variable indet : Z.

(** *** [kbc.c] *)

(** The byte stored in [*value]; the callers pass the address of a variable. *)
Definition sys_inb_cnt (port : Z) : M lab3 E (Z * Z) :=
  let* r := env (sys_inb port) in
  do* modify (fun s => set_inb_counter (inb_counter s + 1) s) in
  ret (0, u8 (default indet (snd r))).

Definition kbc_subscribe_int (bit_no : Z) : M lab3 E Z :=
  do* modify (set_hook_id_kbc bit_no) in
  let* h := gets hook_id_kbc in
  let* r := env (sys_irqsetpolicy KBC_IRQ (Z.lor IRQ_REENABLE IRQ_EXCLUSIVE) h) in
  do* modify (set_hook_id_kbc (snd r)) in
  ret (if fst r =? 1 then 1 else 0).

Definition kbc_unsubscribe_int : M lab3 E Z :=
  let* h := gets hook_id_kbc in
  let* r := env (sys_irqrmpolicy h) in
  ret (if r =? 1 then 1 else 0).

Definition kbc_read_status : M lab3 E (Z * Z) :=
  let* r := sys_inb_cnt KBC_ST_REG in
  ret (if fst r =? 1 then 1 else 0, snd r).

Definition kbc_read_buf : M lab3 E (Z * Z) :=
  let* r := sys_inb_cnt KBC_OUT_BUF in
  ret (if fst r =? 1 then 1 else 0, snd r).

(** The masked status is compared with 1, which bits 6 and 7 never give. *)
Definition kbc_check_status : M lab3 E bool :=
  let* r := kbc_read_status in
  let st := snd r in
  if fst r =? 1 then ret false
  else if truth (Z.land OBF st) then
    if Z.land st (Z.lor PAR TIMEOUT) =? 1 then ret false else ret true
  else ret false.

Definition kbc_ih : M lab3 E unit :=
  let* ok := kbc_check_status in
  when ok
    (let* r := kbc_read_buf in
     modify (set_sc_byte (snd r))).

Definition kbc_wrt_cmd (cmd args : Z) : M lab3 E Z :=
  let* r := kbc_read_status in
  if fst r =? 1 then ret 1
  else if Z.land (snd r) IBF =? 0 then
    let* r := env (sys_outb KBC_CMD_REG cmd) in
    if r =? 1 then ret 1 else ret 0
  else
    let* r := env (sys_outb KBC_ARG_REG args) in
    if r =? 1 then ret 1 else ret 0.

(** *** [lab3.c] *)

(** [bytes[i] = b]. *)
Definition store (i b : Z) : M lab3 E unit :=
  let* bs := gets bytes in
  match arr_set bs i b with
  | None => undef OutOfBounds
  | Some bs => modify (set_bytes bs)
  end.

Definition size_incr : M lab3 E unit := modify (fun s => set_size (u8 (size s + 1)) s).

(** The assembly of the scancodes, the same in the three functions; the result
    is whether [ESC_flag] is set. *)
Definition process_byte : M lab3 E bool :=
  let* b := gets sc_byte in
  do* (if b =? FB_OF_TB then
         do* store 0 b in size_incr
       else
         let* n := gets size in
         do* store n b in
         do* size_incr in
         let make := negb (Z.land (BIT 7) b =? BIT 7) in
         let* n := gets size in
         let* bs := gets bytes in
         do* env (kbd_print_scancode make n (take (Z.to_nat n) bs)) in
         modify (set_size 0)) in
  let* bs := gets bytes in
  ret (default 0 (arr_get bs 0) =? ESC_BREAKCODE).

Definition scan_message (bit_no : Z) (m : lab_message) : M lab3 E bool :=
  match m with
  | LabFailed | LabOther => ret false
  | LabHardware interrupts =>
      if truth (Z.land interrupts (BIT bit_no)) then
        do* kbc_ih in process_byte
      else ret false
  end.

(** [while (!ESC_flag)] over the messages received. *)
Fixpoint scan_loop (bit_no : Z) (ms : list lab_message) : M lab3 E bool :=
  match ms with
  | [] => ret false
  | m :: ms =>
      let* esc := scan_message bit_no m in
      if esc then ret true else scan_loop bit_no ms
  end.

(** The code returned, or [None] while the loop goes on. *)
Definition kbd_test_scan (ms : list lab_message) : M lab3 E (option Z) :=
  let bit_no := u8 KBC_IRQ in
  let* r := kbc_subscribe_int bit_no in
  if r =? 1 then ret (Some 1)
  else
    let* ended := scan_loop bit_no ms in
    if ended then
      let* n := gets inb_counter in
      do* env (kbd_print_no_sysinb n) in
      let* r := kbc_unsubscribe_int in
      ret (Some (if r =? 1 then 1 else 0))
    else ret None.

(** [while (!kbc_check_status()) continue;], with fuel. *)
Fixpoint poll_status (fuel : nat) : M lab3 E bool :=
  match fuel with
  | O => ret false
  | S fuel =>
      let* ok := kbc_check_status in
      if ok then ret true else poll_status fuel
  end.

(** The [do ... while (!ESC_flag)] loop of at most [n] bytes. *)
Fixpoint poll_loop (fuel n : nat) : M lab3 E bool :=
  match n with
  | O => ret false
  | S n =>
      let* ok := poll_status fuel in
      if ok then
        let* r := kbc_read_buf in
        do* modify (set_sc_byte (snd r)) in
        let* esc := process_byte in
        if esc then ret true else poll_loop fuel n
      else ret false
  end.

(** What follows the loop. *)
Definition poll_restore : M lab3 E Z :=
  let* n := gets inb_counter in
  do* env (kbd_print_no_sysinb n) in
  let* r := kbc_wrt_cmd KBC_RBC_COMMAND 0 in
  if r =? 1 then ret 1
  else
    do* env tickdelay in
    let* r := kbc_read_buf in
    if fst r =? 1 then ret 1
    else
      let eint := Z.lor (snd r) ENB_KBD_INT in
      let* r := kbc_wrt_cmd KBC_WRT_COMMAND eint in
      if r =? 1 then ret 1 else ret 0.

Definition kbd_test_poll (fuel n : nat) : M lab3 E (option Z) :=
  let* ended := poll_loop fuel n in
  if ended then let* r := poll_restore in ret (Some r) else ret None.

(** [timer.c] of [lab3]. *)
Definition timer_subscribe_int (bit_no : Z) : M lab3 E Z :=
  do* modify (set_hook_id_timer bit_no) in
  let* h := gets hook_id_timer in
  let* r := env (sys_irqsetpolicy TIMER0_IRQ IRQ_REENABLE h) in
  do* modify (set_hook_id_timer (snd r)) in
  ret (if fst r =? 1 then 1 else 0).

Definition timer_unsubscribe_int : M lab3 E Z :=
  let* h := gets hook_id_timer in
  let* r := env (sys_irqrmpolicy h) in
  ret (if r =? 1 then 1 else 0).

Definition timer_int_handler : M lab3 E unit := modify (fun s => set_counter (counter s + 1) s).

Definition timed_message (bit_no_kbc bit_no_timer : Z) (m : lab_message) : M lab3 E bool :=
  match m with
  | LabFailed | LabOther => ret false
  | LabHardware interrupts =>
      let* esc :=
        if truth (Z.land interrupts (BIT bit_no_kbc)) then
          do* kbc_ih in
          do* modify (set_counter 0) in
          process_byte
        else ret false in
      do* when (truth (Z.land interrupts (BIT bit_no_timer))) timer_int_handler in
      ret esc
  end.

(** [while (!ESC_flag && counter < n * 60)]. *)
Fixpoint timed_loop (bit_no_kbc bit_no_timer n : Z) (ms : list lab_message) : M lab3 E bool :=
  let* c := gets counter in
  if c <? n * 60 then
    match ms with
    | [] => ret false
    | m :: ms =>
        let* esc := timed_message bit_no_kbc bit_no_timer m in
        if esc then ret true else timed_loop bit_no_kbc bit_no_timer n ms
    end
  else ret true.

Definition kbd_test_timed_scan (n : Z) (ms : list lab_message) : M lab3 E (option Z) :=
  let bit_no_kbc := u8 KBC_IRQ in
  let* r := kbc_subscribe_int bit_no_kbc in
  if r =? 1 then ret (Some 1)
  else
    let bit_no_timer := u8 TIMER0_IRQ in
    let* r := timer_subscribe_int bit_no_timer in
    if r =? 1 then ret (Some 1)
    else
      let* ended := timed_loop bit_no_kbc bit_no_timer n ms in
      if ended then
        let* r := kbc_unsubscribe_int in
        if r =? 1 then ret (Some 1)
        else
          let* r := timer_unsubscribe_int in
          ret (Some (if r =? 1 then 1 else 0))
      else ret None.
End Lab3.

(** ** The stream of scancodes *)

Inductive code := Short (b : Z) | Long (b : Z).

Definition code_bytes (c : code) : list Z := match c with Short b => [b] | Long b => [FB_OF_TB; b] end.
Definition code_last (c : code) : Z := match c with Short b | Long b => b end.
Definition code_ok (c : code) : Prop := code_last c <> FB_OF_TB.
Definition is_make (b : Z) : bool := negb (Z.land (BIT 7) b =? BIT 7).

(** A machine whose keyboard controller holds bytes: they are read in their
    order, the status says when there is one (whatever its error bits), and
    [shown] is what the library has been given. *)
Class KeyboardLine (E : Type) `{Ports E, Irqs E, Delay E, KbdLcf E} := {
  pending : E -> list Z;
  shown : E -> list (bool * list Z);
  line_status e :
    pending e <> [] ->
    let r := sys_inb KBC_ST_REG e in
    (exists st, snd (fst r) = Some st /\ Z.land OBF (u8 st) = 1) /\ pending (snd r) = pending e /\ shown (snd r) = shown e;
  line_data e b bs :
    pending e = b :: bs ->
    let r := sys_inb KBC_OUT_BUF e in
    snd (fst r) = Some b /\ pending (snd r) = bs /\ shown (snd r) = shown e;
  line_bytes e : Forall (fun b => 0 <= b < 256) (pending e);
  line_show mk n bs e :
    let e' := snd (kbd_print_scancode mk n bs e) in
    pending e' = pending e /\ shown e' = shown e ++ [(mk, bs)];
  line_count n e : let e' := snd (kbd_print_no_sysinb n e) in pending e' = pending e /\ shown e' = shown e;
  line_set l p h e :
    let r := sys_irqsetpolicy l p h e in
    fst (fst r) = 0 /\ pending (snd r) = pending e /\ shown (snd r) = shown e;
  line_rm h e :
    let r := sys_irqrmpolicy h e in fst r = 0 /\ pending (snd r) = pending e /\ shown (snd r) = shown e
}.

Definition show_code (c : code) : bool * list Z := (is_make (code_last c), code_bytes c).

Section Stream.
Context {E : Type} `{KeyboardLine E}.
Variable indet : Z.

(** Between two scancodes; [arr2] in any state. *)
Definition arr2 (s : lab3) : Prop := length (bytes s) = 2%nat.
Definition ready (s : lab3) : Prop := arr2 s /\ size s = 0.

Lemma arr2_cells s : arr2 s -> exists b0 b1, bytes s = [b0; b1].
Proof. unfold arr2. destruct (bytes s) as [| b0 [| b1 [| ? ?]]]; try discriminate. intros _. by exists b0, b1. Qed.

Lemma process_prefix s (e : E) :
  arr2 s -> sc_byte s = FB_OF_TB ->
  exists s', process_byte (s, e) = Ok (false, (s', e)) /\ arr2 s' /\ size s' = u8 (size s + 1) /\
    arr_get (bytes s') 0 = Some FB_OF_TB /\ sc_byte s' = sc_byte s.
Proof.
  intros Ha Hb. destruct (arr2_cells s Ha) as (b0 & b1 & Hbs). unfold process_byte.
  rewrite bind_gets. cbn [fst]. rewrite Hb, Z.eqb_refl. unfold store, size_incr.
  mrun. rewrite Hbs. cbn. eexists. split; [reflexivity |]. done.
Qed.

(** The byte that completes a scancode. *)
Lemma process_last s (e : E) b0 b1 :
  bytes s = [b0; b1] -> sc_byte s <> FB_OF_TB -> size s = 0 \/ size s = 1 ->
  let b := sc_byte s in
  let bs := if size s =? 0 then [b; b1] else [b0; b] in
  exists s', process_byte (s, e) =
    Ok (default 0 (arr_get bs 0) =? ESC_BREAKCODE,
        (s', snd (kbd_print_scancode (is_make b) (size s + 1) (take (Z.to_nat (size s + 1)) bs) e))) /\
    ready s' /\ bytes s' = bs.
Proof.
  intros Hbs Hb Hsz. unfold process_byte. rewrite bind_gets. cbn [fst]. apply Z.eqb_neq in Hb. rewrite Hb.
  unfold store, size_incr, is_make, ready, arr2. mrun. rewrite Hbs.
  destruct Hsz as [Hsz | Hsz]; rewrite Hsz.
  - rewrite (eq_refl : arr_set [b0; b1] 0 (sc_byte s) = Some [sc_byte s; b1]).
    cbv beta iota. cbn [bytes set_bytes size set_size]. rewrite Hsz. eexists. split; [reflexivity | done].
  - rewrite (eq_refl : arr_set [b0; b1] 1 (sc_byte s) = Some [b0; sc_byte s]).
    cbv beta iota. cbn [bytes set_bytes size set_size]. rewrite Hsz. eexists. split; [reflexivity | done].
Qed.

Lemma process_overflow s (e : E) :
  arr2 s -> sc_byte s <> FB_OF_TB -> 2 <= size s -> process_byte (s, e) = Undef OutOfBounds.
Proof.
  intros Ha Hb Hsz. unfold process_byte. rewrite bind_gets. cbn [fst]. apply Z.eqb_neq in Hb. rewrite Hb.
  unfold store. mrun. rewrite arr_set_None; [done |]. unfold zlen. rewrite Ha. lia.
Qed.

Lemma sys_inb_cnt_eq p s (e : E) :
  sys_inb_cnt indet p (s, e) =
  Ok ((0, u8 (default indet (snd (fst (sys_inb p e))))), (set_inb_counter (inb_counter s + 1) s, snd (sys_inb p e))).
Proof. reflexivity. Qed.

(** Bits 6 and 7 masked are never 1. *)
Lemma errors_ignored st : (Z.land st (Z.lor PAR TIMEOUT) =? 1) = false.
Proof.
  apply Z.eqb_neq. intros Hst. apply (f_equal (fun z => Z.testbit z 0)) in Hst.
  by rewrite Z.land_spec, andb_false_r in Hst.
Qed.

(** The status is accepted, the errors it may report included. *)
Lemma check_status_takes s (e : E) :
  pending e <> [] ->
  kbc_check_status indet (s, e) = Ok (true, (set_inb_counter (inb_counter s + 1) s, snd (sys_inb KBC_ST_REG e))).
Proof.
  intros Hp. destruct (line_status e Hp) as ((st & Hst & Hobf) & _ & _).
  unfold kbc_check_status, kbc_read_status. cbv beta.
  assert (Hr : bind (sys_inb_cnt indet KBC_ST_REG) (fun r => ret (if fst r =? 1 then 1 else 0, snd r)) (s, e) =
               Ok ((0, u8 st), (set_inb_counter (inb_counter s + 1) s, snd (sys_inb KBC_ST_REG e)))).
  { unfold bind. rewrite sys_inb_cnt_eq, Hst. done. }
  rewrite (bind_ok _ _ _ _ _ Hr). cbn [fst snd Z.eqb]. rewrite Hobf, errors_ignored. done.
Qed.

(** The interrupt handler takes the next byte. *)
Lemma kbc_ih_takes s (e : E) b bs :
  pending e = b :: bs ->
  exists s' e', kbc_ih indet (s, e) = Ok (tt, (s', e')) /\ sc_byte s' = b /\ bytes s' = bytes s /\ size s' = size s /\
    pending e' = bs /\ shown e' = shown e.
Proof.
  intros Hp. assert (Hb : 0 <= b < 256) by (pose proof (line_bytes e) as Hl; rewrite Hp in Hl; by inversion Hl).
  assert (Hne : pending e <> []) by (by rewrite Hp). destruct (line_status e Hne) as (_ & Hp1 & Hs1).
  rewrite Hp in Hp1. destruct (line_data _ b bs Hp1) as (Hd & Hp2 & Hs2).
  unfold kbc_ih. rewrite (bind_ok _ _ _ _ _ (check_status_takes s e Hne)). cbn [when]. unfold kbc_read_buf.
  unfold bind. rewrite sys_inb_cnt_eq, Hd. cbn. eexists _, _. split; [reflexivity |].
  cbn. rewrite u8_id by done. by rewrite Hs2.
Qed.

(** The interrupt of the keyboard. *)
Definition key_interrupt : lab_message := LabHardware (BIT KBC_IRQ).

Lemma scan_takes s (e : E) b bs :
  pending e = b :: bs ->
  exists s' e', sc_byte s' = b /\ bytes s' = bytes s /\ size s' = size s /\ pending e' = bs /\ shown e' = shown e /\
    scan_message indet KBC_IRQ key_interrupt (s, e) = process_byte (s', e').
Proof.
  intros Hp. destruct (kbc_ih_takes s e b bs Hp) as (s' & e' & Hr & ? & ? & ? & ? & ?).
  exists s', e'. split_and!; [done .. |]. cbn [scan_message key_interrupt]. change (truth _) with true. cbn iota.
  by rewrite (bind_ok _ _ _ _ _ Hr).
Qed.

(** One scancode, an interrupt for each of its bytes. *)
Lemma scan_code c rest s (e : E) :
  ready s -> code_ok c -> pending e = code_bytes c ++ rest ->
  exists s' e', scan_loop indet KBC_IRQ (map (fun _ => key_interrupt) (code_bytes c)) (s, e) =
    Ok (match c with Short b => b =? ESC_BREAKCODE | Long _ => false end, (s', e')) /\
    ready s' /\ pending e' = rest /\ shown e' = shown e ++ [show_code c].
Proof.
  intros [Ha Hsz] Hc Hp. destruct (arr2_cells s Ha) as (b0 & b1 & Hbs). unfold show_code, code_ok in *.
  destruct c as [b | b]; cbn [code_bytes code_last app map scan_loop] in *;
    destruct (scan_takes s e _ _ Hp) as (s1 & e1 & Hb1 & Hbs1 & Hsz1 & Hp1 & Hs1 & Hm);
    unfold bind at 1; rewrite Hm; rewrite Hbs in Hbs1; rewrite Hsz in Hsz1.
  - rewrite <- Hb1 in Hc. destruct (process_last s1 e1 b0 b1 Hbs1 Hc (or_introl Hsz1)) as (s' & Hr & Hs' & _).
    rewrite Hr, Hsz1, Hb1. cbn [fst snd]. change (default 0 _ =? ESC_BREAKCODE) with (b =? ESC_BREAKCODE).
    destruct (line_show (is_make b) (0 + 1) [b] e1) as (Hl1 & Hl2).
    exists s'. eexists. split; [destruct (b =? ESC_BREAKCODE); reflexivity |]. split; [done |].
    split; [exact (eq_trans Hl1 Hp1) | rewrite <- Hs1; exact Hl2].
  - assert (Ha1 : arr2 s1) by (unfold arr2; by rewrite Hbs1).
    destruct (process_prefix s1 e1 Ha1 Hb1) as (s2 & Hr & Ha2 & Hsz2 & Hc0 & _). rewrite Hr. cbn [fst snd].
    rewrite Hsz1 in Hsz2. destruct (arr2_cells s2 Ha2) as (c0 & c1 & Hbs2). rewrite Hbs2 in Hc0. injection Hc0 as ->.
    destruct (scan_takes s2 e1 _ _ Hp1) as (s3 & e3 & Hb3 & Hbs3 & Hsz3 & Hp3 & Hs3 & Hm3).
    unfold bind. rewrite Hm3. rewrite Hbs2 in Hbs3. rewrite Hsz2 in Hsz3. rewrite <- Hb3 in Hc.
    destruct (process_last s3 e3 FB_OF_TB c1 Hbs3 Hc (or_intror Hsz3)) as (s' & Hr' & Hs' & _).
    rewrite Hr', Hsz3, Hb3. cbn [fst snd]. change (default 0 _ =? ESC_BREAKCODE) with false.
    destruct (line_show (is_make b) (1 + 1) [FB_OF_TB; b] e3) as (Hl1 & Hl2).
    exists s'. eexists. split; [reflexivity |]. split; [done |].
    split; [exact (eq_trans Hl1 Hp3) | rewrite <- Hs1, <- Hs3; exact Hl2].
Qed.

(** A sequence of scancodes without the release of ESC. *)
Definition codes_bytes (cs : list code) : list Z := concat (map code_bytes cs).
Definition interrupts_of (bs : list Z) : list lab_message := map (fun _ => key_interrupt) bs.
Definition typed (c : code) : Prop := code_ok c /\ c <> Short ESC_BREAKCODE.

Lemma scan_loop_app bit_no ms1 ms2 st :
  scan_loop indet bit_no (ms1 ++ ms2) st =
  res_bind (scan_loop indet bit_no ms1 st) (fun r => if fst r : bool then Ok r else scan_loop indet bit_no ms2 (snd r)).
Proof.
  revert st. induction ms1 as [| m ms1 IH]; intros st; [done |]. cbn [scan_loop app]. unfold bind.
  destruct (scan_message indet bit_no m st) as [[[] st1] |]; [done | apply IH | done].
Qed.

Lemma scan_codes cs : forall rest s (e : E),
  ready s -> Forall typed cs -> pending e = codes_bytes cs ++ rest ->
  exists s' e', scan_loop indet KBC_IRQ (interrupts_of (codes_bytes cs)) (s, e) = Ok (false, (s', e')) /\
    ready s' /\ pending e' = rest /\ shown e' = shown e ++ map show_code cs.
Proof.
  induction cs as [| c cs IH]; intros rest s e Hs Hcs Hp.
  { exists s, e. by rewrite app_nil_r. }
  inversion Hcs as [| ? ? [Hc Hesc] Hcs']; subst. cbn [codes_bytes map concat] in *.
  rewrite <- app_assoc in Hp. destruct (scan_code c _ s e Hs Hc Hp) as (s1 & e1 & Hr & Hs1 & Hp1 & Hsh1).
  destruct (IH rest s1 e1 Hs1 Hcs' Hp1) as (s' & e' & Hr' & Hs' & Hp' & Hsh'). exists s', e'.
  unfold interrupts_of in *. rewrite map_app, scan_loop_app, Hr. cbn [res_bind fst snd].
  replace (match c with Short b => b =? ESC_BREAKCODE | Long _ => false end) with false.
  2: { destruct c as [b |]; [| done]. symmetry. apply Z.eqb_neq. intros ->. by apply Hesc. }
  split; [exact Hr' |]. split; [done |]. split; [done |]. by rewrite Hsh', Hsh1, <- app_assoc.
Qed.
End Stream.


(** Two prefixes in a row, between complete scancodes, and the byte after
    them is written past the end of [bytes]. *)
Theorem scan_double_prefix {E} `{KeyboardLine E} indet cs b rest s (e : E) ms :
  ready s -> Forall typed cs -> b <> FB_OF_TB -> pending e = codes_bytes cs ++ FB_OF_TB :: FB_OF_TB :: b :: rest ->
  scan_loop indet KBC_IRQ (interrupts_of (codes_bytes cs ++ [FB_OF_TB; FB_OF_TB; b]) ++ ms) (s, e) = Undef OutOfBounds.
Proof.
  intros Hs Hcs Hb Hp. unfold interrupts_of. rewrite map_app, <- app_assoc, scan_loop_app.
  destruct (scan_codes indet cs _ s e Hs Hcs Hp) as (s1 & e1 & Hr1 & [Ha1 Hsz1] & Hp1 & _).
  unfold interrupts_of in Hr1. rewrite Hr1. cbn [res_bind fst snd map app scan_loop].
  destruct (scan_takes indet s1 e1 _ _ Hp1) as (s2 & e2 & Hb2 & Hbs2 & Hsz2 & Hp2 & _ & Hm2).
  assert (Ha2 : arr2 s2) by (unfold arr2; by rewrite Hbs2).
  destruct (process_prefix s2 e2 Ha2 Hb2) as (s3 & Hr3 & Ha3 & Hsz3 & _). rewrite Hr3 in Hm2.
  rewrite (bind_ok _ _ _ _ _ Hm2). cbn iota. rewrite Hsz2, Hsz1 in Hsz3.
  destruct (scan_takes indet s3 e2 _ _ Hp2) as (s4 & e4 & Hb4 & Hbs4 & Hsz4 & Hp4 & _ & Hm4).
  assert (Ha4 : arr2 s4) by (unfold arr2; by rewrite Hbs4).
  destruct (process_prefix s4 e4 Ha4 Hb4) as (s5 & Hr5 & Ha5 & Hsz5 & _). rewrite Hr5 in Hm4.
  rewrite (bind_ok _ _ _ _ _ Hm4). cbn iota. rewrite Hsz4, Hsz3 in Hsz5.
  destruct (scan_takes indet s5 e4 _ _ Hp4) as (s6 & e6 & Hb6 & Hbs6 & Hsz6 & _ & _ & Hm6).
  unfold bind. rewrite Hm6, process_overflow; [done | unfold arr2; by rewrite Hbs6 | congruence |].
  rewrite Hsz6, Hsz5. done.
Qed.

(** ** A concrete keyboard, for the witnesses *)

Record keyq := KeyQ { q_bytes : list Z; q_shown : list (bool * list Z) }.

Definition keyq_inb (port : Z) (k : keyq) : (Z * option Z) * keyq :=
  if port =? KBC_ST_REG then ((0, Some (if q_bytes k is [] then 0 else 1)), k)
  else match q_bytes k with
       | b :: bs => ((0, Some (u8 b)), KeyQ bs (q_shown k))
       | [] => ((0, None), k)
       end.

#[export] Instance keyq_ports : Ports keyq := {| sys_inb := keyq_inb; sys_outb := fun _ _ k => (0, k) |}.
#[export] Instance keyq_delay : Delay keyq := {| tickdelay := fun k => (tt, k) |}.
#[export] Instance keyq_irqs : Irqs keyq := {|
  sys_irqsetpolicy := fun _ _ hook_id k => ((0, hook_id), k);
  sys_irqrmpolicy := fun _ k => (0, k);
  sys_irqenable := fun _ k => (0, k);
  sys_irqdisable := fun _ k => (0, k)
|}.
#[export] Instance keyq_lcf : KbdLcf keyq := {|
  kbd_print_scancode := fun mk _ bs k => (tt, KeyQ (q_bytes k) (q_shown k ++ [(mk, bs)]));
  kbd_print_no_sysinb := fun _ k => (tt, k)
|}.

#[export] Instance keyq_line : KeyboardLine keyq.
Proof.
  refine {| pending := fun k => map u8 (q_bytes k); shown := q_shown |}; try done.
  - intros k Hne. cbn. destruct (q_bytes k) eqn:Hq; [done |]. split; [by exists 1 | by rewrite ?Hq].
  - intros k b bs Hp. cbn. unfold keyq_inb. cbn. destruct (q_bytes k) as [| b' bs']; [discriminate |].
    by injection Hp as <- <-.
  - intros k. apply Forall_forall. intros b Hb. apply list_elem_of_In, in_map_iff in Hb as (x & <- & _). apply u8_range.
Defined.

(** The key a, an arrow, and ESC. *)
Definition keyq0 : keyq := KeyQ [30; 158; 224; 72; 224; 200; ESC_BREAKCODE; 5] [].


Lemma scan_double_prefix_witness :
  scan_loop 0 KBC_IRQ (interrupts_of [158; 224; 224; 200]) (lab3_init, KeyQ [158; 224; 224; 200] []) = Undef OutOfBounds.
Proof.
  apply (scan_double_prefix 0 [Short 158] 200 [] lab3_init (KeyQ [158; 224; 224; 200] []) []);
    [by split | by repeat constructor | discriminate | reflexivity].
Defined.

(** ** The command byte of the controller

    The controller keeps a command byte, whose bit 0 enables the interrupts of
    the keyboard; it is replaced by the argument, written to port 0x60, of the
    command 0x60. *)
Class CommandByte (E : Type) `{Ports E, Delay E, KbdLcf E} := {
  command_byte : E -> Z;
  awaiting : E -> option Z;
  cb_in p e : let e' := snd (sys_inb p e) in command_byte e' = command_byte e /\ awaiting e' = awaiting e;
  cb_tick e : let e' := snd (tickdelay e) in command_byte e' = command_byte e /\ awaiting e' = awaiting e;
  cb_count n e :
    let e' := snd (kbd_print_no_sysinb n e) in command_byte e' = command_byte e /\ awaiting e' = awaiting e;
  cb_cmd v e :
    let e' := snd (sys_outb KBC_CMD_REG v e) in
    command_byte e' = command_byte e /\ awaiting e' = if v =? KBC_WRT_COMMAND then Some v else None;
  cb_arg v e :
    let e' := snd (sys_outb KBC_ARG_REG v e) in
    command_byte e' = (if decide (awaiting e = Some KBC_WRT_COMMAND) then u8 v else command_byte e) /\
    awaiting e' = None
}.

Section Restore.
Context {E : Type} `{CommandByte E}.
Variable indet : Z.

(** One of the two bytes is written. *)
Lemma wrt_cmd_keeps cmd args s (e : E) :
  awaiting e <> Some KBC_WRT_COMMAND ->
  exists r s' e', kbc_wrt_cmd indet cmd args (s, e) = Ok (r, (s', e')) /\ command_byte e' = command_byte e /\
    (cmd <> KBC_WRT_COMMAND -> awaiting e' <> Some KBC_WRT_COMMAND).
Proof.
  intros Ha. unfold kbc_wrt_cmd, kbc_read_status, sys_inb_cnt.
  destruct (cb_in KBC_ST_REG e) as [Hb1 Ha1]. set (e1 := snd (sys_inb KBC_ST_REG e)) in *.
  set (st := u8 (default indet (snd (fst (sys_inb KBC_ST_REG e))))).
  unfold bind. cbn. fold e1. fold st. destruct (cb_cmd cmd e1) as [Hb2 Ha2]. destruct (cb_arg args e1) as [Hb3 Ha3].
  rewrite Ha1 in Hb3. destruct (decide _); [done |].
  destruct (Z.land st IBF =? 0).
  - exists (if fst (sys_outb KBC_CMD_REG cmd e1) =? 1 then 1 else 0), (set_inb_counter (inb_counter s + 1) s),
      (snd (sys_outb KBC_CMD_REG cmd e1)). split; [by destruct (_ =? 1) |]. split; [congruence |].
    intros Hne. rewrite Ha2. apply Z.eqb_neq in Hne. by rewrite Hne.
  - exists (if fst (sys_outb KBC_ARG_REG args e1) =? 1 then 1 else 0), (set_inb_counter (inb_counter s + 1) s),
      (snd (sys_outb KBC_ARG_REG args e1)). split; [by destruct (_ =? 1) |]. split; [congruence |]. by rewrite Ha3.
Qed.
End Restore.

(** After the loop [kbd_test_poll] means to enable the interrupts of the
    keyboard again; [kbc_wrt_cmd] writes the command or its argument, never
    both, so whatever the controller answers its command byte stays as it was. *)
Theorem poll_restore_does_not {E} `{CommandByte E} indet s (e : E) :
  awaiting e <> Some KBC_WRT_COMMAND ->
  exists r s' e', poll_restore indet (s, e) = Ok (r, (s', e')) /\ command_byte e' = command_byte e.
Proof.
  intros Ha. unfold poll_restore. rewrite bind_gets, bind_env. cbn [fst snd].
  destruct (cb_count (inb_counter s) e) as [Hb0 Ha0]. set (e0 := snd (kbd_print_no_sysinb (inb_counter s) e)) in *.
  rewrite <- Ha0 in Ha.
  destruct (wrt_cmd_keeps indet KBC_RBC_COMMAND 0 s e0 Ha) as (r1 & s1 & e1 & Hr1 & Hb1 & Ha1).
  rewrite (bind_ok _ _ _ _ _ Hr1). specialize (Ha1 ltac:(discriminate)).
  destruct (r1 =? 1). { exists 1, s1, e1. split; [done | congruence]. }
  rewrite bind_env. cbn [fst snd]. destruct (cb_tick e1) as [Hb2 Ha2]. set (e2 := snd (tickdelay e1)) in *.
  destruct (cb_in KBC_OUT_BUF e2) as [Hb3 Ha3]. set (e3 := snd (sys_inb KBC_OUT_BUF e2)) in *.
  set (b := u8 (default indet (snd (fst (sys_inb KBC_OUT_BUF e2))))).
  set (s2 := set_inb_counter (inb_counter s1 + 1) s1).
  assert (Hbuf : kbc_read_buf indet (s1, e2) = Ok ((0, b), (s2, e3))) by done.
  rewrite (bind_ok _ _ _ _ _ Hbuf). cbn [fst snd Z.eqb].
  destruct (wrt_cmd_keeps indet KBC_WRT_COMMAND (Z.lor b ENB_KBD_INT) s2 e3 ltac:(rewrite Ha3, Ha2; exact Ha1)) as (r4 & s4 & e4 & Hr4 & Hb4 & _).
  rewrite (bind_ok _ _ _ _ _ Hr4). exists (if r4 =? 1 then 1 else 0), s4, e4.
  split; [by destruct (r4 =? 1) | congruence].
Qed.

(** A controller with a command byte. *)
Record kbc := Kbc { kb_byte : Z; kb_awaiting : option Z }.

#[export] Instance kbc_ports : Ports kbc := {|
  sys_inb := fun _ k => ((0, Some 0), k);
  sys_outb := fun p v k =>
    (0, if p =? KBC_CMD_REG then Kbc (kb_byte k) (if v =? KBC_WRT_COMMAND then Some v else None)
        else Kbc (if decide (kb_awaiting k = Some KBC_WRT_COMMAND) then u8 v else kb_byte k) None) |}.
#[export] Instance kbc_delay : Delay kbc := {| tickdelay := fun k => (tt, k) |}.
#[export] Instance kbc_lcf : KbdLcf kbc := {|
  kbd_print_scancode := fun _ _ _ k => (tt, k); kbd_print_no_sysinb := fun _ k => (tt, k) |}.

#[export] Instance kbc_command : CommandByte kbc.
Proof. refine {| command_byte := kb_byte; awaiting := kb_awaiting |}; done. Defined.

Lemma poll_restore_does_not_witness :
  exists r s' e', poll_restore 0 (lab3_init, Kbc 66 None) = Ok (r, (s', e')) /\ command_byte e' = 66.
Proof.
  destruct (poll_restore_does_not 0 lab3_init (Kbc 66 None)) as (r & s' & e' & Hr & Hb); [discriminate |].
  exists r, s', e'. split; [exact Hr | exact Hb].
Defined.
