(* ===== verification/LabMouse.v ===== *)
(** The mouse laboratory: [lab4/mouse.c] and [lab4/lab4.c].

    The commands to the mouse through the keyboard controller and their
    acknowledgement, the assembly of the packets, and the recognition of a
    gesture from the events the packets stand for. *)

From stdpp Require Import base tactics list.
From Stdlib Require Import ZArith Lia.
From S2P Require Import Prelude Consts Ports Mouse LabTimer.

(** ** [i8042.h] *)

Definition KBC_ST_REG := 100.         (* 0x64 *)
Definition KBC_WRT_COMMAND := 96.     (* 0x60 *)
Definition WRITE_B_MOUSE := 212.      (* 0xD4 *)
Definition MOUSE_ENABLE_REPORT := 244.
Definition MOUSE_DISABLE_REPORT := 245.
Definition MOUSE_STREAM_MODE := 234.
Definition MOUSE_READ_DATA := 235.
Definition ACK := 250.                (* 0xFA *)
Definition NACK := 254.
Definition ERROR := 252.
Definition PK_LB := BIT 0.
Definition PK_RB := BIT 1.
Definition PK_MB := BIT 2.
Definition PK_BIT3 := BIT 3.
Definition PK_XSIGN := BIT 4.
Definition PK_YSIGN := BIT 5.
Definition PK_XOVF := BIT 6.
Definition PK_YOVF := BIT 7.
Definition PAR := BIT 7.
Definition TIMEOUT := BIT 6.
Definition IBF := BIT 1.
Definition OBF := BIT 0.

(** ** Packets *)

(** [mouse_parse_packet] on the three bytes; the sign bits are subtracted. *)
Definition mouse_parse_packet (bytes : Z * Z * Z) : packet :=
  let '(b0, b1, b2) := bytes in
  let dx := s16 b1 in
  let dy := s16 b2 in
  let dx := if truth (Z.land b0 PK_XSIGN) then s16 (dx - 256) else dx in
  let dy := if truth (Z.land b0 PK_YSIGN) then s16 (dy - 256) else dy in
  Packet bytes (truth (Z.land b0 PK_RB)) (truth (Z.land b0 PK_MB)) (truth (Z.land b0 PK_LB))
    dx dy (truth (Z.land b0 PK_XOVF)) (truth (Z.land b0 PK_YOVF)).

(** ** Events

    [struct mouse_ev] and its kinds (declared by the LCF library). *)
Inductive ev_t := RB_PRESSED | RB_RELEASED | LB_PRESSED | LB_RELEASED | BUTTON_EV | MOUSE_MOV.

Record mouse_ev := MouseEv { type : ev_t; ev_delta_x : Z; ev_delta_y : Z }.

#[export] Instance ev_t_eq_dec : EqDecision ev_t.
Proof. solve_decision. Defined.
Definition ev_eqb (a b : ev_t) : bool := bool_decide (a = b).

(** The statics of [mouse_get_event]; the caller gets the address of [event]. *)
Record events := Events { oldpk : packet; event : mouse_ev; first : bool }.

Definition byte0 (p : packet) : Z := fst (fst (pk_bytes p)).
Definition byte1 (p : packet) : Z := snd (fst (pk_bytes p)).
Definition byte2 (p : packet) : Z := snd (pk_bytes p).

(** The chain of tests: the kind of the event, if one of them holds. *)
Definition event_kind (temp old : Z) (pp : packet) : option ev_t :=
  if (Z.land temp PK_LB =? PK_LB) && (Z.land old PK_LB =? 0) then Some LB_PRESSED
  else if (Z.land temp PK_RB =? PK_RB) && (Z.land old PK_RB =? 0) then Some RB_PRESSED
  else if (Z.land temp PK_MB =? PK_MB) && (Z.land old PK_MB =? 0) then Some BUTTON_EV
  else if (Z.land temp PK_LB =? 0) && (Z.land old PK_LB =? PK_LB) then Some LB_RELEASED
  else if (Z.land temp PK_RB =? 0) && (Z.land old PK_RB =? PK_RB) then Some RB_RELEASED
  else if (Z.land temp PK_MB =? 0) && (Z.land old PK_MB =? PK_MB) then Some BUTTON_EV
  else if negb (byte1 pp =? 0) || negb (byte2 pp =? 0) then Some MOUSE_MOV
  else None.

Definition mouse_get_event (pp : packet) (s : events) : events :=
  let e := event s in
  if first s then Events pp (MouseEv BUTTON_EV (ev_delta_x e) (ev_delta_y e)) false
  else
    let e :=
      match event_kind (byte0 pp) (byte0 (oldpk s)) pp with
      | Some MOUSE_MOV => MouseEv MOUSE_MOV (delta_x pp) (delta_y pp)
      | Some k => MouseEv k (ev_delta_x e) (ev_delta_y e)
      | None => e
      end in
    Events pp e false.

(** ** The gesture *)

Inductive state := init | drag1 | wait | drag2.

#[export] Instance state_eq_dec : EqDecision state.
Proof. solve_decision. Defined.

(** The statics of [mouse_detect_gesture], and [gesture]. *)
Record detector := Detector { st : state; accepted_line : bool; sum_x : Z; gesture : bool }.

Definition detector_init : detector := Detector init false 0 false.

Definition set_st (x : state) (d : detector) : detector := Detector x (accepted_line d) (sum_x d) (gesture d).

Section Detect.
Variables x_len tolerance : Z.

Definition beyond (e : mouse_ev) : bool := (tolerance <? Z.abs (ev_delta_x e)) || (tolerance <? Z.abs (ev_delta_y e)).

(** A movement that is not rejected. *)
Definition advance (e : mouse_ev) (d : detector) : detector :=
  let sum := s16 (sum_x d + ev_delta_x e) in
  Detector (st d) (if x_len <=? Z.abs sum then true else accepted_line d) sum (gesture d).

(** [delta_y / delta_x] of C. *)
Definition slope (e : mouse_ev) : res Z :=
  if ev_delta_x e =? 0 then Undef DivisionByZero else Ok (Z.quot (ev_delta_y e) (ev_delta_x e)).

(** The event is changed in place by the first drag. *)
Definition mouse_detect_gesture (e : mouse_ev) (d : detector) : res (mouse_ev * detector) :=
  match st d with
  | init => Ok (e, if ev_eqb (type e) LB_PRESSED then set_st drag1 d else d)
  | drag1 =>
      if ev_eqb (type e) MOUSE_MOV then
        let e := if (ev_delta_y e =? 0) || (ev_delta_x e =? 0)
                 then MouseEv (type e) (s16 (ev_delta_x e + 1)) (s16 (ev_delta_y e + 1)) else e in
        res_bind (slope e) (fun k =>
          Ok (e, if (k <=? 1) && beyond e then set_st init d else advance e d))
      else if ev_eqb (type e) LB_RELEASED && accepted_line d
      then Ok (e, Detector wait false 0 (gesture d))
      else Ok (e, set_st init d)
  | wait =>
      if ev_eqb (type e) MOUSE_MOV then Ok (e, if beyond e then set_st init d else d)
      else if ev_eqb (type e) RB_PRESSED then Ok (e, set_st drag2 d)
      else if ev_eqb (type e) LB_PRESSED then Ok (e, set_st drag1 d)
      else Ok (e, set_st init d)
  | drag2 =>
      if ev_eqb (type e) MOUSE_MOV then
        res_bind (slope e) (fun k =>
          Ok (e, if (-1 <=? k) && beyond e then set_st init d else advance e d))
      else if ev_eqb (type e) RB_RELEASED && accepted_line d
      then Ok (e, Detector drag2 false 0 true)
      else Ok (e, set_st init d)
  end.
End Detect.

(** ** The driver and the test functions *)

Class MouseLcf (E : Type) := {
  mouse_print_packet : packet -> ST E unit;
  sys_hz : ST E Z;
  minix_get_dflt_kbc_cmd_byte : ST E Z;
  delay_ms : Z -> ST E unit               (* [tickdelay(micros_to_ticks(ms * 1000))] *)
}.

(** The statics of [mouse.c], [lab4.c] and [timer.c]. *)
Record lab4 := Lab4 {
  hook_id_mouse : Z;
  hook_id_timer : Z;
  sc_byte : Z;
  size : Z;
  bytes : Z * Z * Z;          (* [bytes[3]] *)
  counter : Z;
  get_event : events;
  detect : detector
}.

Definition set_hook_id_mouse x (s : lab4) :=
  Lab4 x (hook_id_timer s) (sc_byte s) (size s) (bytes s) (counter s) (get_event s) (detect s).
Definition set_hook_id_timer x (s : lab4) :=
  Lab4 (hook_id_mouse s) x (sc_byte s) (size s) (bytes s) (counter s) (get_event s) (detect s).
Definition set_sc_byte x (s : lab4) :=
  Lab4 (hook_id_mouse s) (hook_id_timer s) x (size s) (bytes s) (counter s) (get_event s) (detect s).
Definition set_size x (s : lab4) :=
  Lab4 (hook_id_mouse s) (hook_id_timer s) (sc_byte s) x (bytes s) (counter s) (get_event s) (detect s).
Definition set_bytes x (s : lab4) :=
  Lab4 (hook_id_mouse s) (hook_id_timer s) (sc_byte s) (size s) x (counter s) (get_event s) (detect s).
Definition set_counter x (s : lab4) :=
  Lab4 (hook_id_mouse s) (hook_id_timer s) (sc_byte s) (size s) (bytes s) x (get_event s) (detect s).
Definition set_gesture_state ev dt (s : lab4) :=
  Lab4 (hook_id_mouse s) (hook_id_timer s) (sc_byte s) (size s) (bytes s) (counter s) ev dt.

Section Lab4.
Context {E : Type} `{Ports E, Irqs E, Delay E, MouseLcf E}.

(** The value found in a variable that has not been set. *)
Variable indet : Z.

(** *** [mouse.c] *)

Definition sys_inb_mouse (port : Z) : ST E (Z * Z) :=
  let+ r := sys_inb port in st_ret (0, u8 (default indet (snd r))).

Definition kbc_read_status : ST E (Z * Z) :=
  let+ r := sys_inb_mouse KBC_ST_REG in st_ret (if fst r =? 1 then 1 else 0, snd r).

Definition kbc_read_buf : ST E (Z * Z) :=
  let+ r := sys_inb_mouse KBC_OUT_BUF in st_ret (if fst r =? 1 then 1 else 0, snd r).

(** The masked status is compared with 1, which bits 6 and 7 never give. *)
Definition kbc_check_status : ST E bool :=
  let+ r := kbc_read_status in
  if fst r =? 1 then st_ret false
  else if truth (Z.land OBF (snd r)) then
    if Z.land (snd r) (Z.lor PAR TIMEOUT) =? 1 then st_ret false else st_ret true
  else st_ret false.

Definition mouse_subscribe_int (bit_no : Z) : M lab4 E Z :=
  do* modify (set_hook_id_mouse bit_no) in
  let* h := gets hook_id_mouse in
  let* r := env (sys_irqsetpolicy MOUSE_IRQ (Z.lor IRQ_REENABLE IRQ_EXCLUSIVE) h) in
  do* modify (set_hook_id_mouse (snd r)) in
  ret (if fst r =? 1 then 1 else 0).

Definition mouse_unsubscribe_int : M lab4 E Z :=
  let* h := gets hook_id_mouse in
  let* r := env (sys_irqrmpolicy h) in
  ret (if r =? 1 then 1 else 0).

Definition kbc_check_out_buf : ST E bool :=
  let+ r := kbc_read_status in
  if fst r =? 1 then st_ret true
  else if truth (Z.land (snd r) OBF) then
    if Z.land (snd r) (Z.lor PAR TIMEOUT) =? 0 then st_ret true else st_ret false
  else st_ret false.

Definition mouse_ih : M lab4 E unit :=
  let* ok := env kbc_check_out_buf in
  when ok
    (let* r := env kbc_read_buf in
     modify (set_sc_byte (snd r))).

Definition kbc_check_in_buf : ST E bool :=
  let+ r := kbc_read_status in
  if fst r =? 1 then st_ret true
  else if Z.land (snd r) IBF =? 0 then st_ret true
  else st_ret false.

(** [tries] is what is left of the three rounds. *)
Fixpoint kbc_write_command_loop (tries : nat) (cmd : Z) : ST E Z :=
  match tries with
  | O => st_ret 1
  | S tries =>
      let+ ok := kbc_check_in_buf in
      if ok then
        let+ r := sys_outb KBC_CMD_REG cmd in
        st_ret (if r =? 1 then 1 else 0)
      else
        do+ tickdelay in
        kbc_write_command_loop tries cmd
  end.
Definition kbc_write_command (cmd : Z) : ST E Z := kbc_write_command_loop 3 cmd.

Fixpoint kbc_write_argument_loop (tries : nat) (arg : Z) : ST E Z :=
  match tries with
  | O => st_ret 1
  | S tries =>
      let+ ok := kbc_check_in_buf in
      if ok then
        let+ r := sys_outb KBC_ARG_REG arg in
        st_ret (if r =? 1 then 1 else 0)
      else
        do+ tickdelay in
        kbc_write_argument_loop tries arg
  end.
Definition kbc_write_argument (arg : Z) : ST E Z := kbc_write_argument_loop 3 arg.

(** The code, and the byte stored in [*resp] if one is. *)
Fixpoint mouse_write_command_loop (tries : nat) (cmd : Z) : ST E (Z * option Z) :=
  match tries with
  | O => st_ret (1, None)
  | S tries =>
      let+ ok := kbc_check_in_buf in
      if ok then
        let+ r := sys_outb KBC_ARG_REG cmd in
        if r =? 1 then st_ret (1, None)
        else
          do+ tickdelay in
          let+ r := sys_inb KBC_OUT_BUF in
          if fst r =? 1 then st_ret (1, None)
          else st_ret (0, Some (u8 (default indet (snd r))))
      else
        do+ tickdelay in
        mouse_write_command_loop tries cmd
  end.
Definition mouse_write_command (cmd : Z) : ST E (Z * option Z) := mouse_write_command_loop 3 cmd.

(** The [do ... while (tries < 3)] loop, with fuel; [None] is out of fuel.  A
    round that gets none of the three responses, or another command, does not
    count as a try. *)
Fixpoint kbc_command_handler (fuel : nat) (tries cmd arg : Z) : ST E (option Z) :=
  match fuel with
  | O => st_ret None
  | S fuel =>
      let again tries := if tries <? 3 then kbc_command_handler fuel tries cmd arg else st_ret (Some 1) in
      let+ r := kbc_write_command cmd in
      if r =? 1 then st_ret (Some 1)
      else if cmd =? WRITE_B_MOUSE then
        let+ m := mouse_write_command arg in
        if fst m =? 1 then st_ret (Some 1)
        else
          let resp := default indet (snd m) in
          if resp =? ACK then st_ret (Some 0)
          else if resp =? NACK then again (u8 (tries + 1))
          else if resp =? ERROR then st_ret (Some 1)
          else again tries
      else if cmd =? KBC_WRT_COMMAND then
        let+ r := kbc_write_argument arg in
        st_ret (Some (if r =? 1 then 1 else 0))
      else again tries
  end.

(** *** [lab4.c] *)

(** [bytes[size] = sc_byte; size++] unless the byte cannot be a first one; the
    packet if it is the third.  [None] is the [continue] of the loops. *)
Definition collect : M lab4 E (option (option packet)) :=
  let* n := gets size in
  let* b := gets sc_byte in
  if (n =? 0) && (Z.land b PK_BIT3 =? 0) then ret None
  else
    let* bs := gets bytes in
    match store_byte bs n b with
    | None => undef OutOfBounds
    | Some bs =>
        do* modify (set_bytes bs) in
        do* modify (fun s => set_size (u8 (size s + 1)) s) in
        let* n := gets size in
        if n =? 3 then
          let pp := mouse_parse_packet bs in
          do* env (mouse_print_packet pp) in
          do* modify (set_size 0) in
          ret (Some (Some pp))
        else ret (Some None)
    end.

(** A call whose code ends the function when [bad] holds of it; [None] is a
    function that has not returned yet. *)
Definition check (bad : Z -> bool) (m : M lab4 E (option Z)) (k : M lab4 E (option Z)) : M lab4 E (option Z) :=
  let* r := m in
  match r with
  | None => ret None
  | Some r => if bad r then ret (Some 1) else k
  end.

Definition is1 (r : Z) : bool := r =? 1.
Definition not0 (r : Z) : bool := negb (r =? 0).

Definition call (m : M lab4 E Z) : M lab4 E (option Z) := let* r := m in ret (Some r).

(** A command to the mouse or to the controller, with [fuel] rounds. *)
Definition command (fuel : nat) (cmd arg : Z) : M lab4 E (option Z) := env (kbc_command_handler fuel 0 cmd arg).

(** [mouse_test_packet]: the loop until [cnt] packets have been shown. *)
Fixpoint packet_loop (bit_no cnt num_packets : Z) (ms : list lab_message) : M lab4 E bool :=
  if num_packets <? cnt then
    match ms with
    | [] => ret false
    | LabHardware interrupts :: ms =>
        if truth (Z.land interrupts (BIT bit_no)) then
          do* mouse_ih in
          let* c := collect in
          packet_loop bit_no cnt (match c with Some (Some _) => u32 (num_packets + 1) | _ => num_packets end) ms
        else packet_loop bit_no cnt num_packets ms
    | _ :: ms => packet_loop bit_no cnt num_packets ms
    end
  else ret true.

Definition mouse_test_packet (fuel : nat) (cnt : Z) (ms : list lab_message) : M lab4 E (option Z) :=
  let bit_no := u8 MOUSE_IRQ in
  check is1 (call (mouse_subscribe_int bit_no))
    (check is1 (command fuel WRITE_B_MOUSE MOUSE_ENABLE_REPORT)
       (let* ended := packet_loop bit_no cnt 0 ms in
        if ended then
          check is1 (command fuel WRITE_B_MOUSE MOUSE_DISABLE_REPORT)
            (check is1 (call mouse_unsubscribe_int) (ret (Some 0)))
        else ret None)).

(** [timer.c] of [lab4]. *)
Definition timer_subscribe_int (bit_no : Z) : M lab4 E Z :=
  do* modify (set_hook_id_timer bit_no) in
  let* h := gets hook_id_timer in
  let* r := env (sys_irqsetpolicy TIMER0_IRQ IRQ_REENABLE h) in
  do* modify (set_hook_id_timer (snd r)) in
  ret (if fst r =? 1 then 1 else 0).

Definition timer_unsubscribe_int : M lab4 E Z :=
  let* h := gets hook_id_timer in
  let* r := env (sys_irqrmpolicy h) in
  ret (if r =? 1 then 1 else 0).

Definition timer_int_handler : M lab4 E unit := modify (fun s => set_counter (counter s + 1) s).

(** One message of [mouse_test_async]; the result is the new [seconds]. *)
Definition async_message (bit_no_mouse bit_no_timer frequency seconds : Z) (m : lab_message) : M lab4 E Z :=
  match m with
  | LabFailed | LabOther => ret seconds
  | LabHardware interrupts =>
      let* seconds :=
        if truth (Z.land interrupts (BIT bit_no_timer)) then
          do* timer_int_handler in
          let* c := gets counter in
          if frequency =? 0 then undef DivisionByZero
          else ret (if Z.rem c frequency =? 0 then seconds + 1 else seconds)
        else ret seconds in
      if truth (Z.land interrupts (BIT bit_no_mouse)) then
        do* mouse_ih in
        do* modify (set_counter 0) in
        do* collect in
        ret 0
      else ret seconds
  end.

Fixpoint async_loop (bit_no_mouse bit_no_timer frequency idle_time seconds : Z) (ms : list lab_message)
  : M lab4 E bool :=
  if seconds =? idle_time then ret true
  else
    match ms with
    | [] => ret false
    | m :: ms =>
        let* seconds := async_message bit_no_mouse bit_no_timer frequency seconds m in
        async_loop bit_no_mouse bit_no_timer frequency idle_time seconds ms
    end.

Definition mouse_test_async (fuel : nat) (idle_time : Z) (ms : list lab_message) : M lab4 E (option Z) :=
  let bit_no_mouse := u8 MOUSE_IRQ in
  let bit_no_timer := u8 TIMER0_IRQ in
  check is1 (call (mouse_subscribe_int bit_no_mouse))
    (check is1 (call (timer_subscribe_int bit_no_timer))
       (check is1 (command fuel WRITE_B_MOUSE MOUSE_ENABLE_REPORT)
          (let* frequency := env sys_hz in
           let* ended := async_loop bit_no_mouse bit_no_timer frequency idle_time 0 ms in
           if ended then
             check is1 (command fuel WRITE_B_MOUSE MOUSE_DISABLE_REPORT)
               (check is1 (call mouse_unsubscribe_int)
                  (check is1 (call timer_unsubscribe_int) (ret (Some 0))))
           else ret None))).

(** [mouse_get_event] and [mouse_detect_gesture], called one after the other on
    the packet [pk]. *)
Definition gesture_step (x_len tolerance : Z) (pk : packet) : M lab4 E unit :=
  let* ev := gets get_event in
  let* dt := gets detect in
  let ev := mouse_get_event pk ev in
  let* r := lift (mouse_detect_gesture x_len tolerance (event ev) dt) in
  modify (set_gesture_state (Events (oldpk ev) (fst r) (first ev)) (snd r)).

(** One message of [mouse_test_gesture]: the events are taken from [pk] at every
    byte, also before the packet is complete.  The result is the new [pk]. *)
Definition gesture_message (irq_set x_len tolerance : Z) (pk : packet) (m : lab_message) : M lab4 E packet :=
  match m with
  | LabFailed | LabOther => ret pk
  | LabHardware interrupts =>
      if truth (Z.land interrupts irq_set) then
        do* mouse_ih in
        let* c := collect in
        match c with
        | None => ret pk
        | Some op =>
            let pk := default pk op in
            do* gesture_step x_len tolerance pk in
            ret pk
        end
      else ret pk
  end.

Fixpoint gesture_loop (irq_set x_len tolerance : Z) (pk : packet) (ms : list lab_message) : M lab4 E bool :=
  let* d := gets detect in
  if gesture d then ret true
  else
    match ms with
    | [] => ret false
    | m :: ms =>
        let* pk := gesture_message irq_set x_len tolerance pk m in
        gesture_loop irq_set x_len tolerance pk ms
    end.

(** [irq_bitmask] and the packet [pk] are used before they are set. *)
Definition mouse_test_gesture (fuel : nat) (indet_pk : packet) (x_len tolerance : Z) (ms : list lab_message)
  : M lab4 E (option Z) :=
  let irq_bitmask := u8 indet in
  check is1 (command fuel WRITE_B_MOUSE MOUSE_ENABLE_REPORT)
    (check is1 (call (mouse_subscribe_int irq_bitmask))
       (if 32 <=? irq_bitmask then undef BadShift
        else
          let* ended := gesture_loop (BIT irq_bitmask) x_len tolerance indet_pk ms in
          if ended then
            check is1 (command fuel WRITE_B_MOUSE MOUSE_DISABLE_REPORT)
              (check is1 (call mouse_unsubscribe_int) (ret (Some 0)))
          else ret None)).

(** [while (!kbc_check_out_buf()) continue;], with fuel. *)
Fixpoint poll_out_buf (fuel : nat) : ST E bool :=
  match fuel with
  | O => st_ret false
  | S fuel => let+ ok := kbc_check_out_buf in if ok then st_ret true else poll_out_buf fuel
  end.

(** The [while (true)] loop of [mouse_test_remote], of at most [n] bytes: [Some 0]
    when it is left with all the packets. *)
Fixpoint remote_loop (fuel n : nat) (period cnt num_packets : Z) : M lab4 E (option Z) :=
  match n with
  | O => ret None
  | S n =>
      let* ok := env (poll_out_buf fuel) in
      if negb ok then ret None
      else
        let* r := env kbc_read_buf in
        do* modify (set_sc_byte (snd r)) in
        let* c := collect in
        match c with
        | Some (Some _) =>
            let num_packets := u32 (num_packets + 1) in
            if cnt =? num_packets then ret (Some 0)
            else
              do* env (delay_ms period) in
              check is1 (command fuel WRITE_B_MOUSE MOUSE_READ_DATA)
                (remote_loop fuel n period cnt num_packets)
        | _ => remote_loop fuel n period cnt num_packets
        end
  end.

Definition mouse_test_remote (fuel n : nat) (period cnt : Z) : M lab4 E (option Z) :=
  check is1 (command fuel WRITE_B_MOUSE MOUSE_READ_DATA)
    (check is1 (remote_loop fuel n period cnt 0)
       (check not0 (command fuel WRITE_B_MOUSE MOUSE_STREAM_MODE)
          (check not0 (command fuel WRITE_B_MOUSE MOUSE_DISABLE_REPORT)
             (let* dflt := env minix_get_dflt_kbc_cmd_byte in
              check not0 (command fuel KBC_WRT_COMMAND (u32 dflt)) (ret (Some 0)))))).
End Lab4.

(** ** The packets *)

(** The decoder of the laboratory and that of the game, which extends the
    sign with [cpl2_9_to_16], are the same function on bytes. *)
Theorem parse_packet_agrees b0 b1 b2 :
  0 <= b1 < 256 -> 0 <= b2 < 256 -> mouse_parse_packet (b0, b1, b2) = assembly_packet (b0, b1, b2).
Proof.
  intros H1 H2. unfold mouse_parse_packet, assembly_packet, cpl2_9_to_16. change (Z.shiftl 1 8) with 256.
  assert (Hs : forall b m, 0 <= b < 256 -> (if truth (Z.land b0 (BIT m)) then s16 (s16 b - 256) else s16 b) =
                                      (if flag b0 m then s16 (-256 + b) else s16 b)).
  { intros b m Hb. change (truth (Z.land b0 (BIT m))) with (flag b0 m). rewrite (s16_id b) by lia.
    destruct (flag b0 m); [f_equal; lia | done]. }
  cbv zeta. unfold PK_XSIGN, PK_YSIGN. by rewrite !Hs.
Qed.

Lemma parse_packet_agrees_witness : mouse_parse_packet (24, 251, 7) = assembly_packet (24, 251, 7).
Proof. apply (parse_packet_agrees 24 251 7); lia. Defined.

(** ** The detector *)

Section DetectProps.
Variables x_len tolerance : Z.

Lemma ev_eqb_true a b : ev_eqb a b = true <-> a = b.
Proof. apply bool_decide_eq_true. Qed.

(** The two movements that make the code divide by zero. *)
Definition detect_fault (e : mouse_ev) (d : detector) : bool :=
  ev_eqb (type e) MOUSE_MOV &&
  match st d with
  | drag1 => (ev_delta_x e =? -1) && (ev_delta_y e =? 0)
  | drag2 => ev_delta_x e =? 0
  | _ => false
  end.

Lemma detect_outcome e d :
  -32768 <= ev_delta_x e < 32768 -> -32768 <= ev_delta_y e < 32768 ->
  if detect_fault e d then mouse_detect_gesture x_len tolerance e d = Undef DivisionByZero
  else exists e' d', mouse_detect_gesture x_len tolerance e d = Ok (e', d').
Proof.
  intros Hx Hy. unfold detect_fault, mouse_detect_gesture. destruct (st d).
  - rewrite andb_false_r. by eexists _, _.
  - destruct (ev_eqb (type e) MOUSE_MOV); [| destruct (_ && accepted_line d); by eexists _, _]. cbn [andb].
    destruct e as [k dx dy]. cbn [ev_delta_x ev_delta_y type] in *. unfold slope.
    destruct ((dy =? 0) || (dx =? 0)) eqn:Hz; cbn [ev_delta_x ev_delta_y].
    + assert (Hs : (s16 (dx + 1) =? 0) = (dx =? -1)).
      { unfold s16. destruct (dx =? -1) eqn:E; unbool; [subst; done | apply Z.eqb_neq; zlia]. }
      rewrite Hs. destruct (dx =? -1) eqn:E; cbn [andb res_bind]; [| by eexists _, _].
      unbool. destruct Hz as [Hz | Hz]; unbool; subst; [done | lia].
    + apply orb_false_iff in Hz as [Hdy Hdx]. rewrite Hdy, Hdx, andb_false_r. cbn [res_bind]. by eexists _, _.
  - rewrite andb_false_r.
    destruct (ev_eqb (type e) MOUSE_MOV), (ev_eqb (type e) RB_PRESSED), (ev_eqb (type e) LB_PRESSED); by eexists _, _.
  - destruct (ev_eqb (type e) MOUSE_MOV); [| destruct (_ && accepted_line d); by eexists _, _]. cbn [andb].
    unfold slope. destruct (ev_delta_x e =? 0); [done |]. cbn [res_bind]. by eexists _, _.
Qed.

(** The detector on a sequence of events. *)
Fixpoint detect_all (es : list mouse_ev) (d : detector) : res detector :=
  match es with
  | [] => Ok d
  | e :: es => res_bind (mouse_detect_gesture x_len tolerance e d) (fun r => detect_all es (snd r))
  end.

(** What has been seen when the detector is in a state: a button, and movements
    since. *)
Definition moves (es : list mouse_ev) : Prop := Forall (fun e => type e = MOUSE_MOV) es.

Inductive seen : state -> list mouse_ev -> Prop :=
| seen_init es : seen init es
| seen_drag1 es b ms : type b = LB_PRESSED -> moves ms -> seen drag1 (es ++ b :: ms)
| seen_wait es b ms w : seen drag1 es -> type b = LB_RELEASED -> moves w -> ms = es ++ b :: w -> seen wait ms
| seen_drag2 es b ms w : seen wait es -> type b = RB_PRESSED -> moves w -> ms = es ++ b :: w -> seen drag2 ms.

Lemma moves_snoc es e : moves es -> type e = MOUSE_MOV -> moves (es ++ [e]).
Proof. intros Hes He. apply Forall_app. by repeat constructor. Qed.

Lemma seen_move s es e : seen s es -> type e = MOUSE_MOV -> seen s (es ++ [e]).
Proof.
  intros Hs He. destruct Hs as [es | es b ms Hb Hms | es b ms w Hs Hb Hw -> | es b ms w Hs Hb Hw ->];
    rewrite <- ?app_assoc, <- ?app_comm_cons.
  - apply seen_init.
  - apply seen_drag1; [done | by apply moves_snoc].
  - by eapply (seen_wait es b _ (w ++ [e])); [| | apply moves_snoc |].
  - by eapply (seen_drag2 es b _ (w ++ [e])); [| | apply moves_snoc |].
Qed.

(** One event: the state has been earned, and the gesture is complete only when
    the right button is released at the end of the second drag. *)
Lemma detect_seen es e d e' d' :
  seen (st d) es -> mouse_detect_gesture x_len tolerance e d = Ok (e', d') ->
  (gesture d' = gesture d /\ seen (st d') (es ++ [e])) \/
  (gesture d' = true /\ seen drag2 es /\ type e = RB_RELEASED).
Proof.
  intros Hs. unfold mouse_detect_gesture.
  assert (Hlb : type e = LB_PRESSED -> seen drag1 (es ++ [e])) by (intros; apply seen_drag1; [done | constructor]).
  destruct (st d) eqn:Hst.
  - destruct (ev_eqb (type e) LB_PRESSED) eqn:Hk; intros [= <- <-]; left; (split; [done |]).
    + apply Hlb. by apply ev_eqb_true.
    + rewrite Hst. apply seen_init.
  - destruct (ev_eqb (type e) MOUSE_MOV) eqn:Hk.
    + apply ev_eqb_true in Hk. destruct (slope _) as [k |]; [| discriminate]. cbn [res_bind].
      intros [= <- <-]. left. destruct (_ && _); [by split; [| apply seen_init] |]. split; [done |].
      cbn [advance st]. rewrite Hst. by apply seen_move.
    + destruct (ev_eqb (type e) LB_RELEASED && accepted_line d) eqn:Ha; intros [= <- <-]; left; (split; [done |]);
        [| apply seen_init]. apply andb_true_iff in Ha as [Ha _]. apply ev_eqb_true in Ha.
      by apply (seen_wait es e _ []); [| | constructor |].
  - destruct (ev_eqb (type e) MOUSE_MOV) eqn:Hk; [| destruct (ev_eqb (type e) RB_PRESSED) eqn:Hr;
      [| destruct (ev_eqb (type e) LB_PRESSED) eqn:Hl]]; intros [= <- <-]; left.
    + apply ev_eqb_true in Hk. destruct (beyond tolerance e); [by split; [| apply seen_init] |]. split; [done |].
      rewrite Hst. by apply seen_move.
    + split; [done |]. apply ev_eqb_true in Hr. by apply (seen_drag2 es e _ []); [| | constructor |].
    + split; [done |]. apply Hlb. by apply ev_eqb_true.
    + by split; [| apply seen_init].
  - destruct (ev_eqb (type e) MOUSE_MOV) eqn:Hk.
    + apply ev_eqb_true in Hk. destruct (slope e) as [k |]; [| discriminate]. cbn [res_bind].
      intros [= <- <-]. left. destruct (_ && _); [by split; [| apply seen_init] |]. split; [done |].
      cbn [advance st]. rewrite Hst. by apply seen_move.
    + destruct (ev_eqb (type e) RB_RELEASED && accepted_line d) eqn:Ha; intros [= <- <-].
      * right. apply andb_true_iff in Ha as [Ha _]. by apply ev_eqb_true in Ha.
      * left. by split; [| apply seen_init].
Qed.
End DetectProps.

(** Once complete, the gesture stays so. *)
Lemma detect_keeps_gesture x_len tolerance e d e' d' :
  mouse_detect_gesture x_len tolerance e d = Ok (e', d') -> gesture d' = gesture d \/ gesture d' = true.
Proof.
  unfold mouse_detect_gesture, set_st, advance. destruct (st d).
  - intros [= <- <-]. left. by destruct (ev_eqb _ _).
  - destruct (ev_eqb (type e) MOUSE_MOV).
    + destruct (slope _); [| discriminate]. cbn [res_bind]. intros [= <- <-]. left. by destruct (_ && _).
    + destruct (_ && accepted_line d); intros [= <- <-]; by left.
  - destruct (ev_eqb (type e) MOUSE_MOV); [| destruct (ev_eqb (type e) RB_PRESSED), (ev_eqb (type e) LB_PRESSED)];
      intros [= <- <-]; left; [by destruct (beyond _ _) | done ..].
  - destruct (ev_eqb (type e) MOUSE_MOV).
    + destruct (slope _); [| discriminate]. cbn [res_bind]. intros [= <- <-]. left. by destruct (_ && _).
    + destruct (_ && accepted_line d); intros [= <- <-]; [by right | by left].
Qed.

(** Along a sequence of events: while the gesture is not complete the state has
    been earned; it becomes complete at the release of the right button. *)
Lemma detect_all_seen x_len tolerance es : forall es0 d d',
  seen (st d) es0 -> gesture d = false -> detect_all x_len tolerance es d = Ok d' ->
  (gesture d' = false /\ seen (st d') (es0 ++ es)) \/
  (gesture d' = true /\ exists es1 e es2, es = es1 ++ e :: es2 /\ seen drag2 (es0 ++ es1) /\ type e = RB_RELEASED).
Proof.
  induction es as [| e es IH]; intros es0 d d' Hs Hg; cbn [detect_all].
  { intros [= <-]. rewrite app_nil_r. by left. }
  destruct (mouse_detect_gesture x_len tolerance e d) as [[e1 d1] |] eqn:Hd; [| discriminate]. cbn [res_bind snd].
  intros Hr. destruct (detect_seen _ _ _ _ _ _ _ Hs Hd) as [[Hg1 Hs1] | (Hg1 & Hs1 & He)].
  - rewrite Hg in Hg1. destruct (IH _ _ _ Hs1 Hg1 Hr) as [[Hg' Hs'] | (Hg' & es1 & e' & es2 & -> & Hs' & He')].
    + left. by rewrite <- app_assoc in Hs'.
    + right. split; [done |]. exists (e :: es1), e', es2. by rewrite <- app_assoc in Hs'.
  - right. split.
    + clear - Hg1 Hr. revert d1 Hg1 Hr. induction es as [| e2 es IH]; intros d1 Hg1; cbn [detect_all].
      { by intros [= <-]. }
      destruct (mouse_detect_gesture x_len tolerance e2 d1) as [[e3 d2] |] eqn:Hd; [| discriminate]. cbn [res_bind snd].
      apply IH. destruct (detect_keeps_gesture _ _ _ _ _ _ Hd) as [-> | ->]; done.
    + exists [], e, es. by rewrite app_nil_r.
Qed.

(** C32. The gesture is recognised only after a press and a release of the left
    button and a press of the right one, with nothing but movements between
    them, when the right button is released. *)
Theorem gesture_phases x_len tolerance es d' :
  detect_all x_len tolerance es detector_init = Ok d' -> gesture d' = true ->
  exists es0 lp m1 lr m2 rp m3 rr es1,
    es = es0 ++ [lp] ++ m1 ++ [lr] ++ m2 ++ [rp] ++ m3 ++ [rr] ++ es1 /\
    type lp = LB_PRESSED /\ type lr = LB_RELEASED /\ type rp = RB_PRESSED /\ type rr = RB_RELEASED /\
    moves m1 /\ moves m2 /\ moves m3.
Proof.
  intros Hr Hg. destruct (detect_all_seen x_len tolerance es [] detector_init d' (seen_init []) eq_refl Hr)
    as [[Hg' _] | (_ & es1 & rr & es2 & -> & Hs & Hrr)]; [congruence |].
  cbn [app] in Hs. inversion Hs as [| | | es3 rp m23 m3 Hw Hrp Hm3 E3]; subst.
  inversion Hw as [| | es4 lr m12 m2 Hd1 Hlr Hm2 E2 |]; subst.
  inversion Hd1 as [| es5 lp m1 Hlp Hm1 | |]; subst.
  exists es5, lp, m1, lr, m2, rp, m3, rr, es2. split; [| split_and!; done].
  repeat (rewrite <- app_assoc; cbn [app]). done.
Qed.

(** A gesture of two drags of 20 to the right and 20 to the left. *)
Definition drag_events : list mouse_ev :=
  [MouseEv LB_PRESSED 0 0; MouseEv MOUSE_MOV 20 45; MouseEv LB_RELEASED 20 45;
   MouseEv RB_PRESSED 20 45; MouseEv MOUSE_MOV 20 (-45); MouseEv RB_RELEASED 20 (-45)].

Lemma gesture_phases_witness :
  exists d', detect_all 20 5 drag_events detector_init = Ok d' /\ gesture d' = true /\
    exists es0 lp m1 lr m2 rp m3 rr es1,
      drag_events = es0 ++ [lp] ++ m1 ++ [lr] ++ m2 ++ [rp] ++ m3 ++ [rr] ++ es1 /\ type lp = LB_PRESSED.
Proof.
  assert (Hr : exists d', detect_all 20 5 drag_events detector_init = Ok d' /\ gesture d' = true)
    by (eexists; split; [vm_compute; reflexivity | reflexivity]).
  destruct Hr as (d' & Hr & Hg). exists d'. split; [exact Hr |]. split; [exact Hg |].
  destruct (gesture_phases 20 5 drag_events d' Hr Hg) as (es0 & lp & m1 & lr & m2 & rp & m3 & rr & es1 & Heq & Hlp & _).
  by exists es0, lp, m1, lr, m2, rp, m3, rr, es1.
Defined.

(** C40. The detector leaves the defined behaviour exactly on two movements: one
    to the left by one, level, in the first drag, and a vertical one in the
    second; each is reached from the start. *)
Theorem detect_faults_exactly x_len tolerance e d :
  -32768 <= ev_delta_x e < 32768 -> -32768 <= ev_delta_y e < 32768 ->
  if detect_fault e d then mouse_detect_gesture x_len tolerance e d = Undef DivisionByZero
  else exists e' d', mouse_detect_gesture x_len tolerance e d = Ok (e', d').
Proof. apply detect_outcome. Qed.

Lemma detect_faults_exactly_witness :
  detect_all 20 5 [MouseEv LB_PRESSED 0 0; MouseEv MOUSE_MOV (-1) 0] detector_init = Undef DivisionByZero /\
  mouse_detect_gesture 20 5 (MouseEv MOUSE_MOV (-1) 0) (set_st drag1 detector_init) = Undef DivisionByZero.
Proof.
  split; [reflexivity |].
  exact (detect_faults_exactly 20 5 (MouseEv MOUSE_MOV (-1) 0) (set_st drag1 detector_init) ltac:(cbn; lia) ltac:(cbn; lia)).
Defined.

(** An aborted drag leaves [accepted_line] set: the next press and release of the
    left button are taken for a drag although the mouse did not move. *)
Theorem stale_line_accepted x_len tolerance dx dy :
  0 <= x_len < 256 -> x_len <= dx < 256 -> 0 < dx -> 2 * dx <= dy < 256 ->
  detect_all x_len tolerance
    [MouseEv LB_PRESSED 0 0; MouseEv MOUSE_MOV dx dy; MouseEv RB_PRESSED dx dy;
     MouseEv LB_PRESSED dx dy; MouseEv LB_RELEASED dx dy] detector_init
  = Ok (Detector wait false 0 false).
Proof.
  intros Hl Hx Hp Hy. set (m := MouseEv MOUSE_MOV dx dy).
  assert (Hm : mouse_detect_gesture x_len tolerance m (set_st drag1 detector_init) =
               Ok (m, Detector drag1 true (s16 dx) false)).
  { unfold mouse_detect_gesture, m. cbn [st set_st type ev_delta_x ev_delta_y].
    assert (Hdx : (dx =? 0) = false) by (apply Z.eqb_neq; lia). assert (Hdy : (dy =? 0) = false) by (apply Z.eqb_neq; lia).
    change (ev_eqb MOUSE_MOV MOUSE_MOV) with true. cbn iota. rewrite Hdx, Hdy. cbn [orb]. unfold slope.
    cbn [ev_delta_x ev_delta_y]. rewrite Hdx. cbn [res_bind].
    assert (Hq : 2 <= Z.quot dy dx) by (rewrite Z.quot_div_nonneg by lia; apply Z.div_le_lower_bound; lia).
    replace (Z.quot dy dx <=? 1) with false by (symmetry; apply Z.leb_gt; lia). cbn [andb].
    unfold advance. cbn [sum_x set_st detector_init ev_delta_x st gesture]. rewrite Z.add_0_l.
    replace (x_len <=? Z.abs (s16 dx)) with true; [done |]. symmetry. apply Z.leb_le. rewrite s16_id; lia. }
  cbn [detect_all].
  change (mouse_detect_gesture x_len tolerance (MouseEv LB_PRESSED 0 0) detector_init)
    with (Ok (MouseEv LB_PRESSED 0 0, set_st drag1 detector_init)).
  cbn [res_bind snd]. rewrite Hm. done.
Qed.

Lemma stale_line_accepted_witness :
  detect_all 20 5 [MouseEv LB_PRESSED 0 0; MouseEv MOUSE_MOV 20 45; MouseEv RB_PRESSED 20 45;
                   MouseEv LB_PRESSED 20 45; MouseEv LB_RELEASED 20 45] detector_init
  = Ok (Detector wait false 0 false).
Proof. apply (stale_line_accepted 20 5 20 45); lia. Defined.

(** ** Events taken at every byte *)

(** The same packet again: no button has changed. *)
Lemma event_kind_same pk :
  event_kind (byte0 pk) (byte0 pk) pk =
  if negb (byte1 pk =? 0) || negb (byte2 pk =? 0) then Some MOUSE_MOV else None.
Proof.
  unfold event_kind. assert (Hx : forall b x, b <> 0 -> (x =? b) && (x =? 0) = false).
  { intros b x Hb. destruct (x =? b) eqn:E, (x =? 0) eqn:F; unbool; try done. congruence. }
  assert (Hy : forall b x, b <> 0 -> (x =? 0) && (x =? b) = false) by (intros; rewrite andb_comm; by apply Hx).
  by rewrite !Hx, !Hy.
Qed.

(** [mouse_test_gesture] takes an event at every byte, from the packet it
    has: after a press of the left button without movement the next byte brings
    the press again, which ends the drag it had begun. *)
Theorem press_without_motion_lost {E} x_len tolerance pk s (e : E) :
  oldpk (get_event s) = pk -> first (get_event s) = false -> type (event (get_event s)) = LB_PRESSED ->
  byte1 pk = 0 -> byte2 pk = 0 -> st (detect s) = drag1 ->
  exists s', gesture_step x_len tolerance pk (s, e) = Ok (tt, (s', e)) /\ st (detect s') = init.
Proof.
  intros Hold Hfirst Htype H1 H2 Hst. unfold gesture_step. rewrite bind_gets, bind_gets. cbn [fst]. cbv zeta.
  assert (Hev : event (mouse_get_event pk (get_event s)) = event (get_event s)).
  { unfold mouse_get_event. rewrite Hfirst, Hold, event_kind_same, H1, H2. done. }
  rewrite Hev. unfold mouse_detect_gesture. rewrite Hst, Htype. cbn. by eexists.
Qed.

Definition press_packet : packet := mouse_parse_packet (9, 0, 0).
Definition pressed : lab4 :=
  Lab4 0 0 0 0 (9, 0, 0) 0 (Events press_packet (MouseEv LB_PRESSED 0 0) false) (set_st drag1 detector_init).

Lemma press_without_motion_lost_witness :
  exists s', gesture_step 20 5 press_packet (pressed, tt) = Ok (tt, (s', tt)) /\ st (detect s') = init.
Proof. exact (press_without_motion_lost 20 5 press_packet pressed tt eq_refl eq_refl eq_refl eq_refl eq_refl eq_refl). Defined.

(** ** Commands

    A mouse behind a controller that is ready for commands: [answer e n] is the
    [n]-th byte it will answer from now on. *)
Class AnsweringMouse (E : Type) `{Ports E, Delay E} := {
  answer : E -> nat -> Z;
  am_status e :
    let r := sys_inb KBC_ST_REG e in
    (exists v, snd (fst r) = Some v /\ Z.land (u8 v) IBF = 0) /\ answer (snd r) = answer e;
  am_out p v e : p = KBC_CMD_REG \/ p = KBC_ARG_REG ->
    let r := sys_outb p v e in fst r = 0 /\ answer (snd r) = answer e;
  am_tick e : answer (snd (tickdelay e)) = answer e;
  am_data e :
    let r := sys_inb KBC_OUT_BUF e in
    fst r = (0, Some (answer e 0)) /\ (forall n, answer (snd r) n = answer e (S n)) /\ 0 <= answer e 0 < 256
}.

Section Commands.
Context {E : Type} `{AnsweringMouse E}.
Variable indet : Z.

Lemma in_buf_ready (e : E) : exists e', kbc_check_in_buf indet e = (true, e') /\ answer e' = answer e.
Proof.
  destruct (am_status e) as ((v & Hv & Hi) & Ha). exists (snd (sys_inb KBC_ST_REG e)). split; [| done].
  unfold kbc_check_in_buf, kbc_read_status, sys_inb_mouse, st_bind, st_ret. cbn [fst snd]. rewrite Hv.
  cbn [from_option id Z.eqb]. by rewrite Hi.
Qed.

Lemma write_command_ready cmd (e : E) : exists e', kbc_write_command indet cmd e = (0, e') /\ answer e' = answer e.
Proof.
  unfold kbc_write_command. cbn [kbc_write_command_loop]. destruct (in_buf_ready e) as (e1 & Hr & Ha).
  unfold st_bind at 1. rewrite Hr. cbn [fst snd]. destruct (am_out KBC_CMD_REG cmd e1 ltac:(by left)) as [Hc Ho].
  unfold st_bind, st_ret. rewrite Hc. exists (snd (sys_outb KBC_CMD_REG cmd e1)). by rewrite Ho.
Qed.

Lemma mouse_command_ready cmd (e : E) :
  exists e', mouse_write_command indet cmd e = ((0, Some (answer e 0)), e') /\ forall n, answer e' n = answer e (S n).
Proof.
  unfold mouse_write_command. cbn [mouse_write_command_loop]. destruct (in_buf_ready e) as (e1 & Hr & Ha).
  unfold st_bind at 1. rewrite Hr. cbn [fst snd]. destruct (am_out KBC_ARG_REG cmd e1 ltac:(by right)) as [Hc Ho].
  unfold st_bind at 1. rewrite Hc. cbn [Z.eqb]. set (e2 := snd (sys_outb KBC_ARG_REG cmd e1)) in *.
  unfold st_bind at 1. set (e3 := snd (tickdelay e2)). pose proof (am_tick e2) as Ht. fold e3 in Ht.
  destruct (am_data e3) as (Hd & Hn & Hb). unfold st_bind, st_ret. rewrite Hd. cbn [fst snd Z.eqb from_option id].
  exists (snd (sys_inb KBC_OUT_BUF e3)). rewrite u8_id by done. rewrite Ht, Ho, Ha.
  split; [done |]. intros n. by rewrite Hn, Ht, Ho, Ha.
Qed.

(** One round of a command to the mouse. *)
Lemma handler_round fuel tries arg (e : E) :
  exists e', (forall n, answer e' n = answer e (S n)) /\
    kbc_command_handler indet (S fuel) tries WRITE_B_MOUSE arg e =
    let again tries := if tries <? 3 then kbc_command_handler indet fuel tries WRITE_B_MOUSE arg e' else (Some 1, e') in
    if answer e 0 =? ACK then (Some 0, e')
    else if answer e 0 =? NACK then again (u8 (tries + 1))
    else if answer e 0 =? ERROR then (Some 1, e')
    else again tries.
Proof.
  cbn [kbc_command_handler]. destruct (write_command_ready WRITE_B_MOUSE e) as (e1 & Hw1 & Ha1).
  destruct (mouse_command_ready arg e1) as (e2 & Hw2 & Ha2). exists e2. split; [intros n; by rewrite Ha2, Ha1 |].
  unfold st_bind at 1. rewrite Hw1. cbn [fst snd Z.eqb]. rewrite Z.eqb_refl. unfold st_bind. rewrite Hw2, Ha1.
  cbn [fst snd Z.eqb from_option id]. unfold st_ret. cbv zeta.
  destruct (answer e 0 =? ACK), (answer e 0 =? NACK), (answer e 0 =? ERROR); try done; by destruct (Z.ltb _ 3).
Qed.
End Commands.

(** The answer to the three rounds the loop allows. *)
Fixpoint verdict (rounds : nat) (ans : nat -> Z) : Z :=
  match rounds with
  | O => 1
  | S rounds => if ans O =? ACK then 0 else if ans O =? NACK then verdict rounds (fun n => ans (S n)) else 1
  end.

Definition proper_answer (b : Z) : Prop := b = ACK \/ b = NACK \/ b = ERROR.

Lemma verdict_ext rounds : forall ans ans', (forall n, ans n = ans' n) -> verdict rounds ans = verdict rounds ans'.
Proof.
  induction rounds as [| r IH]; intros ans ans' He; [done |]. cbn [verdict]. rewrite He.
  destruct (ans' O =? ACK), (ans' O =? NACK); try done. apply IH. intros n. apply He.
Qed.

(** C31. A command to the mouse: if it answers with an acknowledgement, a request
    to repeat or an error, [kbc_command_handler] returns after at most three
    rounds, 0 exactly when an acknowledgement comes before an error and a third
    request; any other answer does not count as a try, and if there are only
    such answers the function never returns. *)
Theorem command_handler_returns {E} `{AnsweringMouse E} indet arg (e : E) :
  ((forall n, (n < 3)%nat -> proper_answer (answer e n)) ->
   forall fuel, (3 <= fuel)%nat ->
   fst (kbc_command_handler indet fuel 0 WRITE_B_MOUSE arg e) = Some (verdict 3 (answer e))) /\
  ((forall n, ~ proper_answer (answer e n)) ->
   forall fuel, fst (kbc_command_handler indet fuel 0 WRITE_B_MOUSE arg e) = None).
Proof.
  split.
  - assert (Hgen : forall k tries (e : E), tries = 3 - Z.of_nat k -> (0 < k <= 3)%nat ->
      (forall n, (n < k)%nat -> proper_answer (answer e n)) -> forall fuel, (k <= fuel)%nat ->
      fst (kbc_command_handler indet fuel tries WRITE_B_MOUSE arg e) = Some (verdict k (answer e))).
    { induction k as [| k IH]; [lia |]. intros tries e0 Ht Hk Hp [| fuel] Hf; [lia |].
      destruct (handler_round indet fuel tries arg e0) as (e' & Ha & ->). cbn [verdict]. cbv zeta.
      destruct (Hp O ltac:(lia)) as [-> | [-> | ->]]; [done | | done].
      change (NACK =? ACK) with false. change (NACK =? NACK) with true. cbn iota.
      rewrite (verdict_ext k (fun n => answer e0 (S n)) (answer e')) by done.
      rewrite u8_id by lia. destruct (tries + 1 <? 3) eqn:Hlt; unbool.
      - apply IH; [lia | lia | | lia]. intros n Hn. rewrite Ha. apply Hp. lia.
      - replace k with O by lia. done. }
    intros Hp fuel Hf. by apply Hgen; [| lia | |].
  - intros Hp fuel. revert e Hp. induction fuel as [| fuel IH]; intros e Hp; [done |].
    destruct (handler_round indet fuel 0 arg e) as (e' & Ha & ->). cbv zeta.
    assert (Hno : (answer e 0 =? ACK) = false /\ (answer e 0 =? NACK) = false /\ (answer e 0 =? ERROR) = false).
    { split_and!; apply Z.eqb_neq; intros Heq; apply (Hp O); unfold proper_answer; auto. }
    destruct Hno as (-> & -> & ->). change (0 <? 3) with true. cbn iota. apply IH. intros n. by rewrite Ha.
Qed.

(** A mouse that answers the bytes of a list. *)
Definition replies := list Z.
#[export] Instance replies_ports : Ports replies := {|
  sys_inb := fun port l => if port =? KBC_OUT_BUF then ((0, Some (u8 (hd 0 l))), tl l) else ((0, Some 0), l);
  sys_outb := fun _ _ l => (0, l)
|}.
#[export] Instance replies_delay : Delay replies := {| tickdelay := fun l => (tt, l) |}.

#[export, refine] Instance replies_mouse : AnsweringMouse replies := {| answer := fun l n => u8 (nth n l 0) |}.
Proof.
  - intros l. cbn. split; [by exists 0 | done].
  - done.
  - done.
  - intros l. cbn. split_and!; [by destruct l | intros n; by destruct l, n | apply u8_range ..].
Defined.

(** A request to repeat, and then acknowledgements; and a mouse that answers
    nothing but zeros. *)
Lemma command_handler_returns_witness :
  fst (kbc_command_handler 0 3 0 WRITE_B_MOUSE MOUSE_ENABLE_REPORT ([NACK; ACK; ACK] : replies)) = Some 0 /\
  fst (kbc_command_handler 0 1000 0 WRITE_B_MOUSE MOUSE_ENABLE_REPORT ([] : replies)) = None.
Proof.
  split.
  - destruct (command_handler_returns 0 MOUSE_ENABLE_REPORT ([NACK; ACK; ACK] : replies)) as [Hret _].
    apply (Hret ltac:(intros [| [| [| n]]] Hn; [by right; left | by left | by left | lia]) 3%nat). lia.
  - destruct (command_handler_returns 0 MOUSE_ENABLE_REPORT ([] : replies)) as [_ Hnever].
    apply (Hnever ltac:(intros [| n] [Hn | [Hn | Hn]]; discriminate Hn) 1000%nat).
Defined.
