(* ===== verification/LabVideo.v ===== *)
(** The video laboratory: [lab5/graphics.c], [lab5/keyboard.c] and
    [lab5/lab5.c].

    [mode_get_info] takes the mode from the BIOS, the drawing functions write
    the bytes of the colours to the mapped memory, a sprite moves with its
    position in a [float], and each test draws and then waits for the escape
    key.  What they do is proved in [LabDraw] and [LabSprite]; the other version of
    the laboratory is [LabVideo2]. *)

From stdpp Require Import base tactics list.
From Stdlib Require Import ZArith Lia.
From S2P Require Import Prelude Float32 LabTimer LabKbc Consts Ports Keyboard Mouse NumLetters Vc.

(** ** The BIOS and the library *)

(** What the tests take of [vbe_mode_info_t]. *)
Record vbe_mode_info_t := ModeInfo {
  XResolution : Z; YResolution : Z; BitsPerPixel : Z; MemoryModel : Z;
  RedMaskSize : Z; RedFieldPosition : Z; GreenMaskSize : Z; GreenFieldPosition : Z;
  BlueMaskSize : Z; BlueFieldPosition : Z; PhysBasePtr : Z
}.

(** [vm_map_phys base size]: the contents of the memory mapped.  [vg_exit] is
    the function of the library. *)
Class VideoLcf (E : Type) := {
  sys_int86 : reg86 -> ST E Z;
  vbe_get_mode_info : Z -> ST E vbe_mode_info_t;
  vm_map_phys : Z -> Z -> ST E (list Z);
  vg_exit : ST E Z;
  sleep : Z -> ST E unit
}.

(** The commands of [i8042.h] that only this laboratory uses. *)
Definition READ_CMD_BYTE := 32.     (* 0x20 *)
Definition WRITE_CMD_BYTE := 96.    (* 0x60 *)
Definition CMD_BYTE_ENABLE_KBD_INTERRUPT := BIT 0.
Definition CMD_BYTE_ENABLE_MOUSE_INTERRUPT := BIT 1.

(** [vbe.h] *)
Definition INTNO := 16.             (* 0x10 *)
Definition VBE_CALL_REG_VAL := 79.  (* 0x4F *)
Definition VBE_SET_MODE := 2.
Definition SET_LINEAR := BIT 14.

(** The types of images of the library. *)
Definition XPM_INDEXED := 0.
Definition XPM_5_6_5 := 2.

(** ** [graphics.c] *)

Module Graphics.

Record sprite_mov_t := Sprite {
  id : Z; xi : float; yi : float; xf : Z; yf : Z; speed_x : float; speed_y : float;
  img : xpm_image_t
}.

(** The pointer [sprites]; a cell of the array that has not been set is [None]. *)
Inductive sprite_array :=
| NoSprites
| FreedSprites
| Sprites (cells : list (option sprite_mov_t)).

(** The statics; [mode] is the mode block, from which the ones that describe the
    colours are copied. *)
Record graphics := Graphics {
  video_mem : list Z;
  h_res : Z; v_res : Z; bits_per_pixel : Z; bytes_per_pixel : Z;
  mode : vbe_mode_info_t;
  max_sprites : Z; num_sprites : Z; sprites : sprite_array
}.

Definition set_video_mem (m : list Z) (g : graphics) : graphics :=
  Graphics m (h_res g) (v_res g) (bits_per_pixel g) (bytes_per_pixel g) (mode g)
    (max_sprites g) (num_sprites g) (sprites g).
Definition set_sprites (mx n : Z) (sp : sprite_array) (g : graphics) : graphics :=
  Graphics (video_mem g) (h_res g) (v_res g) (bits_per_pixel g) (bytes_per_pixel g) (mode g) mx n sp.

(** [ceil(bits_per_pixel+7 / 8.0)]: the division binds tighter than the sum. *)
Definition mode_bytes (bits : Z) : Z := (8 * bits + 7 + 7) / 8.

(** The size of the memory that [map_video_mem] maps. *)
Definition vram_size (mi : vbe_mode_info_t) : Z :=
  u32 (XResolution mi * YResolution mi * mode_bytes (BitsPerPixel mi)).

Definition set_mode_info (mi : vbe_mode_info_t) (mapped : list Z) (g : graphics) : graphics :=
  Graphics mapped (XResolution mi) (YResolution mi) (BitsPerPixel mi) (mode_bytes (BitsPerPixel mi)) mi
    (max_sprites g) (num_sprites g) (sprites g).

(** *** Drawing *)

(** The loop over the bytes of a pixel; shifting a [uint32_t] by 32 bits or more
    is undefined. *)
Fixpoint store_bytes (n : nat) (j off color : Z) (mem : list Z) : res (list Z) :=
  match n with
  | O => Ok mem
  | S n =>
      if 32 <=? 8 * j then Undef BadShift
      else
        match arr_set mem off (u8 (Z.shiftr color (8 * j))) with
        | None => Undef OutOfBounds
        | Some mem => store_bytes n (j + 1) (off + 1) color mem
        end
  end.

Definition pixel_offset (x y : Z) (g : graphics) : Z := u32 ((y * h_res g + x) * bytes_per_pixel g).

Definition draw_pixel (x y color : Z) (g : graphics) : res graphics :=
  res_bind (store_bytes (Z.to_nat (bytes_per_pixel g)) 0 (pixel_offset x y g) color (video_mem g))
    (fun mem => Ok (set_video_mem mem g)).

(** [len] pixels, the pointer running on from one to the next. *)
Fixpoint store_line (len : nat) (bytes : Z) (off color : Z) (mem : list Z) : res (list Z) :=
  match len with
  | O => Ok mem
  | S len =>
      res_bind (store_bytes (Z.to_nat bytes) 0 off color mem)
        (store_line len bytes (off + bytes) color)
  end.

Definition vg_draw_hline (x y len color : Z) (g : graphics) : res graphics :=
  res_bind (store_line (Z.to_nat len) (bytes_per_pixel g) (pixel_offset x y g) color (video_mem g))
    (fun mem => Ok (set_video_mem mem g)).

(** A loop from [i], [n] times. *)
Fixpoint for_loop {A} (n : nat) (i : Z) (f : Z -> A -> res A) (a : A) : res A :=
  match n with
  | O => Ok a
  | S n => res_bind (f i a) (for_loop n (i + 1) f)
  end.

Definition draw_rectangle (x y width height color : Z) (g : graphics) : res graphics :=
  for_loop (Z.to_nat height) y (fun i => vg_draw_hline x (u16 i) width color) g.

(** [for (int i = lo; i < n + lo; i++)]: the bound is computed in an [int]. *)
Definition for_range {A} (lo n : Z) (f : Z -> A -> res A) (a : A) : res A :=
  if 2147483647 <? n + lo then Undef IntOverflow else for_loop (Z.to_nat n) lo f a.

(** The two loops over the pixels of an image at (x, y). *)
Definition for_pixels {A} (im : xpm_image_t) (x y : Z) (f : Z -> Z -> A -> res A) (a : A) : res A :=
  for_range y (img_height im) (fun i => for_range x (img_width im) (fun j => f i j)) a.

(** *** Sprites *)

Definition get_sprite (i : Z) (g : graphics) : res sprite_mov_t :=
  match sprites g with
  | NoSprites => Undef NullDeref
  | FreedSprites => Undef UseAfterFree
  | Sprites cells =>
      match arr_get cells i with
      | None => Undef OutOfBounds
      | Some None => Undef Uninitialised
      | Some (Some s) => Ok s
      end
  end.

Definition put_sprite (i n : Z) (s : sprite_mov_t) (g : graphics) : res graphics :=
  match sprites g with
  | NoSprites => Undef NullDeref
  | FreedSprites => Undef UseAfterFree
  | Sprites cells =>
      match arr_set cells i (Some s) with
      | None => Undef OutOfBounds
      | Some cells => Ok (set_sprites (max_sprites g) n (Sprites cells) g)
      end
  end.

Definition create_sprite_memory (max_num_sprites : Z) (g : graphics) : graphics :=
  set_sprites max_num_sprites (num_sprites g) (Sprites (replicate (Z.to_nat max_num_sprites) None)) g.

Definition remove_sprite_memory (g : graphics) : res graphics :=
  match sprites g with
  | NoSprites => Ok g
  | FreedSprites => Undef DoubleFree
  | Sprites _ => Ok (set_sprites (max_sprites g) (num_sprites g) FreedSprites g)
  end.

(** The image is what [xpm_load] stores in the field. *)
Definition add_sprite (loaded : xpm_image_t) (xi yi : float) (xf yf : Z) (speed_x speed_y : float)
    (g : graphics) : res (Z * graphics) :=
  let n := num_sprites g in
  res_bind (put_sprite n (n + 1) (Sprite n xi yi xf yf speed_x speed_y loaded) g)
    (fun g => Ok (n + 1 - 1, g)).

(** [(int)] of a [float]. *)
Definition int_of (x : float) : res Z :=
  match to_int x with Some z => Ok z | None => Undef IntOverflow end.

(** The [n] bytes of an image from [count] on, the first the most significant. *)
Fixpoint gather (n : nat) (bytes : list Z) (color count : Z) : res (Z * Z) :=
  match n with
  | O => Ok (color, count)
  | S n =>
      match arr_get bytes count with
      | None => Undef OutOfBounds
      | Some b => gather n bytes (Z.lor (u32 (Z.shiftl color 8)) b) (count + 1)
      end
  end.

Definition draw_sprite (i : Z) (g : graphics) : res graphics :=
  res_bind (get_sprite i g) (fun s =>
  res_bind (int_of (yi s)) (fun y =>
  res_bind (int_of (xi s)) (fun x =>
  res_bind (for_pixels (img s) x y
              (fun i j a =>
                 res_bind (gather (Z.to_nat (bytes_per_pixel (snd a))) (img_bytes (img s)) 0 (fst a)) (fun r =>
                 res_bind (draw_pixel (u16 j) (u16 i) (fst r) (snd a)) (fun g => Ok (snd r, g))))
              (0, g))
    (fun r => Ok (snd r))))).

(** [transparency] is [xpm_transparency_color] of the library. *)
Definition erase_sprite (transparency : Z -> Z) (i : Z) (g : graphics) : res graphics :=
  let color := transparency XPM_INDEXED in
  res_bind (get_sprite i g) (fun s =>
  res_bind (int_of (yi s)) (fun y =>
  res_bind (int_of (xi s)) (fun x =>
  for_pixels (img s) x y (fun i j => draw_pixel (u16 j) (u16 i) color) g))).

(** One coordinate: the position and the speed. *)
Definition move_axis (pos speed : float) (last : Z) : float * float :=
  let pos := fadd pos speed in
  if fgt pos (of_Z last) then (of_Z last, of_Z 0) else (pos, speed).

Definition moved (s : sprite_mov_t) : sprite_mov_t :=
  let x := move_axis (xi s) (speed_x s) (xf s) in
  let y := move_axis (yi s) (speed_y s) (yf s) in
  Sprite (id s) (fst x) (fst y) (xf s) (yf s) (snd x) (snd y) (img s).

Definition move_sprite (i : Z) (g : graphics) : res graphics :=
  res_bind (get_sprite i g) (fun s => put_sprite i (num_sprites g) (moved s) g).

(** For each of the bytes of a pixel the next 16 bits of the image are drawn;
    the value gathered in [color] is not used. *)
Fixpoint draw_halves (n : nat) (im : xpm_image_t) (transparent i j : Z) (a : Z * graphics)
  : res (Z * graphics) :=
  match n with
  | O => Ok a
  | S n =>
      match arr_get (img_bytes im) (fst a), read16 (img_bytes im) (fst a) with
      | Some _, Some c =>
          res_bind (if c =? transparent then Ok (snd a) else draw_pixel (u16 j) (u16 i) c (snd a))
            (fun g => draw_halves n im transparent i j (fst a + 1, g))
      | _, _ => Undef OutOfBounds
      end
  end.

(** [im] is what [xpm_load(xpm, XPM_5_6_5, &img)] stores. *)
Definition draw_pix_map (transparency : Z -> Z) (im : xpm_image_t) (x y : Z) (g : graphics) : res graphics :=
  res_bind (for_pixels im x y
              (fun i j a => draw_halves (Z.to_nat (bytes_per_pixel (snd a))) im (transparency (img_type im)) i j a)
              (0, g))
    (fun r => Ok (snd r)).

(** *** The pattern *)

Definition get_rectangles_size (no_rectangles : Z) (g : graphics) : res (Z * Z) :=
  if no_rectangles =? 0 then Undef DivisionByZero
  else Ok (u8 (h_res g / no_rectangles), u8 (v_res g / no_rectangles)).

(** [v << n] in an [int]. *)
Definition shift_int (v n : Z) : res Z :=
  if 32 <=? n then Undef BadShift
  else if 2147483647 <? Z.shiftl v n then Undef IntOverflow
  else Ok (Z.shiftl v n).

(** [((first >> pos) & ((1 << size) - 1) + incr) % (1 << size)]: the sum binds
    tighter than the conjunction. *)
Definition channel (first pos size incr : Z) : res Z :=
  if 32 <=? pos then Undef BadShift
  else
    res_bind (shift_int 1 size) (fun n =>
      Ok (u8 (Z.land (Z.shiftr first pos) (n - 1 + incr) mod n))).

Definition get_rectangles_color (vmode first no_rectangles step row col : Z) (g : graphics) : res Z :=
  if vmode =? 0x105 then
    res_bind (shift_int 1 (bits_per_pixel g)) (fun n =>
      Ok (u32 (first + (row * no_rectangles + col) * step) mod n))
  else
    let m := mode g in
    res_bind (channel first (RedFieldPosition m) (RedMaskSize m) (col * step)) (fun red =>
    res_bind (channel first (GreenFieldPosition m) (GreenMaskSize m) (row * step)) (fun green =>
    res_bind (channel first (BlueFieldPosition m) (BlueMaskSize m) ((col + row) * step)) (fun blue =>
    res_bind (shift_int green (GreenFieldPosition m)) (fun green =>
    res_bind (shift_int blue (BlueFieldPosition m)) (fun blue =>
      Ok (Z.lor (Z.lor red green) blue)))))).

(** The loops of [video_test_pattern]. *)
Definition draw_pattern (vmode no_rectangles first step : Z) (g : graphics) : res graphics :=
  res_bind (get_rectangles_size no_rectangles g) (fun size =>
    for_loop (Z.to_nat no_rectangles) 0 (fun i =>
      for_loop (Z.to_nat no_rectangles) 0 (fun j g =>
        res_bind (get_rectangles_color vmode first no_rectangles step i j g) (fun color =>
          draw_rectangle (u16 (fst size * j)) (u16 (snd size * i)) (fst size) (snd size) color g))) g).
End Graphics.

(** ** [keyboard.c]

    [kbc_ih], [keyboard_get_scancode], [scancode_is_make], [scancode_get_size]
    and the subscription are those of [Keyboard]; the handler shows the scancode
    instead of assembling a key press. *)

Module Kbd.
Section Kbd.
Context {E : Type} `{Ports E, Irqs E, Delay E, KbdLcf E}.

Definition keyboard_handler (k : kbd) : ST E kbd :=
  let+ k := kbc_ih k in
  if kbc_ih_err k || negb (kbc_ih_obf k) then st_ret k
  else
    let r := keyboard_get_scancode (Keyboard.bytes k) (kbc_ih_output k) (assemblied_word k) in
    let bs := snd r in
    let k := Kbd (kbc_ih_output k) (kbc_ih_stat_reg k) (kbc_ih_err k) (kbc_ih_obf k) (kbc_ih_ibf k)
                 (fst r) bs in
    if fst r then
      let size := scancode_get_size (fst bs) in
      let last := if size =? 1 then fst bs else snd bs in
      do+ kbd_print_scancode (scancode_is_make last) size (take (Z.to_nat size) [fst bs; snd bs]) in
      st_ret k
    else st_ret k.

(** [while (count < 10)]: [n] attempts are left. *)
Fixpoint keyboard_input (n : nat) (byte : Z) (k : kbd) : ST E (Z * kbd) :=
  match n with
  | O => st_ret (1, k)
  | S n =>
      let+ k := kbc_ih k in
      if negb (kbc_ih_err k) && negb (kbc_ih_obf k) && negb (kbc_ih_ibf k) then
        let+ r := sys_outb KBC_CMD_REG byte in
        st_ret (Z.lor 0 r, k)
      else
        do+ tickdelay in keyboard_input n byte k
  end.

Fixpoint keyboard_input_arg (n : nat) (byte arg : Z) (k : kbd) : ST E (Z * kbd) :=
  match n with
  | O => st_ret (1, k)
  | S n =>
      let+ k := kbc_ih k in
      if negb (kbc_ih_err k) && negb (kbc_ih_obf k) && negb (kbc_ih_ibf k) then
        let+ r := sys_outb KBC_ARG_REG arg in
        let call_back := Z.lor 0 r in
        let+ r := sys_outb KBC_CMD_REG byte in
        st_ret (Z.lor call_back r, k)
      else
        do+ tickdelay in keyboard_input_arg n byte arg k
  end.

(** The code, and the byte stored in [*command_byte]. *)
Definition keyboard_read_command_byte (k : kbd) : ST E (Z * option Z * kbd) :=
  let+ r := keyboard_input 10 READ_CMD_BYTE k in
  let call_back := Z.lor 0 (fst r) in
  let+ k := kbc_ih (snd r) in
  if negb (kbc_ih_err k) && negb (kbc_ih_obf k) then st_ret (call_back, Some (kbc_ih_output k), k)
  else st_ret (1, None, k).

Definition keyboard_write_command_byte (command_byte : Z) (k : kbd) : ST E (Z * kbd) :=
  keyboard_input_arg 10 WRITE_CMD_BYTE command_byte k.

Definition keyboard_enable_interrupts (previous_command_byte : Z) (k : kbd) : ST E (Z * kbd) :=
  let command_byte :=
    Z.lor (Z.lor previous_command_byte CMD_BYTE_ENABLE_MOUSE_INTERRUPT) CMD_BYTE_ENABLE_KBD_INTERRUPT in
  keyboard_write_command_byte command_byte k.
End Kbd.
End Kbd.

(** ** [lab5.c] *)

(** The statics of the three files. *)
Record lab5 := Lab5State { gfx : Graphics.graphics; kb : kbd; tmr : Lab5.statics }.
Definition set_gfx (g : Graphics.graphics) (s : lab5) : lab5 := Lab5State g (kb s) (tmr s).
Definition set_kb (k : kbd) (s : lab5) : lab5 := Lab5State (gfx s) k (tmr s).

Section Lab5C.
Context {E : Type} `{Ports E, Irqs E, Delay E, KbdLcf E, TimerLcf E, VideoLcf E}.
Variable transparency : Z -> Z.
Variable indet : Z.

Definition graphics_set_mode (vmode : Z) : ST E Z :=
  let+ r := sys_int86 (Reg86 VBE_CALL_REG_VAL VBE_SET_MODE (u16 (Z.lor SET_LINEAR vmode)) INTNO) in
  st_ret (if negb (r =? 0) then 1 else 0).

Definition mode_get_info (vmode : Z) (g : Graphics.graphics) : ST E Graphics.graphics :=
  let+ mi := vbe_get_mode_info vmode in
  let+ mapped := vm_map_phys (PhysBasePtr mi) (Graphics.vram_size mi) in
  st_ret (Graphics.set_mode_info mi mapped g).

(** A step on one of the three parts of the statics. *)
Definition on_gfx {A} (f : Graphics.graphics -> res (A * Graphics.graphics)) : M lab5 E A :=
  let* g := gets gfx in
  let* r := lift (f g) in
  do* modify (set_gfx (snd r)) in ret (fst r).
Definition draws (f : Graphics.graphics -> res Graphics.graphics) : M lab5 E unit :=
  on_gfx (fun g => res_bind (f g) (fun g => Ok (tt, g))).
Definition on_timer {A} (m : M Lab5.statics E A) : M lab5 E A :=
  fun s => res_bind (m (tmr (fst s), snd s))
    (fun r => Ok (fst r, (Lab5State (gfx (fst s)) (kb (fst s)) (fst (snd r)), snd (snd r)))).

(** The calls every test begins with; the result of [graphics_set_mode] is not
    looked at. *)
Definition set_mode (vmode : Z) : M lab5 E unit :=
  let* g := gets gfx in
  let* g := env (mode_get_info vmode g) in
  do* modify (set_gfx g) in
  do* env (graphics_set_mode vmode) in skip.

Definition handle_keyboard : M lab5 E unit :=
  let* k := gets kb in
  let* k := env (Kbd.keyboard_handler k) in
  modify (set_kb k).

(** The loop, the same in the four tests: [handle] deals with an interrupt, and
    the condition follows every message. *)
Fixpoint wait_esc (handle : Z -> M lab5 E unit) (ms : list lab_message) : M lab5 E bool :=
  match ms with
  | [] => ret false
  | m :: ms =>
      do* (match m with LabHardware i => handle i | LabFailed | LabOther => skip end) in
      let* k := gets kb in
      if scancode_is_esc_break k then ret true else wait_esc handle ms
  end.

(** What three of the tests do after drawing. *)
Definition show_until_esc (ms : list lab_message) : M lab5 E (option Z) :=
  let* s := env keyboard_subscribe in
  let irq_set := BIT (bit_no s) in
  let* ended := wait_esc (fun i => when (truth (Z.land i irq_set)) handle_keyboard) ms in
  if ended then
    do* env (keyboard_unsubscribe (notification s)) in
    do* env vg_exit in
    ret (Some (call_back s))
  else ret None.

Definition video_test_init (vmode delay : Z) : ST E Z :=
  do+ graphics_set_mode vmode in
  do+ sleep delay in
  do+ vg_exit in st_ret 0.

Definition video_test_rectangle (vmode x y width height color : Z) (ms : list lab_message)
  : M lab5 E (option Z) :=
  do* set_mode vmode in
  do* draws (Graphics.draw_rectangle x y width height color) in
  show_until_esc ms.

Definition video_test_pattern (vmode no_rectangles first step : Z) (ms : list lab_message)
  : M lab5 E (option Z) :=
  do* set_mode vmode in
  do* draws (Graphics.draw_pattern vmode no_rectangles first step) in
  show_until_esc ms.

(** [menu] is [leaderboard_menu_xpm], drawn whatever the argument [xpm] is. *)
Definition video_test_xpm (menu : xpm_image_t) (x y : Z) (ms : list lab_message) : M lab5 E (option Z) :=
  do* set_mode 0x11A in
  do* draws (Graphics.draw_pix_map transparency menu x y) in
  show_until_esc ms.

(** [1 / speed] is a division of integers. *)
Definition frame_speed (speed : Z) : res float :=
  if 0 <? speed then Ok (of_Z speed)
  else if speed =? 0 then Undef DivisionByZero
  else Ok (of_Z (Z.quot 1 speed)).

(** [(bool)(last - first) * f_speed]. *)
Definition axis_speed (first last : Z) (f_speed : float) : float :=
  fmul (of_Z (if truth (last - first) then 1 else 0)) f_speed.

Definition frame (sprite_id : Z) (g : Graphics.graphics) : res Graphics.graphics :=
  res_bind (Graphics.erase_sprite transparency sprite_id g) (fun g =>
  res_bind (Graphics.move_sprite sprite_id g) (fun g =>
  Graphics.draw_sprite sprite_id g)).

Definition handle_move (kbd_irq_set timer_irq_set sprite_id i : Z) : M lab5 E unit :=
  do* when (truth (Z.land i kbd_irq_set)) handle_keyboard in
  when (truth (Z.land i timer_irq_set)) (draws (frame sprite_id)).

(** [loaded] is the image of the argument [xpm]. *)
Definition video_test_move (loaded : xpm_image_t) (xi yi xf yf speed fr_rate : Z) (ms : list lab_message)
  : M lab5 E (option Z) :=
  let* r := on_timer (Lab5.timer_set_frequency indet 0 fr_rate) in
  let call_back := Z.lor 0 r in
  if truth call_back then ret (Some 1)
  else
    do* set_mode 0x105 in
    do* modify (fun s => set_gfx (Graphics.create_sprite_memory 1 (gfx s)) s) in
    let* f_speed := lift (frame_speed speed) in
    let* sprite_id := on_gfx (Graphics.add_sprite loaded (of_Z xi) (of_Z yi) xf yf
                                (axis_speed xi xf f_speed) (axis_speed yi yf f_speed)) in
    do* draws (Graphics.draw_sprite sprite_id) in
    let* s := env keyboard_subscribe in
    let call_back := Z.lor call_back (Ports.call_back s) in
    let* t := on_timer Lab5.timer_subscribe_int in
    let call_back := Z.lor call_back (fst t) in
    let* ended := wait_esc (handle_move (BIT (bit_no s)) (BIT (snd t)) sprite_id) ms in
    if ended then
      do* env (keyboard_unsubscribe (notification s)) in
      do* on_timer Lab5.timer_unsubscribe_int in
      do* env vg_exit in
      ret (Some call_back)
    else ret None.
End Lab5C.
