(* ===== verification/LabDraw.v ===== *)
(** What the tests of [LabVideo] draw: the pixels that a line or a rectangle gives
    its colour, where the number of bytes per pixel of [mode_get_info] makes the
    drawing undefined, and the colours of the pattern. *)

From stdpp Require Import base tactics list.
From Stdlib Require Import ZArith Lia.
From S2P Require Import Prelude Float32 LabTimer LabKbc Consts Ports Keyboard Mouse NumLetters Vc LabVideo.

(** ** Painting

    The colour of a set of pixels of the memory; a pixel is [bpp] bytes, and the
    others keep theirs. *)
Definition painted (bpp color : Z) (S : Z -> bool) (mem mem' : list Z) : Prop :=
  zlen mem' = zlen mem /\
  forall k b, 0 <= k -> 0 <= b < bpp ->
    arr_get mem' (k * bpp + b) =
    if S k then Some (u8 (Z.shiftr color (8 * b))) else arr_get mem (k * bpp + b).

Lemma painted_none bpp color S mem : (forall k, 0 <= k -> S k = false) -> painted bpp color S mem mem.
Proof. intros HS. split; [done |]. intros k b Hk _. by rewrite HS. Qed.

Lemma painted_ext bpp color S S' mem mem' :
  (forall k, 0 <= k -> S k = S' k) -> painted bpp color S mem mem' -> painted bpp color S' mem mem'.
Proof. intros HS [Hl Hp]. split; [done |]. intros k b Hk Hb. by rewrite <-HS, Hp. Qed.

Lemma painted_trans bpp color S1 S2 m1 m2 m3 :
  painted bpp color S1 m1 m2 -> painted bpp color S2 m2 m3 ->
  painted bpp color (fun k => S1 k || S2 k) m1 m3.
Proof.
  intros [Hl1 Hp1] [Hl2 Hp2]. split; [congruence |]. intros k b Hk Hb.
  rewrite Hp2, Hp1 by done. by destruct (S1 k), (S2 k).
Qed.

(** The pixels from [k0] on, and those of a rectangle in rows of [w] pixels. *)
Definition run_of (k0 len k : Z) : bool := (k0 <=? k) && (k <? k0 + len).
Definition in_rectangle (w x y width height k : Z) : bool :=
  run_of x width (k mod w) && run_of y height (k / w).

Lemma run_of_row w x y width k :
  0 <= x -> x + width <= w -> 0 < w -> 0 <= k ->
  run_of (y * w + x) width k = run_of x width (k mod w) && (y =? k / w).
Proof.
  intros Hx Hw H0 Hk. pose proof (Z.div_mod k w ltac:(lia)). pose proof (Z.mod_pos_bound k w ltac:(lia)).
  unfold run_of. apply eq_true_iff_eq. rewrite !andb_true_iff, !Z.leb_le, !Z.ltb_lt, Z.eqb_eq.
  assert (y = k / w \/ y + 1 <= k / w \/ k / w + 1 <= y) as [-> | [Hlt | Hgt]] by lia; [nia | |]; split; nia.
Qed.

Lemma run_of_S y n k : 0 <= n -> run_of y (n + 1) k = (y =? k) || run_of (y + 1) n k.
Proof.
  intros Hn. unfold run_of. apply eq_true_iff_eq.
  rewrite orb_true_iff, !andb_true_iff, !Z.leb_le, !Z.ltb_lt, Z.eqb_eq. lia.
Qed.

Lemma run_of_empty y k : run_of y 0 k = false.
Proof. unfold run_of. destruct (_ && _) eqn:E; [unbool; lia | done]. Qed.

(** Storing the bytes of a pixel at a multiple of their number. *)
Lemma stored_painted bpp color mem mem' k0 :
  0 < bpp -> 0 <= k0 -> zlen mem' = zlen mem ->
  (forall o, 0 <= o -> arr_get mem' o =
     if (k0 * bpp <=? o) && (o <? k0 * bpp + bpp) then Some (u8 (Z.shiftr color (8 * (o - k0 * bpp))))
     else arr_get mem o) ->
  painted bpp color (fun k => k =? k0) mem mem'.
Proof.
  intros Hb Hk0 Hl Hg. split; [done |]. intros k b Hk Hbb. rewrite Hg by nia.
  destruct (Z.eqb_spec k k0) as [-> | Hne].
  - replace ((k0 * bpp <=? k0 * bpp + b) && (k0 * bpp + b <? k0 * bpp + bpp)) with true
      by (symmetry; apply andb_true_iff; rewrite Z.leb_le, Z.ltb_lt; lia).
    do 3 f_equal. lia.
  - destruct (_ && _) eqn:E; [| done]. unbool. exfalso. nia.
Qed.

(** ** Drawing with at most four bytes per pixel *)

Module Drawing.
Import Graphics.

Lemma store_bytes_spec n j off color mem :
  0 <= j -> j + Z.of_nat n <= 4 -> 0 <= off -> off + Z.of_nat n <= zlen mem ->
  exists mem', store_bytes n j off color mem = Ok mem' /\ zlen mem' = zlen mem /\
    forall o, 0 <= o -> arr_get mem' o =
      if (off <=? o) && (o <? off + Z.of_nat n) then Some (u8 (Z.shiftr color (8 * (j + (o - off)))))
      else arr_get mem o.
Proof.
  revert j off mem. induction n as [| n IH]; intros j off mem Hj Hn Ho Hl.
  - exists mem. split; [done |]. split; [done |]. intros o _.
    destruct (_ && _) eqn:E; [unbool; lia | done].
  - cbn [store_bytes].
    replace (32 <=? 8 * j) with false by (symmetry; apply Z.leb_gt; lia). rewrite arr_set_Some by lia.
    destruct (IH (j + 1) (off + 1) (<[Z.to_nat off := u8 (Z.shiftr color (8 * j))]> mem))
      as (mem' & Hs & Hlen & Hg); try lia; [rewrite zlen_insert; lia |].
    exists mem'. split; [done |]. split; [by rewrite Hlen, zlen_insert |]. intros o Ho'.
    rewrite Hg, arr_get_insert by lia.
    destruct (Z.eqb_spec o off) as [-> | Hne].
    + replace (off + 1 <=? off) with false by (symmetry; apply Z.leb_gt; lia).
      replace (off <=? off) with true by (symmetry; apply Z.leb_le; lia).
      replace (off <? off + Z.of_nat (S n)) with true by (symmetry; apply Z.ltb_lt; lia).
      cbn [andb]. do 4 f_equal. lia.
    + replace ((off + 1 <=? o) && (o <? off + 1 + Z.of_nat n))
        with ((off <=? o) && (o <? off + Z.of_nat (S n)))
        by (apply eq_true_iff_eq; rewrite !andb_true_iff, !Z.leb_le, !Z.ltb_lt; lia).
      destruct (_ && _); [| done]. do 4 f_equal. lia.
Qed.

Lemma pixel_painted bpp k0 color mem :
  1 <= bpp <= 4 -> 0 <= k0 -> (k0 + 1) * bpp <= zlen mem ->
  exists mem', store_bytes (Z.to_nat bpp) 0 (k0 * bpp) color mem = Ok mem' /\
    painted bpp color (fun k => k =? k0) mem mem'.
Proof.
  intros Hb Hk Hl.
  destruct (store_bytes_spec (Z.to_nat bpp) 0 (k0 * bpp) color mem) as (mem' & Hs & Hlen & Hg); try nia.
  exists mem'. split; [done |]. apply stored_painted; [lia | done | done |].
  intros o Ho. rewrite (Hg o Ho). by replace (Z.of_nat (Z.to_nat bpp)) with bpp by lia.
Qed.

Lemma line_painted len bpp k0 color mem :
  1 <= bpp <= 4 -> 0 <= k0 -> (k0 + Z.of_nat len) * bpp <= zlen mem ->
  exists mem', store_line len bpp (k0 * bpp) color mem = Ok mem' /\
    painted bpp color (run_of k0 (Z.of_nat len)) mem mem'.
Proof.
  intros Hb. revert k0 mem. induction len as [| len IH]; intros k0 mem Hk Hl.
  - exists mem. split; [done |]. apply painted_none. intros k _. apply run_of_empty.
  - cbn [store_line]. destruct (pixel_painted bpp k0 color mem Hb Hk) as (m1 & Hs & Hp); [nia |].
    rewrite Hs. cbn [res_bind]. replace (k0 * bpp + bpp) with ((k0 + 1) * bpp) by ring.
    destruct (IH (k0 + 1) m1) as (m2 & Hs2 & Hp2); [lia | rewrite (proj1 Hp); nia |].
    exists m2. split; [done |]. eapply painted_ext; [| by eapply painted_trans]. cbn beta. intros k _.
    replace (Z.of_nat (S len)) with (Z.of_nat len + 1) by lia. rewrite run_of_S by lia.
    by rewrite Z.eqb_sym.
Qed.

(** A frame of at most four bytes per pixel, wholly mapped. *)
Definition frame_ok (g : graphics) : Prop :=
  1 <= bytes_per_pixel g <= 4 /\ 0 < h_res g < 65536 /\ 0 < v_res g < 65536 /\
  zlen (video_mem g) = h_res g * v_res g * bytes_per_pixel g /\ zlen (video_mem g) < 4294967296.

Lemma frame_offset g x y :
  frame_ok g -> 0 <= x -> 0 <= y -> y * h_res g + x < h_res g * v_res g ->
  pixel_offset x y g = (y * h_res g + x) * bytes_per_pixel g.
Proof. intros (Hb & Hh & Hv & Hl & Hm) Hx Hy Hlt. unfold pixel_offset, u32. apply Z.mod_small. nia. Qed.

Lemma hline_painted g x y len color :
  frame_ok g -> 0 <= x -> 0 <= y -> 0 <= len -> y * h_res g + x + len <= h_res g * v_res g ->
  exists mem', vg_draw_hline x y len color g = Ok (set_video_mem mem' g) /\
    painted (bytes_per_pixel g) color (run_of (y * h_res g + x) len) (video_mem g) mem'.
Proof.
  intros Hf Hx Hy Hl Hend. unfold vg_draw_hline.
  destruct (Z.eq_dec len 0) as [-> | Hne].
  { exists (video_mem g). split; [done |]. apply painted_none. intros k _. apply run_of_empty. }
  rewrite frame_offset by (done || lia).
  destruct Hf as (Hb & Hh & Hv & Hz & Hm).
  destruct (line_painted (Z.to_nat len) (bytes_per_pixel g) (y * h_res g + x) color (video_mem g))
    as (mem' & Hs & Hp); [done | nia | rewrite Hz, Z2Nat.id by lia; nia |].
  rewrite Hs. exists mem'. split; [done |]. by rewrite Z2Nat.id in Hp by lia.
Qed.

Lemma frame_ok_set g mem :
  frame_ok g -> zlen mem = zlen (video_mem g) -> frame_ok (set_video_mem mem g).
Proof. unfold frame_ok. intros Hf Hz. cbn. by rewrite Hz. Qed.

Lemma rows_painted n g x y width color :
  frame_ok g -> 0 <= x -> 0 <= width -> x + width <= h_res g -> 0 <= y -> y + Z.of_nat n <= v_res g ->
  exists mem', for_loop n y (fun i => vg_draw_hline x (u16 i) width color) g = Ok (set_video_mem mem' g) /\
    painted (bytes_per_pixel g) color (in_rectangle (h_res g) x y width (Z.of_nat n)) (video_mem g) mem'.
Proof.
  revert g y. induction n as [| n IH]; intros g y Hf Hx Hw Hxw Hy Hyn.
  - exists (video_mem g). split; [by destruct g |]. apply painted_none. intros k _.
    unfold in_rectangle. by rewrite run_of_empty, andb_false_r.
  - cbn [for_loop]. pose proof Hf as (Hb & Hh & Hv & _). rewrite u16_id by lia.
    destruct (hline_painted g x y width color Hf) as (m1 & Hs & Hp); [lia | lia | lia | nia |].
    rewrite Hs. cbn [res_bind].
    destruct (IH (set_video_mem m1 g) (y + 1)) as (m2 & Hs2 & Hp2); try done; try (cbn; lia);
      [apply frame_ok_set; [done | apply Hp] |].
    exists m2. split; [done |]. cbn in Hp2.
    eapply painted_ext; [| by eapply painted_trans]. cbn beta. intros k Hk.
    rewrite run_of_row by lia. unfold in_rectangle.
    replace (Z.of_nat (S n)) with (Z.of_nat n + 1) by lia. rewrite (run_of_S y) by lia.
    by destruct (run_of x width _), (y =? _).
Qed.

(** With one to four bytes per pixel, [draw_rectangle] gives the pixels of
    a rectangle of the screen its colour, byte by byte, and leaves the others, in
    any frame that is wholly mapped. *)
Theorem rectangle_painted g x y width height color :
  frame_ok g -> 0 <= x -> 0 <= width -> x + width <= h_res g ->
  0 <= y -> 0 <= height -> y + height <= v_res g ->
  exists mem', draw_rectangle x y width height color g = Ok (set_video_mem mem' g) /\
    painted (bytes_per_pixel g) color (in_rectangle (h_res g) x y width height) (video_mem g) mem'.
Proof.
  intros Hf Hx Hw Hxw Hy Hh Hyh. unfold draw_rectangle.
  destruct (rows_painted (Z.to_nat height) g x y width color) as (mem' & Hs & Hp); try done; try lia.
  exists mem'. split; [done |]. by rewrite Z2Nat.id in Hp by lia.
Qed.

(** The mode block of a screen with a given depth, and its colours in the
    positions 5-6-5. *)
Definition screen_mode (w h bits : Z) : vbe_mode_info_t := ModeInfo w h bits 6 5 11 6 5 5 0 0.

(** A screen of 4x3 pixels of two bytes. *)
Definition g0 : graphics :=
  Graphics (replicate 24 7) 4 3 16 2 (screen_mode 4 3 16) 0 0 NoSprites.

Lemma rectangle_painted_witness :
  exists mem', draw_rectangle 1 1 2 2 4660 g0 = Ok (set_video_mem mem' g0) /\
    arr_get mem' (5 * 2 + 0) = Some 52 /\ arr_get mem' (7 * 2 + 0) = Some 7.
Proof.
  assert (Hf : frame_ok g0) by (unfold frame_ok; vm_compute; intuition discriminate).
  destruct (rectangle_painted g0 1 1 2 2 4660 Hf) as (mem' & Hs & _ & Hp); try (cbn; lia).
  exists mem'. split; [exact Hs |].
  split; [exact (Hp 5 0 ltac:(lia) ltac:(cbn; lia)) | exact (Hp 7 0 ltac:(lia) ltac:(cbn; lia))].
Defined.

(** There is no clipping: a line that leaves the screen on the right goes on at
    the left of the next row. *)
Lemma line_wraps g x y len color :
  frame_ok g -> 0 <= x < h_res g -> 0 <= y -> y + 1 < v_res g -> 0 <= len -> h_res g < x + len <= 2 * h_res g ->
  exists mem', vg_draw_hline x y len color g = Ok (set_video_mem mem' g) /\
    forall b, 0 <= b < bytes_per_pixel g ->
      arr_get mem' ((y + 1) * h_res g * bytes_per_pixel g + b) = Some (u8 (Z.shiftr color (8 * b))).
Proof.
  intros Hf Hx Hy Hyv Hl Hxl.
  destruct (hline_painted g x y len color) as (mem' & Hs & _ & Hp); try done; try lia; [nia |].
  exists mem'. split; [done |]. intros b Hb. rewrite Hp by (done || nia).
  unfold run_of. by replace (_ && _) with true
    by (symmetry; apply andb_true_iff; rewrite Z.leb_le, Z.ltb_lt; nia).
Qed.

(** ** Drawing in the modes of the BIOS *)

Lemma mode_bytes_succ bits : 0 <= bits -> mode_bytes bits = bits + 1.
Proof. intros. unfold mode_bytes. zlia. Qed.

(** The fifth byte of a pixel shifts its colour by 32. *)
Lemma store_bytes_undef n j off color mem :
  0 <= j < 5 -> 4 < j + Z.of_nat n -> is_ok (store_bytes n j off color mem) = false.
Proof.
  revert j off mem. induction n as [| n IH]; intros j off mem Hj Hn; [lia |]. cbn [store_bytes].
  destruct (Z.leb_spec 32 (8 * j)); [done |]. destruct (arr_set _ _ _); [| done]. apply IH; lia.
Qed.

Lemma store_bytes_shift n j off color mem :
  0 <= j < 5 -> 4 < j + Z.of_nat n -> 0 <= off -> off + 4 - j <= zlen mem ->
  store_bytes n j off color mem = Undef BadShift.
Proof.
  revert j off mem. induction n as [| n IH]; intros j off mem Hj Hn Ho Hl; [lia |]. cbn [store_bytes].
  destruct (Z.leb_spec 32 (8 * j)); [done |]. rewrite arr_set_Some by lia.
  apply IH; rewrite ?zlen_insert; lia.
Qed.

Lemma is_ok_bind {A B} (r : res A) (k : A -> res B) : is_ok r = false -> is_ok (res_bind r k) = false.
Proof. by destruct r. Qed.

Lemma bind_ok_inv {A B} (r : res A) (k : A -> res B) b : res_bind r k = Ok b -> exists a, r = Ok a /\ k a = Ok b.
Proof. destruct r as [a |]; [| discriminate]. intros H. by exists a. Qed.

Lemma for_loop_undef {A} n i (f : Z -> A -> res A) a :
  (0 < n)%nat -> is_ok (f i a) = false -> is_ok (for_loop n i f a) = false.
Proof. intros Hn Hf. destruct n as [| n]; [lia |]. cbn [for_loop]. by apply is_ok_bind. Qed.

Lemma for_loop_id {A} n i (f : Z -> A -> res A) a :
  (forall j, i <= j < i + Z.of_nat n -> f j a = Ok a) -> for_loop n i f a = Ok a.
Proof.
  revert i. induction n as [| n IH]; intros i Hf; [done |]. cbn [for_loop].
  rewrite Hf by lia. cbn [res_bind]. apply IH. intros j Hj. apply Hf. lia.
Qed.

Lemma draw_pixel_undef x y color g : 5 <= bytes_per_pixel g -> is_ok (draw_pixel x y color g) = false.
Proof. intros Hb. unfold draw_pixel. apply is_ok_bind, store_bytes_undef; lia. Qed.

Lemma hline_undef x y len color g :
  5 <= bytes_per_pixel g -> 0 < len -> is_ok (vg_draw_hline x y len color g) = false.
Proof.
  intros Hb Hl. unfold vg_draw_hline. apply is_ok_bind.
  destruct (Z.to_nat len) as [| n] eqn:E; [lia |]. cbn [store_line]. apply is_ok_bind, store_bytes_undef; lia.
Qed.

Lemma rectangle_undef x y width height color g :
  5 <= bytes_per_pixel g -> 0 < width -> 0 < height -> is_ok (draw_rectangle x y width height color g) = false.
Proof. intros Hb Hw Hh. unfold draw_rectangle. apply for_loop_undef; [lia | by apply hline_undef]. Qed.

Lemma rectangle_empty x y width height color g :
  0 <= width -> 0 <= height -> width = 0 \/ height = 0 -> draw_rectangle x y width height color g = Ok g.
Proof.
  intros Hw Hh He. unfold draw_rectangle. apply for_loop_id. intros j Hj.
  destruct He as [-> | ->]; [| lia]. cbn. by destruct g.
Qed.

(** On the screen the fault is the shift. *)
Lemma rectangle_shift x y width height color g :
  5 <= bytes_per_pixel g -> 0 < width -> 0 < height -> 0 <= x < h_res g -> 0 <= y < v_res g -> y < 65536 ->
  zlen (video_mem g) = h_res g * v_res g * bytes_per_pixel g -> zlen (video_mem g) < 4294967296 ->
  draw_rectangle x y width height color g = Undef BadShift.
Proof.
  intros Hb Hw Hh Hx Hy Hy16 Hz Hm. unfold draw_rectangle.
  destruct (Z.to_nat height) as [| n] eqn:E; [lia |]. cbn [for_loop]. rewrite u16_id by lia.
  unfold vg_draw_hline, pixel_offset. destruct (Z.to_nat width) as [| m] eqn:E'; [lia |]. cbn [store_line].
  assert (y * h_res g <= (v_res g - 1) * h_res g) by (apply Z.mul_le_mono_nonneg_r; lia).
  assert (Hk : y * h_res g + x + 1 <= h_res g * v_res g) by lia.
  assert (0 <= y * h_res g) by nia.
  assert (Ho : (y * h_res g + x + 1) * bytes_per_pixel g <= h_res g * v_res g * bytes_per_pixel g)
    by (apply Z.mul_le_mono_nonneg_r; lia).
  unfold u32. rewrite Z.mod_small by nia. rewrite store_bytes_shift by nia. done.
Qed.
End Drawing.

(** ** The tests that draw *)

Section Tests.
Context {E : Type} `{Ports E, Irqs E, Delay E, KbdLcf E, TimerLcf E, VideoLcf E}.
Import Graphics Drawing.

Lemma handle_keyboard_ok s (e : E) : exists s' e', handle_keyboard (s, e) = Ok (tt, (s', e')).
Proof. unfold handle_keyboard. rewrite bind_gets, bind_env. by eexists _, _. Qed.

Lemma wait_esc_ok handle ms :
  (forall i s (e : E), exists s' e', handle i (s, e) = Ok (tt, (s', e'))) ->
  forall s e, exists r s' e', wait_esc handle ms (s, e) = Ok (r, (s', e')).
Proof.
  intros Hh. induction ms as [| m ms IH]; intros s e; [by eexists _, _, _ |]. cbn [wait_esc].
  assert (Hm : exists s1 e1, (match m with LabHardware i => handle i | LabFailed | LabOther => skip end)
                               (s, e) = Ok (tt, (s1, e1)))
    by (destruct m; [by exists s, e | by exists s, e | apply Hh]).
  destruct Hm as (s1 & e1 & Hm). rewrite (bind_ok _ _ _ _ _ Hm), bind_gets.
  destruct (scancode_is_esc_break _); [by eexists _, _, _ | apply IH].
Qed.

(** Waiting never goes wrong, and when it ends the code is the one of the
    subscription. *)
Lemma show_until_esc_ok ms s (e : E) : exists r s' e', show_until_esc ms (s, e) = Ok (r, (s', e')).
Proof.
  unfold show_until_esc. rewrite bind_env. cbv zeta.
  set (sb := fst _). set (e1 := snd _). clearbody sb e1.
  destruct (wait_esc_ok (fun i => when (truth (Z.land i (BIT (bit_no sb)))) handle_keyboard) ms)
    with (s := s) (e := e1) as (r & s1 & e2 & Hw).
  - intros i s2 e2. destruct (truth _); [apply handle_keyboard_ok | by exists s2, e2].
  - cbn [fst snd]. rewrite (bind_ok _ _ _ _ _ Hw). destruct r; [| by eexists _, _, _].
    rewrite !bind_env. by eexists _, _, _.
Qed.

(** The mode block the BIOS gives, and the memory that is mapped. *)
Definition mode_of (vmode : Z) (e : E) : vbe_mode_info_t := fst (vbe_get_mode_info vmode e).
Definition mapped_at (vmode : Z) (e : E) : list Z :=
  fst (vm_map_phys (PhysBasePtr (mode_of vmode e)) (vram_size (mode_of vmode e)) (snd (vbe_get_mode_info vmode e))).
Definition graphics_at (vmode : Z) (s : lab5) (e : E) : graphics :=
  set_mode_info (mode_of vmode e) (mapped_at vmode e) (gfx s).

Lemma set_mode_ok vmode s (e : E) :
  exists e', set_mode vmode (s, e) = Ok (tt, (set_gfx (graphics_at vmode s e) s, e')).
Proof. unfold set_mode. rewrite bind_gets, bind_env, bind_modify, bind_env. by eexists. Qed.

Lemma draws_eq f s (e : E) :
  draws f (s, e) = match f (gfx s) with Ok g => Ok (tt, (set_gfx g s, e)) | Undef k => Undef k end.
Proof. unfold draws, on_gfx, bind, gets, lift, modify, ret. cbn. by destruct (f (gfx s)). Qed.

(** A test that sets a mode, draws and waits goes wrong where its drawing does. *)
Lemma drawn_test vmode f ms s (e : E) :
  exists s' e',
    (do* set_mode vmode in do* draws f in show_until_esc ms)%c (s, e) =
    match f (graphics_at vmode s e) with Ok g => show_until_esc ms (set_gfx g s', e') | Undef k => Undef k end.
Proof.
  destruct (set_mode_ok vmode s e) as (e' & Hm). eexists _, e'. rewrite (bind_ok _ _ _ _ _ Hm).
  unfold bind at 1. rewrite draws_eq. cbn [gfx set_gfx]. by destruct (f (graphics_at vmode s e)).
Qed.

Lemma drawn_test_ok vmode f ms s (e : E) :
  is_ok ((do* set_mode vmode in do* draws f in show_until_esc ms)%c (s, e)) =
  is_ok (f (graphics_at vmode s e)).
Proof.
  destruct (drawn_test vmode f ms s e) as (s1 & e1 & ->). destruct (f _) as [g |]; [| done].
  by destruct (show_until_esc_ok ms (set_gfx g s1) e1) as (r & s' & e' & ->).
Qed.

Lemma graphics_at_bytes vmode s (e : E) :
  4 <= BitsPerPixel (mode_of vmode e) -> 5 <= Graphics.bytes_per_pixel (graphics_at vmode s e).
Proof. intros Hb. cbn. rewrite mode_bytes_succ by lia. lia. Qed.

(** C38. [mode_get_info] takes one byte for every bit of a pixel and one more,
    so in every mode of four bits or more [video_test_rectangle] comes to its
    loop only if the rectangle is empty; a rectangle whose corner is on the
    screen ends in the shift of a 32-bit colour by 32 bits. *)
Theorem rectangle_test_faults vmode x y width height color ms s (e : E) :
  4 <= BitsPerPixel (mode_of vmode e) -> 0 <= width -> 0 <= height ->
  (is_ok (video_test_rectangle vmode x y width height color ms (s, e)) = true <-> width = 0 \/ height = 0) /\
  (0 < width -> 0 < height -> 0 <= x < XResolution (mode_of vmode e) ->
   0 <= y < YResolution (mode_of vmode e) -> y < 65536 ->
   zlen (mapped_at vmode e) =
     XResolution (mode_of vmode e) * YResolution (mode_of vmode e) * (BitsPerPixel (mode_of vmode e) + 1) ->
   zlen (mapped_at vmode e) < 4294967296 ->
   video_test_rectangle vmode x y width height color ms (s, e) = Undef BadShift).
Proof.
  intros Hb Hw Hh. pose proof (graphics_at_bytes vmode s e Hb) as Hg. split.
  - unfold video_test_rectangle. rewrite drawn_test_ok. split.
    + intros Hok. destruct (Z.eq_dec width 0); [by left |]. destruct (Z.eq_dec height 0); [by right |].
      rewrite rectangle_undef in Hok by lia. discriminate.
    + intros He. by rewrite rectangle_empty.
  - intros Hw' Hh' Hx Hy Hy16 Hz Hm. unfold video_test_rectangle.
    destruct (drawn_test vmode (draw_rectangle x y width height color) ms s e) as (s1 & e1 & ->).
    rewrite rectangle_shift; try done.
    cbn [video_mem graphics_at set_mode_info h_res v_res bytes_per_pixel].
    rewrite mode_bytes_succ by lia. exact Hz.
Qed.

(** *** The pattern *)

(** The colours of the mode fit an [int]. *)
Definition fields_ok (vmode : Z) (mi : vbe_mode_info_t) : Prop :=
  (vmode = 0x105 -> BitsPerPixel mi <= 30) /\
  (0 <= RedMaskSize mi <= 8 /\ 0 <= RedFieldPosition mi < 32) /\
  (0 <= GreenMaskSize mi <= 8 /\ 0 <= GreenFieldPosition mi /\ GreenMaskSize mi + GreenFieldPosition mi <= 31) /\
  (0 <= BlueMaskSize mi <= 8 /\ 0 <= BlueFieldPosition mi /\ BlueMaskSize mi + BlueFieldPosition mi <= 31).

Lemma shift_int_ok v n : 0 <= n < 32 -> 0 <= v -> v * 2 ^ n < 2 ^ 31 -> shift_int v n = Ok (v * 2 ^ n).
Proof.
  intros Hn Hv Hs. unfold shift_int. rewrite Z.shiftl_mul_pow2 by lia.
  replace (32 <=? n) with false by (symmetry; apply Z.leb_gt; lia).
  by replace (2147483647 <? v * 2 ^ n) with false by (symmetry; apply Z.ltb_ge; lia).
Qed.

Lemma shift_one_ok size : 0 <= size <= 30 -> shift_int 1 size = Ok (2 ^ size).
Proof.
  intros Hs. rewrite shift_int_ok; [f_equal; lia | lia | lia |].
  rewrite Z.mul_1_l. apply Z.pow_lt_mono_r; lia.
Qed.

Lemma channel_ok first pos size incr :
  0 <= pos < 32 -> 0 <= size <= 8 ->
  exists c, channel first pos size incr = Ok c /\ 0 <= c < 2 ^ size /\
    c = Z.land (Z.shiftr first pos) (2 ^ size - 1 + incr) mod 2 ^ size.
Proof.
  intros Hp Hs. unfold channel. rewrite shift_one_ok by lia.
  replace (32 <=? pos) with false by (symmetry; apply Z.leb_gt; lia). cbn [res_bind].
  assert (0 < 2 ^ size <= 2 ^ 8) by (split; [apply Z.pow_pos_nonneg; lia | apply Z.pow_le_mono_r; lia]).
  pose proof (Z.mod_pos_bound (Z.land (Z.shiftr first pos) (2 ^ size - 1 + incr)) (2 ^ size) ltac:(lia)).
  eexists. split; [done |]. rewrite u8_id by lia. done.
Qed.

(** The colour of a cell; with a direct mode the three fields. *)
Lemma color_ok vmode first n step row col g :
  fields_ok vmode (mode g) -> 0 <= bits_per_pixel g -> (vmode = 0x105 -> bits_per_pixel g <= 30) ->
  exists c, get_rectangles_color vmode first n step row col g = Ok c /\
    (vmode = 0x105 -> c = u32 (first + (row * n + col) * step) mod 2 ^ bits_per_pixel g) /\
    (vmode <> 0x105 ->
       exists red green blue,
         channel first (RedFieldPosition (mode g)) (RedMaskSize (mode g)) (col * step) = Ok red /\
         channel first (GreenFieldPosition (mode g)) (GreenMaskSize (mode g)) (row * step) = Ok green /\
         channel first (BlueFieldPosition (mode g)) (BlueMaskSize (mode g)) ((col + row) * step) = Ok blue /\
         c = Z.lor (Z.lor red (green * 2 ^ GreenFieldPosition (mode g))) (blue * 2 ^ BlueFieldPosition (mode g))).
Proof.
  intros (_ & (Hrs & Hrp) & (Hgs & Hgp & Hgf) & Hbs & Hbp & Hbf) Hb Hb'.
  unfold get_rectangles_color. destruct (Z.eqb_spec vmode 0x105) as [-> | Hm].
  - rewrite shift_one_ok by lia. cbn [res_bind]. eexists. split; [done |]. split; [done | lia].
  - destruct (channel_ok first (RedFieldPosition (mode g)) (RedMaskSize (mode g)) (col * step)) as (r & Hr & _); try lia.
    destruct (channel_ok first (GreenFieldPosition (mode g)) (GreenMaskSize (mode g)) (row * step))
      as (gr & Hg & Hgb & _); try lia.
    destruct (channel_ok first (BlueFieldPosition (mode g)) (BlueMaskSize (mode g)) ((col + row) * step))
      as (bl & Hbl & Hblb & _); try lia.
    assert (Hsh : forall v s p, 0 <= v < 2 ^ s -> 0 <= s -> 0 <= p -> s + p <= 31 -> shift_int v p = Ok (v * 2 ^ p)).
    { intros v s p Hv Hs0 Hp0 Hsp. assert (0 < 2 ^ p) by (apply Z.pow_pos_nonneg; lia).
      assert (2 ^ s * 2 ^ p <= 2 ^ 31) by (rewrite <-Z.pow_add_r by lia; apply Z.pow_le_mono_r; lia).
      destruct (Z.eq_dec p 32); [lia |]. apply shift_int_ok; [lia | lia | nia]. }
    rewrite Hr, Hg, Hbl. cbn [res_bind].
    rewrite (Hsh gr _ _ Hgb), (Hsh bl _ _ Hblb) by lia. cbn [res_bind].
    eexists. split; [done |]. split; [lia |]. intros _. by exists r, gr, bl.
Qed.

(** The colours of the pattern: in the indexed mode they go up by [step] from
    cell to cell, modulo the number of colours; in every direct mode a pattern
    that begins with black is black in all its cells, whatever the step, since
    the step is added to the mask and not to the field. *)
Theorem pattern_colours vmode first n step row col g :
  fields_ok vmode (mode g) -> 0 <= bits_per_pixel g -> (vmode = 0x105 -> bits_per_pixel g <= 30) ->
  0 <= first -> 0 <= step -> 0 <= n -> 0 <= row -> 0 <= col -> first + (row * n + col) * step < 4294967296 ->
  exists c, get_rectangles_color vmode first n step row col g = Ok c /\
    (vmode = 0x105 -> c = (first + (row * n + col) * step) mod 2 ^ bits_per_pixel g) /\
    (vmode <> 0x105 -> first = 0 -> c = 0).
Proof.
  intros Hf Hb Hb' Hfi Hst Hn Hr Hc Hlt.
  destruct (color_ok vmode first n step row col g Hf Hb Hb') as (c & Hcol & Hi & Hd).
  exists c. split; [done |]. split.
  - intros Hm. rewrite (Hi Hm). unfold u32.
    assert (0 <= (row * n + col) * step) by (apply Z.mul_nonneg_nonneg; nia).
    by rewrite (Z.mod_small (first + _)) by lia.
  - intros Hm ->. destruct (Hd Hm) as (r & gr & bl & Hr' & Hg & Hbl & ->).
    destruct Hf as (_ & (Hrs & Hrp) & (Hgs & Hgp & Hgf) & Hbs & Hbp & Hbf).
    assert (Hz : forall p s i v, 0 <= p -> 0 <= s <= 8 -> p < 32 -> channel 0 p s i = Ok v -> v = 0).
    { intros p s i v Hp Hs Hp32 Hv. destruct (channel_ok 0 p s i) as (v' & Hv' & _ & Heq); [lia | lia |].
      rewrite Hv' in Hv. apply Ok_inj in Hv as <-. rewrite Heq, Z.shiftr_0_l, Z.land_0_l.
      apply Z.mod_0_l. assert (0 < 2 ^ s) by (apply Z.pow_pos_nonneg; lia). lia. }
    apply Hz in Hr', Hg, Hbl; try lia. by subst.
Qed.

Lemma pattern_cell_undef vmode n first step g :
  5 <= Graphics.bytes_per_pixel g -> 0 < n ->
  (h_res g / n) mod 256 <> 0 -> (v_res g / n) mod 256 <> 0 -> is_ok (draw_pattern vmode n first step g) = false.
Proof.
  intros Hb Hn Hw Hh. unfold draw_pattern, get_rectangles_size.
  replace (n =? 0) with false by (symmetry; apply Z.eqb_neq; lia). cbn [res_bind fst snd].
  apply for_loop_undef; [lia |]. apply for_loop_undef; [lia |].
  destruct (get_rectangles_color _ _ _ _ _ _ _); [| done]. cbn [res_bind].
  unfold u8. pose proof (Z.mod_pos_bound (h_res g / n) 256 ltac:(lia)).
  pose proof (Z.mod_pos_bound (v_res g / n) 256 ltac:(lia)).
  apply rectangle_undef; lia.
Qed.

Lemma pattern_empty vmode n first step g :
  fields_ok vmode (mode g) -> 0 <= bits_per_pixel g -> (vmode = 0x105 -> bits_per_pixel g <= 30) ->
  0 < n -> (h_res g / n) mod 256 = 0 \/ (v_res g / n) mod 256 = 0 -> draw_pattern vmode n first step g = Ok g.
Proof.
  intros Hf Hb Hb' Hn Hz. unfold draw_pattern, get_rectangles_size.
  replace (n =? 0) with false by (symmetry; apply Z.eqb_neq; lia). cbn [res_bind fst snd].
  apply for_loop_id. intros i _. apply for_loop_id. intros j _.
  destruct (color_ok vmode first n step i j g Hf Hb Hb') as (c & -> & _). cbn [res_bind].
  unfold u8. pose proof (Z.mod_pos_bound (h_res g / n) 256 ltac:(lia)).
  pose proof (Z.mod_pos_bound (v_res g / n) 256 ltac:(lia)).
  apply rectangle_empty; lia.
Qed.

(** [video_test_pattern] divides by the number of rectangles, even when it is
    zero, and keeps the size of one in a byte; in a mode of four bits or more it
    comes to its loop exactly when one of the two sizes is a multiple of 256, as
    with 4 rectangles on 1024x768, and nothing has then been drawn. *)
Theorem pattern_test_outcome vmode n first step ms s (e : E) :
  4 <= BitsPerPixel (mode_of vmode e) -> fields_ok vmode (mode_of vmode e) -> 0 <= n ->
  (n = 0 -> video_test_pattern vmode n first step ms (s, e) = Undef DivisionByZero) /\
  (0 < n ->
   (is_ok (video_test_pattern vmode n first step ms (s, e)) = true <->
    (XResolution (mode_of vmode e) / n) mod 256 = 0 \/ (YResolution (mode_of vmode e) / n) mod 256 = 0)).
Proof.
  intros Hb Hf Hn. pose proof (graphics_at_bytes vmode s e Hb) as Hg. split.
  - intros ->. unfold video_test_pattern.
    destruct (drawn_test vmode (draw_pattern vmode 0 first step) ms s e) as (s1 & e1 & ->). done.
  - intros Hpos. unfold video_test_pattern. rewrite drawn_test_ok. split.
    + intros Hok. destruct (Z.eq_dec ((XResolution (mode_of vmode e) / n) mod 256) 0); [by left |].
      destruct (Z.eq_dec ((YResolution (mode_of vmode e) / n) mod 256) 0); [by right |].
      rewrite pattern_cell_undef in Hok by done. discriminate.
    + intros Hz. rewrite pattern_empty; try done; [cbn; lia | apply Hf].
Qed.

(** *** Images *)

(** A loop that adds [d] to a count each time. *)
Lemma for_loop_count {A} (Inv : A -> Prop) (cnt : A -> Z) d n i (f : Z -> A -> res A) a b :
  (forall j x y, Inv x -> f j x = Ok y -> Inv y /\ cnt y = cnt x + d) ->
  Inv a -> for_loop n i f a = Ok b -> Inv b /\ cnt b = cnt a + Z.of_nat n * d.
Proof.
  intros Hf. revert i a. induction n as [| n IH]; intros i a Ha Hl; cbn [for_loop] in Hl.
  - apply Ok_inj in Hl as <-. split; [done | lia].
  - apply bind_ok_inv in Hl as (x & Hx & Hl). destruct (Hf _ _ _ Ha Hx) as [Hi Hc].
    destruct (IH _ _ Hi Hl) as [Hb Hc']. split; [done | lia].
Qed.

Lemma for_range_count {A} (Inv : A -> Prop) (cnt : A -> Z) d lo n (f : Z -> A -> res A) a b :
  0 <= n -> (forall j x y, Inv x -> f j x = Ok y -> Inv y /\ cnt y = cnt x + d) ->
  Inv a -> for_range lo n f a = Ok b -> Inv b /\ cnt b = cnt a + n * d.
Proof.
  intros Hn Hf Ha Hl. unfold for_range in Hl. destruct (_ <? _); [discriminate |].
  destruct (for_loop_count Inv cnt d _ _ _ _ _ Hf Ha Hl) as [Hb Hc]. rewrite Z2Nat.id in Hc by done. done.
Qed.

Lemma draw_pixel_bytes x y color g g' :
  draw_pixel x y color g = Ok g' -> Graphics.bytes_per_pixel g' = Graphics.bytes_per_pixel g.
Proof. unfold draw_pixel. intros (m & _ & Hm)%bind_ok_inv. apply Ok_inj in Hm. by subst g'. Qed.

(** The halves of one pixel that were read are in the image. *)
Lemma draw_halves_count n im tr i j a b bpp :
  Graphics.bytes_per_pixel (snd a) = bpp -> 2 * fst a <= zlen (img_bytes im) ->
  draw_halves n im tr i j a = Ok b ->
  Graphics.bytes_per_pixel (snd b) = bpp /\ 2 * fst b <= zlen (img_bytes im) /\ fst b = fst a + Z.of_nat n.
Proof.
  revert a. induction n as [| n IH]; intros a Ha Hc Hd; cbn [draw_halves] in Hd.
  - apply Ok_inj in Hd as <-. split_and!; [done | done | lia].
  - destruct (arr_get _ _); [| discriminate]. destruct (read16 _ _) as [c |] eqn:Hr; [| discriminate].
    apply bind_ok_inv in Hd as (g' & Hg & Hd).
    assert (Hlen : 2 * (fst a + 1) <= zlen (img_bytes im)).
    { unfold read16 in Hr. destruct (arr_get _ (2 * fst a)); [| discriminate].
      destruct (arr_get _ (2 * fst a + 1)) eqn:Ha1; [| discriminate]. unfold arr_get in Ha1.
      destruct (Z.ltb_spec (2 * fst a + 1) 0); [discriminate |].
      apply lookup_lt_Some in Ha1. unfold zlen. lia. }
    assert (Hb : Graphics.bytes_per_pixel g' = bpp).
    { destruct (c =? tr); [apply Ok_inj in Hg; by subst g' | by rewrite (draw_pixel_bytes _ _ _ _ _ Hg)]. }
    destruct (IH (fst a + 1, g') Hb Hlen Hd) as (? & ? & Hc'). cbn [fst] in Hc'.
    split_and!; [done | done | lia].
Qed.

(** [draw_pix_map] reads one half for every byte of a pixel: what it has read
    when it returns is in the image. *)
Lemma pix_map_reads tr im x y g g' :
  0 <= img_width im -> 0 <= img_height im -> 0 <= Graphics.bytes_per_pixel g ->
  draw_pix_map tr im x y g = Ok g' ->
  2 * (img_height im * (img_width im * Graphics.bytes_per_pixel g)) <= zlen (img_bytes im).
Proof.
  intros Hw Hh Hb. unfold draw_pix_map. intros (r & Hl & _)%bind_ok_inv.
  set (bpp := Graphics.bytes_per_pixel g) in *.
  set (Inv := fun a : Z * graphics => Graphics.bytes_per_pixel (snd a) = bpp /\ 2 * fst a <= zlen (img_bytes im)).
  unfold for_pixels in Hl.
  edestruct (for_range_count Inv fst (img_width im * bpp)) as [[_ Hlen] Hc]; [exact Hh | | | exact Hl |].
  - intros i a b Ha Hr. eapply (for_range_count Inv fst bpp); [done | | exact Ha | exact Hr].
    intros j a' b' [Hab Hac] Hd. rewrite Hab in Hd.
    destruct (draw_halves_count _ _ _ _ _ _ _ bpp Hab Hac Hd) as (? & ? & Hcc). split; [by split | lia].
  - split; [done |]. unfold zlen. cbn. lia.
  - cbn [fst] in Hc. lia.
Qed.

(** [video_test_xpm] cannot show an image of its size: it reads nine or more
    times as many halves as there are pixels. *)
Theorem xpm_test_faults tr menu x y ms s (e : E) :
  4 <= BitsPerPixel (mode_of 0x11A e) -> 0 < img_width menu -> 0 < img_height menu ->
  zlen (img_bytes menu) = 2 * (img_width menu * img_height menu) ->
  is_ok (video_test_xpm tr menu x y ms (s, e)) = false.
Proof.
  intros Hb Hw Hh Hz. pose proof (graphics_at_bytes 0x11A s e Hb) as Hg.
  unfold video_test_xpm. rewrite drawn_test_ok.
  destruct (draw_pix_map tr menu x y (graphics_at 0x11A s e)) as [g |] eqn:Hd; [| done].
  apply pix_map_reads in Hd; [| lia | lia | lia]. exfalso.
  set (bpp := Graphics.bytes_per_pixel (graphics_at 0x11A s e)) in *. clearbody bpp.
  assert (img_height menu * img_width menu * 5 <= img_height menu * img_width menu * bpp)
    by (apply Z.mul_le_mono_nonneg_l; nia). nia.
Qed.

(** A sprite cannot be drawn either. *)
Lemma draw_sprite_undef i g sp :
  5 <= Graphics.bytes_per_pixel g -> get_sprite i g = Ok sp ->
  0 < img_width (img sp) -> 0 < img_height (img sp) -> is_ok (draw_sprite i g) = false.
Proof.
  intros Hb Hs Hw Hh. unfold draw_sprite. rewrite Hs. cbn [res_bind].
  destruct (int_of (yi sp)) as [y |]; [| done]. cbn [res_bind].
  destruct (int_of (xi sp)) as [x |]; [| done]. cbn [res_bind].
  apply is_ok_bind. unfold for_pixels, for_range at 1. destruct (_ <? _); [done |].
  apply for_loop_undef; [lia |]. unfold for_range. destruct (_ <? _); [done |].
  apply for_loop_undef; [lia |]. cbn [fst snd].
  destruct (gather _ _ _ _); [| done]. cbn [res_bind]. apply is_ok_bind, draw_pixel_undef. lia.
Qed.
End Tests.

(** *** A machine for the examples

    Every port reads [st], every call succeeds, and every mode is [mi], with
    memory for its frame. *)
Section Still.
Variables (st : Z) (mi : vbe_mode_info_t).

Definition still_ports : Ports unit := fixed_status st.
Definition still_irqs : Irqs unit :=
  {| sys_irqsetpolicy _ _ h := fun e => ((0, h), e); sys_irqrmpolicy _ := fun e => (0, e);
     sys_irqenable _ := fun e => (0, e); sys_irqdisable _ := fun e => (0, e) |}.
Definition still_delay : Delay unit := {| tickdelay := fun e => (tt, e) |}.
Definition still_kbd : KbdLcf unit :=
  {| kbd_print_scancode _ _ _ := fun e => (tt, e); kbd_print_no_sysinb _ := fun e => (tt, e) |}.
Definition still_timer : TimerLcf unit :=
  {| timer_print_config _ _ _ := fun e => (0, e); timer_print_elapsed_time := fun e => (tt, e) |}.
Definition still_video : VideoLcf unit :=
  {| sys_int86 _ := fun e => (0, e); vbe_get_mode_info _ := fun e => (mi, e);
     vm_map_phys _ n := fun e => (replicate (Z.to_nat n) 0, e); vg_exit := fun e => (0, e);
     sleep _ := fun e => (tt, e) |}.
End Still.
#[local] Existing Instances still_irqs still_delay still_kbd still_timer.

Definition lab5_init : lab5 :=
  Lab5State (Graphics.Graphics [] 0 0 0 0 (ModeInfo 0 0 0 0 0 0 0 0 0 0 0) 0 0 Graphics.NoSprites) kbd_init
    (Lab5.Statics 0 0).

Lemma rectangle_test_faults_witness :
  @video_test_rectangle unit (still_ports 0) _ _ (still_video (Drawing.screen_mode 4 3 16)) 0x111 1 1 2 2 9 []
    (lab5_init, tt) = Undef BadShift /\
  is_ok (@video_test_rectangle unit (still_ports 0) _ _ (still_video (Drawing.screen_mode 4 3 16)) 0x111 1 1 0 2 9 []
    (lab5_init, tt)) = true.
Proof.
  set (V := still_video (Drawing.screen_mode 4 3 16)).
  assert (Hz : zlen (@mapped_at unit V 0x111 tt) = 4 * 3 * (16 + 1)) by reflexivity.
  split.
  - apply (@rectangle_test_faults unit (still_ports 0) _ _ V 0x111 1 1 2 2 9 [] lab5_init tt);
      try (cbn; lia); [exact Hz | rewrite Hz; lia].
  - apply (@rectangle_test_faults unit (still_ports 0) _ _ V 0x111 1 1 0 2 9 [] lab5_init tt);
      try (cbn; lia).
Defined.

Lemma pattern_colours_witness :
  exists c c',
    Graphics.get_rectangles_color 0x105 3 4 10 1 2 (Graphics.Graphics [] 4 3 8 9 (Drawing.screen_mode 4 3 8) 0 0 Graphics.NoSprites)
      = Ok c /\ c = 63 /\
    Graphics.get_rectangles_color 0x111 0 4 10 1 2 (Graphics.Graphics [] 4 3 16 17 (Drawing.screen_mode 4 3 16) 0 0 Graphics.NoSprites)
      = Ok c' /\ c' = 0.
Proof.
  destruct (pattern_colours 0x105 3 4 10 1 2
              (Graphics.Graphics [] 4 3 8 9 (Drawing.screen_mode 4 3 8) 0 0 Graphics.NoSprites))
    as (c & Hc & Hi & _); try (cbn; lia); [unfold fields_ok; cbn; lia |].
  destruct (pattern_colours 0x111 0 4 10 1 2
              (Graphics.Graphics [] 4 3 16 17 (Drawing.screen_mode 4 3 16) 0 0 Graphics.NoSprites))
    as (c' & Hc' & _ & Hd); try (cbn; lia); [unfold fields_ok; cbn; lia |].
  exists c, c'. split; [exact Hc |]. split; [exact (Hi eq_refl) |]. split; [exact Hc' |].
  apply Hd; [lia | reflexivity].
Defined.

(** The red field of a colour is not put back in its place: in the mode 5-6-5 the
    first cell of a pattern that begins with red is blue. *)
Example red_is_blue :
  Graphics.get_rectangles_color 0x111 63488 4 1 0 0
    (Graphics.Graphics [] 4 3 16 17 (Drawing.screen_mode 4 3 16) 0 0 Graphics.NoSprites) = Ok 31.
Proof. reflexivity. Qed.

Lemma pattern_test_outcome_witness :
  @video_test_pattern unit (still_ports 0) _ _ (still_video (Drawing.screen_mode 4 3 16)) 0x111 0 7 1 []
    (lab5_init, tt) = Undef DivisionByZero /\
  is_ok (@video_test_pattern unit (still_ports 0) _ _ (still_video (Drawing.screen_mode 4 3 16)) 0x111 4 7 1 []
    (lab5_init, tt)) = true.
Proof.
  set (V := still_video (Drawing.screen_mode 4 3 16)).
  assert (Hf : fields_ok 0x111 (@mode_of unit V 0x111 tt)) by (unfold fields_ok; cbn; lia).
  split.
  - apply (@pattern_test_outcome unit (still_ports 0) _ _ V 0x111 0 7 1 [] lab5_init tt);
      [cbn; lia | exact Hf | lia | reflexivity].
  - apply (@pattern_test_outcome unit (still_ports 0) _ _ V 0x111 4 7 1 [] lab5_init tt);
      [cbn; lia | exact Hf | lia | lia |]. right. reflexivity.
Defined.

Lemma xpm_test_faults_witness :
  is_ok (@video_test_xpm unit (still_ports 0) _ _ (still_video (Drawing.screen_mode 4 3 16)) (fun _ => 456) img0 0 0 []
    (lab5_init, tt)) = false.
Proof.
  apply (@xpm_test_faults unit (still_ports 0) _ _ (still_video (Drawing.screen_mode 4 3 16)) (fun _ => 456) img0 0 0 []
           lab5_init tt); cbn; try lia. reflexivity.
Defined.
