(* ===== verification/LabSprite.v ===== *)
(** The moving sprite of [LabVideo] and its keyboard: the position in floating
    point follows the integers, the test does not come to its loop, and the
    command byte of the controller is neither read nor written. *)

From stdpp Require Import base tactics list.
From Stdlib Require Import ZArith Lia.
From S2P Require Import Prelude Float32 LabTimer LabKbc Consts Ports Keyboard Mouse NumLetters Vc LabVideo LabDraw.

#[local] Existing Instances still_irqs still_delay still_kbd still_timer.

(** ** Sprites *)

Section SpriteTrack.
Import Graphics.

(** The coordinate shown in the [n]-th frame. *)
Definition track (first last speed : Z) (n : nat) : Z :=
  match n with O => first | S _ => Z.min (first + Z.of_nat n * speed) last end.

Lemma move_axis_exact pos speed last :
  exact pos -> exact speed -> exact (pos + speed) -> exact last ->
  move_axis (of_Z pos) (of_Z speed) last =
  if last <? pos + speed then (of_Z last, of_Z 0) else (of_Z (pos + speed), of_Z speed).
Proof. intros Hp Hs Hps Hl. unfold move_axis. by rewrite add_exact, gt_exact by done. Qed.

Definition axis_step (last : Z) (a : float * float) : float * float := move_axis (fst a) (snd a) last.

Lemma axis_track first last speed n :
  0 <= first < 65536 -> 0 <= last < 65536 -> 0 <= speed < 32768 ->
  exists v, Nat.iter n (axis_step last) (of_Z first, of_Z speed) = (of_Z (track first last speed n), of_Z v) /\
    (v = speed \/ v = 0 /\ (0 < n)%nat /\ track first last speed n = last).
Proof.
  intros Hf Hl Hs. induction n as [| n (v & IH & Hv)]; [exists speed; by split; [| left] |].
  rewrite Nat.iter_succ, IH. unfold axis_step. cbn [fst snd].
  assert (Hr : 0 <= track first last speed n < 65536) by (destruct n; cbn [track]; nia).
  assert (Hb : 0 <= v < 32768) by lia.
  assert (He : forall z, 0 <= z < 100000 -> exact z) by (intros z Hz; unfold exact, prec; change (2 ^ 24) with 16777216; lia).
  rewrite move_axis_exact by (apply He; lia).
  assert (Ht : track first last speed (S n) = if last <? track first last speed n + v then last
                                             else track first last speed n + v).
  { destruct (Z.ltb_spec last (track first last speed n + v)); destruct n as [| n]; cbn [track] in *;
      destruct Hv as [-> | (-> & Hn & Ht)]; nia. }
  destruct (Z.ltb_spec last (track first last speed n + v)); rewrite Ht.
  - exists 0. split; [done |]. right. by split; [| split; [lia |]].
  - exists v. split; [done |]. destruct Hv as [-> | (-> & Hn & Htn)]; [by left |].
    right. split; [done |]. split; [lia |]. lia.
Qed.

(** [n] calls of [move_sprite]. *)
Fixpoint moves (n : nat) (i : Z) (g : graphics) : res graphics :=
  match n with O => Ok g | S n => res_bind (moves n i g) (move_sprite i) end.

Lemma get_put i n s g cells :
  sprites g = Sprites cells -> 0 <= i < zlen cells ->
  exists g', put_sprite i n s g = Ok g' /\ get_sprite i g' = Ok s /\
    exists cells', sprites g' = Sprites cells' /\ zlen cells' = zlen cells.
Proof.
  intros Hs Hi. unfold put_sprite. rewrite Hs, arr_set_Some by done. eexists. split; [done |]. split.
  - unfold get_sprite. cbn [set_sprites sprites]. rewrite arr_get_insert by lia. by rewrite Z.eqb_refl.
  - eexists. split; [done |]. by rewrite zlen_insert.
Qed.

Lemma moves_iter n i g s cells :
  sprites g = Sprites cells -> 0 <= i < zlen cells -> get_sprite i g = Ok s ->
  exists g', moves n i g = Ok g' /\ get_sprite i g' = Ok (Nat.iter n moved s) /\
    exists cells', sprites g' = Sprites cells' /\ zlen cells' = zlen cells.
Proof.
  intros Hs Hi Hg. induction n as [| n (g1 & Hm & Hg1 & c1 & Hc1 & Hz1)]; [exists g; by eauto |].
  cbn [moves]. rewrite Hm. cbn [res_bind]. unfold move_sprite. rewrite Hg1. cbn [res_bind].
  destruct (get_put i (num_sprites g1) (moved (Nat.iter n moved s)) g1 c1 Hc1) as (g2 & Hp & Hg2 & c2 & Hc2 & Hz2);
    [by rewrite Hz1 |].
  exists g2. split; [done |]. split; [done |]. exists c2. split; [done |]. lia.
Qed.

Lemma iter_moved n s :
  (xi (Nat.iter n moved s), speed_x (Nat.iter n moved s)) = Nat.iter n (axis_step (xf s)) (xi s, speed_x s) /\
  (yi (Nat.iter n moved s), speed_y (Nat.iter n moved s)) = Nat.iter n (axis_step (yf s)) (yi s, speed_y s) /\
  xf (Nat.iter n moved s) = xf s /\ yf (Nat.iter n moved s) = yf s /\ img (Nat.iter n moved s) = img s.
Proof.
  induction n as [| n (IHx & IHy & Hx & Hy & Hi)]; [done |].
  rewrite !Nat.iter_succ, <-IHx, <-IHy, <-Hx at 1. rewrite <-Hy at 1.
  generalize dependent (Nat.iter n moved s). intros t _ _ Hx Hy Hi.
  split_and!; [by destruct (axis_step (xf t) (xi t, speed_x t)) eqn:Ea;
                 unfold axis_step in Ea; cbn in Ea |- *; rewrite Ea | | done | done | done].
  destruct (axis_step (yf t) (yi t, speed_y t)) eqn:Ea; unfold axis_step in Ea; cbn in Ea |- *; by rewrite Ea.
Qed.

(** The speed the test gives a coordinate, as an integer: nothing for one that is
    already at its end, and the inverse of a negative speed is the integer 0,
    except that of -1. *)
Definition axis_speed_Z (first last speed : Z) : Z :=
  if first =? last then 0 else if 0 <? speed then speed else 0.

Lemma axis_speed_exact first last speed :
  speed <> 0 -> speed <> -1 -> -32768 <= speed < 32768 ->
  exists f, frame_speed speed = Ok f /\ axis_speed first last f = of_Z (axis_speed_Z first last speed).
Proof.
  intros H0 H1 Hs. unfold frame_speed, axis_speed, axis_speed_Z, truth.
  assert (He : forall z, 0 <= z < 100000 -> exact z) by (intros z Hz; unfold exact, prec; change (2 ^ 24) with 16777216; lia).
  assert (Hm : forall v, 0 <= v < 32768 ->
    fmul (of_Z (if negb (last - first =? 0) then 1 else 0)) (of_Z v) = of_Z (if first =? last then 0 else v)).
  { intros v Hv. replace (last - first =? 0) with (first =? last)
      by (apply eq_true_iff_eq; rewrite !Z.eqb_eq; lia).
    destruct (first =? last); cbn [negb]; [apply mul_zero; [lia | apply He; lia] | apply mul_one, He; lia]. }
  destruct (Z.ltb_spec 0 speed); [eexists; split; [done |]; apply Hm; lia |].
  destruct (Z.eqb_spec speed 0); [lia |]. eexists. split; [done |].
  replace (Z.quot 1 speed) with 0; [apply (Hm 0); lia |].
  symmetry. replace speed with (- (- speed)) by lia.
  rewrite Z.quot_opp_r by lia. rewrite Z.quot_small by lia. done.
Qed.

(** C37. The sprite of [video_test_move], whose position is a [float], is after
    [n] frames where integers would have it: on its way to the end at its speed,
    at the end as soon as it would pass it, and there for good.  An end to the
    left of the start or above it is reached in one frame, whatever the speed,
    and a negative speed does not move the sprite right or down at all. *)
Theorem sprite_track loaded first_x first_y last_x last_y speed n g :
  0 <= first_x < 65536 -> 0 <= first_y < 65536 -> 0 <= last_x < 65536 -> 0 <= last_y < 65536 ->
  speed <> 0 -> speed <> -1 -> -32768 <= speed < 32768 -> num_sprites g = 0 ->
  exists f i g1 gn s,
    frame_speed speed = Ok f /\
    add_sprite loaded (of_Z first_x) (of_Z first_y) last_x last_y (axis_speed first_x last_x f)
      (axis_speed first_y last_y f) (create_sprite_memory 1 g) = Ok (i, g1) /\
    moves n i g1 = Ok gn /\ get_sprite i gn = Ok s /\ img s = loaded /\
    int_of (xi s) = Ok (track first_x last_x (axis_speed_Z first_x last_x speed) n) /\
    int_of (yi s) = Ok (track first_y last_y (axis_speed_Z first_y last_y speed) n).
Proof.
  intros Hfx Hfy Hlx Hly H0 H1 Hs Hn.
  destruct (axis_speed_exact first_x last_x speed H0 H1 Hs) as (f & Hf & Hax).
  destruct (axis_speed_exact first_y last_y speed H0 H1 Hs) as (f' & Hf' & Hay).
  rewrite Hf in Hf'. apply Ok_inj in Hf' as <-.
  set (s0 := Sprite 0 (of_Z first_x) (of_Z first_y) last_x last_y (of_Z (axis_speed_Z first_x last_x speed))
               (of_Z (axis_speed_Z first_y last_y speed)) loaded).
  destruct (get_put 0 1 s0 (create_sprite_memory 1 g) [None]) as (g1 & Hp & Hg1 & c1 & Hc1 & Hz1);
    [done | unfold zlen; cbn; lia |].
  destruct (moves_iter n 0 g1 s0 c1 Hc1) as (gn & Hm & Hgn & _); [rewrite Hz1; unfold zlen; cbn; lia | done |].
  exists f, 0, g1, gn, (Nat.iter n moved s0).
  destruct (iter_moved n s0) as (Hix & Hiy & _ & _ & Himg).
  assert (Hsp : forall a b, 0 <= axis_speed_Z a b speed < 32768)
    by (intros; unfold axis_speed_Z; destruct (_ =? _), (Z.ltb_spec 0 speed); lia).
  destruct (axis_track first_x last_x _ n Hfx Hlx (Hsp first_x last_x)) as (vx & Hvx & _).
  destruct (axis_track first_y last_y _ n Hfy Hly (Hsp first_y last_y)) as (vy & Hvy & _).
  cbn [xi yi speed_x speed_y xf yf s0] in Hix, Hiy. rewrite Hvx in Hix. rewrite Hvy in Hiy.
  injection Hix as Hx _. injection Hiy as Hy _.
  assert (Hto : forall a b v, 0 <= a < 65536 -> 0 <= b < 65536 -> 0 <= v < 32768 ->
    int_of (of_Z (track a b v n)) = Ok (track a b v n)).
  { intros a b v Ha Hb Hv. unfold int_of. rewrite to_int_exact; [done |].
    unfold exact, prec. change (2 ^ 24) with 16777216. destruct n; cbn [track]; nia. }
  rewrite Hx, Hy, !Hto by auto.
  split_and!; try done. unfold add_sprite.
  change (num_sprites (create_sprite_memory 1 g)) with (num_sprites g). rewrite Hn, Hax, Hay.
  change (0 + 1) with 1. fold s0. rewrite Hp. done.
Qed.

Lemma sprite_track_witness :
  exists f i g1 gn s,
    frame_speed 30 = Ok f /\
    add_sprite img0 (of_Z 100) (of_Z 50) 200 40 (axis_speed 100 200 f) (axis_speed 50 40 f)
      (create_sprite_memory 1 (Drawing.g0)) = Ok (i, g1) /\
    moves 3 i g1 = Ok gn /\ get_sprite i gn = Ok s /\ int_of (xi s) = Ok 190 /\ int_of (yi s) = Ok 40.
Proof.
  destruct (sprite_track img0 100 50 200 40 30 3 Drawing.g0) as (f & i & g1 & gn & s & Hf & Ha & Hm & Hg & _ & Hx & Hy);
    try lia; [reflexivity |].
  exists f, i, g1, gn, s.
  split; [exact Hf |]. split; [exact Ha |]. split; [exact Hm |]. split; [exact Hg |].
  split; [exact Hx | exact Hy].
Defined.
End SpriteTrack.

Section MoveTest.
Context {E : Type} `{Ports E, Irqs E, Delay E, KbdLcf E, TimerLcf E, VideoLcf E}.
Import Graphics Drawing.
Variables (tr : Z -> Z) (indet : Z).

Lemma on_timer_eq {A} (m : M Lab5.statics E A) s e :
  on_timer m (s, e) =
  match m (tmr s, e) with
  | Ok r => Ok (fst r, (Lab5State (gfx s) (kb s) (fst (snd r)), snd (snd r)))
  | Undef u => Undef u
  end.
Proof. unfold on_timer. cbn [fst snd]. by destruct (m (tmr s, e)). Qed.

(** What follows the choice of the frequency, up to the first drawing. *)
Lemma move_starts {A} loaded x y lx ly speed (k : Z -> unit -> M lab5 E A) s (e : E) :
  4 <= BitsPerPixel (mode_of 0x105 e) -> 0 < img_width loaded -> 0 < img_height loaded ->
  num_sprites (gfx s) = 0 ->
  let r := (do* set_mode 0x105 in
            do* modify (fun s => set_gfx (create_sprite_memory 1 (gfx s)) s) in
            let* f := lift (frame_speed speed) in
            let* i := on_gfx (add_sprite loaded (of_Z x) (of_Z y) lx ly (axis_speed x lx f) (axis_speed y ly f)) in
            bind (draws (draw_sprite i)) (k i))%c (s, e) in
  is_ok r = false /\ (speed = 0 -> r = Undef DivisionByZero).
Proof.
  intros Hb Hw Hh Hn r. unfold r. clear r.
  destruct (set_mode_ok 0x105 s e) as (e' & Hm). rewrite (bind_ok _ _ _ _ _ Hm), bind_modify.
  cbn [fst snd gfx set_gfx]. pose proof (graphics_at_bytes 0x105 s e Hb) as Hg.
  assert (Hns : num_sprites (graphics_at 0x105 s e) = 0) by exact Hn.
  set (g := graphics_at 0x105 s e) in *. clearbody g.
  destruct (frame_speed speed) as [f | u] eqn:Hf.
  - split; [| intros ->; discriminate Hf]. rewrite bind_lift.
    set (sp := Sprite 0 (of_Z x) (of_Z y) lx ly (axis_speed x lx f) (axis_speed y ly f) loaded).
    destruct (get_put 0 1 sp (create_sprite_memory 1 g) [None]) as (g1 & Hp & Hg1 & _);
      [done | unfold zlen; cbn; lia |].
    assert (Hb1 : Graphics.bytes_per_pixel g1 = Graphics.bytes_per_pixel g).
    { unfold put_sprite in Hp. cbn in Hp. apply Ok_inj in Hp. by subst g1. }
    unfold bind at 1, on_gfx. rewrite bind_gets. cbn [gfx set_gfx fst].
    assert (Ha : add_sprite loaded (of_Z x) (of_Z y) lx ly (axis_speed x lx f) (axis_speed y ly f)
                   (create_sprite_memory 1 g) = Ok (0, g1)).
    { unfold add_sprite. change (num_sprites (create_sprite_memory 1 g)) with (num_sprites g).
      rewrite Hns. change (0 + 1) with 1. fold sp. by rewrite Hp. }
    rewrite Ha, bind_lift, bind_modify. cbn [fst snd ret].
    unfold bind. rewrite draws_eq. cbn [gfx set_gfx].
    pose proof (draw_sprite_undef 0 g1 sp ltac:(lia) Hg1 Hw Hh) as Hd.
    by destruct (draw_sprite 0 g1).
  - split; [done |]. intros ->. cbn in Hf. by injection Hf as <-.
Qed.

(** C39. [video_test_move] returns only the error of [timer_set_frequency]: with an
    image it goes wrong at the first drawing, and before that in the integer
    division [1 / speed] when the speed is zero. *)
Theorem move_test_outcome loaded x y lx ly speed fr_rate ms s (e : E) :
  (forall e', 4 <= BitsPerPixel (mode_of 0x105 e')) -> 0 < img_width loaded -> 0 < img_height loaded ->
  num_sprites (gfx s) = 0 ->
  match Lab5.timer_set_frequency indet 0 fr_rate (tmr s, e) with
  | Undef u => video_test_move tr indet loaded x y lx ly speed fr_rate ms (s, e) = Undef u
  | Ok (c, _) =>
      if truth c then exists s', video_test_move tr indet loaded x y lx ly speed fr_rate ms (s, e) = Ok (Some 1, s')
      else is_ok (video_test_move tr indet loaded x y lx ly speed fr_rate ms (s, e)) = false /\
           (speed = 0 -> video_test_move tr indet loaded x y lx ly speed fr_rate ms (s, e) = Undef DivisionByZero)
  end.
Proof.
  intros Hb Hw Hh Hn. unfold video_test_move.
  pose proof (on_timer_eq (Lab5.timer_set_frequency indet 0 fr_rate) s e) as Ho.
  destruct (Lab5.timer_set_frequency indet 0 fr_rate (tmr s, e)) as [[c [t1 e1]] | u].
  - cbn [fst snd] in Ho. rewrite (bind_ok _ _ _ _ _ Ho).
    change (Z.lor 0 c) with c. destruct (truth c) eqn:Hc; [by eexists |]. by apply (move_starts loaded x y lx ly speed (fun _ _ => _)).
  - unfold bind at 1. by rewrite Ho.
Qed.
End MoveTest.

Lemma move_test_outcome_witness :
  is_ok (@video_test_move unit (still_ports 0) _ _ (still_video (Drawing.screen_mode 4 3 16))
           (fun _ => 456) 0 img0 0 0 3 0 1 60 [] (lab5_init, tt)) = false /\
  @video_test_move unit (still_ports 0) _ _ (still_video (Drawing.screen_mode 4 3 16))
           (fun _ => 456) 0 img0 0 0 3 0 0 60 [] (lab5_init, tt) = Undef DivisionByZero.
Proof.
  split.
  - refine (proj1 (@move_test_outcome unit (still_ports 0) _ _ (still_video (Drawing.screen_mode 4 3 16))
                     (fun _ => 456) 0 img0 0 0 3 0 1 60 [] lab5_init tt _ _ _ _)); [intros e' | | |]; cbn; lia.
  - refine (proj2 (@move_test_outcome unit (still_ports 0) _ _ (still_video (Drawing.screen_mode 4 3 16))
                     (fun _ => 456) 0 img0 0 0 3 0 0 60 [] lab5_init tt _ _ _ _) eq_refl); [intros e' | | |]; cbn; lia.
Defined.

(** ** The command byte of the controller *)

Section Controller.
Context {E : Type} `{Ports E, Delay E}.

Lemma kbc_ih_output_empty k (e : E) :
  kbc_ih_obf (fst (kbc_ih k e)) = false -> kbc_ih_output (fst (kbc_ih k e)) = 0.
Proof.
  unfold kbc_ih, st_bind, st_ret. cbn [fst snd].
  destruct (flag (fst (inb KBC_STAT_REG e)) 0); cbn [fst snd kbc_ih_obf kbc_ih_output]; [discriminate | done].
Qed.

(** [keyboard_read_command_byte] succeeds only when there was nothing to read:
    the byte it stores is zero, whatever the controller answered. *)
Theorem command_byte_read_is_zero k (e : E) r v :
  fst (fst (Kbd.keyboard_read_command_byte k e)) = (r, Some v) -> v = 0.
Proof.
  unfold Kbd.keyboard_read_command_byte, st_bind. cbv zeta.
  set (r1 := Kbd.keyboard_input 10 READ_CMD_BYTE k e). clearbody r1.
  pose proof (kbc_ih_output_empty (snd (fst r1)) (snd r1)) as Hz.
  set (r2 := kbc_ih (snd (fst r1)) (snd r1)) in *. clearbody r2.
  destruct (kbc_ih_err (fst r2)), (kbc_ih_obf (fst r2)) eqn:Ho; cbn; try discriminate.
  intros [= _ <-]. by apply Hz.
Qed.
End Controller.

Lemma command_byte_read_is_zero_witness :
  fst (fst (@Kbd.keyboard_read_command_byte unit (still_ports 0) still_delay kbd_init tt)) = (0, Some 0) /\ 0 = 0.
Proof.
  assert (Hr : fst (fst (@Kbd.keyboard_read_command_byte unit (still_ports 0) still_delay kbd_init tt)) = (0, Some 0))
    by reflexivity.
  split; [exact Hr |].
  exact (@command_byte_read_is_zero unit (still_ports 0) still_delay kbd_init tt 0 0 Hr).
Defined.

Section Argument.
Context {E : Type} `{CommandByte E}.

Lemma kbc_ih_keeps k (e : E) :
  command_byte (snd (kbc_ih k e)) = command_byte e /\ awaiting (snd (kbc_ih k e)) = awaiting e.
Proof.
  unfold kbc_ih, inb, util_sys_inb, st_bind, st_ret. cbn [fst snd].
  destruct (cb_in KBC_STAT_REG e) as [Hb Ha].
  destruct (flag _ 0); cbn [fst snd]; [| done].
  destruct (cb_in KBC_OUT_BUF (snd (sys_inb KBC_STAT_REG e))) as [Hb' Ha']. split; congruence.
Qed.

(** [keyboard_enable_interrupts] writes the argument of the command before the
    command: the controller takes it for something else, keeps its command byte,
    and is left waiting for an argument. *)
Theorem enable_interrupts_does_not previous k (e : E) :
  awaiting e <> Some KBC_WRT_COMMAND ->
  let e' := snd (Kbd.keyboard_enable_interrupts previous k e) in
  command_byte e' = command_byte e /\
  (awaiting e' = awaiting e \/ awaiting e' = Some KBC_WRT_COMMAND).
Proof.
  unfold Kbd.keyboard_enable_interrupts, Kbd.keyboard_write_command_byte. cbv zeta.
  set (arg := Z.lor _ _). clearbody arg. generalize 10%nat. intros n. revert k e.
  induction n as [| n IH]; intros k e Ha; [by split; [| left] |].
  cbn [Kbd.keyboard_input_arg]. unfold st_bind, st_ret. cbv zeta.
  destruct (kbc_ih_keeps k e) as [Hb1 Ha1].
  set (r := kbc_ih k e) in *. clearbody r. destruct r as [k1 e1]. cbn [fst snd] in *. rewrite <-Hb1, <-Ha1 in *.
  destruct (negb (kbc_ih_err k1) && negb (kbc_ih_obf k1) && negb (kbc_ih_ibf k1)); cbn [fst snd].
  - destruct (cb_arg arg e1) as [Hb2 Ha2]. rewrite decide_False in Hb2 by done.
    destruct (cb_cmd WRITE_CMD_BYTE (snd (sys_outb KBC_ARG_REG arg e1))) as [Hb3 Ha3].
    split; [congruence |]. right. exact Ha3.
  - destruct (cb_tick e1) as [Hb2 Ha2]. rewrite <-Hb2, <-Ha2. apply IH. by rewrite Ha2.
Qed.
End Argument.

Lemma enable_interrupts_does_not_witness :
  let e' := snd (Kbd.keyboard_enable_interrupts 64 kbd_init (Kbc 64 None)) in
  command_byte e' = 64 /\ (awaiting e' = None \/ awaiting e' = Some KBC_WRT_COMMAND).
Proof.
  assert (Ha : awaiting (Kbc 64 None) <> Some KBC_WRT_COMMAND) by discriminate.
  exact (enable_interrupts_does_not 64 kbd_init (Kbc 64 None) Ha).
Defined.
