(* ===== verification/LabVideo2.v ===== *)
(** The other version of the video laboratory: [lab5/mel/vc.c] and
    [lab5/mel/lab5.c], with the keyboard of [LabKbc].

    Rectangles are clipped, with coordinates of 16 bits, and the pattern has in
    each cell the colour of its row and column. *)

From stdpp Require Import base tactics list.
From Stdlib Require Import ZArith Lia.
From S2P Require Import Prelude LabTimer LabKbc Consts Ports Mouse NumLetters Vc LabVideo LabDraw.

(** ** [vc.c] *)

(** The globals. *)
Record vc2 := Vc2 {
  video_mem : list Z;
  x_res : Z; y_res : Z; bppixel : Z; bytes_per_pixel : Z;
  mode_info : vbe_mode_info_t
}.

Definition set_video_mem (m : list Z) (v : vc2) : vc2 :=
  Vc2 m (x_res v) (y_res v) (bppixel v) (bytes_per_pixel v) (mode_info v).

Definition vram_size (mi : vbe_mode_info_t) : Z :=
  u32 (XResolution mi * YResolution mi * ((BitsPerPixel mi + 7) / 8)).

(** The globals set by [get_mode_info]. *)
Definition mode_globals (mi : vbe_mode_info_t) (mapped : list Z) : vc2 :=
  Vc2 mapped (XResolution mi) (YResolution mi) (BitsPerPixel mi) ((BitsPerPixel mi + 7) / 8) mi.

(** The local [bytes_per_pixel] is [ceil(bppixel / 8.0)]. *)
Definition draw_pixel (x y color : Z) (v : vc2) : res vc2 :=
  if (y_res v <=? y) || (x_res v <=? x) then Ok v
  else
    let bytes_per_pixel := u8 ((bppixel v + 7) / 8) in
    if bytes_per_pixel =? 1 then
      match arr_set (video_mem v) (u32 (y * x_res v * bytes_per_pixel) + u32 (x * bytes_per_pixel)) (u8 color) with
      | None => Undef OutOfBounds
      | Some m => Ok (set_video_mem m v)
      end
    else
      res_bind (store_color (Z.to_nat bytes_per_pixel) (video_mem v)
                  (u32 (bytes_per_pixel * y * x_res v) + u32 (x * bytes_per_pixel)) color)
        (fun m => Ok (set_video_mem m v)).

Definition vg_draw_hline (x y len color : Z) (v : vc2) : res vc2 :=
  Graphics.for_loop (Z.to_nat len) 0 (fun j => draw_pixel (u16 (x + j)) y color) v.

Definition vg_draw_rectangle (x y width height color : Z) (v : vc2) : res vc2 :=
  Graphics.for_loop (Z.to_nat height) 0 (fun i => vg_draw_hline x (u16 (y + i)) width color) v.

(** ** The colours of [video_test_pattern] *)

Definition indexed_color (first step no_rectangles row col bits : Z) : res Z :=
  res_bind (Graphics.shift_int 1 bits) (fun n =>
    Ok (u32 (first + (row * no_rectangles + col) * step) mod n)).

(** A field, from [base], the shifted colour. *)
Definition field (base size incr : Z) : res Z :=
  res_bind (Graphics.shift_int 1 size) (fun n => Ok (u32 (Z.land base (n - 1) + incr) mod n)).

(** The shifts of a [uint32_t]; the field of blue is shifted to the left. *)
Definition shr32 (v n : Z) : res Z := if 32 <=? n then Undef BadShift else Ok (Z.shiftr v n).
Definition shl32 (v n : Z) : res Z := if 32 <=? n then Undef BadShift else Ok (u32 (Z.shiftl v n)).

Definition direct_color (first step row col : Z) (mi : vbe_mode_info_t) : res Z :=
  res_bind (shr32 first (RedFieldPosition mi)) (fun r =>
  res_bind (field r (RedMaskSize mi) (col * step)) (fun red =>
  res_bind (shr32 first (GreenFieldPosition mi)) (fun g =>
  res_bind (field g (GreenMaskSize mi) (row * step)) (fun green =>
  res_bind (shl32 first (BlueFieldPosition mi)) (fun b =>
  res_bind (field b (BlueMaskSize mi) ((col + row) * step)) (fun blue =>
  res_bind (shl32 red (RedFieldPosition mi)) (fun red =>
  res_bind (shl32 green (GreenFieldPosition mi)) (fun green =>
    Ok (Z.lor (Z.lor red green) blue))))))))).

(** [color] keeps its value when the memory model is neither of the two. *)
Definition cell_color (first step no_rectangles row col : Z) (v : vc2) (color : Z) : res Z :=
  let mi := mode_info v in
  res_bind (if MemoryModel mi =? 0x04 then indexed_color first step no_rectangles row col (bppixel v)
            else Ok color) (fun color =>
  if MemoryModel mi =? 0x06 then direct_color first step row col mi else Ok color).

(** The two loops, with the variable [color]. *)
Definition draw_cell (first step no_rectangles recWidth recHeight row col : Z) (a : Z * vc2) : res (Z * vc2) :=
  res_bind (cell_color first step no_rectangles row col (snd a) (fst a)) (fun color =>
  res_bind (vg_draw_rectangle (u16 (recWidth * col)) (u16 (recHeight * row)) recWidth recHeight color (snd a))
    (fun v => Ok (color, v))).

Definition draw_pattern (no_rectangles first step : Z) (v : vc2) : res vc2 :=
  if no_rectangles =? 0 then Undef DivisionByZero
  else
    let recWidth := u16 (x_res v / no_rectangles) in
    let recHeight := u16 (y_res v / no_rectangles) in
    res_bind (Graphics.for_loop (Z.to_nat no_rectangles) 0 (fun row =>
                Graphics.for_loop (Z.to_nat no_rectangles) 0
                  (draw_cell first step no_rectangles recWidth recHeight row)) (first, v))
      (fun a => Ok (snd a)).

(** ** [lab5.c] *)

Record lab5b := Lab5b { scr : vc2; kbc : lab3 }.
Definition set_scr (v : vc2) (s : lab5b) : lab5b := Lab5b v (kbc s).

Section Lab5b.
Context {E : Type} `{Ports E, Irqs E, Delay E, KbdLcf E, VideoLcf E, LowMemory E vbe_mode_info_t}.
Variable indet : Z.

(** As in the game, the call to the BIOS is prepared and not made. *)
Definition vbe_get_mode_inf : ST E vbe_mode_info_t :=
  let+ mi := lm_alloc in
  do+ lm_free (MI := vbe_mode_info_t) in st_ret mi.

Definition set_vbe_mode (mode : Z) : ST E Z :=
  let+ r := sys_int86 (Reg86 79 VBE (u16 (Z.lor (BIT 14) mode)) INT) in
  st_ret (if r =? 1 then 1 else 0).

Definition get_mode_info : M lab5b E Z :=
  let* mi := env vbe_get_mode_inf in
  let* mapped := env (vm_map_phys (PhysBasePtr mi) (vram_size mi)) in
  do* modify (set_scr (mode_globals mi mapped)) in
  ret 0.

Definition on_kbc {A} (m : M lab3 E A) : M lab5b E A :=
  fun s => res_bind (m (kbc (fst s), snd s)) (fun r => Ok (fst r, (Lab5b (scr (fst s)) (fst (snd r)), snd (snd r)))).

Definition draws (f : vc2 -> res vc2) : M lab5b E unit :=
  let* v := gets scr in
  let* v := lift (f v) in modify (set_scr v).

(** [while (!ESC_flag)], the same in the two tests. *)
Fixpoint wait_esc (bit_no : Z) (ms : list lab_message) : M lab5b E bool :=
  match ms with
  | [] => ret false
  | m :: ms =>
      let* esc :=
        match m with
        | LabHardware interrupts =>
            if truth (Z.land interrupts (BIT bit_no)) then
              do* on_kbc (kbc_ih indet) in
              let* k := gets kbc in
              ret (sc_byte k =? ESC_BREAKCODE)
            else ret false
        | LabFailed | LabOther => ret false
        end in
      if esc then ret true else wait_esc bit_no ms
  end.

Definition video_test_init (mode delay : Z) : M lab5b E Z :=
  let* r := env (set_vbe_mode mode) in
  if r =? 1 then ret 1
  else
    let* r := get_mode_info in
    if r =? 1 then ret 1
    else
      do* env (sleep delay) in
      let* r := env vg_exit in
      if r =? 1 then ret 1 else ret 0.

(** What the two tests share: the mode, the subscription, the drawing, the loop. *)
Definition show_test (mode : Z) (f : vc2 -> res vc2) (ms : list lab_message) : M lab5b E (option Z) :=
  let* r := get_mode_info in
  if r =? 1 then ret (Some 1)
  else
    let* r := env (set_vbe_mode mode) in
    if r =? 1 then ret (Some 1)
    else
      let bit_no := u8 KBC_IRQ in
      let* r := on_kbc (kbc_subscribe_int bit_no) in
      if r =? 1 then ret (Some 1)
      else
        do* draws f in
        let* ended := wait_esc bit_no ms in
        if ended then
          let* r := on_kbc kbc_unsubscribe_int in
          if r =? 1 then ret (Some 1)
          else
            let* r := env vg_exit in
            ret (Some (if r =? 1 then 1 else 0))
        else ret None.

Definition video_test_rectangle (mode x y width height color : Z) (ms : list lab_message) :=
  show_test mode (vg_draw_rectangle x y width height color) ms.

Definition video_test_pattern (mode no_rectangles first step : Z) (ms : list lab_message) :=
  show_test mode (draw_pattern no_rectangles first step) ms.
End Lab5b.

(** ** Rectangles *)

(** A screen whose frame is mapped. *)
Definition vc2_ok (v : vc2) : Prop :=
  0 < x_res v < 65536 /\ 0 < y_res v < 65536 /\
  bytes_per_pixel v = (bppixel v + 7) / 8 /\ 1 <= bytes_per_pixel v <= 4 /\
  zlen (video_mem v) = x_res v * y_res v * bytes_per_pixel v /\ zlen (video_mem v) < 4294967296.

Lemma vc2_ok_set v m : vc2_ok v -> zlen m = zlen (video_mem v) -> vc2_ok (set_video_mem m v).
Proof. unfold vc2_ok. intros Hv Hz. cbn. by rewrite Hz. Qed.

(** The distance from [x] to [p] in 16 bits, and the pixel [k] of the screen. *)
Definition ahead (x p : Z) : Z := u16 (p - x).
Definition shown_in (v : vc2) (k : Z) : bool := k <? x_res v * y_res v.
Definition at_pixel (v : vc2) (x y k : Z) : bool :=
  (x =? k mod x_res v) && (y =? k / x_res v) && shown_in v k.
Definition in_line (v : vc2) (x y i n k : Z) : bool :=
  run_of i n (ahead x (k mod x_res v)) && (y =? k / x_res v) && shown_in v k.
Definition in_lines (v : vc2) (x y width i n k : Z) : bool :=
  run_of 0 width (ahead x (k mod x_res v)) && run_of i n (ahead y (k / x_res v)) && shown_in v k.

Lemma pixel_index w x y k :
  0 <= x < w -> 0 <= k -> (x =? k mod w) && (y =? k / w) = (k =? y * w + x).
Proof.
  intros Hx Hk. pose proof (Z.div_mod k w ltac:(lia)). pose proof (Z.mod_pos_bound k w ltac:(lia)).
  apply eq_true_iff_eq. rewrite andb_true_iff, !Z.eqb_eq. split; [nia |]. intros ->.
  rewrite Z.div_add_l, Z.div_small, (Z.add_comm (y * w)), Z.mod_add, Z.mod_small by lia. lia.
Qed.

Lemma shown_coords v k :
  vc2_ok v -> 0 <= k -> shown_in v k = true -> 0 <= k mod x_res v < x_res v /\ 0 <= k / x_res v < y_res v.
Proof.
  intros ((Hx & _) & _) Hk Hs. unfold shown_in in Hs. apply Z.ltb_lt in Hs.
  split; [apply Z.mod_pos_bound; lia |]. split; [apply Z.div_pos; lia |].
  apply Z.div_lt_upper_bound; lia.
Qed.

Lemma pixel_clipped x y color v :
  vc2_ok v -> 0 <= x -> 0 <= y ->
  exists m, draw_pixel x y color v = Ok (set_video_mem m v) /\
    painted (bytes_per_pixel v) color (at_pixel v x y) (video_mem v) m.
Proof.
  intros Hv Hx Hy. pose proof Hv as (Hxr & Hyr & Hbb & Hb & Hz & Hm). unfold draw_pixel.
  destruct (Z.leb_spec (y_res v) y); [| destruct (Z.leb_spec (x_res v) x)]; cbn [orb].
  1, 2: exists (video_mem v); split; [by destruct v |]; apply painted_none; intros k Hk; unfold at_pixel;
    destruct (shown_in v k) eqn:Hs; [| by rewrite andb_false_r];
    destruct (shown_coords v k Hv Hk Hs); destruct (_ && _) eqn:E; [unbool; lia | done].
  rewrite <-Hbb, u8_id by lia. set (bpp := bytes_per_pixel v) in *.
  destruct (pixel_offset_bound (x_res v) (y_res v) bpp x y) as [Ho1 Ho2]; [lia | lia | lia |].
  assert (Hext : forall k, 0 <= k -> (k =? y * x_res v + x) = at_pixel v x y k).
  { intros k Hk. unfold at_pixel. rewrite pixel_index by lia. destruct (Z.eqb_spec k (y * x_res v + x)) as [-> |]; [| done].
    unfold shown_in. symmetry. apply Z.ltb_lt. nia. }
  assert (Hu1 : 0 <= bpp * y * x_res v < 4294967296) by nia.
  assert (Hu2 : 0 <= x * bpp < 4294967296) by nia.
  destruct (Z.eqb_spec bpp 1) as [H1 | H1].
  - unfold u32. rewrite !Z.mod_small by nia. rewrite H1, !Z.mul_1_r, arr_set_Some by nia.
    eexists. split; [done |]. eapply painted_ext; [exact Hext |].
    apply stored_painted; [lia | nia | by rewrite zlen_insert |].
    intros o Ho. rewrite arr_get_insert by nia. rewrite Z.mul_1_r.
    destruct (Z.eqb_spec o (y * x_res v + x)) as [-> | Hne].
    + replace (_ && _) with true by (symmetry; apply andb_true_iff; rewrite Z.leb_le, Z.ltb_lt; lia).
      by rewrite Z.sub_diag.
    + destruct (_ && _) eqn:E; [unbool; lia | done].
  - unfold u32. rewrite !Z.mod_small by lia.
    destruct (store_color_spec (Z.to_nat bpp) (video_mem v) (bpp * y * x_res v + x * bpp) color)
      as (m & Hs & Hl & Hg); [lia | lia |].
    rewrite Hs. cbn [res_bind]. exists m. split; [done |]. eapply painted_ext; [exact Hext |].
    apply stored_painted; [lia | nia | done |].
    intros o Ho. rewrite (Hg o Ho). replace (Z.of_nat (Z.to_nat bpp)) with bpp by lia.
    by replace ((y * x_res v + x) * bpp) with (bpp * y * x_res v + x * bpp) by ring.
Qed.

Lemma ahead_eq x i p : 0 <= i < 65536 -> 0 <= p < 65536 -> (i =? ahead x p) = (u16 (x + i) =? p).
Proof.
  intros Hi Hp. unfold ahead, u16. apply eq_true_iff_eq. rewrite !Z.eqb_eq. zlia.
Qed.

Lemma hline_clipped x y n i color v :
  vc2_ok v -> 0 <= y -> 0 <= i -> i + Z.of_nat n <= 65536 ->
  exists m, Graphics.for_loop n i (fun j => draw_pixel (u16 (x + j)) y color) v = Ok (set_video_mem m v) /\
    painted (bytes_per_pixel v) color (in_line v x y i (Z.of_nat n)) (video_mem v) m.
Proof.
  intros Hv Hy. revert i v Hv. induction n as [| n IH]; intros i v Hv Hi Hn.
  - exists (video_mem v). split; [by destruct v |]. apply painted_none. intros k _.
    unfold in_line. by rewrite run_of_empty.
  - cbn [Graphics.for_loop]. pose proof (u16_range (x + i)).
    destruct (pixel_clipped (u16 (x + i)) y color v Hv) as (m1 & Hs & Hp); [lia | done |].
    rewrite Hs. cbn [res_bind].
    destruct (IH (i + 1) (set_video_mem m1 v)) as (m2 & Hs2 & Hp2); [by apply vc2_ok_set; [| apply Hp] | lia | lia |].
    exists m2. split; [done |]. eapply painted_ext; [| by eapply painted_trans]. cbn beta. intros k Hk.
    change (in_line (set_video_mem m1 v)) with (in_line v).
    unfold at_pixel, in_line. replace (Z.of_nat (S n)) with (Z.of_nat n + 1) by lia. rewrite run_of_S by lia.
    destruct (shown_in v k) eqn:Hs'; [| by rewrite !andb_false_r].
    destruct (shown_coords v k Hv Hk Hs'). pose proof Hv as (? & ? & _).
    rewrite ahead_eq by lia. by destruct (_ =? k mod _), (y =? _), (run_of _ _ _).
Qed.

Lemma lines_painted x y width n i color v :
  vc2_ok v -> 0 <= width < 65536 -> 0 <= i -> i + Z.of_nat n <= 65536 ->
  exists m, Graphics.for_loop n i (fun i => vg_draw_hline x (u16 (y + i)) width color) v = Ok (set_video_mem m v) /\
    painted (bytes_per_pixel v) color (in_lines v x y width i (Z.of_nat n)) (video_mem v) m.
Proof.
  intros Hv Hw. revert i v Hv. induction n as [| n IH]; intros i v Hv Hi Hn.
  - exists (video_mem v). split; [by destruct v |]. apply painted_none. intros k _.
    unfold in_lines. by rewrite run_of_empty, andb_false_r.
  - cbn [Graphics.for_loop]. unfold vg_draw_hline at 1. pose proof (u16_range (y + i)).
    destruct (hline_clipped x (u16 (y + i)) (Z.to_nat width) 0 color v Hv) as (m1 & Hs & Hp); [lia | lia | lia |].
    rewrite Hs. cbn [res_bind].
    destruct (IH (i + 1) (set_video_mem m1 v)) as (m2 & Hs2 & Hp2); [by apply vc2_ok_set; [| apply Hp] | lia | lia |].
    exists m2. split; [done |]. eapply painted_ext; [| by eapply painted_trans]. cbn beta. intros k Hk.
    change (in_lines (set_video_mem m1 v)) with (in_lines v).
    unfold in_line, in_lines. replace (Z.of_nat (S n)) with (Z.of_nat n + 1) by lia. rewrite (run_of_S i) by lia.
    rewrite Z2Nat.id by lia.
    destruct (shown_in v k) eqn:Hs'; [| by rewrite !andb_false_r].
    destruct (shown_coords v k Hv Hk Hs'). pose proof Hv as (? & ? & _).
    rewrite ahead_eq by lia. by destruct (_ =? k / _), (run_of 0 _ _), (run_of _ _ _).
Qed.

(** The rectangle with its corner at (x, y), in coordinates modulo 65536. *)
Lemma rectangle_clipped x y width height color v :
  vc2_ok v -> 0 <= width < 65536 -> 0 <= height < 65536 ->
  exists m, vg_draw_rectangle x y width height color v = Ok (set_video_mem m v) /\
    painted (bytes_per_pixel v) color (in_lines v x y width 0 height) (video_mem v) m.
Proof.
  intros Hv Hw Hh. unfold vg_draw_rectangle.
  destruct (lines_painted x y width (Z.to_nat height) 0 color v) as (m & Hs & Hp); [done | done | lia | lia |].
  exists m. split; [done |]. by rewrite Z2Nat.id in Hp by lia.
Qed.

(** Where nothing wraps, the part of the rectangle on the screen. *)
Lemma in_lines_rectangle x y width height v k :
  vc2_ok v -> 0 <= k -> 0 <= x -> 0 <= width -> x + width <= 65536 ->
  0 <= y -> 0 <= height -> y + height <= 65536 ->
  in_lines v x y width 0 height k = in_rectangle (x_res v) x y width height k && shown_in v k.
Proof.
  intros Hv Hk Hx Hw Hxw Hy Hh Hyh. unfold in_lines, in_rectangle.
  destruct (shown_in v k) eqn:Hs; [| by rewrite !andb_false_r].
  destruct (shown_coords v k Hv Hk Hs). pose proof Hv as (? & ? & _). rewrite !andb_true_r.
  assert (Ha : forall c d p, 0 <= c -> 0 <= d -> c + d <= 65536 -> 0 <= p < 65536 ->
    run_of 0 d (ahead c p) = run_of c d p).
  { intros c d p Hc Hd Hcd Hp. unfold run_of, ahead, u16. apply eq_true_iff_eq.
    rewrite !andb_true_iff, !Z.leb_le, !Z.ltb_lt. zlia. }
  by rewrite !Ha by lia.
Qed.

(** ** The pattern *)

(** The memory with the colours [C] of some of its pixels. *)
Definition recoloured (bpp : Z) (C : Z -> option Z) (mem mem' : list Z) : Prop :=
  zlen mem' = zlen mem /\
  forall k b, 0 <= k -> 0 <= b < bpp ->
    arr_get mem' (k * bpp + b) =
    match C k with Some color => Some (u8 (Z.shiftr color (8 * b))) | None => arr_get mem (k * bpp + b) end.

Lemma recoloured_none bpp C mem : (forall k, 0 <= k -> C k = None) -> recoloured bpp C mem mem.
Proof. intros HC. split; [done |]. intros k b Hk _. by rewrite HC. Qed.

Lemma recoloured_ext bpp C C' mem mem' :
  (forall k, 0 <= k -> C k = C' k) -> recoloured bpp C mem mem' -> recoloured bpp C' mem mem'.
Proof. intros HC [Hl Hp]. split; [done |]. intros k b Hk Hb. by rewrite <-HC, Hp. Qed.

Lemma recoloured_trans bpp C1 C2 m1 m2 m3 :
  recoloured bpp C1 m1 m2 -> recoloured bpp C2 m2 m3 ->
  recoloured bpp (fun k => match C2 k with Some c => Some c | None => C1 k end) m1 m3.
Proof.
  intros [Hl1 Hp1] [Hl2 Hp2]. split; [congruence |]. intros k b Hk Hb.
  rewrite Hp2, Hp1 by done. by destruct (C2 k).
Qed.

Lemma painted_recoloured bpp color S mem mem' :
  painted bpp color S mem mem' -> recoloured bpp (fun k => if S k then Some color else None) mem mem'.
Proof. intros [Hl Hp]. split; [done |]. intros k b Hk Hb. rewrite Hp by done. by destruct (S k). Qed.

Section Pattern.
Variables (first step n : Z) (mi : vbe_mode_info_t) (bits : Z).

(** The shifts of the colours are defined. *)
Definition colors_ok : Prop :=
  (MemoryModel mi = 4 -> 0 <= bits <= 30) /\
  (0 <= RedMaskSize mi <= 30 /\ 0 <= RedFieldPosition mi < 32) /\
  (0 <= GreenMaskSize mi <= 30 /\ 0 <= GreenFieldPosition mi < 32) /\
  (0 <= BlueMaskSize mi <= 30 /\ 0 <= BlueFieldPosition mi < 32).

(** The colour of a cell: in an indexed mode the first colour moved on by [step]
    for every cell before it; in a direct one the field of red moves with the
    column, green with the row and blue with both. *)
Definition field_of (base size incr : Z) : Z := u32 (Z.land base (2 ^ size - 1) + incr) mod 2 ^ size.
Definition cell (row col : Z) : Z :=
  if MemoryModel mi =? 4 then u32 (first + (row * n + col) * step) mod 2 ^ bits
  else if MemoryModel mi =? 6 then
    Z.lor
      (Z.lor
         (u32 (Z.shiftl (field_of (Z.shiftr first (RedFieldPosition mi)) (RedMaskSize mi) (col * step))
                 (RedFieldPosition mi)))
         (u32 (Z.shiftl (field_of (Z.shiftr first (GreenFieldPosition mi)) (GreenMaskSize mi) (row * step))
                 (GreenFieldPosition mi))))
      (field_of (u32 (Z.shiftl first (BlueFieldPosition mi))) (BlueMaskSize mi) ((col + row) * step))
  else first.

Definition follows (color : Z) : Prop := MemoryModel mi = 4 \/ MemoryModel mi = 6 \/ color = first.

Lemma field_ok base size incr : 0 <= size <= 30 -> field base size incr = Ok (field_of base size incr).
Proof. intros Hs. unfold field. by rewrite shift_one_ok. Qed.

Lemma cell_color_ok v row col color :
  colors_ok -> mode_info v = mi -> bppixel v = bits -> follows color ->
  cell_color first step n row col v color = Ok (cell row col) /\ follows (cell row col).
Proof.
  intros (Hi & (Hrs & Hrp) & (Hgs & Hgp) & Hbs & Hbp) Hm Hbi Hf.
  assert (Hshr : forall a k, 0 <= k < 32 -> shr32 a k = Ok (Z.shiftr a k))
    by (intros a k Hk; unfold shr32; destruct (Z.leb_spec 32 k); [lia | done]).
  assert (Hshl : forall a k, 0 <= k < 32 -> shl32 a k = Ok (u32 (Z.shiftl a k)))
    by (intros a k Hk; unfold shl32; destruct (Z.leb_spec 32 k); [lia | done]).
  unfold cell_color, follows, cell in *. rewrite Hm, Hbi.
  destruct (Z.eqb_spec (MemoryModel mi) 4) as [H4 | H4].
  - rewrite H4. unfold indexed_color. rewrite shift_one_ok by auto. split; [done | by left].
  - cbn [res_bind]. destruct (Z.eqb_spec (MemoryModel mi) 6) as [H6 | H6].
    + split; [| by right; left]. unfold direct_color.
      repeat (first [rewrite Hshr by lia | rewrite Hshl by lia | rewrite field_ok by lia]; cbn [res_bind]). done.
    + destruct Hf as [| [| ->]]; [done | done |]. split; [done | by right; right].
Qed.

(** The cells of the rows and columns given, each of [w] x [h] pixels. *)
Definition cell_at (xr yr w h : Z) (row col nrows ncols k : Z) : option Z :=
  if run_of col ncols (k mod xr / w) && run_of row nrows (k / xr / h) && (k <? xr * yr)
  then Some (cell (k / xr / h) (k mod xr / w)) else None.

Definition same_screen (v v' : vc2) : Prop :=
  v' = set_video_mem (video_mem v') v /\ zlen (video_mem v') = zlen (video_mem v).

Lemma run_of_div a w p : 0 < w -> run_of (w * a) w p = (a =? p / w).
Proof.
  intros Hw. unfold run_of. apply eq_true_iff_eq. rewrite andb_true_iff, Z.leb_le, Z.ltb_lt, Z.eqb_eq.
  pose proof (Z.div_mod p w ltac:(lia)). pose proof (Z.mod_pos_bound p w ltac:(lia)).
  split; [intros [H1 H2] | intros ->; lia]. nia.
Qed.

Lemma run_of_one a p : run_of a 1 p = (a =? p).
Proof. rewrite <-(Z.mul_1_l a) at 1. by rewrite run_of_div, Z.div_1_r by lia. Qed.

Lemma draw_cell_ok v color w h row col :
  vc2_ok v -> colors_ok -> mode_info v = mi -> bppixel v = bits -> follows color ->
  0 < w -> 0 < h -> 0 <= row -> 0 <= col -> w * (col + 1) <= x_res v -> h * (row + 1) <= y_res v ->
  exists color' m, draw_cell first step n w h row col (color, v) = Ok (color', set_video_mem m v) /\ follows color' /\
    recoloured (bytes_per_pixel v) (cell_at (x_res v) (y_res v) w h row col 1 1) (video_mem v) m.
Proof.
  intros Hv Hc Hm Hb Hf Hw Hh Hr Hcl Hwx Hhy. pose proof Hv as (Hx & Hy & _). unfold draw_cell. cbn [fst snd].
  destruct (cell_color_ok v row col color Hc Hm Hb Hf) as [-> Hf']. cbn [res_bind].
  rewrite (u16_id (w * col)), (u16_id (h * row)) by nia.
  destruct (rectangle_clipped (w * col) (h * row) w h (cell row col) v Hv) as (m & -> & Hp); [nia | nia |].
  cbn [res_bind]. exists (cell row col), m. split; [done |]. split; [done |].
  eapply recoloured_ext; [| by apply painted_recoloured]. cbn beta. intros k Hk.
  rewrite in_lines_rectangle by (done || nia). unfold in_rectangle, cell_at. rewrite !run_of_div by done.
  rewrite !run_of_one. unfold shown_in.
  destruct (Z.eqb_spec col (k mod x_res v / w)) as [-> |]; [| done].
  destruct (Z.eqb_spec row (k / x_res v / h)) as [-> |]; done.
Qed.

(** One row, from the column [col] on. *)
Lemma draw_row_ok w h row m col v color :
  vc2_ok v -> colors_ok -> mode_info v = mi -> bppixel v = bits -> follows color ->
  0 < w -> 0 < h -> 0 <= row -> 0 <= col -> w * (col + Z.of_nat m) <= x_res v -> h * (row + 1) <= y_res v ->
  exists color' mem, Graphics.for_loop m col (draw_cell first step n w h row) (color, v) = Ok (color', set_video_mem mem v) /\
    follows color' /\
    recoloured (bytes_per_pixel v) (cell_at (x_res v) (y_res v) w h row col 1 (Z.of_nat m)) (video_mem v) mem.
Proof.
  revert col v color. induction m as [| m IH]; intros col v color Hv Hc Hm Hb Hf Hw Hh Hr Hcl Hwx Hhy.
  - exists color, (video_mem v). split; [by destruct v |]. split; [done |]. apply recoloured_none.
    intros k _. unfold cell_at. by rewrite run_of_empty.
  - cbn [Graphics.for_loop].
    destruct (draw_cell_ok v color w h row col) as (c1 & m1 & Hd & Hf1 & Hp); try done; try nia.
    rewrite Hd. cbn [res_bind].
    destruct (IH (col + 1) (set_video_mem m1 v) c1) as (c2 & m2 & Hd2 & Hf2 & Hp2); try done; try (cbn; nia);
      [by apply vc2_ok_set; [| apply Hp] |].
    exists c2, m2. split; [done |]. split; [done |].
    eapply recoloured_ext; [| by eapply recoloured_trans]. cbn beta. intros k Hk. cbn [set_video_mem x_res y_res].
    unfold cell_at. replace (Z.of_nat (S m)) with (Z.of_nat m + 1) by lia.
    rewrite (run_of_S col), !run_of_one by lia.
    by destruct (col =? _), (run_of (col + 1) _ _), (row =? _), (k <? _).
Qed.

Lemma draw_rows_ok w h cols m row v color :
  vc2_ok v -> colors_ok -> mode_info v = mi -> bppixel v = bits -> follows color ->
  0 < w -> 0 < h -> 0 <= row -> w * Z.of_nat cols <= x_res v -> h * (row + Z.of_nat m) <= y_res v ->
  exists color' mem,
    Graphics.for_loop m row (fun row => Graphics.for_loop cols 0 (draw_cell first step n w h row)) (color, v) =
      Ok (color', set_video_mem mem v) /\
    recoloured (bytes_per_pixel v) (cell_at (x_res v) (y_res v) w h row 0 (Z.of_nat m) (Z.of_nat cols)) (video_mem v) mem.
Proof.
  revert row v color. induction m as [| m IH]; intros row v color Hv Hc Hm Hb Hf Hw Hh Hr Hwx Hhy.
  - exists color, (video_mem v). split; [by destruct v |]. apply recoloured_none.
    intros k _. unfold cell_at. by rewrite run_of_empty, andb_false_r.
  - cbn [Graphics.for_loop].
    destruct (draw_row_ok w h row cols 0 v color) as (c1 & m1 & Hd & Hf1 & Hp); try done; try nia.
    rewrite Hd. cbn [res_bind].
    destruct (IH (row + 1) (set_video_mem m1 v) c1) as (c2 & m2 & Hd2 & Hp2); try done; try (cbn; nia);
      [by apply vc2_ok_set; [| apply Hp] |].
    exists c2, m2. split; [done |].
    eapply recoloured_ext; [| by eapply recoloured_trans]. cbn beta. intros k Hk. cbn [set_video_mem x_res y_res].
    unfold cell_at. replace (Z.of_nat (S m)) with (Z.of_nat m + 1) by lia.
    rewrite (run_of_S row), !run_of_one by lia.
    by destruct (row =? _), (run_of (row + 1) _ _), (run_of 0 _ _), (k <? _).
Qed.
End Pattern.

Lemma pattern_drawn n first step v :
  vc2_ok v -> colors_ok (mode_info v) (bppixel v) -> 0 < n -> n <= x_res v -> n <= y_res v ->
  exists m, draw_pattern n first step v = Ok (set_video_mem m v) /\
    recoloured (bytes_per_pixel v)
      (cell_at first step n (mode_info v) (bppixel v) (x_res v) (y_res v) (x_res v / n) (y_res v / n) 0 0 n n)
      (video_mem v) m.
Proof.
  intros Hv Hc Hn Hx Hy. pose proof Hv as (Hxr & Hyr & _). unfold draw_pattern.
  replace (n =? 0) with false by (symmetry; apply Z.eqb_neq; lia). cbv zeta.
  assert (Hq : forall r, n <= r < 65536 -> 0 < r / n /\ r / n * n <= r /\ u16 (r / n) = r / n).
  { intros r Hr. assert (0 < r / n) by (apply Z.div_str_pos; lia). assert (r / n * n <= r) by zlia.
    split; [done |]. split; [done |]. apply u16_id. nia. }
  destruct (Hq (x_res v)) as (Hw & Hwn & ->); [lia |]. destruct (Hq (y_res v)) as (Hh & Hhn & ->); [lia |].
  destruct (draw_rows_ok first step n (mode_info v) (bppixel v) (x_res v / n) (y_res v / n) (Z.to_nat n) (Z.to_nat n) 0 v first)
    as (c & m & Hd & Hp); try done; try lia; [by right; right |].
  rewrite Hd. cbn [res_bind snd]. exists m. split; [done |]. by rewrite Z2Nat.id in Hp by lia.
Qed.

(** ** The tests *)

Section Tests.
Context {E : Type} `{Ports E, Irqs E, Delay E, KbdLcf E, VideoLcf E, LowMemory E vbe_mode_info_t}.
Variable indet : Z.

(** The keyboard does not touch the screen, and does not go wrong. *)
Definition keeps_screen {A} (m : M lab5b E A) : Prop :=
  forall s e, exists a k e', m (s, e) = Ok (a, (Lab5b (scr s) k, e')).

Lemma on_kbc_keeps {A} (m : M lab3 E A) :
  (forall s e, exists a s' e', m (s, e) = Ok (a, (s', e'))) -> keeps_screen (on_kbc m).
Proof.
  intros Hm s e. unfold on_kbc. cbn [fst snd]. destruct (Hm (kbc s) e) as (a & s' & e' & ->).
  by exists a, s', e'.
Qed.

Lemma subscribe_keeps b : keeps_screen (on_kbc (kbc_subscribe_int b)).
Proof.
  apply on_kbc_keeps. intros s e. unfold kbc_subscribe_int.
  rewrite bind_modify, bind_gets, bind_env, bind_modify. by eexists _, _, _.
Qed.

Lemma unsubscribe_keeps : keeps_screen (on_kbc kbc_unsubscribe_int).
Proof. apply on_kbc_keeps. intros s e. unfold kbc_unsubscribe_int. rewrite bind_gets, bind_env. by eexists _, _, _. Qed.

Lemma read_keeps : keeps_screen (on_kbc (kbc_ih indet)).
Proof.
  apply on_kbc_keeps. intros s e. unfold kbc_ih, kbc_check_status, kbc_read_status, kbc_read_buf, sys_inb_cnt.
  mrun. split_ifs; by eexists _, _, _.
Qed.

Lemma wait_esc_keeps b ms : keeps_screen (wait_esc indet b ms).
Proof.
  induction ms as [| m ms IH]; intros s e; [exists false, (kbc s), e; by destruct s |]. cbn [wait_esc].
  assert (Hm : exists esc k e',
    (match m with
     | LabHardware interrupts =>
         if truth (Z.land interrupts (BIT b)) then
           do* on_kbc (kbc_ih indet) in let* k := gets kbc in ret (sc_byte k =? ESC_BREAKCODE)
         else ret false
     | LabFailed | LabOther => ret false
     end)%c (s, e) = Ok (esc, (Lab5b (scr s) k, e'))).
  { destruct m; [by exists false, (kbc s), e; destruct s .. |].
    destruct (truth _); [| by exists false, (kbc s), e; destruct s].
    destruct (read_keeps s e) as (u & k & e' & Hk). rewrite (bind_ok _ _ _ _ _ Hk), bind_gets. by eexists _, _, _. }
  destruct Hm as (esc & k & e' & Hm). rewrite (bind_ok _ _ _ _ _ Hm).
  destruct esc; [by exists true, k, e' | apply (IH (Lab5b (scr s) k) e')].
Qed.

(** The mode block, the memory mapped and the screen of a test. *)
Definition block_at (e : E) : vbe_mode_info_t := fst (lm_alloc e).
Definition screen_at (e : E) : vc2 :=
  mode_globals (block_at e)
    (fst (vm_map_phys (PhysBasePtr (block_at e)) (vram_size (block_at e)) (snd (vbe_get_mode_inf e)))).

(** A test returns 1 before it draws, or has drawn. *)
Lemma show_test_draws mode f ms s e v :
  f (screen_at e) = Ok v ->
  exists r s' e', show_test indet mode f ms (s, e) = Ok (r, (s', e')) /\
    (r = Some 1 /\ scr s' = screen_at e \/ scr s' = v).
Proof.
  intros Hf. unfold show_test.
  assert (Hg : exists e1, get_mode_info (s, e) = Ok (0, (set_scr (screen_at e) s, e1)))
    by (unfold get_mode_info; rewrite !bind_env, bind_modify; by eexists).
  destruct Hg as (e1 & Hg). rewrite (bind_ok _ _ _ _ _ Hg). cbn [Z.eqb].
  rewrite bind_env. set (r1 := set_vbe_mode mode (snd (set_scr (screen_at e) s, e1))). clearbody r1.
  cbn [fst snd]. destruct (fst r1 =? 1); [by exists (Some 1), (set_scr (screen_at e) s), (snd r1); split; [| left] |].
  cbv zeta. destruct (subscribe_keeps (u8 KBC_IRQ) (set_scr (screen_at e) s) (snd r1)) as (r2 & k2 & e2 & Hs).
  rewrite (bind_ok _ _ _ _ _ Hs).
  destruct (r2 =? 1); [by exists (Some 1), (Lab5b (screen_at e) k2), e2; split; [| left] |].
  assert (Hd : draws f (Lab5b (screen_at e) k2, e2) = Ok (tt, (Lab5b v k2, e2)))
    by (unfold draws; rewrite bind_gets; cbn [fst scr]; by rewrite Hf).
  cbn [scr set_scr]. rewrite (bind_ok _ _ _ _ _ Hd).
  destruct (wait_esc_keeps (u8 KBC_IRQ) ms (Lab5b v k2) e2) as (b & k3 & e3 & Hw). rewrite (bind_ok _ _ _ _ _ Hw).
  destruct b; [| by exists None, (Lab5b v k3), e3; split; [| right]].
  destruct (unsubscribe_keeps (Lab5b v k3) e3) as (r4 & k4 & e4 & Hu). cbn [scr] in *.
  rewrite (bind_ok _ _ _ _ _ Hu).
  destruct (r4 =? 1); [by exists (Some 1), (Lab5b v k4), e4; split; [| right] |].
  rewrite bind_env. eexists _, _, _. split; [done |]. by right.
Qed.

(** C36. The rectangle of [video_test_rectangle], for every corner and size of 16
    bits: whatever messages arrive the test does not go wrong, and unless it has
    returned 1 before drawing, the pixels of the screen that lie at less than
    [width] and [height] from the corner, modulo 65536, have its colour and the
    others are as they were mapped. *)
Theorem rectangle_test_draws mode x y width height color ms s e :
  vc2_ok (screen_at e) -> 0 <= width < 65536 -> 0 <= height < 65536 ->
  exists r s' e', video_test_rectangle indet mode x y width height color ms (s, e) = Ok (r, (s', e')) /\
    (r = Some 1 /\ scr s' = screen_at e \/
     painted (bytes_per_pixel (screen_at e)) color (in_lines (screen_at e) x y width 0 height)
       (video_mem (screen_at e)) (video_mem (scr s'))).
Proof.
  intros Hv Hw Hh. destruct (rectangle_clipped x y width height color (screen_at e) Hv Hw Hh) as (m & Hd & Hp).
  destruct (show_test_draws mode _ ms s e _ Hd) as (r & s' & e' & Ht & Hs).
  exists r, s', e'. split; [exact Ht |]. destruct Hs as [Hs | Hs]; [by left | right; by rewrite Hs].
Qed.

End Tests.

(** ** A machine for the examples *)

#[local] Existing Instances still_irqs still_delay still_kbd.
Definition still_memory (mi : vbe_mode_info_t) : LowMemory unit vbe_mode_info_t :=
  {| lm_alloc := fun e => (mi, e); lm_free := fun e => (tt, e) |}.
Definition lab5b_init : lab5b :=
  Lab5b (Vc2 [] 0 0 0 0 (ModeInfo 0 0 0 0 0 0 0 0 0 0 0)) lab3_init.

Lemma rectangle_test_draws_witness :
  exists r s' e',
    @video_test_rectangle unit (still_ports 0) _ (still_video (Drawing.screen_mode 4 3 16))
      (still_memory (Drawing.screen_mode 4 3 16)) 0 0x111 2 1 7 1 4660 [] (lab5b_init, tt) = Ok (r, (s', e')) /\
    (r = Some 1 /\ scr s' = @screen_at unit (still_video (Drawing.screen_mode 4 3 16)) (still_memory (Drawing.screen_mode 4 3 16)) tt \/
     arr_get (video_mem (scr s')) (7 * 2 + 0) = Some 52 /\ arr_get (video_mem (scr s')) (8 * 2 + 0) = Some 0).
Proof.
  set (V := still_video (Drawing.screen_mode 4 3 16)). set (L := still_memory (Drawing.screen_mode 4 3 16)).
  assert (Hv : vc2_ok (@screen_at unit V L tt)) by (unfold vc2_ok; vm_compute; intuition discriminate).
  destruct (@rectangle_test_draws unit (still_ports 0) _ V L 0 0x111 2 1 7 1 4660 [] lab5b_init tt Hv)
    as (r & s' & e' & Ht & Hs); [lia | lia |].
  exists r, s', e'. split; [exact Ht |]. destruct Hs as [Hs | [_ Hp]]; [left; exact Hs | right].
  split; [exact (Hp 7 0 ltac:(lia) ltac:(split; [lia | reflexivity])) | exact (Hp 8 0 ltac:(lia) ltac:(split; [lia | reflexivity]))].
Defined.

